(* ===== verification/_CoqProject ===== *)
-Q . S2P
Prelude.v
Bytes.v
PyDict.v
PyText.v
IpAddr.v
PyBase.v
Utf8.v
Toml.v
PyCase.v
Disk.v
Config.v
Logging.v
Sidebar.v
ChatView.v
Packet.v
Crypto.v
IdentityFiles.v
Session.v
Handshake.v
QueueManager.v
PeerState.v
RateLimiter.v
Overlay.v
Invite.v
Resolution.v
Reconnect.v
Heartbeat.v
NatTraversal.v
Storage.v
Schema.v
LogFiles.v
NodeState.v
Node.v
NodeProps.v
NodeExchange.v
Delivery.v
Transport.v
Tasks.v
TaskProps.v
NodePeers.v
NodeInv.v
Lifecycle.v
NodeMoves.v
Network.v
Interleaving.v
TaskRaces.v
NodeContacts.v
Connect.v
UiState.v
UiApp.v
UiDialogs.v
UiProps.v
UiDialogProps.v
Startup.v
