(* ===== verification/Prelude.v ===== *)
(** * AshiChat: a verification of the program

    AshiChat is a serverless peer-to-peer chat program: every node has an Ed25519 identity, finds its
    contacts' addresses over a gossip overlay, opens an encrypted session with a two-message handshake and
    exchanges numbered, acknowledged messages over UDP.  This library models the Python code under
    src/src/ashichat/ and proves what makes it correct.

    ** The parts and how they interact

    A datagram enters at [UDPTransport.datagram_received], is decoded by packet.py and handed to
    [Node.handle_packet], which applies the rate limits and calls one of ten handlers.  The handlers and the
    calls of the user interface work on the subsystems the node owns: the peer table and overlay, the session
    registry, the message queue, the peer states, heartbeats, reconnection, resolution, the SQLite metadata,
    and the message log and outbox files.  Each subsystem is one file here; the node composes them.  The user
    interface calls the node and gets its notifications through [call_later]; its dialogs also read and write the
    configuration file.  At startup configuration, log, identity and database are loaded or set up and the node comes up
    on them with its socket and three background loops.

    - [Bytes], [PyDict], [PyText], [IpAddr], [PyBase]: what the code uses of Python and its standard library
      (bytes and struct, insertion-ordered dictionaries, texts as lists of code points, int and str, UTF-8,
      the ipaddress module, Base85 and Base32 of base64).  [Utf8]: decoding, strict or with replacement.  [PyCase]:
      upper and lower case.  [Toml]: the part of tomllib that config.py needs.  [Disk]: directories, files with their
      modes, and the monad [IO] of code that works on them.
    - [Config] (config.py): sections, validation, loading, rendering, saving, updating.  [IdentityFiles] (identity.py):
      the key files.
    - [Packet] (packet.py): the header, the ten payload types, [make_packet].
    - [Crypto] (crypto.py, identity.py): the module functions over the interface [CryptoLib].
    - [Session] (session.py): sessions and the registry.  [Handshake] (handshake.py): HELLO and HELLO_ACK.
    - [QueueManager] (queue_manager.py): messages, their DATA packets, acknowledgements, retries, SYNC.
    - [PeerState] (peer_state.py), [RateLimiter] (rate_limiter.py), [Overlay] (overlay.py), [Resolution]
      (resolution.py), [Reconnect] (reconnect.py), [Heartbeat] (heartbeat.py), [NatTraversal] (nat.py),
      [Invite] (invite.py).
    - [Storage] and [LogFiles] (storage.py): the tables and every read and write of [StorageManager]; the
      message log with its rotation and the outbox, as files with their temporary files.  [Schema]: the tables as
      SQLite sees them, their migration, and how rows are read by position.
    - [NodeState], [Node] (node.py): the state of a node, the monad of its code, and its methods.  [NodeProps],
      [NodeExchange], [Delivery], [NodePeers], [NodeInv], [NodeContacts], [Connect]: theorems on one node and on two.  [NodeMoves] takes every method apart
      into elementary moves; [Network] uses them for two nodes and the network between them.
    - [Transport] (transport_udp.py, transport_tcp.py): the protocol object, its listener and the sockets.
    - [Tasks] (node.py): the methods again, as tasks that are suspended at every await of the database; [TaskProps]: run
      alone they are the methods of [Node].  [Interleaving]: the event loop, the database thread and the tasks, in
      any interleaving; [TaskRaces]: runs in which tasks disturb each other.
    - [Lifecycle] (node.py, overlay.py, reconnect.py, queue_manager.py): starting and stopping, with the tasks of the
      background loops.  [Logging] (logging_setup.py): the root logger and its rotating file.
    - [Sidebar], [ChatView], [UiDialogs] (ui/components.py), [UiApp] (ui/tui.py, [MessageInput]): the widgets, the five
      dialogs and the application; [UiState] has the application's state [App] and the monad [U] of its handlers.
      [UiProps], [UiDialogProps]: theorems on them.
    - [Startup] (main.py): loading everything, mounting the application, and the end of the program.

    Names follow the source without leading underscores; where two classes use one name, the class comes
    first ([table_update_last_seen], [db_add_peer], [node_handle_ack]).

    ** How the code is modelled

    - Fallible code returns [result]: a value or the exception class that leaves the function.  Code of the
      node is a computation [M A], a function from the node to the node and a [result]; what was changed before
      an exception stays changed.
    - What the node does to the outside (datagrams, committed database writes, callbacks, hole punching) is
      appended to the trace [n_trace] in the order in which it happens.
    - Objects the code shares live in heaps: sessions are referred to from both dictionaries of the registry
      and from the handlers, futures from the resolver and its callers, retry entries from the loop.
    - Clock readings are rational numbers ([seconds]); every binary64 value is one, and sums and differences are
      exact.  Wire integers keep their width: [struct_pack] raises outside it, and SQLite its 64 bits.
    - What is drawn at random (keys, nonces, ids) and the numbers of new tasks and futures are arguments ([draws]);
      [random.shuffle] is a function argument with the hypothesis that it permutes its list.
    - In [Node] a method is one step: the awaits of the database inside it are not scheduling points.  Waits for time or
      for the network are: [resolve_peer], the heartbeat loop, the HELLO retries and the scheduled database
      writes are split there, and the parts are steps of their own.  The task that [datagram_received] starts
      runs at once.  In [Tasks] the same methods are values of [proc], which stop at every database await (and where
      a cancelled heartbeat is awaited); the database executes requests in the order in which they were made, and a task
      goes on at any time after its request was executed.  [tasks_refine_methods] joins the two.
    - The cryptography package is the class [CryptoLib] with the laws [CryptoLaws] it documents (lengths,
      verifying what was signed, decrypting what was encrypted, commutativity of the exchange).  No law says that
      forgery is impossible; the safety theorems say which check was passed.  [ToyCrypto] is an instance, which
      shows that the laws can hold and lets examples run.
    - The PEM codec of the cryptography package is the class [PemLib] with the laws [PemLaws], case conversion of
      text, which follows Unicode tables, is [CaseMap] with [CaseLaws] for ASCII; both have instances.
    - [toml_loads] covers comments, tables of one level, bare and quoted keys, decimal integers, booleans, basic and literal
      strings; a document that uses anything else (floats, which the code would accept for its numeric settings, among
      them) ends in the exception [Unmodelled], never in a value.  On documents of that part it accepts and rejects what
      tomllib does.  Python's limit of 4300 digits for [int] is left out, and [py_int] reads
      ASCII digits only.
    - A handler of the user interface is a computation [U A]; a text on the screen of a dialog is a constructor with the
      values it shows, the two widgets keep the lines they show.  Of the toolkit the model has [call_later] as a queue,
      the exclusive refresh worker (started, then back from the database), the stack of screens, and whether a widget is
      mounted.  A line typed into a dialog is one step; fetching the public address is split off.
    - A crash during a file operation is a prefix of its elementary steps (write the temporary file, rename).
    - Recursion that is not structural takes fuel: the parser of log files, the chunks of an encoding and the
      digits of a number never need more than the length of their input (for digits, the binary length), which
      is the fuel they are given; the lemmas on them hold with that fuel, without a side condition.

    ** What the theorems show

    - Wire format: the decoder accepts exactly the encodings ([packet_deserialize_iff]), the payloads of all types
      survive the wire ([make_packet_roundtrip]), no input makes a decoder fail with anything but [PacketError]
      ([decoders_only_packet_error]), and no datagram makes the node raise ([datagram_received_total]).
    - Invites: both encodings read back, parsing fails only with [InviteError], and a pasted code makes a contact
      and starts the handshake ([invite_roundtrip], [parse_invite_spec], [invite_adds_contact]).
    - Handshake: two nodes agree on key and session ([handshake_agreement]), keys come out only for a known peer
      whose signature verified ([handshake_authenticates]).
    - Two nodes and the network: whatever the network loses, repeats or reorders and whatever the nodes do, short of a
      second session with the peer, a session shows packets that were sent, unaltered and with rising numbers, and as long
      as no SYNC makes the sender repeat packets it is a lossy first-in-first-out channel ([session_refines_channel], two
      simulations over the elementary moves).
    - Interleavings: no number of a DATA packet is used before it is stored, whatever the tasks do between each other's
      awaits ([numbers_durable], an invariant of the event loop with its queue of requests); so a node that is killed
      between any two steps and started on the database it left begins above the numbers of the last session with a peer
      ([crash_restart_safe]).  The packets that the SYNC handler repeats under old numbers are the exception: a run keeps
      their places in the trace ([sys_run]), and both theorems are about all others.  Run alone, the interleaved tasks are
      the methods of [Node] ([tasks_refine_methods], which ties the two models together).
    - Messages: end-to-end exchange ([message_exchange]), delivery as long as one of five transmissions gets through
      ([delivery_despite_losses]), acceptance in strictly increasing order
      ([replay_protection]), the whole effect of a DATA packet on the node ([handle_data_spec]), different nonces
      ([build_data_packet_nonces_unique]), the send counter stored before the packet leaves ([persist_before_send]), at
      most five transmissions, not counting what a SYNC asks for ([transmissions_bounded]), status changes along the life cycle ([status_changes]), counters continued
      after a restart ([restart_continues_counters]).
    - Invariants of every reachable state ([reachable_node_ok], [session_counters_monotone]), by induction on the
      step relation [node_step]; refinement of the registry to a bounded map, with its invariant as long as no id is used
      for two peers ([registry_refines_map]), and of
      the heartbeat loop to a count of unanswered pings ([heartbeat_refines_spec]).
    - Peers: endpoint updates verify and apply by version ([endpoint_update_verifies], [endpoint_update_applied]),
      overlay selection, rotation and eviction, requests forwarded once, rate limits as bounds over any time
      window, retry intervals, peer states.
    - Connecting: a connection attempt ends with the same session on both nodes, in the state that [message_exchange]
      starts from ([connection_established]); the HELLO retries end ([hello_retry_terminates]).
    - Lifecycle: every background loop runs exactly once between [start] and [stop] and not at all afterwards (HELLO retries
      go on), and the counters are in the database ([lifecycle_correct]); the transport carries exactly the packets of the trace
      ([node_uses_transport]); the debug log is bounded and complete up to rotation, and the console gets
      only reports of records that cannot be encoded ([debug_log_correct]).
    - Startup and files: the program comes up with the stored configuration, identity and contacts ([start_restores]), also
      from a database of an earlier version ([migration_correct]); the identity is generated once ([identity_persistent]);
      a saved configuration reads back ([config_roundtrip], [update_config_persists]), any file of the modelled part of TOML gives
      values of the right types and in range or one of four exceptions ([load_config_typed]).
    - User interface: the screen shows the state in every reachable state ([screen_shows_state], by induction over the
      elementary changes every event consists of), what the contact list shows ([refresh_list_correct]), messages reach the
      conversation and the unread counters ([message_reaches_conversation]), conversations only grow
      ([conversation_only_grows]), settings are always valid and saving them works ([settings_always_valid],
      [settings_saved]), contacts are removed and undelivered messages left only on confirmation
      ([removal_needs_confirmation], [quit_is_confirmed]).
    - Files: the log holds the last messages in order ([message_log_history]), appending and storing survive a
      crash ([append_crash_safe], [outbox_roundtrip]).
    - Behaviour that differs from what the code intends is stated as it is, for example
      [lost_ack_duplicates], [duplicate_hello_splits_session], [retry_resends_delivered], [boot_port_taken],
      [sync_redelivers_acknowledged], [sync_reuses_nonce], [unverified_hello_adds_peer],
      [set_peer_archived_outcome], [session_id_collision_displaces], [resolve_fallback_keeps_ttl],
      [long_nickname_locks_out], [refresh_forgets_unread], [damaged_identity_kept], [private_key_briefly_readable].

    ** What is not modelled

    Locks (the code runs on one event loop; the sections they guard hold no await); that a call made after [stop] fails when
    it comes to the closed database ([Lifecycle] has the connection as a flag); how a callback is registered (the
    application registers its four in [app_on_mount], and every notification is an event of the trace); cancellation of a loop in the middle of a turn (it happens between turns here), the layout, styles and key
    handling of the Textual toolkit, and TOML outside of the part named above.  Sending through a socket that is closed and
    attributes of the logging module that are no levels end in [Unmodelled].  The user interface is joined with the methods of
    [Node], not with the interleaved tasks of [Tasks].  What is left of the source are style sheets, widget layouts, menu
    texts, log lines and one-line accessors.

    This file holds what all the others share: exceptions and [result], clock readings, slices, tactics and the
    hint database [ashichat]. *)

From stdpp Require Export base tactics list gmap strings numbers sorting.
From Stdlib Require Export Strings.Byte.
From Stdlib Require QArith Lqa.

#[export] Set Default Proof Using "Type".
#[export] Set Warnings "-clear-no-such-hyp".

(** ** Python exceptions and fallible computations *)

(** The exception classes the modelled code raises or lets through. *)
Inductive exn :=
| PacketError
| StructError
| ValueError
| RuntimeError
| AssertionError
| KeyError
| IndexError
| InvalidTag
| IntegrityError
| InviteError
| UnicodeError
| TypeError
| AttributeError
| FileNotFoundError
| NotImplemented
| OtherError
(* not an exception: the input is outside of what the model follows *)
| Unmodelled.

#[export] Instance exn_eq_dec : EqDecision exn.
Proof. solve_decision. Defined.

(** A computation that returns a value or raises. *)
Inductive result (A : Type) :=
| Ok (a : A)
| Raise (e : exn).
Arguments Ok {A} a.
Arguments Raise {A} e.

#[export] Instance result_eq_dec {A} `{EqDecision A} : EqDecision (result A).
Proof. solve_decision. Defined.

#[export] Instance result_ret : MRet result := @Ok.
#[export] Instance result_bind : MBind result := fun A B k c =>
  match c with Ok a => k a | Raise e => Raise e end.
#[export] Instance result_fmap : FMap result := fun A B f c =>
  match c with Ok a => Ok (f a) | Raise e => Raise e end.

Declare Scope py_scope.
Delimit Scope py_scope with py.
Open Scope py_scope.

(** [guard_raise b e]: the statement [if not b: raise e]. *)
Definition guard_raise (b : bool) (e : exn) : result () :=
  if b then Ok () else Raise e.

(** [try: c except _: d]. *)
Definition catch {A} (c : result A) (d : A) : A :=
  match c with Ok a => a | Raise _ => d end.

Definition is_ok {A} (c : result A) : bool :=
  match c with Ok _ => true | Raise _ => false end.

Lemma Ok_inj {A} (a b : A) : Ok a = Ok b → a = b.
Proof. by injection 1. Qed.

Lemma bind_Ok_inv {A B} (c : result A) (k : A → result B) b :
  c ≫= k = Ok b → ∃ a, c = Ok a ∧ k a = Ok b.
Proof. destruct c as [a|e]; [eauto | discriminate]. Qed.

Lemma bind_Raise_inv {A B} (c : result A) (k : A → result B) e :
  c ≫= k = Raise e → c = Raise e ∨ ∃ a, c = Ok a ∧ k a = Raise e.
Proof. destruct c as [a|e']; cbn; intros H; [eauto | left; congruence]. Qed.

Lemma guard_raise_Ok b e u : guard_raise b e = Ok u → b = true.
Proof. by destruct b. Qed.

(** Monadic iteration over a list: [for x in l: body]. *)
Fixpoint mfor {S A} (body : S → A → result S) (l : list A) (s : S) : result S :=
  match l with
  | [] => Ok s
  | x :: l => s' ← body s x; mfor body l s'
  end.

(** ** Decidable tests as booleans *)

Notation "x =?b y" := (bool_decide (x = y)) (at level 70) : py_scope.
Notation "x ∈?b y" := (bool_decide (x ∈ y)) (at level 70) : py_scope.

(** ** Clock readings

    A clock reading is a rational number of seconds.  Every binary64 value is a rational, so
    each reading the program can obtain is represented exactly; sums and differences of readings
    are computed exactly (the rounding of the last bit is not modelled). *)
Abbreviation seconds := QArith_base.Q.

Definition tlt (a b : seconds) : bool := negb (QArith_base.Qle_bool b a).
Definition tle (a b : seconds) : bool := QArith_base.Qle_bool a b.
Definition tsub (a b : seconds) : seconds := QArith_base.Qminus a b.
Definition tadd (a b : seconds) : seconds := QArith_base.Qplus a b.
Definition secs (z : Z) : seconds := QArith_base.inject_Z z.

Lemma tlt_spec a b : tlt a b = true ↔ QArith_base.Qlt a b.
Proof.
  unfold tlt. rewrite negb_true_iff, <- not_true_iff_false, QArith_base.Qle_bool_iff.
  split; [apply QArith_base.Qnot_le_lt | apply QArith_base.Qlt_not_le].
Qed.

Lemma tlt_false a b : tlt a b = false ↔ QArith_base.Qle b a.
Proof. unfold tlt. by rewrite negb_false_iff, QArith_base.Qle_bool_iff. Qed.

Lemma tle_spec a b : tle a b = true ↔ QArith_base.Qle a b.
Proof. apply QArith_base.Qle_bool_iff. Qed.

Lemma tle_false a b : tle a b = false ↔ QArith_base.Qlt b a.
Proof.
  unfold tle. rewrite <- not_true_iff_false, QArith_base.Qle_bool_iff.
  split; [apply QArith_base.Qnot_le_lt | apply QArith_base.Qlt_not_le].
Qed.

(** ** Hint databases and tactics of the development *)

Create HintDb ashichat.
Create Rewrite HintDb ashichat.
#[export] Hint Resolve tlt_spec tle_spec : ashichat.

(** [invert_ok] decomposes hypotheses [c ≫= k = Ok b] into their successful steps. *)
Ltac invert_ok :=
  repeat match goal with
  | H : (mbind _ _) = Ok _ |- _ =>
      let a := fresh "a" in let H1 := fresh "H" in
      apply bind_Ok_inv in H as (a & H1 & H); cbn beta in H
  | H : mret _ = Ok _ |- _ => injection H as H
  | H : Ok _ = Ok _ |- _ => apply Ok_inj in H
  | H : Raise _ = Ok _ |- _ => discriminate H
  | H : Ok _ = Raise _ |- _ => discriminate H
  | H : guard_raise _ _ = Ok _ |- _ => apply guard_raise_Ok in H
  end.

(** [bool_hyps] turns boolean hypotheses into propositions. *)
Ltac bool_hyps :=
  repeat match goal with
  | H : _ && _ = true |- _ => apply andb_true_iff in H as [? ?]
  | H : _ || _ = false |- _ => apply orb_false_iff in H as [? ?]
  | H : negb _ = true |- _ => apply negb_true_iff in H
  | H : negb _ = false |- _ => apply negb_false_iff in H
  | H : bool_decide _ = true |- _ => apply bool_decide_eq_true_1 in H
  | H : bool_decide _ = false |- _ => apply bool_decide_eq_false_1 in H
  | H : tlt _ _ = true |- _ => apply tlt_spec in H
  | H : tlt _ _ = false |- _ => apply tlt_false in H
  | H : tle _ _ = true |- _ => apply tle_spec in H
  | H : tle _ _ = false |- _ => apply tle_false in H
  | H : (_ <? _)%Z = true |- _ => apply Z.ltb_lt in H
  | H : (_ <? _)%Z = false |- _ => apply Z.ltb_ge in H
  | H : (_ <=? _)%Z = true |- _ => apply Z.leb_le in H
  | H : (_ <=? _)%Z = false |- _ => apply Z.leb_gt in H
  | H : (_ =? _)%Z = true |- _ => apply Z.eqb_eq in H
  | H : (_ =? _)%Z = false |- _ => apply Z.eqb_neq in H
  | H : (_ <? _)%nat = true |- _ => apply Nat.ltb_lt in H
  | H : (_ <? _)%nat = false |- _ => apply Nat.ltb_ge in H
  | H : (_ <=? _)%nat = true |- _ => apply Nat.leb_le in H
  | H : (_ <=? _)%nat = false |- _ => apply Nat.leb_gt in H
  | H : (_ =? _)%nat = true |- _ => apply Nat.eqb_eq in H
  | H : (_ =? _)%nat = false |- _ => apply Nat.eqb_neq in H
  end.

(** [split_if] cases on the test of a conditional of the goal. *)
Ltac split_if :=
  match goal with
  | |- context [if ?b then _ else _] =>
      let E := fresh "E" in destruct b eqn:E; bool_hyps
  end.

(** ** Lists *)

(** Python's [l[a:b]] for [0 <= a] and [0 <= b]. *)
Definition slice {A} (a b : nat) (l : list A) : list A := take (b - a) (drop a l).

Section slice_lemmas.
Context {A : Type}.
Implicit Types l k : list A.

Lemma length_slice a b l : b ≤ length l → length (slice a b l) = b - a.
Proof. intros. unfold slice. rewrite length_take, length_drop. lia. Qed.

Lemma slice_app_here l k : slice 0 (length l) (l ++ k) = l.
Proof. unfold slice. rewrite drop_0, Nat.sub_0_r. apply take_app_length. Qed.

Lemma slice_app_here' n l k : n = length l → slice 0 n (l ++ k) = l.
Proof. intros ->. apply slice_app_here. Qed.

Lemma slice_app_skip a b l k :
  length l ≤ a → slice a b (l ++ k) = slice (a - length l) (b - length l) k.
Proof.
  intros H. unfold slice. rewrite drop_app_ge by done. f_equal. lia.
Qed.

Lemma slice_app_skip' n a b l k :
  n = length l → n ≤ a → slice a b (l ++ k) = slice (a - n) (b - n) k.
Proof. intros ->. apply slice_app_skip. Qed.

Lemma slice_mid a b p l k :
  length p = a → a + length l = b → slice a b (p ++ l ++ k) = l.
Proof.
  intros <- <-. rewrite slice_app_skip by done. rewrite Nat.sub_diag, Nat.add_comm, Nat.add_sub.
  apply slice_app_here.
Qed.

Lemma slice_full l n : n = length l → slice 0 n l = l.
Proof. intros ->. unfold slice. rewrite drop_0, Nat.sub_0_r. apply firstn_all. Qed.

Lemma slice_drop a b l : length l ≤ b → slice a b l = drop a l.
Proof. intros. unfold slice. apply take_ge. rewrite length_drop. lia. Qed.

Lemma slice_split a b c l : a ≤ b → b ≤ c → slice a b l ++ slice b c l = slice a c l.
Proof.
  intros Hab Hbc. unfold slice.
  replace (drop b l) with (drop (b - a) (drop a l)) by (rewrite drop_drop; f_equal; lia).
  rewrite take_take_drop. f_equal. lia.
Qed.
End slice_lemmas.

(** Python's [l[:n]], also for negative [n]. *)
Definition py_take {A} (n : Z) (l : list A) : list A :=
  if (0 <=? n)%Z then take (Z.to_nat n) l
  else take (Z.to_nat (Z.of_nat (length l) + n)) l.

Lemma py_take_pos {A} n (l : list A) : (0 ≤ n)%Z → py_take n l = take (Z.to_nat n) l.
Proof. intros. unfold py_take. by rewrite (proj2 (Z.leb_le _ _)). Qed.

Lemma py_take_sublist {A} n (l : list A) : ∃ k, py_take n l = take k l.
Proof. unfold py_take. destruct (0 <=? n)%Z; eauto. Qed.

(** ** Sorting

    [sorted(l, key=...)] is stable; [le] compares keys. *)
Section sorting.
Context {A : Type} (le : A → A → bool).

Fixpoint sort_insert (x : A) (l : list A) : list A :=
  match l with
  | [] => [x]
  | y :: l => if le x y then x :: y :: l else y :: sort_insert x l
  end.

Definition py_sorted (l : list A) : list A := foldr sort_insert [] l.

Lemma sort_insert_perm x l : sort_insert x l ≡ₚ x :: l.
Proof.
  induction l as [|y l IH]; cbn; [done|]. destruct (le x y); [done|].
  rewrite IH. apply Permutation_swap.
Qed.

Lemma py_sorted_perm l : py_sorted l ≡ₚ l.
Proof. induction l as [|x l IH]; cbn; [done|]. by rewrite sort_insert_perm, IH. Qed.

(** An element that is last and greatest stays last: sorting is stable. *)
Lemma sort_insert_snoc y l x : le y x = true → sort_insert y (l ++ [x]) = sort_insert y l ++ [x].
Proof.
  intros Hy. induction l as [|z l IH]; cbn; [by rewrite Hy|]. destruct (le y z); [done|]. by rewrite IH.
Qed.

Lemma py_sorted_snoc l x :
  Forall (λ y, le y x = true) l → py_sorted (l ++ [x]) = py_sorted l ++ [x].
Proof.
  induction 1 as [|y l Hy Hl IH]; cbn; [done|]. unfold py_sorted in IH. rewrite IH.
  by apply sort_insert_snoc.
Qed.

Lemma elem_of_py_sorted x l : x ∈ py_sorted l ↔ x ∈ l.
Proof. by rewrite py_sorted_perm. Qed.

Context (le_total : ∀ x y, le x y = true ∨ le y x = true).
Context (le_trans : ∀ x y z, le x y = true → le y z = true → le x z = true).

Lemma sort_insert_sorted x l :
  StronglySorted (λ a b, le a b = true) l → StronglySorted (λ a b, le a b = true) (sort_insert x l).
Proof using le_total le_trans.
  induction 1 as [|y l Hs IH Hy]; cbn; [by repeat constructor|].
  destruct (le x y) eqn:E.
  - constructor; [by constructor|]. constructor; [done|]. eapply Forall_impl; [done|]. eauto.
  - constructor; [done|]. rewrite sort_insert_perm. constructor; [|done].
    destruct (le_total x y) as [H|H]; congruence.
Qed.

Lemma py_sorted_sorted l : StronglySorted (λ a b, le a b = true) (py_sorted l).
Proof using le_total le_trans. induction l; cbn; [constructor|by apply sort_insert_sorted]. Qed.

(** The first element of the sorted list is least. *)
Lemma py_sorted_head l x r y : py_sorted l = x :: r → y ∈ l → y = x ∨ le x y = true.
Proof using le_total le_trans.
  intros Hs Hy. pose proof (py_sorted_sorted l) as H. rewrite Hs in H. inversion H; subst.
  rewrite <- (elem_of_py_sorted y l), Hs in Hy. apply elem_of_cons in Hy as [->|Hy]; [by left|].
  right. rewrite Forall_forall in H3. by apply H3.
Qed.
End sorting.

(** ** Sorted lists *)

Lemma strongly_sorted_snoc {A} (R : relation A) l x :
  StronglySorted R l → Forall (λ y, R y x) l → StronglySorted R (l ++ [x]).
Proof.
  induction 1 as [|y l Hl IH Hy]; intros Hx; cbn; [by repeat constructor|].
  apply Forall_cons in Hx as [Hyx Hx]. constructor; [by apply IH|]. by apply Forall_app_2; [|constructor].
Qed.

Lemma strongly_sorted_sublist {A} (R : relation A) l k :
  l `sublist_of` k → StronglySorted R k → StronglySorted R l.
Proof.
  induction 1 as [|x l k Hlk IH|x l k Hlk IH]; intros Hs; [done|..]; apply StronglySorted_inv in Hs as [Hs Hx].
  - constructor; [by apply IH|]. apply Forall_forall. intros y Hy. rewrite Forall_forall in Hx. apply Hx.
    by eapply elem_of_submseteq; [|apply sublist_submseteq].
  - by apply IH.
Qed.
