(* ===== verification/Bytes.v ===== *)
(** * Bytes and the struct module

    Python [bytes] values as lists of [Byte.byte], the big-endian integer formats of
    [struct.pack]/[struct.unpack] the program uses ([>B], [>H], [>I], [>Q]), and the
    lexicographic order of [bytes]. *)

From S2P Require Import Prelude.

Abbreviation byte := Byte.byte.
Abbreviation bytes := (list Byte.byte).

(** ** Single bytes *)

Definition byte_val (b : byte) : Z := Z.of_N (Byte.to_N b).

Definition byte_of_Z (z : Z) : byte :=
  match Byte.of_N (Z.to_N z) with Some b => b | None => Byte.x00 end.

(** ** Big-endian integers *)

(** The value of a big-endian byte string. *)
Fixpoint be_decode_acc (acc : Z) (bs : bytes) : Z :=
  match bs with
  | [] => acc
  | b :: bs => be_decode_acc (acc * 256 + byte_val b) bs
  end.

Definition be_decode (bs : bytes) : Z := be_decode_acc 0 bs.

(** The [w] least significant bytes of [n], most significant first. *)
Fixpoint be_encode (w : nat) (n : Z) : bytes :=
  match w with
  | O => []
  | S w => be_encode w (n / 256) ++ [byte_of_Z (n mod 256)]
  end.

(** [struct.pack(">X", n)] for an unsigned format of [w] bytes: [struct.error] when [n] does
    not fit. *)
Definition struct_pack (w : nat) (n : Z) : result bytes :=
  if (0 <=? n)%Z && (n <? 256 ^ Z.of_nat w)%Z then Ok (be_encode w n) else Raise StructError.

(** [struct.unpack(">X", bs)]: [struct.error] unless [bs] has exactly the format's size. *)
Definition struct_unpack (w : nat) (bs : bytes) : result Z :=
  if (length bs =? w)%nat then Ok (be_decode bs) else Raise StructError.

(** [bytes] comparison [a < b]. *)
Fixpoint bytes_ltb (a b : bytes) : bool :=
  match a, b with
  | _, [] => false
  | [], _ :: _ => true
  | x :: a, y :: b =>
      if (byte_val x <? byte_val y)%Z then true
      else if (byte_val y <? byte_val x)%Z then false
      else bytes_ltb a b
  end.

(** The bytes of an ASCII string literal ([b"..."]). *)
Definition bytes_of_string (s : string) : bytes := String.list_byte_of_string s.

(** ** Decidability and countability *)

#[export] Instance byte_eq_dec : EqDecision byte := Byte.byte_eq_dec.

#[export] Program Instance byte_countable : Countable byte :=
  inj_countable' Byte.to_N (λ n, default Byte.x00 (Byte.of_N n)) _.
Next Obligation. intros b. cbn beta. by rewrite Byte.of_to_N. Qed.

(** ** Lemmas on bytes *)

Lemma byte_val_range b : (0 ≤ byte_val b < 256)%Z.
Proof. unfold byte_val. pose proof (Byte.to_N_bounded b). lia. Qed.

Lemma byte_of_val b : byte_of_Z (byte_val b) = b.
Proof. unfold byte_of_Z, byte_val. by rewrite N2Z.id, Byte.of_to_N. Qed.

Lemma byte_val_of z : (0 ≤ z < 256)%Z → byte_val (byte_of_Z z) = z.
Proof.
  intros Hz. unfold byte_of_Z, byte_val.
  destruct (Byte.of_N (Z.to_N z)) as [b|] eqn:E.
  - apply Byte.to_of_N in E. rewrite E. lia.
  - apply Byte.of_N_None_iff in E. lia.
Qed.

#[export] Instance byte_val_inj : Inj (=) (=) byte_val.
Proof. intros a b H. by rewrite <- (byte_of_val a), H, byte_of_val. Qed.

(** ** Lemmas on big-endian integers *)

Lemma be_decode_acc_app acc a b :
  be_decode_acc acc (a ++ b) = be_decode_acc (be_decode_acc acc a) b.
Proof. revert acc. induction a as [|x a IH]; intros acc; [done | apply IH]. Qed.

Lemma be_decode_snoc a x : be_decode (a ++ [x]) = (be_decode a * 256 + byte_val x)%Z.
Proof. unfold be_decode. by rewrite be_decode_acc_app. Qed.

Lemma length_be_encode w n : length (be_encode w n) = w.
Proof.
  revert n. induction w as [|w IH]; intros n; cbn [be_encode]; [done|].
  rewrite length_app, IH. cbn. lia.
Qed.

Lemma pow256_S w : (256 ^ Z.of_nat (S w) = 256 * 256 ^ Z.of_nat w)%Z.
Proof. rewrite Nat2Z.inj_succ, Z.pow_succ_r; lia. Qed.

Lemma be_decode_encode w n : (0 ≤ n < 256 ^ Z.of_nat w)%Z → be_decode (be_encode w n) = n.
Proof.
  revert n. induction w as [|w IH]; intros n Hn.
  - cbn in *. lia.
  - cbn [be_encode]. rewrite be_decode_snoc, IH.
    + rewrite byte_val_of by (apply Z.mod_pos_bound; lia).
      pose proof (Z.div_mod n 256). lia.
    + rewrite pow256_S in Hn. split; [apply Z.div_pos; lia|].
      apply Z.div_lt_upper_bound; lia.
Qed.

Lemma be_encode_decode bs : be_encode (length bs) (be_decode bs) = bs.
Proof.
  induction bs as [|x bs IH] using rev_ind; [done|].
  rewrite length_app, Nat.add_comm. cbn [length Nat.add be_encode].
  rewrite be_decode_snoc. pose proof (byte_val_range x).
  rewrite Z.div_add_l, Z.div_small, Z.add_0_r by lia. rewrite IH.
  by rewrite Z.add_comm, Z.mod_add, Z.mod_small, byte_of_val by lia.
Qed.

Lemma be_decode_range bs : (0 ≤ be_decode bs < 256 ^ Z.of_nat (length bs))%Z.
Proof.
  induction bs as [|x bs IH] using rev_ind; [cbn; lia|].
  rewrite length_app, Nat.add_comm. cbn [length Nat.add].
  rewrite pow256_S, be_decode_snoc. pose proof (byte_val_range x). nia.
Qed.

(** ** Lemmas on pack and unpack *)

Lemma struct_pack_Ok w n bs :
  struct_pack w n = Ok bs ↔ (0 ≤ n < 256 ^ Z.of_nat w)%Z ∧ bs = be_encode w n.
Proof.
  unfold struct_pack. destruct ((0 <=? n)%Z && _) eqn:E.
  - bool_hyps. split; [intros [= <-]; done | intros [_ ->]; done].
  - split; [done|]. intros [Hn _]. apply andb_false_iff in E as [E|E]; bool_hyps; lia.
Qed.

Lemma struct_pack_fits w n : (0 ≤ n < 256 ^ Z.of_nat w)%Z → struct_pack w n = Ok (be_encode w n).
Proof. intros. by apply struct_pack_Ok. Qed.

Lemma struct_pack_overflow w n : (256 ^ Z.of_nat w ≤ n)%Z → struct_pack w n = Raise StructError.
Proof.
  intros. unfold struct_pack. replace (n <? _)%Z with false by (symmetry; apply Z.ltb_ge; lia).
  by rewrite andb_false_r.
Qed.

Lemma length_struct_pack w n bs : struct_pack w n = Ok bs → length bs = w.
Proof. intros [_ ->]%struct_pack_Ok. apply length_be_encode. Qed.

Lemma struct_unpack_pack w n bs : struct_pack w n = Ok bs → struct_unpack w bs = Ok n.
Proof.
  intros [Hn ->]%struct_pack_Ok. unfold struct_unpack.
  rewrite length_be_encode, Nat.eqb_refl. by rewrite be_decode_encode.
Qed.

Lemma struct_unpack_Ok w bs n :
  struct_unpack w bs = Ok n ↔ length bs = w ∧ n = be_decode bs.
Proof.
  unfold struct_unpack. destruct (Nat.eqb_spec (length bs) w) as [E|E]; naive_solver.
Qed.

Lemma struct_unpack_total w bs : length bs = w → struct_unpack w bs = Ok (be_decode bs).
Proof. intros. by apply struct_unpack_Ok. Qed.

Lemma struct_pack_unpack w bs n : struct_unpack w bs = Ok n → struct_pack w n = Ok bs.
Proof.
  intros [<- ->]%struct_unpack_Ok. apply struct_pack_Ok. split; [apply be_decode_range|].
  by rewrite be_encode_decode.
Qed.

Lemma struct_pack_inj w m n bs : struct_pack w m = Ok bs → struct_pack w n = Ok bs → m = n.
Proof.
  intros Hm%struct_unpack_pack Hn%struct_unpack_pack. congruence.
Qed.

(** ** The order of byte strings is a strict total order *)

Lemma bytes_ltb_irrefl a : bytes_ltb a a = false.
Proof. induction a as [|x a IH]; cbn; [done|]. by rewrite Z.ltb_irrefl. Qed.

Lemma bytes_ltb_asym a b : bytes_ltb a b = true → bytes_ltb b a = false.
Proof.
  revert b. induction a as [|x a IH]; intros [|y b]; cbn; try done.
  destruct (Z.ltb_spec (byte_val x) (byte_val y)), (Z.ltb_spec (byte_val y) (byte_val x));
    try done; try lia. apply IH.
Qed.

Lemma bytes_ltb_total a b : a ≠ b → bytes_ltb a b = true ∨ bytes_ltb b a = true.
Proof.
  revert b. induction a as [|x a IH]; intros [|y b] Hne; cbn; try tauto.
  destruct (Z.ltb_spec (byte_val x) (byte_val y)), (Z.ltb_spec (byte_val y) (byte_val x));
    try tauto. assert (x = y) as -> by (apply byte_val_inj; lia).
  apply IH. congruence.
Qed.

#[export] Hint Resolve byte_val_range length_be_encode : ashichat.
#[export] Hint Rewrite length_be_encode @length_app : ashichat.
