(* ===== verification/PyDict.v ===== *)
(** * Python dictionaries

    A Python [dict] keeps its keys in insertion order and the program iterates over its
    dictionaries (the first pending message that matches an acknowledgement, the order in
    which queued messages are flushed), so a dictionary is an association list whose keys are
    pairwise distinct: assignment to a present key keeps its position, assignment to a new key
    appends.  [dget_to_map] and the two lemmas after it relate the operations to stdpp's finite
    maps, which forget the order. *)

From S2P Require Import Prelude.

Abbreviation dict K V := (list (K * V)).

Section dict.
Context {K V : Type} `{EqDecision K}.
Implicit Types d : dict K V.

(** [d.get(k)] *)
Fixpoint dget d (k : K) : option V :=
  match d with
  | [] => None
  | (k', v) :: d => if decide (k = k') then Some v else dget d k
  end.

(** [k in d] *)
Definition dmem d (k : K) : bool := bool_decide (is_Some (dget d k)).

(** [d[k] = v] *)
Fixpoint dset d (k : K) (v : V) : dict K V :=
  match d with
  | [] => [(k, v)]
  | (k', v') :: d => if decide (k = k') then (k, v) :: d else (k', v') :: dset d k v
  end.

(** [d.pop(k, None)], the dictionary afterwards *)
Definition dpop d (k : K) : dict K V := filter (λ kv, kv.1 ≠ k) d.

(** [d[k] = f(d[k])] when [k] is present: the update of a mutable value held by the
    dictionary *)
Definition dupd d (k : K) (f : V → V) : dict K V :=
  match dget d k with Some v => dset d k (f v) | None => d end.

(** The keys are pairwise distinct. *)
Definition dict_wf d : Prop := NoDup d.*1.

(** The first item that satisfies a test, in iteration order. *)
Fixpoint dfind (p : K → V → bool) d : option (K * V) :=
  match d with
  | [] => None
  | (k, v) :: d => if p k v then Some (k, v) else dfind p d
  end.

(** ** Lookup *)

Lemma dget_Some_elem d k v : dget d k = Some v → (k, v) ∈ d.
Proof.
  induction d as [|[k' v'] d IH]; cbn; [done|]. case_decide; intros; simplify_eq; set_solver.
Qed.

Lemma dget_elem d k v : dict_wf d → (k, v) ∈ d → dget d k = Some v.
Proof.
  unfold dict_wf. induction d as [|[k' v'] d IH]; cbn; [set_solver|].
  rewrite NoDup_cons. intros [Hk' Hd] Hin. case_decide as Hk; subst.
  - apply elem_of_cons in Hin as [[= ->]|Hin]; [done|].
    destruct Hk'. apply list_elem_of_fmap. by exists (k', v).
  - apply elem_of_cons in Hin as [[= ]|Hin]; [done|]. by apply IH.
Qed.

Lemma dget_None d k : dget d k = None ↔ k ∉ d.*1.
Proof.
  induction d as [|[k' v'] d IH]; cbn; [set_solver|]. case_decide; subst; set_solver.
Qed.

Lemma dget_is_Some d k : is_Some (dget d k) ↔ k ∈ d.*1.
Proof.
  rewrite <- not_eq_None_Some, dget_None. destruct (decide (k ∈ d.*1)); tauto.
Qed.

Lemma dmem_spec d k : dmem d k = true ↔ is_Some (dget d k).
Proof. apply bool_decide_eq_true. Qed.

Lemma dmem_false d k : dmem d k = false ↔ dget d k = None.
Proof. unfold dmem. rewrite bool_decide_eq_false. rewrite eq_None_not_Some. done. Qed.

(** ** Assignment *)

Lemma dget_dset d k v j : dget (dset d k v) j = if decide (j = k) then Some v else dget d j.
Proof.
  induction d as [|[k' v'] d IH]; cbn; [done|].
  repeat (case_decide; subst; cbn; try done).
Qed.

Lemma dget_dset_eq d k v : dget (dset d k v) k = Some v.
Proof. rewrite dget_dset. by rewrite decide_True. Qed.

Lemma dget_dset_ne d k v j : j ≠ k → dget (dset d k v) j = dget d j.
Proof. intros. rewrite dget_dset. by rewrite decide_False. Qed.

Lemma dset_keys_present d k v : k ∈ d.*1 → (dset d k v).*1 = d.*1.
Proof.
  induction d as [|[k' v'] d IH]; cbn; [set_solver|].
  case_decide; subst; [done|]. intros Hin. cbn. f_equal. apply IH. set_solver.
Qed.

Lemma dset_absent d k v : k ∉ d.*1 → dset d k v = d ++ [(k, v)].
Proof.
  induction d as [|[k' v'] d IH]; cbn; [done|]. intros Hk.
  rewrite decide_False by set_solver. f_equal. apply IH. set_solver.
Qed.

Lemma dset_wf d k v : dict_wf d → dict_wf (dset d k v).
Proof.
  unfold dict_wf. intros Hd. destruct (decide (k ∈ d.*1)) as [Hk|Hk].
  - by rewrite dset_keys_present.
  - rewrite dset_absent, fmap_app by done. apply NoDup_app. cbn. split_and!.
    + done.
    + set_solver.
    + apply NoDup_singleton.
Qed.

Lemma dset_length d k v :
  length (dset d k v) = if dmem d k then length d else S (length d).
Proof.
  destruct (dmem d k) eqn:E.
  - apply dmem_spec, dget_is_Some in E.
    rewrite <- (length_fmap fst), dset_keys_present by done. apply length_fmap.
  - apply dmem_false, dget_None in E. rewrite dset_absent by done.
    rewrite length_app. cbn. lia.
Qed.

Lemma elem_of_dset d k v kv :
  dict_wf d → kv ∈ dset d k v ↔ kv = (k, v) ∨ (kv.1 ≠ k ∧ kv ∈ d).
Proof.
  intros Hd. destruct kv as [j w]. cbn. split.
  - intros Hin. apply dget_elem in Hin; [|by apply dset_wf].
    rewrite dget_dset in Hin. case_decide; simplify_eq; [by left|].
    right. split; [done|]. by apply dget_Some_elem.
  - intros [[= -> ->]|[Hne Hin]]; apply dget_Some_elem.
    + apply dget_dset_eq.
    + rewrite dget_dset_ne by done. by apply dget_elem.
Qed.

(** ** Removal *)

Lemma dpop_keys d k : (dpop d k).*1 = filter (λ j, j ≠ k) d.*1.
Proof.
  unfold dpop. induction d as [|[k' v'] d IH]; [done|].
  rewrite fmap_cons, !filter_cons. cbn [fst]. case_decide; [|done].
  rewrite fmap_cons. by f_equal.
Qed.

Lemma dpop_wf d k : dict_wf d → dict_wf (dpop d k).
Proof. unfold dict_wf. rewrite dpop_keys. apply NoDup_filter. Qed.

Lemma dget_dpop d k j : dget (dpop d k) j = if decide (j = k) then None else dget d j.
Proof.
  unfold dpop. induction d as [|[k' v'] d IH]; [by case_decide|].
  rewrite filter_cons. cbn [fst dget]. destruct (decide (k' = k)) as [->|Hk].
  - rewrite decide_False by tauto. rewrite IH. repeat case_decide; congruence.
  - rewrite decide_True by done. cbn [dget]. rewrite IH. repeat case_decide; congruence.
Qed.

Lemma dget_dpop_eq d k : dget (dpop d k) k = None.
Proof. rewrite dget_dpop. by rewrite decide_True. Qed.

Lemma dget_dpop_ne d k j : j ≠ k → dget (dpop d k) j = dget d j.
Proof. intros. rewrite dget_dpop. by rewrite decide_False. Qed.

Lemma dget_snoc d k v : dget d k = None → dget (d ++ [(k, v)]) k = Some v.
Proof.
  induction d as [|[k' v'] d IH]; cbn; [by rewrite decide_True|]. by case_decide.
Qed.

Lemma dpop_length_le d k : length (dpop d k) ≤ length d.
Proof. apply length_filter. Qed.

Lemma dpop_absent d k : k ∉ d.*1 → dpop d k = d.
Proof.
  unfold dpop. induction d as [|[k' v'] d IH]; [done|]. rewrite fmap_cons. intros Hk.
  rewrite filter_cons_True by (cbn; set_solver). f_equal. apply IH. set_solver.
Qed.

Lemma dpop_length d k : dict_wf d → k ∈ d.*1 → S (length (dpop d k)) = length d.
Proof.
  unfold dict_wf. induction d as [|[k' v'] d IH]; [cbn; set_solver|].
  rewrite fmap_cons, NoDup_cons. cbn [fst]. intros [Hk' Hd] Hin.
  destruct (decide (k' = k)) as [->|Hne].
  - unfold dpop. rewrite filter_cons_False by (cbn; tauto).
    fold (dpop d k). by rewrite dpop_absent.
  - unfold dpop. rewrite filter_cons_True by done. cbn. f_equal. apply IH; set_solver.
Qed.

Lemma elem_of_dpop d k kv : kv ∈ dpop d k ↔ kv.1 ≠ k ∧ kv ∈ d.
Proof. unfold dpop. by rewrite list_elem_of_filter. Qed.

(** ** In-place update *)

Lemma dget_dupd d k f j :
  dget (dupd d k f) j = if decide (j = k) then f <$> dget d j else dget d j.
Proof.
  unfold dupd. destruct (dget d k) as [v|] eqn:E.
  - rewrite dget_dset. case_decide; subst; [by rewrite E | done].
  - case_decide; subst; [by rewrite E | done].
Qed.

Lemma dupd_keys d k f : (dupd d k f).*1 = d.*1.
Proof.
  unfold dupd. destruct (dget d k) eqn:E; [|done]. apply dset_keys_present, dget_is_Some. eauto.
Qed.

Lemma dupd_wf d k f : dict_wf d → dict_wf (dupd d k f).
Proof. unfold dict_wf. by rewrite dupd_keys. Qed.

Lemma dupd_length d k f : length (dupd d k f) = length d.
Proof. rewrite <- (length_fmap fst), dupd_keys. apply length_fmap. Qed.

(** ** Search in iteration order *)

Lemma dfind_Some p d k v : dfind p d = Some (k, v) → (k, v) ∈ d ∧ p k v = true.
Proof.
  induction d as [|[k' v'] d IH]; cbn; [done|]. destruct (p k' v') eqn:E.
  - intros [= -> ->]. set_solver.
  - intros H. apply IH in H. set_solver.
Qed.

Lemma dfind_None p d : dfind p d = None ↔ ∀ k v, (k, v) ∈ d → p k v = false.
Proof.
  induction d as [|[k' v'] d IH]; cbn; [set_solver|]. destruct (p k' v') eqn:E.
  - split; [done|]. intros H. specialize (H k' v'). rewrite H in E; set_solver.
  - rewrite IH. split; [|set_solver]. intros H k v [Hin|Hin]%elem_of_cons; [congruence|eauto].
Qed.

(** ** Finite maps *)

Lemma dget_to_map `{Countable K} d k : (list_to_map d : gmap K V) !! k = dget d k.
Proof.
  induction d as [|[k' v'] d IH]; cbn; [apply lookup_empty|].
  rewrite lookup_insert. repeat case_decide; subst; by try rewrite IH.
Qed.

Lemma dset_to_map `{Countable K} d k v :
  (list_to_map (dset d k v) : gmap K V) = <[k := v]> (list_to_map d).
Proof.
  apply map_eq. intros j. rewrite dget_to_map, dget_dset, lookup_insert, dget_to_map.
  repeat case_decide; congruence.
Qed.

Lemma dpop_to_map `{Countable K} d k :
  (list_to_map (dpop d k) : gmap K V) = delete k (list_to_map d).
Proof.
  apply map_eq. intros j. rewrite dget_to_map, dget_dpop, lookup_delete, dget_to_map.
  repeat case_decide; congruence.
Qed.
End dict.

#[export] Hint Resolve dset_wf dpop_wf dupd_wf : ashichat.
