(* ===== verification/PyText.v ===== *)
(** * Python strings

    A Python [str] is a list of code points.  The string methods and conversions the program
    uses: [split], [rsplit(c, 1)], [join], [strip], decimal and hexadecimal rendering of
    non-negative integers, [int()] on ASCII input, and the UTF-8 encoding. *)

From S2P Require Import Prelude Bytes.

Abbreviation pystr := (list Z).

(** A string literal. *)
Definition str (s : string) : pystr :=
  (λ c, Z.of_nat (Ascii.nat_of_ascii c)) <$> String.list_ascii_of_string s.

(** ** Splitting and joining *)

(** [s.split(c)] for a one-character separator. *)
Fixpoint str_split (c : Z) (s : pystr) : list pystr :=
  match s with
  | [] => [[]]
  | x :: s =>
      if (x =? c)%Z then [] :: str_split c s
      else match str_split c s with [] => [[x]] | w :: ws => (x :: w) :: ws end
  end.

(** [sep.join(ws)] *)
Fixpoint str_join (sep : pystr) (ws : list pystr) : pystr :=
  match ws with
  | [] => []
  | [w] => w
  | w :: ws => w ++ sep ++ str_join sep ws
  end.

(** [s.rsplit(c, 1)] unpacked into two names: [ValueError] when [c] does not occur. *)
Fixpoint str_rsplit1 (c : Z) (s : pystr) : result (pystr * pystr) :=
  match s with
  | [] => Raise ValueError
  | x :: s' =>
      match str_rsplit1 c s' with
      | Ok (a, b) => Ok (x :: a, b)
      | Raise e => if (x =? c)%Z then Ok ([], s') else Raise e
      end
  end.

(** [s.partition(c)[0]] and whether the separator was found, with the rest. *)
Fixpoint str_partition (c : Z) (s : pystr) : pystr * option pystr :=
  match s with
  | [] => ([], None)
  | x :: s' => if (x =? c)%Z then ([], Some s')
               else let '(a, r) := str_partition c s' in (x :: a, r)
  end.

(** [c.isspace()], what [str.strip()] removes: the ASCII whitespace and that of Unicode. *)
Definition is_space (c : Z) : bool :=
  ((9 <=? c) && (c <=? 13) || (28 <=? c) && (c <=? 32)
   || existsb (Z.eqb c) [0x85; 0xa0; 0x1680; 0x2028; 0x2029; 0x202f; 0x205f; 0x3000]
   || (0x2000 <=? c) && (c <=? 0x200a))%Z.

Fixpoint str_lstrip (s : pystr) : pystr :=
  match s with [] => [] | c :: s' => if is_space c then str_lstrip s' else s end.

(** [s.strip()] *)
Definition str_strip (s : pystr) : pystr := reverse (str_lstrip (reverse (str_lstrip s))).

(** [s.startswith(p)] *)
Fixpoint str_startswith (p s : pystr) : bool :=
  match p, s with
  | [], _ => true
  | _, [] => false
  | x :: p, y :: s => (x =? y)%Z && str_startswith p s
  end.

(** ** Digits *)

(** The digits of [n] in base [b], most significant first. *)
Fixpoint digits (fuel : nat) (b n : Z) (acc : list Z) : list Z :=
  match fuel with
  | O => n :: acc
  | S f => if (n <? b)%Z then n :: acc else digits f b (n / b) (n mod b :: acc)%Z
  end.

(** [Z.log2 n] divisions by a base of at least two reach a single digit. *)
Definition to_digits (b n : Z) : list Z := digits (Z.to_nat (Z.log2 n)) b n [].

Definition of_digits (b : Z) (ds : list Z) : Z := foldl (λ a d, a * b + d)%Z 0%Z ds.

Definition digit_char (d : Z) : Z := if (d <? 10)%Z then (48 + d)%Z else (87 + d)%Z.

(** The value of an ASCII digit or hexadecimal digit. *)
Definition char_digit (c : Z) : option Z :=
  if ((48 <=? c) && (c <=? 57))%Z then Some (c - 48)%Z
  else if ((97 <=? c) && (c <=? 102))%Z then Some (c - 87)%Z
  else if ((65 <=? c) && (c <=? 70))%Z then Some (c - 55)%Z
  else None.

(** [str(n)] for an integer. *)
Definition str_of_Z (n : Z) : pystr :=
  if (n <? 0)%Z then 45%Z :: (digit_char <$> to_digits 10 (- n))
  else digit_char <$> to_digits 10 n.

(** ['%x' % n] for [0 <= n]. *)
Definition hex_of_Z (n : Z) : pystr := digit_char <$> to_digits 16 n.

(** The digits of a string in base [b], [None] when a character is not such a digit. *)
Definition parse_digits (b : Z) (s : pystr) : option (list Z) :=
  mapM (λ c, d ← char_digit c; if (d <? b)%Z then Some d else None) s.

(** [int(s, b)] on a string already known to be made of digits. *)
Definition int_base (b : Z) (s : pystr) : result Z :=
  match s with
  | [] => Raise ValueError
  | _ => match parse_digits b s with Some ds => Ok (of_digits b ds) | None => Raise ValueError end
  end.

(** Underscores between digits, as [int()] allows them: never first, last or doubled. *)
Fixpoint drop_underscores (after_digit : bool) (s : pystr) : option pystr :=
  match s with
  | [] => if after_digit then Some [] else None
  | c :: s => if (c =? 95)%Z
              then if after_digit then drop_underscores false s else None
              else (c ::.) <$> drop_underscores true s
  end.

(** [int(s)] on ASCII text: surrounding blanks, an optional sign, digits. *)
Definition py_int (s : pystr) : result Z :=
  let unsigned t :=
    match drop_underscores false t with
    | Some ds => int_base 10 ds
    | None => Raise ValueError
    end in
  match str_strip s with
  | c :: t => if (c =? 45)%Z then Z.opp <$> unsigned t
              else if (c =? 43)%Z then unsigned t
              else unsigned (c :: t)
  | [] => Raise ValueError
  end.

(** ** UTF-8 *)

(** [chr(c).encode("utf-8")]: surrogates cannot be encoded. *)
Definition utf8_char (c : Z) : result bytes :=
  if (c <? 128)%Z then Ok [byte_of_Z c]
  else if (c <? 2048)%Z then
    Ok [byte_of_Z (192 + c / 64); byte_of_Z (128 + c mod 64)]
  else if ((55296 <=? c) && (c <=? 57343))%Z then Raise UnicodeError
  else if (c <? 65536)%Z then
    Ok [byte_of_Z (224 + c / 4096); byte_of_Z (128 + (c / 64) mod 64); byte_of_Z (128 + c mod 64)]
  else
    Ok [byte_of_Z (240 + c / 262144); byte_of_Z (128 + (c / 4096) mod 64);
        byte_of_Z (128 + (c / 64) mod 64); byte_of_Z (128 + c mod 64)].

(** [s.encode("utf-8")] *)
Fixpoint utf8_encode (s : pystr) : result bytes :=
  match s with
  | [] => Ok []
  | c :: s => b ← utf8_char c; r ← utf8_encode s; Ok (b ++ r)
  end.

(** Lower-case hexadecimal text of a byte string, [bs.hex()]. *)
Definition bytes_hex (bs : bytes) : pystr :=
  b ← bs; [digit_char (byte_val b / 16); digit_char (byte_val b mod 16)].

(** ** Lemmas: split and join *)

Lemma str_split_nonempty c s : str_split c s ≠ [].
Proof.
  destruct s as [|x s]; cbn; [done|]. destruct (x =? c)%Z; [done|]. by destruct (str_split c s).
Qed.

Lemma str_split_fresh c w : c ∉ w → str_split c w = [w].
Proof.
  induction w as [|x w IH]; cbn; [done|]. intros Hc.
  rewrite (proj2 (Z.eqb_neq x c)) by set_solver. rewrite IH by set_solver. done.
Qed.

Lemma str_split_app c w s : c ∉ w → str_split c (w ++ c :: s) = w :: str_split c s.
Proof.
  induction w as [|x w IH]; intros Hc; cbn.
  - by rewrite Z.eqb_refl.
  - rewrite (proj2 (Z.eqb_neq x c)) by set_solver. rewrite IH by set_solver. done.
Qed.

Lemma str_split_join c ws :
  ws ≠ [] → Forall (λ w, c ∉ w) ws → str_split c (str_join [c] ws) = ws.
Proof.
  induction ws as [|w ws IH]; [done|]. intros _ [Hw Hws]%Forall_cons.
  destruct ws as [|w' ws]; [by apply str_split_fresh|].
  change (str_join [c] (w :: w' :: ws)) with (w ++ c :: str_join [c] (w' :: ws)).
  rewrite str_split_app by done. f_equal. by apply IH.
Qed.

Lemma str_rsplit1_fresh c s : c ∉ s → str_rsplit1 c s = Raise ValueError.
Proof.
  induction s as [|x s IH]; cbn; [done|]. intros Hc. rewrite IH by set_solver.
  by rewrite (proj2 (Z.eqb_neq x c)) by set_solver.
Qed.

Lemma str_rsplit1_app c a b : c ∉ b → str_rsplit1 c (a ++ c :: b) = Ok (a, b).
Proof.
  intros Hb. induction a as [|x a IH]; cbn.
  - by rewrite str_rsplit1_fresh, Z.eqb_refl.
  - by rewrite IH.
Qed.

(** ** Lemmas: digits *)

Lemma of_digits_snoc b ds d : of_digits b (ds ++ [d]) = (of_digits b ds * b + d)%Z.
Proof. unfold of_digits. by rewrite foldl_app. Qed.

Lemma digits_acc fuel b n acc : digits fuel b n acc = digits fuel b n [] ++ acc.
Proof.
  revert n acc. induction fuel as [|f IH]; intros n acc; cbn; [done|].
  destruct (n <? b)%Z; [done|]. rewrite IH, (IH _ [_]), <- app_assoc. done.
Qed.

Lemma digits_spec fuel b n :
  (2 ≤ b)%Z → (0 ≤ n < b * 2 ^ Z.of_nat fuel)%Z →
  of_digits b (digits fuel b n []) = n ∧ Forall (λ d, 0 ≤ d < b)%Z (digits fuel b n []).
Proof.
  intros Hb. revert n. induction fuel as [|f IH]; intros n Hn.
  - cbn in *. rewrite Forall_singleton. lia.
  - cbn [digits]. destruct (Z.ltb_spec n b) as [Hlt|Hge].
    + cbn. rewrite Forall_singleton. lia.
    + rewrite digits_acc, of_digits_snoc, Forall_app, Forall_singleton.
      rewrite Nat2Z.inj_succ, Z.pow_succ_r in Hn by lia.
      destruct (IH (n / b)%Z) as [-> HF].
      { split; [apply Z.div_pos; lia|]. apply Z.div_lt_upper_bound; nia. }
      pose proof (Z.mod_pos_bound n b). pose proof (Z.div_mod n b).
      split; [nia|]. split; [done|lia].
Qed.

Lemma to_digits_spec b n :
  (2 ≤ b)%Z → (0 ≤ n)%Z →
  of_digits b (to_digits b n) = n ∧ Forall (λ d, 0 ≤ d < b)%Z (to_digits b n).
Proof.
  intros Hb Hn. apply digits_spec; [done|]. split; [done|].
  destruct (decide (n = 0)%Z) as [->|]; [cbn; lia|].
  rewrite Z2Nat.id by apply Z.log2_nonneg.
  pose proof (Z.log2_spec n). rewrite Z.pow_succ_r in *; [nia | apply Z.log2_nonneg].
Qed.

Lemma digits_nonempty fuel b n acc : digits fuel b n acc ≠ [].
Proof.
  revert n acc. induction fuel as [|f IH]; intros n acc; cbn; [done|]. by destruct (n <? b)%Z.
Qed.

Lemma char_digit_char d : (0 ≤ d < 16)%Z → char_digit (digit_char d) = Some d.
Proof.
  intros Hd. unfold digit_char, char_digit.
  assert (d ∈ seqZ 0 16) as Hin by (apply elem_of_seqZ; lia).
  repeat (apply elem_of_cons in Hin as [->|Hin]; [done|]). by apply not_elem_of_nil in Hin.
Qed.

Lemma parse_digit_chars b ds :
  (b ≤ 16)%Z → Forall (λ d, 0 ≤ d < b)%Z ds → parse_digits b (digit_char <$> ds) = Some ds.
Proof.
  intros Hb. unfold parse_digits. induction 1 as [|d ds Hd HF IH]; [done|].
  cbn. rewrite char_digit_char by lia. cbn.
  rewrite (proj2 (Z.ltb_lt d b)) by lia. cbn. by rewrite IH.
Qed.

Lemma int_base_render b n :
  (2 ≤ b ≤ 16)%Z → (0 ≤ n)%Z → int_base b (digit_char <$> to_digits b n) = Ok n.
Proof.
  intros Hb Hn. destruct (to_digits_spec b n) as [Hof HF]; [lia..|].
  unfold int_base. rewrite parse_digit_chars by (done || lia). rewrite Hof.
  destruct (to_digits b n) eqn:E; [|done]. by apply digits_nonempty in E.
Qed.

Lemma digit_char_range d : (0 ≤ d < 16)%Z →
  (48 ≤ digit_char d ≤ 57 ∨ 97 ≤ digit_char d ≤ 102)%Z.
Proof. intros. unfold digit_char. destruct (Z.ltb_spec d 10); lia. Qed.

Lemma render_chars b n c :
  (2 ≤ b ≤ 16)%Z → (0 ≤ n)%Z → c ∈ (digit_char <$> to_digits b n) →
  (48 ≤ c ≤ 57 ∨ 97 ≤ c ≤ 102)%Z.
Proof.
  intros Hb Hn (d & -> & Hd)%list_elem_of_fmap.
  destruct (to_digits_spec b n) as [_ HF]; [lia..|].
  rewrite Forall_forall in HF. apply digit_char_range. specialize (HF d Hd). lia.
Qed.

Lemma dec_chars n c : (0 ≤ n)%Z → c ∈ (digit_char <$> to_digits 10 n) → (48 ≤ c ≤ 57)%Z.
Proof.
  intros Hn (d & -> & Hd)%list_elem_of_fmap.
  destruct (to_digits_spec 10 n) as [_ HF]; [lia..|].
  rewrite Forall_forall in HF. specialize (HF d Hd). unfold digit_char.
  rewrite (proj2 (Z.ltb_lt d 10)); lia.
Qed.

(** ** Lemmas: [int] and [str] *)

Lemma is_space_printable c : (33 ≤ c < 127)%Z → is_space c = false.
Proof.
  intros H. assert (forallb (λ i, negb (is_space i)) (seqZ 33 94) = true) as Hall by reflexivity.
  rewrite forallb_forall in Hall. apply negb_true_iff, Hall, list_elem_of_In, elem_of_seqZ. lia.
Qed.

Lemma str_lstrip_nospace c s : is_space c = false → str_lstrip (c :: s) = c :: s.
Proof. intros H. cbn. by rewrite H. Qed.

Lemma str_strip_nospace s : (∀ c, c ∈ s → is_space c = false) → str_strip s = s.
Proof.
  intros Hs. unfold str_strip.
  assert (∀ t, (∀ c, c ∈ t → is_space c = false) → str_lstrip t = t) as H.
  { intros [|c t] Ht; [done|]. apply str_lstrip_nospace, Ht. set_solver. }
  rewrite (H s), (H (reverse s)), reverse_involutive; try done.
  intros c Hc. apply Hs. by apply elem_of_reverse.
Qed.

Lemma str_lstrip_idem s : str_lstrip (str_lstrip s) = str_lstrip s.
Proof. induction s as [|c s IH]; cbn; [done|]. destruct (is_space c) eqn:E; [done|]. cbn. by rewrite E. Qed.

Lemma str_lstrip_suffix s : str_lstrip s `suffix_of` s.
Proof.
  induction s as [|c s IH]; cbn; [done|]. destruct (is_space c); [by apply suffix_cons_r|done].
Qed.

Lemma str_strip_idem s : str_strip (str_strip s) = str_strip s.
Proof.
  assert (str_lstrip (str_strip s) = str_strip s) as Hl.
  { unfold str_strip. destruct (str_lstrip_suffix (reverse (str_lstrip s))) as [k Hk].
    apply (f_equal reverse) in Hk. rewrite reverse_involutive, reverse_app in Hk.
    destruct (reverse (str_lstrip (reverse (str_lstrip s)))) as [|c r] eqn:Er; [done|]. cbn.
    destruct (is_space c) eqn:E; [|done]. pose proof (str_lstrip_idem s) as Hi. rewrite Hk in Hi. cbn in Hi. rewrite E in Hi.
    exfalso. apply (f_equal length) in Hi. cbn in Hi. destruct (str_lstrip_suffix (r ++ reverse k)) as [k' Hk'].
    apply (f_equal length) in Hk'. rewrite !length_app in Hk'. rewrite length_app in Hi. lia. }
  unfold str_strip at 1. rewrite Hl. unfold str_strip. by rewrite reverse_involutive, str_lstrip_idem.
Qed.

(** Surrounding whitespace is removed. *)
Lemma str_strip_around a s b :
  (∀ c, c ∈ a ++ b → is_space c = true) → (∀ c, c ∈ s → is_space c = false) → s ≠ [] →
  str_strip (a ++ s ++ b) = s.
Proof.
  intros Hab Hs Hne.
  assert (∀ l k, (∀ c, c ∈ l → is_space c = true) → str_lstrip (l ++ k) = str_lstrip k) as Hdrop.
  { intros l k. induction l as [|c l IH]; intros Hl; [done|]. cbn. rewrite Hl by set_solver.
    apply IH. set_solver. }
  assert (∀ l k, (∀ c, c ∈ l → is_space c = false) → l ≠ [] → str_lstrip (l ++ k) = l ++ k) as Hkeep.
  { intros [|c l] k Hl ?; [done|]. cbn. by rewrite Hl by set_solver. }
  unfold str_strip. rewrite Hdrop by set_solver. rewrite Hkeep by done.
  rewrite reverse_app, Hdrop by (intros c; rewrite elem_of_reverse; set_solver).
  rewrite <- (app_nil_r (reverse s)), Hkeep; [by rewrite app_nil_r, reverse_involutive| |].
  - intros c. rewrite elem_of_reverse. apply Hs.
  - intros E. apply Hne. by rewrite <- (reverse_involutive s), E.
Qed.

Lemma str_startswith_app p s : str_startswith p (p ++ s) = true.
Proof. induction p as [|x p IH]; [done|]. cbn. by rewrite Z.eqb_refl. Qed.

Lemma drop_underscores_digits b s :
  (∀ c, c ∈ s → c ≠ 95%Z) → (b = true ∨ s ≠ []) → drop_underscores b s = Some s.
Proof.
  revert b. induction s as [|c s IH]; intros b Hs Hb; cbn; [naive_solver|].
  rewrite (proj2 (Z.eqb_neq c 95)) by (apply Hs; set_solver).
  rewrite IH; [done | set_solver | by left].
Qed.

Lemma py_int_str_of_Z n : (0 ≤ n)%Z → py_int (str_of_Z n) = Ok n.
Proof.
  intros Hn. unfold str_of_Z. rewrite (proj2 (Z.ltb_ge n 0)) by done. unfold py_int.
  pose proof (λ c, dec_chars n c Hn) as Hch. pose proof (int_base_render 10 n) as Hr.
  rewrite str_strip_nospace.
  2:{ intros c Hc%Hch. apply is_space_printable. lia. }
  destruct (digit_char <$> to_digits 10 n) as [|c s] eqn:E.
  { specialize (Hr ltac:(lia) Hn). done. }
  pose proof (Hch c ltac:(set_solver)).
  rewrite (proj2 (Z.eqb_neq c 45)), (proj2 (Z.eqb_neq c 43)) by lia.
  rewrite drop_underscores_digits; [apply Hr; lia| |by right].
  intros c' Hc'%Hch. lia.
Qed.

(** ** Lemmas: UTF-8 of ASCII text *)

Lemma utf8_encode_ascii s :
  (∀ c, c ∈ s → 0 ≤ c < 128)%Z → utf8_encode s = Ok (byte_of_Z <$> s).
Proof.
  induction s as [|c s IH]; intros Hs; cbn; [done|]. unfold utf8_char.
  rewrite (proj2 (Z.ltb_lt c 128)) by (apply Hs; set_solver). cbn.
  rewrite IH by set_solver. done.
Qed.
