(* ===== verification/IpAddr.v ===== *)
(** * The ipaddress module

    [packet.py], [invite.py] and [node.py] turn endpoint text into packed addresses and back with
    Python's [ipaddress] module.  This file models [ip_address(text)], [IPv4Address(packed)],
    [IPv6Address(packed)], [.packed] and [str()] of both (the rendering of CPython 3.11 and
    3.12), and proves that reading back a rendered IPv4 address gives the same address. *)

From S2P Require Import Prelude Bytes PyText.

(** ** Addresses *)

(** An address with its packed form, four or sixteen bytes. *)
Inductive ip :=
| IPv4 (packed : bytes)
| IPv6 (packed : bytes).

#[export] Instance ip_eq_dec : EqDecision ip.
Proof. solve_decision. Defined.

Definition ip_wf (a : ip) : Prop :=
  match a with IPv4 p => length p = 4 | IPv6 p => length p = 16 end.

Definition ip_packed (a : ip) : bytes := match a with IPv4 p | IPv6 p => p end.

(** ** Parsing *)

(** [IPv4Address._parse_octet] *)
Definition parse_octet (s : pystr) : result byte :=
  if forallb (λ c, (48 <=? c) && (c <=? 57))%Z s && negb (length s =? 0)%nat
     && (length s <=? 3)%nat && ((s =?b [48%Z]) || negb (head s =?b Some 48%Z))
  then n ← int_base 10 s; if (255 <? n)%Z then Raise ValueError else Ok (byte_of_Z n)
  else Raise ValueError.

(** [IPv4Address(text)] *)
Definition parse_ipv4 (s : pystr) : result bytes :=
  match str_split 46 s with
  | [a; b; c; d] =>
      a ← parse_octet a; b ← parse_octet b; c ← parse_octet c; d ← parse_octet d;
      Ok [a; b; c; d]
  | _ => Raise ValueError
  end.

(** [IPv6Address._parse_hextet] *)
Definition parse_hextet (s : pystr) : result Z :=
  if (length s <=? 4)%nat then int_base 16 s else Raise ValueError.

(** The index, from [i], of the single empty part among the inner parts: the ["::"]. *)
Fixpoint find_skip (i : nat) (inner : list pystr) : result (option nat) :=
  match inner with
  | [] => Ok None
  | p :: rest =>
      r ← find_skip (S i) rest;
      match p, r with
      | [], None => Ok (Some i)
      | [], Some _ => Raise ValueError
      | _, _ => Ok r
      end
  end.

(** [ip_int] from the hextets, each shifted in as sixteen bits. *)
Definition hextets_bytes (hs : list Z) : bytes := h ← hs; be_encode 2 h.

Fixpoint mapM_result {A B} (f : A → result B) (l : list A) : result (list B) :=
  match l with
  | [] => Ok []
  | x :: l => y ← f x; ys ← mapM_result f l; Ok (y :: ys)
  end.

(** [not parts[i]] for a part that exists. *)
Definition part_empty (p : option pystr) : bool :=
  match p with Some [] => true | _ => false end.

(** [IPv6Address._ip_int_from_string] *)
Definition parse_ipv6_parts (parts : list pystr) : result bytes :=
  let n := length parts in
  if (9 <? n)%nat then Raise ValueError else
  skip ← find_skip 1 (slice 1 (n - 1) parts);
  match skip with
  | Some k =>
      let lead := part_empty (head parts) in
      let trail := part_empty (last parts) in
      let hi := if lead then (k - 1)%nat else k in
      let lo := if trail then (n - k - 2)%nat else (n - k - 1)%nat in
      if lead && negb (hi =? 0)%nat then Raise ValueError else
      if trail && negb (lo =? 0)%nat then Raise ValueError else
      if (8 <=? hi + lo)%nat then Raise ValueError else
      his ← mapM_result parse_hextet (take hi parts);
      los ← mapM_result parse_hextet (drop (n - lo) parts);
      Ok (hextets_bytes (his ++ replicate (8 - (hi + lo)) 0%Z ++ los))
  | None =>
      if negb (n =? 8)%nat then Raise ValueError else
      hs ← mapM_result parse_hextet parts;
      Ok (hextets_bytes hs)
  end.

Definition parse_ipv6_text (s : pystr) : result bytes :=
  let parts := str_split 58 s in
  if (length parts <? 3)%nat then Raise ValueError else
  match last parts with
  | Some l =>
      if existsb (Z.eqb 46) l then
        v4 ← parse_ipv4 l;
        parse_ipv6_parts (take (length parts - 1) parts
                          ++ [hex_of_Z (be_decode (slice 0 2 v4));
                              hex_of_Z (be_decode (slice 2 4 v4))])
      else parse_ipv6_parts parts
  | None => Raise ValueError
  end.

(** [IPv6Address(text)]: an optional scope id after ["%"] is dropped from the packed form. *)
Definition parse_ipv6 (s : pystr) : result bytes :=
  let '(addr, scope) := str_partition 37 s in
  match scope with
  | None => parse_ipv6_text addr
  | Some sc => if (sc =?b []) || existsb (Z.eqb 37) sc then Raise ValueError
               else parse_ipv6_text addr
  end.

(** [ipaddress.ip_address(text)]: IPv4 first, then IPv6, else [ValueError]. *)
Definition ip_address (s : pystr) : result ip :=
  if existsb (Z.eqb 47) s then Raise ValueError else
  match parse_ipv4 s with
  | Ok p => Ok (IPv4 p)
  | Raise _ => match parse_ipv6 s with
               | Ok p => Ok (IPv6 p)
               | Raise _ => Raise ValueError
               end
  end.

(** ** Rendering *)

(** [str(IPv4Address(packed))] *)
Definition ipv4_str (p : bytes) : pystr := str_join [46%Z] ((λ b, str_of_Z (byte_val b)) <$> p).

(** One step of the scan of [_compress_hextets]: the best run (start, length) and the current
    run. *)
Record run_scan := RunScan {
  best_start : nat; best_len : nat; cur_start : option nat; cur_len : nat }.

Definition scan_hextet (st : run_scan) (ih : nat * Z) : run_scan :=
  let '(i, h) := ih in
  if (h =? 0)%Z then
    let len := S (cur_len st) in
    let start := match cur_start st with None => i | Some s => s end in
    if (best_len st <? len)%nat
    then RunScan start len (Some start) len
    else RunScan (best_start st) (best_len st) (Some start) len
  else RunScan (best_start st) (best_len st) None 0.

Definition zero_run (hs : list Z) : nat * nat :=
  let st := foldl scan_hextet (RunScan 0 0 None 0) (imap pair hs) in
  (best_start st, best_len st).

(** [_compress_hextets] on the hexadecimal texts of [hs] *)
Definition compress_hextets (hs : list Z) : list pystr :=
  let ts := hex_of_Z <$> hs in
  let '(s, l) := zero_run hs in
  if (1 <? l)%nat then
    let ts := if (s + l =? length ts)%nat then ts ++ [[]] else ts in
    let ts := take s ts ++ [[]] ++ drop (s + l) ts in
    if (s =? 0)%nat then [] :: ts else ts
  else ts.

(** The eight hextets of a packed IPv6 address. *)
Fixpoint hextets (p : bytes) : list Z :=
  match p with
  | a :: b :: p => be_decode [a; b] :: hextets p
  | _ => []
  end.

(** [str(IPv6Address(packed))] *)
Definition ipv6_str (p : bytes) : pystr := str_join [58%Z] (compress_hextets (hextets p)).

(** [str(addr)] *)
Definition ip_str (a : ip) : pystr :=
  match a with IPv4 p => ipv4_str p | IPv6 p => ipv6_str p end.

(** ** Examples *)

Example ip_str_1 :
  ip_str (IPv6 (be_encode 16 1)) = str "::1"
  ∧ ip_str (IPv6 (be_encode 16 0)) = str "::"
  ∧ ip_str (IPv6 (be_encode 16 0x20010db8000000000000000000010000)) = str "2001:db8::1:0"
  ∧ ip_str (IPv6 (be_encode 16 0x20010db8000000010000000000000000)) = str "2001:db8:0:1::".
Proof. by vm_compute. Qed.

Example ip_address_1 :
  ip_address (str "192.168.1.10") = Ok (IPv4 (be_encode 4 0xC0A8010A))
  ∧ ip_address (str "2001:db8::1") = Ok (IPv6 (be_encode 16 0x20010db8000000000000000000000001))
  ∧ ip_address (str "::ffff:1.2.3.4") = Ok (IPv6 (be_encode 16 0xffff01020304))
  ∧ ip_address (str "01.2.3.4") = Raise ValueError
  ∧ ip_address (str "1::2::3") = Raise ValueError
  ∧ ip_address (str "fe80::1%eth0") = Ok (IPv6 (be_encode 16 0xfe800000000000000000000000000001))
  ∧ ip_address (str "localhost") = Raise ValueError.
Proof. by vm_compute. Qed.

(** ** Rendered IPv4 addresses read back *)

Definition all_bytes : list byte := byte_of_Z <$> seqZ 0 256.

Lemma elem_of_all_bytes b : b ∈ all_bytes.
Proof.
  apply list_elem_of_fmap. exists (byte_val b). rewrite byte_of_val. split; [done|].
  pose proof (byte_val_range b). apply elem_of_seqZ. lia.
Qed.

(** A property of single bytes checked by evaluation on all of them. *)
Lemma byte_forallb (f : byte → bool) : forallb f all_bytes = true → ∀ b, f b = true.
Proof. intros H b. rewrite forallb_forall in H. apply H, list_elem_of_In, elem_of_all_bytes. Qed.

Lemma parse_octet_str b : parse_octet (str_of_Z (byte_val b)) = Ok b.
Proof.
  pose proof (byte_forallb (λ b, parse_octet (str_of_Z (byte_val b)) =?b Ok b)) as H.
  eapply bool_decide_eq_true_1, H. by vm_compute.
Qed.

Lemma octet_chars b c : c ∈ str_of_Z (byte_val b) → (48 ≤ c ≤ 57)%Z.
Proof.
  pose proof (byte_val_range b). unfold str_of_Z.
  rewrite (proj2 (Z.ltb_ge _ _)) by lia. apply dec_chars. lia.
Qed.

Lemma parse_ipv4_str p : length p = 4 → parse_ipv4 (ipv4_str p) = Ok p.
Proof.
  intros Hp. unfold parse_ipv4, ipv4_str. rewrite str_split_join.
  - destruct p as [|a [|b [|c [|d [|]]]]]; try done. cbn. by rewrite !parse_octet_str.
  - by destruct p.
  - apply Forall_fmap, Forall_forall. intros b _ Hin. apply octet_chars in Hin. lia.
Qed.

Lemma elem_of_str_join c sep ws : c ∈ str_join sep ws → c ∈ sep ∨ ∃ w, w ∈ ws ∧ c ∈ w.
Proof.
  induction ws as [|w ws IH]; cbn; [set_solver|]. destruct ws as [|w' ws]; [set_solver|].
  rewrite !elem_of_app. set_solver.
Qed.

Lemma ipv4_str_chars p c : c ∈ ipv4_str p → c = 46%Z ∨ (48 ≤ c ≤ 57)%Z.
Proof.
  intros [H|(w & (b & -> & _)%list_elem_of_fmap & Hc)]%elem_of_str_join;
    [set_solver | right; eauto using octet_chars].
Qed.

Lemma existsb_absent c s : c ∉ s → existsb (Z.eqb c) s = false.
Proof.
  intros Hc. apply not_true_iff_false. intros (x & Hx & ->%Z.eqb_eq)%existsb_exists.
  by apply Hc, list_elem_of_In.
Qed.

Lemma ip_address_ipv4_str p : length p = 4 → ip_address (ipv4_str p) = Ok (IPv4 p).
Proof.
  intros Hp. unfold ip_address. rewrite existsb_absent.
  - by rewrite parse_ipv4_str.
  - intros Hc%ipv4_str_chars. lia.
Qed.

(** ** Rendered IPv6 addresses read back *)

(** The specification of the scan: the run it returns lies within the list and holds zeros. *)
Definition zeros_at (hs : list Z) (s l : nat) : Prop :=
  s + l ≤ length hs ∧ ∀ i, s ≤ i < s + l → hs !! i = Some 0%Z.

Definition scan_inv (seen : list Z) (st : run_scan) : Prop :=
  zeros_at seen (best_start st) (best_len st)
  ∧ match cur_start st with
    | Some s => s + cur_len st = length seen ∧ zeros_at seen s (cur_len st)
    | None => cur_len st = 0
    end.

Lemma zeros_at_app hs k s l : zeros_at hs s l → zeros_at (hs ++ k) s l.
Proof.
  intros [Hle Hz]. split; [rewrite length_app; lia|]. intros i Hi.
  rewrite lookup_app_l by lia. by apply Hz.
Qed.

Lemma zeros_at_snoc hs s l :
  s + l = length hs → zeros_at hs s l → zeros_at (hs ++ [0%Z]) s (S l).
Proof.
  intros Hlen [_ Hz]. split; [rewrite length_app; cbn; lia|]. intros i Hi.
  destruct (decide (i < s + l)).
  - rewrite lookup_app_l by lia. apply Hz. lia.
  - rewrite lookup_app_r by lia. by replace (i - length hs) with 0 by lia.
Qed.

Lemma scan_step seen st h :
  scan_inv seen st → scan_inv (seen ++ [h]) (scan_hextet st (length seen, h)).
Proof.
  intros [Hb Hc]. unfold scan_hextet. destruct (Z.eqb_spec h 0) as [->|Hh].
  - assert (zeros_at (seen ++ [0%Z])
              (match cur_start st with None => length seen | Some s => s end) (S (cur_len st))
            ∧ match cur_start st with None => length seen | Some s => s end + S (cur_len st)
              = length (seen ++ [0%Z])) as [Hz Hl].
    { destruct (cur_start st) as [s|].
      - destruct Hc as [Hlen Hz]. split; [by apply zeros_at_snoc|]. rewrite length_app. cbn. lia.
      - rewrite Hc. split; [|by rewrite length_app].
        apply zeros_at_snoc; [lia|]. split; [lia|]. intros i Hi. lia. }
    split_if; unfold scan_inv; cbn; split; auto using zeros_at_app.
  - unfold scan_inv. cbn. split; [by apply zeros_at_app | done].
Qed.

Lemma scan_fold seen st hs :
  scan_inv seen st →
  scan_inv (seen ++ hs) (foldl scan_hextet st (imap (λ i h, (length seen + i, h)) hs)).
Proof.
  revert seen st. induction hs as [|h hs IH]; intros seen st Hinv.
  - by rewrite app_nil_r.
  - cbn. rewrite Nat.add_0_r. rewrite cons_middle, app_assoc.
    apply scan_step with (h := h), IH in Hinv. revert Hinv.
    match goal with |- scan_inv _ (foldl _ _ ?a) → scan_inv _ (foldl _ _ ?b) =>
      replace a with b; [done|] end.
    apply imap_ext. intros i x _. cbn. rewrite length_app. cbn. f_equal. lia.
Qed.

Lemma zero_run_spec hs s l : zero_run hs = (s, l) → zeros_at hs s l.
Proof.
  unfold zero_run. intros [= <- <-].
  assert (scan_inv [] (RunScan 0 0 None 0)) as H0.
  { split; [|done]. split; [done|]. cbn. intros i Hi. lia. }
  apply (scan_fold _ _ hs) in H0. apply H0.
Qed.

Lemma zeros_at_split hs s l :
  zeros_at hs s l → hs = take s hs ++ replicate l 0%Z ++ drop (s + l) hs.
Proof.
  intros [Hle Hz]. rewrite <- (take_drop s hs) at 1. f_equal.
  rewrite <- (take_drop l (drop s hs)) at 1. rewrite drop_drop. f_equal.
  apply list_eq. intros i. destruct (decide (i < l)) as [Hi|Hi].
  - rewrite lookup_take_lt, lookup_drop by done. rewrite lookup_replicate_2 by done.
    apply Hz. lia.
  - rewrite (proj1 (lookup_replicate_None _ _ _)) by lia. apply lookup_take_ge. lia.
Qed.

(** *** Hextet texts *)

Definition hextet_ok (h : Z) : Prop := (0 ≤ h < 65536)%Z.

Lemma length_digits fuel b n :
  (2 ≤ b)%Z → (0 ≤ n)%Z → ∀ k, (n < b ^ Z.of_nat (S k))%Z →
  length (digits fuel b n []) ≤ S k.
Proof.
  intros Hb. revert n. induction fuel as [|f IH]; intros n Hn k Hk; cbn [digits]; [cbn; lia|].
  destruct (Z.ltb_spec n b); [cbn; lia|]. rewrite digits_acc, length_app. cbn [length].
  destruct k as [|k]; [rewrite Z.pow_1_r in Hk; lia|].
  enough (length (digits f b (n / b) []) ≤ S k) by lia. apply IH.
  - apply Z.div_pos; lia.
  - apply Z.div_lt_upper_bound; [lia|]. rewrite Nat2Z.inj_succ, Z.pow_succ_r in Hk; lia.
Qed.

Lemma parse_hextet_hex h : hextet_ok h → parse_hextet (hex_of_Z h) = Ok h.
Proof.
  intros Hh. unfold hextet_ok in Hh. unfold parse_hextet, hex_of_Z.
  rewrite length_fmap. rewrite (proj2 (Nat.leb_le _ _)).
  - apply int_base_render; lia.
  - apply length_digits; [lia..|]. cbn. lia.
Qed.

Lemma mapM_parse_hextet hs :
  Forall hextet_ok hs → mapM_result parse_hextet (hex_of_Z <$> hs) = Ok hs.
Proof.
  induction 1 as [|h hs Hh HF IH]; [done|]. rewrite fmap_cons. cbn [mapM_result].
  rewrite parse_hextet_hex by done. cbn. by rewrite IH.
Qed.

Lemma hex_of_Z_cons h : ∃ c t, hex_of_Z h = c :: t.
Proof.
  unfold hex_of_Z, to_digits. destruct (digits _ 16 h []) eqn:E; cbn; [|eauto].
  by apply digits_nonempty in E.
Qed.

Lemma hex_chars h c : hextet_ok h → c ∈ hex_of_Z h → (48 ≤ c ≤ 57 ∨ 97 ≤ c ≤ 102)%Z.
Proof. intros Hh. apply render_chars; unfold hextet_ok in Hh; lia. Qed.

Lemma length_hextets p n : length p = 2 * n → length (hextets p) = n.
Proof.
  revert p. induction n as [|n IH]; intros [|a [|b p]] Hp; cbn in *; try lia. rewrite IH; lia.
Qed.

Lemma hextets_ok p : Forall hextet_ok (hextets p).
Proof.
  remember (length p) as n eqn:E. revert p E.
  induction n as [n IH] using lt_wf_ind; intros [|a [|b p]] E; cbn; [done..|].
  constructor; [|cbn in E; eapply IH; [|done]; lia].
  pose proof (be_decode_range [a; b]). unfold hextet_ok. cbn in *. lia.
Qed.

Lemma hextets_bytes_hextets p n : length p = 2 * n → hextets_bytes (hextets p) = p.
Proof.
  revert p. induction n as [|n IH]; intros [|a [|b p]] Hp; cbn in Hp; try lia; [done|].
  cbn [hextets]. change (hextets_bytes (?h :: ?hs)) with (be_encode 2 h ++ hextets_bytes hs).
  rewrite (be_encode_decode [a; b] : be_encode 2 _ = _). cbn. do 2 f_equal. apply IH. lia.
Qed.

(** *** The parts of a rendered address *)

(** A part that is a hextet's text. *)
Definition text_of (h : Z) (t : pystr) : Prop := t ≠ [] ∧ parse_hextet t = Ok h.

Lemma text_of_hex h : hextet_ok h → text_of h (hex_of_Z h).
Proof.
  intros Hh. split; [|by apply parse_hextet_hex]. destruct (hex_of_Z_cons h) as (c & t & ->). done.
Qed.

Lemma find_skip_none i ts : [] ∉ ts → find_skip i ts = Ok None.
Proof.
  revert i. induction ts as [|t ts IH]; intros i Hts; cbn; [done|].
  rewrite IH by set_solver. destruct t; set_solver.
Qed.

Lemma parse_parts_plain ts hs :
  length hs = 8 → Forall2 text_of hs ts → parse_ipv6_parts ts = Ok (hextets_bytes hs).
Proof.
  intros Hlen HF.
  assert (mapM_result parse_hextet ts = Ok hs) as Hm.
  { clear Hlen. induction HF as [|h t hs ts [_ Ht] _ IH]; cbn; [done|].
    rewrite Ht. cbn. by rewrite IH. }
  assert ([] ∉ ts) as Hne.
  { clear -HF. induction HF as [|h t hs ts [? _] _ IH]; set_solver. }
  apply Forall2_length in HF. unfold parse_ipv6_parts. rewrite <- HF, Hlen. cbn.
  rewrite find_skip_none; [cbn; by rewrite Hm|].
  unfold slice. intros Hin. apply Hne.
  apply (subseteq_drop 1 ts). by apply (subseteq_take 6 (drop 1 ts)).
Qed.

(** The compressed forms of eight parts: one goal per position and length of the run. *)
Lemma parse_parts_skip ts hs s l :
  length hs = 8 → Forall2 text_of hs ts → 1 < l → zeros_at hs s l →
  parse_ipv6_parts
    (let ts := if (s + l =? length ts)%nat then ts ++ [[]] else ts in
     let ts := take s ts ++ [[]] ++ drop (s + l) ts in
     if (s =? 0)%nat then [] :: ts else ts) = Ok (hextets_bytes hs).
Proof.
  intros Hlen HF Hl Hz. rewrite (zeros_at_split _ _ _ Hz). destruct Hz as [Hle _].
  rewrite Hlen in Hle.
  do 9 (destruct hs as [|? hs]; try discriminate Hlen).
  repeat match goal with H : Forall2 _ (_ :: _) _ |- _ =>
    let t := fresh "t" in let Hne := fresh "Hne" in
    apply Forall2_cons_inv_l in H as (t & ? & [Hne ?] & H & ->);
    destruct t; [done|]; clear Hne end.
  apply Forall2_nil_inv_l in HF as ->.
  do 7 (destruct s as [|s]; [do 9 (try (destruct l as [|l]; try lia));
    cbn -[parse_hextet be_encode];
    repeat match goal with H : parse_hextet _ = Ok _ |- _ => rewrite H; clear H end;
    reflexivity|]). lia.
Qed.

Lemma parse_ipv6_compress hs :
  length hs = 8 → Forall hextet_ok hs →
  parse_ipv6_parts (compress_hextets hs) = Ok (hextets_bytes hs).
Proof.
  intros Hlen Hok.
  assert (Forall2 text_of hs (hex_of_Z <$> hs)) as HF.
  { apply Forall2_fmap_r, Forall_Forall2_diag. eapply Forall_impl; eauto using text_of_hex. }
  unfold compress_hextets. destruct (zero_run hs) as [s l] eqn:Hz.
  apply zero_run_spec in Hz. destruct (Nat.ltb_spec 1 l).
  - by apply parse_parts_skip.
  - by apply parse_parts_plain.
Qed.

Lemma elem_of_compress hs w :
  w ∈ compress_hextets hs → w = [] ∨ ∃ h, h ∈ hs ∧ w = hex_of_Z h.
Proof.
  unfold compress_hextets. destruct (zero_run hs) as [s l].
  assert (∀ w, w ∈ hex_of_Z <$> hs → ∃ h, h ∈ hs ∧ w = hex_of_Z h) as Hts.
  { intros w' (h & -> & Hh)%list_elem_of_fmap. eauto. }
  destruct (1 <? l)%nat; [|auto].
  set (ts := hex_of_Z <$> hs) in *.
  set (ts' := if (s + l =? length ts)%nat then ts ++ [[]] else ts).
  assert (∀ w, w ∈ ts' → w = [] ∨ ∃ h, h ∈ hs ∧ w = hex_of_Z h) as Hts'.
  { intros w'. subst ts'. destruct (s + l =? length ts)%nat; set_solver. }
  assert (w ∈ take s ts' ++ [[]] ++ drop (s + l) ts' → w = [] ∨ ∃ h, h ∈ hs ∧ w = hex_of_Z h).
  { rewrite !elem_of_app, list_elem_of_singleton. intros [H|[->|H]]; [|by left|].
    - apply Hts'. by apply (subseteq_take s ts').
    - apply Hts'. by apply (subseteq_drop (s + l) ts'). }
  destruct (s =? 0)%nat; set_solver.
Qed.

Lemma length_compress hs : length hs = 8 → 3 ≤ length (compress_hextets hs).
Proof.
  intros Hlen. unfold compress_hextets. destruct (zero_run hs) as [s l] eqn:E.
  apply zero_run_spec in E as [Hle _]. rewrite Hlen in Hle.
  destruct (Nat.ltb_spec 1 l); [|by rewrite length_fmap, Hlen; lia].
  rewrite length_fmap, Hlen.
  destruct (Nat.eqb_spec (s + l) 8), (Nat.eqb_spec s 0);
    cbn [length]; rewrite !length_app, length_take, length_drop;
    rewrite ?length_app, length_fmap, Hlen; cbn [length]; lia.
Qed.

Lemma ipv6_str_chars p c :
  c ∈ ipv6_str p → c = 58%Z ∨ (48 ≤ c ≤ 57 ∨ 97 ≤ c ≤ 102)%Z.
Proof.
  intros [H|(w & [->|(h & Hh & ->)]%elem_of_compress & Hc)]%elem_of_str_join; [set_solver..|].
  right. eapply hex_chars; [|done]. pose proof (hextets_ok p) as HF.
  rewrite Forall_forall in HF. by apply HF.
Qed.

Lemma str_partition_fresh c s : c ∉ s → str_partition c s = (s, None).
Proof.
  induction s as [|x s IH]; cbn; [done|]. intros Hc.
  rewrite (proj2 (Z.eqb_neq x c)) by set_solver. by rewrite IH by set_solver.
Qed.

Lemma parse_ipv6_str p : length p = 16 → parse_ipv6 (ipv6_str p) = Ok p.
Proof.
  intros Hp. pose proof (length_hextets p 8 Hp) as Hlen. pose proof (hextets_ok p) as Hok.
  unfold parse_ipv6.
  rewrite str_partition_fresh by (intros Hc%ipv6_str_chars; lia).
  unfold parse_ipv6_text, ipv6_str. rewrite str_split_join.
  - pose proof (length_compress _ Hlen) as Hl3. rewrite (proj2 (Nat.ltb_ge _ _)) by lia.
    destruct (last (compress_hextets (hextets p))) as [w|] eqn:E.
    2:{ apply last_None in E. rewrite E in Hl3. cbn in Hl3. lia. }
    rewrite existsb_absent.
    + rewrite parse_ipv6_compress by done. f_equal. by apply (hextets_bytes_hextets p 8).
    + apply last_Some_elem_of in E. apply elem_of_compress in E as [->|(h & Hh & ->)]; [set_solver|].
      rewrite Forall_forall in Hok. intros Hc%hex_chars; [lia|]. by apply Hok.
  - intros E. apply length_compress in Hlen. rewrite E in Hlen. cbn in Hlen. lia.
  - rewrite Forall_forall in Hok. apply Forall_forall. intros w [->|(h & Hh & ->)]%elem_of_compress; [set_solver|].
    intros Hc%hex_chars; [lia|]. by apply Hok.
Qed.

Lemma ip_address_ipv6_str p : length p = 16 → ip_address (ipv6_str p) = Ok (IPv6 p).
Proof.
  intros Hp. unfold ip_address.
  rewrite existsb_absent by (intros Hc%ipv6_str_chars; lia).
  unfold parse_ipv4. rewrite str_split_fresh by (intros Hc%ipv6_str_chars; lia).
  by rewrite parse_ipv6_str.
Qed.

(** The text of an address reads back as that address. *)
Lemma ip_address_ip_str a : ip_wf a → ip_address (ip_str a) = Ok a.
Proof. destruct a; [apply ip_address_ipv4_str | apply ip_address_ipv6_str]. Qed.
