(* ===== verification/PyBase.v ===== *)
(** * Base85 and Base32 (the base64 module)

    [b85encode], [b85decode], [b32encode] and [b32decode] as the standard library defines them: the input
    is padded to whole groups, each group is one number written in the other base, and the characters
    that stand for the padding are cut off (Base85) or replaced by equals signs (Base32). *)

From S2P Require Import Prelude Bytes PyText.

(** ** Groups *)

(** [l[i:i+k] for i in range(0, len(l), k)]; every group takes at least one element, so the length of
    the list is fuel enough. *)
Fixpoint chunks_fuel {A} (fuel k : nat) (l : list A) : list (list A) :=
  match fuel, l with
  | S fuel, _ :: _ => take k l :: chunks_fuel fuel k (drop k l)
  | _, _ => []
  end.

Definition chunks {A} (k : nat) (l : list A) : list (list A) := chunks_fuel (length l) k l.

(** The [w] digits of [n] in base [b], most significant first. *)
Fixpoint be_digits (w : nat) (b n : Z) : list Z :=
  match w with
  | O => []
  | S w => be_digits w b (n / b) ++ [(n mod b)%Z]
  end.

Fixpoint mapR {A B} (f : A → result B) (l : list A) : result (list B) :=
  match l with
  | [] => Ok []
  | x :: l => y ← f x; ys ← mapR f l; Ok (y :: ys)
  end.

(** The place of a character in an alphabet. *)
Fixpoint index_of (c : Z) (alphabet : pystr) : option Z :=
  match alphabet with
  | [] => None
  | a :: alphabet => if (a =? c)%Z then Some 0%Z else Z.succ <$> index_of c alphabet
  end.

Definition char_at (alphabet : pystr) (d : Z) : Z := nth (Z.to_nat d) alphabet 0%Z.

(** [_bytes_from_decode_data] of a str *)
Definition is_ascii (s : pystr) : bool := forallb (λ c, (0 <=? c) && (c <? 128))%Z s.

(** ** Base85 *)

Definition alphabet85 : pystr :=
  str "0123456789ABCDEFGHIJKLMNOPQRSTUVWXYZabcdefghijklmnopqrstuvwxyz!#$%&()*+-;<=>?@^_`{|}~".

Definition encode85 (c : bytes) : pystr := char_at alphabet85 <$> be_digits 5 85 (be_decode c).

Definition b85encode (bs : bytes) : pystr :=
  let padding := (4 - length bs mod 4) mod 4 in
  let enc := concat (encode85 <$> chunks 4 (bs ++ replicate padding Byte.x00)) in
  take (length enc - padding) enc.

(** One group: a character outside the alphabet and a number past 32 bits are errors. *)
Definition decode85 (chunk : pystr) : result bytes :=
  ds ← mapR (λ c, match index_of c alphabet85 with Some d => Ok d | None => Raise ValueError end) chunk;
  match struct_pack 4 (of_digits 85 ds) with
  | Ok w => Ok w
  | Raise _ => Raise ValueError
  end.

Definition b85decode (s : pystr) : result bytes :=
  if negb (is_ascii s) then Raise ValueError else
  let padding := (5 - length s mod 5) mod 5 in
  out ← mapR decode85 (chunks 5 (s ++ replicate padding 126%Z));
  Ok (take (length (concat out) - padding) (concat out)).

(** ** Base32 *)

Definition alphabet32 : pystr := str "ABCDEFGHIJKLMNOPQRSTUVWXYZ234567".

Definition encode32 (c : bytes) : pystr := char_at alphabet32 <$> be_digits 8 32 (be_decode c).

(** The equals signs for an input of [n] bytes. *)
Definition pad32 (n : nat) : nat :=
  match n mod 5 with 1 => 6 | 2 => 4 | 3 => 3 | 4 => 1 | _ => 0 end.

Definition b32encode (bs : bytes) : pystr :=
  let leftover := length bs mod 5 in
  let s := if (leftover =? 0)%nat then bs else bs ++ replicate (5 - leftover) Byte.x00 in
  let encoded := concat (encode32 <$> chunks 5 s) in
  take (length encoded - pad32 (length bs)) encoded ++ replicate (pad32 (length bs)) 61%Z.

(** [s.rstrip(b"=")] *)
Fixpoint rstrip_eq (s : pystr) : pystr :=
  match s with
  | [] => []
  | c :: s => match rstrip_eq s with
              | [] => if (c =? 61)%Z then [] else [c]
              | t => c :: t
              end
  end.

Definition acc32 (quanta : pystr) : result Z :=
  ds ← mapR (λ c, match index_of c alphabet32 with Some d => Ok d | None => Raise ValueError end) quanta;
  Ok (of_digits 32 ds).

(** [b32decode(s)]; [binascii.Error] is a [ValueError] *)
Definition b32decode (s : pystr) : result bytes :=
  if negb (is_ascii s) then Raise ValueError else
  if negb (length s mod 8 =? 0)%nat then Raise ValueError else
  let stripped := rstrip_eq s in
  let padchars := length s - length stripped in
  accs ← mapR acc32 (chunks 8 stripped);
  let decoded := concat (be_encode 5 <$> accs) in
  if negb (bool_decide (padchars ∈ [0; 1; 3; 4; 6])) then Raise ValueError else
  match last accs with
  | Some acc =>
      if (padchars =? 0)%nat then Ok decoded else
      let last := be_encode 5 (acc * 2 ^ (5 * Z.of_nat padchars)) in
      Ok (take (length decoded - 5) decoded ++ take ((43 - 5 * padchars) / 8) last)
  | None => Ok decoded
  end.

(** Values computed by the Python functions. *)
Example b85_hello : b85encode (bytes_of_string "hello") = str "Xk~0{Zv".
Proof. reflexivity. Qed.
Example b32_hello : b32encode (bytes_of_string "hello!") = str "NBSWY3DPEE======".
Proof. reflexivity. Qed.
Example b85_hello_decode : b85decode (str "Xk~0{Zv") = Ok (bytes_of_string "hello").
Proof. reflexivity. Qed.
Example b32_hello_decode : b32decode (str "NBSWY3DPEE======") = Ok (bytes_of_string "hello!").
Proof. reflexivity. Qed.
Example b85_too_big : b85decode (str "~~~~~") = Raise ValueError.
Proof. reflexivity. Qed.

(** ** Lemmas: groups *)

Section chunks.
Context {A : Type} (k : nat) (Hk : 0 < k).

Lemma chunks_fuel_enough fuel (l : list A) : length l ≤ fuel → chunks_fuel fuel k l = chunks k l.
Proof using Hk.
  unfold chunks. remember (length l) as m eqn:Hm. revert fuel l Hm.
  induction m as [m IH] using lt_wf_ind. intros fuel l Hm Hf.
  destruct l as [|x l]; [subst; by destruct fuel|]. cbn in Hm. subst m. destruct fuel as [|fuel]; [lia|].
  cbn [chunks_fuel]. f_equal.
  assert (length (drop k (x :: l)) ≤ length l) by (rewrite length_drop; cbn; lia).
  transitivity (chunks_fuel (length (drop k (x :: l))) k (drop k (x :: l))).
  - apply (IH (length (drop k (x :: l)))); [lia|done|lia].
  - symmetry. apply (IH (length (drop k (x :: l)))); [lia|done|lia].
Qed.

Lemma chunks_app (x l : list A) : length x = k → chunks k (x ++ l) = x :: chunks k l.
Proof using Hk.
  intros Hx. unfold chunks at 1. destruct x as [|a x]; [cbn in Hx; lia|].
  cbn [app length chunks_fuel]. change (a :: x ++ l) with ((a :: x) ++ l).
  rewrite take_app_length', drop_app_length' by done. f_equal. apply chunks_fuel_enough.
  rewrite length_app. lia.
Qed.

Lemma chunks_last (x : list A) : 0 < length x → length x ≤ k → chunks k x = [x].
Proof using Hk.
  intros H0 Hx. unfold chunks. destruct x as [|a x]; [cbn in H0; lia|]. cbn [length chunks_fuel].
  rewrite take_ge, drop_ge by (cbn in *; lia). by destruct (length x).
Qed.

Lemma chunks_blocks (blocks : list (list A)) (x : list A) :
  Forall (λ b, length b = k) blocks → chunks k (concat blocks ++ x) = blocks ++ chunks k x.
Proof using Hk.
  induction 1 as [|b blocks Hb _ IH]; [done|]. cbn [concat]. rewrite <- app_assoc, chunks_app by done.
  by rewrite IH.
Qed.

(** Every non-empty list is whole groups and a last one that is not empty. *)
Lemma split_blocks (l : list A) :
  l ≠ [] → ∃ blocks t, l = concat blocks ++ t ∧ Forall (λ b, length b = k) blocks ∧ 0 < length t ≤ k.
Proof using Hk.
  remember (length l) as m eqn:Hm. revert l Hm. induction m as [m IH] using lt_wf_ind.
  intros l Hm Hl. destruct (decide (m ≤ k)) as [Hle|Hgt].
  - exists [], l. split_and!; [done|constructor| |lia]. destruct l; [done|cbn; lia].
  - destruct (IH (length (drop k l))) with (l := drop k l) as (blocks & t & E & HF & Ht);
      [rewrite length_drop; lia|done|intros E%(f_equal length); rewrite length_drop in E; cbn in E; lia|].
    exists (take k l :: blocks), t. split_and!; [|constructor; [rewrite length_take; lia|done]|lia..].
    cbn. by rewrite <- app_assoc, <- E, take_drop.
Qed.

Lemma length_concat_blocks (blocks : list (list A)) :
  Forall (λ b, length b = k) blocks → length (concat blocks) = k * length blocks.
Proof using Type.
  clear Hk. induction 1 as [|b blocks Hb _ IH]; [cbn; lia|]. cbn [concat]. rewrite length_app, IH, Hb. cbn. lia.
Qed.
End chunks.

Lemma mapR_app {A B} (f : A → result B) l l' ys ys' :
  mapR f l = Ok ys → mapR f l' = Ok ys' → mapR f (l ++ l') = Ok (ys ++ ys').
Proof.
  revert ys. induction l as [|x l IH]; intros ys; cbn; [by intros <-%Ok_inj|].
  destruct (f x) as [y|]; [|done]. cbn. destruct (mapR f l) as [zs|]; [|done]. cbn.
  intros <-%Ok_inj Hl'. by rewrite (IH zs eq_refl Hl').
Qed.

Lemma mapR_fmap {A B C} (f : B → result C) (g : A → B) (h : A → C) l :
  Forall (λ x, f (g x) = Ok (h x)) l → mapR f (g <$> l) = Ok (h <$> l).
Proof. induction 1 as [|x l Hx _ IH]; [done|]. cbn. by rewrite Hx, IH. Qed.

(** ** Lemmas: digits *)

Lemma length_be_digits w b n : length (be_digits w b n) = w.
Proof. revert n. induction w as [|w IH]; intros n; cbn; [done|]. rewrite length_app, IH. cbn. lia. Qed.

Lemma be_digits_range w b n : (0 < b)%Z → Forall (λ d, 0 ≤ d < b)%Z (be_digits w b n).
Proof.
  intros Hb. revert n. induction w as [|w IH]; intros n; cbn; [constructor|].
  apply Forall_app. split; [apply IH|]. apply Forall_singleton, Z.mod_pos_bound. done.
Qed.

Lemma of_digits_be_digits w b n :
  (0 < b)%Z → (0 ≤ n < b ^ Z.of_nat w)%Z → of_digits b (be_digits w b n) = n.
Proof.
  intros Hb. revert n. induction w as [|w IH]; intros n Hn; cbn [be_digits].
  - cbn in *. lia.
  - rewrite of_digits_snoc, IH.
    + pose proof (Z.div_mod n b). lia.
    + rewrite Nat2Z.inj_succ, Z.pow_succ_r in Hn by lia.
      split; [apply Z.div_pos; lia|]. apply Z.div_lt_upper_bound; lia.
Qed.

Lemma take_be_digits j p b n :
  (0 < b)%Z → take j (be_digits (j + p) b n) = be_digits j b (n / b ^ Z.of_nat p).
Proof.
  intros Hb. revert n. induction p as [|p IH]; intros n.
  - rewrite Nat.add_0_r, take_ge by (by rewrite length_be_digits). cbn. by rewrite Z.div_1_r.
  - replace (j + S p) with (S (j + p)) by lia. cbn [be_digits].
    rewrite take_app_le by (rewrite length_be_digits; lia). rewrite IH. f_equal.
    rewrite Z.div_div by (try apply Z.pow_pos_nonneg; lia).
    by rewrite Nat2Z.inj_succ, Z.pow_succ_r by lia.
Qed.

Lemma take_be_encode j p n : take j (be_encode (j + p) n) = be_encode j (n / 256 ^ Z.of_nat p).
Proof.
  revert n. induction p as [|p IH]; intros n.
  - rewrite Nat.add_0_r, take_ge by (by rewrite length_be_encode). cbn. by rewrite Z.div_1_r.
  - replace (j + S p) with (S (j + p)) by lia. cbn [be_encode].
    rewrite take_app_le by (rewrite length_be_encode; lia). rewrite IH. f_equal.
    rewrite Z.div_div by (try apply Z.pow_pos_nonneg; lia).
    by rewrite Nat2Z.inj_succ, Z.pow_succ_r by lia.
Qed.

Lemma of_digits_app b xs ys :
  of_digits b (xs ++ ys) = (of_digits b xs * b ^ Z.of_nat (length ys) + of_digits b ys)%Z.
Proof.
  induction ys as [|y ys IH] using rev_ind; [cbn; rewrite app_nil_r; lia|].
  rewrite app_assoc, !of_digits_snoc, IH, length_app. cbn [length].
  rewrite Nat2Z.inj_add, Z.pow_add_r by lia. change (Z.of_nat 1) with 1%Z. rewrite Z.pow_1_r. lia.
Qed.

Lemma of_digits_top b p : of_digits b (replicate p (b - 1)%Z) = (b ^ Z.of_nat p - 1)%Z.
Proof.
  induction p as [|p IH]; [cbn; lia|]. rewrite replicate_S_end, of_digits_snoc, IH.
  rewrite Nat2Z.inj_succ, Z.pow_succ_r by lia. lia.
Qed.

Lemma be_decode_zeros t p :
  be_decode (t ++ replicate p Byte.x00) = (be_decode t * 256 ^ Z.of_nat p)%Z.
Proof.
  induction p as [|p IH]; [cbn; rewrite app_nil_r; lia|].
  rewrite replicate_S_end, app_assoc, be_decode_snoc, IH.
  rewrite Nat2Z.inj_succ, Z.pow_succ_r by lia. change (byte_val Byte.x00) with 0%Z. lia.
Qed.

(** ** Lemmas: alphabets *)

Lemma forall_digits (n : nat) (P : Z → bool) :
  forallb P (Z.of_nat <$> seq 0 n) = true → ∀ d, (0 ≤ d < Z.of_nat n)%Z → P d = true.
Proof.
  intros H d Hd. rewrite forallb_forall in H. apply H. apply list_elem_of_In, list_elem_of_fmap.
  exists (Z.to_nat d). split; [lia|]. apply elem_of_seq. lia.
Qed.

Lemma index_char85 d : (0 ≤ d < 85)%Z → index_of (char_at alphabet85 d) alphabet85 = Some d.
Proof.
  intros Hd. pose proof (forall_digits 85 (λ d, match index_of (char_at alphabet85 d) alphabet85 with
    | Some e => (e =? d)%Z | None => false end) ltac:(vm_compute; reflexivity) d Hd) as H. cbn beta in H.
  destruct (index_of _ _) as [e|]; [|done]. by apply Z.eqb_eq in H as ->.
Qed.

Lemma index_char32 d : (0 ≤ d < 32)%Z → index_of (char_at alphabet32 d) alphabet32 = Some d.
Proof.
  intros Hd. pose proof (forall_digits 32 (λ d, match index_of (char_at alphabet32 d) alphabet32 with
    | Some e => (e =? d)%Z | None => false end) ltac:(vm_compute; reflexivity) d Hd) as H. cbn beta in H.
  destruct (index_of _ _) as [e|]; [|done]. by apply Z.eqb_eq in H as ->.
Qed.

(** Characters of both alphabets are printable ASCII. *)
Lemma char85_range d : (0 ≤ d < 85)%Z → (33 ≤ char_at alphabet85 d < 127)%Z.
Proof.
  intros Hd. pose proof (forall_digits 85 (λ d, (33 <=? char_at alphabet85 d) && (char_at alphabet85 d <? 127))%Z
    ltac:(vm_compute; reflexivity) d Hd) as H. apply andb_true_iff in H as [H1 H2]. lia.
Qed.

Lemma char32_range d : (0 ≤ d < 32)%Z →
  (33 ≤ char_at alphabet32 d < 127)%Z ∧ char_at alphabet32 d ≠ 61%Z.
Proof.
  intros Hd. pose proof (forall_digits 32 (λ d, (33 <=? char_at alphabet32 d) && (char_at alphabet32 d <? 127)
    && negb (char_at alphabet32 d =? 61))%Z ltac:(vm_compute; reflexivity) d Hd) as H.
  apply andb_true_iff in H as [H H3]. apply andb_true_iff in H as [H1 H2].
  apply negb_true_iff, Z.eqb_neq in H3. lia.
Qed.

Lemma index_digits85 ds :
  Forall (λ d, 0 ≤ d < 85)%Z ds →
  mapR (λ c, match index_of c alphabet85 with Some d => Ok d | None => Raise ValueError end)
    (char_at alphabet85 <$> ds) = Ok ds.
Proof.
  intros H. rewrite (mapR_fmap _ _ id), list_fmap_id; [done|].
  eapply Forall_impl; [exact H|]. intros d Hd. cbn beta. by rewrite index_char85.
Qed.

Lemma index_digits32 ds :
  Forall (λ d, 0 ≤ d < 32)%Z ds →
  mapR (λ c, match index_of c alphabet32 with Some d => Ok d | None => Raise ValueError end)
    (char_at alphabet32 <$> ds) = Ok ds.
Proof.
  intros H. rewrite (mapR_fmap _ _ id), list_fmap_id; [done|].
  eapply Forall_impl; [exact H|]. intros d Hd. cbn beta. by rewrite index_char32.
Qed.

(** ** Base85 round trip *)

Lemma length_encode85 c : length (encode85 c) = 5.
Proof. unfold encode85. by rewrite length_fmap, length_be_digits. Qed.

(** The characters of a partial group, filled up with the last character of the alphabet. *)
Lemma decode85_partial (t : bytes) (p : nat) :
  0 < length t → length t + p = 4 →
  ∃ w, decode85 (take (5 - p) (encode85 (t ++ replicate p Byte.x00)) ++ replicate p 126%Z) = Ok w ∧
    length w = 4 ∧ take (length t) w = t.
Proof.
  intros H0 Hp. pose proof (be_decode_range t) as Hr. set (v := be_decode t) in *.
  set (W := (v * 256 ^ Z.of_nat p)%Z).
  set (q := (W / 85 ^ Z.of_nat p)%Z).
  set (W' := (q * 85 ^ Z.of_nat p + (85 ^ Z.of_nat p - 1))%Z).
  assert (0 ≤ q < 85 ^ Z.of_nat (5 - p) ∧ v * 256 ^ Z.of_nat p ≤ W' < (v + 1) * 256 ^ Z.of_nat p ∧
    0 ≤ W' < 256 ^ 4)%Z as (Hq & HW & HW4).
  { unfold W', q, W. assert (length t = 4 - p) as Hl by lia. rewrite Hl in Hr.
    destruct p as [|[|[|[|p]]]]; [| | | |lia]; cbn in Hr |- *;
      match goal with |- context [(?x / ?y)%Z] =>
        pose proof (Z.div_mod x y ltac:(lia)); pose proof (Z.mod_pos_bound x y ltac:(lia));
        generalize dependent (x / y)%Z; intros; generalize dependent (x mod y)%Z; intros end; lia. }
  exists (be_encode 4 W'). split_and!; [|apply length_be_encode|].
  - unfold encode85. rewrite <- fmap_take, be_decode_zeros. fold v W.
    replace 5 with (5 - p + p) at 2 by lia. rewrite take_be_digits by lia. fold q.
    change 126%Z with (char_at alphabet85 (85 - 1)). rewrite <- fmap_replicate, <- fmap_app.
    unfold decode85. rewrite index_digits85.
    + cbn [mbind result_bind]. rewrite of_digits_app, of_digits_be_digits, of_digits_top, length_replicate by lia.
      fold W'. by rewrite struct_pack_fits.
    + apply Forall_app. split; [apply be_digits_range; lia|]. apply Forall_replicate. lia.
  - replace 4 with (length t + p) by lia. rewrite take_be_encode.
    replace (W' / 256 ^ Z.of_nat p)%Z with v; [apply be_encode_decode|].
    apply (Z.div_unique_pos _ _ _ (W' - v * 256 ^ Z.of_nat p)); lia.
Qed.

Lemma decode85_encode85 c : length c = 4 → decode85 (encode85 c) = Ok c.
Proof.
  intros Hc. destruct (decode85_partial c 0) as (w & Hd & Hl & Ht); [lia|lia|].
  cbn [replicate] in Hd. rewrite !app_nil_r, take_ge in Hd by (rewrite length_encode85; lia).
  rewrite Hd. f_equal. rewrite take_ge in Ht by lia. done.
Qed.

Lemma encode85_chars c x : x ∈ encode85 c → (33 ≤ x < 127)%Z.
Proof.
  unfold encode85. intros (d & -> & Hd)%list_elem_of_fmap. apply char85_range.
  pose proof (be_digits_range 5 85 (be_decode c) ltac:(lia)) as HF. rewrite Forall_forall in HF. by apply HF.
Qed.

Lemma is_ascii_chars s : (∀ x, x ∈ s → 0 ≤ x < 128)%Z → is_ascii s = true.
Proof.
  intros H. unfold is_ascii. apply forallb_forall. intros x Hx%list_elem_of_In. specialize (H x Hx). lia.
Qed.

(** The encoding of whole groups and a last one. *)
Lemma b85encode_blocks blocks t :
  Forall (λ b, length b = 4) blocks → 0 < length t ≤ 4 →
  let p := 4 - length t in
  b85encode (concat blocks ++ t)
    = concat (encode85 <$> blocks) ++ take (5 - p) (encode85 (t ++ replicate p Byte.x00)).
Proof.
  intros HB Ht p. unfold b85encode.
  assert ((4 - length (concat blocks ++ t) mod 4) mod 4 = p) as ->.
  { rewrite length_app, (length_concat_blocks 4) by done. rewrite (Nat.mul_comm 4), Nat.add_comm, Nat.Div0.mod_add.
    unfold p. destruct (length t) as [|[|[|[|[|m]]]]]; cbn; lia. }
  rewrite <- app_assoc, chunks_blocks, chunks_last by (done || rewrite ?length_app, ?length_replicate; lia).
  rewrite fmap_app, concat_app. cbn [fmap list_fmap concat]. rewrite app_nil_r.
  rewrite length_app, length_encode85. rewrite take_app_ge by lia. do 2 f_equal. lia.
Qed.

Lemma b85encode_chars bs x : x ∈ b85encode bs → (33 ≤ x < 127)%Z.
Proof.
  unfold b85encode. intros Hx%elem_of_take. destruct Hx as (i & Hi & _).
  apply list_elem_of_lookup_2 in Hi. apply list_elem_of_In, in_concat in Hi as (e & He & Hx).
  apply list_elem_of_In, list_elem_of_fmap in He as (c & -> & _).
  eapply encode85_chars. by apply list_elem_of_In.
Qed.

Lemma b85_roundtrip bs : b85decode (b85encode bs) = Ok bs.
Proof.
  destruct (decide (bs = [])) as [->|Hne]; [reflexivity|].
  destruct (split_blocks 4 ltac:(lia) bs Hne) as (blocks & t & -> & HB & Ht).
  unfold b85decode. rewrite is_ascii_chars by (intros x Hx%b85encode_chars; lia). cbn [negb].
  rewrite b85encode_blocks by done. set (p := 4 - length t).
  set (last := take (5 - p) (encode85 (t ++ replicate p Byte.x00))).
  assert (Forall (λ b, length b = 5) (encode85 <$> blocks)) as HE.
  { apply Forall_fmap. eapply Forall_impl; [exact HB|]. intros c _. apply length_encode85. }
  assert (length last = 5 - p) as Hlast by (unfold last; rewrite length_take, length_encode85; lia).
  assert ((5 - length (concat (encode85 <$> blocks) ++ last) mod 5) mod 5 = p) as ->.
  { rewrite length_app, (length_concat_blocks 5) by done. rewrite Hlast, (Nat.mul_comm 5), Nat.add_comm, Nat.Div0.mod_add.
    unfold p. destruct (length t) as [|[|[|[|[|m]]]]]; cbn; lia. }
  rewrite <- app_assoc, chunks_blocks, chunks_last
    by (done || rewrite ?length_app, ?length_replicate, ?Hlast; unfold p; lia).
  destruct (decode85_partial t p) as (w & Hw & Hwl & Hwt); [lia|unfold p; lia|].
  rewrite (mapR_app _ _ _ blocks [w]).
  - cbn [mbind result_bind]. rewrite concat_app. cbn [concat]. rewrite app_nil_r, length_app, Hwl.
    rewrite take_app_ge by (unfold p; lia). do 2 f_equal. rewrite <- Hwt. f_equal. unfold p. lia.
  - rewrite (mapR_fmap _ _ id), list_fmap_id; [done|]. eapply Forall_impl; [exact HB|].
    intros c Hc. by apply decode85_encode85.
  - cbn [mapR]. unfold last. by rewrite Hw.
Qed.

(** ** Base32 round trip *)

Lemma length_encode32 c : length (encode32 c) = 8.
Proof. unfold encode32. by rewrite length_fmap, length_be_digits. Qed.

Lemma encode32_chars c x : x ∈ encode32 c → (33 ≤ x < 127)%Z ∧ x ≠ 61%Z.
Proof.
  unfold encode32. intros (d & -> & Hd)%list_elem_of_fmap. apply char32_range.
  pose proof (be_digits_range 8 32 (be_decode c) ltac:(lia)) as HF. rewrite Forall_forall in HF. by apply HF.
Qed.

Lemma pad32_blocks (m n : nat) : pad32 (5 * m + n) = pad32 n.
Proof. unfold pad32. by rewrite (Nat.mul_comm 5), Nat.add_comm, Nat.Div0.mod_add. Qed.

(** The number in the first characters of a partial group. *)
Lemma acc32_partial (t : bytes) :
  0 < length t ≤ 5 →
  let W := (be_decode t * 256 ^ Z.of_nat (5 - length t))%Z in
  let pc := pad32 (length t) in
  acc32 (take (8 - pc) (encode32 (t ++ replicate (5 - length t) Byte.x00)))
    = Ok (W / 32 ^ Z.of_nat pc)%Z ∧
  (W / 32 ^ Z.of_nat pc * 2 ^ (5 * Z.of_nat pc) = W)%Z ∧
  (pc ∈ [0; 1; 3; 4; 6]) ∧ (0 < pc → (43 - 5 * pc) / 8 = length t).
Proof.
  intros Ht W pc. pose proof (be_decode_range t) as Hr.
  assert (pc ≤ 8) as Hpc by (unfold pc, pad32; repeat case_match; lia).
  assert (0 ≤ W / 32 ^ Z.of_nat pc < 32 ^ Z.of_nat (8 - pc) ∧
    W / 32 ^ Z.of_nat pc * 2 ^ (5 * Z.of_nat pc) = W)%Z as [Hq HW].
  { unfold pc, W. destruct (length t) as [|[|[|[|[|[|m]]]]]]; [lia| | | | | |lia]; cbn in Hr |- *;
      match goal with |- context [(?x / ?y)%Z] =>
        pose proof (Z.div_mod x y ltac:(lia)); pose proof (Z.mod_pos_bound x y ltac:(lia));
        generalize dependent (x / y)%Z; intros; generalize dependent (x mod y)%Z; intros end; lia. }
  split_and!; [|done| |].
  - unfold encode32. rewrite <- fmap_take, be_decode_zeros. fold W.
    replace 8 with (8 - pc + pc) at 2 by lia. rewrite take_be_digits by lia.
    unfold acc32. rewrite index_digits32 by (apply be_digits_range; lia). cbn [mbind result_bind].
    by rewrite of_digits_be_digits by lia.
  - unfold pc, pad32. repeat case_match; set_solver.
  - unfold pc. destruct (length t) as [|[|[|[|[|[|m]]]]]]; cbn; lia.
Qed.

Lemma acc32_encode32 c : length c = 5 → acc32 (encode32 c) = Ok (be_decode c).
Proof.
  intros Hc. destruct (acc32_partial c) as (Ha & _); [lia|]. rewrite Hc in Ha.
  change (pad32 5) with 0 in Ha. change (5 - 5) with 0 in Ha. cbn [replicate Z.of_nat Z.pow] in Ha.
  rewrite app_nil_r, take_ge, Z.div_1_r, Z.mul_1_r in Ha by (rewrite length_encode32; lia). done.
Qed.

Lemma rstrip_eq_pad (X : pystr) k : (∀ x, x ∈ X → x ≠ 61%Z) → rstrip_eq (X ++ replicate k 61%Z) = X.
Proof.
  intros HX. induction X as [|c X IH]; cbn.
  - induction k as [|k IHk]; cbn; [done|]. by rewrite IHk.
  - rewrite IH by set_solver. destruct X; [|done].
    destruct (Z.eqb_spec c 61) as [->|]; [|done]. exfalso. by apply (HX 61%Z); [set_solver|].
Qed.

Lemma b32encode_blocks blocks t :
  Forall (λ b, length b = 5) blocks → 0 < length t ≤ 5 →
  b32encode (concat blocks ++ t)
    = (concat (encode32 <$> blocks)
       ++ take (8 - pad32 (length t)) (encode32 (t ++ replicate (5 - length t) Byte.x00)))
      ++ replicate (pad32 (length t)) 61%Z.
Proof.
  intros HB Ht. unfold b32encode. rewrite length_app, (length_concat_blocks 5 blocks), pad32_blocks by done.
  assert ((if ((5 * length blocks + length t) mod 5 =? 0)%nat then concat blocks ++ t
    else (concat blocks ++ t) ++ replicate (5 - (5 * length blocks + length t) mod 5) Byte.x00)
    = concat blocks ++ (t ++ replicate (5 - length t) Byte.x00)) as ->.
  { rewrite (Nat.mul_comm 5), Nat.add_comm, Nat.Div0.mod_add, app_assoc.
    destruct (length t) as [|[|[|[|[|[|m]]]]]]; [lia|done|done|done|done|cbn; by rewrite app_nil_r|lia]. }
  f_equal. rewrite chunks_blocks, chunks_last by (done || rewrite ?length_app, ?length_replicate; lia).
  rewrite fmap_app, concat_app. cbn [fmap list_fmap concat]. rewrite app_nil_r, length_app, length_encode32.
  assert (pad32 (length t) ≤ 6) by (unfold pad32; repeat case_match; lia).
  rewrite take_app_ge by lia. do 2 f_equal. lia.
Qed.

Lemma b32_roundtrip bs : b32decode (b32encode bs) = Ok bs.
Proof.
  destruct (decide (bs = [])) as [->|Hne]; [reflexivity|].
  destruct (split_blocks 5 ltac:(lia) bs Hne) as (blocks & t & -> & HB & Ht).
  rewrite b32encode_blocks by done. destruct (acc32_partial t Ht) as (Hacc & HW & Hpc & Hn).
  set (pc := pad32 (length t)) in *. set (W := (be_decode t * 256 ^ Z.of_nat (5 - length t))%Z) in *.
  set (last_chars := take (8 - pc) (encode32 (t ++ replicate (5 - length t) Byte.x00))) in *.
  set (X := concat (encode32 <$> blocks) ++ last_chars).
  assert (pc ≤ 6) as Hpc6 by (unfold pc, pad32; repeat case_match; lia).
  assert (∀ x, x ∈ X → (33 ≤ x < 127)%Z ∧ x ≠ 61%Z) as HX.
  { unfold X, last_chars. intros x [Hx|Hx]%elem_of_app.
    - apply list_elem_of_In, in_concat in Hx as (e & He & Hx).
      apply list_elem_of_In, list_elem_of_fmap in He as (c & -> & _).
      eapply encode32_chars. by apply list_elem_of_In.
    - apply elem_of_take in Hx as (i & Hi & _). apply list_elem_of_lookup_2 in Hi. by eapply encode32_chars. }
  assert (Forall (λ b, length b = 8) (encode32 <$> blocks)) as HE.
  { apply Forall_fmap. eapply Forall_impl; [exact HB|]. intros c _. apply length_encode32. }
  assert (length last_chars = 8 - pc) as Hlast by (unfold last_chars; rewrite length_take, length_encode32; lia).
  assert (length X = 8 * length blocks + (8 - pc)) as HlX.
  { unfold X. rewrite length_app, (length_concat_blocks 8) by done. rewrite length_fmap. lia. }
  unfold b32decode. rewrite is_ascii_chars.
  2:{ intros x [Hx|Hx]%elem_of_app; [apply HX in Hx; lia|]. apply elem_of_replicate in Hx as [-> _]. lia. }
  cbn [negb]. rewrite length_app, length_replicate, HlX.
  replace ((8 * length blocks + (8 - pc) + pc) mod 8) with 0
    by (replace (8 * length blocks + (8 - pc) + pc) with (0 + (S (length blocks)) * 8) by lia;
        rewrite Nat.Div0.mod_add; done).
  cbn [Nat.eqb negb]. rewrite rstrip_eq_pad by (intros x Hx; by apply HX). rewrite HlX.
  replace (8 * length blocks + (8 - pc) + pc - (8 * length blocks + (8 - pc))) with pc by lia.
  unfold X. rewrite chunks_blocks, chunks_last by (done || lia).
  rewrite (mapR_app _ _ _ (be_decode <$> blocks) [(W / 32 ^ Z.of_nat pc)%Z]).
  2:{ apply mapR_fmap. eapply Forall_impl; [exact HB|]. intros c Hc. by apply acc32_encode32. }
  2:{ cbn [mapR]. by rewrite Hacc. }
  cbn [mbind result_bind]. rewrite bool_decide_true by done. cbn [negb]. rewrite last_snoc.
  rewrite fmap_app, concat_app. cbn [fmap list_fmap concat]. rewrite app_nil_r.
  assert (concat (be_encode 5 <$> (be_decode <$> blocks)) = concat blocks) as ->.
  { f_equal. clear -HB. induction HB as [|b blocks Hb _ IH]; [done|]. rewrite !fmap_cons. f_equal; [|exact IH].
    pose proof (be_encode_decode b) as E. by rewrite Hb in E. }
  rewrite length_app, length_be_encode. destruct (Nat.eqb_spec pc 0) as [E|E].
  - do 2 f_equal.
    assert (length t = 5) as Hl by (clear -E Ht; unfold pc in E; revert E; destruct (length t) as [|[|[|[|[|[|m]]]]]]; cbn; lia).
    replace (W / 32 ^ Z.of_nat pc)%Z with (be_decode t)
      by (rewrite E; unfold W; rewrite Hl; change (32 ^ Z.of_nat 0)%Z with 1%Z;
          change (256 ^ Z.of_nat (5 - 5))%Z with 1%Z; by rewrite Z.div_1_r, Z.mul_1_r).
    rewrite <- Hl. apply be_encode_decode.
  - f_equal. rewrite take_app_length' by lia. f_equal. rewrite HW, Hn by lia.
    replace 5 with (length t + (5 - length t)) at 1 by lia. rewrite take_be_encode. unfold W.
    rewrite Z.div_mul by (apply Z.pow_nonzero; lia). apply be_encode_decode.
Qed.

Lemma b32encode_chars bs x : x ∈ b32encode bs → (33 ≤ x < 127)%Z.
Proof.
  unfold b32encode. intros [Hx|Hx]%elem_of_app; [|apply elem_of_replicate in Hx as [-> _]; lia].
  apply elem_of_take in Hx as (i & Hi & _). apply list_elem_of_lookup_2 in Hi.
  apply list_elem_of_In, in_concat in Hi as (e & He & Hx).
  apply list_elem_of_In, list_elem_of_fmap in He as (c & -> & _).
  eapply encode32_chars. by apply list_elem_of_In.
Qed.
