(* ===== verification/Utf8.v ===== *)
(** * Decoding UTF-8

    [bs.decode("utf-8")] and [bs.decode("utf-8", errors="replace")].  Each lead byte fixes the range of the
    byte after it (so that overlong forms, surrogates and code points past 0x10ffff are rejected); the longest
    prefix of a malformed sequence that could still have become one is one error. *)

From S2P Require Import Prelude Bytes PyText.

(** A byte in a range. *)
Definition in_range (lo hi : Z) (b : byte) : bool := ((lo <=? byte_val b) && (byte_val b <=? hi))%Z.

(** The second byte that may follow a lead byte of a sequence of three, of four. *)
Definition second_of_3 (b0 b1 : byte) : bool :=
  if (byte_val b0 =? 224)%Z then in_range 160 191 b1
  else if (byte_val b0 =? 237)%Z then in_range 128 159 b1
  else in_range 128 191 b1.
Definition second_of_4 (b0 b1 : byte) : bool :=
  if (byte_val b0 =? 240)%Z then in_range 144 191 b1
  else if (byte_val b0 =? 244)%Z then in_range 128 143 b1
  else in_range 128 191 b1.

(** The six bits a continuation byte carries. *)
Definition low6 (b : byte) : Z := (byte_val b - 128)%Z.

(** What an error does: raise, or put U+FFFD and go on. *)
Definition bad_utf8 (replace : bool) (rest : result pystr) : result pystr :=
  if replace then (65533%Z ::.) <$> rest else Raise UnicodeError.

Fixpoint utf8_decode (replace : bool) (bs : bytes) : result pystr :=
  match bs with
  | [] => Ok []
  | b0 :: r0 =>
      if in_range 0 127 b0 then (byte_val b0 ::.) <$> utf8_decode replace r0
      else if in_range 194 223 b0 then
        match r0 with
        | b1 :: r1 =>
            if in_range 128 191 b1
            then (((byte_val b0 - 192) * 64 + low6 b1)%Z ::.) <$> utf8_decode replace r1
            else bad_utf8 replace (utf8_decode replace r0)
        | [] => bad_utf8 replace (Ok [])
        end
      else if in_range 224 239 b0 then
        match r0 with
        | b1 :: r1 =>
            if second_of_3 b0 b1 then
              match r1 with
              | b2 :: r2 =>
                  if in_range 128 191 b2
                  then (((byte_val b0 - 224) * 4096 + low6 b1 * 64 + low6 b2)%Z ::.) <$> utf8_decode replace r2
                  else bad_utf8 replace (utf8_decode replace r1)
              | [] => bad_utf8 replace (Ok [])
              end
            else bad_utf8 replace (utf8_decode replace r0)
        | [] => bad_utf8 replace (Ok [])
        end
      else if in_range 240 244 b0 then
        match r0 with
        | b1 :: r1 =>
            if second_of_4 b0 b1 then
              match r1 with
              | b2 :: r2 =>
                  if in_range 128 191 b2 then
                    match r2 with
                    | b3 :: r3 =>
                        if in_range 128 191 b3
                        then (((byte_val b0 - 240) * 262144 + low6 b1 * 4096 + low6 b2 * 64 + low6 b3)%Z ::.)
                               <$> utf8_decode replace r3
                        else bad_utf8 replace (utf8_decode replace r2)
                    | [] => bad_utf8 replace (Ok [])
                    end
                  else bad_utf8 replace (utf8_decode replace r1)
              | [] => bad_utf8 replace (Ok [])
              end
            else bad_utf8 replace (utf8_decode replace r0)
        | [] => bad_utf8 replace (Ok [])
        end
      else bad_utf8 replace (utf8_decode replace r0)
  end.

(** Values computed by Python. *)
Definition raw (l : list Z) : bytes := byte_of_Z <$> l.
Example utf8_replace_1 : utf8_decode true (raw [0xe2; 0x82; 0x28; 0xc3; 0xed; 0xa0; 0x80; 0x41]%Z) =
  Ok [65533; 0x28; 65533; 65533; 65533; 65533; 0x41]%Z.
Proof. reflexivity. Qed.
Example utf8_replace_2 : utf8_decode true (raw [0xf0; 0x9f; 0x98; 0xf0; 0x9f; 0x98; 0x80; 0xc0; 0xaf]%Z) =
  Ok [65533; 0x1f600; 65533; 65533]%Z.
Proof. reflexivity. Qed.

(** ** Round trip *)

(** The code points of a Python string that can be encoded. *)
Definition scalar_value (c : Z) : Prop := (0 ≤ c < 55296 ∨ 57344 ≤ c ≤ 1114111)%Z.

Lemma in_range_spec lo hi z : (0 ≤ z < 256)%Z → in_range lo hi (byte_of_Z z) = true ↔ (lo ≤ z ≤ hi)%Z.
Proof.
  intros Hz. unfold in_range. rewrite byte_val_of by done. rewrite andb_true_iff, !Z.leb_le. done.
Qed.

Lemma in_range_no lo hi z : (0 ≤ z < 256)%Z → (z < lo ∨ hi < z)%Z → in_range lo hi (byte_of_Z z) = false.
Proof. intros Hz H. apply not_true_iff_false. rewrite in_range_spec by done. lia. Qed.

Lemma cons_fmap_eq (x y : Z) (m : result pystr) : x = y → (x ::.) <$> m = (y ::.) <$> m.
Proof. by intros ->. Qed.

(** Encoded sequences of two, three and four bytes, one lemma each: [a], [b], ... are the digits of the code
    point in base 64. *)
Lemma decode_2 r a b rest :
  (2 ≤ a < 32)%Z → (0 ≤ b < 64)%Z →
  utf8_decode r (byte_of_Z (192 + a) :: byte_of_Z (128 + b) :: rest) = ((a * 64 + b)%Z ::.) <$> utf8_decode r rest.
Proof.
  intros Ha Hb. cbn [utf8_decode]. rewrite (in_range_no 0 127 (192 + a)) by lia.
  rewrite (proj2 (in_range_spec 194 223 (192 + a) ltac:(lia))), (proj2 (in_range_spec 128 191 (128 + b) ltac:(lia))) by lia.
  unfold low6. rewrite !byte_val_of by lia. apply cons_fmap_eq. lia.
Qed.

Lemma decode_3 r a b c rest :
  (0 ≤ a < 16)%Z → (0 ≤ b < 64)%Z → (0 ≤ c < 64)%Z →
  (a = 0 → 32 ≤ b)%Z → (a = 13 → b < 32)%Z →
  utf8_decode r (byte_of_Z (224 + a) :: byte_of_Z (128 + b) :: byte_of_Z (128 + c) :: rest)
    = ((a * 4096 + b * 64 + c)%Z ::.) <$> utf8_decode r rest.
Proof.
  intros Ha Hb Hc H0 H13. cbn [utf8_decode].
  rewrite (in_range_no 0 127 (224 + a)), (in_range_no 194 223 (224 + a)), (proj2 (in_range_spec 224 239 (224 + a) ltac:(lia))) by lia.
  assert (second_of_3 (byte_of_Z (224 + a)) (byte_of_Z (128 + b)) = true) as ->.
  { unfold second_of_3. rewrite byte_val_of by lia. destruct (Z.eqb_spec (224 + a) 224); [|destruct (Z.eqb_spec (224 + a) 237)];
      apply in_range_spec; lia. }
  rewrite (proj2 (in_range_spec 128 191 (128 + c) ltac:(lia))) by lia.
  unfold low6. rewrite !byte_val_of by lia. apply cons_fmap_eq. lia.
Qed.

Lemma decode_4 r a b c d rest :
  (0 ≤ a ≤ 4)%Z → (0 ≤ b < 64)%Z → (0 ≤ c < 64)%Z → (0 ≤ d < 64)%Z →
  (a = 0 → 16 ≤ b)%Z → (a = 4 → b < 16)%Z →
  utf8_decode r (byte_of_Z (240 + a) :: byte_of_Z (128 + b) :: byte_of_Z (128 + c) :: byte_of_Z (128 + d) :: rest)
    = ((a * 262144 + b * 4096 + c * 64 + d)%Z ::.) <$> utf8_decode r rest.
Proof.
  intros Ha Hb Hc Hd H0 H4. cbn [utf8_decode].
  rewrite (in_range_no 0 127 (240 + a)), (in_range_no 194 223 (240 + a)), (in_range_no 224 239 (240 + a)),
    (proj2 (in_range_spec 240 244 (240 + a) ltac:(lia))) by lia.
  assert (second_of_4 (byte_of_Z (240 + a)) (byte_of_Z (128 + b)) = true) as ->.
  { unfold second_of_4. rewrite byte_val_of by lia. destruct (Z.eqb_spec (240 + a) 240); [|destruct (Z.eqb_spec (240 + a) 244)];
      apply in_range_spec; lia. }
  rewrite (proj2 (in_range_spec 128 191 (128 + c) ltac:(lia))),
    (proj2 (in_range_spec 128 191 (128 + d) ltac:(lia))) by lia.
  unfold low6. rewrite !byte_val_of by lia. apply cons_fmap_eq. lia.
Qed.

(** [euclid] gives [lia] the defining equations of quotients and remainders. *)
Ltac euclid := Z.to_euclidean_division_equations; lia.

Lemma utf8_char_decode r c bs rest :
  scalar_value c → utf8_char c = Ok bs →
  utf8_decode r (bs ++ rest) = (c ::.) <$> utf8_decode r rest.
Proof.
  intros Hc. unfold utf8_char.
  destruct (Z.ltb_spec c 128); [|destruct (Z.ltb_spec c 2048); [|destruct (_ && _) eqn:Es; [done|]]].
  - intros <-%Ok_inj. cbn [app utf8_decode]. assert (0 ≤ c < 128)%Z by (unfold scalar_value in Hc; lia).
    by rewrite (proj2 (in_range_spec 0 127 c ltac:(lia))), byte_val_of by lia.
  - intros <-%Ok_inj. cbn [app]. rewrite decode_2 by euclid. apply cons_fmap_eq. euclid.
  - apply andb_false_iff in Es. rewrite !Z.leb_gt in Es.
    destruct (Z.ltb_spec c 65536); intros <-%Ok_inj; cbn [app]; unfold scalar_value in Hc.
    + rewrite decode_3 by euclid. apply cons_fmap_eq. euclid.
    + rewrite decode_4 by euclid. apply cons_fmap_eq. euclid.
Qed.

(** Encoding and decoding, strictly or with replacement. *)
Lemma utf8_decode_encode r s bs :
  Forall scalar_value s → utf8_encode s = Ok bs → utf8_decode r bs = Ok s.
Proof.
  revert bs. induction s as [|c s IH]; intros bs Hs; cbn; [by intros <-%Ok_inj|].
  intros (b & Hb & (t & Ht & E)%bind_Ok_inv)%bind_Ok_inv. apply Forall_cons in Hs as [Hc Hs].
  apply Ok_inj in E as <-. rewrite (utf8_char_decode r c b t Hc Hb). by rewrite (IH t Hs Ht).
Qed.

Lemma utf8_encode_scalars s : Forall scalar_value s → ∃ bs, utf8_encode s = Ok bs.
Proof.
  induction 1 as [|c s Hc _ [bs IH]]; [by exists []|]. cbn.
  assert (∃ b, utf8_char c = Ok b) as [b ->].
  { unfold utf8_char. unfold scalar_value in Hc.
    repeat match goal with |- context [if ?b then _ else _] => destruct b eqn:? end; eauto.
    bool_hyps. lia. }
  rewrite IH. eauto.
Qed.

(** Replacing never fails. *)
Lemma utf8_replace_total bs : ∃ s, utf8_decode true bs = Ok s.
Proof.
  remember (length bs) as n eqn:Hn. revert bs Hn.
  induction n as [n IH] using lt_wf_ind. intros bs ->.
  assert (∀ l, length l < length bs → ∃ s, utf8_decode true l = Ok s) as IH' by eauto.
  destruct bs as [|b0 r0]; [by eexists|]. cbn [length] in IH'.
  destruct (IH' r0) as [s0 E0]; [lia|]. cbn [utf8_decode bad_utf8]. unfold bad_utf8. rewrite !E0.
  destruct (in_range 0 127 b0); [eauto|].
  destruct r0 as [|b1 r1]; [repeat case_match; eauto|]. destruct (IH' r1) as [s1 E1]; [cbn; lia|]. rewrite !E1.
  destruct (in_range 194 223 b0); [case_match; eauto|].
  destruct r1 as [|b2 r2]; [repeat case_match; eauto|]. destruct (IH' r2) as [s2 E2]; [cbn; lia|]. rewrite !E2.
  destruct (in_range 224 239 b0); [repeat case_match; eauto|].
  destruct r2 as [|b3 r3]; [repeat case_match; eauto|]. destruct (IH' r3) as [s3 E3]; [cbn; lia|]. rewrite !E3.
  repeat case_match; eauto.
Qed.
