(* ===== verification/Toml.v ===== *)
(** * Reading TOML (the tomllib module)

    [tomllib.loads] on documents of tables, keys and scalar values: comments, [[table]] headers and
    [key = value] lines with bare or quoted keys, basic and literal strings, booleans and decimal integers.
    None of these constructs spans a line break (a string that meets one is an error), so a document is read
    line by line.  Dotted keys, arrays, inline tables, multi-line strings, floats, dates, numbers in other
    bases and malformed numbers end the reading with [Unmodelled]; a document without them is read as Python reads it.  Every error
    tomllib reports is a [TOMLDecodeError], a [ValueError]. *)

From S2P Require Import Prelude Bytes PyDict PyText Utf8.

Inductive scalar :=
| SInt (n : Z)
| SBool (b : bool)
| SStr (s : pystr).

Inductive toml_value :=
| TScalar (v : scalar)
| TTable (t : dict pystr scalar).

#[export] Instance scalar_eq_dec : EqDecision scalar.
Proof. solve_decision. Defined.
#[export] Instance toml_value_eq_dec : EqDecision toml_value.
Proof. solve_decision. Defined.

(** ** Characters *)

Definition quote : Z := 34.
Definition backslash : Z := 92.
Definition newline : Z := 10.

Definition toml_ws (c : Z) : bool := ((c =? 32) || (c =? 9))%Z.

(** [ILLEGAL_BASIC_STR_CHARS], also of comments and literal strings *)
Definition toml_illegal (c : Z) : bool := ((c <? 32) && negb (c =? 9) || (c =? 127))%Z.

Definition is_digit (c : Z) : bool := ((48 <=? c) && (c <=? 57))%Z.
Definition is_letter (c : Z) : bool := ((65 <=? c) && (c <=? 90) || (97 <=? c) && (c <=? 122))%Z.
Definition bare_key_char (c : Z) : bool := is_letter c || is_digit c || (c =? 45)%Z || (c =? 95)%Z.

Fixpoint skip_ws (s : pystr) : pystr :=
  match s with c :: s' => if toml_ws c then skip_ws s' else s | [] => [] end.

(** The longest prefix of characters that satisfy [p], and the rest. *)
Fixpoint span (p : Z → bool) (s : pystr) : pystr * pystr :=
  match s with
  | [] => ([], [])
  | c :: s' => if p c then let '(a, r) := span p s' in (c :: a, r) else ([], s)
  end.

(** ** Strings *)

(** [parse_hex_char] on the digits of an escape *)
Definition hex_char (ds : pystr) : result Z :=
  match parse_digits 16 ds with
  | None => Raise ValueError
  | Some vs => let n := of_digits 16 vs in
               if bool_decide (scalar_value n) then Ok n else Raise ValueError
  end.

(** [BASIC_STR_ESCAPE_REPLACEMENTS] *)
Definition escape_char (c : Z) : option Z :=
  if (c =? 98)%Z then Some 8%Z else if (c =? 116)%Z then Some 9%Z else if (c =? 110)%Z then Some 10%Z
  else if (c =? 102)%Z then Some 12%Z else if (c =? 114)%Z then Some 13%Z
  else if (c =? 34)%Z then Some 34%Z else if (c =? 92)%Z then Some 92%Z else None.

(** [parse_basic_str(src, pos, multiline=False)] after the opening quote: the string and what follows it *)
Fixpoint parse_basic_str (s : pystr) : result (pystr * pystr) :=
  match s with
  | [] => Raise ValueError
  | c :: s1 =>
      if (c =? 34)%Z then Ok ([], s1)
      else if (c =? 92)%Z then
        match s1 with
        | e :: s2 =>
            if (e =? 117)%Z then
              match s2 with
              | a :: b :: x :: y :: s3 =>
                  n ← hex_char [a; b; x; y]; r ← parse_basic_str s3; Ok (n :: r.1, r.2)
              | _ => Raise ValueError
              end
            else if (e =? 85)%Z then
              match s2 with
              | a :: b :: x :: y :: a' :: b' :: x' :: y' :: s3 =>
                  n ← hex_char [a; b; x; y; a'; b'; x'; y']; r ← parse_basic_str s3; Ok (n :: r.1, r.2)
              | _ => Raise ValueError
              end
            else match escape_char e with
                 | Some d => r ← parse_basic_str s2; Ok (d :: r.1, r.2)
                 | None => Raise ValueError
                 end
        | [] => Raise ValueError
        end
      else if toml_illegal c then Raise ValueError
      else r ← parse_basic_str s1; Ok (c :: r.1, r.2)
  end.

(** [parse_literal_str] after the opening apostrophe *)
Definition parse_literal_str (s : pystr) : result (pystr * pystr) :=
  match str_partition 39 s with
  | (body, Some rest) => if existsb toml_illegal body then Raise ValueError else Ok (body, rest)
  | (_, None) => Raise ValueError
  end.

(** ** Keys and values *)

(** [parse_key]: one part, then blanks; a dot would make it a dotted key *)
Definition parse_key_part (s : pystr) : result (pystr * pystr) :=
  match s with
  | c :: s' =>
      if bare_key_char c then Ok (span bare_key_char s)
      else if (c =? 39)%Z then parse_literal_str s'
      else if (c =? 34)%Z then parse_basic_str s'
      else Raise ValueError
  | [] => Raise ValueError
  end.

Definition parse_key (s : pystr) : result (pystr * pystr) :=
  k ← parse_key_part s;
  match skip_ws k.2 with
  | c :: _ => if (c =? 46)%Z then Raise Unmodelled else Ok (k.1, skip_ws k.2)
  | [] => Ok (k.1, [])
  end.

(** [[1-9](?:_?[0-9])*] or [0]: the digits without underscores *)
Definition decimal (s : pystr) : option Z :=
  match s with
  | [c] => if is_digit c then Some (c - 48)%Z else None
  | c :: _ =>
      if is_digit c && negb (c =? 48)%Z then
        ds ← drop_underscores false s;
        match int_base 10 ds with Ok n => Some n | Raise _ => None end
      else None
  | [] => None
  end.

(** An optional sign and a decimal integer; the limit of the interpreter on the number of digits (4300) is not
    modelled. *)
Definition signed_decimal (s : pystr) : option Z :=
  match s with
  | c :: t => if (c =? 45)%Z then Z.opp <$> decimal t
              else if (c =? 43)%Z then decimal t
              else decimal s
  | [] => None
  end.

(** The characters numbers and dates are made of. *)
Definition number_char (c : Z) : bool :=
  bare_key_char c || (c =? 46)%Z || (c =? 58)%Z || (c =? 43)%Z.

Definition parse_value (s : pystr) : result (scalar * pystr) :=
  match s with
  | [] => Raise ValueError
  | c :: s1 =>
      if (c =? 34)%Z then
        if str_startswith [34; 34; 34]%Z s then Raise Unmodelled
        else r ← parse_basic_str s1; Ok (SStr r.1, r.2)
      else if (c =? 39)%Z then
        if str_startswith [39; 39; 39]%Z s then Raise Unmodelled
        else r ← parse_literal_str s1; Ok (SStr r.1, r.2)
      else if str_startswith (str "true") s then Ok (SBool true, drop 4 s)
      else if str_startswith (str "false") s then Ok (SBool false, drop 5 s)
      else if ((c =? 91) || (c =? 123))%Z then Raise Unmodelled
      else if is_digit c || (c =? 43)%Z || (c =? 45)%Z || (c =? 105)%Z || (c =? 110)%Z then
        let '(tok, rest) := span number_char s in
        match signed_decimal tok with
        | Some n => Ok (SInt n, rest)
        | None => Raise Unmodelled
        end
      else Raise ValueError
  end.

(** ** Lines *)

(** The tables read so far and the table the next keys go to. *)
Record toml_state := mkToml { tm_out : dict pystr toml_value; tm_header : option pystr }.

(** The end of a statement: blanks, perhaps a comment, then the end of the line. *)
Definition end_of_line (s : pystr) : result () :=
  match skip_ws s with
  | [] => Ok ()
  | c :: s' => if (c =? 35)%Z then guard_raise (negb (existsb toml_illegal s')) ValueError
               else Raise ValueError
  end.

(** [key_value_rule] *)
Definition put_value (st : toml_state) (k : pystr) (v : scalar) : result toml_state :=
  match tm_header st with
  | None =>
      if dmem (tm_out st) k then Raise ValueError
      else Ok (mkToml (dset (tm_out st) k (TScalar v)) None)
  | Some h =>
      match dget (tm_out st) h with
      | Some (TTable t) =>
          if dmem t k then Raise ValueError
          else Ok (mkToml (dset (tm_out st) h (TTable (dset t k v))) (Some h))
      | _ => Raise ValueError
      end
  end.

(** [create_dict_rule]: a key that is a table already was declared by a header, any other is a value *)
Definition open_table (st : toml_state) (k : pystr) : result toml_state :=
  if dmem (tm_out st) k then Raise ValueError
  else Ok (mkToml (dset (tm_out st) k (TTable [])) (Some k)).

(** One line of the document. *)
Definition toml_line (st : toml_state) (line : pystr) : result toml_state :=
  match skip_ws line with
  | [] => Ok st
  | c :: s =>
      if bare_key_char c || (c =? 34)%Z || (c =? 39)%Z then
        k ← parse_key (c :: s);
        match k.2 with
        | e :: s2 =>
            if (e =? 61)%Z then
              v ← parse_value (skip_ws s2);
              st' ← put_value st k.1 v.1;
              end_of_line v.2 ≫= λ _, Ok st'
            else Raise ValueError
        | [] => Raise ValueError
        end
      else if (c =? 91)%Z then
        match s with
        | d :: _ =>
            if (d =? 91)%Z then Raise Unmodelled else
            k ← parse_key (skip_ws s);
            st' ← open_table st k.1;
            match k.2 with
            | e :: s2 => if (e =? 93)%Z then end_of_line s2 ≫= λ _, Ok st' else Raise ValueError
            | [] => Raise ValueError
            end
        | [] => Raise ValueError
        end
      else end_of_line (c :: s) ≫= λ _, Ok st
  end.

(** [s.replace("\r\n", "\n")] *)
Fixpoint unix_lines (s : pystr) : pystr :=
  match s with
  | [] => []
  | c :: s' =>
      if (c =? 13)%Z then
        match s' with
        | d :: s'' => if (d =? 10)%Z then 10%Z :: unix_lines s'' else c :: unix_lines s'
        | [] => [c]
        end
      else c :: unix_lines s'
  end.

Definition toml_loads (s : pystr) : result (dict pystr toml_value) :=
  st ← mfor toml_line (str_split 10 (unix_lines s)) (mkToml [] None);
  Ok (tm_out st).

(** [tomllib.load] of a file's contents *)
Definition toml_load (bs : bytes) : result (dict pystr toml_value) :=
  s ← utf8_decode false bs; toml_loads s.

(** ** Reading what was rendered *)

(** [s.replace(c, r)] for a one-character [c] *)
Definition str_replace (c : Z) (r s : pystr) : pystr := x ← s; if (x =? c)%Z then r else [x].

(** The escaping of a string value: backslashes first, then quotes. *)
Definition toml_escape (s : pystr) : pystr := str_replace 34 [92; 34]%Z (str_replace 92 [92; 92]%Z s).

Definition escape_one (x : Z) : pystr :=
  if (x =? 92)%Z then [92; 92]%Z else if (x =? 34)%Z then [92; 34]%Z else [x].

Lemma toml_escape_cons x s : toml_escape (x :: s) = escape_one x ++ toml_escape s.
Proof.
  unfold toml_escape, str_replace, escape_one. cbn.
  destruct (Z.eqb_spec x 92) as [->|]; [done|]. cbn. by destruct (x =? 34)%Z.
Qed.

(** The characters a basic string may contain unescaped or with the two escapes. *)
Definition toml_char (c : Z) : Prop := toml_illegal c = false.

Lemma parse_basic_escape s rest :
  Forall toml_char s → parse_basic_str (toml_escape s ++ 34%Z :: rest) = Ok (s, rest).
Proof.
  induction 1 as [|x s Hx _ IH]; [done|]. rewrite toml_escape_cons, <- app_assoc. unfold escape_one.
  destruct (Z.eqb_spec x 92) as [->|H92]; [cbn; by rewrite IH|].
  destruct (Z.eqb_spec x 34) as [->|H34]; [cbn; by rewrite IH|].
  cbn [app parse_basic_str]. rewrite (proj2 (Z.eqb_neq x 34)), (proj2 (Z.eqb_neq x 92)) by done.
  unfold toml_char in Hx. rewrite Hx, IH. done.
Qed.

Lemma parse_value_str s rest :
  Forall toml_char s → (∀ r, rest ≠ 34%Z :: r) →
  parse_value (34%Z :: toml_escape s ++ 34%Z :: rest) = Ok (SStr s, rest).
Proof.
  intros Hs Hr. unfold parse_value. change (34 =? 34)%Z with true. cbv iota.
  assert (str_startswith [34; 34; 34]%Z (34%Z :: toml_escape s ++ 34%Z :: rest) = false) as ->.
  { destruct s as [|x s].
    { destruct rest as [|c r]; [done|]. change (str_startswith [34%Z] (c :: r) = false). cbn [str_startswith].
      destruct (Z.eqb_spec 34 c) as [<-|]; [by destruct (Hr r)|done]. }
    rewrite toml_escape_cons. unfold escape_one.
    destruct (x =? 92)%Z; [done|]. destruct (Z.eqb_spec x 34) as [->|Hx]; [done|]. cbn [app str_startswith].
    rewrite (proj2 (Z.eqb_neq 34 x)) by done. done. }
  by rewrite parse_basic_escape.
Qed.

Lemma span_stop p a rest :
  Forall (λ c, p c = true) a → match rest with c :: _ => p c = false | [] => True end →
  span p (a ++ rest) = (a, rest).
Proof.
  intros Ha Hr. induction Ha as [|c a Hc _ IH]; cbn; [destruct rest as [|c r]; cbn; [done|by rewrite Hr]|].
  by rewrite Hc, IH.
Qed.

Lemma digits_lead fuel b n :
  (2 ≤ b)%Z → (0 < n < b * 2 ^ Z.of_nat fuel)%Z → ∃ d ds, digits fuel b n [] = d :: ds ∧ (0 < d)%Z.
Proof.
  intros Hb. revert n. induction fuel as [|f IH]; intros n Hn.
  - exists n, []. split; [done|lia].
  - cbn [digits]. destruct (Z.ltb_spec n b); [exists n, []; split; [done|lia]|].
    rewrite digits_acc. rewrite Nat2Z.inj_succ, Z.pow_succ_r in Hn by lia.
    destruct (IH (n / b)%Z) as (d & ds & -> & Hd).
    { split; [apply Z.div_str_pos; lia|]. apply Z.div_lt_upper_bound; nia. }
    exists d, (ds ++ [(n mod b)%Z]). done.
Qed.

Lemma to_digits_lead n : (0 < n)%Z → ∃ d ds, to_digits 10 n = d :: ds ∧ (0 < d)%Z.
Proof.
  intros Hn. apply digits_lead; [lia|]. split; [done|]. rewrite Z2Nat.id by apply Z.log2_nonneg.
  pose proof (Z.log2_spec n Hn). rewrite Z.pow_succ_r in *; [nia|apply Z.log2_nonneg].
Qed.

Lemma decimal_render n : (0 ≤ n)%Z → decimal (str_of_Z n) = Some n.
Proof.
  intros Hn. destruct (decide (n = 0)%Z) as [->|Hz]; [done|].
  unfold str_of_Z. rewrite (proj2 (Z.ltb_ge n 0)) by done.
  pose proof (λ c, dec_chars n c Hn) as Hch. pose proof (int_base_render 10 n ltac:(lia) Hn) as Hr.
  destruct (to_digits_lead n ltac:(lia)) as (d & ds & E & Hd).
  destruct (to_digits_spec 10 n ltac:(lia) Hn) as [Hof HF]. rewrite E in *. apply Forall_cons in HF as [Hd10 HF].
  cbn [fmap list_fmap] in *.
  assert (digit_char d = 48 + d)%Z as Ed by (unfold digit_char; by rewrite (proj2 (Z.ltb_lt d 10)) by lia).
  assert (is_digit (digit_char d) = true) as Hdig.
  { unfold is_digit. specialize (Hch (digit_char d) ltac:(set_solver)). apply andb_true_iff. rewrite !Z.leb_le. lia. }
  unfold decimal. destruct (digit_char <$> ds) as [|c t] eqn:Et.
  - apply fmap_nil_inv in Et. subst ds. rewrite Hdig. cbn in Hof. f_equal. lia.
  - rewrite Hdig, (proj2 (Z.eqb_neq (digit_char d) 48)) by lia. cbn [andb negb].
    rewrite drop_underscores_digits by (by right || (intros c' Hc'%Hch; lia)). cbn [mbind option_bind].
    by rewrite Hr.
Qed.

Lemma parse_value_int n : (0 ≤ n)%Z → parse_value (str_of_Z n) = Ok (SInt n, []).
Proof.
  intros Hn. pose proof (decimal_render n Hn) as Hdec.
  assert (Forall (λ c, 48 ≤ c ≤ 57)%Z (str_of_Z n)) as Hch.
  { apply Forall_forall. intros c. unfold str_of_Z. rewrite (proj2 (Z.ltb_ge n 0)) by done. by apply dec_chars. }
  assert (span number_char (str_of_Z n) = (str_of_Z n, [])) as Hspan.
  { rewrite <- (app_nil_r (str_of_Z n)) at 1. apply span_stop; [|done]. eapply Forall_impl; [exact Hch|].
    intros c Hc; cbv beta in Hc. unfold number_char, bare_key_char, is_digit.
    rewrite (proj2 (Z.leb_le 48 c)), (proj2 (Z.leb_le c 57)) by lia. by rewrite orb_true_r. }
  assert (signed_decimal (str_of_Z n) = Some n) as Hs.
  { destruct (str_of_Z n) as [|c t]; [done|]. apply Forall_cons in Hch as [Hc _]; cbv beta in Hc. cbn [signed_decimal].
    by rewrite (proj2 (Z.eqb_neq c 45)), (proj2 (Z.eqb_neq c 43)) by lia. }
  destruct (str_of_Z n) as [|c t] eqn:E; [done|]. apply Forall_cons in Hch as [Hc _]; cbv beta in Hc.
  unfold parse_value. rewrite Hspan, Hs. unfold is_digit.
  rewrite (proj2 (Z.eqb_neq c 34)), (proj2 (Z.eqb_neq c 39)), (proj2 (Z.eqb_neq c 91)), (proj2 (Z.eqb_neq c 123)),
    (proj2 (Z.leb_le 48 c)), (proj2 (Z.leb_le c 57)) by lia.
  assert (str_startswith (str "true") (c :: t) = false) as ->.
  { cbn [str_startswith]. change (str "true") with [116; 114; 117; 101]%Z. cbn [str_startswith].
    by rewrite (proj2 (Z.eqb_neq 116 c)) by lia. }
  assert (str_startswith (str "false") (c :: t) = false) as ->.
  { change (str "false") with [102; 97; 108; 115; 101]%Z. cbn [str_startswith].
    by rewrite (proj2 (Z.eqb_neq 102 c)) by lia. }
  done.
Qed.

(** A [key = value] line and a header line. *)
Lemma toml_kv_line st k text v st' :
  k ≠ [] → Forall (λ c, bare_key_char c = true) k → skip_ws text = text →
  parse_value text = Ok (v, []) → put_value st k v = Ok st' →
  toml_line st (k ++ str " = " ++ text) = Ok st'.
Proof.
  intros Hne Hk Hws Hv Hput. unfold toml_line. destruct k as [|c k]; [done|].
  pose proof Hk as Hk'. apply Forall_cons in Hk as [Hc _].
  assert (toml_ws c = false) as Hcw.
  { unfold toml_ws. destruct (Z.eqb_spec c 32) as [->|]; [done|]. by destruct (Z.eqb_spec c 9) as [->|]. }
  cbn [app skip_ws]. rewrite Hcw, Hc. cbn [orb].
  unfold parse_key, parse_key_part. rewrite Hc.
  change (c :: k ++ str " = " ++ text) with ((c :: k) ++ str " = " ++ text).
  rewrite (span_stop bare_key_char (c :: k) (str " = " ++ text)) by done.
  cbn [mbind result_bind fst snd]. change (str " = " ++ text) with (32 :: 61 :: 32 :: text)%Z.
  cbn [skip_ws]. change (toml_ws 32) with true. change (toml_ws 61) with false. cbv iota.
  change (61 =? 46)%Z with false. cbv iota. cbn [mbind result_bind fst snd].
  change (61 =? 61)%Z with true. cbv iota. change (skip_ws (32%Z :: text)) with (skip_ws text). rewrite Hws, Hv. cbn [mbind result_bind fst snd].
  by rewrite Hput.
Qed.

Lemma unix_lines_id s : 13%Z ∉ s → unix_lines s = s.
Proof.
  induction s as [|c s IH]; intros Hc; [done|]. cbn. rewrite (proj2 (Z.eqb_neq c 13)) by set_solver.
  rewrite IH by set_solver. done.
Qed.

(** Lines that end with a line feed. *)
Definition unlines (ls : list pystr) : pystr := concat ((λ l, l ++ [10%Z]) <$> ls).

Lemma str_split_unlines ls : Forall (λ l, 10%Z ∉ l) ls → str_split 10 (unlines ls) = ls ++ [[]].
Proof.
  induction 1 as [|l ls Hl _ IH]; [done|]. cbn. rewrite <- app_assoc. cbn [app]. rewrite str_split_app by done.
  by rewrite <- IH.
Qed.

Lemma mfor_app {S A} (body : S → A → result S) l k s :
  mfor body (l ++ k) s = (s' ← mfor body l s; mfor body k s').
Proof.
  revert s. induction l as [|x l IH]; intros s; cbn; [done|]. destruct (body s x); cbn; [apply IH|done].
Qed.

Lemma toml_loads_lines ls st :
  Forall (λ l, (10%Z ∉ l) ∧ (13%Z ∉ l)) ls → mfor toml_line ls (mkToml [] None) = Ok st →
  toml_loads (unlines ls) = Ok (tm_out st).
Proof.
  intros Hls Hst. unfold toml_loads. rewrite unix_lines_id.
  2:{ intros Hin. apply list_elem_of_In, in_concat in Hin as (w & Hw & Hin).
      apply list_elem_of_In, list_elem_of_fmap in Hw as (l & -> & Hl). apply list_elem_of_In in Hin.
      rewrite Forall_forall in Hls. apply Hls in Hl as [_ Hl]. set_solver. }
  rewrite str_split_unlines by (eapply Forall_impl; [exact Hls|]; by intros l []).
  rewrite mfor_app, Hst. done.
Qed.

(** ** Errors *)

(** [raises P c]: if [c] raises, then an exception that satisfies [P]. *)
Definition raises {A} (P : exn → Prop) (c : result A) : Prop := ∀ e, c = Raise e → P e.

Lemma raises_ok {A} P (a : A) : raises P (Ok a).
Proof. by intros e. Qed.
Lemma raises_raise {A} (P : exn → Prop) e : P e → raises P (Raise (A:=A) e).
Proof. by intros H e' [= <-]. Qed.
Lemma raises_bind {A B} P (c : result A) (k : A → result B) :
  raises P c → (∀ a, c = Ok a → raises P (k a)) → raises P (c ≫= k).
Proof. intros Hc Hk e. destruct c as [a|e']; cbn; [by apply Hk|]. intros [= <-]. by apply Hc. Qed.
Lemma raises_impl {A} (P Q : exn → Prop) (c : result A) : (∀ e, P e → Q e) → raises P c → raises Q c.
Proof. intros H Hc e E. by apply H, Hc. Qed.
Lemma raises_guard P b e : P e → raises P (guard_raise b e).
Proof. intros H. destruct b; [apply raises_ok|by apply raises_raise]. Qed.

Create HintDb raises_db.
#[export] Hint Resolve raises_ok raises_raise raises_guard : raises_db.

(** [raises_auto] walks through binds and case distinctions. *)
Ltac raises_auto :=
  repeat first
    [ progress intros
    | solve [auto with raises_db]
    | apply raises_bind
    | case_match ].

Definition toml_error (e : exn) : Prop := e = ValueError ∨ e = Unmodelled.
Lemma toml_error_value : toml_error ValueError.
Proof. by left. Qed.
Lemma toml_error_unmodelled : toml_error Unmodelled.
Proof. by right. Qed.
#[export] Hint Resolve toml_error_value toml_error_unmodelled : raises_db.

Lemma parse_basic_str_errors s : raises toml_error (parse_basic_str s).
Proof.
  remember (length s) as n eqn:Hn. revert s Hn. induction n as [n IH] using lt_wf_ind. intros s ->.
  assert (∀ t, length t < length s → raises toml_error (parse_basic_str t)) as IH' by eauto. clear IH.
  destruct s as [|c s1]; cbn [parse_basic_str]; [auto with raises_db|].
  case_match; [auto with raises_db|]. case_match.
  - destruct s1 as [|e s2]; [auto with raises_db|]. case_match; [|case_match].
    + destruct s2 as [|a [|b [|x [|y s3]]]]; auto with raises_db. unfold hex_char.
      apply raises_bind; [raises_auto|]. intros. apply raises_bind; [apply IH'; cbn; lia|auto with raises_db].
    + destruct s2 as [|a [|b [|x [|y [|a' [|b' [|x' [|y' s3]]]]]]]]; auto with raises_db. unfold hex_char.
      apply raises_bind; [raises_auto|]. intros. apply raises_bind; [apply IH'; cbn; lia|auto with raises_db].
    + case_match; [|auto with raises_db]. apply raises_bind; [apply IH'; cbn; lia|auto with raises_db].
  - case_match; [auto with raises_db|]. apply raises_bind; [apply IH'; cbn; lia|auto with raises_db].
Qed.

Lemma parse_literal_str_errors s : raises toml_error (parse_literal_str s).
Proof. unfold parse_literal_str. raises_auto. Qed.
#[export] Hint Resolve parse_basic_str_errors parse_literal_str_errors : raises_db.

Lemma parse_key_errors s : raises toml_error (parse_key s).
Proof. unfold parse_key, parse_key_part. raises_auto. Qed.
Lemma parse_value_errors s : raises toml_error (parse_value s).
Proof. unfold parse_value. raises_auto. Qed.
Lemma put_value_errors st k v : raises toml_error (put_value st k v).
Proof. unfold put_value. raises_auto. Qed.
Lemma end_of_line_errors s : raises toml_error (end_of_line s).
Proof. unfold end_of_line. raises_auto. Qed.
#[export] Hint Resolve parse_key_errors parse_value_errors put_value_errors end_of_line_errors : raises_db.

Lemma toml_line_errors st line : raises toml_error (toml_line st line).
Proof. unfold toml_line, open_table. raises_auto. Qed.

Lemma mfor_errors {S A} P (body : S → A → result S) l s : (∀ s x, raises P (body s x)) → raises P (mfor body l s).
Proof. intros H. revert s. induction l as [|x l IH]; intros s; [apply raises_ok|]. by apply raises_bind. Qed.

(** Reading a document raises [TOMLDecodeError], a [ValueError], and nothing else. *)
Lemma toml_loads_errors s : raises toml_error (toml_loads s).
Proof. unfold toml_loads. apply raises_bind; [apply mfor_errors, toml_line_errors|auto with raises_db]. Qed.

