(* ===== verification/PyCase.v ===== *)
(** * Upper and lower case

    [s.upper()] and [s.lower()] follow tables of the Unicode database that the interpreter is built with.  They
    are the operations of an interface here; its laws say what they do on ASCII text.  [ascii_case] is an
    instance. *)

From S2P Require Import Prelude PyText.

Class CaseMap := { str_upper : pystr → pystr; str_lower : pystr → pystr }.

Definition is_ascii_char (c : Z) : Prop := (0 ≤ c < 128)%Z.
Definition ascii_upper (c : Z) : Z := if ((97 <=? c) && (c <=? 122))%Z then (c - 32)%Z else c.
Definition ascii_lower (c : Z) : Z := if ((65 <=? c) && (c <=? 90))%Z then (c + 32)%Z else c.

Class CaseLaws (C : CaseMap) : Prop := {
  upper_ascii s : Forall is_ascii_char s → str_upper s = ascii_upper <$> s;
  lower_ascii s : Forall is_ascii_char s → str_lower s = ascii_lower <$> s }.

Module AsciiCase.
#[export] Instance ascii_case : CaseMap :=
  {| str_upper s := ascii_upper <$> s; str_lower s := ascii_lower <$> s |}.
#[export] Instance ascii_case_laws : CaseLaws ascii_case.
Proof. split; done. Qed.
End AsciiCase.
