(* ===== verification/Disk.v ===== *)
(** * The files of the program's directory

    Files with their permission bits, and the directories that exist.  The code that works on them is a computation
    [IO A]: what was written before an exception stays written.  Errors of the operating system other than a missing
    file (permissions, a full disk, a file where a directory should be) are not modelled. *)

From S2P Require Import Prelude Bytes PyText.

Record file := mkFile { f_data : bytes; f_mode : Z }.

Record disk := mkDisk { dk_dirs : gset pystr; dk_files : gmap pystr file; dk_umask : Z }.

Definition IO (A : Type) : Type := disk → disk * result A.

#[export] Instance IO_ret : MRet IO := fun A a d => (d, Ok a).
#[export] Instance IO_bind : MBind IO := fun A B k c d =>
  match c d with
  | (d', Ok a) => k a d'
  | (d', Raise e) => (d', Raise e)
  end.

Definition io_lift {A} (r : result A) : IO A := λ d, (d, r).

(** [a / b] on paths *)
Definition path_join (a b : pystr) : pystr := a ++ [47%Z] ++ b.

(** The directories above a path. *)
Fixpoint path_parents (acc p : pystr) : list pystr :=
  match p with
  | [] => []
  | c :: p => (if (c =? 47)%Z then [acc] else []) ++ path_parents (acc ++ [c]) p
  end.

Definition set_files (fs : gmap pystr file) (d : disk) : disk := mkDisk (dk_dirs d) fs (dk_umask d).
Definition set_dirs (s : gset pystr) (d : disk) : disk := mkDisk s (dk_files d) (dk_umask d).

(** [path.mkdir(parents=parents, exist_ok=True)] *)
Definition mkdir (parents : bool) (p : pystr) : IO () := λ d,
  (set_dirs (dk_dirs d ∪ {[p]} ∪ (if parents then list_to_set (path_parents [] p) else ∅)) d, Ok ()).

Definition file_exists (p : pystr) : IO bool := λ d, (d, Ok (bool_decide (is_Some (dk_files d !! p)))).

(** [path.read_bytes()] *)
Definition read_bytes (p : pystr) : IO bytes := λ d,
  (d, match dk_files d !! p with Some f => Ok (f_data f) | None => Raise FileNotFoundError end).

(** Opening for writing: a new file gets the mode the umask leaves, an existing one keeps its own and is emptied. *)
Definition truncate (p : pystr) : IO () := λ d,
  (set_files (<[p := mkFile [] (default (Z.land 438 (Z.lnot (dk_umask d))) (f_mode <$> dk_files d !! p))]> (dk_files d)) d,
   Ok ()).

Definition put_data (p : pystr) (bs : bytes) : IO () := λ d,
  (set_files (alter (λ f, mkFile bs (f_mode f)) p (dk_files d)) d, Ok ()).

(** [path.write_bytes(bs)] *)
Definition write_bytes (p : pystr) (bs : bytes) : IO () := truncate p ≫= λ _, put_data p bs.

(** [path.write_text(s, encoding="utf-8")]: the file is emptied before the text is encoded *)
Definition write_text (p s : pystr) : IO () :=
  truncate p ≫= λ _, bs ← io_lift (utf8_encode s); put_data p bs.

(** [os.chmod(path, mode)] *)
Definition chmod (p : pystr) (mode : Z) : IO () := λ d,
  match dk_files d !! p with
  | Some f => (set_files (<[p := mkFile (f_data f) mode]> (dk_files d)) d, Ok ())
  | None => (d, Raise FileNotFoundError)
  end.

(** ** Lemmas *)

Lemma io_bind_eq {A B} (c : IO A) (k : A → IO B) d :
  (c ≫= k) d = match c d with (d', Ok a) => k a d' | (d', Raise e) => (d', Raise e) end.
Proof. done. Qed.

Lemma io_bind_ok {A B} (c : IO A) (k : A → IO B) d d' a : c d = (d', Ok a) → (c ≫= k) d = k a d'.
Proof. intros H. rewrite io_bind_eq. by rewrite H. Qed.

Lemma io_bind_raise {A B} (c : IO A) (k : A → IO B) d d' e : c d = (d', Raise e) → (c ≫= k) d = (d', Raise e).
Proof. intros H. rewrite io_bind_eq. by rewrite H. Qed.

(** The contents of a file. *)
Definition contents (d : disk) (p : pystr) : option bytes := f_data <$> dk_files d !! p.

Lemma write_bytes_spec p bs d :
  ∃ d', write_bytes p bs d = (d', Ok ()) ∧ contents d' p = Some bs ∧
    (∀ q, q ≠ p → dk_files d' !! q = dk_files d !! q) ∧ dk_dirs d' = dk_dirs d ∧ dk_umask d' = dk_umask d.
Proof.
  eexists. split; [reflexivity|]. unfold contents. cbn. rewrite lookup_alter_eq, lookup_insert_eq. split_and!; try done.
  intros q Hq. by rewrite lookup_alter_ne, lookup_insert_ne.
Qed.

Lemma write_text_spec p s bs d :
  utf8_encode s = Ok bs →
  ∃ d', write_text p s d = (d', Ok ()) ∧ contents d' p = Some bs ∧
    (∀ q, q ≠ p → dk_files d' !! q = dk_files d !! q) ∧ dk_dirs d' = dk_dirs d ∧ dk_umask d' = dk_umask d.
Proof.
  intros Hs. destruct (write_bytes_spec p bs d) as (d' & E & H). exists d'. split; [|exact H].
  unfold write_text, write_bytes in *. rewrite io_bind_eq in *. cbn in E |- *. unfold io_lift. rewrite io_bind_eq.
  by rewrite Hs.
Qed.
