(* ===== verification/Config.v ===== *)
(** * Configuration (config.py)

    The sections of [config.toml], their validation, and loading, rendering, saving and updating of the file.  A
    number read from TOML may also be a boolean (a Python [bool] is an [int]), so the numeric fields are [scalar]s.
    Directories and files are those of [Disk]. *)

From S2P Require Import Prelude Bytes PyDict PyText Utf8 Toml PyCase Disk.

(** ** Sections *)

Record NetworkConfig := mkNetwork { udp_port : scalar; max_peers : scalar; overlay_k : scalar }.
Record StorageConfig := mkStorage { message_log_limit_mb : scalar; max_log_rotations : scalar }.
Record DebugConfig := mkDebug { log_level : pystr }.
Record ProfileConfig := mkProfile { nickname : pystr }.
Record AshiChatConfig := mkConfig {
  cfg_network : NetworkConfig; cfg_storage : StorageConfig; cfg_debug : DebugConfig;
  cfg_profile : ProfileConfig; cfg_base_dir : pystr }.

Definition default_network : NetworkConfig := mkNetwork (SInt 9000) (SInt 500) (SInt 50).
Definition default_storage : StorageConfig := mkStorage (SInt 100) (SInt 3).
Definition default_debug : DebugConfig := mkDebug (str "INFO").
Definition default_profile : ProfileConfig := mkProfile [].
Definition default_config (base_dir : pystr) : AshiChatConfig :=
  mkConfig default_network default_storage default_debug default_profile base_dir.

(** A text in double quotes. *)
Definition quoted (s : pystr) : pystr := [quote] ++ s ++ [quote].

(** [_DEFAULT_TOML]; its first line has a dash outside of ASCII *)
Definition DEFAULT_TOML : pystr := unlines
  [str "# AshiChat configuration " ++ [8212%Z] ++ str " https://github.com/AshiChat";
   str "# Edit values below. Restart AshiChat for changes to take effect.";
   [];
   str "[network]"; str "udp_port = 9000"; str "max_peers = 500"; str "overlay_k = 50"; [];
   str "[storage]"; str "message_log_limit_mb = 100"; str "max_log_rotations = 3"; [];
   str "[debug]"; str "log_level = " ++ quoted (str "INFO"); [];
   str "[profile]"; str "nickname = " ++ quoted []].

(** ** Validation *)

(** A value in an arithmetic comparison. *)
Definition scalar_int (v : scalar) : result Z :=
  match v with SInt n => Ok n | SBool b => Ok (Z.b2z b) | SStr _ => Raise TypeError end.

Definition validate_port (port : scalar) : result () :=
  n ← scalar_int port; guard_raise ((1 <=? n) && (n <=? 65535))%Z ValueError.

Definition validate_positive (value : scalar) : result () :=
  n ← scalar_int value; guard_raise (negb (n <? 1)%Z) ValueError.

Definition LOG_LEVELS : list pystr :=
  [str "DEBUG"; str "INFO"; str "WARNING"; str "ERROR"; str "CRITICAL"].

Definition validate_nickname (nickname : pystr) : result () :=
  if (32 <? length nickname)%nat then Raise ValueError
  else guard_raise (negb (existsb (λ ch, ch <? 32)%Z nickname)) ValueError.

(** [value.upper()] *)
Definition scalar_upper `{CaseMap} (v : scalar) : result pystr :=
  match v with SStr s => Ok (str_upper s) | _ => Raise AttributeError end.

Definition validate_log_level `{CaseMap} (level : scalar) : result () :=
  u ← scalar_upper level; guard_raise (bool_decide (u ∈ LOG_LEVELS)) ValueError.

(** ** Parsing *)

(** [raw.get(key, default)] on a section *)
Definition get_or (raw : dict pystr scalar) (key : string) (dflt : scalar) : scalar :=
  default dflt (dget raw (str key)).

Definition parse_network (raw : dict pystr scalar) : result NetworkConfig :=
  let port := get_or raw "udp_port" (SInt 9000) in
  let max_peers := get_or raw "max_peers" (SInt 500) in
  let overlay_k := get_or raw "overlay_k" (SInt 50) in
  validate_port port ≫= λ _,
  validate_positive max_peers ≫= λ _,
  validate_positive overlay_k ≫= λ _,
  Ok (mkNetwork port max_peers overlay_k).

Definition parse_storage (raw : dict pystr scalar) : result StorageConfig :=
  let limit := get_or raw "message_log_limit_mb" (SInt 100) in
  let rotations := get_or raw "max_log_rotations" (SInt 3) in
  validate_positive limit ≫= λ _,
  validate_positive rotations ≫= λ _,
  Ok (mkStorage limit rotations).

(** [str(value)] *)
Definition scalar_str (v : scalar) : pystr :=
  match v with
  | SInt n => str_of_Z n
  | SBool b => if b then str "True" else str "False"
  | SStr s => s
  end.

Definition parse_profile (raw : dict pystr scalar) : result ProfileConfig :=
  let nickname := str_strip (scalar_str (get_or raw "nickname" (SStr []))) in
  validate_nickname nickname ≫= λ _, Ok (mkProfile nickname).

(** [raw.get(section, {})], whose [get] is called next: a scalar has no such method *)
Definition section (raw : dict pystr toml_value) (name : string) : result (dict pystr scalar) :=
  match dget raw (str name) with
  | None => Ok []
  | Some (TTable t) => Ok t
  | Some (TScalar _) => Raise AttributeError
  end.

Section config.
Context `{CM : CaseMap}.

Definition parse_debug (raw : dict pystr scalar) : result DebugConfig :=
  let level := get_or raw "log_level" (SStr (str "INFO")) in
  validate_log_level level ≫= λ _, u ← scalar_upper level; Ok (mkDebug u).

Definition parse_config (raw : dict pystr toml_value) (base_dir : pystr) : result AshiChatConfig :=
  network ← section raw "network" ≫= parse_network;
  storage ← section raw "storage" ≫= parse_storage;
  debug ← section raw "debug" ≫= parse_debug;
  profile ← section raw "profile" ≫= parse_profile;
  Ok (mkConfig network storage debug profile base_dir).

(** ** Files *)

Definition config_path (base_dir : pystr) : pystr := path_join base_dir (str "config.toml").

Definition ensure_directory_structure (base_dir : pystr) : IO () :=
  mkdir true base_dir ≫= λ _,
  mkdir false (path_join base_dir (str "identity")) ≫= λ _,
  mkdir false (path_join base_dir (str "messages")) ≫= λ _,
  mkdir false (path_join base_dir (str "data")) ≫= λ _,
  there ← file_exists (config_path base_dir);
  if (there : bool) then mret () else write_text (config_path base_dir) DEFAULT_TOML.

(** [load_config(base_dir)] for a given directory *)
Definition load_config (base_dir : pystr) : IO AshiChatConfig :=
  ensure_directory_structure base_dir ≫= λ _,
  there ← file_exists (config_path base_dir);
  raw ← (if (there : bool)
         then bs ← read_bytes (config_path base_dir); io_lift (toml_load bs)
         else mret []);
  io_lift (parse_config raw base_dir).

(** [_to_toml(config)], by lines *)
Definition config_lines (config : AshiChatConfig) : list pystr :=
  [str "# AshiChat configuration " ++ [8212%Z] ++ str " https://github.com/AshiChat";
   str "# Edit values below. Restart AshiChat for changes to take effect.";
   [];
   str "[network]";
   str "udp_port" ++ str " = " ++ scalar_str (udp_port (cfg_network config));
   str "max_peers" ++ str " = " ++ scalar_str (max_peers (cfg_network config));
   str "overlay_k" ++ str " = " ++ scalar_str (overlay_k (cfg_network config));
   [];
   str "[storage]";
   str "message_log_limit_mb" ++ str " = " ++ scalar_str (message_log_limit_mb (cfg_storage config));
   str "max_log_rotations" ++ str " = " ++ scalar_str (max_log_rotations (cfg_storage config));
   [];
   str "[debug]";
   str "log_level" ++ str " = " ++ quoted (log_level (cfg_debug config));
   [];
   str "[profile]";
   str "nickname" ++ str " = " ++ quoted (toml_escape (nickname (cfg_profile config)))].

Definition to_toml (config : AshiChatConfig) : pystr := unlines (config_lines config).

Definition save_config (config : AshiChatConfig) : IO () :=
  ensure_directory_structure (cfg_base_dir config) ≫= λ _,
  write_text (config_path (cfg_base_dir config)) (to_toml config).

(** [update_config(base_dir, network=..., ...)]: every section object is true *)
Definition update_config (base_dir : pystr) (network : option NetworkConfig) (storage : option StorageConfig)
    (debug : option DebugConfig) (profile : option ProfileConfig) : IO AshiChatConfig :=
  current ← load_config base_dir;
  let new_config := mkConfig (default (cfg_network current) network) (default (cfg_storage current) storage)
    (default (cfg_debug current) debug) (default (cfg_profile current) profile) base_dir in
  save_config new_config ≫= λ _, mret new_config.
End config.

(** ** What a saved file reads as *)

Definition legal_char (ch : Z) : Prop := toml_char ch ∧ scalar_value ch.

#[export] Instance legal_char_dec ch : Decision (legal_char ch).
Proof. unfold legal_char, toml_char, scalar_value. apply _. Defined.

(** Numbers that are integers and not negative, and strings the renderer can carry. *)
Definition renderable (c : AshiChatConfig) (p m k l r : Z) : Prop :=
  cfg_network c = mkNetwork (SInt p) (SInt m) (SInt k) ∧ cfg_storage c = mkStorage (SInt l) (SInt r) ∧
  Forall (λ n, 0 ≤ n)%Z [p; m; k; l; r] ∧ log_level (cfg_debug c) ∈ LOG_LEVELS ∧
  Forall legal_char (nickname (cfg_profile c)).

(** The document of a configuration. *)
Definition config_doc (c : AshiChatConfig) : dict pystr toml_value :=
  [(str "network", TTable [(str "udp_port", udp_port (cfg_network c)); (str "max_peers", max_peers (cfg_network c));
                           (str "overlay_k", overlay_k (cfg_network c))]);
   (str "storage", TTable [(str "message_log_limit_mb", message_log_limit_mb (cfg_storage c));
                           (str "max_log_rotations", max_log_rotations (cfg_storage c))]);
   (str "debug", TTable [(str "log_level", SStr (log_level (cfg_debug c)))]);
   (str "profile", TTable [(str "nickname", SStr (nickname (cfg_profile c)))])].

Lemma skip_ws_int n : (0 ≤ n)%Z → skip_ws (str_of_Z n) = str_of_Z n.
Proof.
  intros Hn. pose proof (λ c, dec_chars n c Hn) as Hch. unfold str_of_Z. rewrite (proj2 (Z.ltb_ge n 0)) by done.
  destruct (digit_char <$> _) as [|c t]; [done|]. specialize (Hch c ltac:(set_solver)). cbn [skip_ws]. unfold toml_ws.
  by rewrite (proj2 (Z.eqb_neq c 32)), (proj2 (Z.eqb_neq c 9)) by lia.
Qed.

Lemma int_line st k n st' :
  (0 ≤ n)%Z → k ≠ [] → Forall (λ c, bare_key_char c = true) k → put_value st k (SInt n) = Ok st' →
  toml_line st (k ++ str " = " ++ str_of_Z n) = Ok st'.
Proof. intros Hn Hne Hk. apply toml_kv_line; [done..|by apply skip_ws_int|by apply parse_value_int]. Qed.

Lemma str_line st k s st' :
  Forall toml_char s → k ≠ [] → Forall (λ c, bare_key_char c = true) k → put_value st k (SStr s) = Ok st' →
  toml_line st (k ++ str " = " ++ quoted (toml_escape s)) = Ok st'.
Proof. intros Hs Hne Hk. apply toml_kv_line; [done..|by apply parse_value_str]. Qed.

(** A log level needs no escaping. *)
Lemma level_plain level : level ∈ LOG_LEVELS → toml_escape level = level ∧ Forall toml_char level.
Proof.
  unfold LOG_LEVELS. rewrite !elem_of_cons. intros H.
  repeat destruct H as [->|H]; try (split; [done|by repeat constructor]). by apply elem_of_nil in H.
Qed.

Lemma level_line st k s st' :
  s ∈ LOG_LEVELS → k ≠ [] → Forall (λ c, bare_key_char c = true) k → put_value st k (SStr s) = Ok st' →
  toml_line st (k ++ str " = " ++ quoted s) = Ok st'.
Proof. intros [E Hs]%level_plain. rewrite <- E at 2. by apply str_line. Qed.

Lemma mfor_cons_ok {S A} (body : S → A → result S) x l s s' :
  body s x = Ok s' → mfor body (x :: l) s = mfor body l s'.
Proof. intros H. cbn. by rewrite H. Qed.

(** [next_line lem] reads one line by [lem]; keys are closed terms. *)
Ltac next_line lem :=
  erewrite mfor_cons_ok;
  [ | first [ reflexivity | apply lem; [done | done | by repeat constructor | reflexivity] ] ].

(** [closed_legal] decides that a closed text is made of legal characters. *)
Ltac closed_legal := apply (bool_decide_unpack _); by vm_compute.

Lemma legal_line l : Forall legal_char l → (10%Z ∉ l) ∧ (13%Z ∉ l).
Proof. rewrite Forall_forall. intros H. split; intros Hin; destruct (H _ Hin) as [H' _]; discriminate H'. Qed.

Lemma legal_int n : (0 ≤ n)%Z → Forall legal_char (str_of_Z n).
Proof.
  intros Hn. unfold str_of_Z. rewrite (proj2 (Z.ltb_ge n 0)) by done. apply Forall_forall. intros c Hc%dec_chars; [|done].
  unfold legal_char, toml_char, toml_illegal, scalar_value.
  rewrite (proj2 (Z.ltb_ge c 32)), (proj2 (Z.eqb_neq c 127)) by lia. split; [done|lia].
Qed.

Lemma legal_quoted s : Forall legal_char s → Forall legal_char (quoted (toml_escape s)).
Proof.
  intros Hs. unfold quoted. apply Forall_app_2; [closed_legal|]. apply Forall_app_2; [|closed_legal].
  induction Hs as [|x s Hx _ IH]; [constructor|]. rewrite toml_escape_cons. apply Forall_app_2; [|exact IH].
  unfold escape_one. destruct (x =? 92)%Z; [closed_legal|]. destruct (x =? 34)%Z; [closed_legal|by constructor].
Qed.

Lemma legal_level s : s ∈ LOG_LEVELS → Forall legal_char (quoted s).
Proof.
  intros H. assert (Forall (λ s, Forall legal_char (quoted s)) LOG_LEVELS) as HF by closed_legal.
  rewrite Forall_forall in HF. by apply HF.
Qed.

(** All lines of a rendered configuration. *)
Lemma to_toml_legal c p m k l r :
  renderable c p m k l r → Forall (Forall legal_char) (config_lines c).
Proof.
  intros (Hn & Hs & Hpos & Hlev & Hnick). rewrite !Forall_cons in Hpos. destruct Hpos as (Hp & Hm & Hk & Hl & Hr & _).
  unfold config_lines. rewrite Hn, Hs.
  cbn [udp_port max_peers overlay_k message_log_limit_mb max_log_rotations scalar_str].
  repeat lazymatch goal with |- Forall (Forall _) (_ :: _) => apply Forall_cons_2 end; [..|constructor].
  all: repeat lazymatch goal with |- Forall _ (_ ++ _) => apply Forall_app_2; [closed_legal|] end.
  all: lazymatch goal with
       | |- Forall _ (str_of_Z _) => by apply legal_int
       | |- Forall _ (quoted (toml_escape _)) => by apply legal_quoted
       | |- Forall _ (quoted _) => by apply legal_level
       | _ => closed_legal
       end.
Qed.

Lemma to_toml_reads c p m k l r :
  renderable c p m k l r → toml_loads (to_toml c) = Ok (config_doc c).
Proof.
  intros Hren. pose proof (to_toml_legal c p m k l r Hren) as Hlegal.
  destruct Hren as (Hn & Hs & Hpos & Hlev & Hnick). rewrite !Forall_cons in Hpos. destruct Hpos as (Hp & Hm & Hk & Hl & Hr & _).
  assert (Forall toml_char (nickname (cfg_profile c))) as Hnchar by (eapply Forall_impl; [exact Hnick|]; by intros ? []).
  unfold to_toml, config_doc. unfold config_lines in *. rewrite Hn, Hs in Hlegal |- *.
  cbn [udp_port max_peers overlay_k message_log_limit_mb max_log_rotations scalar_str] in Hlegal |- *.
  match goal with |- _ = Ok ?doc => apply (toml_loads_lines _ (mkToml doc (Some (str "profile")))) end.
  - eapply Forall_impl; [exact Hlegal|]. apply legal_line.
  - do 13 next_line int_line. next_line level_line. do 3 next_line str_line. reflexivity.
Qed.

(** ** Loading and saving *)

Lemma unlines_scalar ls : Forall (Forall legal_char) ls → Forall scalar_value (unlines ls).
Proof.
  induction 1 as [|l ls Hl _ IH]; [constructor|]. unfold unlines. cbn. rewrite <- app_assoc.
  apply Forall_app_2; [eapply Forall_impl; [exact Hl|]; by intros ? []|]. apply Forall_cons_2; [unfold scalar_value; lia|exact IH].
Qed.

(** The bytes of a rendered configuration read back as its document. *)
Lemma saved_bytes c p m k l r :
  renderable c p m k l r → ∃ bs, utf8_encode (to_toml c) = Ok bs ∧ toml_load bs = Ok (config_doc c).
Proof.
  intros Hr. pose proof (unlines_scalar _ (to_toml_legal _ _ _ _ _ _ Hr)) as Hs.
  destruct (utf8_encode_scalars _ Hs) as [bs Hbs]. exists bs. split; [exact Hbs|]. unfold toml_load.
  rewrite (utf8_decode_encode false _ bs Hs Hbs). cbn [mbind result_bind]. eapply to_toml_reads, Hr.
Qed.

Lemma default_is_rendered base : DEFAULT_TOML = to_toml (default_config base).
Proof. reflexivity. Qed.

Lemma default_renderable base : renderable (default_config base) 9000 500 50 100 3.
Proof.
  split; [reflexivity|]. split; [reflexivity|]. split; [repeat (apply Forall_cons_2; [lia|]); constructor|].
  split; [|constructor]. apply (bool_decide_unpack _). by vm_compute.
Qed.

Lemma ensure_ok base d :
  ∃ d', ensure_directory_structure base d = (d', Ok ()) ∧
    (∀ q, q ≠ config_path base → dk_files d' !! q = dk_files d !! q) ∧
    match contents d (config_path base) with
    | Some _ => dk_files d' = dk_files d
    | None => ∃ bs, utf8_encode DEFAULT_TOML = Ok bs ∧ contents d' (config_path base) = Some bs
    end.
Proof.
  destruct (saved_bytes _ _ _ _ _ _ (default_renderable base)) as (dbs & Hdbs & _). rewrite <- default_is_rendered in Hdbs.
  unfold ensure_directory_structure. do 4 (rewrite io_bind_eq; unfold mkdir; cbn [fst snd]).
  match goal with |- context [(file_exists _ ≫= _) ?x] => set (d1 := x) end.
  assert (dk_files d1 = dk_files d) as Hf by done. clearbody d1.
  rewrite io_bind_eq. unfold file_exists, contents. rewrite Hf. destruct (dk_files d !! config_path base) as [f|] eqn:E.
  - rewrite bool_decide_true by eauto. cbn. exists d1. by rewrite Hf.
  - rewrite bool_decide_false by (by intros [? ?]). cbn [fmap option_fmap option_map].
    destruct (write_text_spec (config_path base) DEFAULT_TOML dbs d1 Hdbs) as (d' & -> & Hc & Hq & _).
    exists d'. split; [done|]. split; [intros q Hne; by rewrite Hq, Hf|]. by exists dbs.
Qed.

Section properties.
Context `{CM : CaseMap} `{CL : !CaseLaws CM}.

(** Reading the stored file. *)
Lemma load_stored base d bs :
  contents d (config_path base) = Some bs →
  ∃ d', load_config base d = (d', raw ← toml_load bs; parse_config raw base) ∧ dk_files d' = dk_files d.
Proof using Type.
  intros Hc. destruct (ensure_ok base d) as (d' & E & _ & Hf). rewrite Hc in Hf. exists d'. split; [|done].
  unfold load_config. rewrite (io_bind_ok _ _ _ _ _ E), io_bind_eq. unfold file_exists, contents in *. rewrite Hf.
  destruct (dk_files d !! config_path base) as [f|] eqn:Ef; [|done]. rewrite bool_decide_true by eauto.
  rewrite !io_bind_eq. unfold read_bytes, io_lift. rewrite Hf, Ef. cbn in Hc |- *. injection Hc as ->.
  by destruct (toml_load bs).
Qed.

Lemma load_first_run base d :
  contents d (config_path base) = None →
  ∃ d' bs, load_config base d = (d', parse_config (config_doc (default_config base)) base) ∧
    utf8_encode DEFAULT_TOML = Ok bs ∧ contents d' (config_path base) = Some bs ∧
    (∀ q, q ≠ config_path base → dk_files d' !! q = dk_files d !! q).
Proof using Type.
  intros Hc. destruct (ensure_ok base d) as (d' & E & Hq & Hf). rewrite Hc in Hf. destruct Hf as (bs & Hbs & Hc').
  exists d', bs. split; [|done]. unfold load_config. rewrite (io_bind_ok _ _ _ _ _ E), io_bind_eq.
  unfold file_exists, contents in *. destruct (dk_files d' !! config_path base) as [f|] eqn:Ef; [|done].
  rewrite bool_decide_true by eauto. rewrite !io_bind_eq. unfold read_bytes, io_lift. rewrite Ef.
  cbn in Hc' |- *. injection Hc' as ->.
  destruct (saved_bytes _ _ _ _ _ _ (default_renderable base)) as (bs' & Hbs' & Hl).
  rewrite <- default_is_rendered in Hbs'. rewrite Hbs in Hbs'. injection Hbs' as <-. by rewrite Hl.
Qed.

(** Loading twice gives the same configuration. *)
Lemma load_again base d d' c : load_config base d = (d', Ok c) → ∃ d'', load_config base d' = (d'', Ok c).
Proof using Type.
  intros Hl. destruct (contents d (config_path base)) as [bs|] eqn:Hc.
  - destruct (load_stored base d bs Hc) as (d1 & E & Hf). rewrite E in Hl. injection Hl as <- Hr.
    assert (contents d1 (config_path base) = Some bs) as Hc' by (unfold contents in *; by rewrite Hf).
    destruct (load_stored base d1 bs Hc') as (d2 & E2 & _). exists d2. by rewrite E2, Hr.
  - destruct (load_first_run base d Hc) as (d1 & bs & E & Hbs & Hc' & _). rewrite E in Hl. injection Hl as <- Hr.
    destruct (load_stored base d1 bs Hc') as (d2 & E2 & _). exists d2. rewrite E2.
    destruct (saved_bytes _ _ _ _ _ _ (default_renderable base)) as (bs' & Hbs' & Hl).
    rewrite <- default_is_rendered, Hbs in Hbs'. apply Ok_inj in Hbs' as <-. rewrite Hl. cbn [mbind result_bind]. by rewrite Hr.
Qed.

(** A nickname [_parse_profile] accepts and leaves as it is, and TOML can carry. *)
Definition nickname_wf (s : pystr) : Prop :=
  length s ≤ 32 ∧ str_strip s = s ∧ Forall (λ ch, legal_char ch ∧ (32 ≤ ch)%Z) s.

(** The configurations [load_config] accepts, with numbers that are integers. *)
Definition config_wf (c : AshiChatConfig) : Prop :=
  ∃ p m k l r, renderable c p m k l r ∧ (1 ≤ p ≤ 65535)%Z ∧ Forall (λ n, 1 ≤ n)%Z [m; k; l; r] ∧
    nickname_wf (nickname (cfg_profile c)).

Lemma level_upper level : level ∈ LOG_LEVELS → str_upper level = level.
Proof using CL.
  unfold LOG_LEVELS. rewrite !elem_of_cons. intros H.
  repeat destruct H as [->|H]; try (rewrite upper_ascii; [done|by repeat constructor]). by apply elem_of_nil in H.
Qed.

Lemma validate_positive_int n : validate_positive (SInt n) = if (n <? 1)%Z then Raise ValueError else Ok ().
Proof using Type. cbn. by destruct (n <? 1)%Z. Qed.

Lemma parse_config_doc c p m k l r :
  renderable c p m k l r → (1 ≤ p ≤ 65535)%Z → Forall (λ n, 1 ≤ n)%Z [m; k; l; r] →
  parse_config (config_doc c) (cfg_base_dir c)
    = (x ← parse_profile [(str "nickname", SStr (nickname (cfg_profile c)))];
       Ok (mkConfig (cfg_network c) (cfg_storage c) (cfg_debug c) x (cfg_base_dir c))).
Proof using CL.
  intros (Hn & Hs & _ & Hlev & _) Hp Hpos. rewrite !Forall_cons in Hpos. destruct Hpos as (Hm & Hk & Hl & Hr & _).
  assert (∀ n, (1 ≤ n)%Z → validate_positive (SInt n) = Ok ()) as Hv.
  { intros n Hn1. by rewrite validate_positive_int, (proj2 (Z.ltb_ge n 1)) by lia. }
  assert (section (config_doc c) "network" ≫= parse_network = Ok (cfg_network c)) as E1.
  { change (section _ _) with (Ok [(str "udp_port", udp_port (cfg_network c)); (str "max_peers", max_peers (cfg_network c));
      (str "overlay_k", overlay_k (cfg_network c))]). rewrite Hn. cbn [mbind result_bind]. unfold parse_network.
    change (get_or _ "udp_port" _) with (SInt p). change (get_or _ "max_peers" _) with (SInt m).
    change (get_or _ "overlay_k" _) with (SInt k). rewrite !Hv by done. unfold validate_port. cbn [scalar_int mbind result_bind].
    by rewrite (proj2 (Z.leb_le 1 p)), (proj2 (Z.leb_le p 65535)) by lia. }
  assert (section (config_doc c) "storage" ≫= parse_storage = Ok (cfg_storage c)) as E2.
  { change (section _ _) with (Ok [(str "message_log_limit_mb", message_log_limit_mb (cfg_storage c));
      (str "max_log_rotations", max_log_rotations (cfg_storage c))]). rewrite Hs. cbn [mbind result_bind]. unfold parse_storage.
    change (get_or _ "message_log_limit_mb" _) with (SInt l). change (get_or _ "max_log_rotations" _) with (SInt r).
    by rewrite !Hv by done. }
  assert (section (config_doc c) "debug" ≫= parse_debug = Ok (cfg_debug c)) as E3.
  { change (section _ _) with (Ok [(str "log_level", SStr (log_level (cfg_debug c)))]). cbn [mbind result_bind].
    unfold parse_debug. change (get_or _ "log_level" _) with (SStr (log_level (cfg_debug c))).
    unfold validate_log_level, scalar_upper. rewrite (level_upper _ Hlev). cbn [mbind result_bind].
    rewrite bool_decide_true by done. cbn. by destruct (cfg_debug c). }
  unfold parse_config. rewrite E1, E2, E3. cbn [mbind result_bind]. reflexivity.
Qed.

Lemma parse_profile_wf s : nickname_wf s → parse_profile [(str "nickname", SStr s)] = Ok (mkProfile s).
Proof using Type.
  intros (Hlen & Hstrip & Hch). unfold parse_profile. change (get_or _ "nickname" _) with (SStr s). cbn [scalar_str].
  rewrite Hstrip. unfold validate_nickname. rewrite (proj2 (Nat.ltb_ge 32 (length s))) by done.
  assert (existsb (λ ch, ch <? 32)%Z s = false) as ->; [|done].
  apply not_true_iff_false. intros (ch & Hin & Hlt)%existsb_exists. apply Z.ltb_lt in Hlt.
  rewrite Forall_forall in Hch. apply list_elem_of_In in Hin. apply Hch in Hin as [_ ?]. lia.
Qed.

Lemma parse_profile_long s :
  32 < length s → str_strip s = s → parse_profile [(str "nickname", SStr s)] = Raise ValueError.
Proof using Type.
  intros Hlen Hstrip. unfold parse_profile. change (get_or _ "nickname" _) with (SStr s). cbn [scalar_str].
  rewrite Hstrip. unfold validate_nickname. by rewrite (proj2 (Nat.ltb_lt 32 (length s))).
Qed.

Lemma save_stored c p m k l r d :
  renderable c p m k l r →
  ∃ d', save_config c d = (d', Ok ()) ∧
    (∃ bs, contents d' (config_path (cfg_base_dir c)) = Some bs ∧ toml_load bs = Ok (config_doc c)) ∧
    (∀ q, q ≠ config_path (cfg_base_dir c) → dk_files d' !! q = dk_files d !! q).
Proof using Type.
  intros Hr. destruct (saved_bytes _ _ _ _ _ _ Hr) as (bs & Hbs & Hl). unfold save_config.
  destruct (ensure_ok (cfg_base_dir c) d) as (d1 & E & Hq1 & _). rewrite (io_bind_ok _ _ _ _ _ E).
  destruct (write_text_spec (config_path (cfg_base_dir c)) (to_toml c) bs d1 Hbs) as (d' & E' & Hc & Hq & _).
  exists d'. split; [exact E'|]. split; [by exists bs|]. intros q Hne. by rewrite Hq, Hq1.
Qed.

(** ** Properties *)

(** C21: What is saved is loaded.  A configuration within the limits that [load_config] checks is written by
    [save_config] and read back by [load_config] field for field, whatever the directory held before; loading changes
    no file, and no other file was touched. *)
Theorem config_roundtrip (c : AshiChatConfig) (d : disk) :
  config_wf c →
  ∃ d1 d2, save_config c d = (d1, Ok ()) ∧ load_config (cfg_base_dir c) d1 = (d2, Ok c) ∧
    dk_files d2 = dk_files d1 ∧ ∀ q, q ≠ config_path (cfg_base_dir c) → dk_files d1 !! q = dk_files d !! q.
Proof using CL.
  intros (p & m & k & l & r & Hr & Hp & Hpos & Hnick).
  destruct (save_stored c p m k l r d Hr) as (d1 & E1 & (bs & Hc & Hl) & Hq).
  destruct (load_stored (cfg_base_dir c) d1 bs Hc) as (d2 & E2 & Hf). exists d1, d2.
  split; [exact E1|]. split; [|done]. rewrite E2, Hl. cbn [mbind result_bind].
  rewrite (parse_config_doc c p m k l r Hr Hp Hpos), (parse_profile_wf _ Hnick). cbn.
  by destruct c as [? ? ? [] ?].
Qed.

(** A first start writes the default file and runs with the default values. *)
Theorem load_config_first_run (base : pystr) (d : disk) :
  contents d (config_path base) = None →
  ∃ d' bs, load_config base d = (d', Ok (default_config base)) ∧
    utf8_encode DEFAULT_TOML = Ok bs ∧ contents d' (config_path base) = Some bs ∧
    (∀ q, q ≠ config_path base → dk_files d' !! q = dk_files d !! q).
Proof using CL.
  intros Hc. destruct (load_first_run base d Hc) as (d' & bs & E & H). exists d', bs. split; [|exact H].
  rewrite E. f_equal. pose proof (parse_config_doc (default_config base) _ _ _ _ _ (default_renderable base)) as Hp.
  cbn [cfg_base_dir default_config] in Hp. rewrite Hp; [reflexivity|lia|repeat constructor; lia].
Qed.

(** The configuration [update_config] writes. *)
Definition merged (c : AshiChatConfig) (base : pystr) (network : option NetworkConfig) (storage : option StorageConfig)
    (debug : option DebugConfig) (profile : option ProfileConfig) : AshiChatConfig :=
  mkConfig (default (cfg_network c) network) (default (cfg_storage c) storage) (default (cfg_debug c) debug)
    (default (cfg_profile c) profile) base.

Lemma update_saves base d d0 c n s g f p m k l r :
  load_config base d = (d0, Ok c) → renderable (merged c base n s g f) p m k l r →
  ∃ d', update_config base n s g f d = (d', Ok (merged c base n s g f)) ∧
    (∃ bs, contents d' (config_path base) = Some bs ∧ toml_load bs = Ok (config_doc (merged c base n s g f))) ∧
    (∀ q, q ≠ config_path base → dk_files d' !! q = dk_files d0 !! q).
Proof using Type.
  intros Hl Hr. destruct (save_stored _ _ _ _ _ _ d0 Hr) as (d' & E & Hbs & Hq). exists d'. split; [|done].
  unfold update_config. rewrite (io_bind_ok _ _ _ _ _ Hl). fold (merged c base n s g f).
  by rewrite (io_bind_ok _ _ _ _ _ E).
Qed.

Lemma update_loads_back (base : pystr) (d d0 : disk) (c : AshiChatConfig) (network : option NetworkConfig)
    (storage : option StorageConfig) (debug : option DebugConfig) (profile : option ProfileConfig) :
  load_config base d = (d0, Ok c) → config_wf (merged c base network storage debug profile) →
  ∃ d' d'', update_config base network storage debug profile d = (d', Ok (merged c base network storage debug profile)) ∧
    load_config base d' = (d'', Ok (merged c base network storage debug profile)) ∧
    ∀ q, q ≠ config_path base → dk_files d' !! q = dk_files d0 !! q.
Proof using CL.
  intros Hl (p & m & k & l & r & Hr & Hp & Hpos & Hnick).
  destruct (update_saves base d d0 c network storage debug profile p m k l r Hl Hr) as (d' & E & (bs & Hc & Hld) & Hq).
  destruct (load_stored base d' bs Hc) as (d'' & E2 & _). exists d', d''. split; [exact E|]. split; [|exact Hq].
  rewrite E2, Hld. cbn [mbind result_bind].
  change base with (cfg_base_dir (merged c base network storage debug profile)) at 2.
  rewrite (parse_config_doc _ p m k l r Hr Hp Hpos), (parse_profile_wf _ Hnick). cbn [mbind result_bind].
  unfold merged. by destruct (default (cfg_profile c) profile).
Qed.

(** An update changes the sections it names and no other, and the next start sees it. *)
Theorem update_config_persists (base : pystr) (d d0 : disk) (c : AshiChatConfig) (network : option NetworkConfig)
    (storage : option StorageConfig) (debug : option DebugConfig) (profile : option ProfileConfig) :
  load_config base d = (d0, Ok c) → config_wf (merged c base network storage debug profile) →
  ∃ d' d'', update_config base network storage debug profile d = (d', Ok (merged c base network storage debug profile)) ∧
    load_config base d' = (d'', Ok (merged c base network storage debug profile)) ∧
    ∀ q, q ≠ config_path base → dk_files d' !! q = dk_files d0 !! q.
Proof using CL. apply update_loads_back. Qed.

(** Saving does not validate.  [update_config] stores a nickname of more than 32 characters and returns, and from
    then on [load_config] raises [ValueError] as long as the file stays as it is: the program does not start again
    before the file is corrected by hand. *)
Lemma long_nickname_stored (base : pystr) (d d0 : disk) (c : AshiChatConfig) (s : pystr) :
  load_config base d = (d0, Ok c) → config_wf (merged c base None None None None) →
  32 < length s → str_strip s = s → Forall legal_char s →
  ∃ d' c', update_config base None None None (Some (mkProfile s)) d = (d', Ok c') ∧
    ∀ d1, contents d1 (config_path base) = contents d' (config_path base) →
      (load_config base d1).2 = Raise ValueError.
Proof using CL.
  intros Hl (p & m & k & l & r & Hr & Hp & Hpos & _) Hlen Hstrip Hs.
  assert (renderable (merged c base None None None (Some (mkProfile s))) p m k l r) as Hr'.
  { destruct Hr as (? & ? & ? & ? & _). by split_and!. }
  destruct (update_saves base d d0 c None None None (Some (mkProfile s)) p m k l r Hl Hr') as (d' & E & (bs & Hc & Hld) & _).
  eexists d', _. split; [exact E|]. intros d1 Hd1. rewrite Hc in Hd1.
  destruct (load_stored base d1 bs Hd1) as (d2 & E2 & _). rewrite E2, Hld. cbn [mbind result_bind snd].
  pose proof (parse_config_doc _ p m k l r Hr' Hp Hpos) as Hd. change (cfg_base_dir _) with base in Hd. rewrite Hd.
  cbn [merged cfg_profile default from_option id nickname].
  by rewrite parse_profile_long.
Qed.

(** ** Every outcome of loading *)

(** The values a loaded configuration holds: numbers (a boolean counts as 0 or 1) in their ranges, a known log level in
    capitals, a short nickname without control characters. *)
Definition config_typed (c : AshiChatConfig) : Prop :=
  (∃ n, scalar_int (udp_port (cfg_network c)) = Ok n ∧ (1 ≤ n ≤ 65535)%Z) ∧
  Forall (λ v, ∃ n, scalar_int v = Ok n ∧ (1 ≤ n)%Z)
    [max_peers (cfg_network c); overlay_k (cfg_network c); message_log_limit_mb (cfg_storage c);
     max_log_rotations (cfg_storage c)] ∧
  log_level (cfg_debug c) ∈ LOG_LEVELS ∧
  length (nickname (cfg_profile c)) ≤ 32 ∧ Forall (λ ch, 32 ≤ ch)%Z (nickname (cfg_profile c)).

(** The exceptions [load_config] lets through. *)
Definition config_error (e : exn) : Prop := e ∈ [ValueError; TypeError; AttributeError; UnicodeError; Unmodelled].

Lemma validate_positive_ok v u : validate_positive v = Ok u → ∃ n, scalar_int v = Ok n ∧ (1 ≤ n)%Z.
Proof using Type.
  unfold validate_positive. intros (n & Hn & H)%bind_Ok_inv. exists n. split; [done|].
  apply guard_raise_Ok, negb_true_iff, Z.ltb_ge in H. lia.
Qed.

Lemma validate_port_ok v u : validate_port v = Ok u → ∃ n, scalar_int v = Ok n ∧ (1 ≤ n ≤ 65535)%Z.
Proof using Type.
  unfold validate_port. intros (n & Hn & H)%bind_Ok_inv. exists n. split; [done|].
  apply guard_raise_Ok in H. bool_hyps. lia.
Qed.

Lemma parse_config_typed raw base c :
  parse_config raw base = Ok c → config_typed c ∧ cfg_base_dir c = base.
Proof using Type.
  unfold parse_config. intros (n & (t1 & _ & Hn)%bind_Ok_inv & (s & (t2 & _ & Hs)%bind_Ok_inv
    & (g & (t3 & _ & Hg)%bind_Ok_inv & (f & (t4 & _ & Hf)%bind_Ok_inv & <-%Ok_inj)%bind_Ok_inv)%bind_Ok_inv)%bind_Ok_inv)%bind_Ok_inv.
  split; [|done]. unfold config_typed. cbn [cfg_network cfg_storage cfg_debug cfg_profile].
  unfold parse_network in Hn. apply bind_Ok_inv in Hn as (u1 & H1 & (u2 & H2 & (u3 & H3 & <-%Ok_inj)%bind_Ok_inv)%bind_Ok_inv).
  unfold parse_storage in Hs. apply bind_Ok_inv in Hs as (u4 & H4 & (u5 & H5 & <-%Ok_inj)%bind_Ok_inv).
  unfold parse_debug, validate_log_level in Hg. apply bind_Ok_inv in Hg as (u6 & (v & Hv & H6)%bind_Ok_inv & (v' & Hv' & <-%Ok_inj)%bind_Ok_inv).
  rewrite Hv in Hv'. apply Ok_inj in Hv' as <-. apply guard_raise_Ok, bool_decide_eq_true_1 in H6.
  unfold parse_profile in Hf. apply bind_Ok_inv in Hf as (u7 & H7 & <-%Ok_inj). cbn [nickname log_level].
  split; [by eapply validate_port_ok|]. split; [repeat (apply Forall_cons_2; [by eapply validate_positive_ok|]); constructor|].
  split; [done|]. unfold validate_nickname in H7. destruct (Nat.ltb_spec 32 (length (str_strip
    (scalar_str (get_or t4 "nickname" (SStr [])))))); [done|]. split; [done|].
  apply guard_raise_Ok, negb_true_iff in H7. apply Forall_forall. intros ch Hin.
  destruct (Z.leb_spec 32 ch); [done|]. exfalso. apply not_true_iff_false in H7. apply H7, existsb_exists. exists ch.
  split; [by apply list_elem_of_In|by apply Z.ltb_lt].
Qed.

Lemma config_error_in e : config_error e ↔ e = ValueError ∨ e = TypeError ∨ e = AttributeError ∨ e = UnicodeError ∨ e = Unmodelled.
Proof using Type. unfold config_error. rewrite !elem_of_cons, elem_of_nil. naive_solver. Qed.

Lemma parse_config_raises (P : exn → Prop) raw base :
  P ValueError → P TypeError → P AttributeError → raises P (parse_config raw base).
Proof using Type.
  intros H1 H2 H3.
  assert (∀ {A} e, P e → raises P (Raise (A := A) e)) as Hr by (intros; by apply raises_raise).
  assert (∀ v, raises P (scalar_int v)) as Hi by (intros []; cbn; auto with raises_db).
  assert (∀ v, raises P (scalar_upper v)) as Hu by (intros []; cbn; auto with raises_db).
  assert (∀ v, raises P (validate_positive v)) as Hp by (intros v; apply raises_bind; auto with raises_db).
  assert (∀ n, raises P (section raw n)) as Hs by (intros n; unfold section; repeat case_match; auto with raises_db).
  unfold parse_config, parse_network, parse_storage, parse_debug, parse_profile, validate_port, validate_log_level,
    validate_nickname.
  repeat first [solve [auto with raises_db] | apply raises_bind | progress intros | case_match].
Qed.

Lemma parse_config_errors raw base : raises config_error (parse_config raw base).
Proof using Type. apply parse_config_raises; rewrite config_error_in; auto 10. Qed.

Lemma utf8_decode_errors bs : raises (λ e, e = UnicodeError) (utf8_decode false bs).
Proof using Type.
  remember (length bs) as n eqn:Hn. revert bs Hn. induction n as [n IH] using lt_wf_ind. intros bs ->.
  assert (∀ x (t : bytes), length t < length bs → raises (λ e, e = UnicodeError) ((x ::.) <$> utf8_decode false t)) as IH'.
  { intros x t Ht e. specialize (IH (length t) Ht t eq_refl). destruct (utf8_decode false t) eqn:E; cbn; [done|].
    intros [= ->]. by apply IH. }
  destruct bs as [|b0 r0]; [apply raises_ok|]. cbn [utf8_decode]. unfold bad_utf8.
  repeat first [apply raises_ok | by apply raises_raise | apply IH'; cbn [length]; lia | case_match].
Qed.

Lemma load_outcome (base : pystr) (d : disk) :
  match (load_config base d).2 with
  | Ok c => config_typed c ∧ cfg_base_dir c = base
  | Raise e => config_error e
  end.
Proof using Type.
  assert (∀ raw, match parse_config raw base with Ok c => config_typed c ∧ cfg_base_dir c = base | Raise e => config_error e end) as Hp.
  { intros raw. pose proof (parse_config_typed raw base) as H1. pose proof (parse_config_errors raw base) as H2.
    destruct (parse_config raw base) as [c|e]; [by apply H1|by apply H2]. }
  destruct (contents d (config_path base)) as [bs|] eqn:Hc.
  - destruct (load_stored base d bs Hc) as (d' & -> & _). cbn [snd]. unfold toml_load.
    pose proof (utf8_decode_errors bs) as Hu. destruct (utf8_decode false bs) as [s|e]; cbn [mbind result_bind].
    + pose proof (toml_loads_errors s) as Ht. destruct (toml_loads s) as [raw|e]; [apply Hp|].
      cbn [mbind result_bind]. apply config_error_in. destruct (Ht e eq_refl) as [->| ->]; auto.
    + apply config_error_in. rewrite (Hu e eq_refl). auto.
  - destruct (load_first_run base d Hc) as (d' & bs & -> & _). apply Hp.
Qed.

(** The configuration file, if there is one, is a document of the part of TOML that [Toml] reads: no floats, dates, arrays,
    inline tables, multi-line strings, dotted keys, or numbers in other bases. *)
Definition toml_covered (base : pystr) (d : disk) : Prop :=
  ∀ bs, contents d (config_path base) = Some bs → toml_load bs ≠ Raise Unmodelled.

(** C22: What a loaded configuration holds.  For a configuration file in the modelled part of TOML, or none, [load_config]
    returns a configuration whose numeric settings are integers (or booleans, which Python counts as 0 and 1) in range, whose
    log level is one of the five and whose nickname is short and free of control characters, or raises one of four
    exceptions: [ValueError] for a bad value or bad TOML, [TypeError] or [AttributeError] for a value of the wrong type,
    [UnicodeError] for bytes that are not UTF-8.  Floats are outside: the code accepts them for the numeric settings. *)
Theorem load_config_typed (base : pystr) (d : disk) :
  toml_covered base d →
  match (load_config base d).2 with
  | Ok c => config_typed c ∧ cfg_base_dir c = base
  | Raise e => e ∈ [ValueError; TypeError; AttributeError; UnicodeError]
  end.
Proof using Type.
  intros Hcov. pose proof (load_outcome base d) as H.
  enough ((load_config base d).2 ≠ Raise Unmodelled) as Hne.
  { destruct (load_config base d) as [d' [c|e]]; [exact H|]. cbn in *. apply config_error_in in H. rewrite !elem_of_cons.
    naive_solver. }
  assert (∀ raw, parse_config raw base ≠ Raise Unmodelled) as Hp.
  { intros raw E. by apply (parse_config_raises (λ e, e ≠ Unmodelled)) in E. }
  destruct (contents d (config_path base)) as [bs|] eqn:Hc.
  - destruct (load_stored base d bs Hc) as (d' & -> & _). cbn [snd]. specialize (Hcov bs Hc).
    destruct (toml_load bs) as [raw|e]; [apply Hp|]. cbn. congruence.
  - destruct (load_first_run base d Hc) as (d' & bs & -> & _). apply Hp.
Qed.
End properties.

(** ** Examples *)

Module ConfigExample.
Import AsciiCase.

Definition base : pystr := str "/home/a/.ashichat".
Definition empty_disk : disk := mkDisk ∅ ∅ 18.

(** A nickname with a quote and a backslash in it. *)
Definition tricky : AshiChatConfig :=
  mkConfig (mkNetwork (SInt 4001) (SInt 10) (SInt 7)) (mkStorage (SInt 5) (SInt 1)) (mkDebug (str "DEBUG"))
    (mkProfile (str "a" ++ [quote; backslash] ++ str "b c")) base.

Lemma tricky_wf : config_wf tricky.
Proof.
  exists 4001%Z, 10%Z, 7%Z, 5%Z, 1%Z. split; [|split; [lia|split; [repeat constructor; lia|]]].
  - split; [reflexivity|]. split; [reflexivity|]. split; [repeat (apply Forall_cons_2; [lia|]); constructor|].
    split; apply (bool_decide_unpack _); by vm_compute.
  - split; [cbn; lia|]. split; [reflexivity|]. apply (bool_decide_unpack _). by vm_compute.
Qed.

Lemma config_roundtrip_witness :
  ∃ d1 d2, save_config tricky empty_disk = (d1, Ok ()) ∧ load_config base d1 = (d2, Ok tricky).
Proof.
  destruct (config_roundtrip tricky empty_disk tricky_wf) as (d1 & d2 & H1 & H2 & _). by exists d1, d2.
Defined.

Lemma load_config_first_run_witness :
  ∃ d', load_config base empty_disk = (d', Ok (default_config base)).
Proof. destruct (load_config_first_run base empty_disk) as (d' & _ & H & _); [reflexivity|]. by exists d'. Defined.

Definition first_disk : disk := (load_config base empty_disk).1.

(** A port that is a text; a number that is a boolean. *)
Definition stored_text (s : pystr) : disk :=
  mkDisk ∅ {[config_path base := mkFile (byte_of_Z <$> s) 420]} 18.
Definition text_port : pystr := unlines [str "[network]"; str "udp_port = " ++ quoted (str "x")].
Definition true_peers : pystr := unlines [str "[network]"; str "max_peers = true"].

Lemma stored_covered s r : toml_load (byte_of_Z <$> s) = r → r ≠ Raise Unmodelled → toml_covered base (stored_text s).
Proof. intros <- Hr bs. unfold contents, stored_text. cbn [dk_files]. rewrite lookup_singleton_eq. cbn. by intros [= <-]. Qed.

Lemma load_config_typed_witness :
  (load_config base (stored_text text_port)).2 = Raise TypeError ∧
  (∃ c, (load_config base (stored_text true_peers)).2 = Ok c ∧ max_peers (cfg_network c) = SBool true ∧ config_typed c).
Proof.
  split.
  - vm_compute. reflexivity.
  - assert (toml_covered base (stored_text true_peers)) as H
      by (eapply stored_covered; [vm_compute; reflexivity|discriminate]).
    pose proof (load_config_typed base (stored_text true_peers) H) as H1.
    destruct ((load_config base (stored_text true_peers)).2) as [c|e] eqn:E.
    + exists c. split; [reflexivity|]. split; [|apply H1]. vm_compute in E. injection E as <-. reflexivity.
    + vm_compute in E. discriminate E.
Defined.

Lemma update_config_persists_witness :
  ∃ d' d'', update_config base None None None (Some (cfg_profile tricky)) empty_disk
      = (d', Ok (mkConfig default_network default_storage default_debug (cfg_profile tricky) base)) ∧
    load_config base d' = (d'', Ok (mkConfig default_network default_storage default_debug (cfg_profile tricky) base)).
Proof.
  destruct (update_config_persists base empty_disk first_disk (default_config base) None None None
    (Some (cfg_profile tricky))) as (d' & d'' & H1 & H2 & _).
  - vm_compute. reflexivity.
  - destruct tricky_wf as (p & m & k & l & r & (_ & _ & _ & _ & Hn) & _ & _ & Hw).
    exists 9000%Z, 500%Z, 50%Z, 100%Z, 3%Z. destruct (default_renderable base) as (H1 & H2 & H3 & H4 & _).
    split; [exact (conj H1 (conj H2 (conj H3 (conj H4 Hn))))|]. split; [lia|]. split; [repeat constructor; lia|exact Hw].
  - exists d', d''. split; [exact H1|exact H2].
Defined.

End ConfigExample.
