(* ===== verification/Logging.v ===== *)
(** * The debug log (logging_setup.py)

    [setup_logging] and what the root logger then does with a record.  The root logger has handlers and a level; the one
    handler the program installs is the standard library's [RotatingFileHandler], modelled as the library documents it:
    before a record that would take the file to [maxBytes] characters the backups [.1] to [.5] are shifted and the file
    starts again.  A record is the formatted text without its line break.  The file is opened with strict UTF-8: a record
    that has no encoding is not written, and the library's [handleError] reports it on [sys.stderr], which is part of the
    console here ([logging.raiseExceptions] has its default, and the program has a standard error stream).  Opening a file
    needs its directory. *)

From S2P Require Import Prelude Bytes PyDict PyText Utf8 PyCase Toml Disk Config.

(** ** Loggers *)

Inductive handler :=
| StreamHandler                                                   (* a handler that writes to the console *)
| RotatingFileHandler (filename : pystr) (max_bytes : Z) (backup_count : nat).

(** What the console shows: the line of a stream handler, or the report [handleError] makes of a record (the traceback of
    the UnicodeEncodeError, the call stack and the record's message). *)
Inductive console_entry :=
| ConsoleLine (msg : pystr)
| LoggingError (msg : pystr).

Record logger := mkLogger { lg_handlers : list handler; lg_level : Z }.

Definition MAX_BYTES : Z := 10 * 1024 * 1024.
Definition BACKUP_COUNT : nat := 5.

(** [getattr(logging, name)] for the names of the levels; other attributes of the module are not levels *)
Definition logging_level (name : pystr) : result Z :=
  if name =?b str "DEBUG" then Ok 10%Z
  else if name =?b str "INFO" then Ok 20%Z
  else if name =?b str "WARNING" then Ok 30%Z
  else if name =?b str "ERROR" then Ok 40%Z
  else if name =?b str "CRITICAL" then Ok 50%Z
  else Raise Unmodelled.

Definition debug_log_path (base_dir : pystr) : pystr := path_join base_dir (str "debug.log").

(** [open(path, "a")] for a file in the directory [dir] *)
Definition open_append (dir p : pystr) : IO () := λ d,
  if bool_decide (dir ∈ dk_dirs d) then
    match dk_files d !! p with
    | Some _ => (d, Ok ())
    | None => (set_files (<[p := mkFile [] (Z.land 438 (Z.lnot (dk_umask d)))]> (dk_files d)) d, Ok ())
    end
  else (d, Raise FileNotFoundError).

(** [setup_logging(config)]: the handler is made first, then the handlers of the root logger are replaced *)
Definition setup_logging (root : logger) (config : AshiChatConfig) : IO logger :=
  let log_path := debug_log_path (cfg_base_dir config) in
  open_append (cfg_base_dir config) log_path ≫= λ _,
  let h := RotatingFileHandler log_path MAX_BYTES BACKUP_COUNT in
  level ← io_lift (logging_level (log_level (cfg_debug config)));
  mret (mkLogger ([] ++ [h]) level).

(** ** Records *)

(** The file [filename.i] *)
Definition backup (filename : pystr) (i : nat) : pystr := filename ++ str "." ++ str_of_Z (Z.of_nat i).

(** [os.rename] if the source exists; a file at the destination is replaced *)
Definition rename_if_exists (fs : gmap pystr file) (src dst : pystr) : gmap pystr file :=
  match fs !! src with Some f => <[dst := f]> (delete src fs) | None => fs end.

(** [doRollover()]: [for i in range(backupCount - 1, 0, -1)], then the file itself, then a new one *)
Definition do_rollover (filename : pystr) (count : nat) (d : disk) : disk :=
  let fs1 := foldl (λ fs i, rename_if_exists fs (backup filename i) (backup filename (S i))) (dk_files d)
               (reverse (seq 1 (count - 1))) in
  let fs2 := rename_if_exists (delete (backup filename 1) fs1) filename (backup filename 1) in
  set_files (<[filename := mkFile [] (Z.land 438 (Z.lnot (dk_umask d)))]> fs2) d.

(** [shouldRollover]: the size in bytes and the length of the line in characters *)
Definition should_rollover (filename : pystr) (max_bytes : Z) (msg : pystr) (d : disk) : bool :=
  (max_bytes <=? Z.of_nat (length (default [] (contents d filename))) + Z.of_nat (S (length msg)))%Z.

Definition append_data (p : pystr) (bs : bytes) (d : disk) : disk :=
  set_files (alter (λ f, mkFile (f_data f ++ bs) (f_mode f)) p (dk_files d)) d.

(** [handler.emit(record)] for the formatted [msg]: a failing write ends in [handleError], which raises nothing *)
Definition emit_record (filename : pystr) (max_bytes : Z) (count : nat) (d : disk) (msg : pystr) :
    disk * list console_entry :=
  let d1 := if should_rollover filename max_bytes msg d then do_rollover filename count d else d in
  match utf8_encode (msg ++ [10%Z]) with
  | Ok bs => (append_data filename bs d1, [])
  | Raise _ => (d1, [LoggingError msg])
  end.

(** [logger.log(level, msg)] at the root, the disk and what the console shows *)
Definition log_record (root : logger) (d : disk * list console_entry) (rec : Z * pystr) : disk * list console_entry :=
  let '(level, msg) := rec in
  if (level <? lg_level root)%Z then d else
  foldl (λ '(d, console) h,
    match h with
    | StreamHandler => (d, console ++ [ConsoleLine msg])
    | RotatingFileHandler f mx n => let '(d', reports) := emit_record f mx n d msg in (d', console ++ reports)
    end) d (lg_handlers root).

(** ** Lemmas: the directory *)

Lemma write_text_dirs p s d : dk_dirs (write_text p s d).1 = dk_dirs d.
Proof. unfold write_text. rewrite io_bind_eq. cbn. rewrite io_bind_eq. unfold io_lift. by destruct (utf8_encode s). Qed.

Lemma ensure_dirs base d : base ∈ dk_dirs (ensure_directory_structure base d).1.
Proof.
  unfold ensure_directory_structure. do 4 (rewrite io_bind_eq; unfold mkdir; cbn [fst snd]).
  rewrite io_bind_eq. unfold file_exists. destruct (bool_decide _); [|rewrite write_text_dirs]; cbn; set_solver.
Qed.

Lemma load_dirs `{CaseMap} base d : base ∈ dk_dirs (load_config base d).1.
Proof.
  unfold load_config. rewrite io_bind_eq. pose proof (ensure_dirs base d) as Hd.
  destruct (ensure_directory_structure base d) as [d1 [u|e]]; [|done]. cbn in Hd. rewrite io_bind_eq.
  unfold file_exists. destruct (bool_decide _); rewrite !io_bind_eq; [|done]. unfold read_bytes.
  destruct (dk_files d1 !! _); [|done]. unfold io_lift. by destruct (toml_load _).
Qed.

(** ** Lemmas: rotation *)

Lemma backup_inj f i j : backup f i = backup f j → i = j.
Proof.
  intros H%app_inv_head%app_inv_head%(f_equal py_int). rewrite !py_int_str_of_Z in H by lia. apply Ok_inj in H. lia.
Qed.

Lemma backup_ne f i : backup f i ≠ f.
Proof. unfold backup. intros H%(f_equal length). rewrite !length_app in H. cbn in H. lia. Qed.

Section rollover.
Context (f : pystr).
Implicit Types fs : gmap pystr file.

Lemma rename_exists_lookup fs p q x :
  p ≠ q →
  rename_if_exists fs p q !! x =
    if decide (x = q) then (fs !! p) ∪ (fs !! q) else if decide (x = p) then None else fs !! x.
Proof using Type.
  intros Hne. unfold rename_if_exists. destruct (fs !! p) as [c|] eqn:E.
  - rewrite lookup_insert, lookup_delete. repeat case_decide; subst; try done; try congruence; by destruct (fs !! x).
  - repeat case_decide; subst; try done; by destruct (fs !! q).
Qed.

Lemma shift_loop fs m :
  let fs' := foldl (λ fs i, rename_if_exists fs (backup f i) (backup f (S i))) fs (reverse (seq 1 m)) in
  (1 ≤ m → fs' !! backup f (S m) = (fs !! backup f m) ∪ (fs !! backup f (S m))) ∧
  (∀ i, 1 ≤ i < m → fs' !! backup f (S i) = fs !! backup f i) ∧
  (1 ≤ m → fs' !! backup f 1 = None) ∧
  ∀ q, (∀ i, 1 ≤ i ≤ S m → q ≠ backup f i) → fs' !! q = fs !! q.
Proof using Type.
  revert fs. induction m as [|m IH]; intros fs; cbn zeta; [split_and!; [lia|lia|lia|done]|].
  rewrite seq_S, reverse_app. cbn [reverse rev_append app foldl]. change (1 + m) with (S m).
  assert (∀ i j, i ≠ j → backup f i ≠ backup f j) as Hne by (intros i j Hij E%backup_inj; lia).
  pose proof (λ x, rename_exists_lookup fs (backup f (S m)) (backup f (S (S m))) x (Hne _ _ (n_Sn _))) as Hr.
  set (fs2 := rename_if_exists fs _ _) in *. destruct (IH fs2) as (H1 & H2 & H3 & H4). clear IH.
  assert (fs2 !! backup f (S m) = None) as Hfree
    by (rewrite Hr, decide_False by (apply Hne; lia); by rewrite decide_True).
  assert (∀ i, i ≤ m → fs2 !! backup f i = fs !! backup f i) as Hlow
    by (intros i Hi; rewrite Hr, !decide_False; [done|apply Hne; lia..]).
  split_and!.
  - intros _. rewrite H4 by (intros i Hi; apply Hne; lia). by rewrite Hr, decide_True.
  - intros i Hi. destruct (decide (i = m)) as [->|].
    + rewrite H1, Hfree, Hlow by lia. by destruct (fs !! backup f m).
    + rewrite H2 by lia. apply Hlow. lia.
  - intros _. destruct m as [|m]; [exact Hfree|]. apply H3. lia.
  - intros q Hq. rewrite H4 by (intros i Hi; apply Hq; lia). rewrite Hr, !decide_False; [done|apply Hq; lia..].
Qed.

(** The bytes of a file, nothing if it does not exist; of the backups, oldest first; and with the file itself *)
Definition text (d : disk) (p : pystr) : bytes := default [] (contents d p).

Fixpoint older (d : disk) (m : nat) : bytes :=
  match m with 0 => [] | S m => text d (backup f (S m)) ++ older d m end.

Definition log_text (count : nat) (d : disk) : bytes := older d count ++ text d f.

Lemma rollover_files m d :
  1 ≤ m → is_Some (dk_files d !! f) →
  let d' := do_rollover f (S m) d in
  text d' f = [] ∧ is_Some (dk_files d' !! f) ∧ text d' (backup f 1) = text d f ∧
  (∀ i, 1 ≤ i < m → text d' (backup f (S i)) = text d (backup f i)) ∧
  dk_files d' !! backup f (S m) = (dk_files d !! backup f m) ∪ (dk_files d !! backup f (S m)) ∧
  ∀ q, q ≠ f → (∀ i, 1 ≤ i ≤ S m → q ≠ backup f i) → dk_files d' !! q = dk_files d !! q.
Proof using Type.
  intros Hm [c Hc]. destruct (shift_loop (dk_files d) m) as (H1 & H2 & H3 & H4). cbn zeta in *.
  unfold do_rollover, text, contents. cbn [dk_files set_files]. rewrite Nat.sub_succ, Nat.sub_0_r.
  set (fs1 := foldl _ _ _) in *.
  assert (∀ i j, i ≠ j → backup f i ≠ backup f j) as Hne by (intros i j Hij E%backup_inj; lia).
  assert (∀ i, f ≠ backup f i) as Hf by (intros i; apply not_eq_sym, backup_ne).
  assert (fs1 !! f = Some c) as Hfc by (rewrite H4; [done|intros; apply Hf]).
  assert (∀ q, q ≠ f → q ≠ backup f 1 →
    <[f := mkFile [] (Z.land 438 (Z.lnot (dk_umask d)))]> (rename_if_exists (delete (backup f 1) fs1) f (backup f 1)) !! q
    = fs1 !! q) as Hoth.
  { intros q Hq1 Hq2. rewrite lookup_insert_ne by congruence. rewrite rename_exists_lookup by apply Hf.
    rewrite !decide_False by done. by rewrite lookup_delete_ne. }
  rewrite lookup_insert_eq. cbn. split_and!; try done.
  - rewrite lookup_insert_ne by apply Hf. rewrite rename_exists_lookup by apply Hf. rewrite decide_True by done.
    rewrite lookup_delete_eq, lookup_delete_ne, Hfc by apply not_eq_sym, Hf. by rewrite Hc.
  - intros i Hi. rewrite Hoth by (apply backup_ne || apply Hne; lia). by rewrite H2.
  - rewrite Hoth by (apply backup_ne || apply Hne; lia). by apply H1.
  - intros q Hq1 Hq2. rewrite Hoth by (done || apply Hq2; lia). by apply H4.
Qed.

Lemma older_ext d d' m : (∀ i, 1 ≤ i ≤ m → text d' (backup f i) = text d (backup f i)) → older d' m = older d m.
Proof using Type. intros H. induction m as [|m IH]; cbn; [done|]. rewrite IH, H; [done|lia|intros; apply H; lia]. Qed.

(** Nothing but the oldest backup is lost. *)
Lemma rollover_text m d :
  1 ≤ m → is_Some (dk_files d !! f) →
  ∃ lost, log_text (S m) d = lost ++ log_text (S m) (do_rollover f (S m) d).
Proof using Type.
  intros Hm Hd. destruct (rollover_files m d Hm Hd) as (H1 & _ & H2 & H3 & H4 & _). set (d' := do_rollover _ _ _) in *.
  assert (∀ j, S j ≤ m → older d' (S j) = older d j ++ text d f) as Hsh.
  { induction j as [|j IH]; intros Hj; cbn [older]; [by rewrite H2, app_nil_r|].
    change (text d' (backup f (S j)) ++ older d' j) with (older d' (S j)). rewrite IH, H3, <- app_assoc by lia. done. }
  destruct m as [|m]; [lia|]. unfold log_text. rewrite H1, app_nil_r.
  change (older d' (S (S m))) with (text d' (backup f (S (S m))) ++ older d' (S m)). rewrite Hsh by lia.
  change (older d (S (S m))) with (text d (backup f (S (S m))) ++ older d (S m)).
  unfold text at 3, contents. rewrite H4. cbn [older]. unfold text at 2, contents.
  destruct (dk_files d !! backup f (S m)) as [c|] eqn:E.
  - exists (text d (backup f (S (S m)))). rewrite <- !app_assoc. by destruct (dk_files d !! backup f (S (S m))).
  - exists []. cbn. rewrite <- !app_assoc. unfold text, contents. by destruct (dk_files d !! backup f (S (S m))).
Qed.
End rollover.

(** ** Lemmas: one record *)

Lemma utf8_length s bs : utf8_encode s = Ok bs → length bs ≤ 4 * length s.
Proof.
  revert bs. induction s as [|c s IH]; intros bs; cbn; [by intros <-%Ok_inj|].
  intros (b & Hb & (r & Hr & <-%Ok_inj)%bind_Ok_inv)%bind_Ok_inv. apply IH in Hr. rewrite length_app.
  assert (length b ≤ 4); [|lia]. unfold utf8_char in Hb. repeat case_match; try done; apply Ok_inj in Hb as <-; cbn; lia.
Qed.

(** The bytes a record adds. *)
Definition record_bytes (msg : pystr) : bytes :=
  match utf8_encode (msg ++ [10%Z]) with Ok bs => bs | Raise _ => [] end.

(** The reports a record causes: one if it has no UTF-8 encoding. *)
Definition record_reports (msg : pystr) : list console_entry :=
  match utf8_encode msg with Ok _ => [] | Raise _ => [LoggingError msg] end.

Lemma utf8_encode_line msg :
  match utf8_encode (msg ++ [10%Z]) with Ok _ => [] | Raise _ => [LoggingError msg] end = record_reports msg.
Proof.
  unfold record_reports. enough (match utf8_encode (msg ++ [10%Z]) with Ok _ => true | Raise _ => false end
    = match utf8_encode msg with Ok _ => true | Raise _ => false end) as H
    by by destruct (utf8_encode (msg ++ [10%Z])), (utf8_encode msg).
  induction msg as [|c msg IH]; [done|]. cbn. destruct (utf8_char c); [|done]. cbn.
  by destruct (utf8_encode (msg ++ [10%Z])), (utf8_encode msg).
Qed.

Lemma no_reports msgs : Forall (λ msg, ∃ bs, utf8_encode msg = Ok bs) msgs → msgs ≫= record_reports = [].
Proof.
  induction 1 as [|msg msgs [bs Hbs] _ IH]; [done|]. rewrite bind_cons, IH. unfold record_reports. by rewrite Hbs.
Qed.

Lemma record_length msg : length (record_bytes msg) ≤ 4 * S (length msg).
Proof.
  unfold record_bytes. destruct (utf8_encode _) eqn:E; [|cbn; lia]. apply utf8_length in E. rewrite length_app in E. cbn in E. lia.
Qed.

Section record.
Context (f : pystr) (mx : Z) (m : nat) (Hm : 1 ≤ m).

(** The files the handler owns. *)
Definition owned_file (p : pystr) : Prop := p = f ∨ ∃ i, 1 ≤ i ≤ S m ∧ p = backup f i.

(** The file is there and no file of the handler is longer than the limit plus what the encoding of a record of [l]
    characters may add. *)
Definition log_bounded (l : nat) (d : disk) : Prop :=
  is_Some (dk_files d !! f) ∧ ∀ p, owned_file p → (Z.of_nat (length (text d p)) < mx + 3 * Z.of_nat l)%Z.

Lemma append_lookup p bs d q :
  dk_files (append_data p bs d) !! q =
    if decide (q = p) then (λ x, mkFile (f_data x ++ bs) (f_mode x)) <$> dk_files d !! q else dk_files d !! q.
Proof using Type. unfold append_data. cbn. rewrite lookup_alter. repeat case_decide; by subst. Qed.

Lemma emit_append msg d :
  emit_record f mx (S m) d msg =
    (append_data f (record_bytes msg) (if should_rollover f mx msg d then do_rollover f (S m) d else d), record_reports msg).
Proof using Type.
  rewrite <- utf8_encode_line. unfold emit_record, record_bytes. set (d1 := if should_rollover _ _ _ _ then _ else _).
  destruct (utf8_encode _); [done|]. f_equal. destruct d1 as [dirs fs um]. unfold append_data, set_files. cbn. f_equal. apply map_eq. intros q. rewrite lookup_alter.
  case_decide; [|done]. subst. destruct (fs !! q) as [[dt md]|]; cbn; [|done]. by rewrite app_nil_r.
Qed.

Lemma append_log_text bs d : is_Some (dk_files d !! f) → log_text f (S m) (append_data f bs d) = log_text f (S m) d ++ bs.
Proof using Type.
  intros [x Hx]. unfold log_text. rewrite (older_ext f d (append_data f bs d)).
  - unfold text, contents. rewrite append_lookup, decide_True, Hx by done. cbn. by rewrite app_assoc.
  - intros i _. unfold text, contents. rewrite append_lookup, decide_False; [done|apply backup_ne].
Qed.

Lemma rollover_bounded l d : (0 < mx)%Z → log_bounded l d → log_bounded l (do_rollover f (S m) d).
Proof using Hm.
  intros Hmx [Hd Hb]. destruct (rollover_files f m d Hm Hd) as (H1 & H2 & H3 & H4 & H5 & _). split; [done|].
  intros p [->|(i & Hi & ->)]; [rewrite H1; cbn; lia|]. destruct (decide (i = 1)) as [->|]; [rewrite H3; apply Hb; by left|].
  destruct i as [|i]; [lia|]. destruct (decide (i = m)) as [->|].
  - unfold text, contents. rewrite H5.
    pose proof (Hb (backup f m)) as Hb1. pose proof (Hb (backup f (S m))) as Hb2. unfold text, contents, owned_file in Hb1, Hb2.
    destruct (dk_files d !! backup f m), (dk_files d !! backup f (S m)); cbn in *; first [apply Hb1 | apply Hb2 | lia]; eauto 6 with lia.
  - rewrite H4 by lia. apply Hb. right. exists i. split; [lia|done].
Qed.

Lemma emit_spec l msg d :
  S (length msg) ≤ l → (Z.of_nat l < mx)%Z → log_bounded l d →
  (emit_record f mx (S m) d msg).2 = record_reports msg ∧
  log_bounded l (emit_record f mx (S m) d msg).1 ∧
  (∃ lost, log_text f (S m) d ++ record_bytes msg = lost ++ log_text f (S m) (emit_record f mx (S m) d msg).1) ∧
  ∀ q, ¬ owned_file q → dk_files (emit_record f mx (S m) d msg).1 !! q = dk_files d !! q.
Proof using Hm.
  intros Hl Hmx Hb. rewrite emit_append. cbn [fst snd]. split; [done|]. set (d1 := if should_rollover _ _ _ _ then _ else _).
  assert (log_bounded l d1 ∧ (Z.of_nat (length (text d1 f)) + Z.of_nat (S (length msg)) < mx)%Z ∧
    (∃ lost, log_text f (S m) d = lost ++ log_text f (S m) d1) ∧
    ∀ q, ¬ owned_file q → dk_files d1 !! q = dk_files d !! q) as ([He Hb1] & Hsz & (lost & Hlost) & Hq).
  { unfold d1, should_rollover. fold (text d f). destruct (Z.leb_spec mx (Z.of_nat (length (text d f)) + Z.of_nat (S (length msg)))).
    - destruct Hb as [Hd Hb']. pose proof (rollover_files f m d Hm Hd) as (H1 & _ & _ & _ & _ & H6).
      split_and!; [apply rollover_bounded; [lia|by split]|rewrite H1; cbn; lia|by apply rollover_text|].
      intros q Hn. apply H6; [intros ->; apply Hn; by left|intros i Hi ->; apply Hn; right; eauto].
    - split_and!; [done|lia|by exists []|done]. }
  clearbody d1. split_and!.
  - split; [rewrite append_lookup; destruct He as [x Hx]; case_decide; rewrite Hx; eauto|].
    intros p Hp. unfold text, contents. rewrite append_lookup. case_decide as E; [|by apply Hb1]. subst p.
    destruct He as [x Hx]. unfold text, contents in Hsz. rewrite Hx in *. cbn in *. rewrite length_app.
    pose proof (record_length msg). lia.
  - exists lost. rewrite append_log_text by done. by rewrite Hlost, app_assoc.
  - intros q Hn. rewrite append_lookup. rewrite decide_False; [by apply Hq|]. intros ->. apply Hn. by left.
Qed.
End record.

(** ** The program's log *)

Section properties.
Context `{CM : CaseMap} `{CL : !CaseLaws CM}.

(** The records at or above a level. *)
Definition enabled (level : Z) (recs : list (Z * pystr)) : list pystr :=
  (filter (λ r, ¬ (r.1 < level)%Z) recs).*2.

Lemma logging_level_ok name : name ∈ LOG_LEVELS → ∃ level, logging_level name = Ok level.
Proof using Type.
  unfold LOG_LEVELS. rewrite !elem_of_cons, elem_of_nil. intros [->|[->|[->|[->|[->|[]]]]]]; vm_compute; eauto.
Qed.

Lemma log_all f mx m level l recs d console :
  1 ≤ m → (Z.of_nat l < mx)%Z → Forall (λ r, S (length r.2) ≤ l) recs → log_bounded f mx m l d →
  let root := mkLogger [RotatingFileHandler f mx (S m)] level in
  ∃ d', foldl (log_record root) (d, console) recs = (d', console ++ (enabled level recs ≫= record_reports)) ∧
    log_bounded f mx m l d' ∧
    (∃ lost, log_text f (S m) d ++ (enabled level recs ≫= record_bytes) = lost ++ log_text f (S m) d') ∧
    ∀ q, ¬ owned_file f m q → dk_files d' !! q = dk_files d !! q.
Proof using Type.
  intros Hm Hl Hrecs Hb root. revert d console Hb. induction Hrecs as [|[lv msg] recs Hmsg _ IH]; intros d console Hb.
  - exists d. cbn. rewrite !app_nil_r. split_and!; try done. by exists [].
  - cbn [foldl log_record lg_level root]. unfold enabled. rewrite filter_cons. cbn [fst].
    destruct (Z.ltb_spec lv level).
    + rewrite decide_False by lia. by apply IH.
    + rewrite decide_True by lia. cbn [foldl lg_handlers root]. cbn in Hmsg.
      destruct (emit_spec f mx m Hm l msg d Hmsg Hl Hb) as (Er & Hb1 & (lost1 & E1) & Hq1).
      destruct (emit_record f mx (S m) d msg) as [d1 reports]. cbn [fst snd] in *. subst reports.
      destruct (IH _ (console ++ record_reports msg) Hb1) as (d' & E & Hb' & (lost & E2) & Hq').
      exists d'. rewrite E, fmap_cons, bind_cons, app_assoc. split_and!; try done.
      * exists (lost1 ++ lost). rewrite bind_cons. cbn [snd]. unfold enabled in E2. by rewrite app_assoc, E1, <- app_assoc, E2, app_assoc.
      * intros q Hn. rewrite Hq', Hq1; done.
Qed.

Lemma setup_spec base d d0 c root :
  load_config base d = (d0, Ok c) →
  ∃ d1 level, setup_logging root c d0 =
      (d1, Ok (mkLogger [RotatingFileHandler (debug_log_path base) MAX_BYTES BACKUP_COUNT] level)) ∧
    logging_level (log_level (cfg_debug c)) = Ok level ∧
    is_Some (dk_files d1 !! debug_log_path base) ∧ (∀ p, text d1 p = text d0 p) ∧
    ∀ q, q ≠ debug_log_path base → dk_files d1 !! q = dk_files d0 !! q.
Proof using Type.
  intros Hload. pose proof (load_dirs base d) as Hdir. pose proof (load_outcome base d) as Ht. rewrite Hload in Ht, Hdir.
  cbn in Hdir, Ht. destruct Ht as [(_ & _ & Hlev & _) Hbase]. destruct (logging_level_ok _ Hlev) as [level Elev].
  set (f := debug_log_path base) in *.
  assert (∃ d1, open_append base f d0 = (d1, Ok ()) ∧ is_Some (dk_files d1 !! f) ∧ (∀ p, text d1 p = text d0 p) ∧
    ∀ q, q ≠ f → dk_files d1 !! q = dk_files d0 !! q) as (d1 & Eo & Hrest).
  { unfold open_append. rewrite bool_decide_true by done. destruct (dk_files d0 !! f) eqn:Ef; [by exists d0; rewrite Ef; eauto|].
    eexists. split; [reflexivity|]. cbn. rewrite lookup_insert_eq. split_and!; [eauto| |].
    - intros p. unfold text, contents. cbn. rewrite lookup_insert. case_decide; [subst; by rewrite Ef|done].
    - intros q Hne. by rewrite lookup_insert_ne. }
  exists d1, level. split; [|done].
  unfold setup_logging. rewrite Hbase. fold f. rewrite (io_bind_ok _ _ _ _ _ Eo), io_bind_eq. unfold io_lift. by rewrite Elev.
Qed.

(** C20: the program logs to its file and nowhere else.  After a configuration was loaded, [setup_logging] succeeds,
    whatever handlers the root logger had: it then has one, for [debug.log] in the program's directory, and the level of
    the configuration.  Whatever is logged afterwards, in records shorter than the limit, the console gets nothing but one
    error report for each enabled record that has no UTF-8 encoding, so nothing at all if all can be encoded, and no file
    changes but [debug.log] and its five backups; each of these stays below 10 MB plus what the UTF-8 encoding of
    one record adds (the limit counts characters); and together they hold everything enabled that was ever logged and
    can be encoded, in order, up to a lost beginning. *)
Theorem debug_log_correct (base : pystr) (d d0 : disk) (c : AshiChatConfig) (root : logger) (l : nat)
    (recs : list (Z * pystr)) (console : list console_entry) :
  load_config base d = (d0, Ok c) →
  (∀ p, owned_file (debug_log_path base) 4 p → (Z.of_nat (length (text d0 p)) < MAX_BYTES + 3 * Z.of_nat l)%Z) →
  (Z.of_nat l < MAX_BYTES)%Z → Forall (λ r, S (length r.2) ≤ l) recs →
  ∃ d1 level, setup_logging root c d0 =
      (d1, Ok (mkLogger [RotatingFileHandler (debug_log_path base) MAX_BYTES BACKUP_COUNT] level)) ∧
    logging_level (log_level (cfg_debug c)) = Ok level ∧
    ∃ d2, foldl (log_record (mkLogger [RotatingFileHandler (debug_log_path base) MAX_BYTES BACKUP_COUNT] level)) (d1, console) recs
        = (d2, console ++ (enabled level recs ≫= record_reports)) ∧
      (Forall (λ msg, ∃ bs, utf8_encode msg = Ok bs) (enabled level recs) → enabled level recs ≫= record_reports = []) ∧
      (∀ p, owned_file (debug_log_path base) 4 p → (Z.of_nat (length (text d2 p)) < MAX_BYTES + 3 * Z.of_nat l)%Z) ∧
      (∀ q, ¬ owned_file (debug_log_path base) 4 q → dk_files d2 !! q = dk_files d0 !! q) ∧
      ∃ lost, log_text (debug_log_path base) BACKUP_COUNT d0 ++ (enabled level recs ≫= record_bytes) =
        lost ++ log_text (debug_log_path base) BACKUP_COUNT d2.
Proof using Type.
  intros Hload Hb Hl Hrecs. destruct (setup_spec base d d0 c root Hload) as (d1 & level & E1 & Elev & Hex & Htx & Hq).
  set (f := debug_log_path base) in *. exists d1, level. split; [done|]. split; [done|].
  destruct (log_all f MAX_BYTES 4 level l recs d1 console) as (d2 & E & Hb2 & (lost & Hlost) & Hq2); [lia|done..| |].
  { split; [done|]. intros p Hp. rewrite Htx. by apply Hb. }
  exists d2. split_and!; [exact E| |apply Hb2| |].
  - apply no_reports.
  - intros q Hn. rewrite Hq2 by done. apply Hq. intros ->. apply Hn. by left.
  - exists lost. change BACKUP_COUNT with 5. rewrite <- Hlost. f_equal. unfold log_text. rewrite Htx. f_equal. symmetry.
    by apply older_ext.
Qed.
End properties.

Module LoggingExample.
Import AsciiCase ConfigExample.

Definition console_root : logger := mkLogger [StreamHandler] 30.
Definition logged : list (Z * pystr) := [(20%Z, str "started"); (10%Z, str "detail"); (40%Z, [55296%Z]); (40%Z, str "failed")].

Definition file_root : logger := mkLogger [RotatingFileHandler (debug_log_path base) MAX_BYTES BACKUP_COUNT] 20.
Definition disk1 : disk := (setup_logging console_root (default_config base) first_disk).1.
Definition disk2 : disk := (foldl (log_record file_root) (disk1, []) logged).1.

Lemma debug_log_correct_witness :
  (∃ d1, setup_logging console_root (default_config base) first_disk = (d1, Ok file_root) ∧
     foldl (log_record file_root) (d1, []) logged = (disk2, [LoggingError [55296%Z]])) ∧
  contents disk2 (debug_log_path base) = Some (byte_of_Z <$> (str "started" ++ [10%Z] ++ str "failed" ++ [10%Z])).
Proof.
  split; [|vm_compute; reflexivity].
  destruct (debug_log_correct base empty_disk first_disk (default_config base) console_root 100 logged [])
    as (d1 & level & E1 & Hl & d2 & E2 & _).
  - vm_compute. reflexivity.
  - intros p Hp. assert (text first_disk p = []) as ->; [|reflexivity].
    destruct Hp as [->|(i & Hi & ->)]; [vm_compute; reflexivity|].
    do 6 (destruct i as [|i]; [try lia; vm_compute; reflexivity|]). lia.
  - reflexivity.
  - repeat (apply Forall_cons_2; [cbn; lia|]). apply Forall_nil_2.
  - injection Hl as <-. exists d1. split; [exact E1|]. unfold disk2, disk1. rewrite E1. cbn [fst].
    change (mkLogger _ _) with file_root in E2. rewrite E2. reflexivity.
Defined.
End LoggingExample.
