(* ===== verification/Sidebar.v ===== *)
(** * The contact list (ui/components.py, [Sidebar])

    The state of the widget and its operations.  Of the list view of the toolkit the model keeps the labels that were
    appended since it was cleared last and the index the code assigned; [sb_mounted] says whether looking the list view up
    succeeds (before the widget is mounted it raises, which [_refresh_list] catches). *)

From S2P Require Import Prelude Bytes PyDict PyText PyCase.

Record peer_info := mkInfo { pi_name : pystr; pi_state : pystr; pi_unread : Z; pi_archived : bool }.

Record Sidebar := mkSidebar {
  sb_peers : dict bytes peer_info;
  sb_active : option bytes;
  sb_filter : pystr;
  sb_visible : list bytes;
  sb_labels : list pystr;
  sb_index : option nat;
  sb_mounted : bool }.

(** [Sidebar.__init__] *)
Definition new_sidebar : Sidebar := mkSidebar [] None [] [] [] None false.

Definition set_sb_peers (d : dict bytes peer_info) (s : Sidebar) : Sidebar :=
  mkSidebar d (sb_active s) (sb_filter s) (sb_visible s) (sb_labels s) (sb_index s) (sb_mounted s).
Definition set_sb_active (a : option bytes) (s : Sidebar) : Sidebar :=
  mkSidebar (sb_peers s) a (sb_filter s) (sb_visible s) (sb_labels s) (sb_index s) (sb_mounted s).
Definition set_sb_filter (f : pystr) (s : Sidebar) : Sidebar :=
  mkSidebar (sb_peers s) (sb_active s) f (sb_visible s) (sb_labels s) (sb_index s) (sb_mounted s).

Definition set_unread (u : Z) (i : peer_info) : peer_info := mkInfo (pi_name i) (pi_state i) u (pi_archived i).

(** [_STATUS_ICONS.get(state, "? ")] *)
Definition STATUS_ICONS : dict pystr pystr :=
  [(str "connected", str "[+] "); (str "connecting", str "[~] "); (str "disconnected", str "[-] ");
   (str "idle", str "[-] "); (str "suspect", str "[?] "); (str "resolving", str "[~] ");
   (str "failed", str "[x] "); (str "archived", str "[.] ")].

Definition status_icon (state : pystr) : pystr := default (str "? ") (dget STATUS_ICONS state).

(** [a <= b] on strings: by code points *)
Fixpoint str_leb (a b : pystr) : bool :=
  match a, b with
  | [], _ => true
  | _, [] => false
  | x :: a, y :: b => (x <? y)%Z || ((x =? y)%Z && str_leb a b)
  end.

(** [p in s] for texts *)
Fixpoint str_contains (p s : pystr) : bool :=
  str_startswith p s || match s with [] => false | _ :: s => str_contains p s end.

Section sidebar.
Context `{CM : CaseMap}.

(** The sort key of [_sorted_peer_ids]: the active peer first, then more unread messages, then the name. *)
Definition sort_key (active : option bytes) (kv : bytes * peer_info) : Z * Z * pystr :=
  (if Some kv.1 =?b active then 0%Z else 1%Z, (- pi_unread kv.2)%Z, str_lower (pi_name kv.2)).

(** Comparison of such tuples. *)
Definition key_leb (a b : Z * Z * pystr) : bool :=
  let '(a1, a2, a3) := a in
  let '(b1, b2, b3) := b in
  (a1 <? b1)%Z || ((a1 =? b1)%Z && ((a2 <? b2)%Z || ((a2 =? b2)%Z && str_leb a3 b3))).

Definition peer_leb (active : option bytes) (a b : bytes * peer_info) : bool :=
  key_leb (sort_key active a) (sort_key active b).

Definition sorted_peers (s : Sidebar) : list (bytes * peer_info) := py_sorted (peer_leb (sb_active s)) (sb_peers s).

(** [_sorted_peer_ids] *)
Definition sorted_peer_ids (s : Sidebar) : list bytes := (sorted_peers s).*1.

(** [not self._filter or self._filter in name.lower()] *)
Definition shown (f : pystr) (i : peer_info) : bool := (f =?b []) || str_contains f (str_lower (pi_name i)).

Definition peer_label (active : option bytes) (pid : bytes) (info : peer_info) : pystr :=
  (if Some pid =?b active then str " >" else str "  ") ++ status_icon (pi_state info) ++ pi_name info
  ++ (if (0 <? pi_unread info)%Z then str " (" ++ str_of_Z (pi_unread info) ++ str ")" else [])
  ++ (if pi_archived info then str " [A]" else []).

(** [self._visible_ids.index(pid)] for a [pid] that occurs *)
Fixpoint list_index (pid : bytes) (l : list bytes) : option nat :=
  match l with
  | [] => None
  | x :: l => if x =?b pid then Some 0 else S <$> list_index pid l
  end.

(** [_refresh_list] *)
Definition refresh_list (s : Sidebar) : Sidebar :=
  if sb_mounted s then
    let rows := filter (λ kv, shown (sb_filter s) kv.2 = true) (sorted_peers s) in
    mkSidebar (sb_peers s) (sb_active s) (sb_filter s) rows.*1
      ((λ kv, peer_label (sb_active s) kv.1 kv.2) <$> rows)
      (sb_active s ≫= λ a, list_index a rows.*1) true
  else s.

(** ** Operations *)

(** [add_peer(peer_id, name, state, archived)] *)
Definition sb_add_peer (peer_id : bytes) (name state : pystr) (archived : bool) (s : Sidebar) : Sidebar :=
  let s := set_sb_peers (dset (sb_peers s) peer_id (mkInfo name state 0 archived)) s in
  refresh_list (match sb_active s with None => set_sb_active (Some peer_id) s | Some _ => s end).

(** [update_peer_state(peer_id, state)], for the text of the state *)
Definition update_peer_state (peer_id : bytes) (state_str : pystr) (s : Sidebar) : Sidebar :=
  if dmem (sb_peers s) peer_id then
    refresh_list (set_sb_peers (dupd (sb_peers s) peer_id (λ i,
      mkInfo (pi_name i) state_str (pi_unread i) (state_str =?b str "archived"))) s)
  else sb_add_peer peer_id (take 8 (bytes_hex peer_id)) state_str (state_str =?b str "archived") s.

(** [update_peer_name(peer_id, name)] *)
Definition update_peer_name (peer_id : bytes) (name : pystr) (s : Sidebar) : Sidebar :=
  if dmem (sb_peers s) peer_id then
    refresh_list (set_sb_peers (dupd (sb_peers s) peer_id (λ i,
      mkInfo name (pi_state i) (pi_unread i) (pi_archived i))) s)
  else s.

(** [next(iter(self._peers), None)] *)
Definition first_peer (d : dict bytes peer_info) : option bytes := head d.*1.

(** [remove_peer(peer_id)] *)
Definition sb_remove_peer (peer_id : bytes) (s : Sidebar) : Sidebar :=
  let s := set_sb_peers (dpop (sb_peers s) peer_id) s in
  refresh_list (if sb_active s =?b Some peer_id then set_sb_active (first_peer (sb_peers s)) s else s).

(** One entry of the snapshot [replace_peers] takes; [unread] may be missing. *)
Record peer_row := mkRow {
  row_peer_id : bytes; row_name : pystr; row_state : pystr; row_unread : option Z; row_archived : bool }.

Definition row_info (p : peer_row) : peer_info :=
  mkInfo (row_name p) (row_state p) (default 0%Z (row_unread p)) (row_archived p).

(** [replace_peers(peers)] *)
Definition replace_peers (peers : list peer_row) (s : Sidebar) : Sidebar :=
  let d := foldl (λ d p, dset d (row_peer_id p) (row_info p)) [] peers in
  let active :=
    match sb_active s with
    | Some a => if dmem d a then Some a else first_peer d
    | None => first_peer d
    end in
  refresh_list (set_sb_active active (set_sb_peers d s)).

(** [increment_unread(peer_id)] *)
Definition increment_unread (peer_id : bytes) (s : Sidebar) : Sidebar :=
  if dmem (sb_peers s) peer_id then
    refresh_list (set_sb_peers (dupd (sb_peers s) peer_id (λ i, set_unread (pi_unread i + 1) i)) s)
  else s.

(** [clear_unread(peer_id)] *)
Definition clear_unread (peer_id : bytes) (s : Sidebar) : Sidebar :=
  if dmem (sb_peers s) peer_id then
    refresh_list (set_sb_peers (dupd (sb_peers s) peer_id (set_unread 0)) s)
  else s.

(** [get_active_peer_name()]; an empty id is false *)
Definition get_active_peer_name (s : Sidebar) : option pystr :=
  match sb_active s with
  | Some (b :: a) => pi_name <$> dget (sb_peers s) (b :: a)
  | _ => None
  end.

(** [set_active_peer(peer_id)] *)
Definition sb_set_active_peer (peer_id : option bytes) (s : Sidebar) : Sidebar :=
  let s := set_sb_active peer_id s in
  refresh_list (match peer_id with Some (b :: p) => clear_unread (b :: p) s | _ => s end).

(** [on_input_changed(event)] of the search field *)
Definition on_search_changed (value : pystr) (s : Sidebar) : Sidebar :=
  refresh_list (set_sb_filter (str_lower (str_strip value)) s).

(** [on_list_view_selected(event)] with the index of the list view; the peer it posts as [PeerSelected] *)
Definition on_list_view_selected (idx : option nat) (s : Sidebar) : Sidebar * option bytes :=
  match idx ≫= λ i, sb_visible s !! i with
  | Some peer_id => (sb_set_active_peer (Some peer_id) s, Some peer_id)
  | None => (s, None)
  end.

(** The widget is mounted. *)
Definition mount_sidebar (s : Sidebar) : Sidebar :=
  mkSidebar (sb_peers s) (sb_active s) (sb_filter s) (sb_visible s) (sb_labels s) (sb_index s) true.
End sidebar.

(** ** What the list shows *)

Section view.
Context `{CM : CaseMap}.








Lemma elem_of_visible s pid :
  sb_mounted s = true →
  pid ∈ sb_visible (refresh_list s) ↔ ∃ i, (pid, i) ∈ sb_peers s ∧ shown (sb_filter s) i = true.
Proof using Type.
  intros Hm. unfold refresh_list. rewrite Hm. cbn. rewrite list_elem_of_fmap. unfold sorted_peers. split.
  - intros ([k i] & -> & [Hf Hin]%list_elem_of_filter). rewrite py_sorted_perm in Hin. by exists i.
  - intros (i & Hin & Hf). exists (pid, i). split; [done|]. apply list_elem_of_filter. split; [done|]. by rewrite py_sorted_perm.
Qed.

End view.

(** ** The invariant of the widget *)

Section invariant.
Context `{CM : CaseMap}.

(** A contact is active unless there is none; the active one and those in the list are contacts. *)
Record sidebar_ok (s : Sidebar) : Prop := {
  so_keys : dict_wf (sb_peers s);
  so_active : match sb_active s with Some a => a ∈ (sb_peers s).*1 | None => sb_peers s = [] end;
  so_visible : ∀ p, p ∈ sb_visible s → p ∈ (sb_peers s).*1;
  so_unmounted : sb_mounted s = false → sb_visible s = [] }.

Lemma refresh_list_ok s :
  dict_wf (sb_peers s) →
  match sb_active s with Some a => a ∈ (sb_peers s).*1 | None => sb_peers s = [] end →
  (sb_mounted s = false → sb_visible s = []) → sidebar_ok (refresh_list s).
Proof using Type.
  intros Hk Ha Hu. destruct (sb_mounted s) eqn:Hm.
  - split; [| |intros p Hp; rewrite elem_of_visible in Hp by done; destruct Hp as (i & Hp & _)|].
    all: unfold refresh_list; rewrite Hm; try done. cbn. apply list_elem_of_fmap. by exists (p, i).
  - unfold refresh_list. rewrite Hm. split; try done; rewrite Hu by done; [|done]. intros p Hp. by apply elem_of_nil in Hp.
Qed.

Lemma new_sidebar_ok : sidebar_ok new_sidebar.
Proof using Type. split; [apply NoDup_nil_2|done|by intros p ?%elem_of_nil|done]. Qed.

Lemma mount_sidebar_ok s : sidebar_ok s → sidebar_ok (mount_sidebar s).
Proof using Type. intros [? ? ? ?]. by split. Qed.

Lemma sb_add_peer_ok p n st b s : sidebar_ok s → sidebar_ok (sb_add_peer p n st b s).
Proof using Type.
  intros [Hk Ha Hv Hu]. unfold sb_add_peer.
  set (d := dset (sb_peers s) p (mkInfo n st 0 b)). assert (dict_wf d) by by apply dset_wf.
  assert (∀ q, q ∈ (sb_peers s).*1 ∨ q = p → q ∈ d.*1) as Hd.
  { intros q Hq. apply dget_is_Some. unfold d. rewrite dget_dset. case_decide; [eauto|]. apply dget_is_Some. naive_solver. }
  cbn [sb_active set_sb_peers]. destruct (sb_active s) as [a|] eqn:E; apply refresh_list_ok; cbn; rewrite ?E; auto.
Qed.

(** Changing the entry of a contact. *)
Lemma sb_update_ok p f s : sidebar_ok s → sidebar_ok (refresh_list (set_sb_peers (dupd (sb_peers s) p f) s)).
Proof using Type.
  intros [Hk Ha Hv Hu]. apply refresh_list_ok; cbn; [by apply dupd_wf| |done].
  rewrite dupd_keys. destruct (sb_active s); [done|]. by rewrite Ha.
Qed.

Lemma update_peer_state_ok p st s : sidebar_ok s → sidebar_ok (update_peer_state p st s).
Proof using Type. intros. unfold update_peer_state. destruct (dmem _ _); [by apply sb_update_ok|by apply sb_add_peer_ok]. Qed.

Lemma update_peer_name_ok p n s : sidebar_ok s → sidebar_ok (update_peer_name p n s).
Proof using Type. intros. unfold update_peer_name. destruct (dmem _ _); [by apply sb_update_ok|done]. Qed.

Lemma increment_unread_ok p s : sidebar_ok s → sidebar_ok (increment_unread p s).
Proof using Type. intros. unfold increment_unread. destruct (dmem _ _); [by apply sb_update_ok|done]. Qed.

Lemma clear_unread_ok p s : sidebar_ok s → sidebar_ok (clear_unread p s).
Proof using Type. intros. unfold clear_unread. destruct (dmem _ _); [by apply sb_update_ok|done]. Qed.

Lemma first_peer_ok (d : dict bytes peer_info) :
  match first_peer d with Some a => a ∈ d.*1 | None => d = [] end.
Proof using Type. destruct d as [|[k v] d]; cbn; [done|]. apply elem_of_cons. by left. Qed.

Lemma sb_remove_peer_ok p s : sidebar_ok s → sidebar_ok (sb_remove_peer p s).
Proof using Type.
  intros [Hk Ha Hv Hu]. unfold sb_remove_peer. cbn [sb_active set_sb_peers]. case_bool_decide as E.
  - apply refresh_list_ok; cbn; [by apply dpop_wf|apply first_peer_ok|done].
  - apply refresh_list_ok; cbn; [by apply dpop_wf| |done]. destruct (sb_active s) as [a|]; [|by rewrite Ha].
    rewrite dpop_keys. apply list_elem_of_filter. split; [congruence|done].
Qed.

Lemma replace_peers_ok rows s : sidebar_ok s → sidebar_ok (replace_peers rows s).
Proof using Type.
  intros [Hk Ha Hv Hu]. unfold replace_peers. set (d := foldl _ [] rows).
  assert (dict_wf d) as Hd.
  { unfold d. assert (∀ d0, dict_wf d0 → dict_wf (foldl (λ d p, dset d (row_peer_id p) (row_info p)) d0 rows)) as H.
    { induction rows as [|r rows IH]; intros d0 H0; [done|]. apply IH. by apply dset_wf. }
    apply H. apply NoDup_nil_2. }
  apply refresh_list_ok; cbn; [done| |done].
  destruct (sb_active s) as [a|]; [|apply first_peer_ok]. destruct (dmem d a) eqn:E; [|apply first_peer_ok].
  by apply dmem_spec, dget_is_Some in E.
Qed.

Lemma on_search_changed_ok v s : sidebar_ok s → sidebar_ok (on_search_changed v s).
Proof using Type. intros [Hk Ha Hv Hu]. by apply refresh_list_ok. Qed.

Lemma clear_unread_frame p s :
  sb_active (clear_unread p s) = sb_active s ∧ (sb_peers (clear_unread p s)).*1 = (sb_peers s).*1 ∧
  sb_mounted (clear_unread p s) = sb_mounted s ∧ (sb_mounted s = false → sb_visible (clear_unread p s) = sb_visible s).
Proof using Type.
  unfold clear_unread. destruct (dmem _ _); [|done]. unfold refresh_list. cbn.
  destruct (sb_mounted s) eqn:E; cbn; rewrite dupd_keys, ?E; done.
Qed.

Lemma sb_set_active_ok p s : sidebar_ok s → p ∈ (sb_peers s).*1 → sidebar_ok (sb_set_active_peer (Some p) s).
Proof using Type.
  intros [Hk Ha Hv Hu] Hp. unfold sb_set_active_peer.
  assert (∀ t, sb_active t = Some p → (sb_peers t).*1 = (sb_peers s).*1 → sb_mounted t = sb_mounted s →
    (sb_mounted s = false → sb_visible t = sb_visible s) → sidebar_ok (refresh_list t)) as Hr.
  { intros t Et Ek Em Ev. apply refresh_list_ok; [unfold dict_wf; by rewrite Ek|by rewrite Et, Ek|].
    rewrite Em. intros Hm. by rewrite Ev, Hu. }
  destruct p as [|b p]; [by apply Hr|]. destruct (clear_unread_frame (b :: p) (set_sb_active (Some (b :: p)) s)) as (? & ? & ? & ?).
  by apply Hr.
Qed.

Lemma on_list_view_selected_ok i s : sidebar_ok s → sidebar_ok (on_list_view_selected i s).1.
Proof using Type.
  intros Hok. unfold on_list_view_selected. destruct (i ≫= _) as [p|] eqn:E; [|done].
  apply sb_set_active_ok; [done|]. destruct i as [i|]; [|done]. cbn in E. apply list_elem_of_lookup_2 in E.
  by apply (so_visible s Hok).
Qed.
End invariant.

#[export] Hint Resolve mount_sidebar_ok sb_add_peer_ok update_peer_state_ok update_peer_name_ok increment_unread_ok
  clear_unread_ok sb_remove_peer_ok replace_peers_ok on_search_changed_ok on_list_view_selected_ok : ashichat.

(** ** Example *)

Module SidebarExample.
Import AsciiCase.



End SidebarExample.
