(* ===== verification/ChatView.v ===== *)
(** * The conversation (ui/components.py, [ChatView])

    The threads of messages by contact, the system messages, and what is on the screen: the texts mounted since the
    container was emptied last, with their style class.  [cv_mounted] says whether looking the container up succeeds. *)

From S2P Require Import Prelude Bytes PyDict PyText.

Inductive msg_kind := KIncoming | KOutgoing | KSystem.

Record chat_msg := mkMsg { cm_ts : pystr; cm_sender : pystr; cm_text : pystr; cm_kind : msg_kind }.

Record ChatView := mkChatView {
  cv_threads : dict bytes (list chat_msg);
  cv_system : list chat_msg;
  cv_active : option bytes;
  cv_active_name : pystr;
  cv_view : list (pystr * pystr);
  cv_mounted : bool }.

(** [ChatView.__init__] *)
Definition new_chat_view : ChatView := mkChatView [] [] None (str "No contact selected") [] false.

(** [l[-n:]] for [0 < n] *)
Definition last_n {A} (n : nat) (l : list A) : list A := drop (length l - n) l.

(** A line of the conversation: [ts] in brackets, sender and text. *)
Definition msg_line (m : chat_msg) : pystr :=
  str "[" ++ cm_ts m ++ str "] " ++ cm_sender m ++ str ": " ++ cm_text m.

Definition thread (c : ChatView) (peer_id : bytes) : list chat_msg := default [] (dget (cv_threads c) peer_id).

(** What [_render_current] mounts. *)
Definition rendered (c : ChatView) : list (pystr * pystr) :=
  [(str "Conversation: " ++ cv_active_name c, str "msg-header")]
  ++ ((λ m, (msg_line m, str "msg-system")) <$> last_n 5 (cv_system c))
  ++ match cv_active c with
     | None => [(str "Select a contact from the sidebar to start chatting.", str "msg-system")]
     | Some p =>
         (λ m, (msg_line m, match cm_kind m with KIncoming => str "msg-incoming" | _ => str "msg-outgoing" end))
           <$> last_n 300 (thread c p)
     end.

(** [_render_current] *)
Definition render_current (c : ChatView) : ChatView :=
  mkChatView (cv_threads c) (cv_system c) (cv_active c) (cv_active_name c)
    (if cv_mounted c then rendered c else cv_view c) (cv_mounted c).

(** [set_active_peer(peer_id, peer_name)]; an empty name or id is false *)
Definition cv_set_active_peer (peer_id : option bytes) (peer_name : option pystr) (c : ChatView) : ChatView :=
  let name := match peer_name with
              | Some (x :: n) => x :: n
              | _ => match peer_id with
                     | Some (b :: p) => take 8 (bytes_hex (b :: p))
                     | _ => str "No contact selected"
                     end
              end in
  render_current (mkChatView (cv_threads c) (cv_system c) peer_id name (cv_view c) (cv_mounted c)).

(** [add_system_message(text)] at the time [ts] *)
Definition add_system_message (text ts : pystr) (c : ChatView) : ChatView :=
  render_current (mkChatView (cv_threads c) (cv_system c ++ [mkMsg ts (str "System") text KSystem])
    (cv_active c) (cv_active_name c) (cv_view c) (cv_mounted c)).

(** The entry [add_message] appends. *)
Definition message_entry (peer_id : bytes) (text : pystr) (incoming : bool) (ts : pystr) : chat_msg :=
  mkMsg ts (if incoming then take 8 (bytes_hex peer_id) else str "You") text
    (if incoming then KIncoming else KOutgoing).

(** [add_message(peer_id, text, incoming)] at the time [ts] *)
Definition add_message (peer_id : bytes) (text : pystr) (incoming : bool) (ts : pystr) (c : ChatView) : ChatView :=
  let c := mkChatView (dset (cv_threads c) peer_id (thread c peer_id ++ [message_entry peer_id text incoming ts]))
    (cv_system c) (cv_active c) (cv_active_name c) (cv_view c) (cv_mounted c) in
  if cv_active c =?b Some peer_id then render_current c else c.

Definition mount_chat_view (c : ChatView) : ChatView :=
  mkChatView (cv_threads c) (cv_system c) (cv_active c) (cv_active_name c) (cv_view c) true.

(** ** Lemmas *)

Lemma thread_add_message p q text b ts c :
  thread (add_message p text b ts c) q
    = if decide (q = p) then thread c q ++ [message_entry p text b ts] else thread c q.
Proof.
  unfold add_message, thread. cbn. case_bool_decide; cbn; rewrite dget_dset; case_decide; subst; done.
Qed.

Lemma thread_system text ts c q : thread (add_system_message text ts c) q = thread c q.
Proof. done. Qed.

Lemma thread_set_active p n c q : thread (cv_set_active_peer p n c) q = thread c q.
Proof. done. Qed.

Lemma add_message_active p text b ts c : cv_active (add_message p text b ts c) = cv_active c.
Proof. unfold add_message. by case_bool_decide. Qed.

Lemma last_n_snoc {A} n (l : list A) x : last_n (S n) (l ++ [x]) = last_n n l ++ [x].
Proof.
  unfold last_n. rewrite length_app. cbn [length]. replace (length l + 1 - S n) with (length l - n) by lia.
  rewrite drop_app_le by lia. done.
Qed.
