(* ===== verification/Packet.v ===== *)
(** * The wire protocol (packet.py)

    The packet header, the ten typed payloads with their [serialize] and [deserialize], and
    [make_packet].  Every decoder follows its Python text: the length tests in their order,
    the slices, the [struct] calls.  The theorems: encoded values decode to themselves, also with
    bytes after them; decoders raise [PacketError] and nothing else (the transport catches only
    that); a decoded packet re-encodes to the bytes it was read from. *)

From S2P Require Import Prelude Bytes PyText IpAddr.

(** ** Constants *)

Definition PROTOCOL_VERSION : Z := 1.
Definition MAX_PAYLOAD_SIZE : Z := 65535.
Definition MAX_TTL : Z := 5.
Definition HEADER_SIZE : nat := 4.

(** ** Packet types *)

Inductive PacketType :=
| HELLO | HELLO_ACK | DATA | ACK | ENDPOINT_UPDATE | RESOLVE_REQUEST | PING | PONG | SYNC | APP_ACK.

#[export] Instance PacketType_eq_dec : EqDecision PacketType.
Proof. solve_decision. Defined.

(** The value of a member of the [IntEnum]. *)
Definition ptype_val (t : PacketType) : Z :=
  match t with
  | HELLO => 1 | HELLO_ACK => 2 | DATA => 3 | ACK => 4 | ENDPOINT_UPDATE => 5
  | RESOLVE_REQUEST => 6 | PING => 7 | PONG => 8 | SYNC => 9 | APP_ACK => 10
  end.

Definition ALL_TYPES : list PacketType :=
  [HELLO; HELLO_ACK; DATA; ACK; ENDPOINT_UPDATE; RESOLVE_REQUEST; PING; PONG; SYNC; APP_ACK].

(** [PacketType(v)]: [None] for a value that is not in [_VALID_TYPES]. *)
Definition ptype_of (v : Z) : option PacketType := List.find (λ t, ptype_val t =? v)%Z ALL_TYPES.

#[export] Program Instance PacketType_countable : Countable PacketType :=
  inj_countable ptype_val ptype_of _.
Next Obligation. by intros []. Qed.

(** ** The packet header *)

Record Packet := mkPacket { pkt_version : Z; pkt_type : PacketType; pkt_payload : bytes }.

#[export] Instance Packet_eq_dec : EqDecision Packet.
Proof. solve_decision. Defined.

(** [Packet.serialize]: [struct.pack(">BBH", version, type, length) + payload] *)
Definition packet_serialize (p : Packet) : result bytes :=
  v ← struct_pack 1 (pkt_version p);
  t ← struct_pack 1 (ptype_val (pkt_type p));
  l ← struct_pack 2 (Z.of_nat (length (pkt_payload p)));
  Ok (v ++ t ++ l ++ pkt_payload p).

(** [Packet.deserialize] *)
Definition packet_deserialize (data : bytes) : result Packet :=
  if (length data <? HEADER_SIZE)%nat then Raise PacketError else
  version ← struct_unpack 1 (slice 0 1 data);
  ptype ← struct_unpack 1 (slice 1 2 data);
  len ← struct_unpack 2 (slice 2 4 data);
  if negb (version =? PROTOCOL_VERSION)%Z then Raise PacketError else
  match ptype_of ptype with
  | None => Raise PacketError
  | Some t =>
      if (MAX_PAYLOAD_SIZE <? len)%Z then Raise PacketError else
      let payload := drop HEADER_SIZE data in
      if (Z.of_nat (length payload) <? len)%Z then Raise PacketError else
      Ok (mkPacket version t (take (Z.to_nat len) payload))
  end.

(** ** Typed payloads *)

(** [HelloPayload] *)
Record HelloPayload := mkHello {
  hello_identity_public_key : bytes;
  hello_ephemeral_public_key : bytes;
  hello_random_nonce : bytes;
  hello_signature : bytes }.

Definition hello_serialize (h : HelloPayload) : bytes :=
  hello_identity_public_key h ++ hello_ephemeral_public_key h
  ++ hello_random_nonce h ++ hello_signature h.

Definition hello_deserialize (data : bytes) : result HelloPayload :=
  if (length data <? 32 + 32 + 16 + 64)%nat then Raise PacketError else
  Ok (mkHello (slice 0 32 data) (slice 32 64 data) (slice 64 80 data) (slice 80 144 data)).

(** [HelloAckPayload] *)
Record HelloAckPayload := mkHelloAck {
  hack_identity_public_key : bytes;
  hack_ephemeral_public_key : bytes;
  hack_session_id : bytes;
  hack_random_nonce : bytes;
  hack_signature : bytes }.

Definition hello_ack_serialize (h : HelloAckPayload) : bytes :=
  hack_identity_public_key h ++ hack_ephemeral_public_key h ++ hack_session_id h
  ++ hack_random_nonce h ++ hack_signature h.

Definition hello_ack_deserialize (data : bytes) : result HelloAckPayload :=
  if (length data <? 152)%nat then Raise PacketError else
  Ok (mkHelloAck (slice 0 32 data) (slice 32 64 data) (slice 64 72 data) (slice 72 88 data)
        (slice 88 152 data)).

(** [DataPayload] *)
Record DataPayload := mkData {
  data_session_id : bytes;
  data_sequence_number : Z;
  data_ciphertext : bytes;
  data_auth_tag : bytes }.

Definition data_serialize (d : DataPayload) : result bytes :=
  s ← struct_pack 4 (data_sequence_number d);
  l ← struct_pack 4 (Z.of_nat (length (data_ciphertext d)));
  Ok (data_session_id d ++ s ++ l ++ data_ciphertext d ++ data_auth_tag d).

Definition data_deserialize (data : bytes) : result DataPayload :=
  if (length data <? 28)%nat then Raise PacketError else
  seq ← struct_unpack 4 (slice 8 12 data);
  ct_len ← struct_unpack 4 (slice 12 16 data);
  if (Z.of_nat (length data) <? 16 + ct_len + 16)%Z then Raise PacketError else
  let n := Z.to_nat ct_len in
  Ok (mkData (slice 0 8 data) seq (slice 16 (16 + n) data) (slice (16 + n) (16 + n + 16) data)).

(** [AckPayload] *)
Record AckPayload := mkAck { ack_session_id : bytes; ack_sequence_number : Z }.

Definition ack_serialize (a : AckPayload) : result bytes :=
  s ← struct_pack 4 (ack_sequence_number a); Ok (ack_session_id a ++ s).

Definition ack_deserialize (data : bytes) : result AckPayload :=
  if (length data <? 12)%nat then Raise PacketError else
  n ← struct_unpack 4 (slice 8 12 data); Ok (mkAck (slice 0 8 data) n).

(** [EndpointUpdatePayload] *)
Record EndpointUpdatePayload := mkEndpointUpdate {
  eu_peer_id : bytes;
  eu_endpoint_ip : pystr;
  eu_endpoint_port : Z;
  eu_version_counter : Z;
  eu_signature : bytes }.

Definition endpoint_update_serialize (u : EndpointUpdatePayload) : result bytes :=
  match ip_address (eu_endpoint_ip u) with
  | Raise _ => Raise PacketError
  | Ok addr =>
      let ip_type := match addr with IPv4 _ => 4%Z | IPv6 _ => 6%Z end in
      t ← struct_pack 1 ip_type;
      p ← struct_pack 2 (eu_endpoint_port u);
      v ← struct_pack 8 (eu_version_counter u);
      Ok (eu_peer_id u ++ t ++ ip_packed addr ++ p ++ v ++ eu_signature u)
  end.

(** The address field: its text and the offset after it. *)
Definition endpoint_update_ip (data : bytes) : result (pystr * nat) :=
  match data !! 32%nat with
  | None => Raise IndexError
  | Some ip_type =>
      if (byte_val ip_type =? 4)%Z then
        if (length data <? 33 + 4)%nat then Raise PacketError
        else Ok (ip_str (IPv4 (slice 33 37 data)), 37%nat)
      else if (byte_val ip_type =? 6)%Z then
        if (length data <? 33 + 16)%nat then Raise PacketError
        else Ok (ip_str (IPv6 (slice 33 49 data)), 49%nat)
      else Raise PacketError
  end.

Definition endpoint_update_deserialize (data : bytes) : result EndpointUpdatePayload :=
  if (length data <? 32 + 1)%nat then Raise PacketError else
  ip ← endpoint_update_ip data;
  let '(ip_text, off) := ip in
  if (length data <? off + 2 + 8 + 64)%nat then Raise PacketError else
  port ← struct_unpack 2 (slice off (off + 2) data);
  counter ← struct_unpack 8 (slice (off + 2) (off + 10) data);
  Ok (mkEndpointUpdate (slice 0 32 data) ip_text port counter
        (slice (off + 10) (off + 74) data)).

(** [ResolveRequestPayload] *)
Record ResolveRequestPayload := mkResolve {
  rr_request_id : bytes;
  rr_target_peer_id : bytes;
  rr_ttl : Z }.

Definition resolve_serialize (r : ResolveRequestPayload) : result bytes :=
  t ← struct_pack 1 (Z.min (rr_ttl r) MAX_TTL);
  Ok (rr_request_id r ++ rr_target_peer_id r ++ t).

Definition resolve_deserialize (data : bytes) : result ResolveRequestPayload :=
  if (length data <? 16 + 32 + 1)%nat then Raise PacketError else
  match data !! 48%nat with
  | None => Raise IndexError
  | Some ttl =>
      Ok (mkResolve (slice 0 16 data) (slice 16 48 data) (Z.min (byte_val ttl) MAX_TTL))
  end.

(** [PingPayload] *)
Record PingPayload := mkPing { ping_session_id : bytes; ping_ping_id : bytes }.

Definition ping_serialize (p : PingPayload) : bytes := ping_session_id p ++ ping_ping_id p.

Definition ping_deserialize (data : bytes) : result PingPayload :=
  if (length data <? 16)%nat then Raise PacketError else
  Ok (mkPing (slice 0 8 data) (slice 8 16 data)).

(** [PongPayload] *)
Record PongPayload := mkPong { pong_session_id : bytes; pong_ping_id : bytes }.

Definition pong_serialize (p : PongPayload) : bytes := pong_session_id p ++ pong_ping_id p.

Definition pong_deserialize (data : bytes) : result PongPayload :=
  if (length data <? 16)%nat then Raise PacketError else
  Ok (mkPong (slice 0 8 data) (slice 8 16 data)).

(** [SyncPayload] *)
Record SyncPayload := mkSync { sync_session_id : bytes; sync_sequence_number : Z }.

Definition sync_serialize (a : SyncPayload) : result bytes :=
  s ← struct_pack 4 (sync_sequence_number a); Ok (sync_session_id a ++ s).

Definition sync_deserialize (data : bytes) : result SyncPayload :=
  if (length data <? 12)%nat then Raise PacketError else
  n ← struct_unpack 4 (slice 8 12 data); Ok (mkSync (slice 0 8 data) n).

(** [AppAckPayload] *)
Record AppAckPayload := mkAppAck { app_ack_session_id : bytes; app_ack_sequence_number : Z }.

Definition app_ack_serialize (a : AppAckPayload) : result bytes :=
  s ← struct_pack 4 (app_ack_sequence_number a); Ok (app_ack_session_id a ++ s).

Definition app_ack_deserialize (data : bytes) : result AppAckPayload :=
  if (length data <? 12)%nat then Raise PacketError else
  n ← struct_unpack 4 (slice 8 12 data); Ok (mkAppAck (slice 0 8 data) n).

(** The union of the payload classes that [make_packet] accepts. *)
Inductive payload_obj :=
| PHello (h : HelloPayload)
| PHelloAck (h : HelloAckPayload)
| PData (d : DataPayload)
| PAck (a : AckPayload)
| PEndpointUpdate (u : EndpointUpdatePayload)
| PResolve (r : ResolveRequestPayload)
| PPing (p : PingPayload)
| PPong (p : PongPayload)
| PSync (s : SyncPayload)
| PAppAck (a : AppAckPayload).

(** [payload_obj.serialize()] *)
Definition payload_serialize (o : payload_obj) : result bytes :=
  match o with
  | PHello h => Ok (hello_serialize h)
  | PHelloAck h => Ok (hello_ack_serialize h)
  | PData d => data_serialize d
  | PAck a => ack_serialize a
  | PEndpointUpdate u => endpoint_update_serialize u
  | PResolve r => resolve_serialize r
  | PPing p => Ok (ping_serialize p)
  | PPong p => Ok (pong_serialize p)
  | PSync s => sync_serialize s
  | PAppAck a => app_ack_serialize a
  end.

Definition make_packet (t : PacketType) (o : payload_obj) : result Packet :=
  pl ← payload_serialize o; Ok (mkPacket PROTOCOL_VERSION t pl).

(** ** What the decoders are for: the decoder of each packet type *)

Definition obj_type (o : payload_obj) : PacketType :=
  match o with
  | PHello _ => HELLO | PHelloAck _ => HELLO_ACK | PData _ => DATA | PAck _ => ACK
  | PEndpointUpdate _ => ENDPOINT_UPDATE | PResolve _ => RESOLVE_REQUEST | PPing _ => PING
  | PPong _ => PONG | PSync _ => SYNC | PAppAck _ => APP_ACK
  end.

(** The decoder that the handler of a packet type applies to the payload. *)
Definition payload_deserialize (t : PacketType) (data : bytes) : result payload_obj :=
  match t with
  | HELLO => PHello <$> hello_deserialize data
  | HELLO_ACK => PHelloAck <$> hello_ack_deserialize data
  | DATA => PData <$> data_deserialize data
  | ACK => PAck <$> ack_deserialize data
  | ENDPOINT_UPDATE => PEndpointUpdate <$> endpoint_update_deserialize data
  | RESOLVE_REQUEST => PResolve <$> resolve_deserialize data
  | PING => PPing <$> ping_deserialize data
  | PONG => PPong <$> pong_deserialize data
  | SYNC => PSync <$> sync_deserialize data
  | APP_ACK => PAppAck <$> app_ack_deserialize data
  end.

Definition u32 (n : Z) : Prop := (0 ≤ n < 2 ^ 32)%Z.

(** The field widths the comments of the dataclasses promise. *)
Definition payload_wf (o : payload_obj) : Prop :=
  match o with
  | PHello h => length (hello_identity_public_key h) = 32
      ∧ length (hello_ephemeral_public_key h) = 32
      ∧ length (hello_random_nonce h) = 16 ∧ length (hello_signature h) = 64
  | PHelloAck h => length (hack_identity_public_key h) = 32
      ∧ length (hack_ephemeral_public_key h) = 32 ∧ length (hack_session_id h) = 8
      ∧ length (hack_random_nonce h) = 16 ∧ length (hack_signature h) = 64
  | PData d => length (data_session_id d) = 8 ∧ u32 (data_sequence_number d)
      ∧ u32 (Z.of_nat (length (data_ciphertext d))) ∧ length (data_auth_tag d) = 16
  | PAck a => length (ack_session_id a) = 8 ∧ u32 (ack_sequence_number a)
  | PEndpointUpdate u => length (eu_peer_id u) = 32
      ∧ (∃ a, ip_wf a ∧ eu_endpoint_ip u = ip_str a)
      ∧ (0 ≤ eu_endpoint_port u < 2 ^ 16)%Z ∧ (0 ≤ eu_version_counter u < 2 ^ 64)%Z
      ∧ length (eu_signature u) = 64
  | PResolve r => length (rr_request_id r) = 16 ∧ length (rr_target_peer_id r) = 32
      ∧ (0 ≤ rr_ttl r ≤ MAX_TTL)%Z
  | PPing p => length (ping_session_id p) = 8 ∧ length (ping_ping_id p) = 8
  | PPong p => length (pong_session_id p) = 8 ∧ length (pong_ping_id p) = 8
  | PSync s => length (sync_session_id s) = 8 ∧ u32 (sync_sequence_number s)
  | PAppAck a => length (app_ack_session_id a) = 8 ∧ u32 (app_ack_sequence_number a)
  end.

(** ** Automation for concatenations of fixed-width fields *)

#[local] Arguments Nat.ltb : simpl never.
#[local] Arguments Nat.add : simpl nomatch.
#[local] Arguments slice : simpl never.
#[local] Arguments be_encode : simpl never.

(** [wire_length] proves a bound on the length of a concatenation. *)
Ltac wire_length := autorewrite with ashichat; cbn [length]; lia.

(** [take_fields] reads a field at its offset in a concatenation of fields. *)
Ltac take_fields :=
  repeat first
    [ rewrite slice_app_here' by wire_length
    | rewrite slice_full by wire_length
    | rewrite slice_app_skip by wire_length
    | progress (rewrite ?length_be_encode)
    | match goal with H : length _ = _ |- _ => progress (rewrite ?H) end
    | progress cbn [Nat.sub Nat.add] ].

(** [wire_start]: unfold a decoder applied to an encoder's output and pass its length test. *)
Ltac wire_start :=
  rewrite <- ?app_assoc, (proj2 (Nat.ltb_ge _ _)) by wire_length.

Lemma pow256_4 : (256 ^ Z.of_nat 4 = 2 ^ 32)%Z.
Proof. done. Qed.

Lemma struct_pack_u32 n : u32 n → struct_pack 4 n = Ok (be_encode 4 n).
Proof. intros. by apply struct_pack_fits. Qed.

Lemma struct_unpack_encode w n :
  (0 ≤ n < 256 ^ Z.of_nat w)%Z → struct_unpack w (be_encode w n) = Ok n.
Proof. intros. by eapply struct_unpack_pack, struct_pack_fits. Qed.

Lemma struct_unpack_u32 n : u32 n → struct_unpack 4 (be_encode 4 n) = Ok n.
Proof. intros. by apply struct_unpack_encode. Qed.

(** ** Round trips of the payloads *)

Section roundtrips.
Context (rest : bytes).

Lemma hello_roundtrip h :
  payload_wf (PHello h) → hello_deserialize (hello_serialize h ++ rest) = Ok h.
Proof.
  destruct h as [a b c d]. cbn. intros (Ha & Hb & Hc & Hd).
  unfold hello_deserialize, hello_serialize. cbn. wire_start. do 2 f_equal; take_fields; done.
Qed.

Lemma hello_ack_roundtrip h :
  payload_wf (PHelloAck h) → hello_ack_deserialize (hello_ack_serialize h ++ rest) = Ok h.
Proof.
  destruct h as [a b c d e]. cbn. intros (Ha & Hb & Hc & Hd & He).
  unfold hello_ack_deserialize, hello_ack_serialize. cbn. wire_start.
  do 2 f_equal; take_fields; done.
Qed.

Lemma data_roundtrip d bs :
  payload_wf (PData d) → data_serialize d = Ok bs → data_deserialize (bs ++ rest) = Ok d.
Proof.
  destruct d as [sid n ct tag]. cbn. intros (Hs & Hn & Hl & Ht).
  unfold data_deserialize, data_serialize. cbn. rewrite !struct_pack_u32 by done. cbn.
  intros <-%Ok_inj. wire_start.
  take_fields.
  rewrite !struct_unpack_u32 by done. cbn. rewrite Nat2Z.id.
  rewrite (proj2 (Z.ltb_ge _ _)) by wire_length.
  f_equal. f_equal.
  - rewrite (app_assoc sid), (app_assoc (sid ++ _)). apply slice_mid; wire_length.
  - rewrite (app_assoc sid), (app_assoc (sid ++ _)), (app_assoc _ ct). apply slice_mid; wire_length.
Qed.

Lemma ack_roundtrip a bs :
  payload_wf (PAck a) → ack_serialize a = Ok bs → ack_deserialize (bs ++ rest) = Ok a.
Proof.
  destruct a as [sid n]. cbn. intros (Hs & Hn). unfold ack_deserialize, ack_serialize. cbn.
  rewrite struct_pack_u32 by done. cbn. intros <-%Ok_inj. wire_start.
  take_fields.
  rewrite struct_unpack_u32 by done. cbn. do 2 f_equal; take_fields; done.
Qed.

Lemma sync_roundtrip a bs :
  payload_wf (PSync a) → sync_serialize a = Ok bs → sync_deserialize (bs ++ rest) = Ok a.
Proof.
  destruct a as [sid n]. cbn. intros (Hs & Hn). unfold sync_deserialize, sync_serialize. cbn.
  rewrite struct_pack_u32 by done. cbn. intros <-%Ok_inj. wire_start.
  take_fields.
  rewrite struct_unpack_u32 by done. cbn. do 2 f_equal; take_fields; done.
Qed.

Lemma app_ack_roundtrip a bs :
  payload_wf (PAppAck a) → app_ack_serialize a = Ok bs → app_ack_deserialize (bs ++ rest) = Ok a.
Proof.
  destruct a as [sid n]. cbn. intros (Hs & Hn).
  unfold app_ack_deserialize, app_ack_serialize. cbn.
  rewrite struct_pack_u32 by done. cbn. intros <-%Ok_inj. wire_start.
  take_fields.
  rewrite struct_unpack_u32 by done. cbn. do 2 f_equal; take_fields; done.
Qed.

Lemma resolve_roundtrip r bs :
  payload_wf (PResolve r) → resolve_serialize r = Ok bs → resolve_deserialize (bs ++ rest) = Ok r.
Proof.
  destruct r as [i t n]. cbn. unfold MAX_TTL. intros (Hi & Ht & Hn).
  unfold resolve_deserialize, resolve_serialize, MAX_TTL. cbn.
  rewrite Z.min_l by lia. rewrite struct_pack_fits by (cbn; lia). cbn. intros <-%Ok_inj. wire_start.
  rewrite lookup_app_r, lookup_app_r by lia. rewrite Hi, Ht.
  change (be_encode 1 n) with [byte_of_Z (n mod 256)]. cbn.
  rewrite byte_val_of, Z.mod_small, Z.min_l by (rewrite ?Z.mod_small; lia).
  do 2 f_equal; take_fields; done.
Qed.

Lemma ping_roundtrip p :
  payload_wf (PPing p) → ping_deserialize (ping_serialize p ++ rest) = Ok p.
Proof.
  destruct p as [a b]. cbn. intros (Ha & Hb). unfold ping_deserialize, ping_serialize. cbn.
  wire_start. do 2 f_equal; take_fields; done.
Qed.

Lemma pong_roundtrip p :
  payload_wf (PPong p) → pong_deserialize (pong_serialize p ++ rest) = Ok p.
Proof.
  destruct p as [a b]. cbn. intros (Ha & Hb). unfold pong_deserialize, pong_serialize. cbn.
  wire_start. do 2 f_equal; take_fields; done.
Qed.

Lemma endpoint_update_roundtrip u bs :
  payload_wf (PEndpointUpdate u) → endpoint_update_serialize u = Ok bs →
  endpoint_update_deserialize (bs ++ rest) = Ok u.
Proof.
  destruct u as [pid host port v sig]. cbn. intros (Hp & (a & Ha & ->) & Hport & Hv & Hsig).
  unfold endpoint_update_deserialize, endpoint_update_serialize. cbn.
  rewrite ip_address_ip_str by done. destruct a as [p|p]; cbn in Ha.
  all: rewrite !struct_pack_fits by (cbn; lia); cbn [mbind result_bind]; intros <-%Ok_inj; wire_start.
  all: unfold endpoint_update_ip; rewrite lookup_app_r by lia; rewrite Hp; cbn [ip_packed].
  all: change (be_encode 1 4) with [Byte.x04]; change (be_encode 1 6) with [Byte.x06].
  all: cbn [Nat.sub lookup list_lookup app]; rewrite ?bool_decide_true by done.
  all: change (byte_val Byte.x04 =? 4)%Z with true; change (byte_val Byte.x06 =? 4)%Z with false;
    change (byte_val Byte.x06 =? 6)%Z with true; cbv iota.
  all: rewrite (proj2 (Nat.ltb_ge _ _))
    by (autorewrite with ashichat; cbn [length]; wire_length).
  all: cbn [mbind result_bind].
  all: rewrite (proj2 (Nat.ltb_ge _ _))
    by (autorewrite with ashichat; cbn [length]; wire_length).
  all: change (Byte.x04 :: ?l) with ([Byte.x04] ++ l); change (Byte.x06 :: ?l) with ([Byte.x06] ++ l).
  all: take_fields; rewrite !struct_unpack_encode by (cbn; lia).
  all: done.
Qed.
End roundtrips.

(** ** All payloads at once *)

Lemma payload_serialize_ok o : payload_wf o → ∃ bs, payload_serialize o = Ok bs.
Proof.
  destruct o as [h|h|d|a|u|r|p|p|s|a]; cbn; eauto.
  - intros (_ & Hn & Hl & _). unfold data_serialize. rewrite !struct_pack_u32 by done. cbn. eauto.
  - intros (_ & Hn). unfold ack_serialize. rewrite struct_pack_u32 by done. cbn. eauto.
  - intros (_ & (a & Ha & E) & Hp & Hv & _). unfold endpoint_update_serialize.
    rewrite E, ip_address_ip_str by done. destruct a; rewrite !struct_pack_fits by (cbn; lia); cbn; eauto.
  - unfold MAX_TTL. intros (_ & _ & Ht). unfold resolve_serialize.
    rewrite struct_pack_fits by (unfold MAX_TTL; cbn; lia). cbn. eauto.
  - intros (_ & Hn). unfold sync_serialize. rewrite struct_pack_u32 by done. cbn. eauto.
  - intros (_ & Hn). unfold app_ack_serialize. rewrite struct_pack_u32 by done. cbn. eauto.
Qed.

Lemma payload_roundtrip o bs rest :
  payload_wf o → payload_serialize o = Ok bs →
  payload_deserialize (obj_type o) (bs ++ rest) = Ok o.
Proof.
  destruct o as [h|h|d|a|u|r|p|p|s|a]; cbn [payload_serialize payload_deserialize obj_type];
    intros Hwf Hs.
  - apply Ok_inj in Hs as <-. by rewrite hello_roundtrip.
  - apply Ok_inj in Hs as <-. by rewrite hello_ack_roundtrip.
  - by rewrite (data_roundtrip _ _ bs Hwf).
  - by rewrite (ack_roundtrip _ _ bs Hwf).
  - by rewrite (endpoint_update_roundtrip _ _ bs Hwf).
  - by rewrite (resolve_roundtrip _ _ bs Hwf).
  - apply Ok_inj in Hs as <-. by rewrite ping_roundtrip.
  - apply Ok_inj in Hs as <-. by rewrite pong_roundtrip.
  - by rewrite (sync_roundtrip _ _ bs Hwf).
  - by rewrite (app_ack_roundtrip _ _ bs Hwf).
Qed.

(** ** The header *)

Lemma ptype_of_val t : ptype_of (ptype_val t) = Some t.
Proof. by destruct t. Qed.

Lemma ptype_val_range t : (1 ≤ ptype_val t ≤ 10)%Z.
Proof. destruct t; cbn; lia. Qed.

Lemma packet_deserialize_serialize t pl data rest :
  packet_serialize (mkPacket PROTOCOL_VERSION t pl) = Ok data →
  packet_deserialize (data ++ rest) = Ok (mkPacket PROTOCOL_VERSION t pl).
Proof.
  unfold packet_serialize. cbn. intros H. invert_ok.
  apply struct_pack_Ok in H0 as [_ ->], H1 as [_ ->], H2 as [Hlen ->]. subst data.
  unfold packet_deserialize. rewrite <- !app_assoc.
  rewrite (proj2 (Nat.ltb_ge _ _)) by (unfold HEADER_SIZE; wire_length).
  take_fields. pose proof (ptype_val_range t).
  rewrite !struct_unpack_encode by (done || (cbn; unfold PROTOCOL_VERSION; lia)).
  cbn [mbind result_bind]. rewrite Z.eqb_refl, ptype_of_val. cbn [negb].
  rewrite (proj2 (Z.ltb_ge _ _)) by (unfold MAX_PAYLOAD_SIZE; cbn in Hlen; lia).
  rewrite !app_assoc, <- (app_assoc _ pl rest).
  rewrite drop_app_length' by (unfold HEADER_SIZE; wire_length).
  rewrite (proj2 (Z.ltb_ge _ _)) by (rewrite length_app; lia).
  rewrite Nat2Z.id, take_app_length. done.
Qed.

Lemma packet_serialize_ok t pl :
  (Z.of_nat (length pl) ≤ MAX_PAYLOAD_SIZE)%Z →
  ∃ data, packet_serialize (mkPacket PROTOCOL_VERSION t pl) = Ok data.
Proof.
  unfold MAX_PAYLOAD_SIZE. intros Hl. unfold packet_serialize. cbn [pkt_version pkt_type pkt_payload].
  pose proof (ptype_val_range t).
  rewrite !struct_pack_fits by (cbn; unfold PROTOCOL_VERSION; lia). cbn. eauto.
Qed.

(** ** Errors of the decoders *)

(** The only exception of a decoder is [PacketError]. *)
Definition only_packet_error {A} (r : result A) : Prop :=
  ∀ e, r = Raise e → e = PacketError.

Lemma ope_ok {A} (a : A) : only_packet_error (Ok a).
Proof. by intros e. Qed.

Lemma ope_raise {A} : only_packet_error (Raise (A := A) PacketError).
Proof. by intros e [= <-]. Qed.

Lemma ope_bind {A B} (c : result A) (k : A → result B) :
  only_packet_error c → (∀ a, c = Ok a → only_packet_error (k a)) → only_packet_error (c ≫= k).
Proof. intros Hc Hk e [->|(a & Ha & He)]%bind_Raise_inv; [by apply Hc | by eapply Hk]. Qed.

Lemma ope_fmap {A B} (f : A → B) c : only_packet_error c → only_packet_error (f <$> c).
Proof. intros Hc e. destruct c as [a|e']; cbn; [done|]. intros [= <-]. by apply Hc. Qed.

Lemma ope_if {A} (b : bool) (c d : result A) :
  only_packet_error c → (b = false → only_packet_error d) →
  only_packet_error (if b then c else d).
Proof. destruct b; auto. Qed.

Lemma ope_unpack w data a :
  a + w ≤ length data → only_packet_error (struct_unpack w (slice a (a + w) data)).
Proof.
  intros H. rewrite struct_unpack_total; [apply ope_ok|]. rewrite length_slice by lia. lia.
Qed.

#[local] Opaque struct_unpack.

(** [ope_tac] follows the tests of a decoder. *)
Ltac ope_tac :=
  repeat first
    [ apply ope_ok | apply ope_raise
    | apply ope_fmap
    | apply ope_if; [| let E := fresh "E" in intros E; bool_hyps]
    | apply ope_bind; [| let a := fresh "a" in let H := fresh "H" in intros a H]
    | match goal with
      | |- only_packet_error (struct_unpack ?w (slice ?a ?b ?d)) =>
          apply (ope_unpack w d a); unfold HEADER_SIZE in *; lia
      end ].

Lemma lookup_some_lt {A} (l : list A) i : i < length l → ∃ x, l !! i = Some x.
Proof. intros [x Hx]%lookup_lt_is_Some. eauto. Qed.

Lemma endpoint_update_deserialize_errors data :
  only_packet_error (endpoint_update_deserialize data).
Proof.
  unfold endpoint_update_deserialize, endpoint_update_ip.
  apply ope_if; [apply ope_raise|]. intros E. bool_hyps.
  destruct (lookup_some_lt data 32) as [b ->]; [lia|].
  apply ope_bind; [ope_tac|]. intros [ip_text off] Hip. ope_tac.
  replace (off + 10) with (off + 2 + 8) by lia. ope_tac.
Qed.

Lemma payload_deserialize_errors t data : only_packet_error (payload_deserialize t data).
Proof.
  destruct t; cbn [payload_deserialize]; apply ope_fmap;
    [ | | | | apply endpoint_update_deserialize_errors | | | | | ].
  all: unfold hello_deserialize, hello_ack_deserialize, data_deserialize, ack_deserialize,
    resolve_deserialize, ping_deserialize, pong_deserialize, sync_deserialize,
    app_ack_deserialize; ope_tac.
  destruct (lookup_some_lt data 48) as [b ->]; [lia | ope_tac].
Qed.

Lemma packet_deserialize_errors data : only_packet_error (packet_deserialize data).
Proof.
  unfold packet_deserialize. ope_tac.
  destruct (ptype_of _); ope_tac.
Qed.

(** ** The header decoder accepts exactly the encodings *)

Lemma packet_deserialize_sound data p :
  packet_deserialize data = Ok p →
  pkt_version p = PROTOCOL_VERSION ∧
  ∃ bs rest, packet_serialize p = Ok bs ∧ data = bs ++ rest.
Proof.
  unfold packet_deserialize. intros H.
  destruct (length data <? HEADER_SIZE) eqn:E; [done|]. unfold HEADER_SIZE in *. bool_hyps.
  invert_ok. rename H0 into Hv, H1 into Ht, H2 into Hl.
  destruct (Z.eqb_spec a PROTOCOL_VERSION) as [Ha|]; [|done]. cbn [negb] in H.
  destruct (ptype_of a0) as [t|] eqn:Et; [|done].
  destruct (MAX_PAYLOAD_SIZE <? a1)%Z; [done|].
  destruct (Z.ltb_spec (Z.of_nat (length (drop 4 data))) a1) as [|Hlen]; [done|].
  apply Ok_inj in H as <-. split; [done|].
  assert (ptype_val t = a0) as Hta.
  { apply List.find_some in Et as [_ Et]. by apply Z.eqb_eq. }
  exists (slice 0 1 data ++ slice 1 2 data ++ slice 2 4 data ++ take (Z.to_nat a1) (drop 4 data)).
  exists (drop (Z.to_nat a1) (drop 4 data)). split.
  - apply struct_pack_unpack in Hv, Ht, Hl as Hl'. unfold packet_serialize.
    cbn [pkt_version pkt_type pkt_payload]. rewrite Hv, Hta, Ht. cbn [mbind result_bind].
    apply struct_pack_Ok in Hl' as Hr. rewrite length_take, Nat.min_l by lia.
    rewrite Z2Nat.id by lia. by rewrite Hl'.
  - rewrite <- !app_assoc, take_drop.
    rewrite !(app_assoc (slice _ _ _)), !slice_split by lia.
    rewrite <- (slice_drop 4 (length data)) by done. rewrite !slice_split by lia.
    by rewrite slice_full.
Qed.

(** C28: the packet decoder accepts exactly the encodings of version-1 packets.  [data] decodes
    to [p] if and only if [p] carries the protocol version and [data] starts with the bytes
    [p.serialize()] produces; trailing bytes are ignored. *)
Theorem packet_deserialize_iff (data : bytes) (p : Packet) :
  packet_deserialize data = Ok p ↔
  pkt_version p = PROTOCOL_VERSION ∧
  ∃ bs rest, packet_serialize p = Ok bs ∧ data = bs ++ rest.
Proof.
  split; [apply packet_deserialize_sound|].
  destruct p as [v t pl]. cbn. intros (-> & bs & rest & Hs & ->).
  by apply packet_deserialize_serialize.
Qed.

(** C29: a well-formed typed payload survives the wire.  Wrapping it with [make_packet] in its own
    packet type and serializing succeeds; decoding the datagram, even followed by other bytes, and
    then the payload with the decoder of the received type gives the payload back. *)
Theorem make_packet_roundtrip (o : payload_obj) (pl : bytes) :
  payload_wf o → payload_serialize o = Ok pl → (Z.of_nat (length pl) ≤ MAX_PAYLOAD_SIZE)%Z →
  ∃ p data, make_packet (obj_type o) o = Ok p ∧ packet_serialize p = Ok data ∧
    ∀ rest, ∃ p', packet_deserialize (data ++ rest) = Ok p' ∧
      payload_deserialize (pkt_type p') (pkt_payload p') = Ok o.
Proof.
  intros Hwf Hs Hlen. destruct (packet_serialize_ok (obj_type o) pl Hlen) as [data Hd].
  exists (mkPacket PROTOCOL_VERSION (obj_type o) pl), data. unfold make_packet. rewrite Hs.
  split_and!; [done..|]. intros rest. eexists. split; [by apply packet_deserialize_serialize|].
  cbn. rewrite <- (app_nil_r pl). by apply payload_roundtrip.
Qed.

Lemma make_packet_roundtrip_witness :
  ∃ p data, make_packet DATA (PData (mkData (be_encode 8 7) 1 [Byte.x41] (be_encode 16 0))) = Ok p
    ∧ packet_serialize p = Ok data ∧
    ∀ rest, ∃ p', packet_deserialize (data ++ rest) = Ok p' ∧
      payload_deserialize (pkt_type p') (pkt_payload p')
      = Ok (PData (mkData (be_encode 8 7) 1 [Byte.x41] (be_encode 16 0))).
Proof.
  eapply (make_packet_roundtrip (PData (mkData (be_encode 8 7) 1 [Byte.x41] (be_encode 16 0)))).
  - cbn. unfold u32. repeat split; lia || reflexivity.
  - reflexivity.
  - vm_compute. discriminate.
Defined.

(** Every decoder is total up to [PacketError].  Decoding a datagram, and decoding any payload
    with the decoder of any packet type, returns a value or raises [PacketError]; no other
    exception escapes, which is what [UDPTransport.datagram_received] relies on. *)
Theorem decoders_only_packet_error (t : PacketType) (data : bytes) :
  ((∃ p, packet_deserialize data = Ok p) ∨ packet_deserialize data = Raise PacketError) ∧
  ((∃ o, payload_deserialize t data = Ok o) ∨ payload_deserialize t data = Raise PacketError).
Proof.
  pose proof (packet_deserialize_errors data) as H1.
  pose proof (payload_deserialize_errors t data) as H2. split.
  - destruct (packet_deserialize data) as [p|e]; [by left; exists p | right; f_equal; by apply H1].
  - destruct (payload_deserialize t data) as [o|e]; [by left; exists o | right; f_equal; by apply H2].
Qed.
