(* ===== verification/Crypto.v ===== *)
(** * Cryptographic primitives (crypto.py) and identities (identity.py)

    The [cryptography] package and [hashlib] are not part of the repository: [CryptoLib] lists the
    operations the program calls, and [CryptoLaws] what their documentation promises and the
    program relies on (signatures verify, the key exchange is symmetric, authenticated decryption
    inverts encryption, sizes).  Nothing is assumed about the strength of a primitive.  Keys are
    their raw encodings.  [ToyCrypto] is an instance on which the laws hold, used to evaluate the
    model on concrete inputs. *)

From S2P Require Import Prelude Bytes PyText.

(** ** The interface *)

Class CryptoLib := {
  (** [Ed25519PrivateKey(raw).public_key()] *)
  ed_public : bytes → bytes;
  (** [Ed25519PublicKey.from_public_bytes(raw)] *)
  ed_from_public_bytes : bytes → result bytes;
  (** [private_key.sign(data)] *)
  ed_sign : bytes → bytes → bytes;
  (** [public_key.verify(signature, data)] does not raise *)
  ed_verify : bytes → bytes → bytes → bool;
  (** [X25519PrivateKey(raw).public_key()] *)
  x_public : bytes → bytes;
  (** [X25519PublicKey.from_public_bytes(raw)] *)
  x_from_public_bytes : bytes → result bytes;
  (** [X25519PrivateKey.from_private_bytes(raw)] *)
  x_from_private_bytes : bytes → result bytes;
  (** [private.exchange(public)] *)
  x_exchange : bytes → bytes → result bytes;
  (** [HKDF(SHA256(), 32, salt, info).derive(secret)] with arguments salt, info, secret *)
  hkdf_derive : bytes → bytes → bytes → bytes;
  (** [AESGCM(key).encrypt(nonce, data, aad)] *)
  aes_encrypt : bytes → bytes → bytes → bytes → bytes;
  (** [AESGCM(key).decrypt(nonce, data, aad)] *)
  aes_decrypt : bytes → bytes → bytes → bytes → result bytes;
  (** [hashlib.sha256(data).digest()] *)
  sha256 : bytes → bytes }.

Class CryptoLaws (C : CryptoLib) := {
  ed_public_length k : length (ed_public k) = 32;
  ed_from_public_bytes_ok p : length p = 32 → ed_from_public_bytes p = Ok p;
  ed_sign_length k m : length (ed_sign k m) = 64;
  ed_verify_sign k m : ed_verify (ed_public k) (ed_sign k m) m = true;
  x_public_length k : length (x_public k) = 32;
  x_from_public_bytes_ok p : length p = 32 → x_from_public_bytes p = Ok p;
  x_from_private_bytes_ok k : length k = 32 → x_from_private_bytes k = Ok k;
  x_exchange_comm a b : x_exchange a (x_public b) = x_exchange b (x_public a);
  aes_encrypt_length k n m a : length (aes_encrypt k n m a) = length m + 16;
  aes_decrypt_encrypt k n m a : aes_decrypt k n (aes_encrypt k n m a) a = Ok m;
  sha256_length m : length (sha256 m) = 32 }.

(** ** crypto.py *)

Section crypto.
Context `{C : CryptoLib}.

(** [generate_ephemeral_keypair], for the private key drawn by [X25519PrivateKey.generate()] *)
Definition generate_ephemeral_keypair (drawn : bytes) : bytes * bytes := (drawn, x_public drawn).

Definition compute_shared_secret (local_private remote_public : bytes) : result bytes :=
  x_exchange local_private remote_public.

Definition SESSION_INFO : bytes := bytes_of_string "ashichat-session-v1".

Definition derive_session_key (shared_secret initiator_nonce receiver_nonce : bytes) : bytes :=
  hkdf_derive (initiator_nonce ++ receiver_nonce) SESSION_INFO shared_secret.

(** [encrypt]: the tag is split off the library's output ([ct[:-16]], [ct[-16:]]) *)
Definition encrypt (key plaintext nonce aad : bytes) : bytes * bytes :=
  let ct_with_tag := aes_encrypt key nonce plaintext aad in
  let n := length ct_with_tag - 16 in
  (take n ct_with_tag, drop n ct_with_tag).

Definition decrypt (key ciphertext nonce aad auth_tag : bytes) : result bytes :=
  aes_decrypt key nonce (ciphertext ++ auth_tag) aad.

(** [build_nonce] *)
Definition build_nonce (session_id : bytes) (sequence_number : Z) : result bytes :=
  if (length session_id =? 8)%nat
  then s ← struct_pack 4 sequence_number; Ok (session_id ++ s)
  else Raise AssertionError.

(** ** identity.py *)

Definition derive_peer_id (public_key : bytes) : bytes := sha256 public_key.

Definition fingerprint (peer_id : bytes) : pystr := bytes_hex (slice 0 4 peer_id).

Record LocalIdentity := mkIdentity {
  id_private_key : bytes; id_public_key : bytes; id_peer_id : bytes }.

(** [LocalIdentity.sign] *)
Definition identity_sign (i : LocalIdentity) (data : bytes) : bytes :=
  ed_sign (id_private_key i) data.

(** [verify_signature] *)
Definition verify_signature (public_key data signature : bytes) : bool :=
  ed_verify public_key signature data.

(** [generate_identity], for the private key drawn by [Ed25519PrivateKey.generate()] *)
Definition generate_identity (drawn : bytes) : LocalIdentity :=
  mkIdentity drawn (ed_public drawn) (derive_peer_id (ed_public drawn)).

(** An identity as [generate_identity] and [load_identity] build it. *)
Definition identity_wf (i : LocalIdentity) : Prop :=
  id_public_key i = ed_public (id_private_key i) ∧ id_peer_id i = derive_peer_id (id_public_key i).

(** ** Lemmas *)

Lemma length_build_nonce sid n nonce : build_nonce sid n = Ok nonce → length nonce = 12.
Proof.
  unfold build_nonce. destruct (Nat.eqb_spec (length sid) 8); [|done]. intros H. invert_ok.
  subst. apply length_struct_pack in H0. rewrite length_app. lia.
Qed.

Lemma build_nonce_ok sid n :
  length sid = 8 → (0 ≤ n < 2 ^ 32)%Z → build_nonce sid n = Ok (sid ++ be_encode 4 n).
Proof.
  intros Hs Hn. unfold build_nonce. rewrite Hs. cbn [Nat.eqb].
  by rewrite struct_pack_fits.
Qed.

(** Distinct sessions or sequence numbers give distinct nonces. *)
Lemma build_nonce_inj sid sid' n n' nonce :
  build_nonce sid n = Ok nonce → build_nonce sid' n' = Ok nonce → sid = sid' ∧ n = n'.
Proof.
  unfold build_nonce.
  destruct (Nat.eqb_spec (length sid) 8), (Nat.eqb_spec (length sid') 8); try done.
  intros H H'. invert_ok. subst. apply app_inj_1 in H' as [-> ->]; [|lia].
  split; [done|]. by eapply struct_pack_inj.
Qed.

Lemma encrypt_decrypt `{!CryptoLaws C} key m nonce aad ct tag :
  encrypt key m nonce aad = (ct, tag) →
  decrypt key ct nonce aad tag = Ok m ∧ length tag = 16 ∧ length ct = length m.
Proof.
  unfold encrypt, decrypt. intros [= <- <-].
  rewrite take_drop, aes_decrypt_encrypt, length_drop, length_take, aes_encrypt_length.
  split_and!; [done | lia..].
Qed.
End crypto.

(** ** An instance with transparent operations *)

Module ToyCrypto.
Definition pad (n : nat) (bs : bytes) : bytes := resize n Byte.x00 bs.

Definition xor_bytes (a b : bytes) : bytes :=
  zip_with (λ x y, byte_of_Z (Z.lxor (byte_val x) (byte_val y))) a b.

#[export] Instance toy : CryptoLib := {|
  ed_public k := pad 32 k;
  ed_from_public_bytes p := if (length p =? 32)%nat then Ok p else Raise ValueError;
  ed_sign k m := pad 64 (pad 32 k ++ m);
  ed_verify p s m := bool_decide (s = pad 64 (pad 32 p ++ m));
  x_public k := pad 32 k;
  x_from_public_bytes p := if (length p =? 32)%nat then Ok p else Raise ValueError;
  x_from_private_bytes k := if (length k =? 32)%nat then Ok k else Raise ValueError;
  x_exchange a b := Ok (xor_bytes (pad 32 a) (pad 32 b));
  hkdf_derive salt info secret := pad 32 (xor_bytes secret (pad 32 salt));
  aes_encrypt k n m a := m ++ pad 16 (k ++ n);
  aes_decrypt k n c a :=
    let l := length c - 16 in
    if (16 <=? length c)%nat && bool_decide (drop l c = pad 16 (k ++ n)) then Ok (take l c)
    else Raise InvalidTag;
  sha256 m := pad 32 m |}.

#[local] Arguments pad : simpl never.
#[local] Arguments Nat.leb : simpl never.

Lemma length_pad n bs : length (pad n bs) = n.
Proof. apply length_resize. Qed.

Lemma pad_pad n bs : pad n (pad n bs) = pad n bs.
Proof. unfold pad. by rewrite resize_idemp. Qed.

Lemma xor_bytes_comm a b : xor_bytes a b = xor_bytes b a.
Proof.
  unfold xor_bytes. revert b. induction a as [|x a IH]; intros [|y b]; cbn; [done..|].
  by rewrite Z.lxor_comm, IH.
Qed.

#[export] Instance toy_laws : CryptoLaws toy.
Proof.
  split; intros; cbn; rewrite ?length_pad; try done.
  - by rewrite H.
  - apply bool_decide_eq_true. by rewrite pad_pad.
  - by rewrite H.
  - by rewrite H.
  - f_equal. rewrite !pad_pad. apply xor_bytes_comm.
  - by rewrite length_app, length_pad.
  - rewrite length_app, length_pad, Nat.add_sub, drop_app_length, take_app_length.
    rewrite (proj2 (Nat.leb_le _ _)) by lia. by rewrite bool_decide_true.
Qed.
End ToyCrypto.
