(* ===== verification/IdentityFiles.v ===== *)
(** * The identity on disk (identity.py)

    Saving, loading and first generation of the key pair.  The PEM encodings are operations of the cryptography package,
    an interface with the laws it documents; a key file may also hold a key of another kind. *)

From S2P Require Import Prelude Bytes PyText Crypto Disk.

(** What [load_pem_private_key] returns. *)
Inductive pem_key :=
| PemEd25519 (raw : bytes)
| PemOther.

Class PemLib := {
  (** [key.private_bytes(PEM, PKCS8, NoEncryption())] *)
  pem_private : bytes → bytes;
  (** [key.public_bytes(PEM, SubjectPublicKeyInfo)] *)
  pem_public : bytes → bytes;
  (** [load_pem_private_key(pem, password=None)] *)
  load_pem : bytes → result pem_key }.

(** A key that was written is read; data that is no PEM text raises [ValueError]. *)
Class PemLaws (P : PemLib) : Prop := {
  load_pem_private k : load_pem (pem_private k) = Ok (PemEd25519 k);
  load_pem_empty : load_pem [] = Raise ValueError }.

Section identity_files.
Context `{C : CryptoLib} `{P : PemLib}.

Definition identity_dir (base_dir : pystr) : pystr := path_join base_dir (str "identity").
Definition priv_path (base_dir : pystr) : pystr := path_join (identity_dir base_dir) (str "private_key.pem").
Definition pub_path (base_dir : pystr) : pystr := path_join (identity_dir base_dir) (str "public_key.pem").

(** [_restrict_permissions(path)]: mode 0o600; an [OSError] is logged and ignored *)
Definition restrict_permissions (path : pystr) : IO () := λ d, ((chmod path 384 d).1, Ok ()).

Definition save_identity (identity : LocalIdentity) (base_dir : pystr) : IO () :=
  mkdir true (identity_dir base_dir) ≫= λ _,
  write_bytes (priv_path base_dir) (pem_private (id_private_key identity)) ≫= λ _,
  restrict_permissions (priv_path base_dir) ≫= λ _,
  write_bytes (pub_path base_dir) (pem_public (id_public_key identity)).

Definition load_identity (base_dir : pystr) : IO LocalIdentity :=
  priv_pem ← read_bytes (priv_path base_dir);
  private_key ← io_lift (load_pem priv_pem);
  match private_key with
  | PemEd25519 raw => mret (mkIdentity raw (ed_public raw) (derive_peer_id (ed_public raw)))
  | PemOther => io_lift (Raise TypeError)
  end.

(** [load_or_generate_identity(base_dir)]; [drawn] is what [Ed25519PrivateKey.generate()] returns if it is called *)
Definition load_or_generate_identity (base_dir : pystr) (drawn : bytes) : IO LocalIdentity := λ d,
  match load_identity base_dir d with
  | (d', Raise FileNotFoundError) =>
      (save_identity (generate_identity drawn) base_dir ≫= λ _, mret (generate_identity drawn)) d'
  | r => r
  end.

(** ** Properties *)

(** A disk on which the private key file holds the key of [i]. *)
Definition holds_identity (base_dir : pystr) (i : LocalIdentity) (d : disk) : Prop :=
  contents d (priv_path base_dir) = Some (pem_private (id_private_key i)).

Lemma priv_pub_ne base : pub_path base ≠ priv_path base.
Proof. unfold pub_path, priv_path, path_join. intros E. by apply app_inv_head in E. Qed.

Lemma load_identity_held `{L : !PemLaws P} base i d :
  identity_wf i → holds_identity base i d → load_identity base d = (d, Ok i).
Proof.
  intros [Hpk Hid] Hc. unfold load_identity, holds_identity, contents in *. rewrite io_bind_eq. unfold read_bytes.
  destruct (dk_files d !! priv_path base) as [f|]; [|done]. cbn in Hc. injection Hc as ->. rewrite io_bind_eq.
  unfold io_lift. rewrite load_pem_private. cbn. destruct i as [k pk p]. cbn in Hpk, Hid. by rewrite Hid, Hpk.
Qed.

Lemma save_identity_held i base d :
  ∃ d', save_identity i base d = (d', Ok ()) ∧ holds_identity base i d' ∧
    (f_mode <$> dk_files d' !! priv_path base) = Some 384%Z ∧
    contents d' (pub_path base) = Some (pem_public (id_public_key i)) ∧
    (∀ q, q ≠ priv_path base → q ≠ pub_path base → dk_files d' !! q = dk_files d !! q).
Proof.
  unfold save_identity. rewrite io_bind_eq. unfold mkdir. cbn [fst snd]. set (d0 := set_dirs _ d).
  destruct (write_bytes_spec (priv_path base) (pem_private (id_private_key i)) d0) as (d1 & E1 & Hc1 & Hq1 & _).
  rewrite (io_bind_ok _ _ _ _ _ E1), io_bind_eq. unfold restrict_permissions, chmod. unfold contents in Hc1.
  destruct (dk_files d1 !! priv_path base) as [f|] eqn:Ef; [|done]. cbn in Hc1. injection Hc1 as Hf. cbn [fst snd].
  set (d2 := set_files _ d1).
  destruct (write_bytes_spec (pub_path base) (pem_public (id_public_key i)) d2) as (d3 & E3 & Hc3 & Hq3 & _).
  exists d3. split; [exact E3|]. unfold holds_identity, contents in *.
  rewrite (Hq3 (priv_path base)) by (apply not_eq_sym, priv_pub_ne). cbn. rewrite lookup_insert_eq. cbn.
  rewrite Hf. split_and!; [done..|]. intros q Hp Hu. rewrite Hq3 by done. cbn. rewrite lookup_insert_ne by done.
  by rewrite Hq1.
Qed.

(** C25: The identity is generated once and kept.  On a directory without a private key the program draws a key, stores
    it readable by its owner only, and runs with it; on every later start, whatever would be drawn then, it runs with the
    same identity and writes nothing, as long as nobody changes the key file. *)
Theorem identity_persistent `{L : !PemLaws P} (base : pystr) (drawn : bytes) (d : disk) :
  contents d (priv_path base) = None →
  ∃ d', load_or_generate_identity base drawn d = (d', Ok (generate_identity drawn)) ∧
    (f_mode <$> dk_files d' !! priv_path base) = Some 384%Z ∧
    ∀ drawn' d1, contents d1 (priv_path base) = contents d' (priv_path base) →
      load_or_generate_identity base drawn' d1 = (d1, Ok (generate_identity drawn)).
Proof.
  intros Hc. destruct (save_identity_held (generate_identity drawn) base d) as (d' & E & Hh & Hm & _).
  exists d'. split; [|split; [done|]].
  - unfold load_or_generate_identity, load_identity. rewrite io_bind_eq. unfold read_bytes, contents in *.
    destruct (dk_files d !! priv_path base); [done|]. by rewrite (io_bind_ok _ _ _ _ _ E).
  - intros drawn' d1 H1. unfold holds_identity in Hh. rewrite Hh in H1. unfold load_or_generate_identity.
    by rewrite (load_identity_held base (generate_identity drawn) d1).
Qed.

(** A key file that cannot be read is left alone.  If the private key file exists and is no Ed25519 key, the start fails
    with the error of the loader and the file is not replaced; so a crash while the key file is being written for the
    first time (the file exists and is empty) makes every later start fail with [ValueError]. *)
Theorem damaged_identity_kept `{L : !PemLaws P} (base : pystr) (drawn : bytes) (d : disk) (bs : bytes) :
  (contents d (priv_path base) = Some bs → (∀ k, load_pem bs ≠ Ok (PemEd25519 k)) → load_pem bs ≠ Raise FileNotFoundError →
     ∃ e, load_or_generate_identity base drawn d = (d, Raise e)) ∧
  load_or_generate_identity base drawn (truncate (priv_path base) d).1
    = ((truncate (priv_path base) d).1, Raise ValueError).
Proof.
  assert (∀ d bs, contents d (priv_path base) = Some bs → load_identity base d
    = (d, match load_pem bs with Ok (PemEd25519 raw) => Ok (mkIdentity raw (ed_public raw) (derive_peer_id (ed_public raw)))
          | Ok PemOther => Raise TypeError | Raise e => Raise e end)) as Hload.
  { clear. intros d bs Hc. unfold load_identity. rewrite io_bind_eq. unfold read_bytes, contents in *.
    destruct (dk_files d !! priv_path base) as [f|]; [|done]. cbn in Hc. injection Hc as ->. rewrite io_bind_eq.
    unfold io_lift. by destruct (load_pem bs) as [[]|]. }
  split.
  - intros Hc Hk Hnf. unfold load_or_generate_identity. rewrite (Hload d bs Hc).
    destruct (load_pem bs) as [[k|]|e]; [by destruct (Hk k)|eauto|]. destruct e; eauto. done.
  - unfold load_or_generate_identity. rewrite (Hload _ []).
    + by rewrite load_pem_empty.
    + unfold contents. cbn. by rewrite lookup_insert_eq.
Qed.

(** Between the writing of the private key and the change of its mode the file has the mode that the umask leaves. *)
Theorem private_key_briefly_readable (base : pystr) (i : LocalIdentity) (d : disk) :
  contents d (priv_path base) = None →
  ∃ d1, (mkdir true (identity_dir base) ≫= λ _, write_bytes (priv_path base) (pem_private (id_private_key i))) d = (d1, Ok ()) ∧
    dk_files d1 !! priv_path base = Some (mkFile (pem_private (id_private_key i)) (Z.land 438 (Z.lnot (dk_umask d)))) ∧
    save_identity i base d = (restrict_permissions (priv_path base) ≫= λ _,
      write_bytes (pub_path base) (pem_public (id_public_key i))) d1.
Proof.
  intros Hc. eexists. split; [reflexivity|]. split; [|reflexivity]. cbn. rewrite lookup_alter_eq, lookup_insert_eq. cbn.
  unfold contents in Hc. by destruct (dk_files d !! priv_path base).
Qed.
End identity_files.

(** ** Example *)

Module IdentityExample.
Import ToyCrypto.

(** Keys behind a one-byte tag. *)
#[export] Instance toy_pem : PemLib := {|
  pem_private k := Byte.x01 :: k;
  pem_public k := Byte.x02 :: k;
  load_pem bs := match bs with
                 | Byte.x01 :: k => Ok (PemEd25519 k)
                 | Byte.x03 :: _ => Ok PemOther
                 | _ => Raise ValueError
                 end |}.
#[export] Instance toy_pem_laws : PemLaws toy_pem.
Proof. by split. Qed.

Definition home : pystr := str "/h".
Definition blank : disk := mkDisk ∅ ∅ 18.

Lemma identity_persistent_witness :
  ∃ d', load_or_generate_identity home (be_encode 32 5) blank = (d', Ok (generate_identity (be_encode 32 5))) ∧
    load_or_generate_identity home (be_encode 32 6) d' = (d', Ok (generate_identity (be_encode 32 5))).
Proof.
  destruct (identity_persistent home (be_encode 32 5) blank) as (d' & H1 & _ & H2); [reflexivity|].
  exists d'. split; [exact H1|]. by apply H2.
Defined.

Definition other_key : disk := mkDisk ∅ {[ priv_path home := mkFile [Byte.x03] 384 ]} 18.

Lemma damaged_identity_kept_witness :
  ∃ e, load_or_generate_identity home (be_encode 32 5) other_key = (other_key, Raise e).
Proof. apply (damaged_identity_kept home (be_encode 32 5) other_key [Byte.x03]); [reflexivity|done|done]. Defined.

Lemma private_key_briefly_readable_witness :
  ∃ d1, dk_files d1 !! priv_path home = Some (mkFile (Byte.x01 :: be_encode 32 5) 420).
Proof.
  destruct (private_key_briefly_readable home (generate_identity (be_encode 32 5)) blank) as (d1 & _ & H & _); [reflexivity|].
  by exists d1.
Defined.
End IdentityExample.
