(* ===== verification/Session.v ===== *)
(** * Sessions (session.py)

    A [Session] object is shared: the registry's two dictionaries hold the same object and its
    sequence counters change through either.  Session objects therefore live in a heap and the
    registry maps session ids and peer ids to references. *)

From S2P Require Import Prelude Bytes PyDict.

Definition MAX_SESSIONS : nat := 100.

(** ** Data *)

Record SessionKeys := mkKeys {
  sk_encryption_key : bytes;
  sk_session_id : bytes;
  sk_remote_peer_id : bytes;
  sk_remote_public_key_bytes : bytes }.

Record Session := mkSession {
  s_session_id : bytes;
  s_encryption_key : bytes;
  s_remote_peer_id : bytes;
  s_send_sequence : Z;
  s_recv_sequence : Z;
  s_created_at : seconds }.

(** [Session(session_id, encryption_key, remote_peer_id)] at time [now] *)
Definition new_session (sid key pid : bytes) (now : seconds) : Session :=
  mkSession sid key pid 1 0 now.

Definition set_send_sequence (n : Z) (s : Session) : Session :=
  mkSession (s_session_id s) (s_encryption_key s) (s_remote_peer_id s) n (s_recv_sequence s)
    (s_created_at s).

Definition set_recv_sequence (n : Z) (s : Session) : Session :=
  mkSession (s_session_id s) (s_encryption_key s) (s_remote_peer_id s) (s_send_sequence s) n
    (s_created_at s).

(** ** Sequence numbers *)

(** [next_sequence]: the number handed out and the session afterwards *)
Definition next_sequence (s : Session) : Z * Session :=
  (s_send_sequence s, set_send_sequence (s_send_sequence s + 1) s).

Definition check_recv_sequence (s : Session) (seq : Z) : bool := (s_recv_sequence s <? seq)%Z.

Definition advance_recv_sequence (s : Session) (seq : Z) : Session :=
  if (s_recv_sequence s <? seq)%Z then set_recv_sequence seq s else s.

Definition validate_recv_sequence (s : Session) (seq : Z) : bool * Session :=
  if check_recv_sequence s seq then (true, advance_recv_sequence s seq) else (false, s).

(** ** The registry *)

Abbreviation sref := nat.
Abbreviation sheap := (gmap nat Session).

Record SessionRegistry := mkRegistry {
  by_session : dict bytes sref;
  by_peer : dict bytes sref }.

Definition empty_registry : SessionRegistry := mkRegistry [] [].

Definition session_of (h : sheap) (r : sref) : option Session := h !! r.

(** [register(session)] for the object at [r] *)
Definition register (h : sheap) (reg : SessionRegistry) (r : sref) : result SessionRegistry :=
  match h !! r with
  | None => Raise KeyError (* no such object *)
  | Some s =>
      if (MAX_SESSIONS <=? length (by_session reg))%nat then Raise RuntimeError else
      let bs := match dget (by_peer reg) (s_remote_peer_id s) with
                | Some old =>
                    match h !! old with
                    | Some o => dpop (by_session reg) (s_session_id o)
                    | None => by_session reg
                    end
                | None => by_session reg
                end in
      Ok (mkRegistry (dset bs (s_session_id s) r) (dset (by_peer reg) (s_remote_peer_id s) r))
  end.

Definition get_by_session_id (reg : SessionRegistry) (sid : bytes) : option sref :=
  dget (by_session reg) sid.

Definition get_by_peer_id (reg : SessionRegistry) (pid : bytes) : option sref :=
  dget (by_peer reg) pid.

(** [remove(session_id)] *)
Definition remove (h : sheap) (reg : SessionRegistry) (sid : bytes) : SessionRegistry :=
  match dget (by_session reg) sid with
  | None => reg
  | Some r =>
      mkRegistry (dpop (by_session reg) sid)
        (match h !! r with
         | Some s => dpop (by_peer reg) (s_remote_peer_id s)
         | None => by_peer reg
         end)
  end.

Definition active_count (reg : SessionRegistry) : nat := length (by_session reg).

Definition all_sessions (reg : SessionRegistry) : list sref := (by_session reg).*2.

(** ** The registry invariant

    The two dictionaries index the same live objects, each under its own ids, and there are at
    most [MAX_SESSIONS]. *)
Record registry_inv (h : sheap) (reg : SessionRegistry) : Prop := {
  ri_wf_s : dict_wf (by_session reg);
  ri_wf_p : dict_wf (by_peer reg);
  ri_bound : (active_count reg ≤ MAX_SESSIONS)%nat;
  ri_s : ∀ sid r, get_by_session_id reg sid = Some r →
    ∃ s, h !! r = Some s ∧ s_session_id s = sid ∧ get_by_peer_id reg (s_remote_peer_id s) = Some r;
  ri_p : ∀ pid r, get_by_peer_id reg pid = Some r →
    ∃ s, h !! r = Some s ∧ s_remote_peer_id s = pid ∧ get_by_session_id reg (s_session_id s) = Some r }.

(** The abstract registry: the live session of each peer. *)
Definition abs_registry (h : sheap) (reg : SessionRegistry) (pid : bytes) : option Session :=
  r ← get_by_peer_id reg pid; h !! r.

(** A session id that collides with no session of another peer. *)
Definition sid_fresh (h : sheap) (reg : SessionRegistry) (s : Session) : Prop :=
  ∀ r o, get_by_session_id reg (s_session_id s) = Some r → h !! r = Some o →
    s_remote_peer_id o = s_remote_peer_id s.

(** Updating the counters of an object keeps the ids. *)
Definition same_ids (s s' : Session) : Prop :=
  s_session_id s' = s_session_id s ∧ s_remote_peer_id s' = s_remote_peer_id s
  ∧ s_encryption_key s' = s_encryption_key s.

(** ** Lemmas: sequence numbers *)

Lemma check_advance s seq :
  check_recv_sequence (advance_recv_sequence s seq) seq = false.
Proof.
  unfold check_recv_sequence, advance_recv_sequence.
  destruct (Z.ltb_spec (s_recv_sequence s) seq); cbn; apply Z.ltb_ge; lia.
Qed.

Lemma advance_recv_max s seq :
  s_recv_sequence (advance_recv_sequence s seq) = Z.max (s_recv_sequence s) seq.
Proof.
  unfold advance_recv_sequence. destruct (Z.ltb_spec (s_recv_sequence s) seq); cbn; lia.
Qed.

Lemma advance_same_ids s seq : same_ids s (advance_recv_sequence s seq).
Proof. unfold advance_recv_sequence, same_ids. by destruct (_ <? _)%Z. Qed.

Lemma next_same_ids s : same_ids s (next_sequence s).2.
Proof. done. Qed.

(** ** Lemmas: the registry *)

Lemma empty_registry_inv h : registry_inv h empty_registry.
Proof. split; cbn; try done; [apply NoDup_nil_2..|lia]. Qed.

Section registry.
Context (h : sheap) (reg : SessionRegistry) (Hinv : registry_inv h reg).

(** The sessions left after the previous one of peer [pid] is dropped. *)
Definition without_peer (pid : bytes) : dict bytes sref :=
  match dget (by_peer reg) pid with
  | Some old => match h !! old with
                | Some o => dpop (by_session reg) (s_session_id o)
                | None => by_session reg
                end
  | None => by_session reg
  end.

Lemma without_peer_wf pid : dict_wf (without_peer pid).
Proof using Hinv.
  unfold without_peer. destruct (dget _ _); [|apply Hinv].
  destruct (h !! _); [apply dpop_wf|]; apply Hinv.
Qed.

Lemma without_peer_get pid sid r :
  dget (without_peer pid) sid = Some r ↔
  get_by_session_id reg sid = Some r ∧ ∀ o, h !! r = Some o → s_remote_peer_id o ≠ pid.
Proof using Hinv.
  unfold without_peer, get_by_session_id.
  assert (dget (by_session reg) sid = Some r →
          ∀ o, h !! r = Some o → dget (by_peer reg) (s_remote_peer_id o) = Some r) as Hback.
  { intros Hg o Ho. destruct (ri_s _ _ Hinv _ _ Hg) as (s & Hs & _ & Hp). naive_solver. }
  destruct (dget (by_peer reg) pid) as [old|] eqn:Hp.
  - destruct (ri_p _ _ Hinv _ _ Hp) as (s & Hs & Hpid & Hsid). rewrite Hs, dget_dpop.
    case_decide as E; subst.
    + split; [done|]. intros [Hg Hne]. unfold get_by_session_id in Hsid.
      rewrite Hsid in Hg. simplify_eq. by destruct (Hne _ Hs).
    + split; [|by intros []]. intros Hg. split; [done|]. intros o Ho Hpid.
      specialize (Hback Hg o Ho). rewrite Hpid, Hp in Hback. simplify_eq.
      destruct (ri_s _ _ Hinv _ _ Hg) as (s' & Hs' & Hsid' & _). by simplify_eq.
  - split; [|by intros []]. intros Hg. split; [done|]. intros o Ho Hpid.
    specialize (Hback Hg o Ho). rewrite Hpid, Hp in Hback. done.
Qed.

Lemma without_peer_length pid : (length (without_peer pid) ≤ active_count reg)%nat.
Proof using Type.
  unfold without_peer, active_count. destruct (dget _ _); [|done].
  destruct (h !! _); [apply dpop_length_le|done].
Qed.

Lemma register_eq r s :
  h !! r = Some s → (active_count reg < MAX_SESSIONS)%nat →
  register h reg r =
    Ok (mkRegistry (dset (without_peer (s_remote_peer_id s)) (s_session_id s) r)
          (dset (by_peer reg) (s_remote_peer_id s) r)).
Proof using Type.
  intros Hr Hc. unfold register, active_count in *. rewrite Hr.
  by rewrite (proj2 (Nat.leb_gt _ _)).
Qed.

Lemma register_full r s :
  h !! r = Some s → active_count reg = MAX_SESSIONS → register h reg r = Raise RuntimeError.
Proof using Type.
  intros Hr Hc. unfold register, active_count in *. rewrite Hr.
  by rewrite (proj2 (Nat.leb_le _ _)) by lia.
Qed.

Lemma register_inv r s reg' :
  h !! r = Some s → sid_fresh h reg s →
  register h reg r = Ok reg' → registry_inv h reg'.
Proof using Hinv.
  intros Hr Hfresh Hreg. destruct (decide (active_count reg < MAX_SESSIONS)%nat) as [Hc|Hc].
  2:{ pose proof (ri_bound _ _ Hinv). rewrite (register_full r s) in Hreg by (done || lia). done. }
  rewrite (register_eq r s) in Hreg by done. apply Ok_inj in Hreg as <-.
  pose proof (without_peer_wf (s_remote_peer_id s)) as Hwf.
  assert (dget (without_peer (s_remote_peer_id s)) (s_session_id s) = None) as Hnone.
  { destruct (dget _ _) as [r'|] eqn:E; [|done].
    apply without_peer_get in E as [Hg Hne]. destruct (ri_s _ _ Hinv _ _ Hg) as (o & Ho & _).
    destruct (Hne o Ho). by eapply Hfresh. }
  split; unfold get_by_session_id, get_by_peer_id, active_count; cbn.
  - by apply dset_wf.
  - apply dset_wf, Hinv.
  - rewrite dset_length. rewrite (proj2 (dmem_false _ _)) by done.
    pose proof (without_peer_length (s_remote_peer_id s)). lia.
  - intros sid r'. rewrite dget_dset. case_decide as E; subst.
    + intros [= <-]. exists s. split_and!; [done..|]. apply dget_dset_eq.
    + intros [Hg Hne]%without_peer_get. destruct (ri_s _ _ Hinv _ _ Hg) as (o & Ho & Hsid & Hp).
      exists o. split_and!; [done..|]. rewrite dget_dset_ne; [done|]. by apply Hne.
  - intros pid r'. rewrite dget_dset. case_decide as E; subst.
    + intros [= <-]. exists s. split_and!; [done..|]. apply dget_dset_eq.
    + intros Hg. destruct (ri_p _ _ Hinv _ _ Hg) as (o & Ho & Hpid & Hsid).
      exists o. split_and!; [done..|]. rewrite dget_dset_ne.
      * apply without_peer_get. split; [done|]. intros o' Ho'. naive_solver.
      * intros Esid. apply E. rewrite <- Hpid. eapply (Hfresh r'); [|done]. by rewrite <- Esid.
Qed.

Lemma remove_registry_inv sid : registry_inv h (remove h reg sid).
Proof using Hinv.
  unfold remove. destruct (dget (by_session reg) sid) as [r|] eqn:Hg; [|done].
  destruct (ri_s _ _ Hinv _ _ Hg) as (s & Hs & Hsid & Hp). rewrite Hs.
  split; unfold get_by_session_id, get_by_peer_id, active_count; cbn.
  - apply dpop_wf, Hinv.
  - apply dpop_wf, Hinv.
  - pose proof (ri_bound _ _ Hinv). pose proof (dpop_length_le (by_session reg) sid).
    unfold active_count in *. lia.
  - intros sid' r'. rewrite dget_dpop. case_decide as E; [done|]. intros Hg'.
    destruct (ri_s _ _ Hinv _ _ Hg') as (o & Ho & Hsid' & Hp').
    exists o. split_and!; [done..|]. rewrite dget_dpop_ne; [done|].
    intros Epid. unfold get_by_peer_id in *. rewrite Epid, Hp in Hp'. naive_solver.
  - intros pid' r'. rewrite dget_dpop. case_decide as E; [done|]. intros Hg'.
    destruct (ri_p _ _ Hinv _ _ Hg') as (o & Ho & Hpid' & Hsid').
    exists o. split_and!; [done..|]. rewrite dget_dpop_ne; [done|].
    intros Esid. unfold get_by_session_id in *. rewrite Esid, Hg in Hsid'. naive_solver.
Qed.
End registry.

(** Mutating the counters of a session, through whatever reference, keeps the invariant. *)
Lemma registry_inv_update h reg r s s' :
  registry_inv h reg → h !! r = Some s → same_ids s s' → registry_inv (<[r := s']> h) reg.
Proof.
  intros Hinv Hr (Hsid & Hpid & _). split; try apply Hinv.
  - intros sid r' Hg. destruct (ri_s _ _ Hinv _ _ Hg) as (o & Ho & Hs & Hp).
    rewrite lookup_insert. case_decide; subst; [|eauto]. simplify_eq.
    exists s'. rewrite Hsid, Hpid. done.
  - intros pid r' Hg. destruct (ri_p _ _ Hinv _ _ Hg) as (o & Ho & Hs & Hp).
    rewrite lookup_insert. case_decide; subst; [|eauto]. simplify_eq.
    exists s'. rewrite Hsid, Hpid. done.
Qed.

(** A new object does not disturb the registry. *)
Lemma registry_inv_alloc h reg r s :
  registry_inv h reg → h !! r = None → registry_inv (<[r := s]> h) reg.
Proof.
  intros Hinv Hr. split; try apply Hinv.
  - intros sid r' Hg. destruct (ri_s _ _ Hinv _ _ Hg) as (o & Ho & Hs).
    exists o. rewrite lookup_insert_ne by congruence. done.
  - intros pid r' Hg. destruct (ri_p _ _ Hinv _ _ Hg) as (o & Ho & Hs).
    exists o. rewrite lookup_insert_ne by congruence. done.
Qed.

#[export] Hint Resolve empty_registry_inv remove_registry_inv registry_inv_update : ashichat.

(** ** What holds whatever session ids are chosen

    Each dictionary lists live objects under their own ids, and there are at most [MAX_SESSIONS]. *)
Record registry_ok (h : sheap) (reg : SessionRegistry) : Prop := {
  ro_wf_s : dict_wf (by_session reg);
  ro_wf_p : dict_wf (by_peer reg);
  ro_bound : (active_count reg ≤ MAX_SESSIONS)%nat;
  ro_s : ∀ sid r, get_by_session_id reg sid = Some r → ∃ s, h !! r = Some s ∧ s_session_id s = sid;
  ro_p : ∀ pid r, get_by_peer_id reg pid = Some r → ∃ s, h !! r = Some s ∧ s_remote_peer_id s = pid }.

Lemma empty_registry_ok h : registry_ok h empty_registry.
Proof. split; cbn; try done; [apply NoDup_nil_2..|lia]. Qed.

(** Objects may change, with their ids kept, and new ones may come. *)
Definition heap_grows (h h' : sheap) : Prop :=
  ∀ r s, h !! r = Some s → ∃ s', h' !! r = Some s' ∧ same_ids s s' ∧
    (s_send_sequence s ≤ s_send_sequence s')%Z ∧ (s_recv_sequence s ≤ s_recv_sequence s')%Z.

Lemma heap_grows_refl h : heap_grows h h.
Proof. intros r s Hs. exists s. by split_and!. Qed.

Lemma heap_grows_trans h1 h2 h3 : heap_grows h1 h2 → heap_grows h2 h3 → heap_grows h1 h3.
Proof.
  intros H12 H23 r s Hs. destruct (H12 r s Hs) as (s2 & Hs2 & (I1 & I2 & I3) & A & B).
  destruct (H23 r s2 Hs2) as (s3 & Hs3 & (J1 & J2 & J3) & A' & B').
  exists s3. unfold same_ids. split_and!; congruence || lia.
Qed.

Lemma heap_grows_insert h r s s' :
  h !! r = Some s → same_ids s s' → (s_send_sequence s ≤ s_send_sequence s')%Z →
  (s_recv_sequence s ≤ s_recv_sequence s')%Z → heap_grows h (<[r := s']> h).
Proof.
  intros Hr Hid Ha Hb r' s0 Hs0. rewrite lookup_insert. case_decide; subst.
  - rewrite Hr in Hs0. simplify_eq. by exists s'.
  - exists s0. by split_and!.
Qed.

Lemma heap_grows_alloc h r s : h !! r = None → heap_grows h (<[r := s]> h).
Proof.
  intros Hr r' s0 Hs0. exists s0. rewrite lookup_insert_ne by congruence. by split_and!.
Qed.

Lemma registry_ok_grows h h' reg : registry_ok h reg → heap_grows h h' → registry_ok h' reg.
Proof.
  intros Hok Hg. split; try apply Hok.
  - intros sid r Hr. destruct (ro_s _ _ Hok _ _ Hr) as (s & Hs & <-).
    destruct (Hg r s Hs) as (s' & Hs' & (? & _) & _). eauto.
  - intros pid r Hr. destruct (ro_p _ _ Hok _ _ Hr) as (s & Hs & <-).
    destruct (Hg r s Hs) as (s' & Hs' & (_ & ? & _) & _). eauto.
Qed.

Lemma register_ok h reg r reg' : registry_ok h reg → register h reg r = Ok reg' → registry_ok h reg'.
Proof.
  intros Hok. unfold register. destruct (h !! r) as [s|] eqn:Hr; [|done].
  destruct (Nat.leb_spec MAX_SESSIONS (length (by_session reg))) as [|Hc]; [done|]. intros Hreg.
  fold (without_peer h reg (s_remote_peer_id s)) in Hreg. apply Ok_inj in Hreg as <-.
  assert (dict_wf (without_peer h reg (s_remote_peer_id s))) as Hwf.
  { unfold without_peer. repeat case_match; try apply dpop_wf; apply Hok. }
  assert (∀ sid r', dget (without_peer h reg (s_remote_peer_id s)) sid = Some r' →
    dget (by_session reg) sid = Some r') as Hsub.
  { intros sid r'. unfold without_peer. repeat case_match; try done. rewrite dget_dpop. by case_decide. }
  pose proof (without_peer_length h reg (s_remote_peer_id s)) as Hl. unfold active_count in *.
  split; unfold get_by_session_id, get_by_peer_id, active_count; cbn.
  - by apply dset_wf.
  - apply dset_wf, Hok.
  - rewrite dset_length. destruct (dmem _ _); lia.
  - intros sid r'. rewrite dget_dset. case_decide as E; subst; [intros [= <-]; eauto|].
    intros Hg%Hsub. by apply (ro_s _ _ Hok).
  - intros pid r'. rewrite dget_dset. case_decide as E; subst; [intros [= <-]; eauto|].
    apply (ro_p _ _ Hok).
Qed.

Lemma remove_ok h reg sid : registry_ok h reg → registry_ok h (remove h reg sid).
Proof.
  intros Hok. unfold remove. destruct (dget (by_session reg) sid) as [r|] eqn:Hg; [|done].
  split; unfold get_by_session_id, get_by_peer_id, active_count; cbn.
  - apply dpop_wf, Hok.
  - case_match; [apply dpop_wf|]; apply Hok.
  - pose proof (ro_bound _ _ Hok). pose proof (dpop_length_le (by_session reg) sid).
    unfold active_count in *. lia.
  - intros sid' r'. rewrite dget_dpop. case_decide; [done|]. apply (ro_s _ _ Hok).
  - intros pid' r' Hp. apply (ro_p _ _ Hok). case_match; [|done]. rewrite dget_dpop in Hp.
    by case_decide.
Qed.

(** ** The registry as a map from peers to sessions *)

Lemma register_abs h reg r s reg' pid :
  registry_inv h reg → h !! r = Some s → register h reg r = Ok reg' →
  abs_registry h reg' pid = (if decide (pid = s_remote_peer_id s) then Some s else abs_registry h reg pid).
Proof.
  intros Hinv Hr Hreg. destruct (decide (active_count reg < MAX_SESSIONS)%nat) as [Hc|Hc].
  2:{ pose proof (ri_bound _ _ Hinv). rewrite (register_full h reg r s) in Hreg by (done || lia). done. }
  rewrite (register_eq h reg r s) in Hreg by done. apply Ok_inj in Hreg as <-.
  unfold abs_registry, get_by_peer_id. cbn. rewrite dget_dset. by case_decide; cbn.
Qed.

Lemma remove_abs h reg sid pid :
  registry_inv h reg →
  abs_registry h (remove h reg sid) pid =
    match abs_registry h reg pid with
    | Some s => if decide (s_session_id s = sid) then None else Some s
    | None => None
    end.
Proof.
  intros Hinv. unfold abs_registry, remove.
  destruct (get_by_peer_id reg pid) as [r|] eqn:Hp.
  - destruct (ri_p _ _ Hinv _ _ Hp) as (s & Hs & Hpid & Hsid). cbn [mbind option_bind]. rewrite Hs.
    unfold get_by_session_id in Hsid. case_decide as E.
    + subst sid. rewrite Hsid, Hs. unfold get_by_peer_id. cbn. by rewrite Hpid, dget_dpop_eq.
    + destruct (dget (by_session reg) sid) as [r'|] eqn:Hg; cbn; [|by rewrite Hp].
      destruct (ri_s _ _ Hinv _ _ Hg) as (s' & Hs' & Hsid' & Hp'). rewrite Hs'.
      unfold get_by_peer_id in *. cbn. rewrite dget_dpop_ne; [by rewrite Hp|].
      intros Epid. rewrite <- Epid, Hp in Hp'. naive_solver.
  - destruct (dget (by_session reg) sid) as [r'|] eqn:Hg; cbn; [|by rewrite Hp].
    destruct (ri_s _ _ Hinv _ _ Hg) as (s' & Hs' & _ & Hp'). rewrite Hs'. unfold get_by_peer_id in *.
    cbn. rewrite dget_dpop. case_decide; [done|]. by rewrite Hp.
Qed.

(** A session id chosen by one peer can displace the session of another.  If the session being
    registered carries the id of a session of another peer, that peer is still listed with its own
    session while lookups of the id lead to the new one, so the packets of the displaced session are
    tried with the wrong key; the registry's invariant is lost. *)
Theorem session_id_collision_displaces (h : sheap) (reg : SessionRegistry) (r r' : sref) (s o : Session) :
  registry_inv h reg → h !! r = Some s → (active_count reg < MAX_SESSIONS)%nat →
  get_by_session_id reg (s_session_id s) = Some r' → h !! r' = Some o →
  s_remote_peer_id o ≠ s_remote_peer_id s →
  ∃ reg', register h reg r = Ok reg' ∧
    get_by_session_id reg' (s_session_id o) = Some r ∧
    get_by_peer_id reg' (s_remote_peer_id o) = Some r' ∧
    ¬ registry_inv h reg'.
Proof.
  intros Hinv Hr Hc Hg Ho Hne. destruct (ri_s _ _ Hinv _ _ Hg) as (o' & Ho' & Hsid & Hp).
  rewrite Ho in Ho'. injection Ho' as <-. pose proof (register_eq h reg r s Hr Hc) as E.
  eexists. split; [done|].
  assert (get_by_session_id (mkRegistry (dset (without_peer h reg (s_remote_peer_id s)) (s_session_id s) r)
    (dset (by_peer reg) (s_remote_peer_id s) r)) (s_session_id o) = Some r) as H1.
  { rewrite Hsid. unfold get_by_session_id. cbn. apply dget_dset_eq. }
  assert (get_by_peer_id (mkRegistry (dset (without_peer h reg (s_remote_peer_id s)) (s_session_id s) r)
    (dset (by_peer reg) (s_remote_peer_id s) r)) (s_remote_peer_id o) = Some r') as H2.
  { unfold get_by_peer_id in *. cbn. by rewrite dget_dset_ne. }
  split_and!; [done..|]. intros Hinv'. destruct (ri_p _ _ Hinv' _ _ H2) as (o2 & Ho2 & _ & Hs2).
  rewrite Ho in Ho2. injection Ho2 as <-. rewrite H1 in Hs2. injection Hs2 as ->.
  rewrite Hr in Ho. by simplify_eq.
Qed.

(** The invariant survives [register] exactly if the id is not in use for another peer. *)
Lemma register_inv_iff h reg r s reg' :
  registry_inv h reg → h !! r = Some s → (active_count reg < MAX_SESSIONS)%nat → register h reg r = Ok reg' →
  registry_inv h reg' ↔ sid_fresh h reg s.
Proof.
  intros Hinv Hr Hc E. split.
  - intros Hinv' r' o Hg Ho. destruct (decide (s_remote_peer_id o = s_remote_peer_id s)) as [|Hne]; [done|].
    destruct (session_id_collision_displaces h reg r r' s o Hinv Hr Hc Hg Ho Hne) as (reg2 & E2 & _ & _ & Hn).
    rewrite E in E2. apply Ok_inj in E2 as <-. contradiction.
  - intros Hfresh. exact (register_inv h reg Hinv r s reg' Hr Hfresh E).
Qed.

(** C32: the registry is a map from peers to their sessions, as long as no two peers use one session id.  Its invariant
    (the two dictionaries index the same live objects under their own ids, at most 100 of them) is kept by [remove] and by
    advancing the counters of a session through any reference; [register] returns while fewer than 100 sessions are
    registered and keeps the invariant exactly if the new session's id is not that of another peer's session.  Seen as a
    map, [register] sets the peer's session and no other; it raises when 100 sessions are registered even if it would
    replace one; [remove] drops the session with that id and no other. *)
Theorem registry_refines_map (h : sheap) (reg : SessionRegistry) (r : sref) (s : Session) :
  registry_inv h reg → h !! r = Some s →
  ((active_count reg < MAX_SESSIONS)%nat → ∃ reg', register h reg r = Ok reg' ∧
     (registry_inv h reg' ↔ sid_fresh h reg s) ∧ get_by_session_id reg' (s_session_id s) = Some r ∧
     ∀ pid, abs_registry h reg' pid =
       (if decide (pid = s_remote_peer_id s) then Some s else abs_registry h reg pid)) ∧
  (active_count reg = MAX_SESSIONS → register h reg r = Raise RuntimeError) ∧
  (∀ sid, registry_inv h (remove h reg sid) ∧
     get_by_session_id (remove h reg sid) sid = None ∧
     ∀ pid, abs_registry h (remove h reg sid) pid =
       match abs_registry h reg pid with
       | Some s => if decide (s_session_id s = sid) then None else Some s
       | None => None
       end) ∧
  (∀ seq, registry_inv (<[r := advance_recv_sequence s seq]> h) reg ∧
     registry_inv (<[r := (next_sequence s).2]> h) reg).
Proof.
  intros Hinv Hr. split_and!.
  - intros Hc. pose proof (register_eq h reg r s Hr Hc) as E. eexists. split; [done|].
    split_and!; [by eapply register_inv_iff| |intros pid; by eapply register_abs].
    unfold get_by_session_id. cbn. apply dget_dset_eq.
  - intros Hc. by apply (register_full h reg r s).
  - intros sid. split_and!; [by apply remove_registry_inv| |intros pid; by apply remove_abs].
    unfold get_by_session_id, remove. destruct (dget (by_session reg) sid) as [r'|] eqn:E; [|done].
    cbn. apply dget_dpop_eq.
  - intros seq. split; (eapply registry_inv_update; [done..|]); [apply advance_same_ids|done].
Qed.

(** ** Examples *)

Module SessionExample.

Definition alice : bytes := be_encode 32 65.
Definition bob : bytes := be_encode 32 66.
Definition key : bytes := be_encode 32 7.
Definition sid1 : bytes := be_encode 8 1.

(** A session of bob registered at 0; at 1, another one of his; at 2, one of alice with bob's id. *)
Definition heap : sheap :=
  <[2 := new_session sid1 key alice (secs 0)]> (<[1 := new_session (be_encode 8 2) key bob (secs 0)]>
    (<[0 := new_session sid1 key bob (secs 0)]> ∅)).

Definition registry : SessionRegistry := mkRegistry [(sid1, 0)] [(bob, 0)].

Lemma registry_ok : registry_inv heap registry.
Proof.
  eapply (register_inv heap empty_registry (empty_registry_inv heap) 0); [reflexivity|done|reflexivity].
Qed.

Lemma registry_refines_map_witness :
  ∃ reg', register heap registry 1 = Ok reg' ∧ registry_inv heap reg' ∧ active_count reg' = 1%nat.
Proof.
  destruct (registry_refines_map heap registry 1 (new_session (be_encode 8 2) key bob (secs 0))) as (H & _).
  - exact registry_ok.
  - reflexivity.
  - destruct H as (reg' & E & Hi & _); [cbn; unfold MAX_SESSIONS; lia|]. exists reg'.
    split_and!; [exact E| |vm_compute in E; by injection E as <-].
    apply Hi. intros r o Hg. vm_compute in Hg. discriminate Hg.
Defined.

Lemma session_id_collision_displaces_witness :
  ∃ reg', register heap registry 2 = Ok reg' ∧ get_by_peer_id reg' bob = Some 0 ∧
    get_by_session_id reg' sid1 = Some 2.
Proof.
  destruct (session_id_collision_displaces heap registry 2 0 (new_session sid1 key alice (secs 0))
    (new_session sid1 key bob (secs 0))) as (reg' & E & H1 & H2 & _).
  - exact registry_ok.
  - reflexivity.
  - cbn; unfold MAX_SESSIONS; lia.
  - reflexivity.
  - reflexivity.
  - by vm_compute.
  - exists reg'. split_and!; [exact E|exact H2|exact H1].
Defined.

End SessionExample.
