(* ===== verification/Handshake.v ===== *)
(** * The handshake (handshake.py)

    HELLO / HELLO_ACK: [create_hello] on the initiator, [process_hello] on the receiver,
    [process_hello_ack] back on the initiator.  What the code draws at random (ephemeral key,
    nonce, session id) is an argument.  Log lines are not modelled. *)

From S2P Require Import Prelude Bytes PyText Packet Crypto Session.

(** [HandshakeState] *)
Record HandshakeState := mkHandshakeState {
  hs_ephemeral_private_key_bytes : bytes;
  hs_ephemeral_public_key_bytes : bytes;
  hs_local_nonce : bytes;
  hs_target_peer_id : option bytes }.

Section handshake.
Context `{C : CryptoLib}.

(** The bytes signed in a HELLO and in a HELLO_ACK. *)
Definition hello_signed_data (eph nonce : bytes) : bytes := eph ++ nonce.
Definition ack_signed_data (sid eph remote_eph remote_nonce : bytes) : bytes :=
  sid ++ eph ++ remote_eph ++ remote_nonce.

(** [create_hello(local_identity)]; [eph] and [nonce] are drawn. *)
Definition create_hello (local_identity : LocalIdentity) (eph nonce : bytes)
    : result (Packet * HandshakeState) :=
  let '(eph_priv, eph_pub_bytes) := generate_ephemeral_keypair eph in
  let sig := identity_sign local_identity (hello_signed_data eph_pub_bytes nonce) in
  let payload := mkHello (id_public_key local_identity) eph_pub_bytes nonce sig in
  let state := mkHandshakeState eph_priv eph_pub_bytes nonce None in
  p ← make_packet HELLO (PHello payload); Ok (p, state).

(** [process_hello(packet, known_peers, local_identity)]; [eph], [our_nonce] and [session_id] are
    drawn.  [Ok None] is Python's [None]. *)
Definition process_hello (packet : Packet) (known_peers : gset bytes) (local_identity : LocalIdentity)
    (eph our_nonce session_id : bytes) : result (option (Packet * SessionKeys)) :=
  hello ← hello_deserialize (pkt_payload packet);
  remote_pubkey ← ed_from_public_bytes (hello_identity_public_key hello);
  let remote_peer_id := derive_peer_id remote_pubkey in
  if negb (remote_peer_id ∈?b known_peers) then Ok None else
  let signed_data :=
    hello_signed_data (hello_ephemeral_public_key hello) (hello_random_nonce hello) in
  if negb (verify_signature remote_pubkey signed_data (hello_signature hello)) then Ok None else
  let '(eph_priv, eph_pub_bytes) := generate_ephemeral_keypair eph in
  remote_eph_pub ← x_from_public_bytes (hello_ephemeral_public_key hello);
  shared_secret ← compute_shared_secret eph_priv remote_eph_pub;
  let session_key := derive_session_key shared_secret (hello_random_nonce hello) our_nonce in
  let ack_sig := identity_sign local_identity
    (ack_signed_data session_id eph_pub_bytes (hello_ephemeral_public_key hello)
       (hello_random_nonce hello)) in
  let ack_payload :=
    mkHelloAck (id_public_key local_identity) eph_pub_bytes session_id our_nonce ack_sig in
  let keys := mkKeys session_key session_id remote_peer_id (hello_identity_public_key hello) in
  p ← make_packet HELLO_ACK (PHelloAck ack_payload);
  Ok (Some (p, keys)).

(** [process_hello_ack(packet, state, known_peers)] *)
Definition process_hello_ack (packet : Packet) (state : HandshakeState) (known_peers : gset bytes)
    : result (option SessionKeys) :=
  ack ← hello_ack_deserialize (pkt_payload packet);
  remote_pubkey ← ed_from_public_bytes (hack_identity_public_key ack);
  let remote_peer_id := derive_peer_id remote_pubkey in
  if negb (remote_peer_id ∈?b known_peers) then Ok None else
  let signed_data :=
    ack_signed_data (hack_session_id ack) (hack_ephemeral_public_key ack)
      (hs_ephemeral_public_key_bytes state) (hs_local_nonce state) in
  if negb (verify_signature remote_pubkey signed_data (hack_signature ack)) then Ok None else
  local_eph_priv ← x_from_private_bytes (hs_ephemeral_private_key_bytes state);
  remote_eph_pub ← x_from_public_bytes (hack_ephemeral_public_key ack);
  shared_secret ← compute_shared_secret local_eph_priv remote_eph_pub;
  let session_key := derive_session_key shared_secret (hs_local_nonce state) (hack_random_nonce ack) in
  Ok (Some (mkKeys session_key (hack_session_id ack) remote_peer_id
              (hack_identity_public_key ack))).

(** ** Lemmas *)

#[local] Arguments slice : simpl never.

Lemma hello_deserialize_lengths data h :
  hello_deserialize data = Ok h → payload_wf (PHello h).
Proof.
  unfold hello_deserialize. destruct (Nat.ltb_spec (length data) (32 + 32 + 16 + 64)); [done|].
  intros <-%Ok_inj. cbn. rewrite !length_slice by lia. done.
Qed.

Lemma hello_ack_deserialize_lengths data h :
  hello_ack_deserialize data = Ok h → payload_wf (PHelloAck h).
Proof.
  unfold hello_ack_deserialize. destruct (Nat.ltb_spec (length data) 152); [done|].
  intros <-%Ok_inj. cbn. rewrite !length_slice by lia. done.
Qed.

Lemma hello_payload_decodes h :
  payload_wf (PHello h) → hello_deserialize (hello_serialize h) = Ok h.
Proof. intros. rewrite <- (app_nil_r (hello_serialize h)). by apply hello_roundtrip. Qed.

Lemma hello_ack_payload_decodes h :
  payload_wf (PHelloAck h) → hello_ack_deserialize (hello_ack_serialize h) = Ok h.
Proof. intros. rewrite <- (app_nil_r (hello_ack_serialize h)). by apply hello_ack_roundtrip. Qed.

(** The answer to a HELLO, unfolded: what was checked and what is returned. *)
Lemma process_hello_Some packet known me eph our_nonce sid p keys :
  process_hello packet known me eph our_nonce sid = Ok (Some (p, keys)) →
  ∃ hello pub xpub ss,
    hello_deserialize (pkt_payload packet) = Ok hello ∧
    ed_from_public_bytes (hello_identity_public_key hello) = Ok pub ∧
    derive_peer_id pub ∈ known ∧
    verify_signature pub
      (hello_signed_data (hello_ephemeral_public_key hello) (hello_random_nonce hello))
      (hello_signature hello) = true ∧
    x_from_public_bytes (hello_ephemeral_public_key hello) = Ok xpub ∧
    x_exchange eph xpub = Ok ss ∧
    keys = mkKeys (derive_session_key ss (hello_random_nonce hello) our_nonce) sid
             (derive_peer_id pub) (hello_identity_public_key hello) ∧
    p = mkPacket PROTOCOL_VERSION HELLO_ACK (hello_ack_serialize
          (mkHelloAck (id_public_key me) (x_public eph) sid our_nonce
             (identity_sign me (ack_signed_data sid (x_public eph)
                (hello_ephemeral_public_key hello) (hello_random_nonce hello))))).
Proof.
  unfold process_hello. intros H. invert_ok.
  destruct (negb (_ ∈?b _)) eqn:Ek; [done|]. destruct (negb (verify_signature _ _ _)) eqn:Ev; [done|].
  cbn [generate_ephemeral_keypair] in H. unfold generate_ephemeral_keypair in H. invert_ok.
  bool_hyps. unfold make_packet in *. invert_ok. cbn in *. simplify_eq.
  eexists _, _, _, _. split_and!; eauto.
Qed.

Lemma process_hello_ack_Some packet st known keys :
  process_hello_ack packet st known = Ok (Some keys) →
  ∃ ack pub priv xpub ss,
    hello_ack_deserialize (pkt_payload packet) = Ok ack ∧
    ed_from_public_bytes (hack_identity_public_key ack) = Ok pub ∧
    derive_peer_id pub ∈ known ∧
    verify_signature pub
      (ack_signed_data (hack_session_id ack) (hack_ephemeral_public_key ack)
         (hs_ephemeral_public_key_bytes st) (hs_local_nonce st)) (hack_signature ack) = true ∧
    x_from_private_bytes (hs_ephemeral_private_key_bytes st) = Ok priv ∧
    x_from_public_bytes (hack_ephemeral_public_key ack) = Ok xpub ∧
    x_exchange priv xpub = Ok ss ∧
    keys = mkKeys (derive_session_key ss (hs_local_nonce st) (hack_random_nonce ack))
             (hack_session_id ack) (derive_peer_id pub) (hack_identity_public_key ack).
Proof.
  unfold process_hello_ack. intros H. invert_ok.
  destruct (negb (_ ∈?b _)) eqn:Ek; [done|]. destruct (negb (verify_signature _ _ _)) eqn:Ev; [done|].
  invert_ok. bool_hyps. simplify_eq. eexists _, _, _, _, _. split_and!; eauto.
Qed.

Lemma process_hello_ack_intro packet st known ack pub priv xpub ss :
  hello_ack_deserialize (pkt_payload packet) = Ok ack →
  ed_from_public_bytes (hack_identity_public_key ack) = Ok pub →
  derive_peer_id pub ∈ known →
  verify_signature pub
    (ack_signed_data (hack_session_id ack) (hack_ephemeral_public_key ack)
       (hs_ephemeral_public_key_bytes st) (hs_local_nonce st)) (hack_signature ack) = true →
  x_from_private_bytes (hs_ephemeral_private_key_bytes st) = Ok priv →
  x_from_public_bytes (hack_ephemeral_public_key ack) = Ok xpub →
  x_exchange priv xpub = Ok ss →
  process_hello_ack packet st known =
    Ok (Some (mkKeys (derive_session_key ss (hs_local_nonce st) (hack_random_nonce ack))
                (hack_session_id ack) (derive_peer_id pub) (hack_identity_public_key ack))).
Proof.
  intros H1 H2 H3 H4 H5 H6 H7. unfold process_hello_ack. rewrite H1. cbn [mbind result_bind].
  rewrite H2. cbn [mbind result_bind]. rewrite bool_decide_true by done. cbn [negb].
  rewrite H4. cbn [negb]. rewrite H5. cbn [mbind result_bind]. rewrite H6. cbn [mbind result_bind].
  unfold compute_shared_secret. by rewrite H7.
Qed.

Lemma process_hello_intro packet known me eph our_nonce sid hello pub xpub ss :
  hello_deserialize (pkt_payload packet) = Ok hello →
  ed_from_public_bytes (hello_identity_public_key hello) = Ok pub →
  derive_peer_id pub ∈ known →
  verify_signature pub
    (hello_signed_data (hello_ephemeral_public_key hello) (hello_random_nonce hello))
    (hello_signature hello) = true →
  x_from_public_bytes (hello_ephemeral_public_key hello) = Ok xpub →
  x_exchange eph xpub = Ok ss →
  process_hello packet known me eph our_nonce sid =
    Ok (Some (mkPacket PROTOCOL_VERSION HELLO_ACK (hello_ack_serialize
          (mkHelloAck (id_public_key me) (x_public eph) sid our_nonce
             (identity_sign me (ack_signed_data sid (x_public eph)
                (hello_ephemeral_public_key hello) (hello_random_nonce hello))))),
        mkKeys (derive_session_key ss (hello_random_nonce hello) our_nonce) sid
             (derive_peer_id pub) (hello_identity_public_key hello))).
Proof.
  intros H1 H2 H3 H4 H5 H6. unfold process_hello. rewrite H1. cbn [mbind result_bind].
  rewrite H2. cbn [mbind result_bind]. rewrite bool_decide_true by done. cbn [negb].
  rewrite H4. cbn [negb]. unfold generate_ephemeral_keypair. rewrite H5. cbn [mbind result_bind].
  unfold compute_shared_secret. by rewrite H6.
Qed.

(** ** Both sides together *)

Lemma hello_exchange `{!CryptoLaws C} (a b : LocalIdentity) (ka kb : gset bytes)
    (eph_a nonce_a eph_b nonce_b sid ss : bytes) :
  identity_wf a → identity_wf b → id_peer_id b ∈ ka → id_peer_id a ∈ kb →
  length eph_a = 32 → length nonce_a = 16 → length nonce_b = 16 → length sid = 8 →
  x_exchange eph_b (x_public eph_a) = Ok ss →
  ∃ hello st ack keys_a keys_b,
    create_hello a eph_a nonce_a = Ok (hello, st) ∧
    process_hello hello kb b eph_b nonce_b sid = Ok (Some (ack, keys_b)) ∧
    process_hello_ack ack st ka = Ok (Some keys_a) ∧
    sk_encryption_key keys_a = sk_encryption_key keys_b ∧
    sk_session_id keys_a = sid ∧ sk_session_id keys_b = sid ∧
    sk_remote_peer_id keys_a = id_peer_id b ∧ sk_remote_peer_id keys_b = id_peer_id a.
Proof.
  intros [Hpa Hia] [Hpb Hib] Hka Hkb Hea Hna Hnb Hsid Hss.
  assert (Hss' : x_exchange eph_a (x_public eph_b) = Ok ss) by (by rewrite x_exchange_comm).
  rewrite Hib in Hka. rewrite Hia in Hkb. rewrite Hpb in Hka. rewrite Hpa in Hkb.
  do 5 eexists. split; [reflexivity|]. split.
  { eapply process_hello_intro; cbn.
    - refine (hello_payload_decodes (mkHello _ _ _ _) _). cbn. rewrite Hpa, ed_public_length, x_public_length.
      by unfold identity_sign; rewrite ed_sign_length.
    - cbn. rewrite Hpa. apply ed_from_public_bytes_ok, ed_public_length.
    - done.
    - unfold verify_signature, identity_sign. cbn. apply ed_verify_sign.
    - apply x_from_public_bytes_ok, x_public_length.
    - done. }
  split.
  { eapply process_hello_ack_intro; cbn.
    - refine (hello_ack_payload_decodes (mkHelloAck _ _ _ _ _) _). cbn. rewrite Hpb, ed_public_length, x_public_length.
      by unfold identity_sign; rewrite ed_sign_length.
    - cbn. rewrite Hpb. apply ed_from_public_bytes_ok, ed_public_length.
    - done.
    - unfold verify_signature, identity_sign. cbn. apply ed_verify_sign.
    - by apply x_from_private_bytes_ok.
    - apply x_from_public_bytes_ok, x_public_length.
    - done. }
  cbn. rewrite Hia, Hib, Hpa, Hpb. done.
Qed.

(** ** Properties *)

(** The handshake establishes a common session.  Two nodes with generated identities, each
    among the other's direct peers, run HELLO, HELLO_ACK to the end for every choice of ephemeral
    keys, nonces and session id for which the key exchange is defined: both accept, with the same
    encryption key and session id, each naming the other's peer id. *)
Theorem handshake_agreement `{!CryptoLaws C} (a b : LocalIdentity) (ka kb : gset bytes)
    (eph_a nonce_a eph_b nonce_b sid ss : bytes) :
  identity_wf a → identity_wf b → id_peer_id b ∈ ka → id_peer_id a ∈ kb →
  length eph_a = 32 → length nonce_a = 16 → length nonce_b = 16 → length sid = 8 →
  x_exchange eph_b (x_public eph_a) = Ok ss →
  ∃ hello st ack keys_a keys_b,
    create_hello a eph_a nonce_a = Ok (hello, st) ∧
    process_hello hello kb b eph_b nonce_b sid = Ok (Some (ack, keys_b)) ∧
    process_hello_ack ack st ka = Ok (Some keys_a) ∧
    sk_encryption_key keys_a = sk_encryption_key keys_b ∧
    sk_session_id keys_a = sid ∧ sk_session_id keys_b = sid ∧
    sk_remote_peer_id keys_a = id_peer_id b ∧ sk_remote_peer_id keys_b = id_peer_id a.
Proof. intros. by apply hello_exchange with (ss := ss). Qed.

(** C8: only authenticated peers get a session.  Whatever packet arrives, keys are returned only
    when the identity key it carries hashes to a peer id in [known_peers] and its signature
    verifies under that key: over the ephemeral key and nonce of the HELLO on the receiver, and on
    the initiator over the session id, the answer's ephemeral key and the initiator's own
    ephemeral key and nonce. *)
Theorem handshake_authenticates `{!CryptoLaws C} (known : gset bytes) (packet : Packet) :
  (∀ me eph nonce sid p keys,
    process_hello packet known me eph nonce sid = Ok (Some (p, keys)) →
    ∃ hello, hello_deserialize (pkt_payload packet) = Ok hello ∧
      sk_remote_public_key_bytes keys = hello_identity_public_key hello ∧
      sk_remote_peer_id keys = sha256 (hello_identity_public_key hello) ∧
      sk_remote_peer_id keys ∈ known ∧
      ed_verify (hello_identity_public_key hello) (hello_signature hello)
        (hello_ephemeral_public_key hello ++ hello_random_nonce hello) = true) ∧
  (∀ st keys,
    process_hello_ack packet st known = Ok (Some keys) →
    ∃ ack, hello_ack_deserialize (pkt_payload packet) = Ok ack ∧
      sk_session_id keys = hack_session_id ack ∧
      sk_remote_peer_id keys = sha256 (hack_identity_public_key ack) ∧
      sk_remote_peer_id keys ∈ known ∧
      ed_verify (hack_identity_public_key ack) (hack_signature ack)
        (hack_session_id ack ++ hack_ephemeral_public_key ack
         ++ hs_ephemeral_public_key_bytes st ++ hs_local_nonce st) = true).
Proof.
  split.
  - intros me eph nonce sid p keys (hello & pub & xpub & ss & Hd & Hp & Hk & Hv & _ & _ & -> & _)%process_hello_Some.
    exists hello. pose proof (hello_deserialize_lengths _ _ Hd) as (Hl & _).
    rewrite ed_from_public_bytes_ok in Hp by done. apply Ok_inj in Hp as <-. done.
  - intros st keys (ack & pub & priv & xpub & ss & Hd & Hp & Hk & Hv & _ & _ & _ & ->)%process_hello_ack_Some.
    exists ack. pose proof (hello_ack_deserialize_lengths _ _ Hd) as (Hl & _).
    rewrite ed_from_public_bytes_ok in Hp by done. apply Ok_inj in Hp as <-. done.
Qed.

(** The receiver's nonce is not authenticated.  The signature of a HELLO_ACK does not cover its
    [random_nonce]: replacing the nonce of an accepted answer by any other 16 bytes gives an answer
    the initiator also accepts, with the same session id and peer but the session key derived from
    the replaced nonce. *)
Theorem hello_ack_nonce_unauthenticated (ack : HelloAckPayload) (nonce' : bytes)
    (st : HandshakeState) (known : gset bytes) (keys : SessionKeys) :
  payload_wf (PHelloAck ack) → length nonce' = 16 →
  process_hello_ack (mkPacket PROTOCOL_VERSION HELLO_ACK (hello_ack_serialize ack)) st known
    = Ok (Some keys) →
  ∃ ss, sk_encryption_key keys = derive_session_key ss (hs_local_nonce st) (hack_random_nonce ack) ∧
    process_hello_ack (mkPacket PROTOCOL_VERSION HELLO_ACK (hello_ack_serialize
      (mkHelloAck (hack_identity_public_key ack) (hack_ephemeral_public_key ack)
         (hack_session_id ack) nonce' (hack_signature ack)))) st known
    = Ok (Some (mkKeys (derive_session_key ss (hs_local_nonce st) nonce') (sk_session_id keys)
                  (sk_remote_peer_id keys) (sk_remote_public_key_bytes keys))).
Proof.
  intros Hwf Hn (ack' & pub & priv & xpub & ss & Hd & Hp & Hk & Hv & Hx & Hxp & Hss & ->)%process_hello_ack_Some.
  cbn in Hd. rewrite hello_ack_payload_decodes in Hd by done. apply Ok_inj in Hd as <-.
  exists ss. split; [done|]. cbn.
  eapply (process_hello_ack_intro _ _ _ (mkHelloAck (hack_identity_public_key ack)
    (hack_ephemeral_public_key ack) (hack_session_id ack) nonce' (hack_signature ack)));
    cbn [hack_identity_public_key hack_ephemeral_public_key hack_session_id hack_random_nonce
         hack_signature pkt_payload]; try done.
  refine (hello_ack_payload_decodes (mkHelloAck _ _ _ _ _) _). destruct Hwf as (?&?&?&_&?). done.
Qed.
End handshake.

(** ** Witnesses *)

Module HandshakeExample.
Import ToyCrypto.
Definition alice : LocalIdentity := generate_identity (be_encode 32 1).
Definition bob : LocalIdentity := generate_identity (be_encode 32 2).

Lemma handshake_agreement_witness :
  ∃ hello st ack keys_a keys_b,
    create_hello alice (be_encode 32 3) (be_encode 16 4) = Ok (hello, st) ∧
    process_hello hello {[id_peer_id alice]} bob (be_encode 32 5) (be_encode 16 6) (be_encode 8 7)
      = Ok (Some (ack, keys_b)) ∧
    process_hello_ack ack st {[id_peer_id bob]} = Ok (Some keys_a) ∧
    sk_encryption_key keys_a = sk_encryption_key keys_b ∧
    sk_session_id keys_a = be_encode 8 7 ∧ sk_session_id keys_b = be_encode 8 7 ∧
    sk_remote_peer_id keys_a = id_peer_id bob ∧ sk_remote_peer_id keys_b = id_peer_id alice.
Proof.
  eapply (handshake_agreement alice bob {[id_peer_id bob]} {[id_peer_id alice]}
    (be_encode 32 3) (be_encode 16 4) (be_encode 32 5) (be_encode 16 6) (be_encode 8 7)).
  - split; reflexivity.
  - split; reflexivity.
  - set_solver.
  - set_solver.
  - reflexivity.
  - reflexivity.
  - reflexivity.
  - reflexivity.
  - reflexivity.
Defined.

(** The answer of [bob] to [alice]'s HELLO, and [alice]'s state. *)
Definition bob_ack : HelloAckPayload :=
  mkHelloAck (id_public_key bob) (x_public (be_encode 32 5)) (be_encode 8 7) (be_encode 16 6)
    (identity_sign bob (ack_signed_data (be_encode 8 7) (x_public (be_encode 32 5))
       (x_public (be_encode 32 3)) (be_encode 16 4))).
Definition alice_state : HandshakeState :=
  mkHandshakeState (be_encode 32 3) (x_public (be_encode 32 3)) (be_encode 16 4)
    (Some (id_peer_id bob)).

Lemma handshake_authenticates_witness :
  ∃ ack keys, process_hello_ack
      (mkPacket PROTOCOL_VERSION HELLO_ACK (hello_ack_serialize bob_ack))
      alice_state {[id_peer_id bob]} = Ok (Some keys) ∧
    hello_ack_deserialize (hello_ack_serialize bob_ack) = Ok ack ∧
    sk_remote_peer_id keys = sha256 (hack_identity_public_key ack).
Proof.
  pose proof (handshake_authenticates {[id_peer_id bob]}
    (mkPacket PROTOCOL_VERSION HELLO_ACK (hello_ack_serialize bob_ack))) as [_ H].
  destruct (process_hello_ack (mkPacket PROTOCOL_VERSION HELLO_ACK (hello_ack_serialize bob_ack))
    alice_state {[id_peer_id bob]}) as [[keys|]|e] eqn:E.
  - destruct (H alice_state keys E) as (ack & Hd & _ & Hp & _). exists ack, keys. done.
  - exfalso. revert E. vm_compute. discriminate.
  - exfalso. revert E. vm_compute. discriminate.
Defined.

Lemma hello_ack_nonce_unauthenticated_witness :
  ∃ ss keys, process_hello_ack (mkPacket PROTOCOL_VERSION HELLO_ACK (hello_ack_serialize
      (mkHelloAck (hack_identity_public_key bob_ack) (hack_ephemeral_public_key bob_ack)
         (hack_session_id bob_ack) (be_encode 16 99) (hack_signature bob_ack))))
      alice_state {[id_peer_id bob]}
    = Ok (Some (mkKeys (derive_session_key ss (be_encode 16 4) (be_encode 16 99))
            (sk_session_id keys) (sk_remote_peer_id keys) (sk_remote_public_key_bytes keys))).
Proof.
  destruct (process_hello_ack (mkPacket PROTOCOL_VERSION HELLO_ACK (hello_ack_serialize bob_ack))
    alice_state {[id_peer_id bob]}) as [[keys|]|e] eqn:E.
  - destruct (hello_ack_nonce_unauthenticated bob_ack (be_encode 16 99) alice_state
      {[id_peer_id bob]} keys) as (ss & _ & H).
    + vm_compute. repeat split.
    + reflexivity.
    + exact E.
    + exists ss, keys. exact H.
  - exfalso. revert E. vm_compute. discriminate.
  - exfalso. revert E. vm_compute. discriminate.
Defined.
End HandshakeExample.
