(* ===== verification/QueueManager.v ===== *)
(** * The message queue (queue_manager.py)

    The queue is the insertion-ordered dict of message entries.  [build_data_packet] and
    [decrypt_data_packet] also change the session object they are given, and what they have changed
    stays changed when they raise, so they return the new state next to the result.  Time readings
    and [uuid4] values are arguments.  [retry_pass] is one turn of the body of [_retry_loop]; its
    callbacks act on the state of the caller. *)

From S2P Require Import Prelude Bytes PyDict PyText Packet Crypto Session.

Definition MAX_RETRIES : Z := 5.
Definition ACK_TIMEOUT : seconds := secs 30.

(** ** Data *)

Inductive MessageStatus := QUEUED | PENDING | DELIVERED | ACKNOWLEDGED | FAILED.

#[export] Instance MessageStatus_eq_dec : EqDecision MessageStatus.
Proof. solve_decision. Defined.

Definition status_value (s : MessageStatus) : pystr :=
  match s with
  | QUEUED => str "queued" | PENDING => str "pending" | DELIVERED => str "delivered"
  | ACKNOWLEDGED => str "acknowledged" | FAILED => str "failed"
  end.

(** [MessageStatus(value)]; [None] stands for the [ValueError] *)
Definition status_of (v : pystr) : option MessageStatus :=
  List.find (λ s, v =?b status_value s) [QUEUED; PENDING; DELIVERED; ACKNOWLEDGED; FAILED].

(** The dict of one message; [None] for a key that is absent (or holds [None]). *)
Record QueueEntry := mkEntry {
  qe_receiver : bytes;
  qe_status : MessageStatus;
  qe_retry_count : Z;
  qe_plaintext : bytes;
  qe_created_at : seconds;
  qe_sequence_number : option Z;
  qe_sent_at : option seconds }.

Definition set_status (st : MessageStatus) (e : QueueEntry) : QueueEntry :=
  mkEntry (qe_receiver e) st (qe_retry_count e) (qe_plaintext e) (qe_created_at e)
    (qe_sequence_number e) (qe_sent_at e).

Definition set_retry_count (n : Z) (e : QueueEntry) : QueueEntry :=
  mkEntry (qe_receiver e) (qe_status e) n (qe_plaintext e) (qe_created_at e)
    (qe_sequence_number e) (qe_sent_at e).

Definition set_sent (seq : Z) (now : seconds) (e : QueueEntry) : QueueEntry :=
  mkEntry (qe_receiver e) (qe_status e) (qe_retry_count e) (qe_plaintext e) (qe_created_at e)
    (Some seq) (Some now).

Abbreviation queue := (dict pystr QueueEntry).

(** ** Operations *)

(** [enqueue], for the id [msg_id] that [uuid4] gave *)
Definition enqueue (q : queue) (msg_id : pystr) (receiver_peer_id plaintext : bytes)
    (now : seconds) : queue :=
  dset q msg_id (mkEntry receiver_peer_id QUEUED 0 plaintext now None None).

Definition restore_entry (q : queue) (message_id : pystr) (receiver : bytes) (status : pystr)
    (retry_count : Z) (plaintext : bytes) (sequence_number : option Z) (now : seconds) : queue :=
  dset q message_id
    (mkEntry receiver (default QUEUED (status_of status)) retry_count plaintext now
       sequence_number None).

Section packets.
Context `{C : CryptoLib}.

(** AAD = packet_type || sequence_number: [struct.pack(">BI", PacketType.DATA, seq)] *)
Definition data_aad (seq : Z) : result bytes :=
  t ← struct_pack 1 (ptype_val DATA); s ← struct_pack 4 seq; Ok (t ++ s).

(** The encryption shared by [build_data_packet] and [rebuild_for_sync]. *)
Definition seal_data (session : Session) (seq : Z) (plaintext : bytes) : result DataPayload :=
  nonce ← build_nonce (s_session_id session) seq;
  aad ← data_aad seq;
  let '(ct, tag) := encrypt (s_encryption_key session) plaintext nonce aad in
  Ok (mkData (s_session_id session) seq ct tag).

Definition build_data_packet (q : queue) (message_id : pystr) (session : Session) (now : seconds)
    : queue * Session * result (option (Packet * Z)) :=
  match dget q message_id with
  | None => (q, session, Ok None)
  | Some entry =>
      if negb (qe_status entry =?b QUEUED) then (q, session, Ok None) else
      let '(seq, session') := next_sequence session in
      match seal_data session' seq (qe_plaintext entry) with
      | Raise e => (q, session', Raise e)
      | Ok payload =>
          (dset q message_id (set_sent seq now (set_status PENDING entry)), session',
           p ← make_packet DATA (PData payload); Ok (Some (p, seq)))
      end
  end.

Definition rebuild_for_sync (q : queue) (message_id : pystr) (session : Session) (now : seconds)
    : queue * result (option Packet) :=
  match dget q message_id with
  | None => (q, Ok None)
  | Some entry =>
      match qe_sequence_number entry with
      | None => (q, Ok None)
      | Some seq =>
          if bool_decide (qe_plaintext entry = []) then (q, Ok None) else
          match seal_data session seq (qe_plaintext entry) with
          | Raise e => (q, Raise e)
          | Ok payload =>
              (dset q message_id (set_sent seq now entry),
               p ← make_packet DATA (PData payload); Ok (Some p))
          end
      end
  end.

(** [decrypt_data_packet(data_payload, session)] *)
Definition decrypt_data_packet (dp : DataPayload) (session : Session)
    : Session * result (option bytes) :=
  if negb (check_recv_sequence session (data_sequence_number dp)) then (session, Ok None) else
  match build_nonce (s_session_id session) (data_sequence_number dp) with
  | Raise e => (session, Raise e)
  | Ok nonce =>
      match data_aad (data_sequence_number dp) with
      | Raise e => (session, Raise e)
      | Ok aad =>
          match decrypt (s_encryption_key session) (data_ciphertext dp) nonce aad (data_auth_tag dp) with
          | Raise _ => (session, Ok None)
          | Ok plaintext =>
              (advance_recv_sequence session (data_sequence_number dp), Ok (Some plaintext))
          end
      end
  end.
End packets.

Definition build_ack (session_id : bytes) (sequence_number : Z) : result Packet :=
  make_packet ACK (PAck (mkAck session_id sequence_number)).

(** [handle_ack]: the first pending entry with the acknowledged number *)
Definition handle_ack (q : queue) (ack : AckPayload) : queue * option pystr :=
  match dfind (λ _ e, (qe_status e =?b PENDING)
                      && (qe_sequence_number e =?b Some (ack_sequence_number ack))) q with
  | Some (msg_id, entry) => (dset q msg_id (set_status DELIVERED entry), Some msg_id)
  | None => (q, None)
  end.

Definition handle_timeout (q : queue) (message_id : pystr) : queue * MessageStatus :=
  match dget q message_id with
  | None => (q, FAILED)
  | Some entry =>
      let n := (qe_retry_count entry + 1)%Z in
      let st := if (MAX_RETRIES <=? n)%Z then FAILED else QUEUED in
      (dset q message_id (set_status st (set_retry_count n entry)), st)
  end.

Definition get_queued_for_peer (q : queue) (peer_id : bytes) : list pystr :=
  (filter (λ me : pystr * QueueEntry, qe_receiver me.2 = peer_id ∧ qe_status me.2 = QUEUED) q).*1.

Definition get_status (q : queue) (message_id : pystr) : option MessageStatus :=
  qe_status <$> dget q message_id.

Definition acknowledge_by_sequence (q : queue) (peer_id : bytes) (sequence_number : Z)
    : queue * option pystr :=
  match dfind (λ _ e, (qe_receiver e =?b peer_id)
                      && (qe_sequence_number e =?b Some sequence_number)
                      && (qe_status e =?b DELIVERED)) q with
  | Some (msg_id, entry) => (dset q msg_id (set_status ACKNOWLEDGED entry), Some msg_id)
  | None => (q, None)
  end.

Definition undelivered_count (q : queue) : nat :=
  length (filter (λ me : pystr * QueueEntry,
                    qe_status me.2 = QUEUED ∨ qe_status me.2 = PENDING) q).

(** [now - e.get("sent_at", now) > ACK_TIMEOUT] for a pending entry *)
Definition timed_out (now : seconds) (e : QueueEntry) : bool :=
  (qe_status e =?b PENDING) && tlt ACK_TIMEOUT (tsub now (default now (qe_sent_at e))).

Definition get_timed_out_messages (q : queue) (now : seconds) : list pystr :=
  (filter (λ me : pystr * QueueEntry, timed_out now me.2 = true) q).*1.

(** One turn of the loop of [_retry_loop], over a caller state [S] that contains the queue.  The
    callbacks may raise: the exception is logged and the state they left is kept. *)
Section retry.
Context {S : Type} (getq : S → queue) (setq : queue → S → S).
Context (resend_fn on_failed_fn : pystr → bytes → S → S * result ()).

Definition retry_one (s : S) (msg_id : pystr) : S :=
  let '(q', status) := handle_timeout (getq s) msg_id in
  let s' := setq q' s in
  match dget q' msg_id with
  | None => s'
  | Some entry =>
      match status with
      | FAILED => (on_failed_fn msg_id (qe_receiver entry) s').1
      | QUEUED => (resend_fn msg_id (qe_receiver entry) s').1
      | _ => s'
      end
  end.

Definition retry_pass (s : S) (now : seconds) : S :=
  foldl retry_one s (get_timed_out_messages (getq s) now).
End retry.

(** ** Runs of the queue

    An operation on the queue, with the DATA packet it built, if any: one that [build_data_packet] numbered, or one that
    [rebuild_for_sync] repeated.  Operations come in any order and number; what the retry loop does to a message is its
    [handle_timeout] at any moment. *)
Inductive qop :=
| OpEnqueue (msg_id : pystr) (receiver plaintext : bytes) (now : seconds)
| OpSend (msg_id : pystr) (session : Session) (now : seconds)
| OpResync (msg_id : pystr) (session : Session) (now : seconds)
| OpAck (ack : AckPayload)
| OpAppAck (peer_id : bytes) (seq : Z)
| OpTimeout (msg_id : pystr).

Inductive built := Numbered (msg_id : pystr) (seq : Z) | Repeated (msg_id : pystr).

(** The packet carries the message; it is one that [build_data_packet] made. *)
Definition carries_msg (i : pystr) (b : built) : bool :=
  match b with Numbered j _ | Repeated j => j =?b i end.
Definition numbers_msg (i : pystr) (b : built) : bool :=
  match b with Numbered j _ => j =?b i | Repeated _ => false end.

(** The operation is a SYNC retransmission of the message. *)
Definition resyncs (i : pystr) (op : qop) : bool :=
  match op with OpResync j _ _ => j =?b i | _ => false end.

Section runs.
Context `{C : CryptoLib}.

Definition qexec (q : queue) (op : qop) : queue * option built :=
  match op with
  | OpEnqueue i r p now => (enqueue q i r p now, None)
  | OpSend i s now =>
      let '(q', _, r) := build_data_packet q i s now in
      (q', match r with Ok (Some (_, seq)) => Some (Numbered i seq) | _ => None end)
  | OpResync i s now =>
      let '(q', r) := rebuild_for_sync q i s now in
      (q', match r with Ok (Some _) => Some (Repeated i) | _ => None end)
  | OpAck a => ((handle_ack q a).1, None)
  | OpAppAck p n => ((acknowledge_by_sequence q p n).1, None)
  | OpTimeout i => ((handle_timeout q i).1, None)
  end.

(** The queue after a sequence of operations and the DATA packets built. *)
Fixpoint qrun (q : queue) (ops : list qop) : queue * list built :=
  match ops with
  | [] => (q, [])
  | op :: ops =>
      let '(q1, l) := qexec q op in
      let '(q2, packets) := qrun q1 ops in
      (q2, option_list l ++ packets)
  end.

(** [uuid4] never repeats an id that is in the queue. *)
Fixpoint fresh_ids (q : queue) (ops : list qop) : Prop :=
  match ops with
  | [] => True
  | op :: ops =>
      match op with OpEnqueue i _ _ _ => dget q i = None | _ => True end
      ∧ fresh_ids (qexec q op).1 ops
  end.

(** The status changes an operation may make. *)
Definition status_edge (op : qop) (old new : MessageStatus) : Prop :=
  match op with
  | OpSend _ _ _ => old = QUEUED ∧ new = PENDING
  | OpAck _ => old = PENDING ∧ new = DELIVERED
  | OpAppAck _ _ => old = DELIVERED ∧ new = ACKNOWLEDGED
  | OpTimeout _ => new = QUEUED ∨ new = FAILED
  | OpEnqueue _ _ _ _ | OpResync _ _ _ => False
  end.

(** ** Lemmas *)

Lemma data_aad_ok seq : u32 seq → data_aad seq = Ok (be_encode 1 3 ++ be_encode 4 seq).
Proof. intros H. unfold data_aad. rewrite (struct_pack_u32 seq) by done. done. Qed.

Lemma seal_data_ok s seq pt :
  length (s_session_id s) = 8 → u32 seq → ∃ payload, seal_data s seq pt = Ok payload.
Proof.
  intros Hs Hn. unfold seal_data. rewrite build_nonce_ok, data_aad_ok by done.
  cbn [mbind result_bind]. destruct (encrypt _ _ _ _). eauto.
Qed.

Lemma seal_data_inv s seq pt payload :
  seal_data s seq pt = Ok payload →
  ∃ nonce aad ct tag, build_nonce (s_session_id s) seq = Ok nonce ∧ data_aad seq = Ok aad ∧
    encrypt (s_encryption_key s) pt nonce aad = (ct, tag) ∧
    payload = mkData (s_session_id s) seq ct tag.
Proof.
  unfold seal_data. intros H. invert_ok.
  destruct (encrypt _ _ _ _) as [ct tag] eqn:E. invert_ok. subst. eauto 10.
Qed.

Lemma build_nonce_range sid n nonce : build_nonce sid n = Ok nonce → length sid = 8 ∧ u32 n.
Proof.
  unfold build_nonce. destruct (Nat.eqb_spec (length sid) 8); [|done]. intros H. invert_ok.
  apply struct_pack_Ok in H0 as [Hr _]. rewrite pow256_4 in Hr. done.
Qed.

(** Opening a sealed payload with a session of the same id and key. *)
Lemma open_sealed `{!CryptoLaws C} s r seq pt payload :
  seal_data s seq pt = Ok payload →
  s_session_id r = s_session_id s → s_encryption_key r = s_encryption_key s →
  (s_recv_sequence r < seq)%Z →
  decrypt_data_packet payload r = (set_recv_sequence seq r, Ok (Some pt)).
Proof.
  intros (nonce & aad & ct & tag & Hn & Ha & He & ->)%seal_data_inv Hsid Hkey Hlt.
  unfold decrypt_data_packet, check_recv_sequence, advance_recv_sequence. cbn.
  rewrite (proj2 (Z.ltb_lt _ _)) by done. cbn. rewrite Hsid, Hn, Ha, Hkey.
  by rewrite (proj1 (encrypt_decrypt _ _ _ _ _ _ He)).
Qed.

Lemma decrypt_unchanged dp s s' r :
  decrypt_data_packet dp s = (s', r) → (∀ pt, r ≠ Ok (Some pt)) → s' = s.
Proof.
  unfold decrypt_data_packet. intros H Hr. repeat case_match; simplify_eq; try done.
  by destruct (Hr a1).
Qed.

Lemma decrypt_accepted dp s s' pt :
  decrypt_data_packet dp s = (s', Ok (Some pt)) →
  (s_recv_sequence s < data_sequence_number dp)%Z ∧
  s' = set_recv_sequence (data_sequence_number dp) s.
Proof.
  unfold decrypt_data_packet, check_recv_sequence, advance_recv_sequence. intros H.
  destruct (Z.ltb_spec (s_recv_sequence s) (data_sequence_number dp)) as [Hlt|]; [|done].
  cbn in H. repeat case_match; simplify_eq. done.
Qed.

Lemma build_data_packet_Some q i s now q' s' p seq :
  build_data_packet q i s now = (q', s', Ok (Some (p, seq))) →
  ∃ e payload pl, dget q i = Some e ∧ qe_status e = QUEUED ∧ seq = s_send_sequence s ∧
    s' = set_send_sequence (seq + 1) s ∧
    seal_data s seq (qe_plaintext e) = Ok payload ∧
    data_serialize payload = Ok pl ∧ p = mkPacket PROTOCOL_VERSION DATA pl ∧
    q' = dset q i (set_sent seq now (set_status PENDING e)).
Proof.
  unfold build_data_packet. destruct (dget q i) as [e|] eqn:Hg; [|done].
  destruct (negb _) eqn:Hst; [done|]. bool_hyps. unfold next_sequence.
  destruct (seal_data _ _ _) as [payload|] eqn:Hs; [|done].
  unfold make_packet. cbn [payload_serialize].
  destruct (data_serialize payload) as [pl|] eqn:Hd; [|done]. cbn. intros [= <- <- <- <-].
  exists e, payload, pl. split_and!; try done.
Qed.

(** Every outcome of [build_data_packet] on the queue. *)
Lemma build_data_packet_queue q i s now q' s' r :
  build_data_packet q i s now = (q', s', r) →
  (q' = q ∧ ∀ x, r ≠ Ok (Some x)) ∨
  ∃ e seq, dget q i = Some e ∧ qe_status e = QUEUED ∧
    q' = dset q i (set_sent seq now (set_status PENDING e)).
Proof.
  unfold build_data_packet. destruct (dget q i) as [e|] eqn:Hg; [|intros [= <- <- <-]; by left].
  destruct (negb _) eqn:Hst; [intros [= <- <- <-]; by left|]. bool_hyps. unfold next_sequence.
  destruct (seal_data _ _ _) as [payload|] eqn:Hs; intros [= <- <- <-]; [|by left].
  right. eauto.
Qed.

Lemma rebuild_for_sync_queue q i s now :
  (rebuild_for_sync q i s now).1 = q ∨
  ∃ e seq, dget q i = Some e ∧ qe_sequence_number e = Some seq ∧
    (rebuild_for_sync q i s now).1 = dset q i (set_sent seq now e).
Proof.
  unfold rebuild_for_sync. destruct (dget q i) as [e|] eqn:Hg; [|by left].
  destruct (qe_sequence_number e) as [seq|] eqn:Hq; [|by left].
  case_bool_decide; [by left|]. destruct (seal_data _ _ _); [|by left]. right. eauto.
Qed.

Lemma handle_ack_Some q a q' i :
  handle_ack q a = (q', Some i) →
  ∃ e, (i, e) ∈ q ∧ qe_status e = PENDING ∧
    qe_sequence_number e = Some (ack_sequence_number a) ∧ q' = dset q i (set_status DELIVERED e).
Proof.
  unfold handle_ack. destruct (dfind _ q) as [[j e]|] eqn:E; intros [= <- <-].
  apply dfind_Some in E as [Hin Hp]. bool_hyps. eauto.
Qed.

Lemma acknowledge_Some q p n q' i :
  acknowledge_by_sequence q p n = (q', Some i) →
  ∃ e, (i, e) ∈ q ∧ qe_receiver e = p ∧ qe_status e = DELIVERED ∧
    qe_sequence_number e = Some n ∧ q' = dset q i (set_status ACKNOWLEDGED e).
Proof.
  unfold acknowledge_by_sequence. destruct (dfind _ q) as [[j e]|] eqn:E; intros [= <- <-].
  apply dfind_Some in E as [Hin Hp]. bool_hyps. eauto 10.
Qed.

(** An operation changes at most one entry; [upd] relates the entry before and after. *)
Inductive entry_step (op : qop) (q : queue) : queue → Prop :=
| es_same : entry_step op q q
| es_new i r p now : op = OpEnqueue i r p now →
    entry_step op q (dset q i (mkEntry r QUEUED 0 p now None None))
| es_upd i e e' : dget q i = Some e →
    qe_receiver e' = qe_receiver e → qe_plaintext e' = qe_plaintext e →
    (qe_status e' = qe_status e ∧ qe_retry_count e' = qe_retry_count e ∨
     status_edge op (qe_status e) (qe_status e') ∧
     match op with
     | OpTimeout _ => qe_retry_count e' = (qe_retry_count e + 1)%Z ∧
         (qe_status e' = QUEUED → (qe_retry_count e' < MAX_RETRIES)%Z)
     | _ => qe_retry_count e' = qe_retry_count e
     end) →
    entry_step op q (dset q i e').

Lemma qexec_entry_step q op : dict_wf q → entry_step op q (qexec q op).1.
Proof.
  intros Hwf. destruct op as [i r p now|i s now|i s now|a|p n|i]; cbn.
  - by eapply es_new.
  - destruct (build_data_packet q i s now) as [[q' s'] r] eqn:E. cbn.
    apply build_data_packet_queue in E as [[-> _]|(e & seq & Hg & Hst & ->)]; [constructor|].
    eapply es_upd; [done..|]. by right.
  - pose proof (rebuild_for_sync_queue q i s now) as H. destruct (rebuild_for_sync q i s now) as [q' r].
    cbn in *. destruct H as [->|(e & seq & Hg & Hq & ->)]; [constructor|].
    eapply es_upd; [done..|]. by left.
  - destruct (handle_ack q a) as [q' [i|]] eqn:E; cbn.
    + apply handle_ack_Some in E as (e & Hin & Hst & _ & ->).
      eapply es_upd; [by apply dget_elem|done..|]. by right.
    + revert E. unfold handle_ack. destruct (dfind _ q) as [[]|]; [done|]. intros [= <-]. constructor.
  - destruct (acknowledge_by_sequence q p n) as [q' [i|]] eqn:E; cbn.
    + apply acknowledge_Some in E as (e & Hin & _ & Hst & _ & ->).
      eapply es_upd; [by apply dget_elem|done..|]. by right.
    + revert E. unfold acknowledge_by_sequence. destruct (dfind _ q) as [[]|]; [done|].
      intros [= <-]. constructor.
  - unfold handle_timeout. destruct (dget q i) as [e|] eqn:Hg; [|constructor]. cbn.
    eapply es_upd; [done..|]. right. cbn.
    destruct (Z.leb_spec MAX_RETRIES (qe_retry_count e + 1)); split_and!; auto; done.
Qed.

Lemma qexec_wf q op : dict_wf q → dict_wf (qexec q op).1.
Proof. intros Hwf. destruct (qexec_entry_step q op Hwf); auto with ashichat. Qed.

(** The number of DATA packets built for a message, against its entry. *)
Definition tx_ok (n : nat) (oe : option QueueEntry) : Prop :=
  match oe with
  | None => n = 0
  | Some e =>
      (0 ≤ qe_retry_count e)%Z ∧ (Z.of_nat n ≤ MAX_RETRIES)%Z ∧
      if bool_decide (qe_status e = QUEUED)
      then (Z.of_nat n ≤ qe_retry_count e < MAX_RETRIES)%Z
      else (Z.of_nat n ≤ qe_retry_count e + 1)%Z
  end.

Definition sent_now (l : option built) (i : pystr) : nat :=
  match l with Some (Numbered j _) => if decide (j = i) then 1 else 0 | _ => 0 end.

(** A DATA packet is numbered and built only from a queued entry, which becomes pending. *)
Lemma qexec_label q op j seq :
  (qexec q op).2 = Some (Numbered j seq) →
  ∃ e e', dget q j = Some e ∧ qe_status e = QUEUED ∧ (qexec q op).1 = dset q j e' ∧
    qe_status e' = PENDING ∧ qe_retry_count e' = qe_retry_count e.
Proof.
  destruct op as [|i s now|i s now| | |]; cbn; try done.
  2:{ by destruct (rebuild_for_sync q i s now) as [q' [[p|]|]]. }
  destruct (build_data_packet q i s now) as [[q' s'] [[[p n]|]|]] eqn:E; cbn; try done.
  intros [= <- <-]. apply build_data_packet_Some in E as (e & pl & b & Hg & Hst & _ & _ & _ & _ & _ & ->).
  eauto 10.
Qed.

Lemma qexec_tx q op i n :
  dict_wf q → match op with OpEnqueue j _ _ _ => dget q j = None | _ => True end →
  tx_ok n (dget q i) → tx_ok (n + sent_now (qexec q op).2 i) (dget (qexec q op).1 i).
Proof.
  intros Hwf Hfresh Hn.
  assert ((∃ j seq, (qexec q op).2 = Some (Numbered j seq)) ∨ sent_now (qexec q op).2 i = 0) as [(j & seq & El)|El].
  { destruct ((qexec q op).2) as [[]|]; eauto. }
  - rewrite El. cbn. destruct (qexec_label _ _ _ _ El) as (e & e' & Hg & Hst & -> & Hst' & Hr).
    rewrite dget_dset. destruct (decide (j = i)) as [->|Hne].
    + rewrite decide_True by done. rewrite Hg in Hn. cbn in *.
      rewrite Hst, bool_decide_true in Hn by done. rewrite Hst', bool_decide_false by done.
      rewrite Hr. unfold MAX_RETRIES in *. lia.
    + rewrite decide_False by done. by rewrite Nat.add_0_r.
  - rewrite El, Nat.add_0_r. destruct (qexec_entry_step q op Hwf) as [|j r p now ->|j e e' Hg _ _ Hupd].
    + done.
    + rewrite dget_dset. case_decide; [|done]. subst. rewrite Hfresh in Hn. cbn in *. subst. done.
    + rewrite dget_dset. case_decide; [|done]. subst. rewrite Hg in Hn. cbn in *.
      destruct Hupd as [[Hst Hr]|[Hedge Hr]]; [by rewrite Hst, Hr|].
      unfold MAX_RETRIES in *. destruct op; cbn in Hedge; try done.
      * destruct Hedge as [Ho Hw].
        rewrite Ho, bool_decide_true in Hn by done. rewrite Hw, bool_decide_false by done. lia.
      * destruct Hedge as [Ho Hw]. rewrite Ho, bool_decide_false in Hn by done.
        rewrite Hw, bool_decide_false by done. lia.
      * destruct Hedge as [Ho Hw]. rewrite Ho, bool_decide_false in Hn by done.
        rewrite Hw, bool_decide_false by done. lia.
      * destruct Hr as [Hr Hq]. rewrite Hr in *.
        case_bool_decide; case_bool_decide; naive_solver lia.
Qed.

Lemma qrun_tx q ops i n :
  dict_wf q → fresh_ids q ops → tx_ok n (dget q i) →
  tx_ok (n + length (filter (numbers_msg i) (qrun q ops).2)) (dget (qrun q ops).1 i).
Proof.
  revert q n. induction ops as [|op ops IH]; intros q n Hwf Hf Hn; cbn.
  - by rewrite Nat.add_0_r.
  - destruct Hf as [Hf1 Hf2]. pose proof (qexec_tx q op i n Hwf Hf1 Hn) as H1.
    pose proof (qexec_wf q op Hwf) as Hwf1.
    destruct (qexec q op) as [q1 l]. cbn in *.
    specialize (IH q1 _ Hwf1 Hf2 H1). destruct (qrun q1 ops) as [q2 ids]. cbn in *.
    rewrite filter_app, length_app. rewrite <- Nat.add_assoc in IH.
    enough (length (filter (numbers_msg i) (option_list l)) = sent_now l i) as -> by done.
    destruct l as [[j seq|j]|]; cbn; try done.
    destruct (decide (j = i)) as [->|Hne]; [by rewrite decide_True by by apply bool_decide_spec|].
    rewrite decide_False; [done|]. by intros ?%bool_decide_spec.
Qed.

(** A packet is repeated only by a retransmission. *)
Lemma qrun_repeated q ops i :
  length (filter (carries_msg i) (qrun q ops).2)
    ≤ length (filter (numbers_msg i) (qrun q ops).2) + length (filter (resyncs i) ops).
Proof.
  revert q. induction ops as [|op ops IH]; intros q; cbn [qrun]; [cbn; lia|].
  assert (length (filter (carries_msg i) (option_list (qexec q op).2))
    ≤ length (filter (numbers_msg i) (option_list (qexec q op).2)) + length (filter (resyncs i) [op])) as H.
  { destruct op as [|j s now|j s now| | |]; cbn; try lia.
    - destruct (build_data_packet q j s now) as [[q' s'] [[[p m]|]|]]; cbn; lia.
    - destruct (rebuild_for_sync q j s now) as [q' [[p|]|]]; cbn; try lia.
      repeat case_decide; cbn; try lia; done. }
  destruct (qexec q op) as [q1 l]. specialize (IH q1). destruct (qrun q1 ops) as [q2 ps]. cbn [fst snd] in *.
  rewrite !filter_app, !length_app. change (op :: ops) with ([op] ++ ops). rewrite filter_app, length_app. lia.
Qed.
End runs.

(** ** Receiving a stream of DATA payloads *)

Section receiving.
Context `{C : CryptoLib}.

(** The default [e.get("sent_at", now)] never exceeds the timeout. *)
Lemma ack_timeout_now (now : seconds) : ~ QArith_base.Qlt ACK_TIMEOUT (tsub now now).
Proof.
  unfold tsub, ACK_TIMEOUT, secs, QArith_base.inject_Z. Lqa.lra.
Qed.

(** The sequence numbers and plaintexts a session accepts from payloads in arrival order. *)
Fixpoint receive_all (s : Session) (dps : list DataPayload) : Session * list (Z * bytes) :=
  match dps with
  | [] => (s, [])
  | dp :: dps =>
      let '(s1, r) := decrypt_data_packet dp s in
      let '(s2, l) := receive_all s1 dps in
      (s2, match r with Ok (Some pt) => (data_sequence_number dp, pt) :: l | _ => l end)
  end.

Lemma receive_all_above s dps n pt :
  (n, pt) ∈ (receive_all s dps).2 → (s_recv_sequence s < n)%Z.
Proof.
  revert s. induction dps as [|dp dps IH]; intros s; cbn; [by intros ?%elem_of_nil|].
  destruct (decrypt_data_packet dp s) as [s1 r] eqn:E.
  specialize (IH s1). destruct (receive_all s1 dps) as [s2 l]. cbn in *.
  destruct r as [[pt'|]|e].
  - apply decrypt_accepted in E as [Hlt ->]. cbn in IH.
    intros [[= -> ->]|Hin]%elem_of_cons; [done|]. specialize (IH Hin). lia.
  - apply decrypt_unchanged in E as ->; [done|naive_solver].
  - apply decrypt_unchanged in E as ->; [done|naive_solver].
Qed.

Lemma receive_all_sorted s dps : StronglySorted Z.lt (receive_all s dps).2.*1.
Proof.
  revert s. induction dps as [|dp dps IH]; intros s; cbn; [constructor|].
  destruct (decrypt_data_packet dp s) as [s1 r] eqn:E.
  specialize (IH s1). pose proof (receive_all_above s1 dps) as Habove.
  destruct (receive_all s1 dps) as [s2 l]. cbn in *.
  destruct r as [[pt'|]|e]; [|done..]. cbn. constructor; [done|].
  apply decrypt_accepted in E as [Hlt ->]. apply Forall_forall. intros n Hn.
  apply list_elem_of_fmap in Hn as ([n' pt] & -> & Hin). by apply Habove in Hin.
Qed.

(** ** Properties *)

(** C9: no replay.  Feed a session any payloads in any order, duplicated, reordered or forged: the
    sequence numbers of the accepted ones are strictly increasing and above the session's counter,
    so none is accepted twice, and a payload that is rejected (replay, failed decryption) or makes
    the decryption raise leaves the session unchanged. *)
Theorem replay_protection (s : Session) (dps : list DataPayload) :
  StronglySorted Z.lt (receive_all s dps).2.*1 ∧
  Forall (λ n, (s_recv_sequence s < n)%Z) (receive_all s dps).2.*1 ∧
  (∀ dp s' r, decrypt_data_packet dp s = (s', r) →
     (s' = s ∧ (∀ pt, r ≠ Ok (Some pt))) ∨
     (∃ pt, r = Ok (Some pt) ∧ (s_recv_sequence s < data_sequence_number dp)%Z ∧
        s' = set_recv_sequence (data_sequence_number dp) s)).
Proof.
  split_and!.
  - apply receive_all_sorted.
  - apply Forall_forall. intros n Hn. apply list_elem_of_fmap in Hn as ([n' pt] & -> & Hin).
    by apply receive_all_above in Hin.
  - intros dp s' [[pt|]|e] H.
    + right. exists pt. by apply decrypt_accepted in H as [? ?].
    + left. split; [|naive_solver]. eapply decrypt_unchanged; [done|naive_solver].
    + left. split; [|naive_solver]. eapply decrypt_unchanged; [done|naive_solver].
Qed.

(** A sealed payload travels: it makes a packet that serializes, decodes and decrypts, with any session
    of the same id and key that has not seen its number, to the plaintext, provided the number is 32 bits
    wide and the message fits a datagram. *)
Lemma sealed_delivery `{!CryptoLaws C} (s : Session) (seq : Z) (pt : bytes) :
  length (s_session_id s) = 8 → u32 seq → (Z.of_nat (length pt) + 32 ≤ MAX_PAYLOAD_SIZE)%Z →
  ∃ dp p wire, seal_data s seq pt = Ok dp ∧ make_packet DATA (PData dp) = Ok p ∧
    packet_serialize p = Ok wire ∧ packet_deserialize wire = Ok p ∧ pkt_type p = DATA ∧
    data_deserialize (pkt_payload p) = Ok dp ∧
    data_session_id dp = s_session_id s ∧ data_sequence_number dp = seq ∧
    (Z.of_nat (length (pkt_payload p)) ≤ MAX_PAYLOAD_SIZE)%Z ∧
    ∀ r, s_session_id r = s_session_id s → s_encryption_key r = s_encryption_key s →
      (s_recv_sequence r < seq)%Z →
      decrypt_data_packet dp r = (set_recv_sequence seq r, Ok (Some pt)).
Proof.
  intros Hlen Hu Hfit. destruct (seal_data_ok s seq pt Hlen Hu) as [payload Hs].
  pose proof (seal_data_inv _ _ _ _ Hs) as (nonce & aad & ct & tag & Hn & Ha & He & ->).
  destruct (encrypt_decrypt _ _ _ _ _ _ He) as (_ & Htag & Hct). unfold MAX_PAYLOAD_SIZE in *.
  assert (payload_wf (PData (mkData (s_session_id s) seq ct tag))) as Hwf.
  { cbn. unfold u32. split_and!; [done|apply Hu|apply Hu|lia|lia|done]. }
  destruct (payload_serialize_ok _ Hwf) as [bs Hbs]. cbn in Hbs.
  assert (length bs = 32 + length ct) as Hbl.
  { unfold data_serialize in Hbs. invert_ok.
    apply length_struct_pack in H, H0. subst bs. cbn. rewrite !length_app. lia. }
  destruct (packet_serialize_ok DATA bs) as [wire Hw]; [unfold MAX_PAYLOAD_SIZE; lia|].
  exists (mkData (s_session_id s) seq ct tag), (mkPacket PROTOCOL_VERSION DATA bs), wire.
  split_and!; [done| |done| |done| |done|done|cbn; lia|].
  - unfold make_packet. cbn [payload_serialize]. by rewrite Hbs.
  - rewrite <- (app_nil_r wire). by apply packet_deserialize_serialize.
  - cbn. rewrite <- (app_nil_r bs). by apply data_roundtrip.
  - intros r Hsid Hkey Hlt. by eapply open_sealed.
Qed.

(** A queued message reaches the other side, and its entry is pending under the number used. *)
Lemma data_delivery `{!CryptoLaws C} (q : queue) (i : pystr) (e : QueueEntry) (s : Session)
    (now : seconds) :
  dget q i = Some e → qe_status e = QUEUED → length (s_session_id s) = 8 →
  u32 (s_send_sequence s) → (Z.of_nat (length (qe_plaintext e)) + 32 ≤ MAX_PAYLOAD_SIZE)%Z →
  ∃ p wire dp,
    build_data_packet q i s now =
      (dset q i (set_sent (s_send_sequence s) now (set_status PENDING e)),
       set_send_sequence (s_send_sequence s + 1) s, Ok (Some (p, s_send_sequence s))) ∧
    packet_serialize p = Ok wire ∧ packet_deserialize wire = Ok p ∧ pkt_type p = DATA ∧
    data_deserialize (pkt_payload p) = Ok dp ∧
    data_session_id dp = s_session_id s ∧ data_sequence_number dp = s_send_sequence s ∧
    (Z.of_nat (length (pkt_payload p)) ≤ MAX_PAYLOAD_SIZE)%Z ∧
    ∀ r, s_session_id r = s_session_id s → s_encryption_key r = s_encryption_key s →
      (s_recv_sequence r < s_send_sequence s)%Z →
      decrypt_data_packet dp r = (set_recv_sequence (s_send_sequence s) r, Ok (Some (qe_plaintext e))).
Proof.
  intros Hg Hst Hlen Hu Hfit.
  destruct (sealed_delivery (set_send_sequence (s_send_sequence s + 1) s) (s_send_sequence s)
    (qe_plaintext e) Hlen Hu Hfit) as (dp & p & wire & Hs & Hp & H).
  exists p, wire, dp. split; [|done]. unfold build_data_packet. rewrite Hg, Hst.
  rewrite bool_decide_true by done. cbn [negb]. unfold next_sequence. rewrite Hs. by rewrite Hp.
Qed.

(** A message that was sent before, in whatever state it is now, is sealed again by a SYNC. *)
Lemma rebuild_delivery `{!CryptoLaws C} (q : queue) (i : pystr) (e : QueueEntry) (s : Session) (seq : Z)
    (now : seconds) :
  dget q i = Some e → qe_sequence_number e = Some seq → qe_plaintext e ≠ [] →
  length (s_session_id s) = 8 → u32 seq → (Z.of_nat (length (qe_plaintext e)) + 32 ≤ MAX_PAYLOAD_SIZE)%Z →
  ∃ p wire dp,
    rebuild_for_sync q i s now = (dset q i (set_sent seq now e), Ok (Some p)) ∧
    packet_serialize p = Ok wire ∧ packet_deserialize wire = Ok p ∧ pkt_type p = DATA ∧
    data_deserialize (pkt_payload p) = Ok dp ∧
    data_session_id dp = s_session_id s ∧ data_sequence_number dp = seq ∧
    (Z.of_nat (length (pkt_payload p)) ≤ MAX_PAYLOAD_SIZE)%Z ∧
    ∀ r, s_session_id r = s_session_id s → s_encryption_key r = s_encryption_key s →
      (s_recv_sequence r < seq)%Z →
      decrypt_data_packet dp r = (set_recv_sequence seq r, Ok (Some (qe_plaintext e))).
Proof.
  intros Hg Hseq Hne Hlen Hu Hfit.
  destruct (sealed_delivery s seq (qe_plaintext e) Hlen Hu Hfit) as (dp & p & wire & Hs & Hp & H).
  exists p, wire, dp. split; [|done]. unfold rebuild_for_sync. rewrite Hg, Hseq.
  rewrite bool_decide_false by done. rewrite Hs. by rewrite Hp.
Qed.

(** C33: a message is numbered and transmitted at most [MAX_RETRIES] times.  In every run of the queue from empty, whatever
    the interleaving of sends, acknowledgements, synchronisations and timeouts, [build_data_packet] makes at most five DATA
    packets for a message.  All DATA packets for it are these and one at most for each time a SYNC asks for it: the
    packets [rebuild_for_sync] makes are not counted as tries, so only the peer's requests bound them. *)
Theorem transmissions_bounded (ops : list qop) (i : pystr) :
  fresh_ids [] ops →
  (Z.of_nat (length (filter (numbers_msg i) (qrun [] ops).2)) ≤ MAX_RETRIES)%Z ∧
  (Z.of_nat (length (filter (carries_msg i) (qrun [] ops).2))
     ≤ MAX_RETRIES + Z.of_nat (length (filter (resyncs i) ops)))%Z.
Proof.
  intros Hf. pose proof (qrun_tx [] ops i 0 (NoDup_nil_2) Hf eq_refl) as H. cbn in H.
  pose proof (qrun_repeated [] ops i) as Hr.
  assert (Z.of_nat (length (filter (numbers_msg i) (qrun [] ops).2)) ≤ MAX_RETRIES)%Z; [|split; [done|lia]].
  destruct (dget (qrun [] ops).1 i); cbn in *; unfold MAX_RETRIES in *; lia.
Qed.

(** The life cycle of a message.  An operation never drops a message nor changes its receiver or
    plaintext, and changes its status only along QUEUED -> PENDING (send), PENDING -> DELIVERED
    (ACK), DELIVERED -> ACKNOWLEDGED (application ACK), or to QUEUED or FAILED (timeout). *)
Theorem status_changes (q : queue) (op : qop) (i : pystr) (e : QueueEntry) :
  dict_wf q → match op with OpEnqueue j _ _ _ => dget q j = None | _ => True end →
  dget q i = Some e →
  ∃ e', dget (qexec q op).1 i = Some e' ∧ qe_receiver e' = qe_receiver e ∧
    qe_plaintext e' = qe_plaintext e ∧
    (qe_status e' = qe_status e ∨ status_edge op (qe_status e) (qe_status e')).
Proof.
  intros Hwf Hfresh Hg. destruct (qexec_entry_step q op Hwf) as [|j r p now ->|j e0 e' Hj Hr Hp Hu].
  - eauto 10.
  - exists e. rewrite dget_dset_ne by congruence. eauto.
  - rewrite dget_dset. case_decide; [|eauto 10]. subst. rewrite Hg in Hj. simplify_eq.
    exists e'. destruct Hu as [[? _]|[? _]]; eauto 10.
Qed.

(** Which messages time out.  The retry loop picks exactly the pending messages sent more than
    [ACK_TIMEOUT] ago; an entry restored from the database has no send time and is not among them,
    at any time, although it may be pending. *)
Theorem timed_out_iff (q : queue) (now : seconds) (i : pystr) :
  dict_wf q →
  (i ∈ get_timed_out_messages q now ↔
   ∃ e t, dget q i = Some e ∧ qe_status e = PENDING ∧ qe_sent_at e = Some t ∧
     QArith_base.Qlt ACK_TIMEOUT (QArith_base.Qminus now t)) ∧
  (∀ receiver status retries plaintext seq now',
     i ∉ get_timed_out_messages
       (restore_entry q i receiver status retries plaintext seq now') now).
Proof.
  intros Hwf.
  assert (∀ q', dict_wf q' → i ∈ get_timed_out_messages q' now ↔
    ∃ e, dget q' i = Some e ∧ timed_out now e = true) as Hin.
  { intros q' Hwf'. unfold get_timed_out_messages. rewrite list_elem_of_fmap. split.
    - intros ([j e] & -> & [Ht Hj]%list_elem_of_filter). exists e. split; [by apply dget_elem|done].
    - intros (e & Hg & Ht). exists (i, e). split; [done|].
      apply list_elem_of_filter. split; [done|]. by apply dget_Some_elem. }
  split.
  - rewrite (Hin q Hwf). unfold timed_out. split.
    + intros (e & Hg & Ht). bool_hyps. destruct (qe_sent_at e) as [t|] eqn:Es; cbn in *.
      * exists e, t. done.
      * by destruct (ack_timeout_now now).
    + intros (e & t & Hg & Hst & Hs & Hlt). exists e. split; [done|].
      rewrite Hst, Hs. cbn. rewrite bool_decide_true by done. by apply tlt_spec.
  - intros r st n pt seq now'. unfold restore_entry. rewrite (Hin _ (dset_wf _ _ _ Hwf)).
    intros (e & Hg & Ht). rewrite dget_dset_eq in Hg. simplify_eq.
    unfold timed_out in Ht. bool_hyps. by destruct (ack_timeout_now now).
Qed.
End receiving.

(** ** Nonces *)

Section nonces.
Context `{C : CryptoLib}.

(** The packets [build_data_packet] makes under one session object, in call order; between the calls the queue may be
    anything. *)
Fixpoint send_all (s : Session) (calls : list (queue * pystr * seconds)) : list Packet :=
  match calls with
  | [] => []
  | (q, i, now) :: calls =>
      let '(_, s', r) := build_data_packet q i s now in
      match r with Ok (Some (p, _)) => p :: send_all s' calls | _ => send_all s' calls end
  end.

(** The packet is a DATA packet of the session whose ciphertext and tag are the encryption of some text under the
    session's key with this nonce. *)
Definition encrypted_with (s : Session) (p : Packet) (nonce : bytes) : Prop :=
  ∃ seq pt aad ct tag b, encrypt (s_encryption_key s) pt nonce aad = (ct, tag) ∧
    data_serialize (mkData (s_session_id s) seq ct tag) = Ok b ∧ p = mkPacket PROTOCOL_VERSION DATA b.

Lemma build_data_packet_session q i s now :
  s_session_id (build_data_packet q i s now).1.2 = s_session_id s ∧
  (s_send_sequence s ≤ s_send_sequence (build_data_packet q i s now).1.2)%Z ∧
  (∀ x, (build_data_packet q i s now).2 = Ok (Some x) →
     s_send_sequence (build_data_packet q i s now).1.2 = (s_send_sequence s + 1)%Z).
Proof.
  unfold build_data_packet, next_sequence. repeat case_match; cbn; split_and!; (lia || done).
Qed.

Lemma build_data_packet_counters q i s now :
  same_ids s (build_data_packet q i s now).1.2 ∧
  (s_send_sequence s ≤ s_send_sequence (build_data_packet q i s now).1.2)%Z ∧
  s_recv_sequence (build_data_packet q i s now).1.2 = s_recv_sequence s.
Proof.
  unfold build_data_packet, next_sequence, same_ids. repeat case_match; cbn; split_and!; (lia || done).
Qed.

(** The nonce of a packet is built from the session id and the counter. *)
Lemma build_data_packet_nonce q i s now q' s' p seq :
  build_data_packet q i s now = (q', s', Ok (Some (p, seq))) →
  ∃ nonce, encrypted_with s p nonce ∧ build_nonce (s_session_id s) (s_send_sequence s) = Ok nonce.
Proof.
  intros (e & payload & pl & _ & _ & -> & _ & Hseal & Hb & -> & _)%build_data_packet_Some.
  apply seal_data_inv in Hseal as (nonce & aad & ct & tag & Hn & _ & He & ->). exists nonce. split; [|done].
  exists (s_send_sequence s), (qe_plaintext e), aad, ct, tag, pl. done.
Qed.

(** The nonces of later packets come from later numbers. *)
Lemma send_all_nonces s calls :
  ∃ nonces, Forall2 (encrypted_with s) (send_all s calls) nonces ∧ NoDup nonces ∧
    Forall (λ nonce, ∃ n, (s_send_sequence s ≤ n)%Z ∧ build_nonce (s_session_id s) n = Ok nonce) nonces.
Proof.
  revert s. induction calls as [|[[q i] now] calls IH]; intros s; cbn; [exists []; split_and!; constructor|].
  destruct (build_data_packet_session q i s now) as (Hsid & Hle & Hn).
  destruct (build_data_packet_counters q i s now) as ((_ & _ & Hkey) & _).
  destruct (build_data_packet q i s now) as [[q' s'] r] eqn:E. cbn in *.
  destruct (IH s') as (nonces & HF & Hnd & Hall).
  assert (Forall2 (encrypted_with s) (send_all s' calls) nonces) as HF'.
  { eapply Forall2_impl; [exact HF|]. unfold encrypted_with. by rewrite Hsid, Hkey. }
  rewrite Hsid in Hall.
  assert (Forall (λ nonce, ∃ n, (s_send_sequence s ≤ n)%Z ∧ build_nonce (s_session_id s) n = Ok nonce) nonces) as Hall'.
  { eapply Forall_impl; [exact Hall|]. intros nonce (n & Hn' & Hb). exists n. split; [lia|done]. }
  destruct r as [[[p seq]|]|e]; [|by exists nonces..].
  destruct (build_data_packet_nonce _ _ _ _ _ _ _ _ E) as (nonce & Henc & Hb). exists (nonce :: nonces). split_and!.
  - by constructor.
  - apply NoDup_cons. split; [|done]. intros Hin. rewrite Forall_forall in Hall. destruct (Hall _ Hin) as (n & Hge & Hb').
    destruct (build_nonce_inj _ _ _ _ _ Hb Hb') as [_ <-]. specialize (Hn _ eq_refl). lia.
  - constructor; [by exists (s_send_sequence s)|done].
Qed.

(** C14: nonces are not reused by sending.  The packets built under one session, for any messages and with any other
    operations on the queue in between, carry ciphertexts that AES-GCM made under the session's key with pairwise
    different nonces. *)
Theorem build_data_packet_nonces_unique (s : Session) (calls : list (queue * pystr * seconds)) :
  ∃ nonces, Forall2 (encrypted_with s) (send_all s calls) nonces ∧ NoDup nonces.
Proof. destruct (send_all_nonces s calls) as (nonces & H1 & H2 & _). eauto. Qed.

(** The DATA packet for a sealed payload. *)
Definition data_packet (s : Session) (seq : Z) (pt nonce aad : bytes) : result Packet :=
  let '(ct, tag) := encrypt (s_encryption_key s) pt nonce aad in
  make_packet DATA (PData (mkData (s_session_id s) seq ct tag)).

Lemma data_packet_ok `{!CryptoLaws C} s seq pt nonce aad :
  u32 seq → u32 (Z.of_nat (length pt)) → ∃ p, data_packet s seq pt nonce aad = Ok p.
Proof.
  intros Hs Hl. unfold data_packet. destruct (encrypt _ _ _ _) as [ct tag] eqn:E.
  destruct (encrypt_decrypt _ _ _ _ _ _ E) as (_ & _ & Hct).
  unfold make_packet. cbn [payload_serialize]. unfold data_serialize. cbn [data_sequence_number data_ciphertext].
  rewrite !struct_pack_u32 by (done || by rewrite Hct). cbn. eauto.
Qed.

#[local] Arguments encrypt : simpl never.
#[local] Arguments make_packet : simpl never.
#[local] Arguments seal_data : simpl never.
#[local] Arguments be_encode : simpl never.
#[local] Arguments dset : simpl never.
#[local] Arguments rebuild_for_sync : simpl never.
#[local] Arguments build_data_packet : simpl never.

(** Synchronisation reuses nonces.  A message [i] sent under an earlier session is still pending
    when a fresh session [s2] to the same peer is set up and a new message [j] is sent on it; the
    peer's SYNC then makes [rebuild_for_sync] encrypt [i] under [s2] with its old number.  Both
    packets are encrypted with the same key and the same nonce, whatever the plaintexts. *)
Theorem sync_reuses_nonce `{!CryptoLaws C} (i j : pystr) (peer pt_i pt_j sid1 key1 sid2 key2 : bytes) (t : seconds) :
  i ≠ j → pt_i ≠ [] → length sid1 = 8 → length sid2 = 8 →
  u32 (Z.of_nat (length pt_i)) → u32 (Z.of_nat (length pt_j)) →
  ∃ nonce aad p_i p_j,
    let s1 := new_session sid1 key1 peer t in
    let s2 := new_session sid2 key2 peer t in
    let q1 := (build_data_packet (enqueue [] i peer pt_i t) i s1 t).1.1 in
    let '(q2, s2', r_j) := build_data_packet (enqueue q1 j peer pt_j t) j s2 t in
    let '(_, r_i) := rebuild_for_sync q2 i s2' t in
    r_j = Ok (Some (p_j, 1%Z)) ∧ data_packet s2 1 pt_j nonce aad = Ok p_j ∧
    r_i = Ok (Some p_i) ∧ data_packet s2 1 pt_i nonce aad = Ok p_i.
Proof.
  intros Hij Hpt H1 H2 Hli Hlj. assert (u32 1) as Hu by (unfold u32; lia).
  exists (sid2 ++ be_encode 4 1), (be_encode 1 3 ++ be_encode 4 1).
  destruct (data_packet_ok (new_session sid2 key2 peer t) 1 pt_i (sid2 ++ be_encode 4 1)
    (be_encode 1 3 ++ be_encode 4 1) Hu Hli) as [p_i Hpi].
  destruct (data_packet_ok (new_session sid2 key2 peer t) 1 pt_j (sid2 ++ be_encode 4 1)
    (be_encode 1 3 ++ be_encode 4 1) Hu Hlj) as [p_j Hpj].
  exists p_i, p_j. cbv zeta. revert Hpi Hpj. unfold data_packet.
  cbn [s_encryption_key s_session_id new_session].
  assert (∀ sid key pt n, length sid = 8 → seal_data (mkSession sid key peer n 0 t) 1 pt =
    let '(ct, tag) := encrypt key pt (sid ++ be_encode 4 1) (be_encode 1 3 ++ be_encode 4 1) in
    Ok (mkData sid 1 ct tag)) as Hseal.
  { intros sid key pt n Hl. unfold seal_data. rewrite build_nonce_ok, data_aad_ok by done. done. }
  unfold build_data_packet at 2, enqueue at 2. rewrite dget_dset_eq. cbn [qe_status negb].
  rewrite bool_decide_true by done. cbn [negb]. unfold next_sequence, new_session, set_send_sequence.
  cbn. rewrite Hseal by done.
  destruct (encrypt key1 _ _ _) as [ct1 tag1]. cbn.
  unfold build_data_packet, enqueue. rewrite dget_dset_eq. cbn [qe_status].
  rewrite bool_decide_true by done. cbn.
  unfold next_sequence, set_send_sequence. cbn.
  rewrite Hseal by done.
  destruct (encrypt key2 pt_j _ _) as [ctj tagj].
  unfold rebuild_for_sync. rewrite !dget_dset_ne, dget_dset_eq by done.
  cbn. rewrite bool_decide_false by done.
  rewrite Hseal by done. destruct (encrypt key2 pt_i _ _) as [cti tagi].
  intros -> ->. done.
Qed.
End nonces.

(** ** Acknowledgements *)

Lemma handle_ack_unique q a i e :
  dict_wf q → dget q i = Some e → qe_status e = PENDING →
  qe_sequence_number e = Some (ack_sequence_number a) →
  (∀ j e', dget q j = Some e' → qe_status e' = PENDING →
     qe_sequence_number e' = Some (ack_sequence_number a) → j = i) →
  handle_ack q a = (dset q i (set_status DELIVERED e), Some i).
Proof.
  intros Hwf Hg Hst Hseq Huniq. unfold handle_ack.
  destruct (dfind _ q) as [[j e']|] eqn:E.
  - apply dfind_Some in E as [Hin Hp]. bool_hyps. apply dget_elem in Hin; [|done].
    assert (j = i) as -> by eauto. by simplify_eq.
  - rewrite dfind_None in E. specialize (E i e (dget_Some_elem _ _ _ Hg)).
    by rewrite !bool_decide_true in E.
Qed.

(** The acknowledgements of a message move it to the end.  If no other pending message carries
    the number under which [build_data_packet] sent message [i], the ACK for that number marks [i]
    delivered, and the application ACK that follows from its receiver marks it acknowledged,
    provided no other delivered message to that receiver carries the number. *)
Lemma sent_then_settled `{C : CryptoLib} (q : queue) (i : pystr) (s s' : Session)
    (now : seconds) (q' : queue) (p : Packet) (seq : Z) (sid : bytes) :
  dict_wf q →
  build_data_packet q i s now = (q', s', Ok (Some (p, seq))) →
  (∀ j e, dget q j = Some e → qe_sequence_number e = Some seq →
     qe_status e ≠ PENDING ∧ qe_status e ≠ DELIVERED) →
  ∃ e q1, dget q i = Some e ∧
    handle_ack q' (mkAck sid seq) = (q1, Some i) ∧
    get_status q1 i = Some DELIVERED ∧
    (acknowledge_by_sequence q1 (qe_receiver e) seq).2 = Some i ∧
    get_status (acknowledge_by_sequence q1 (qe_receiver e) seq).1 i = Some ACKNOWLEDGED.
Proof.
  intros Hwf Hb Hother.
  apply build_data_packet_Some in Hb as (e & pl & b & Hg & Hst & _ & _ & _ & _ & _ & ->).
  set (e1 := set_sent seq now (set_status PENDING e)).
  assert (handle_ack (dset q i e1) (mkAck sid seq)
    = (dset (dset q i e1) i (set_status DELIVERED e1), Some i)) as Ha.
  { apply handle_ack_unique; [by apply dset_wf|by rewrite dget_dset_eq|done..|].
    intros j e'. rewrite dget_dset. case_decide; [done|]. intros Hj Hp Hs.
    by destruct (Hother j e' Hj Hs). }
  eexists e, _. split; [done|]. split; [exact Ha|].
  split; [by unfold get_status; rewrite dget_dset_eq|].
  destruct (acknowledge_by_sequence _ (qe_receiver e) seq) as [q2 [j|]] eqn:E.
  - apply acknowledge_Some in E as (e2 & Hin & _ & Hd & Hs & ->).
    apply dget_elem in Hin; [|by do 2 apply dset_wf].
    destruct (decide (j = i)) as [->|Hne].
    + cbn. split; [done|]. unfold get_status. by rewrite dget_dset_eq.
    + rewrite !dget_dset_ne in Hin by done. by destruct (Hother j e2 Hin Hs).
  - exfalso. revert E. unfold acknowledge_by_sequence.
    destruct (dfind _ _) as [[]|] eqn:E; [done|]. intros _.
    rewrite dfind_None in E. specialize (E i (set_status DELIVERED e1)).
    rewrite !bool_decide_true in E by done. discriminate E.
    apply dget_Some_elem. by rewrite dget_dset_eq.
Qed.

(** ** Witnesses *)

Module QueueExample.
Import ToyCrypto.
Definition peer_a : bytes := be_encode 32 10.
Definition peer_b : bytes := be_encode 32 11.
Definition session_a : Session := new_session (be_encode 8 1) (be_encode 32 5) peer_a (secs 0).
Definition session_b : Session := new_session (be_encode 8 2) (be_encode 32 6) peer_b (secs 0).
Definition msg1 : pystr := str "m1".
Definition msg2 : pystr := str "m2".
Definition hi : bytes := bytes_of_string "hi".
Definition q1 : queue := enqueue [] msg1 peer_a hi (secs 0).

(** Five sends of one message, each followed by a timeout; a sixth send does nothing, but a SYNC has it sent again. *)
Definition retry_ops : list qop :=
  OpEnqueue msg1 peer_a hi (secs 0)
  :: mjoin (replicate 6 [OpSend msg1 session_a (secs 1); OpTimeout msg1]) ++ [OpResync msg1 session_a (secs 2)].

Lemma transmissions_bounded_witness :
  length (filter (numbers_msg msg1) (qrun [] retry_ops).2) = 5 ∧
  length (filter (carries_msg msg1) (qrun [] retry_ops).2) = 6 ∧
  (Z.of_nat (length (filter (carries_msg msg1) (qrun [] retry_ops).2)) ≤ MAX_RETRIES + 1)%Z.
Proof.
  split; [vm_compute; reflexivity|]. split; [vm_compute; reflexivity|]. apply (transmissions_bounded retry_ops msg1).
  repeat split; reflexivity.
Defined.

Lemma status_changes_witness :
  ∃ e', dget (qexec q1 (OpSend msg1 session_a (secs 1))).1 msg1 = Some e' ∧
    qe_receiver e' = peer_a ∧ qe_plaintext e' = hi ∧
    (qe_status e' = QUEUED ∨
     status_edge (OpSend msg1 session_a (secs 1)) QUEUED (qe_status e')).
Proof.
  apply (status_changes q1 (OpSend msg1 session_a (secs 1)) msg1
           (mkEntry peer_a QUEUED 0 hi (secs 0) None None)).
  - repeat constructor. set_solver.
  - exact I.
  - reflexivity.
Defined.

Lemma timed_out_iff_witness :
  let q := (build_data_packet q1 msg1 session_a (secs 1)).1.1 in
  msg1 ∈ get_timed_out_messages q (secs 32) ∧
  msg1 ∉ get_timed_out_messages (restore_entry q msg1 peer_a (str "pending") 0 hi (Some 1%Z) (secs 2))
           (secs 1000).
Proof.
  split.
  - apply timed_out_iff.
    + vm_compute. repeat constructor. set_solver.
    + eexists _, _. split; [vm_compute; reflexivity|]. repeat split.
  - apply (timed_out_iff (build_data_packet q1 msg1 session_a (secs 1)).1.1 (secs 1000) msg1).
    vm_compute. repeat constructor. set_solver.
Defined.

Lemma sync_reuses_nonce_witness :
  ∃ nonce aad p_i p_j,
    let q1 := (build_data_packet (enqueue [] msg1 peer_a hi (secs 0)) msg1
                 (new_session (be_encode 8 1) (be_encode 32 5) peer_a (secs 0)) (secs 0)).1.1 in
    let s2 := new_session (be_encode 8 2) (be_encode 32 6) peer_a (secs 0) in
    let '(q2, s2', r_j) := build_data_packet (enqueue q1 msg2 peer_a hi (secs 0)) msg2 s2 (secs 0) in
    let '(_, r_i) := rebuild_for_sync q2 msg1 s2' (secs 0) in
    r_j = Ok (Some (p_j, 1%Z)) ∧ data_packet s2 1 hi nonce aad = Ok p_j ∧
    r_i = Ok (Some p_i) ∧ data_packet s2 1 hi nonce aad = Ok p_i.
Proof.
  apply (sync_reuses_nonce msg1 msg2 peer_a hi hi (be_encode 8 1) (be_encode 32 5)
           (be_encode 8 2) (be_encode 32 6) (secs 0)).
  - discriminate.
  - discriminate.
  - reflexivity.
  - reflexivity.
  - vm_compute. split; [discriminate|reflexivity].
  - vm_compute. split; [discriminate|reflexivity].
Defined.

(** An ACK can settle another peer's message.  [handle_ack] looks only at the sequence number:
    with one message pending to each of two peers, both sent as number 1 of their own session, the
    ACK that belongs to the second peer's session marks the first peer's message delivered and
    leaves the second's pending. *)
Theorem ack_settles_other_peer :
  let q2 := (build_data_packet q1 msg1 session_a (secs 1)).1.1 in
  let q3 := enqueue q2 msg2 peer_b hi (secs 2) in
  let q4 := (build_data_packet q3 msg2 session_b (secs 2)).1.1 in
  ∃ q5, handle_ack q4 (mkAck (s_session_id session_b) 1) = (q5, Some msg1) ∧
    get_status q5 msg1 = Some DELIVERED ∧ get_status q5 msg2 = Some PENDING ∧
    qe_receiver <$> dget q5 msg1 = Some peer_a ∧ qe_receiver <$> dget q5 msg2 = Some peer_b.
Proof. eexists. vm_compute. repeat split. Qed.
End QueueExample.
