(* ===== verification/PeerState.v ===== *)
(** * Peer connection states (peer_state.py)

    The transition table, the state machine of one peer and the manager of all of them.  A callback
    is named by a number; calling it is an event [(callback, peer, old, new)] (an exception of a
    callback is logged and ignored, so it has no effect on the manager). *)

From S2P Require Import Prelude Bytes PyDict PyText.

Inductive PeerState :=
| DISCONNECTED | CONNECTING | CONNECTED | IDLE | SUSPECT | RESOLVING | FAILED | ARCHIVED.

#[export] Instance PeerState_eq_dec : EqDecision PeerState.
Proof. solve_decision. Defined.

Definition peer_state_value (s : PeerState) : pystr :=
  match s with
  | DISCONNECTED => str "disconnected" | CONNECTING => str "connecting"
  | CONNECTED => str "connected" | IDLE => str "idle" | SUSPECT => str "suspect"
  | RESOLVING => str "resolving" | FAILED => str "failed" | ARCHIVED => str "archived"
  end.

Definition VALID_TRANSITIONS (s : PeerState) : list PeerState :=
  match s with
  | DISCONNECTED => [CONNECTING; RESOLVING; ARCHIVED]
  | CONNECTING => [CONNECTED; DISCONNECTED]
  | CONNECTED => [IDLE; DISCONNECTED]
  | IDLE => [SUSPECT; CONNECTED; DISCONNECTED]
  | SUSPECT => [DISCONNECTED; CONNECTED]
  | RESOLVING => [CONNECTING; FAILED]
  | FAILED => [DISCONNECTED; RESOLVING]
  | ARCHIVED => [CONNECTING; RESOLVING]
  end.

Definition ARCHIVE_THRESHOLD : seconds := secs (7 * 24 * 3600).

(** ** PeerStateMachine *)

Record PeerStateMachine := mkMachine { m_state : PeerState; m_last_change : seconds }.

Definition time_in_state (m : PeerStateMachine) (now : seconds) : seconds :=
  tsub now (m_last_change m).

(** [transition(new_state)]: the old state and the machine afterwards *)
Definition transition (m : PeerStateMachine) (new_state : PeerState) (now : seconds)
    : result (PeerState * PeerStateMachine) :=
  if negb (new_state ∈?b VALID_TRANSITIONS (m_state m)) then Raise ValueError else
  Ok (m_state m, mkMachine new_state now).

Definition machine_should_archive (m : PeerStateMachine) (now : seconds) : bool :=
  (m_state m =?b DISCONNECTED) && tlt ARCHIVE_THRESHOLD (time_in_state m now).

(** ** PeerStateManager *)

Record PeerStateManager := mkManager {
  psm_machines : dict bytes PeerStateMachine;
  psm_callbacks : list nat }.

Record state_event := mkStateEvent {
  ev_callback : nat; ev_peer : bytes; ev_old : PeerState; ev_new : PeerState }.

Definition on_state_change (mgr : PeerStateManager) (callback : nat) : PeerStateManager :=
  mkManager (psm_machines mgr) (psm_callbacks mgr ++ [callback]).

Definition get_state (mgr : PeerStateManager) (peer_id : bytes) : PeerState :=
  match dget (psm_machines mgr) peer_id with
  | None => DISCONNECTED
  | Some m => m_state m
  end.

Definition ensure_machine (mgr : PeerStateManager) (peer_id : bytes) (initial : PeerState)
    (now : seconds) : PeerStateManager * PeerStateMachine :=
  match dget (psm_machines mgr) peer_id with
  | Some m => (mgr, m)
  | None =>
      let m := mkMachine initial now in
      (mkManager (dset (psm_machines mgr) peer_id m) (psm_callbacks mgr), m)
  end.

(** [update_state]: the manager afterwards, also when it raises, and the callbacks called *)
Definition update_state (mgr : PeerStateManager) (peer_id : bytes) (new_state : PeerState)
    (now : seconds) : PeerStateManager * result (list state_event) :=
  let '(mgr1, machine) := ensure_machine mgr peer_id DISCONNECTED now in
  match transition machine new_state now with
  | Raise e => (mgr1, Raise e)
  | Ok (old, machine') =>
      (mkManager (dset (psm_machines mgr1) peer_id machine') (psm_callbacks mgr1),
       Ok ((λ cb, mkStateEvent cb peer_id old new_state) <$> psm_callbacks mgr1))
  end.

Definition all_peers (mgr : PeerStateManager) : dict bytes PeerState :=
  prod_map id m_state <$> psm_machines mgr.

(** ** Lemmas *)

Lemma ensure_machine_state mgr pid now :
  m_state (ensure_machine mgr pid DISCONNECTED now).2 = get_state mgr pid.
Proof. unfold ensure_machine, get_state. by destruct (dget _ pid). Qed.

Lemma ensure_machine_get mgr pid now j :
  get_state (ensure_machine mgr pid DISCONNECTED now).1 j = get_state mgr j.
Proof.
  unfold ensure_machine, get_state. destruct (dget _ pid) eqn:E; cbn; [done|].
  rewrite dget_dset. case_decide; [|done]. subst. by rewrite E.
Qed.

Lemma ensure_machine_callbacks mgr pid now :
  psm_callbacks (ensure_machine mgr pid DISCONNECTED now).1 = psm_callbacks mgr.
Proof. unfold ensure_machine. by destruct (dget _ pid). Qed.

Lemma update_state_ok mgr pid st now :
  st ∈ VALID_TRANSITIONS (get_state mgr pid) →
  ∃ mgr', update_state mgr pid st now =
      (mgr', Ok ((λ cb, mkStateEvent cb pid (get_state mgr pid) st) <$> psm_callbacks mgr)) ∧
    psm_callbacks mgr' = psm_callbacks mgr ∧
    ∀ j, get_state mgr' j = if decide (j = pid) then st else get_state mgr j.
Proof.
  intros Hin. unfold update_state.
  pose proof (ensure_machine_state mgr pid now) as Hs.
  pose proof (ensure_machine_get mgr pid now) as Hg.
  pose proof (ensure_machine_callbacks mgr pid now) as Hc.
  destruct (ensure_machine _ _ _ _) as [mgr1 m]. cbn in *. unfold transition.
  rewrite Hs, bool_decide_true by done. cbn. eexists. rewrite Hc. split; [done|]. split; [done|].
  intros j. unfold get_state at 1. cbn. rewrite dget_dset. case_decide; [done|].
  specialize (Hg j). unfold get_state in Hg at 1. done.
Qed.

Lemma update_state_error mgr pid st now :
  st ∉ VALID_TRANSITIONS (get_state mgr pid) →
  ∃ mgr', update_state mgr pid st now = (mgr', Raise ValueError) ∧
    psm_callbacks mgr' = psm_callbacks mgr ∧ ∀ j, get_state mgr' j = get_state mgr j.
Proof.
  intros Hin. unfold update_state.
  pose proof (ensure_machine_state mgr pid now) as Hs.
  pose proof (ensure_machine_get mgr pid now) as Hg.
  pose proof (ensure_machine_callbacks mgr pid now) as Hc.
  destruct (ensure_machine _ _ _ _) as [mgr1 m]. cbn in *. unfold transition.
  rewrite Hs, bool_decide_false by done. cbn. eauto.
Qed.

(** ** Properties *)

(** [update_state] follows the table and is all or nothing.  A transition in the table sets
    that peer's state, leaves every other peer's alone and tells each callback once, in order, the
    old and the new state; any other raises [ValueError], calls nobody and changes no peer's
    state. *)
Theorem update_state_spec (mgr : PeerStateManager) (pid : bytes) (st : PeerState) (now : seconds) :
  let '(mgr', r) := update_state mgr pid st now in
  psm_callbacks mgr' = psm_callbacks mgr ∧
  if bool_decide (st ∈ VALID_TRANSITIONS (get_state mgr pid)) then
    r = Ok ((λ cb, mkStateEvent cb pid (get_state mgr pid) st) <$> psm_callbacks mgr) ∧
    (∀ j, get_state mgr' j = if decide (j = pid) then st else get_state mgr j)
  else r = Raise ValueError ∧ (∀ j, get_state mgr' j = get_state mgr j).
Proof.
  case_bool_decide as E.
  - destruct (update_state_ok mgr pid st now E) as (mgr' & -> & Hc & Hg). done.
  - destruct (update_state_error mgr pid st now E) as (mgr' & -> & Hc & Hg). done.
Qed.

(** States reached by successful transitions. *)
Inductive reaches : PeerState → PeerState → Prop :=
| reaches_refl s : reaches s s
| reaches_step s t u : t ∈ VALID_TRANSITIONS s → reaches t u → reaches s u.

(** A walk of valid transitions. *)
Fixpoint valid_walk (s : PeerState) (l : list PeerState) : bool :=
  match l with [] => true | t :: l => bool_decide (t ∈ VALID_TRANSITIONS s) && valid_walk t l end.

Fixpoint walk_end (s : PeerState) (l : list PeerState) : PeerState :=
  match l with [] => s | t :: l => walk_end t l end.

Lemma valid_walk_reaches s l : valid_walk s l = true → reaches s (walk_end s l).
Proof.
  revert s. induction l as [|t l IH]; intros s; cbn; [constructor|]. intros H. bool_hyps.
  eapply reaches_step; [done|]. by apply IH.
Qed.

(** How a peer gets connected again from each state. *)
Definition connect_walk (s : PeerState) : list PeerState :=
  match s with
  | DISCONNECTED | ARCHIVED | RESOLVING => [CONNECTING; CONNECTED]
  | CONNECTING | IDLE | SUSPECT => [CONNECTED]
  | FAILED => [RESOLVING; CONNECTING; CONNECTED]
  | CONNECTED => []
  end.

(** No peer is stuck.  From every state some sequence of valid transitions leads to CONNECTED and
    one leads to DISCONNECTED, and ARCHIVED is entered only from DISCONNECTED and SUSPECT only from
    IDLE, itself entered only from CONNECTED. *)
Theorem transitions_live (s : PeerState) :
  reaches s CONNECTED ∧ reaches s DISCONNECTED ∧
  (ARCHIVED ∈ VALID_TRANSITIONS s → s = DISCONNECTED) ∧
  (SUSPECT ∈ VALID_TRANSITIONS s → s = IDLE) ∧ (IDLE ∈ VALID_TRANSITIONS s → s = CONNECTED).
Proof.
  assert (walk_end s (connect_walk s) = CONNECTED ∧ valid_walk s (connect_walk s) = true)
    as [He Hw] by (by destruct s).
  assert (reaches s CONNECTED) as Hc by (rewrite <- He; by apply valid_walk_reaches).
  split; [done|]. split.
  - replace DISCONNECTED with (walk_end s (connect_walk s ++ [DISCONNECTED])) by (by destruct s).
    apply valid_walk_reaches. by destruct s.
  - destruct s; cbn; set_solver.
Qed.
