(* ===== verification/RateLimiter.v ===== *)
(** * Rate limiting (rate_limiter.py)

    Token buckets, the per-peer limiter and the global limiter.  Tokens, rates and clock readings
    are rationals.  [time.monotonic()] is an argument; the bounds assume only that its readings do
    not decrease. *)

From S2P Require Import Prelude Bytes PyDict Packet.
From Stdlib Require Import QArith Lqa.

#[local] Open Scope Q_scope.

(** ** TokenBucket *)

Record TokenBucket := mkBucket {
  tb_rate : Q; tb_capacity : Z; tb_tokens : Q; tb_last_refill : seconds }.

(** [TokenBucket(rate, capacity)] at time [now] *)
Definition new_bucket (rate : Q) (capacity : Z) (now : seconds) : TokenBucket :=
  mkBucket rate capacity (inject_Z capacity) now.

(** Python's [min(a, b)]: [b] if it is smaller, otherwise [a] *)
Definition py_min (a b : Q) : Q := if tlt b a then b else a.

Definition refill (b : TokenBucket) (now : seconds) : TokenBucket :=
  let elapsed := tsub now (tb_last_refill b) in
  mkBucket (tb_rate b) (tb_capacity b)
    (py_min (inject_Z (tb_capacity b)) (tb_tokens b + elapsed * tb_rate b)) now.

(** [consume(tokens)] *)
Definition consume (b : TokenBucket) (tokens : Z) (now : seconds) : TokenBucket * bool :=
  let b1 := refill b now in
  if tle (inject_Z tokens) (tb_tokens b1) then
    (mkBucket (tb_rate b1) (tb_capacity b1) (tb_tokens b1 - inject_Z tokens) (tb_last_refill b1), true)
  else (b1, false).

(** ** PeerRateLimiter *)

Definition PEER_LIMITS (t : PacketType) : option (Q * Z) :=
  match t with
  | RESOLVE_REQUEST => Some (10 / 60, 10%Z)
  | ENDPOINT_UPDATE => Some (20 / 60, 20%Z)
  | DATA => Some (100, 100%Z)
  | _ => None
  end.

Definition PeerRateLimiter : Type := dict bytes (dict PacketType TokenBucket).

(** [check(peer_id, packet_type)]; [self._buckets] is a [defaultdict(dict)] *)
Definition check (rl : PeerRateLimiter) (peer_id : bytes) (packet_type : PacketType) (now : seconds)
    : PeerRateLimiter * bool :=
  match PEER_LIMITS packet_type with
  | None => (rl, true)
  | Some (rate, cap) =>
      let peer_buckets := default [] (dget rl peer_id) in
      let bucket := default (new_bucket rate cap now) (dget peer_buckets packet_type) in
      let '(bucket', ok) := consume bucket 1 now in
      (dset rl peer_id (dset peer_buckets packet_type bucket'), ok)
  end.

(** ** GlobalRateLimiter *)

Definition new_global_limiter (now : seconds) : TokenBucket := new_bucket (50 / 60) 50 now.

Definition check_resolve_forward (b : TokenBucket) (now : seconds) : TokenBucket * bool :=
  consume b 1 now.

(** ** The bucket invariant *)

Definition bucket_ok (b : TokenBucket) : Prop :=
  0 <= tb_rate b ∧ 0 <= tb_tokens b ∧ tb_tokens b <= inject_Z (tb_capacity b).

Lemma py_min_le_l a b : py_min a b <= a.
Proof. unfold py_min. destruct (tlt b a) eqn:E; bool_hyps; lra. Qed.

Lemma py_min_le_r a b : py_min a b <= b.
Proof. unfold py_min. destruct (tlt b a) eqn:E; bool_hyps; lra. Qed.

Lemma py_min_glb a b c : c <= a → c <= b → c <= py_min a b.
Proof. unfold py_min. destruct (tlt b a) eqn:E; bool_hyps; lra. Qed.

Lemma elapsed_gain b now :
  bucket_ok b → tb_last_refill b <= now → 0 <= tsub now (tb_last_refill b) * tb_rate b.
Proof.
  intros (Hr & _) Hn. apply Qmult_le_0_compat; [unfold tsub; lra | done].
Qed.

Lemma refill_ok b now : bucket_ok b → tb_last_refill b <= now → bucket_ok (refill b now).
Proof.
  intros Hb Hn. pose proof (elapsed_gain b now Hb Hn) as He. destruct Hb as (Hr & H0 & Hc).
  unfold bucket_ok, refill. cbn. split_and!; [done| |apply py_min_le_l].
  apply py_min_glb; lra.
Qed.

Lemma consume_ok b n now :
  (0 <= n)%Z → bucket_ok b → tb_last_refill b <= now → bucket_ok (consume b n now).1.
Proof.
  intros Hn Hb Ht. pose proof (refill_ok b now Hb Ht) as Hb1. unfold consume.
  destruct (tle _ _) eqn:E; [|done]. bool_hyps. destruct Hb1 as (Hr & H0 & Hc).
  rewrite Zle_Qle in Hn. unfold bucket_ok. cbn [fst tb_rate tb_tokens tb_capacity]. change (inject_Z 0) with 0 in Hn.
  split_and!; lra.
Qed.

Lemma consume_fields b n now :
  tb_rate (consume b n now).1 = tb_rate b ∧ tb_capacity (consume b n now).1 = tb_capacity b ∧
  tb_last_refill (consume b n now).1 = now.
Proof. unfold consume, refill. by destruct (tle _ _). Qed.

(** What one request costs: tokens spent are tokens that were there or flowed in. *)
Lemma consume_balance b now :
  bucket_ok b → tb_last_refill b <= now →
  tb_tokens (consume b 1 now).1 + (if (consume b 1 now).2 then 1 else 0)
    <= tb_tokens b + tsub now (tb_last_refill b) * tb_rate b.
Proof.
  intros Hb Ht.
  pose proof (py_min_le_r (inject_Z (tb_capacity b))
    (tb_tokens b + tsub now (tb_last_refill b) * tb_rate b)) as Hm.
  unfold consume, refill. change (inject_Z 1) with 1.
  destruct (tle _ _); cbn [fst snd tb_tokens tb_rate tb_capacity tb_last_refill] in *; lra.
Qed.

(** ** Runs of the per-peer limiter *)

(** The bucket of [pid] and [t], if it exists. *)
Definition bucket_of (rl : PeerRateLimiter) (pid : bytes) (t : PacketType) : option TokenBucket :=
  d ← dget rl pid; dget d t.

(** The requests of peer [pid] and type [t] that are allowed, among requests of anybody. *)
Fixpoint allowed (rl : PeerRateLimiter) (reqs : list (bytes * PacketType * seconds)) (pid : bytes)
    (t : PacketType) : nat :=
  match reqs with
  | [] => 0
  | (p, ty, now) :: reqs =>
      let '(rl', ok) := check rl p ty now in
      (if bool_decide (p = pid ∧ ty = t) && ok then 1 else 0) + allowed rl' reqs pid t
  end.

(** Readings of the monotonic clock, all between [lo] and [hi]. *)
Fixpoint monotonic (lo hi : seconds) (reqs : list (bytes * PacketType * seconds)) : Prop :=
  match reqs with
  | [] => lo <= hi
  | (_, now) :: reqs => lo <= now ∧ monotonic now hi reqs
  end.

Lemma monotonic_le lo hi reqs : monotonic lo hi reqs → lo <= hi.
Proof.
  revert lo. induction reqs as [|[x now] reqs IH]; intros lo; cbn; [done|].
  intros [H1 H2%IH]. lra.
Qed.

Lemma bucket_of_check rl p ty now pid t :
  (p, ty) ≠ (pid, t) → bucket_of (check rl p ty now).1 pid t = bucket_of rl pid t.
Proof.
  intros Hne. unfold check, bucket_of. destruct (PEER_LIMITS ty) as [[r c]|]; [|done].
  destruct (consume _ _ _) as [b ok]. cbn [fst]. rewrite dget_dset. case_decide as E; [|done].
  subst. cbn. rewrite dget_dset_ne by congruence. by destruct (dget rl p).
Qed.

#[local] Arguments dset : simpl never.
#[local] Arguments dget : simpl never.
#[local] Arguments consume : simpl never.

Lemma bucket_of_check_same rl pid t now rate cap :
  PEER_LIMITS t = Some (rate, cap) →
  let b := default (new_bucket rate cap now) (bucket_of rl pid t) in
  bucket_of (check rl pid t now).1 pid t = Some (consume b 1 now).1 ∧
  (check rl pid t now).2 = (consume b 1 now).2.
Proof.
  intros Hl. unfold check, bucket_of. rewrite Hl. cbn zeta.
  destruct (dget rl pid) as [d|] eqn:Ed; cbn.
  - destruct (consume _ _ _) as [b' ok]. cbn. rewrite dget_dset_eq. cbn. by rewrite dget_dset_eq.
  - destruct (consume _ _ _) as [b' ok]. cbn. rewrite dget_dset_eq. cbn. by rewrite dget_dset_eq.
Qed.

(** A limiter whose buckets are as [check] makes them, last used no later than [lo]. *)
Definition limiter_ok (rl : PeerRateLimiter) (lo : seconds) : Prop :=
  ∀ pid t b, bucket_of rl pid t = Some b →
    bucket_ok b ∧ PEER_LIMITS t = Some (tb_rate b, tb_capacity b) ∧ tb_last_refill b <= lo.

Lemma limits_nonneg t rate cap : PEER_LIMITS t = Some (rate, cap) → 0 <= rate ∧ 1 <= inject_Z cap.
Proof. destruct t; intros [= <- <-]; split; unfold Qle; cbn; lia. Qed.

Lemma new_bucket_ok t rate cap now :
  PEER_LIMITS t = Some (rate, cap) → bucket_ok (new_bucket rate cap now).
Proof.
  intros [Hr Hc]%limits_nonneg. unfold bucket_ok, new_bucket. cbn [tb_rate tb_tokens tb_capacity].
  split_and!; lra.
Qed.

Lemma current_bucket_ok rl lo pid t rate cap now :
  limiter_ok rl lo → lo <= now → PEER_LIMITS t = Some (rate, cap) →
  let b := default (new_bucket rate cap now) (bucket_of rl pid t) in
  bucket_ok b ∧ tb_rate b = rate ∧ tb_capacity b = cap ∧ tb_last_refill b <= now.
Proof.
  intros Hrl Hn Hl. destruct (bucket_of rl pid t) as [b|] eqn:E; cbn.
  - destruct (Hrl _ _ _ E) as (Hb & Hl' & Ht). rewrite Hl in Hl'. simplify_eq.
    split_and!; [done..|lra].
  - split; [by eapply new_bucket_ok|]. cbn. split_and!; [done..|lra].
Qed.

Lemma check_limiter_ok rl lo p ty now :
  limiter_ok rl lo → lo <= now → limiter_ok (check rl p ty now).1 now.
Proof.
  intros Hrl Hn pid t b Hb. destruct (decide ((p, ty) = (pid, t))) as [[= -> ->]|Hne].
  - destruct (PEER_LIMITS t) as [[rate cap]|] eqn:Hl.
    + destruct (bucket_of_check_same rl pid t now rate cap Hl) as [Hb' _].
      rewrite Hb' in Hb. simplify_eq.
      destruct (current_bucket_ok rl lo pid t rate cap now Hrl Hn Hl) as (Hok & Hr & Hc & Ht).
      destruct (consume_fields (default (new_bucket rate cap now) (bucket_of rl pid t)) 1 now)
        as (Er & Ec & El).
      rewrite Er, Ec, El, Hr, Hc. split_and!; [by apply consume_ok|done|lra].
    + revert Hb. unfold check. rewrite Hl. intros Hb%Hrl. destruct Hb as (_ & Hb & _). congruence.
  - rewrite bucket_of_check in Hb by done. destruct (Hrl _ _ _ Hb) as (? & ? & ?).
    split_and!; [done..|lra].
Qed.

(** The tokens peer [pid] could spend at time [lo]. *)
Definition credit (rl : PeerRateLimiter) (pid : bytes) (t : PacketType) (rate : Q) (cap : Z)
    (lo : seconds) : Q :=
  match bucket_of rl pid t with
  | None => inject_Z cap
  | Some b => py_min (inject_Z cap) (tb_tokens b + (lo - tb_last_refill b) * rate)
  end.

Lemma credit_le_cap rl pid t rate cap lo : credit rl pid t rate cap lo <= inject_Z cap.
Proof. unfold credit. destruct (bucket_of _ _ _); [apply py_min_le_l|lra]. Qed.

(** Waiting until [now] adds at most the tokens that flow in meanwhile. *)
Lemma credit_wait rl pid t rate cap lo now :
  0 <= rate → lo <= now →
  credit rl pid t rate cap now <= credit rl pid t rate cap lo + (now - lo) * rate.
Proof.
  intros Hr Hn. assert (0 <= (now - lo) * rate) as Hg by (apply Qmult_le_0_compat; lra).
  unfold credit. destruct (bucket_of _ _ _) as [b|]; [|lra].
  unfold py_min. destruct (tlt _ _) eqn:E1, (tlt (_ + (lo - _) * _) _) eqn:E2; bool_hyps; lra.
Qed.

Lemma consume_credit b now rate cap :
  tb_rate b = rate → tb_capacity b = cap →
  py_min (inject_Z cap) (tb_tokens (consume b 1 now).1 + (now - now) * rate)
    + (if (consume b 1 now).2 then 1 else 0)
  <= py_min (inject_Z cap) (tb_tokens b + (now - tb_last_refill b) * rate).
Proof.
  intros Hr Hc. unfold consume, refill. rewrite Hr, Hc. change (inject_Z 1) with 1. unfold tsub.
  set (m := py_min (inject_Z cap) (tb_tokens b + (now - tb_last_refill b) * rate)).
  destruct (tle 1 _) eqn:E; cbn [fst snd tb_tokens tb_last_refill].
  - pose proof (py_min_le_r (inject_Z cap) (m - 1 + (now - now) * rate)). lra.
  - pose proof (py_min_le_r (inject_Z cap) (m + (now - now) * rate)). lra.
Qed.

Lemma credit_spend rl lo pid t rate cap now :
  limiter_ok rl lo → lo <= now → PEER_LIMITS t = Some (rate, cap) →
  credit (check rl pid t now).1 pid t rate cap now
    + (if (check rl pid t now).2 then 1 else 0) <= credit rl pid t rate cap now.
Proof.
  intros Hrl Hn Hl. destruct (bucket_of_check_same rl pid t now rate cap Hl) as [Hb Hok].
  destruct (current_bucket_ok rl lo pid t rate cap now Hrl Hn Hl) as (_ & Hr & Hc & _).
  pose proof (consume_credit _ now _ _ Hr Hc) as Hs.
  destruct (consume_fields (default (new_bucket rate cap now) (bucket_of rl pid t)) 1 now)
    as (_ & _ & El).
  unfold credit. rewrite Hb, Hok, El.
  destruct (bucket_of rl pid t) as [b|]; cbn [default from_option id] in *; [done|].
  pose proof (py_min_le_l (inject_Z cap) (tb_tokens (new_bucket rate cap now)
    + (now - tb_last_refill (new_bucket rate cap now)) * rate)). lra.
Qed.

Lemma inject_S n : inject_Z (Z.of_nat (S n)) == 1 + inject_Z (Z.of_nat n).
Proof. rewrite Nat2Z.inj_succ, <- Z.add_1_l, inject_Z_plus. reflexivity. Qed.

Lemma allowed_credit rl reqs pid t rate cap lo hi :
  PEER_LIMITS t = Some (rate, cap) → limiter_ok rl lo → monotonic lo hi reqs →
  inject_Z (Z.of_nat (allowed rl reqs pid t)) <= credit rl pid t rate cap lo + (hi - lo) * rate.
Proof.
  intros Hl. destruct (limits_nonneg _ _ _ Hl) as [Hr Hcap].
  revert rl lo. induction reqs as [|[[p ty] now] reqs IH]; intros rl lo Hrl Hm.
  - cbn [allowed monotonic] in *. change (inject_Z (Z.of_nat 0)) with 0.
    assert (0 <= (hi - lo) * rate) by (apply Qmult_le_0_compat; lra).
    unfold credit. destruct (bucket_of rl pid t) as [b|] eqn:E; [|lra].
    destruct (Hrl _ _ _ E) as ((_ & H0 & _) & _ & Ht).
    assert (0 <= (lo - tb_last_refill b) * rate) by (apply Qmult_le_0_compat; lra).
    pose proof (py_min_glb (inject_Z cap) (tb_tokens b + (lo - tb_last_refill b) * rate) 0). lra.
  - destruct Hm as [Hn Hm]. cbn [allowed].
    pose proof (check_limiter_ok rl lo p ty now Hrl Hn) as Hrl'.
    pose proof (credit_wait rl pid t rate cap lo now Hr Hn) as Hw.
    assert (credit (check rl p ty now).1 pid t rate cap now
      + (if bool_decide (p = pid ∧ ty = t) && (check rl p ty now).2 then 1 else 0)
      <= credit rl pid t rate cap now) as Hs.
    { case_bool_decide as E; cbn [andb].
      - destruct E as [-> ->]. by eapply credit_spend.
      - unfold credit. rewrite bucket_of_check by naive_solver. lra. }
    destruct (check rl p ty now) as [rl' ok]. cbn [fst snd] in *.
    specialize (IH rl' now Hrl' Hm). destruct (_ && ok); cbn [Nat.add]; rewrite ?inject_S; lra.
Qed.

(** The limiter after a run. *)
Definition run_checks (rl : PeerRateLimiter) (reqs : list (bytes * PacketType * seconds))
    : PeerRateLimiter := foldl (λ rl '(p, ty, now), (check rl p ty now).1) rl reqs.

Lemma run_checks_ok rl reqs lo hi :
  limiter_ok rl lo → monotonic lo hi reqs → limiter_ok (run_checks rl reqs) hi.
Proof.
  revert rl lo. induction reqs as [|[[p ty] now] reqs IH]; intros rl lo Hrl Hm; cbn in *.
  - intros pid t b Hb. destruct (Hrl _ _ _ Hb) as (? & ? & ?). split_and!; [done..|lra].
  - destruct Hm as [Hn Hm]. eapply IH; [|done]. by eapply check_limiter_ok.
Qed.

(** ** Properties *)

(** The advertised limits hold.  In every run of the limiter from its creation, with requests of
    any peers and types interleaved, the requests of one peer and one limited type that are allowed
    within any window of the run number at most the burst capacity plus the rate times the length of
    the window. *)
Theorem peer_rate_bound (before window : list (bytes * PacketType * seconds)) (pid : bytes)
    (t : PacketType) (rate : Q) (cap : Z) (t0 lo hi : seconds) :
  PEER_LIMITS t = Some (rate, cap) → monotonic t0 lo before → monotonic lo hi window →
  inject_Z (Z.of_nat (allowed (run_checks [] before) window pid t))
    <= inject_Z cap + (hi - lo) * rate.
Proof.
  intros Hl Hb Hw. pose proof (credit_le_cap (run_checks [] before) pid t rate cap lo).
  assert (limiter_ok (run_checks [] before) lo) as Hok by (by eapply (run_checks_ok [])).
  pose proof (allowed_credit _ window pid t rate cap lo hi Hl Hok Hw). lra.
Qed.

(** A well-behaved peer is served, whatever the others do.  A request of a limited type is allowed
    when the peer's bucket of that type is new or has not been touched for the time one token takes
    to flow in; requests of other peers or of other types change nothing for it; types without a
    limit are always allowed. *)
Theorem paced_peer_served (rl : PeerRateLimiter) (pid : bytes) (t : PacketType) (lo now : seconds) :
  limiter_ok rl lo → lo <= now →
  (PEER_LIMITS t = None → (check rl pid t now).2 = true) ∧
  (∀ rate cap, PEER_LIMITS t = Some (rate, cap) →
     (∀ b, bucket_of rl pid t = Some b → 1 <= (now - tb_last_refill b) * rate) →
     (check rl pid t now).2 = true) ∧
  (∀ p ty now', (p, ty) ≠ (pid, t) →
     (check (check rl p ty now').1 pid t now).2 = (check rl pid t now).2).
Proof.
  intros Hrl Hn. split_and!.
  - intros Hl. unfold check. by rewrite Hl.
  - intros rate cap Hl Hwait. destruct (bucket_of_check_same rl pid t now rate cap Hl) as [_ ->].
    destruct (limits_nonneg _ _ _ Hl) as [Hr Hc].
    destruct (current_bucket_ok rl lo pid t rate cap now Hrl Hn Hl) as ((_ & H0 & _) & Er & Ec & _).
    unfold consume, refill. cbn [tb_tokens tb_rate tb_capacity]. rewrite Er, Ec.
    change (inject_Z 1) with 1.
    assert (tle 1 (py_min (inject_Z cap)
      (tb_tokens (default (new_bucket rate cap now) (bucket_of rl pid t)) +
       tsub now (tb_last_refill (default (new_bucket rate cap now) (bucket_of rl pid t))) * rate))
      = true) as ->; [|done].
    apply tle_spec, py_min_glb; [done|]. destruct (bucket_of rl pid t) as [b|]; cbn [default from_option id] in *.
    + specialize (Hwait b eq_refl). unfold tsub. lra.
    + cbn [new_bucket tb_tokens tb_last_refill]. unfold tsub. lra.
  - intros p ty now' Hne. pose proof (bucket_of_check rl p ty now' pid t Hne) as E.
    destruct (PEER_LIMITS t) as [[rate cap]|] eqn:Hl; [|unfold check; by rewrite Hl].
    destruct (bucket_of_check_same rl pid t now rate cap Hl) as [_ ->].
    destruct (bucket_of_check_same (check rl p ty now').1 pid t now rate cap Hl) as [_ ->].
    by rewrite E.
Qed.

(** ** Witnesses *)

Module RateExample.
Definition pid : bytes := be_encode 32 1.

Lemma peer_rate_bound_witness :
  inject_Z (Z.of_nat (allowed (run_checks [] [(pid, RESOLVE_REQUEST, secs 0)])
    (replicate 15 (pid, RESOLVE_REQUEST, secs 1)) pid RESOLVE_REQUEST))
  <= inject_Z 10 + (secs 1 - secs 1) * (10 / 60).
Proof.
  apply (peer_rate_bound [(pid, RESOLVE_REQUEST, secs 0)]
           (replicate 15 (pid, RESOLVE_REQUEST, secs 1)) pid RESOLVE_REQUEST (10 / 60) 10
           (secs 0) (secs 1) (secs 1)).
  - reflexivity.
  - repeat split; vm_compute; discriminate.
  - repeat split; vm_compute; discriminate.
Defined.

Lemma paced_peer_served_witness :
  (check (run_checks [] [(pid, RESOLVE_REQUEST, secs 0)]) pid RESOLVE_REQUEST (secs 6)).2 = true.
Proof.
  apply (paced_peer_served (run_checks [] [(pid, RESOLVE_REQUEST, secs 0)]) pid RESOLVE_REQUEST
           (secs 0) (secs 6)) with (rate := 10 / 60) (cap := 10%Z).
  - apply (run_checks_ok [] _ (secs 0)); [done|]. repeat split; vm_compute; discriminate.
  - vm_compute. discriminate.
  - reflexivity.
  - intros b. vm_compute. intros [= <-]. discriminate.
Defined.
End RateExample.
