(* ===== verification/Overlay.v ===== *)
(** * Peer table and overlay (overlay.py)

    [PeerTable] and [OverlayManager].  [random.shuffle] is a parameter of the operations that use it
    (an arbitrary function in the definitions, assumed to permute its argument in the theorems).
    The clock readings of one operation are one instant. *)

From S2P Require Import Prelude Bytes PyDict PyText.
From Stdlib Require QArith Lqa.

Definition MAX_PEER_TABLE : nat := 500.
Definition DEFAULT_OVERLAY_K : Z := 30.
Definition MAX_OVERLAY_K : Z := 50.
Definition INACTIVE_THRESHOLD : seconds := secs 3600.

Abbreviation endpoint := (pystr * Z)%type.

(** ** PeerTable *)

Record PeerEntry := mkPeerEntry {
  pe_peer_id : bytes;
  pe_public_key : bytes;
  pe_is_direct : bool;
  pe_endpoint : option endpoint;
  pe_last_seen : seconds;
  pe_version_counter : Z;
  pe_nickname : option pystr;
  pe_endpoint_signature : option bytes }.

Definition set_endpoint (ep : option endpoint) (e : PeerEntry) : PeerEntry :=
  mkPeerEntry (pe_peer_id e) (pe_public_key e) (pe_is_direct e) ep (pe_last_seen e)
    (pe_version_counter e) (pe_nickname e) (pe_endpoint_signature e).

Definition set_last_seen (now : seconds) (e : PeerEntry) : PeerEntry :=
  mkPeerEntry (pe_peer_id e) (pe_public_key e) (pe_is_direct e) (pe_endpoint e) now
    (pe_version_counter e) (pe_nickname e) (pe_endpoint_signature e).

Definition set_nickname (n : option pystr) (e : PeerEntry) : PeerEntry :=
  mkPeerEntry (pe_peer_id e) (pe_public_key e) (pe_is_direct e) (pe_endpoint e) (pe_last_seen e)
    (pe_version_counter e) n (pe_endpoint_signature e).

Definition set_version (v : Z) (sig : option bytes) (e : PeerEntry) : PeerEntry :=
  mkPeerEntry (pe_peer_id e) (pe_public_key e) (pe_is_direct e) (pe_endpoint e) (pe_last_seen e)
    v (pe_nickname e) sig.

Record PeerTable := mkTable { pt_local_id : bytes; pt_peers : dict bytes PeerEntry }.

Definition with_peers (t : PeerTable) (d : dict bytes PeerEntry) : PeerTable :=
  mkTable (pt_local_id t) d.

Definition add_direct_peer (t : PeerTable) (peer_id public_key : bytes) (nickname : option pystr)
    (ep : option endpoint) (now : seconds) : PeerTable :=
  if peer_id =?b pt_local_id t then t else
  with_peers t (dset (pt_peers t) peer_id
    (mkPeerEntry peer_id public_key true ep now 0 nickname None)).

(** The sort key [(p.last_seen, p.version_counter)]. *)
Definition evict_le (p q : PeerEntry) : bool :=
  tlt (pe_last_seen p) (pe_last_seen q)
  || (tle (pe_last_seen p) (pe_last_seen q) && (pe_version_counter p <=? pe_version_counter q)%Z).

Definition get_direct_peers (t : PeerTable) : list PeerEntry :=
  filter (λ p, pe_is_direct p = true) (pt_peers t).*2.

Definition get_direct_peer_ids (t : PeerTable) : gset bytes :=
  list_to_set (pe_peer_id <$> get_direct_peers t).

Definition get_all_non_direct (t : PeerTable) : list PeerEntry :=
  filter (λ p, pe_is_direct p = false) (pt_peers t).*2.

(** [_evict] *)
Definition evict (t : PeerTable) : PeerTable :=
  match py_sorted evict_le (get_all_non_direct t) with
  | [] => t
  | evicted :: _ => with_peers t (dpop (pt_peers t) (pe_peer_id evicted))
  end.

Definition add_peer (t : PeerTable) (peer_id public_key : bytes) (ep : option endpoint)
    (now : seconds) : PeerTable :=
  if peer_id =?b pt_local_id t then t else
  match dget (pt_peers t) peer_id with
  | Some e =>
      let e1 := set_last_seen now e in
      with_peers t (dset (pt_peers t) peer_id
        (match ep with Some _ => set_endpoint ep e1 | None => e1 end))
  | None =>
      let t1 := if (MAX_PEER_TABLE <=? length (pt_peers t))%nat then evict t else t in
      with_peers t1 (dset (pt_peers t1) peer_id
        (mkPeerEntry peer_id public_key false ep now 0 None None))
  end.

Definition table_remove_peer (t : PeerTable) (peer_id : bytes) : PeerTable :=
  with_peers t (dpop (pt_peers t) peer_id).

Definition is_known (t : PeerTable) (peer_id : bytes) : bool := dmem (pt_peers t) peer_id.

Definition get_entry (t : PeerTable) (peer_id : bytes) : option PeerEntry :=
  dget (pt_peers t) peer_id.

Definition get_endpoint (t : PeerTable) (peer_id : bytes) : option endpoint :=
  e ← dget (pt_peers t) peer_id; pe_endpoint e.

(** A mutation of the entry object, [entry = get_entry(peer_id); if entry: entry.x = ...] *)
Definition update_entry (t : PeerTable) (peer_id : bytes) (f : PeerEntry → PeerEntry) : PeerTable :=
  with_peers t (dupd (pt_peers t) peer_id f).

Definition table_update_last_seen (t : PeerTable) (peer_id : bytes) (now : seconds) : PeerTable :=
  update_entry t peer_id (set_last_seen now).

Definition table_size (t : PeerTable) : nat := length (pt_peers t).

(** ** OverlayManager *)

Record OverlayManager := mkOverlay { ov_k : Z; ov_overlay : list bytes }.

(** [OverlayManager(peer_table, overlay_k)] *)
Definition new_overlay (overlay_k : Z) : OverlayManager := mkOverlay (Z.min overlay_k MAX_OVERLAY_K) [].

(** [time.time() - p.last_seen < INACTIVE_THRESHOLD] *)
Definition is_active (now : seconds) (p : PeerEntry) : bool :=
  tlt (tsub now (pe_last_seen p)) INACTIVE_THRESHOLD.

(** [int(k * 0.6)] and [int(n * 0.10)] for the values that occur, [0 <= k, n <= 50] *)
Definition priority_share (k : Z) : Z := Z.quot (k * 3) 5.
Definition rotation_share (n : Z) : Z := Z.quot n 10.

(** [select_overlay] *)
Definition select_overlay (shuffle1 : list PeerEntry → list PeerEntry)
    (shuffle2 : list bytes → list bytes) (o : OverlayManager) (t : PeerTable) (now : seconds)
    : OverlayManager :=
  let non_direct := get_all_non_direct t in
  let active := filter (λ p, is_active now p = true) non_direct in
  let priority := pe_peer_id <$> py_take (priority_share (ov_k o)) (shuffle1 active) in
  let remaining_count := (ov_k o - Z.of_nat (length priority))%Z in
  let remaining_pool := filter (λ p, p ∉ priority) (pe_peer_id <$> non_direct) in
  mkOverlay (ov_k o) (priority ++ py_take remaining_count (shuffle2 remaining_pool)).

(** The entry of [pid] exists and is active. *)
Definition known_active (t : PeerTable) (now : seconds) (pid : bytes) : bool :=
  match get_entry t pid with Some p => is_active now p | None => false end.

(** [rotate], for a given choice of shuffles *)
Definition rotate (shuffle1 : list PeerEntry → list PeerEntry)
    (shuffle2 : list bytes → list bytes) (o : OverlayManager) (t : PeerTable) (now : seconds)
    : OverlayManager :=
  if bool_decide (ov_overlay o = []) then select_overlay shuffle1 shuffle2 o t now else
  let kept := filter (λ pid, known_active t now pid = true) (ov_overlay o) in
  let replace_count := Z.max 1 (rotation_share (Z.of_nat (length kept))) in
  let kept := if (replace_count <? Z.of_nat (length kept))%Z
              then drop (Z.to_nat replace_count) kept else kept in
  let candidates :=
    pe_peer_id <$> filter (λ p, (pe_peer_id p ∉ kept) ∧ is_active now p = true)
                     (get_all_non_direct t) in
  let needed := (ov_k o - Z.of_nat (length kept))%Z in
  mkOverlay (ov_k o) (kept ++ py_take needed (shuffle2 candidates)).

(** ** The table invariant *)

(** Every entry sits under its own peer id and the local node is not in its own table. *)
Record table_wf (t : PeerTable) : Prop := {
  tw_dict : dict_wf (pt_peers t);
  tw_key : ∀ k e, (k, e) ∈ pt_peers t → pe_peer_id e = k ∧ k ≠ pt_local_id t }.

Lemma table_wf_dset t k e :
  table_wf t → pe_peer_id e = k → k ≠ pt_local_id t → table_wf (with_peers t (dset (pt_peers t) k e)).
Proof.
  intros [Hd Hk] He Hl. split; [by apply dset_wf|]. intros j f Hin. cbn in *.
  apply elem_of_dset in Hin as [[= -> ->]|[_ Hin]]; eauto.
Qed.

Lemma table_wf_dpop t k : table_wf t → table_wf (with_peers t (dpop (pt_peers t) k)).
Proof.
  intros [Hd Hk]. split; [by apply dpop_wf|]. intros j f Hin. cbn in *.
  apply elem_of_dpop in Hin as [_ Hin]. eauto.
Qed.

Lemma evict_wf t : table_wf t → table_wf (evict t).
Proof. intros. unfold evict. destruct (py_sorted _ _); [done|]. by apply table_wf_dpop. Qed.

Lemma evict_local t : pt_local_id (evict t) = pt_local_id t.
Proof. unfold evict. by destruct (py_sorted _ _). Qed.

Lemma update_entry_wf t k f :
  (∀ e, pe_peer_id (f e) = pe_peer_id e) → table_wf t → table_wf (update_entry t k f).
Proof.
  intros Hf [Hd Hk]. split; cbn; [by apply dupd_wf|]. intros j e Hin.
  apply dget_elem in Hin; [|by apply dupd_wf]. rewrite dget_dupd in Hin.
  case_decide; subst.
  - apply fmap_Some in Hin as (e0 & He0%dget_Some_elem & ->). rewrite Hf. eauto.
  - apply dget_Some_elem in Hin. eauto.
Qed.

Lemma get_entry_id t k e : table_wf t → get_entry t k = Some e → pe_peer_id e = k ∧ k ≠ pt_local_id t.
Proof. intros Ht Hg%dget_Some_elem. by apply Ht. Qed.

Lemma add_direct_peer_wf t p k n ep now : table_wf t → table_wf (add_direct_peer t p k n ep now).
Proof.
  intros Ht. unfold add_direct_peer. case_bool_decide; [done|]. by apply table_wf_dset.
Qed.

Lemma add_peer_wf t p k ep now : table_wf t → table_wf (add_peer t p k ep now).
Proof.
  intros Ht. unfold add_peer. case_bool_decide; [done|].
  destruct (dget _ p) as [e|] eqn:E.
  - apply table_wf_dset; [done| |done]. apply get_entry_id in E as [E _]; [|done].
    by destruct ep.
  - destruct (_ <=? _)%nat; [|by apply table_wf_dset].
    apply table_wf_dset; [by apply evict_wf|done|]. by rewrite evict_local.
Qed.

Lemma table_remove_peer_wf t p : table_wf t → table_wf (table_remove_peer t p).
Proof. apply table_wf_dpop. Qed.

#[export] Hint Resolve table_wf_dset table_wf_dpop evict_wf add_direct_peer_wf add_peer_wf
  table_remove_peer_wf : ashichat.

(** ** Eviction *)

Lemma evict_le_total p q : evict_le p q = true ∨ evict_le q p = true.
Proof.
  unfold evict_le, tlt, tle.
  destruct (QArith_base.Qle_bool (pe_last_seen q) (pe_last_seen p)) eqn:E1,
    (QArith_base.Qle_bool (pe_last_seen p) (pe_last_seen q)) eqn:E2; cbn; auto.
  - destruct (Z.leb_spec (pe_version_counter p) (pe_version_counter q)),
      (Z.leb_spec (pe_version_counter q) (pe_version_counter p)); auto; lia.
Qed.

Lemma evict_le_spec p q : evict_le p q = true ↔
  QArith_base.Qlt (pe_last_seen p) (pe_last_seen q) ∨
  QArith_base.Qle (pe_last_seen p) (pe_last_seen q) ∧ (pe_version_counter p ≤ pe_version_counter q)%Z.
Proof.
  unfold evict_le. rewrite orb_true_iff, andb_true_iff, tlt_spec, tle_spec, Z.leb_le. done.
Qed.

Lemma evict_le_trans p q r : evict_le p q = true → evict_le q r = true → evict_le p r = true.
Proof.
  rewrite !evict_le_spec. intros [H1|[H1 H1']] [H2|[H2 H2']]; [left; Lqa.lra..|].
  right. split; [Lqa.lra|lia].
Qed.

Lemma elem_of_values (d : dict bytes PeerEntry) e : e ∈ d.*2 ↔ ∃ k, (k, e) ∈ d.
Proof.
  rewrite list_elem_of_fmap. split; [intros ([k e'] & -> & ?); eauto|intros [k Hk]; by exists (k, e)].
Qed.

Lemma elem_of_non_direct t e :
  e ∈ get_all_non_direct t ↔ pe_is_direct e = false ∧ ∃ k, (k, e) ∈ pt_peers t.
Proof. unfold get_all_non_direct. by rewrite list_elem_of_filter, elem_of_values. Qed.

Lemma elem_of_direct_ids t pid :
  table_wf t →
  pid ∈ get_direct_peer_ids t ↔ ∃ e, get_entry t pid = Some e ∧ pe_is_direct e = true.
Proof.
  intros Ht. unfold get_direct_peer_ids. rewrite elem_of_list_to_set, list_elem_of_fmap.
  unfold get_direct_peers. setoid_rewrite list_elem_of_filter. setoid_rewrite elem_of_values.
  split.
  - intros (e & -> & Hd & k & Hin). exists e. split; [|done].
    destruct (tw_key _ Ht _ _ Hin) as [-> _]. apply dget_elem; [apply Ht|done].
  - intros (e & Hg & Hd). exists e. destruct (get_entry_id _ _ _ Ht Hg) as [-> _].
    split; [done|]. split; [done|]. exists pid. by apply dget_Some_elem.
Qed.

(** What [_evict] does: nothing without candidates, otherwise one non-direct entry goes, a least
    one for [(last_seen, version_counter)]. *)
Lemma evict_spec t :
  table_wf t →
  (get_all_non_direct t = [] ∧ evict t = t) ∨
  ∃ e, e ∈ get_all_non_direct t ∧ get_entry t (pe_peer_id e) = Some e ∧
    evict t = with_peers t (dpop (pt_peers t) (pe_peer_id e)) ∧
    ∀ e', e' ∈ get_all_non_direct t → e' = e ∨ evict_le e e' = true.
Proof.
  intros Ht. unfold evict. destruct (py_sorted evict_le (get_all_non_direct t)) as [|e r] eqn:E.
  - left. split; [|done]. apply Permutation_nil_r. rewrite <- E. symmetry. apply py_sorted_perm.
  - right. exists e.
    assert (e ∈ get_all_non_direct t) as Hin
      by (rewrite <- (elem_of_py_sorted evict_le), E; set_solver).
    split; [done|]. split.
    + apply elem_of_non_direct in Hin as (_ & k & Hk). destruct (tw_key _ Ht _ _ Hk) as [-> _].
      apply dget_elem; [apply Ht|done].
    + split; [done|]. intros e' He'.
      eapply py_sorted_head; eauto using evict_le_total, evict_le_trans.
Qed.

(** ** Lemmas on the overlay *)

Lemma values_ids_NoDup t (P : PeerEntry → Prop) `{∀ e, Decision (P e)} :
  table_wf t → NoDup (pe_peer_id <$> filter P (pt_peers t).*2).
Proof.
  intros [Hd Hk]. unfold dict_wf in Hd. revert Hd Hk. induction (pt_peers t) as [|[k e] d IH]; cbn.
  - intros _ _. apply NoDup_nil_2.
  - intros [Hn Hd]%NoDup_cons Hk.
    assert (NoDup (pe_peer_id <$> filter P d.*2)) as IHd.
    { apply IH; [done|]. intros j f Hf. apply Hk. set_solver. }
    case_decide; [|done]. cbn. apply NoDup_cons. split; [|done].
    rewrite list_elem_of_fmap. intros (f & Hid & [_ Hf]%list_elem_of_filter).
    apply elem_of_values in Hf as [j Hj]. apply Hn.
    destruct (Hk k e) as [He _]; [set_solver|]. destruct (Hk j f) as [Hf _]; [set_solver|].
    rewrite <- He, Hid, Hf. apply list_elem_of_fmap. by exists (j, f).
Qed.

Lemma filter_filter_values t (P : PeerEntry → Prop) `{∀ e, Decision (P e)} :
  table_wf t → NoDup (pe_peer_id <$> filter P (get_all_non_direct t)).
Proof. intros. unfold get_all_non_direct. rewrite list_filter_filter. by apply values_ids_NoDup. Qed.

Lemma NoDup_perm_take {A} n (l k : list A) : l ≡ₚ k → NoDup k → NoDup (take n l).
Proof.
  intros Hp Hk. rewrite <- Hp in Hk. rewrite <- (take_drop n l) in Hk. by apply NoDup_app in Hk as [? _].
Qed.

Lemma elem_of_perm_take {A} n (l k : list A) x : l ≡ₚ k → x ∈ take n l → x ∈ k.
Proof. intros Hp Hx. rewrite <- Hp. by eapply subseteq_take. Qed.

(** Filling a list up to [k] from a disjoint pool. *)
Lemma fill_up {A} (kept pool pool' : list A) (k : Z) :
  NoDup kept → NoDup pool → pool' ≡ₚ pool → (∀ x, x ∈ pool → x ∉ kept) →
  (Z.of_nat (length kept) ≤ k)%Z →
  let l := kept ++ py_take (k - Z.of_nat (length kept)) pool' in
  NoDup l ∧ (∀ x, x ∈ l → x ∈ kept ∨ x ∈ pool) ∧
  Z.of_nat (length l) = Z.min k (Z.of_nat (length kept + length pool)) ∧
  (Z.of_nat (length l) = k ∨ ∀ x, x ∈ pool → x ∈ l).
Proof.
  intros Hk Hp Hperm Hdis Hle. cbn zeta. rewrite py_take_pos by lia.
  set (n := Z.to_nat (k - Z.of_nat (length kept))).
  pose proof (Permutation_length Hperm) as Hlen. split_and!.
  - apply NoDup_app. split_and!; [done| |by eapply NoDup_perm_take].
    intros x Hx Hx'. eapply Hdis; [|done]. by eapply elem_of_perm_take.
  - intros x [?|Hx]%elem_of_app; [by left|]. right. by eapply elem_of_perm_take.
  - rewrite length_app, length_take. lia.
  - destruct (decide (n ≤ length pool')%nat).
    + left. rewrite length_app, length_take. lia.
    + right. intros x Hx. rewrite take_ge by lia. apply elem_of_app. right. by rewrite Hperm.
Qed.

Section overlay.
Context (shuffle1 : list PeerEntry → list PeerEntry) (shuffle2 : list bytes → list bytes).
Context (shuffle1_perm : ∀ l, shuffle1 l ≡ₚ l) (shuffle2_perm : ∀ l, shuffle2 l ≡ₚ l).

Lemma length_filter_not_in (pool prio : list bytes) :
  NoDup pool → NoDup prio → (∀ x, x ∈ prio → x ∈ pool) →
  length prio + length (filter (λ p, p ∉ prio) pool) = length pool.
Proof using Type.
  intros Hpool Hprio Hsub.
  assert (prio ++ filter (λ p, p ∉ prio) pool ≡ₚ pool) as Hp.
  { apply NoDup_Permutation; [|done|].
    - apply NoDup_app. split_and!; [done| |by apply NoDup_filter].
      intros x Hx [Hn _]%list_elem_of_filter. done.
    - intros x. rewrite elem_of_app, list_elem_of_filter. split; [naive_solver|].
      destruct (decide (x ∈ prio)); auto. }
  apply Permutation_length in Hp. by rewrite length_app in Hp.
Qed.

Lemma select_overlay_spec o t now :
  table_wf t → (0 ≤ ov_k o)%Z →
  let l := ov_overlay (select_overlay shuffle1 shuffle2 o t now) in
  NoDup l ∧ (∀ pid, pid ∈ l → ∃ e, get_entry t pid = Some e ∧ pe_is_direct e = false) ∧
  Z.of_nat (length l) = Z.min (ov_k o) (Z.of_nat (length (get_all_non_direct t))).
Proof using shuffle1_perm shuffle2_perm.
  intros Ht Hk. unfold select_overlay. cbn [ov_overlay].
  set (act := filter (λ p, is_active now p = true) (get_all_non_direct t)).
  set (sh := shuffle1 act). assert (sh ≡ₚ act) as Hsh by apply shuffle1_perm.
  assert (0 ≤ priority_share (ov_k o))%Z as Hps
    by (unfold priority_share; apply Z.quot_pos; lia).
  rewrite (py_take_pos (priority_share (ov_k o))) by done.
  set (prio := pe_peer_id <$> take (Z.to_nat (priority_share (ov_k o))) sh).
  set (ids := pe_peer_id <$> get_all_non_direct t).
  assert (NoDup ids) as Hids by (apply values_ids_NoDup; done).
  assert (NoDup prio) as Hprio.
  { unfold prio. rewrite fmap_take. eapply NoDup_perm_take; [by apply fmap_Permutation|].
    by apply filter_filter_values. }
  assert (∀ x, x ∈ prio → x ∈ ids) as Hsub.
  { intros x. unfold prio, ids. rewrite !list_elem_of_fmap. intros (e & -> & He).
    exists e. split; [done|]. eapply elem_of_perm_take in He; [|done].
    by apply list_elem_of_filter in He as [_ He]. }
  assert (Z.of_nat (length prio) ≤ ov_k o)%Z as Hlen.
  { unfold prio. rewrite length_fmap, length_take. unfold priority_share in *.
    pose proof (Z.quot_le_upper_bound (ov_k o * 3) 5 (ov_k o)). lia. }
  destruct (fill_up prio (filter (λ p, p ∉ prio) ids) (shuffle2 (filter (λ p, p ∉ prio) ids)) (ov_k o))
    as (H1 & H2 & H3 & _); [done|by apply NoDup_filter|done| |done|].
  { intros x [Hx _]%list_elem_of_filter. done. }
  split_and!; [done| |].
  - intros pid Hpid. assert (pid ∈ ids) as Hin.
    { destruct (H2 pid Hpid) as [?|[_ ?]%list_elem_of_filter]; auto. }
    apply list_elem_of_fmap in Hin as (e & -> & (Hd & k & Hin)%elem_of_non_direct).
    exists e. split; [|done]. destruct (tw_key _ Ht _ _ Hin) as [-> _].
    apply dget_elem; [apply Ht|done].
  - rewrite H3, length_filter_not_in by done. unfold ids. by rewrite length_fmap.
Qed.

Lemma rotate_spec o t now :
  table_wf t → ov_overlay o ≠ [] → NoDup (ov_overlay o) →
  (Z.of_nat (length (ov_overlay o)) ≤ ov_k o)%Z →
  let l := ov_overlay (rotate shuffle1 shuffle2 o t now) in
  NoDup l ∧ (Z.of_nat (length l) ≤ ov_k o)%Z ∧
  (∀ pid, pid ∈ l → known_active t now pid = true) ∧
  (Z.of_nat (length l) = ov_k o ∨
   ∀ e, e ∈ get_all_non_direct t → is_active now e = true → pe_peer_id e ∈ l).
Proof using shuffle2_perm.
  intros Ht Hne Hnd Hlen. unfold rotate. rewrite bool_decide_false by done. cbn [ov_overlay].
  set (kept0 := filter (λ pid, known_active t now pid = true) (ov_overlay o)).
  set (rc := Z.max 1 (rotation_share (Z.of_nat (length kept0)))).
  set (kept := if (rc <? Z.of_nat (length kept0))%Z then drop (Z.to_nat rc) kept0 else kept0).
  set (pool := pe_peer_id <$> filter (λ p, (pe_peer_id p ∉ kept) ∧ is_active now p = true)
                 (get_all_non_direct t)).
  assert (NoDup kept0) as Hnd0 by (by apply NoDup_filter).
  assert (length kept0 ≤ length (ov_overlay o))%nat as Hl0 by apply length_filter.
  assert (∀ x, x ∈ kept → x ∈ kept0) as Hsub.
  { unfold kept. destruct (rc <? _)%Z; [|done]. intros x. apply subseteq_drop. }
  assert (NoDup kept) as Hndk.
  { unfold kept. destruct (rc <? _)%Z; [|done].
    rewrite <- (take_drop (Z.to_nat rc) kept0) in Hnd0. by apply NoDup_app in Hnd0 as (_ & _ & ?). }
  assert (length kept ≤ length kept0)%nat as Hlk.
  { unfold kept. destruct (rc <? _)%Z; [|done]. rewrite length_drop. lia. }
  destruct (fill_up kept pool (shuffle2 pool) (ov_k o)) as (H1 & H2 & H3 & H4);
    [done|by apply filter_filter_values|done| |lia|].
  { intros x. unfold pool. rewrite list_elem_of_fmap. intros (e & -> & [[Hk _] _]%list_elem_of_filter).
    done. }
  split_and!; [done|rewrite H3; lia| |].
  - intros pid Hpid. destruct (H2 pid Hpid) as [Hk|Hp].
    + apply Hsub in Hk. by apply list_elem_of_filter in Hk as [? _].
    + apply list_elem_of_fmap in Hp as (e & -> & [[_ Ha] Hin]%list_elem_of_filter).
      apply elem_of_non_direct in Hin as (_ & k & Hin). destruct (tw_key _ Ht _ _ Hin) as [-> _].
      unfold known_active, get_entry. by erewrite dget_elem; [|apply Ht|done].
  - destruct H4 as [H4|H4]; [by left|]. right. intros e He Ha.
    destruct (decide (pe_peer_id e ∈ kept)); [apply elem_of_app; by left|].
    apply H4. apply list_elem_of_fmap. exists e. split; [done|]. by apply list_elem_of_filter.
Qed.
End overlay.

(** ** Properties *)

(** Adding to a full table.  When the table holds [MAX_PEER_TABLE] peers and a new non-direct peer
    is added, one non-direct peer is evicted, one that is least for (last_seen, version_counter),
    every other peer keeps its entry, the new peer is stored and the size stays at the maximum; only
    if all peers are direct is nobody evicted, and then the table grows past its maximum. *)
Theorem add_peer_full_table (t : PeerTable) (p key : bytes) (ep : option endpoint) (now : seconds) :
  table_wf t → p ≠ pt_local_id t → get_entry t p = None → table_size t = MAX_PEER_TABLE →
  let t' := add_peer t p key ep now in
  table_wf t' ∧ get_entry t' p = Some (mkPeerEntry p key false ep now 0 None None) ∧
  ((get_all_non_direct t = [] ∧ table_size t' = S MAX_PEER_TABLE) ∨
   ∃ v, v ∈ get_all_non_direct t ∧ (∀ e, e ∈ get_all_non_direct t → e = v ∨ evict_le v e = true) ∧
     table_size t' = MAX_PEER_TABLE ∧ get_entry t' (pe_peer_id v) = None ∧
     ∀ j, j ≠ p → j ≠ pe_peer_id v → get_entry t' j = get_entry t j).
Proof.
  intros Ht Hp Hnone Hsize. cbn zeta. split; [by apply add_peer_wf|].
  unfold add_peer. rewrite bool_decide_false by done. unfold get_entry in Hnone. rewrite Hnone.
  unfold table_size in Hsize. rewrite Hsize, Nat.leb_refl. cbn [with_peers pt_peers pt_local_id].
  unfold get_entry, table_size. cbn [with_peers pt_peers]. split; [apply dget_dset_eq|].
  rewrite dset_length.
  destruct (evict_spec t Ht) as [[Hnd ->]|(v & Hv & Hg & -> & Hmin)].
  - left. rewrite (proj2 (dmem_false _ _)) by done. split; [done|]. rewrite Hsize. lia.
  - right. exists v. cbn [with_peers pt_peers].
    assert (pe_peer_id v ≠ p) as Hne by (intros <-; unfold get_entry in Hg; congruence).
    assert (pe_peer_id v ∈ (pt_peers t).*1) as Hin by (apply dget_is_Some; by eexists).
    pose proof (dpop_length _ _ (tw_dict _ Ht) Hin) as Hl.
    rewrite (proj2 (dmem_false _ _)) by (by rewrite dget_dpop_ne).
    split_and!; [done..| | |].
    + lia.
    + by rewrite dget_dset_ne, dget_dpop_eq.
    + intros j Hj Hjv. by rewrite dget_dset_ne, dget_dpop_ne.
Qed.

(** Selecting the overlay.  Whatever the shuffles, [select_overlay] picks pairwise different
    peers of the table, none of them direct, exactly [K] of them or all there are if fewer. *)
Theorem select_overlay_correct (shuffle1 : list PeerEntry → list PeerEntry)
    (shuffle2 : list bytes → list bytes) (overlay_k : Z) (t : PeerTable) (now : seconds) :
  (∀ l, shuffle1 l ≡ₚ l) → (∀ l, shuffle2 l ≡ₚ l) → table_wf t → (0 ≤ overlay_k)%Z →
  let l := ov_overlay (select_overlay shuffle1 shuffle2 (new_overlay overlay_k) t now) in
  NoDup l ∧ (∀ pid, pid ∈ l → ∃ e, get_entry t pid = Some e ∧ pe_is_direct e = false) ∧
  Z.of_nat (length l)
    = Z.min (Z.min overlay_k MAX_OVERLAY_K) (Z.of_nat (length (get_all_non_direct t))).
Proof.
  intros H1 H2 Ht Hk. apply (select_overlay_spec shuffle1 shuffle2 H1 H2 (new_overlay overlay_k));
    [done|]. unfold new_overlay, MAX_OVERLAY_K. cbn. lia.
Qed.

(** Rotating the overlay.  A rotation of a non-empty overlay of at most [K] different peers keeps
    that shape, leaves only known peers seen within the last hour, and fills the overlay: it has [K]
    members or contains every non-direct peer seen within the last hour. *)
Theorem rotate_correct (shuffle1 : list PeerEntry → list PeerEntry)
    (shuffle2 : list bytes → list bytes) (o : OverlayManager) (t : PeerTable) (now : seconds) :
  (∀ l, shuffle2 l ≡ₚ l) → table_wf t → ov_overlay o ≠ [] → NoDup (ov_overlay o) →
  (Z.of_nat (length (ov_overlay o)) ≤ ov_k o)%Z →
  let o' := rotate shuffle1 shuffle2 o t now in
  ov_k o' = ov_k o ∧ NoDup (ov_overlay o') ∧ (Z.of_nat (length (ov_overlay o')) ≤ ov_k o)%Z ∧
  (∀ pid, pid ∈ ov_overlay o' → known_active t now pid = true) ∧
  (Z.of_nat (length (ov_overlay o')) = ov_k o ∨
   ∀ e, e ∈ get_all_non_direct t → is_active now e = true → pe_peer_id e ∈ ov_overlay o').
Proof.
  intros H2 Ht Hne Hnd Hl. cbn zeta. split; [unfold rotate; by rewrite bool_decide_false|].
  by apply rotate_spec.
Qed.

(** ** Witnesses *)

Module OverlayExample.
Definition pid (n : Z) : bytes := be_encode 2 n.
Definition full_table : PeerTable :=
  mkTable (pid 9999) ((λ n, let i := Z.of_nat n in
    (pid i, mkPeerEntry (pid i) [] (i <? 3)%Z None (secs (i mod 7)) 0 None None)) <$> seq 0 500).
Definition small_table : PeerTable :=
  mkTable (pid 9999) ((λ n, let i := Z.of_nat n in
    (pid i, mkPeerEntry (pid i) [] (i <? 3)%Z None (secs (1000 * i)) 0 None None)) <$> seq 0 8).

Lemma generated_table_wf f n :
  (∀ m, m < n → pe_peer_id (f m) = pid (Z.of_nat m)) → (Z.of_nat n ≤ 9999)%Z →
  table_wf (mkTable (pid 9999) ((λ m, (pid (Z.of_nat m), f m)) <$> seq 0 n)).
Proof.
  intros Hf Hn.
  assert (∀ a b, (0 ≤ a ≤ 9999)%Z → (0 ≤ b ≤ 9999)%Z → pid a = pid b → a = b) as Hinj.
  { intros a b Ha Hb E. apply (f_equal be_decode) in E. unfold pid in E.
    rewrite !be_decode_encode in E by (change (256 ^ Z.of_nat 2)%Z with 65536%Z; lia). lia. }
  split; cbn.
  - unfold dict_wf. rewrite <- list_fmap_compose. apply NoDup_fmap_2_strong; [|apply NoDup_seq].
    intros a b Ha%elem_of_seq Hb%elem_of_seq. cbn. intros E%Hinj; lia.
  - intros k e. rewrite list_elem_of_fmap. intros (m & [= -> ->] & Hm%elem_of_seq).
    split; [apply Hf; lia|]. intros E%Hinj; lia.
Qed.

Lemma add_peer_full_table_witness :
  let t' := add_peer full_table (pid 700) [] None (secs 100) in
  table_size t' = 500 ∨ table_size t' = 501.
Proof.
  destruct (add_peer_full_table full_table (pid 700) [] None (secs 100))
    as (_ & _ & [[_ H]|(v & _ & _ & H & _)]).
  - apply generated_table_wf; [done|lia].
  - vm_compute. discriminate.
  - vm_compute. reflexivity.
  - vm_compute. reflexivity.
  - right. exact H.
  - left. exact H.
Defined.

Lemma select_overlay_correct_witness :
  let l := ov_overlay (select_overlay id reverse (new_overlay 4) small_table (secs 8000)) in
  NoDup l ∧ (∀ p, p ∈ l → ∃ e, get_entry small_table p = Some e ∧ pe_is_direct e = false) ∧
  Z.of_nat (length l) = Z.min (Z.min 4 MAX_OVERLAY_K) (Z.of_nat (length (get_all_non_direct small_table))).
Proof.
  apply (select_overlay_correct id reverse 4 small_table (secs 8000)).
  - done.
  - intros l. apply reverse_Permutation.
  - apply generated_table_wf; [done|lia].
  - lia.
Defined.

Lemma rotate_correct_witness :
  let o := mkOverlay 4 [pid 3; pid 4; pid 5] in
  let o' := rotate id reverse o small_table (secs 7500) in
  ov_k o' = 4%Z ∧ NoDup (ov_overlay o') ∧ (Z.of_nat (length (ov_overlay o')) ≤ 4)%Z ∧
  (∀ p, p ∈ ov_overlay o' → known_active small_table (secs 7500) p = true) ∧
  (Z.of_nat (length (ov_overlay o')) = 4%Z ∨
   ∀ e, e ∈ get_all_non_direct small_table → is_active (secs 7500) e = true →
     pe_peer_id e ∈ ov_overlay o').
Proof.
  apply (rotate_correct id reverse (mkOverlay 4 [pid 3; pid 4; pid 5]) small_table (secs 7500)).
  - intros l. apply reverse_Permutation.
  - apply generated_table_wf; [done|lia].
  - discriminate.
  - repeat constructor; set_solver.
  - cbn. lia.
Defined.
End OverlayExample.
