(* ===== verification/Invite.v ===== *)
(** * Invite codes (invite.py)

    An invite is a payload (public key, and an address and port if there is one) written in Base85 or in
    Base32 behind a prefix.  Texts are lists of code points, [InviteError] is an exception value. *)

From S2P Require Import Prelude Bytes PyText IpAddr PyBase Crypto Overlay.

Definition PREFIX_85 : pystr := str "ashichat://v1:".
Definition PREFIX_32 : pystr := str "ashichat://v1.h:".

(** The public key object is its 32 raw bytes. *)
Record InviteData := mkInvite { inv_public_key : bytes; inv_endpoint : option endpoint }.

(** ** Payloads *)

(** [_build_payload(public_key, endpoint)] *)
Definition build_payload (public_key : bytes) (ep : option endpoint) : result bytes :=
  match ep with
  | None => Ok public_key
  | Some (host, port) =>
      addr ← ip_address host;
      match addr with
      | IPv4 packed => p ← struct_pack 2 port; Ok (public_key ++ [Byte.x04] ++ packed ++ p)
      | IPv6 packed => p ← struct_pack 2 port; Ok (public_key ++ [Byte.x06] ++ packed ++ p)
      end
  end.

(** The address of a payload that has one: its text and the offset after it. *)
Definition payload_ip (data : bytes) : result (pystr * nat) :=
  match data !! 32 with
  | None => Raise IndexError
  | Some ip_type =>
      if (byte_val ip_type =? 4)%Z then
        if (length data <? 33 + 4 + 2)%nat then Raise InviteError
        else Ok (ip_str (IPv4 (slice 33 37 data)), 37)
      else if (byte_val ip_type =? 6)%Z then
        if (length data <? 33 + 16 + 2)%nat then Raise InviteError
        else Ok (ip_str (IPv6 (slice 33 49 data)), 49)
      else Raise InviteError
  end.

Section invite.
Context `{C : CryptoLib}.

(** [_parse_payload(data)] *)
Definition parse_payload (data : bytes) : result InviteData :=
  if (length data <? 32)%nat then Raise InviteError else
  match ed_from_public_bytes (take 32 data) with
  | Raise _ => Raise InviteError
  | Ok pubkey =>
      if (length data =? 32)%nat then Ok (mkInvite pubkey None) else
      if (length data <? 33)%nat then Raise InviteError else
      ip ← payload_ip data;
      port ← struct_unpack 2 (slice ip.2 (ip.2 + 2) data);
      Ok (mkInvite pubkey (Some (ip.1, port)))
  end.

(** ** Codes *)

(** [generate_invite(public_key, endpoint)] *)
Definition generate_invite (public_key : bytes) (ep : option endpoint) : result pystr :=
  payload ← build_payload public_key ep; Ok (PREFIX_85 ++ b85encode payload).

(** [generate_invite_readable(public_key, endpoint)] *)
Definition generate_invite_readable (public_key : bytes) (ep : option endpoint) : result pystr :=
  payload ← build_payload public_key ep; Ok (PREFIX_32 ++ b32encode payload).

(** [parse_invite(invite_str)] *)
Definition parse_invite (invite_str : pystr) : result InviteData :=
  let invite_str := str_strip invite_str in
  if str_startswith PREFIX_32 invite_str then
    match b32decode (drop (length PREFIX_32) invite_str) with
    | Raise _ => Raise InviteError
    | Ok payload => parse_payload payload
    end
  else if str_startswith PREFIX_85 invite_str then
    match b85decode (drop (length PREFIX_85) invite_str) with
    | Raise _ => Raise InviteError
    | Ok payload => parse_payload payload
    end
  else Raise InviteError.

(** ** Round trips *)

(** The endpoints an invite can carry: none, or an address written as [str] writes it, and a port. *)
Definition invite_endpoint_wf (ep : option endpoint) : Prop :=
  match ep with
  | None => True
  | Some (host, port) => (∃ a, ip_wf a ∧ host = ip_str a) ∧ (0 ≤ port < 65536)%Z
  end.

Lemma invite_payload_roundtrip `{!CryptoLaws C} pub ep :
  length pub = 32 → invite_endpoint_wf ep →
  ∃ payload, build_payload pub ep = Ok payload ∧ parse_payload payload = Ok (mkInvite pub ep).
Proof using Type*.
  intros Hpub Hep. unfold build_payload, parse_payload. destruct ep as [[host port]|].
  2:{ exists pub. split; [done|]. rewrite Hpub, firstn_all2 by lia. cbn [Nat.ltb Nat.leb Nat.eqb].
      by rewrite ed_from_public_bytes_ok. }
  destruct Hep as [(a & Ha & ->) Hport]. rewrite ip_address_ip_str by done. cbn [mbind result_bind].
  rewrite struct_pack_fits by (cbn; lia). cbn [mbind result_bind].
  destruct a as [p|p]; cbn in Ha; (eexists; split; [reflexivity|]).
  all: rewrite !length_app, Hpub, Ha, length_be_encode; cbn [length Nat.add Nat.ltb Nat.leb Nat.eqb].
  all: rewrite take_app_length' by done; rewrite ed_from_public_bytes_ok by done.
  all: unfold payload_ip; rewrite lookup_app_r by lia; rewrite Hpub; cbn [Nat.sub lookup list_lookup app].
  all: change (byte_val Byte.x04 =? 4)%Z with true; change (byte_val Byte.x06 =? 4)%Z with false;
    change (byte_val Byte.x06 =? 6)%Z with true; cbv iota.
  all: change (Byte.x04 :: ?l) with ([Byte.x04] ++ l); change (Byte.x06 :: ?l) with ([Byte.x06] ++ l).
  all: rewrite !length_app, Hpub, Ha, length_be_encode;
    cbn [length Nat.add Nat.ltb Nat.leb fst snd mbind result_bind].
  all: rewrite !app_assoc, <- (app_assoc _ _ (be_encode 2 port)).
  all: rewrite (slice_mid _ _ (pub ++ _) p) by (rewrite ?length_app; cbn [length]; lia).
  all: rewrite app_assoc, (slice_app_skip _ _ _ (be_encode 2 port)) by (rewrite !length_app; cbn [length]; lia).
  all: rewrite !length_app, Hpub, Ha; cbn [length Nat.add Nat.sub].
  all: rewrite slice_full by (by rewrite length_be_encode).
  all: rewrite struct_unpack_total by apply length_be_encode; cbn [mbind result_bind].
  all: by rewrite be_decode_encode by (cbn; lia).
Qed.

Lemma length_slice_total {A} a b (l : list A) : b ≤ length l → length (slice a b l) = b - a.
Proof. intros H. unfold slice. rewrite length_take, length_drop. lia. Qed.

Lemma payload_ip_spec data :
  33 ≤ length data →
  match payload_ip data with
  | Ok (host, off) => (∃ a, ip_wf a ∧ host = ip_str a) ∧ off + 2 ≤ length data
  | Raise e => e = InviteError
  end.
Proof.
  intros Hl. unfold payload_ip. destruct (data !! 32) as [t|] eqn:E.
  2:{ apply lookup_ge_None in E. lia. }
  destruct (_ =? 4)%Z; [|destruct (_ =? 6)%Z; [|done]].
  1: destruct (Nat.ltb_spec (length data) (33 + 4 + 2)); [done|].
  2: destruct (Nat.ltb_spec (length data) (33 + 16 + 2)); [done|].
  all: split; [eexists; split; [|reflexivity]; unfold ip_wf; by rewrite length_slice_total by lia|lia].
Qed.

(** What the payload parser accepts is an invite that can be generated; it fails with [InviteError]. *)
Lemma parse_payload_spec `{!CryptoLaws C} data :
  match parse_payload data with
  | Ok d => length (inv_public_key d) = 32 ∧ invite_endpoint_wf (inv_endpoint d)
  | Raise e => e = InviteError
  end.
Proof using Type*.
  unfold parse_payload. destruct (Nat.ltb_spec (length data) 32); [done|].
  assert (length (take 32 data) = 32) as Hk by (rewrite length_take; lia).
  rewrite ed_from_public_bytes_ok by done.
  destruct (Nat.eqb_spec (length data) 32); [done|]. destruct (Nat.ltb_spec (length data) 33); [done|].
  pose proof (payload_ip_spec data ltac:(lia)) as Hip.
  destruct (payload_ip data) as [[host off]|e]; [|exact Hip]. destruct Hip as [Ha Hoff].
  cbn [mbind result_bind fst snd].
  assert (length (slice off (off + 2) data) = 2) as Hs by (rewrite length_slice_total by lia; lia).
  rewrite struct_unpack_total by done. cbn [mbind result_bind inv_public_key inv_endpoint].
  split; [done|]. split; [done|].
  pose proof (be_decode_range (slice off (off + 2) data)) as Hr. rewrite Hs in Hr. cbn in Hr. lia.
Qed.

Lemma prefix_85_not_32 s : str_startswith PREFIX_32 (PREFIX_85 ++ s) = false.
Proof. reflexivity. Qed.

Lemma parse_invite_around a b code :
  (∀ c, c ∈ a ++ b → is_space c = true) → (∀ c, c ∈ code → (33 ≤ c < 127)%Z) → code ≠ [] →
  parse_invite (a ++ code ++ b) = parse_invite code.
Proof.
  intros Hab Hc Hne. unfold parse_invite.
  assert (∀ c, c ∈ code → is_space c = false) by (intros; apply is_space_printable; auto).
  by rewrite str_strip_around, str_strip_nospace.
Qed.

(** Texts of the two kinds, without surrounding whitespace. *)
Lemma parse_invite_85 payload :
  (∀ c, c ∈ PREFIX_85 ++ b85encode payload → (33 ≤ c < 127)%Z)
  ∧ parse_invite (PREFIX_85 ++ b85encode payload) = parse_payload payload.
Proof.
  assert (∀ c, c ∈ PREFIX_85 ++ b85encode payload → (33 ≤ c < 127)%Z) as Hc.
  { intros c [Hc|Hc]%elem_of_app; [|by eapply b85encode_chars].
    revert c Hc. apply Forall_forall, (bool_decide_unpack _). by vm_compute. }
  split; [exact Hc|]. unfold parse_invite.
  rewrite str_strip_nospace by (intros; apply is_space_printable; auto).
  rewrite prefix_85_not_32, str_startswith_app, drop_app_length. by rewrite b85_roundtrip.
Qed.

Lemma parse_invite_32 payload :
  (∀ c, c ∈ PREFIX_32 ++ b32encode payload → (33 ≤ c < 127)%Z)
  ∧ parse_invite (PREFIX_32 ++ b32encode payload) = parse_payload payload.
Proof.
  assert (∀ c, c ∈ PREFIX_32 ++ b32encode payload → (33 ≤ c < 127)%Z) as Hc.
  { intros c [Hc|Hc]%elem_of_app; [|by eapply b32encode_chars].
    revert c Hc. apply Forall_forall, (bool_decide_unpack _). by vm_compute. }
  split; [exact Hc|]. unfold parse_invite.
  rewrite str_strip_nospace by (intros; apply is_space_printable; auto).
  rewrite str_startswith_app, drop_app_length. by rewrite b32_roundtrip.
Qed.

Lemma invite_code_parses `{!CryptoLaws C} pub ep code :
  length pub = 32 → invite_endpoint_wf ep →
  generate_invite pub ep = Ok code ∨ generate_invite_readable pub ep = Ok code →
  parse_invite code = Ok (mkInvite pub ep).
Proof using Type*.
  intros Hpub Hep Hcode. destruct (invite_payload_roundtrip pub ep Hpub Hep) as (payload & Hb & Hp).
  unfold generate_invite, generate_invite_readable in Hcode. rewrite Hb in Hcode.
  destruct Hcode as [<-%Ok_inj|<-%Ok_inj]; rewrite <- Hp; [apply parse_invite_85|apply parse_invite_32].
Qed.

(** C31: An invite survives being written and read: for a public key and an endpoint (none, or an address in
    its usual text and a port) both generators return a code, and [parse_invite] returns the key and the
    endpoint for either code, also when the code was pasted with whitespace around it. *)
Theorem invite_roundtrip `{!CryptoLaws C} (pub : bytes) (ep : option endpoint) (before after : pystr) :
  length pub = 32 → invite_endpoint_wf ep → (∀ c, c ∈ before ++ after → is_space c = true) →
  ∃ code readable,
    generate_invite pub ep = Ok code ∧ generate_invite_readable pub ep = Ok readable
    ∧ parse_invite (before ++ code ++ after) = Ok (mkInvite pub ep)
    ∧ parse_invite (before ++ readable ++ after) = Ok (mkInvite pub ep).
Proof using Type*.
  intros Hpub Hep Hsp. destruct (invite_payload_roundtrip pub ep Hpub Hep) as (payload & Hb & Hp).
  destruct (parse_invite_85 payload) as [Hc85 H85]. destruct (parse_invite_32 payload) as [Hc32 H32].
  exists (PREFIX_85 ++ b85encode payload), (PREFIX_32 ++ b32encode payload).
  unfold generate_invite, generate_invite_readable. rewrite Hb. split_and!; [done..| |].
  - by rewrite parse_invite_around, H85 by done.
  - by rewrite parse_invite_around, H32 by done.
Qed.

(** On any text [parse_invite] raises nothing but [InviteError], and what it returns is a key and
    endpoint from which [generate_invite] makes a code that reads back the same. *)
Theorem parse_invite_spec `{!CryptoLaws C} (text : pystr) :
  match parse_invite text with
  | Raise e => e = InviteError
  | Ok d => ∃ code, generate_invite (inv_public_key d) (inv_endpoint d) = Ok code ∧ parse_invite code = Ok d
  end.
Proof using Type*.
  assert (∀ payload, match parse_payload payload with
    | Raise e => e = InviteError
    | Ok d => ∃ code, generate_invite (inv_public_key d) (inv_endpoint d) = Ok code ∧ parse_invite code = Ok d
    end) as H.
  { intros payload. pose proof (parse_payload_spec payload) as H.
    destruct (parse_payload payload) as [[pub ep]|e]; [|done]. destruct H as [Hk Hep].
    destruct (invite_payload_roundtrip pub ep Hk Hep) as (p & Hb & Hp).
    exists (PREFIX_85 ++ b85encode p). unfold generate_invite. cbn [inv_public_key inv_endpoint]. rewrite Hb.
    by rewrite (proj2 (parse_invite_85 p)). }
  unfold parse_invite at 1.
  destruct (str_startswith PREFIX_32 _); [|destruct (str_startswith PREFIX_85 _); [|done]].
  - destruct (b32decode _); [apply H|done].
  - destruct (b85decode _); [apply H|done].
Qed.
End invite.

Module InviteExample.
Import ToyCrypto.

Definition pub : bytes := be_encode 32 123456789.
Definition home : option endpoint := Some (str "2001:db8::1", 4001%Z).

Lemma invite_roundtrip_witness :
  ∃ code readable,
    generate_invite pub home = Ok code ∧ generate_invite_readable pub home = Ok readable
    ∧ parse_invite (str " " ++ code ++ str " ") = Ok (mkInvite pub home)
    ∧ parse_invite (str " " ++ readable ++ str " ") = Ok (mkInvite pub home).
Proof.
  apply invite_roundtrip; [reflexivity| |].
  - split; [|lia]. exists (IPv6 (be_encode 16 0x20010db8000000000000000000000001)). by vm_compute.
  - apply Forall_forall. by repeat constructor.
Defined.
(** An invite whose payload has bytes after the port, and a text cut off. *)
Definition long_code : pystr := PREFIX_85 ++ b85encode (pub ++ [Byte.x04] ++ be_encode 4 3221225985 ++ be_encode 4 4001).

Lemma parse_invite_spec_witness :
  (∃ d code, parse_invite long_code = Ok d ∧ generate_invite (inv_public_key d) (inv_endpoint d) = Ok code ∧
     parse_invite code = Ok d) ∧
  parse_invite (take 50 long_code) = Raise InviteError.
Proof.
  pose proof (parse_invite_spec long_code) as H1. pose proof (parse_invite_spec (take 50 long_code)) as H2. split.
  - destruct (parse_invite long_code) as [d|e] eqn:E; [|vm_compute in E; discriminate E].
    destruct H1 as [code H1]. exists d, code. split; [reflexivity|exact H1].
  - destruct (parse_invite (take 50 long_code)) as [d|e] eqn:E; [vm_compute in E; discriminate E|].
    f_equal. exact H2.
Defined.
End InviteExample.
