(* ===== verification/Resolution.v ===== *)
(** * Peer resolution (resolution.py)

    [ResolutionManager].  The functions the constructor is given ([get_overlay_fn],
    [get_endpoint_fn], ...) are arguments; [send_fn] calls are the returned list of packets and
    addresses.  A pending resolution is a future, an object in a heap: [resolve_peer] is the part
    before its [await] ([resolve_start]) and the part after it ([resolve_finish]), so that other
    operations can come between. *)

From S2P Require Import Prelude Bytes PyDict PyText Packet Overlay.
From Stdlib Require QArith Lqa.

Definition RESOLVE_MAX_TTL : Z := 5.
Definition CACHE_TTL : seconds := secs 300.
Definition MAX_CACHE : nat := 1000.

Inductive future := FutPending | FutDone (ep : endpoint) | FutCancelled.

Record ResolutionManager := mkResolver {
  rm_request_cache : dict bytes seconds;
  rm_pending : dict bytes nat;
  rm_futures : gmap nat future }.

Definition empty_resolver : ResolutionManager := mkResolver [] [] ∅.

Abbreviation sends := (list (Packet * endpoint)).

(** [_cleanup_cache] *)
Definition cleanup_cache (cache : dict bytes seconds) (now : seconds) : dict bytes seconds :=
  filter (λ kv, tlt kv.2 (tsub now CACHE_TTL) = false) cache.

(** Enforce cache size: drop the oldest entries beyond [MAX_CACHE]. *)
Definition bound_cache (cache : dict bytes seconds) : dict bytes seconds :=
  if (MAX_CACHE <? length cache)%nat then
    let oldest := (py_sorted (λ a b, tle a.2 b.2) cache).*1 in
    foldl dpop cache (take (length cache - MAX_CACHE) oldest)
  else cache.

(** The loop [for pid in overlay: ep = get_endpoint(pid); if ep ...: send]. *)
Definition send_to_overlay (pkt : Packet) (overlay : list bytes)
    (get_endpoint : bytes → option endpoint) (ok : endpoint → bool) : sends :=
  omap (λ pid, ep ← get_endpoint pid; if ok ep then Some (pkt, ep) else None) overlay.

(** [handle_resolve_request(request, sender_addr)] *)
Definition handle_resolve_request (local_id : bytes) (overlay : list bytes)
    (get_endpoint : bytes → option endpoint) (rm : ResolutionManager)
    (request : ResolveRequestPayload) (sender_addr : endpoint) (now : seconds)
    : ResolutionManager * result sends :=
  let cache := cleanup_cache (rm_request_cache rm) now in
  let with_cache c := mkResolver c (rm_pending rm) (rm_futures rm) in
  if dmem cache (rr_request_id request) then (with_cache cache, Ok []) else
  let cache := bound_cache (dset cache (rr_request_id request) now) in
  (with_cache cache,
   if rr_target_peer_id request =?b local_id then Ok [] else
   if bool_decide (is_Some (get_endpoint (rr_target_peer_id request))) then Ok [] else
   if (0 <? rr_ttl request)%Z then
     fwd_pkt ← make_packet RESOLVE_REQUEST
       (PResolve (mkResolve (rr_request_id request) (rr_target_peer_id request) (rr_ttl request - 1)));
     Ok (send_to_overlay fwd_pkt overlay get_endpoint (λ ep, negb (ep =?b sender_addr)))
   else Ok []).

(** ** resolve_peer *)

(** How the part of [resolve_peer] before the [await] ends. *)
Inductive resolve_outcome :=
| Resolved (ep : endpoint)
| Waiting (fut : nat) (out : sends).

(** [request_id] is drawn, [fut] is the address of the new future. *)
Definition resolve_start (overlay : list bytes) (get_endpoint : bytes → option endpoint)
    (rm : ResolutionManager) (target : bytes) (force_network : bool) (request_id : bytes) (fut : nat)
    : ResolutionManager * result resolve_outcome :=
  match get_endpoint target, force_network with
  | Some ep, false => (rm, Ok (Resolved ep))
  | _, _ =>
      match make_packet RESOLVE_REQUEST (PResolve (mkResolve request_id target RESOLVE_MAX_TTL)) with
      | Raise e => (rm, Raise e)
      | Ok pkt =>
          (mkResolver (rm_request_cache rm) (dset (rm_pending rm) target fut)
             (<[fut := FutPending]> (rm_futures rm)),
           Ok (Waiting fut (send_to_overlay pkt overlay get_endpoint (λ _, true))))
      end
  end.

(** The part after the [await]: the value of a completed future, [None] on timeout (which cancels
    it); in both cases [finally] drops the pending entry. *)
Definition resolve_finish (rm : ResolutionManager) (target : bytes) (fut : nat)
    : ResolutionManager * option endpoint :=
  let pending := dpop (rm_pending rm) target in
  match rm_futures rm !! fut with
  | Some (FutDone ep) => (mkResolver (rm_request_cache rm) pending (rm_futures rm), Some ep)
  | _ => (mkResolver (rm_request_cache rm) pending (<[fut := FutCancelled]> (rm_futures rm)), None)
  end.

(** [handle_endpoint_update(update)] over a caller state [S]: [verify] and [update_endpoint] are the
    two functions the node passes. *)
Definition handle_endpoint_update {S} (verify : EndpointUpdatePayload → bool)
    (update_endpoint : EndpointUpdatePayload → S → S) (rm : ResolutionManager) (s : S)
    (update : EndpointUpdatePayload) : ResolutionManager * S * bool :=
  if negb (verify update) then (rm, s, false) else
  let s' := update_endpoint update s in
  let rm' :=
    match dget (rm_pending rm) (eu_peer_id update) with
    | Some fut =>
        match rm_futures rm !! fut with
        | Some FutPending =>
            mkResolver (rm_request_cache rm) (rm_pending rm)
              (<[fut := FutDone (eu_endpoint_ip update, eu_endpoint_port update)]> (rm_futures rm))
        | _ => rm
        end
    | None => rm
    end in
  (rm', s', true).

(** ** The request cache *)

Record cache_ok (c : dict bytes seconds) (now : seconds) : Prop := {
  co_wf : dict_wf c;
  co_len : (length c ≤ MAX_CACHE)%nat;
  co_time : ∀ k v, (k, v) ∈ c → QArith_base.Qle v now }.

Lemma cleanup_wf c now : dict_wf c → dict_wf (cleanup_cache c now).
Proof.
  intros H. unfold dict_wf, cleanup_cache in *. revert H. induction c as [|[k v] c IH]; cbn; [done|].
  intros [Hn Hd]%NoDup_cons. case_decide; [|by apply IH]. cbn. apply NoDup_cons. split; [|by apply IH].
  intros (kv & -> & [_ Hin]%list_elem_of_filter)%list_elem_of_fmap. apply Hn.
  apply list_elem_of_fmap. eauto.
Qed.

Lemma foldl_dpop_wf (ks : list bytes) (c : dict bytes seconds) : dict_wf c → dict_wf (foldl dpop c ks).
Proof. revert c. induction ks as [|k ks IH]; intros c Hc; cbn; [done|]. by apply IH, dpop_wf. Qed.

Lemma foldl_dpop_elem (ks : list bytes) (c : dict bytes seconds) kv :
  kv ∈ foldl dpop c ks ↔ (kv.1 ∉ ks) ∧ kv ∈ c.
Proof.
  revert c. induction ks as [|k ks IH]; intros c; cbn; [set_solver|].
  rewrite IH, elem_of_dpop. set_solver.
Qed.

Lemma foldl_dpop_length (ks : list bytes) (c : dict bytes seconds) :
  dict_wf c → NoDup ks → (∀ k, k ∈ ks → k ∈ c.*1) →
  length (foldl dpop c ks) + length ks = length c.
Proof.
  revert c. induction ks as [|k ks IH]; intros c Hc Hks Hsub; cbn; [lia|].
  apply NoDup_cons in Hks as [Hk Hks].
  pose proof (dpop_length c k Hc (Hsub k (list_elem_of_here _ _))) as Hl.
  specialize (IH (dpop c k) (dpop_wf _ _ Hc) Hks).
  assert (length (foldl dpop (dpop c k) ks) + length ks = length (dpop c k)) as He.
  { apply IH. intros j Hj. rewrite dpop_keys. apply list_elem_of_filter. split; [set_solver|].
    apply Hsub. set_solver. }
  lia.
Qed.

Lemma sorted_keys_perm (c : dict bytes seconds) :
  (py_sorted (λ a b, tle a.2 b.2) c).*1 ≡ₚ c.*1.
Proof. apply fmap_Permutation, py_sorted_perm. Qed.

Lemma bound_cache_ok c : dict_wf c → dict_wf (bound_cache c) ∧ (length (bound_cache c) ≤ MAX_CACHE)%nat
  ∧ ∀ kv, kv ∈ bound_cache c → kv ∈ c.
Proof.
  intros Hc. unfold bound_cache. destruct (Nat.ltb_spec MAX_CACHE (length c)) as [Hlt|Hle].
  2:{ done. }
  set (ks := take _ _).
  assert (NoDup ks) as Hnd.
  { eapply NoDup_perm_take; [apply sorted_keys_perm|done]. }
  assert (∀ k, k ∈ ks → k ∈ c.*1) as Hsub.
  { intros k Hk. eapply elem_of_perm_take; [apply sorted_keys_perm|done]. }
  split_and!.
  - by apply foldl_dpop_wf.
  - pose proof (foldl_dpop_length ks c Hc Hnd Hsub) as Hl. unfold ks at 2 in Hl.
    rewrite length_take, length_fmap, (Permutation_length (py_sorted_perm _ c)) in Hl. lia.
  - intros kv. rewrite foldl_dpop_elem. naive_solver.
Qed.

(** The entry just made survives the bound: it is the newest. *)
Lemma bound_cache_newest c k now :
  cache_ok c now → k ∉ c.*1 → (k, now) ∈ bound_cache (dset c k now).
Proof.
  intros [Hwf Hlen Htime] Hk. rewrite dset_absent by done. unfold bound_cache.
  destruct (Nat.ltb_spec MAX_CACHE (length (c ++ [(k, now)]))) as [Hlt|]; [|set_solver].
  apply foldl_dpop_elem. split; [|set_solver]. cbn [fst].
  rewrite length_app in *. cbn [length] in *.
  rewrite py_sorted_snoc by (apply Forall_forall; intros [j v] Hv; by apply tle_spec, (Htime j)).
  rewrite fmap_app, take_app_le.
  - intros Hin%subseteq_take. rewrite sorted_keys_perm in Hin. done.
  - rewrite length_fmap, (Permutation_length (py_sorted_perm _ c)). unfold MAX_CACHE in *. lia.
Qed.

Lemma cleanup_ok c now now' :
  cache_ok c now → QArith_base.Qle now now' → cache_ok (cleanup_cache c now') now'.
Proof.
  intros [Hwf Hlen Htime] Hle. split.
  - by apply cleanup_wf.
  - etrans; [apply length_filter|done].
  - intros k v [_ Hin]%list_elem_of_filter. specialize (Htime k v Hin). Lqa.lra.
Qed.

Section handling.
Context (local_id : bytes).

Lemma handle_resolve_cache overlay ge rm req a now c :
  cleanup_cache (rm_request_cache rm) now = c → dmem c (rr_request_id req) = false →
  rm_request_cache (handle_resolve_request local_id overlay ge rm req a now).1
    = bound_cache (dset c (rr_request_id req) now).
Proof. intros <- Hm. unfold handle_resolve_request. by rewrite Hm. Qed.

Lemma handle_resolve_seen overlay ge rm req a now :
  dmem (cleanup_cache (rm_request_cache rm) now) (rr_request_id req) = true →
  (handle_resolve_request local_id overlay ge rm req a now).2 = Ok [].
Proof. intros Hm. unfold handle_resolve_request. by rewrite Hm. Qed.

(** ** Properties *)

(** Each request is handled once.  With a cache of at most [MAX_CACHE] entries, handling a request
    keeps it within that bound; and a request id that was new is remembered for [CACHE_TTL] seconds,
    even when the cache was full: any further request with that id in that time, from anybody and
    with any contents, is answered with nothing. *)
Theorem resolve_request_once (overlay : list bytes) (ge : bytes → option endpoint)
    (rm : ResolutionManager) (req : ResolveRequestPayload) (a : endpoint) (t now : seconds) :
  cache_ok (rm_request_cache rm) t → QArith_base.Qle t now →
  let rm1 := (handle_resolve_request local_id overlay ge rm req a now).1 in
  cache_ok (rm_request_cache rm1) now ∧
  (dmem (cleanup_cache (rm_request_cache rm) now) (rr_request_id req) = false →
   ∀ overlay' ge' req' a' now',
     rr_request_id req' = rr_request_id req → QArith_base.Qle now now' →
     QArith_base.Qle (QArith_base.Qminus now' CACHE_TTL) now →
     (handle_resolve_request local_id overlay' ge' rm1 req' a' now').2 = Ok []).
Proof.
  intros Hc Ht. pose proof (cleanup_ok _ _ now Hc Ht) as Hcl. cbn zeta.
  destruct (dmem (cleanup_cache (rm_request_cache rm) now) (rr_request_id req)) eqn:Hm.
  { split; [|done]. unfold handle_resolve_request. rewrite Hm. done. }
  rewrite (handle_resolve_cache _ _ _ _ _ _ _ eq_refl Hm).
  set (c := cleanup_cache _ now) in *.
  destruct (bound_cache_ok (dset c (rr_request_id req) now)) as (Hwf & Hlen & Hsub);
    [apply dset_wf, Hcl|].
  assert (rr_request_id req ∉ c.*1) as Hnot by (by apply dget_None, dmem_false).
  split.
  - split; [done..|]. intros k v Hin%Hsub.
    apply elem_of_dset in Hin as [[= -> ->]|[_ Hin]]; [Lqa.lra| |apply Hcl].
    by apply (co_time _ _ Hcl k v).
  - intros _ ov' ge' req' a' now' Hid Hle Httl. apply handle_resolve_seen. rewrite Hid.
    rewrite (handle_resolve_cache _ _ _ _ _ _ _ eq_refl Hm).
    apply dmem_spec. exists now. apply dget_elem; [by apply cleanup_wf|].
    apply list_elem_of_filter. split; [by apply tlt_false|]. by apply bound_cache_newest.
Qed.

(** A forwarded request loses a hop.  Handling a well-formed request never fails; what it sends is
    the same question (request id and target) with the TTL reduced by one, only while the TTL is
    positive and only when the target is neither this node nor a peer with a known endpoint; it goes
    to endpoints of overlay members and never back to where the request came from. *)
Theorem resolve_request_forwarding (overlay : list bytes) (ge : bytes → option endpoint)
    (rm : ResolutionManager) (req : ResolveRequestPayload) (a : endpoint) (now : seconds) :
  payload_wf (PResolve req) →
  ∃ out, (handle_resolve_request local_id overlay ge rm req a now).2 = Ok out ∧
    ∀ pkt ep, (pkt, ep) ∈ out →
      pkt_type pkt = RESOLVE_REQUEST ∧
      resolve_deserialize (pkt_payload pkt)
        = Ok (mkResolve (rr_request_id req) (rr_target_peer_id req) (rr_ttl req - 1)) ∧
      (0 < rr_ttl req)%Z ∧ rr_target_peer_id req ≠ local_id ∧ ge (rr_target_peer_id req) = None ∧
      ep ≠ a ∧ ∃ pid, pid ∈ overlay ∧ ge pid = Some ep.
Proof.
  intros Hwf. unfold handle_resolve_request.
  destruct (dmem _ _); [exists []; set_solver|]. cbn [snd].
  case_bool_decide as Hl; [exists []; set_solver|].
  case_bool_decide as Hk; [exists []; set_solver|].
  destruct (Z.ltb_spec 0 (rr_ttl req)) as [Httl|]; [|exists []; set_solver].
  assert (payload_wf (PResolve (mkResolve (rr_request_id req) (rr_target_peer_id req) (rr_ttl req - 1))))
    as Hwf' by (cbn in *; lia).
  destruct (payload_serialize_ok _ Hwf') as [bs Hbs]. unfold make_packet. rewrite Hbs.
  eexists. split; [reflexivity|]. intros pkt ep Hin.
  apply list_elem_of_omap in Hin as (pid & Hpid & Hs).
  destruct (ge pid) as [ep'|] eqn:Hg; [|done]. cbn in Hs.
  case_bool_decide as Hne; [done|]. cbn in Hs. simplify_eq. cbn.
  pose proof (payload_roundtrip _ bs [] Hwf' Hbs) as Hr. rewrite app_nil_r in Hr. cbn in Hr.
  split_and!; eauto.
  - by destruct (resolve_deserialize bs); cbn in Hr; simplify_eq.
  - by apply eq_None_not_Some.
Qed.
End handling.

#[local] Arguments dget : simpl never.
#[local] Arguments dset : simpl never.
#[local] Arguments dpop : simpl never.

Section futures.
Context {S : Type} (verify : EndpointUpdatePayload → bool) (upd : EndpointUpdatePayload → S → S).

Lemma resolve_start_waits overlay ge rm target rid force fut :
  length target = 32 → length rid = 16 → (ge target = None ∨ force = true) →
  ∃ out, resolve_start overlay ge rm target force rid fut =
    (mkResolver (rm_request_cache rm) (dset (rm_pending rm) target fut)
       (<[fut := FutPending]> (rm_futures rm)), Ok (Waiting fut out)).
Proof.
  intros Ht Hr Hf. unfold resolve_start.
  destruct (payload_serialize_ok (PResolve (mkResolve rid target RESOLVE_MAX_TTL))) as [bs Hbs].
  { cbn. unfold RESOLVE_MAX_TTL, MAX_TTL. lia. }
  unfold make_packet. rewrite Hbs. cbn [mbind result_bind].
  destruct Hf as [->| ->]; [by eexists|]. destruct (ge target); by eexists.
Qed.

(** A verified update answers the resolution it is for.  A resolution that is waiting on the network
    returns the endpoint of an ENDPOINT_UPDATE for its target that passes verification; an update that
    does not pass changes neither the resolver nor the node, and the resolution then times out with
    [None]. *)
Theorem endpoint_update_resolves (overlay : list bytes) (ge : bytes → option endpoint)
    (rm : ResolutionManager) (target rid : bytes) (force : bool) (fut : nat)
    (u : EndpointUpdatePayload) (s : S) :
  length target = 32 → length rid = 16 → (ge target = None ∨ force = true) →
  eu_peer_id u = target →
  ∃ rm1 out, resolve_start overlay ge rm target force rid fut = (rm1, Ok (Waiting fut out)) ∧
    let '(rm2, s2, accepted) := handle_endpoint_update verify upd rm1 s u in
    if verify u
    then accepted = true ∧ s2 = upd u s ∧
         (resolve_finish rm2 target fut).2 = Some (eu_endpoint_ip u, eu_endpoint_port u)
    else accepted = false ∧ s2 = s ∧ rm2 = rm1 ∧ (resolve_finish rm2 target fut).2 = None.
Proof using Type.
  intros Ht Hr Hf Hu. destruct (resolve_start_waits overlay ge rm target rid force fut Ht Hr Hf) as [out E].
  rewrite E. eexists _, _. split; [done|]. unfold handle_endpoint_update. cbn.
  destruct (verify u) eqn:Hv; cbn.
  - rewrite Hu, dget_dset_eq, lookup_insert_eq. cbn. unfold resolve_finish. cbn.
    by rewrite lookup_insert_eq.
  - unfold resolve_finish. cbn. by rewrite lookup_insert_eq.
Qed.

(** Two resolutions of one peer interfere.  When a second resolution for the same target starts while
    the first waits, it takes the pending entry over; the first then ends with [None], and in doing so
    drops the second's entry, so that a verified update arriving afterwards, while the second is still
    waiting, does not complete it either. *)
Theorem concurrent_resolutions_interfere (overlay : list bytes) (ge : bytes → option endpoint)
    (rm : ResolutionManager) (target rid1 rid2 : bytes) (fut1 fut2 : nat)
    (u : EndpointUpdatePayload) (s : S) :
  length target = 32 → length rid1 = 16 → length rid2 = 16 → ge target = None → fut1 ≠ fut2 →
  eu_peer_id u = target → verify u = true →
  ∃ rm1 out1 rm2 out2 rm3,
    resolve_start overlay ge rm target false rid1 fut1 = (rm1, Ok (Waiting fut1 out1)) ∧
    resolve_start overlay ge rm1 target false rid2 fut2 = (rm2, Ok (Waiting fut2 out2)) ∧
    resolve_finish rm2 target fut1 = (rm3, None) ∧
    (handle_endpoint_update verify upd rm3 s u).2 = true ∧
    (resolve_finish (handle_endpoint_update verify upd rm3 s u).1.1 target fut2).2 = None.
Proof using Type.
  intros Ht H1 H2 Hg Hne Hu Hv.
  destruct (resolve_start_waits overlay ge rm target rid1 false fut1 Ht H1 (or_introl Hg)) as [out1 E1].
  rewrite E1. eexists _, _.
  edestruct (resolve_start_waits overlay ge) as [out2 E2];
    [exact Ht|exact H2|left; exact Hg|].
  do 3 eexists. split; [reflexivity|]. split; [exact E2|]. unfold resolve_finish. cbn.
  rewrite lookup_insert_ne, lookup_insert_eq by done. split; [reflexivity|].
  unfold handle_endpoint_update. cbn. rewrite Hv, Hu. cbn. rewrite dget_dpop_eq. cbn.
  rewrite lookup_insert_ne, lookup_insert_eq by done. done.
Qed.
End futures.

(** ** Witnesses *)

Module ResolutionExample.
Definition me : bytes := be_encode 32 1.
Definition target : bytes := be_encode 32 2.
Definition ep : endpoint := (str "10.0.0.9", 4000%Z).
Definition ge (p : bytes) : option endpoint := if p =?b me then Some ep else None.
Definition req : ResolveRequestPayload := mkResolve (be_encode 16 7) target 3.
Definition update : EndpointUpdatePayload :=
  mkEndpointUpdate target (str "10.0.0.3") 5000 1 (be_encode 64 0).

Lemma resolve_request_once_witness :
  let rm1 := (handle_resolve_request target [] ge empty_resolver req ep (secs 10)).1 in
  cache_ok (rm_request_cache rm1) (secs 10) ∧
  (handle_resolve_request target [me] ge rm1 req ep (secs 300)).2 = Ok [].
Proof.
  destruct (resolve_request_once target [] ge empty_resolver req ep (secs 0) (secs 10)) as [H1 H2].
  - split; [apply NoDup_nil_2|cbn; lia|intros k v; by intros ?%elem_of_nil].
  - vm_compute. discriminate.
  - split; [exact H1|]. apply H2; [reflexivity..| |]; vm_compute; discriminate.
Defined.

Lemma resolve_request_forwarding_witness :
  ∃ out, (handle_resolve_request (be_encode 32 5) [me] ge empty_resolver req (str "x", 1%Z) (secs 0)).2
    = Ok out ∧ length out = 1 ∧ ∀ pkt e, (pkt, e) ∈ out → pkt_type pkt = RESOLVE_REQUEST.
Proof.
  destruct (resolve_request_forwarding (be_encode 32 5) [me] ge empty_resolver req (str "x", 1%Z) (secs 0))
    as (out & Ho & H).
  - vm_compute. repeat split; discriminate.
  - exists out. split; [exact Ho|]. split; [|intros pkt e Hin; apply (H pkt e Hin)].
    revert Ho. vm_compute. intros Ho. injection Ho as <-. reflexivity.
Defined.

Lemma endpoint_update_resolves_witness :
  ∃ rm1 out, resolve_start [] ge empty_resolver target false (be_encode 16 3) 0
      = (rm1, Ok (Waiting 0 out)) ∧
    (resolve_finish (handle_endpoint_update (λ _, true) (λ _ n, n + 1) rm1 0 update).1.1 target 0).2
      = Some (str "10.0.0.3", 5000%Z).
Proof.
  destruct (endpoint_update_resolves (λ _, true) (λ _ n, n + 1) [] ge empty_resolver target
    (be_encode 16 3) false 0 update 0) as (rm1 & out & H1 & H2).
  - reflexivity.
  - reflexivity.
  - left. reflexivity.
  - reflexivity.
  - exists rm1, out. split; [exact H1|].
    destruct (handle_endpoint_update _ _ rm1 0 update) as [[rm2 s2] acc]. apply H2.
Defined.

Lemma concurrent_resolutions_interfere_witness :
  ∃ rm1 out1 rm2 out2 rm3,
    resolve_start [] ge empty_resolver target false (be_encode 16 3) 0 = (rm1, Ok (Waiting 0 out1)) ∧
    resolve_start [] ge rm1 target false (be_encode 16 4) 1 = (rm2, Ok (Waiting 1 out2)) ∧
    resolve_finish rm2 target 0 = (rm3, None) ∧
    (handle_endpoint_update (λ _, true) (λ _ n, n + 1) rm3 0 update).2 = true ∧
    (resolve_finish (handle_endpoint_update (λ _, true) (λ _ n, n + 1) rm3 0 update).1.1 target 1).2
      = None.
Proof.
  apply (concurrent_resolutions_interfere (λ _, true) (λ _ n, n + 1) [] ge empty_resolver target
    (be_encode 16 3) (be_encode 16 4) 0 1 update 0).
  - reflexivity.
  - reflexivity.
  - reflexivity.
  - reflexivity.
  - discriminate.
  - reflexivity.
  - reflexivity.
Defined.
End ResolutionExample.
