(* ===== verification/Reconnect.v ===== *)
(** * Reconnection with backoff (reconnect.py)

    [ReconnectManager].  The entry dict of a peer is an object the loop holds on to while its
    callbacks run and may replace it, so entries live in a heap and [self._state] maps peers to
    references.  [reconnect_pass] is one turn of [_reconnect_loop], over a caller state [S] that
    contains the manager; the callbacks act on [S] and may raise (the exception is logged). *)

From S2P Require Import Prelude Bytes PyDict.

Definition BACKOFF_SCHEDULE : list Z := [1; 2; 4; 8; 16; 32; 60; 300; 900; 3600; 21600]%Z.
Definition ARCHIVE_DAYS : Z := 7.
Definition ARCHIVE_RETRY : seconds := secs 86400.

Record RetryState := mkRetry {
  rs_attempt : nat; rs_first_disconnect : seconds; rs_next_retry : seconds }.

Record ReconnectManager := mkReconnect {
  rc_state : dict bytes nat;
  rc_objs : gmap nat RetryState }.

Definition empty_reconnect : ReconnectManager := mkReconnect [] ∅.

(** [self._state.get(peer_id)], followed to the entry object. *)
Definition retry_state (rc : ReconnectManager) (peer_id : bytes) : option RetryState :=
  r ← dget (rc_state rc) peer_id; rc_objs rc !! r.

(** [BACKOFF_SCHEDULE[attempt]], capped at the last interval *)
Definition backoff_of (attempt : nat) : Z :=
  if (length BACKOFF_SCHEDULE <=? attempt)%nat then List.last BACKOFF_SCHEDULE 0%Z
  else nth attempt BACKOFF_SCHEDULE 0%Z.

Definition get_backoff (rc : ReconnectManager) (peer_id : bytes) : Z :=
  match retry_state rc peer_id with
  | None => nth 0 BACKOFF_SCHEDULE 0%Z
  | Some st => backoff_of (rs_attempt st)
  end.

Definition should_archive (rc : ReconnectManager) (peer_id : bytes) (now : seconds) : bool :=
  match retry_state rc peer_id with
  | None => false
  | Some st => tlt (secs (ARCHIVE_DAYS * 86400)) (tsub now (rs_first_disconnect st))
  end.

Definition get_attempt_count (rc : ReconnectManager) (peer_id : bytes) : nat :=
  match retry_state rc peer_id with None => 0 | Some st => rs_attempt st end.

(** A new entry object for [peer_id]. *)
Definition new_retry (rc : ReconnectManager) (peer_id : bytes) (st : RetryState) : ReconnectManager :=
  let r := fresh (dom (rc_objs rc)) in
  mkReconnect (dset (rc_state rc) peer_id r) (<[r := st]> (rc_objs rc)).

Definition record_disconnect (rc : ReconnectManager) (peer_id : bytes) (now : seconds)
    : ReconnectManager :=
  if dmem (rc_state rc) peer_id then rc
  else new_retry rc peer_id (mkRetry 0 now (tadd now (secs (nth 0 BACKOFF_SCHEDULE 0%Z)))).

Definition record_connect (rc : ReconnectManager) (peer_id : bytes) : ReconnectManager :=
  mkReconnect (dpop (rc_state rc) peer_id) (rc_objs rc).

Definition record_attempt (rc : ReconnectManager) (peer_id : bytes) (now : seconds)
    : ReconnectManager :=
  let rc1 := if dmem (rc_state rc) peer_id then rc else new_retry rc peer_id (mkRetry 0 now now) in
  match dget (rc_state rc1) peer_id with
  | None => rc1
  | Some r =>
      mkReconnect (rc_state rc1)
        (alter (λ st, mkRetry (rs_attempt st + 1) (rs_first_disconnect st)
                        (tadd now (secs (backoff_of (rs_attempt st + 1))))) r (rc_objs rc1))
  end.

(** ** The reconnection loop *)

Section reconnect_loop.
Context {S : Type} (getr : S → ReconnectManager) (setr : ReconnectManager → S → S).
Context (connect_fn archive_fn : bytes → S → S * result ()).

(** One iteration: [now] is read at the start of the pass, [t_check] and [t_attempt] are the
    readings of [should_archive] and [record_attempt]; [r] is the entry object. *)
Definition reconnect_one (now : seconds) (t_check t_attempt : bytes → seconds) (s : S)
    (item : bytes * nat) : S :=
  let '(peer_id, r) := item in
  match rc_objs (getr s) !! r with
  | None => s
  | Some st =>
      if tlt now (rs_next_retry st) then s else
      if should_archive (getr s) peer_id (t_check peer_id) then
        let s1 := (archive_fn peer_id s).1 in
        setr (mkReconnect (rc_state (getr s1))
                (alter (λ st, mkRetry (rs_attempt st) (rs_first_disconnect st)
                                (tadd now ARCHIVE_RETRY)) r (rc_objs (getr s1)))) s1
      else
        let s1 := (connect_fn peer_id s).1 in
        setr (record_attempt (getr s1) peer_id (t_attempt peer_id)) s1
  end.

Definition reconnect_pass (now : seconds) (t_check t_attempt : bytes → seconds) (s : S) : S :=
  foldl (reconnect_one now t_check t_attempt) s (rc_state (getr s)).
End reconnect_loop.

(** ** The manager invariant: every entry has its own object *)

Record reconnect_ok (rc : ReconnectManager) : Prop := {
  ro_wf : dict_wf (rc_state rc);
  ro_live : ∀ p r, dget (rc_state rc) p = Some r → is_Some (rc_objs rc !! r);
  ro_inj : ∀ p p' r, dget (rc_state rc) p = Some r → dget (rc_state rc) p' = Some r → p = p' }.

Lemma new_retry_ok rc p st : reconnect_ok rc → reconnect_ok (new_retry rc p st).
Proof.
  intros [Hwf Hl Hi]. unfold new_retry.
  pose proof (is_fresh (dom (rc_objs rc))) as Hf. set (r := fresh _) in *.
  assert (∀ q, dget (rc_state rc) q ≠ Some r) as Hne.
  { intros q Hq. apply Hf, elem_of_dom. eauto. }
  split; cbn.
  - by apply dset_wf.
  - intros q r'. rewrite dget_dset. case_decide; [intros [= <-]; rewrite lookup_insert_eq; eauto|].
    intros Hq. rewrite lookup_insert_ne; [eauto|]. intros <-. by destruct (Hne q).
  - intros q q' r'. rewrite !dget_dset. repeat case_decide; intros; simplify_eq; eauto; by edestruct Hne.
Qed.

Lemma new_retry_same rc p st : retry_state (new_retry rc p st) p = Some st.
Proof. unfold retry_state, new_retry. cbn. rewrite dget_dset_eq. cbn. apply lookup_insert_eq. Qed.

Lemma new_retry_other rc p st q :
  reconnect_ok rc → q ≠ p → retry_state (new_retry rc p st) q = retry_state rc q.
Proof.
  intros [_ Hl _] Hne. unfold retry_state, new_retry. cbn. rewrite dget_dset_ne by done.
  destruct (dget (rc_state rc) q) as [r|] eqn:E; [|done]. cbn. apply lookup_insert_ne.
  intros <-. apply (is_fresh (dom (rc_objs rc))), elem_of_dom. eauto.
Qed.

Lemma retry_state_absent rc p : reconnect_ok rc → dmem (rc_state rc) p = bool_decide (is_Some (retry_state rc p)).
Proof.
  intros [_ Hl _]. unfold dmem, retry_state. apply bool_decide_ext.
  destruct (dget (rc_state rc) p) as [r|] eqn:E; cbn; [|done].
  destruct (Hl _ _ E) as [st ->]. split; eauto.
Qed.

(** The entry of a peer after an attempt. *)
Definition attempted (st : RetryState) (now : seconds) : RetryState :=
  mkRetry (rs_attempt st + 1) (rs_first_disconnect st) (tadd now (secs (backoff_of (rs_attempt st + 1)))).

Lemma alter_state rc p r f st :
  reconnect_ok rc → dget (rc_state rc) p = Some r → rc_objs rc !! r = Some st →
  reconnect_ok (mkReconnect (rc_state rc) (alter f r (rc_objs rc))) ∧
  retry_state (mkReconnect (rc_state rc) (alter f r (rc_objs rc))) p = Some (f st) ∧
  ∀ q, q ≠ p → retry_state (mkReconnect (rc_state rc) (alter f r (rc_objs rc))) q = retry_state rc q.
Proof.
  intros [Hwf Hl Hi] Hp Hr. split_and!.
  - split; cbn; [done| |done]. intros q r' Hq. rewrite lookup_alter.
    destruct (Hl _ _ Hq) as [x Hx]. case_decide; subst; rewrite Hx; eauto.
  - unfold retry_state. cbn. rewrite Hp. cbn. by rewrite lookup_alter_eq, Hr.
  - intros q Hq. unfold retry_state. cbn. destruct (dget (rc_state rc) q) as [r'|] eqn:E; [|done].
    cbn. apply lookup_alter_ne. intros <-. apply Hq. by eapply Hi.
Qed.

Lemma record_attempt_spec rc p now :
  reconnect_ok rc →
  reconnect_ok (record_attempt rc p now) ∧
  retry_state (record_attempt rc p now) p
    = Some (attempted (default (mkRetry 0 now now) (retry_state rc p)) now) ∧
  ∀ q, q ≠ p → retry_state (record_attempt rc p now) q = retry_state rc q.
Proof.
  intros Hok. unfold record_attempt. rewrite retry_state_absent by done.
  assert (∀ rc1 st, reconnect_ok rc1 → retry_state rc1 p = Some st →
    (∀ q, q ≠ p → retry_state rc1 q = retry_state rc q) →
    let rc2 := match dget (rc_state rc1) p with
      | Some r => mkReconnect (rc_state rc1) (alter (λ st, mkRetry (rs_attempt st + 1)
          (rs_first_disconnect st) (tadd now (secs (backoff_of (rs_attempt st + 1))))) r (rc_objs rc1))
      | None => rc1 end in
    reconnect_ok rc2 ∧ retry_state rc2 p = Some (attempted st now) ∧
    ∀ q, q ≠ p → retry_state rc2 q = retry_state rc q) as Hgen.
  { intros rc1 st Hok1 Hst Hoth. unfold retry_state in Hst.
    destruct (dget (rc_state rc1) p) as [r|] eqn:E; [|done]. cbn in Hst.
    edestruct (alter_state rc1 p r) as (H1 & H2 & H3); [done..|]. split_and!; [done..|].
    intros q Hq. rewrite H3 by done. auto. }
  case_bool_decide as E.
  - destruct E as [st Hst]. rewrite Hst. by apply Hgen.
  - rewrite <- eq_None_not_Some in E. rewrite E. apply Hgen.
    + by apply new_retry_ok.
    + apply new_retry_same.
    + intros q Hq. by apply new_retry_other.
Qed.

Lemma record_disconnect_spec rc p now :
  reconnect_ok rc →
  reconnect_ok (record_disconnect rc p now) ∧
  retry_state (record_disconnect rc p now) p
    = Some (default (mkRetry 0 now (tadd now (secs 1))) (retry_state rc p)) ∧
  ∀ q, q ≠ p → retry_state (record_disconnect rc p now) q = retry_state rc q.
Proof.
  intros Hok. unfold record_disconnect. rewrite retry_state_absent by done.
  case_bool_decide as E.
  - destruct E as [st Hst]. by rewrite Hst.
  - rewrite <- eq_None_not_Some in E. rewrite E. split_and!.
    + by apply new_retry_ok.
    + apply new_retry_same.
    + intros q Hq. by apply new_retry_other.
Qed.

Lemma record_connect_spec rc p :
  reconnect_ok rc → reconnect_ok (record_connect rc p) ∧ retry_state (record_connect rc p) p = None ∧
  ∀ q, q ≠ p → retry_state (record_connect rc p) q = retry_state rc q.
Proof.
  intros [Hwf Hl Hi]. unfold record_connect, retry_state. split_and!; cbn.
  - split; cbn; [by apply dpop_wf| |].
    + intros q r. rewrite dget_dpop. case_decide; [done|]. apply Hl.
    + intros q q' r. rewrite !dget_dpop. repeat case_decide; try done. apply Hi.
  - by rewrite dget_dpop_eq.
  - intros q Hq. by rewrite dget_dpop_ne.
Qed.

Lemma empty_reconnect_ok : reconnect_ok empty_reconnect.
Proof. split; cbn; [apply NoDup_nil_2|done..]. Qed.

Lemma backoff_bounds n : (1 ≤ backoff_of n ≤ 21600)%Z ∧ (backoff_of n ≤ backoff_of (S n))%Z.
Proof. do 12 (destruct n as [|n]; [vm_compute; repeat split; discriminate|]). vm_compute. repeat split; discriminate. Qed.

Lemma record_attempts_spec rc p st ts :
  reconnect_ok rc → retry_state rc p = Some st →
  let rc' := foldl (λ rc t, record_attempt rc p t) rc ts in
  reconnect_ok rc' ∧
  retry_state rc' p = Some (foldl attempted st ts) ∧
  rs_attempt (foldl attempted st ts) = rs_attempt st + length ts ∧
  rs_first_disconnect (foldl attempted st ts) = rs_first_disconnect st.
Proof.
  revert rc st. induction ts as [|t ts IH]; intros rc st Hok Hst; cbn -[backoff_of].
  - rewrite Nat.add_0_r. done.
  - destruct (record_attempt_spec rc p t Hok) as (Hok' & Hst' & _). rewrite Hst in Hst'. cbn in Hst'.
    destruct (IH _ _ Hok' Hst') as (H1 & H2 & H3 & H4). split_and!; [done..| |done].
    rewrite H3. cbn. lia.
Qed.

(** ** Properties *)

(** The backoff schedule.  After a disconnect and any number of recorded attempts, the last of
    them at time [t], the attempt count is that number, the disconnect time is kept and the next retry
    is due the scheduled interval after [t]: between one second and six hours, never shorter than
    the interval before. *)
Theorem backoff_schedule_followed (rc : ReconnectManager) (p : bytes) (t0 t : seconds) (ts : list seconds) :
  reconnect_ok rc → retry_state rc p = None →
  let rc' := foldl (λ rc t, record_attempt rc p t) (record_disconnect rc p t0) (ts ++ [t]) in
  let n := length ts + 1 in
  retry_state rc' p = Some (mkRetry n t0 (tadd t (secs (get_backoff rc' p)))) ∧
  get_backoff rc' p = backoff_of n ∧ (1 ≤ backoff_of n ≤ 21600)%Z ∧
  (backoff_of (n - 1) ≤ backoff_of n)%Z.
Proof.
  intros Hok Hnone. destruct (record_disconnect_spec rc p t0 Hok) as (Hok1 & Hst & _).
  rewrite Hnone in Hst. cbn [default from_option id] in Hst.
  destruct (record_attempts_spec _ p _ ts Hok1 Hst) as (Hok2 & Hst2 & Ha & Hf).
  cbn zeta. rewrite foldl_app. cbn [foldl].
  destruct (record_attempt_spec _ p t Hok2) as (_ & Hst3 & _). rewrite Hst2 in Hst3.
  cbn [default from_option id] in Hst3. unfold attempted at 1 in Hst3. rewrite Ha, Hf in Hst3.
  cbn [rs_attempt rs_first_disconnect Nat.add] in Hst3.
  unfold get_backoff. rewrite Hst3. cbn [rs_attempt]. split_and!; [done..| | |].
  - apply backoff_bounds.
  - apply backoff_bounds.
  - replace (length ts + 1 - 1) with (length ts) by lia. rewrite Nat.add_1_r. apply backoff_bounds.
Qed.

Section loop_properties.
Context {S : Type} (getr : S → ReconnectManager) (setr : ReconnectManager → S → S).
Context (get_set : ∀ r s, getr (setr r s) = r).

(** A peer the loop has connected stays scheduled.  When the loop tries a due peer, whatever the
    connection callback does, the peer has an entry afterwards with at least one attempt; in
    particular, if the callback succeeds and clears the entry with [record_connect], the loop puts
    a new one back, due again two seconds later. *)
Theorem reconnect_entry_resurrected (connect_fn archive_fn : bytes → S → S * result ())
    (s : S) (p : bytes) (r : nat) (st : RetryState) (now : seconds) (t_check t_attempt : bytes → seconds) :
  rc_objs (getr s) !! r = Some st → tlt now (rs_next_retry st) = false →
  should_archive (getr s) p (t_check p) = false →
  reconnect_ok (getr (connect_fn p s).1) →
  let rc' := getr (reconnect_one getr setr connect_fn archive_fn now t_check t_attempt s (p, r)) in
  (∃ st', retry_state rc' p = Some st' ∧ 1 ≤ rs_attempt st') ∧
  (retry_state (getr (connect_fn p s).1) p = None →
   retry_state rc' p = Some (mkRetry 1 (t_attempt p) (tadd (t_attempt p) (secs 2)))).
Proof using get_set.
  intros Hr Hdue Harch Hok. cbn zeta. unfold reconnect_one. rewrite Hr, Hdue, Harch.
  rewrite get_set. destruct (record_attempt_spec _ p (t_attempt p) Hok) as (_ & Hst & _).
  split.
  - eexists. split; [exact Hst|]. cbn. lia.
  - intros Hnone. rewrite Hst, Hnone. done.
Qed.

(** An archived peer is never retried.  Once a peer has been disconnected for more than seven
    days, the loop does not call the connection callback for it: its turn has the same effect for
    every callback, and the peer's entry is next due 24 hours later. *)
Theorem archived_peer_not_retried (connect_fn connect_fn' archive_fn : bytes → S → S * result ())
    (s : S) (p : bytes) (r : nat) (st : RetryState) (now : seconds) (t_check t_attempt : bytes → seconds) :
  rc_objs (getr s) !! r = Some st → tlt now (rs_next_retry st) = false →
  should_archive (getr s) p (t_check p) = true →
  reconnect_ok (getr (archive_fn p s).1) → dget (rc_state (getr (archive_fn p s).1)) p = Some r →
  let s' := reconnect_one getr setr connect_fn archive_fn now t_check t_attempt s (p, r) in
  s' = reconnect_one getr setr connect_fn' archive_fn now t_check t_attempt s (p, r) ∧
  ∃ st', retry_state (getr s') p = Some st' ∧ rs_next_retry st' = tadd now ARCHIVE_RETRY.
Proof using get_set.
  intros Hr Hdue Harch Hok Hp. cbn zeta. unfold reconnect_one. rewrite Hr, Hdue, Harch.
  split; [done|]. rewrite get_set. destruct (ro_live _ Hok _ _ Hp) as [st1 Hst1].
  edestruct (alter_state (getr (archive_fn p s).1) p r) as (_ & H2 & _); [done..|].
  eexists. split; [exact H2|]. done.
Qed.
End loop_properties.

(** ** Witnesses *)

Module ReconnectExample.
Definition p : bytes := be_encode 32 1.
Definition rc0 : ReconnectManager := record_disconnect empty_reconnect p (secs 0).
Definition connect (q : bytes) (rc : ReconnectManager) : ReconnectManager * result () :=
  (record_connect rc q, Ok ()).
Definition nothing (q : bytes) (rc : ReconnectManager) : ReconnectManager * result () := (rc, Ok ()).

Lemma rc0_ok : reconnect_ok rc0.
Proof. apply record_disconnect_spec, empty_reconnect_ok. Qed.

Lemma backoff_schedule_followed_witness :
  let rc' := foldl (λ rc t, record_attempt rc p t) (record_disconnect empty_reconnect p (secs 0))
               ([secs 1; secs 3] ++ [secs 7]) in
  retry_state rc' p = Some (mkRetry 3 (secs 0) (tadd (secs 7) (secs (get_backoff rc' p)))) ∧
  get_backoff rc' p = 8%Z.
Proof.
  destruct (backoff_schedule_followed empty_reconnect p (secs 0) (secs 7) [secs 1; secs 3])
    as (H1 & H2 & _).
  - apply empty_reconnect_ok.
  - reflexivity.
  - split; [exact H1|exact H2].
Defined.

Lemma reconnect_entry_resurrected_witness :
  retry_state (reconnect_one id (λ r _, r) connect nothing (secs 5) (λ _, secs 5) (λ _, secs 6) rc0
    (p, 0)) p = Some (mkRetry 1 (secs 6) (tadd (secs 6) (secs 2))).
Proof.
  apply (reconnect_entry_resurrected id (λ r _, r) (λ _ _, eq_refl) connect nothing rc0 p 0
    (mkRetry 0 (secs 0) (tadd (secs 0) (secs 1))) (secs 5) (λ _, secs 5) (λ _, secs 6)).
  - reflexivity.
  - reflexivity.
  - reflexivity.
  - apply record_connect_spec, rc0_ok.
  - reflexivity.
Defined.

Lemma archived_peer_not_retried_witness :
  reconnect_one id (λ r _, r) connect nothing (secs 700000) (λ _, secs 700000) (λ _, secs 700000) rc0 (p, 0)
  = reconnect_one id (λ r _, r) nothing nothing (secs 700000) (λ _, secs 700000) (λ _, secs 700000) rc0 (p, 0).
Proof.
  apply (archived_peer_not_retried id (λ r _, r) (λ _ _, eq_refl) connect nothing nothing rc0 p 0
    (mkRetry 0 (secs 0) (tadd (secs 0) (secs 1))) (secs 700000) (λ _, secs 700000) (λ _, secs 700000)).
  - reflexivity.
  - reflexivity.
  - reflexivity.
  - apply rc0_ok.
  - reflexivity.
Defined.
End ReconnectExample.
