(* ===== verification/Heartbeat.v ===== *)
(** * Heartbeats (heartbeat.py)

    [HeartbeatManager].  A heartbeat loop is a task; [_heartbeat_loop] awaits twice per round, so it
    is cut there: [wake_ping] runs from the first sleep to the second, [wake_check] from the second
    to the next round.  Between the two, other code runs (a PONG may arrive).  Live loops are kept in
    [hb_loops] under the task's number, with the loop's local variables.  A ping sent and a call of
    [on_suspect] or [on_disconnect] are events. *)

From S2P Require Import Prelude Bytes PyDict PyText Packet Overlay.

(** The local state of a running loop: where it sleeps, and [missed]. *)
Inductive loop_phase := SleepInterval | AwaitPong.
Record hb_loop := mkLoop { lp_peer : bytes; lp_missed : nat; lp_phase : loop_phase }.

Record HeartbeatManager := mkHeartbeat {
  hb_tasks : dict bytes nat;
  hb_loops : gmap nat hb_loop;
  hb_last_traffic : dict bytes seconds;
  hb_pending_pings : dict bytes bytes;
  hb_peer_info : dict bytes (bytes * endpoint) }.

Definition empty_heartbeat : HeartbeatManager := mkHeartbeat [] ∅ [] [] [].

Inductive hb_event :=
| HbSend (pkt : Packet) (addr : endpoint)
| HbSuspect (peer_id : bytes)
| HbDisconnect (peer_id : bytes).

Definition record_traffic (hb : HeartbeatManager) (peer_id : bytes) (now : seconds) : HeartbeatManager :=
  mkHeartbeat (hb_tasks hb) (hb_loops hb) (dset (hb_last_traffic hb) peer_id now)
    (hb_pending_pings hb) (hb_peer_info hb).

Definition register_peer (hb : HeartbeatManager) (peer_id session_id : bytes) (addr : endpoint)
    (now : seconds) : HeartbeatManager :=
  mkHeartbeat (hb_tasks hb) (hb_loops hb) (dset (hb_last_traffic hb) peer_id now)
    (hb_pending_pings hb) (dset (hb_peer_info hb) peer_id (session_id, addr)).

(** [_get_interval] *)
Definition get_interval (hb : HeartbeatManager) (peer_id : bytes) (now : seconds) : Z :=
  let last := default now (dget (hb_last_traffic hb) peer_id) in
  let idle := tsub now last in
  if tlt idle (secs 60) then 10 else if tlt idle (secs 300) then 20 else 60.

Definition with_loops (hb : HeartbeatManager) (loops : gmap nat hb_loop) : HeartbeatManager :=
  mkHeartbeat (hb_tasks hb) loops (hb_last_traffic hb) (hb_pending_pings hb) (hb_peer_info hb).

Definition with_pings (hb : HeartbeatManager) (pings : dict bytes bytes) : HeartbeatManager :=
  mkHeartbeat (hb_tasks hb) (hb_loops hb) (hb_last_traffic hb) pings (hb_peer_info hb).

(** [stop_heartbeat]: the task is forgotten and, if it still runs, cancelled *)
Definition stop_heartbeat (hb : HeartbeatManager) (peer_id : bytes) : HeartbeatManager :=
  match dget (hb_tasks hb) peer_id with
  | None => hb
  | Some task =>
      mkHeartbeat (dpop (hb_tasks hb) peer_id) (delete task (hb_loops hb)) (hb_last_traffic hb)
        (hb_pending_pings hb) (hb_peer_info hb)
  end.

(** [start_heartbeat], for the number [task] of the new task *)
Definition start_heartbeat (hb : HeartbeatManager) (peer_id : bytes) (task : nat) : HeartbeatManager :=
  let hb1 := stop_heartbeat hb peer_id in
  mkHeartbeat (dset (hb_tasks hb1) peer_id task)
    (<[task := mkLoop peer_id 0 SleepInterval]> (hb_loops hb1)) (hb_last_traffic hb1)
    (hb_pending_pings hb1) (hb_peer_info hb1).

Definition stop_all (hb : HeartbeatManager) : HeartbeatManager :=
  foldl stop_heartbeat hb (hb_tasks hb).*1.

Definition handle_pong (hb : HeartbeatManager) (pong : PongPayload) (now : seconds)
    : HeartbeatManager * option bytes :=
  match dfind (λ _ pending, pending =?b pong_ping_id pong) (hb_pending_pings hb) with
  | Some (pid, _) => (record_traffic (with_pings hb (dpop (hb_pending_pings hb) pid)) pid now, Some pid)
  | None => (hb, None)
  end.

(** From the first sleep to the second; [ping_id] is drawn. *)
Definition wake_ping (hb : HeartbeatManager) (task : nat) (ping_id : bytes)
    : HeartbeatManager * list hb_event :=
  match hb_loops hb !! task with
  | Some (mkLoop peer_id missed SleepInterval) =>
      match dget (hb_peer_info hb) peer_id with
      | None => (with_loops hb (delete task (hb_loops hb)), [])
      | Some (session_id, addr) =>
          let hb1 := with_pings hb (dset (hb_pending_pings hb) peer_id ping_id) in
          match make_packet PING (PPing (mkPing session_id ping_id)) with
          | Raise _ => (with_loops hb1 (delete task (hb_loops hb1)), [])
          | Ok ping =>
              (with_loops hb1 (<[task := mkLoop peer_id missed AwaitPong]> (hb_loops hb1)),
               [HbSend ping addr])
          end
      end
  | _ => (hb, [])
  end.

(** From the second sleep to the end of the round. *)
Definition wake_check (hb : HeartbeatManager) (task : nat) : HeartbeatManager * list hb_event :=
  match hb_loops hb !! task with
  | Some (mkLoop peer_id missed AwaitPong) =>
      if dmem (hb_pending_pings hb) peer_id then
        let missed := S missed in
        let hb1 := with_pings hb (dpop (hb_pending_pings hb) peer_id) in
        if (6 <=? missed)%nat then
          (with_loops hb1 (delete task (hb_loops hb1)), [HbDisconnect peer_id])
        else
          (with_loops hb1 (<[task := mkLoop peer_id missed SleepInterval]> (hb_loops hb1)),
           if (3 <=? missed)%nat then [HbSuspect peer_id] else [])
      else (with_loops hb (<[task := mkLoop peer_id 0 SleepInterval]> (hb_loops hb)), [])
  | _ => (hb, [])
  end.

(** ** Rounds

    A round of a peer's loop: the ping goes out, its PONG comes back in time or does not, the loop
    looks.  The ping ids of the other peers' pending pings differ from this one's. *)
Definition heartbeat_round (hb : HeartbeatManager) (task : nat) (round : bytes * bool * seconds)
    : HeartbeatManager * list hb_event :=
  let '(ping_id, answered, now) := round in
  let '(hb1, ev1) := wake_ping hb task ping_id in
  let hb2 := if answered then (handle_pong hb1 (mkPong [] ping_id) now).1 else hb1 in
  let '(hb3, ev2) := wake_check hb2 task in
  (hb3, ev1 ++ ev2).

Fixpoint heartbeat_run (hb : HeartbeatManager) (task : nat) (rounds : list (bytes * bool * seconds))
    : HeartbeatManager * list hb_event :=
  match rounds with
  | [] => (hb, [])
  | round :: rounds =>
      let '(hb1, ev1) := heartbeat_round hb task round in
      let '(hb2, ev2) := heartbeat_run hb1 task rounds in
      (hb2, ev1 ++ ev2)
  end.

(** What the run should tell the node, from the answers alone: [missed] is the number of
    consecutive unanswered pings so far. *)
Fixpoint heartbeat_spec (peer_id : bytes) (missed : nat) (answers : list bool) : list hb_event :=
  match answers with
  | [] => []
  | true :: answers => heartbeat_spec peer_id 0 answers
  | false :: answers =>
      if decide (missed = 5) then [HbDisconnect peer_id]
      else (if decide (2 ≤ missed) then [HbSuspect peer_id] else [])
           ++ heartbeat_spec peer_id (S missed) answers
  end.

Definition is_notice (e : hb_event) : bool := match e with HbSend _ _ => false | _ => true end.

(** The peer's ping is not pending and no other peer waits on an id used in the run. *)
Definition pings_apart (hb : HeartbeatManager) (peer_id : bytes) (ids : list bytes) : Prop :=
  ∀ q i, dget (hb_pending_pings hb) q = Some i → q ≠ peer_id ∧ i ∉ ids.

(** ** Lemmas *)

#[local] Arguments dget : simpl never.
#[local] Arguments dset : simpl never.
#[local] Arguments dpop : simpl never.
#[local] Arguments dmem : simpl never.
#[local] Arguments Nat.leb : simpl never.
#[local] Arguments heartbeat_round : simpl never.

(** A loop between rounds. *)
Record at_rest (hb : HeartbeatManager) (task : nat) (p : bytes) (missed : nat) (ids : list bytes) : Prop := {
  ar_loop : hb_loops hb !! task = Some (mkLoop p missed SleepInterval);
  ar_info : is_Some (dget (hb_peer_info hb) p);
  ar_wf : dict_wf (hb_pending_pings hb);
  ar_apart : pings_apart hb p ids }.

Lemma wake_ping_at_rest hb task p missed ids i :
  at_rest hb task p missed (i :: ids) →
  ∃ pkt addr, wake_ping hb task i =
    (mkHeartbeat (hb_tasks hb) (<[task := mkLoop p missed AwaitPong]> (hb_loops hb))
       (hb_last_traffic hb) (dset (hb_pending_pings hb) p i) (hb_peer_info hb), [HbSend pkt addr]).
Proof.
  intros [Hl [[sid addr] Hi] _ _]. unfold wake_ping. rewrite Hl, Hi. cbn. eauto.
Qed.

(** Nobody but [p] is waiting on [i], so the PONG for [i] is matched to [p]. *)
Lemma handle_pong_matches hb p i sid now :
  dict_wf (hb_pending_pings hb) → dget (hb_pending_pings hb) p = Some i →
  (∀ q, dget (hb_pending_pings hb) q = Some i → q = p) →
  handle_pong hb (mkPong sid i) now
    = (record_traffic (with_pings hb (dpop (hb_pending_pings hb) p)) p now, Some p).
Proof.
  intros Hwf Hp Hq. unfold handle_pong. cbn. destruct (dfind _ _) as [[q j]|] eqn:E.
  - apply dfind_Some in E as [Hin Hj]. bool_hyps. subst. apply dget_elem in Hin; [|done].
    by rewrite (Hq q Hin).
  - rewrite dfind_None in E. apply dget_Some_elem in Hp. specialize (E _ _ Hp).
    by rewrite bool_decide_true in E.
Qed.

Lemma apart_dset hb p i ids q j :
  pings_apart hb p (i :: ids) → dget (dset (hb_pending_pings hb) p i) q = Some j → j = i → q = p.
Proof.
  intros Ha. rewrite dget_dset. case_decide; [done|]. intros Hq ->. destruct (Ha q i Hq). set_solver.
Qed.

Lemma apart_after hb p i ids q j :
  pings_apart hb p (i :: ids) → dget (dpop (dset (hb_pending_pings hb) p i) p) q = Some j →
  q ≠ p ∧ j ∉ ids.
Proof.
  intros Ha. rewrite dget_dpop, dget_dset. case_decide; [done|].
  intros Hq. destruct (Ha q j Hq) as [? ?]. set_solver.
Qed.

Lemma round_answered hb task p missed ids i now :
  at_rest hb task p missed (i :: ids) →
  ∃ hb' pkt addr, heartbeat_round hb task (i, true, now) = (hb', [HbSend pkt addr]) ∧
    at_rest hb' task p 0 ids.
Proof.
  intros Hr. destruct (wake_ping_at_rest _ _ _ _ _ _ Hr) as (pkt & addr & E).
  destruct Hr as [Hl Hi Hwf Ha]. unfold heartbeat_round. rewrite E. cbn zeta iota beta.
  rewrite (handle_pong_matches _ p i); cbn; [|by apply dset_wf|apply dget_dset_eq|].
  2:{ intros q Hq. by eapply apart_dset. }
  unfold wake_check. cbn. rewrite lookup_insert_eq. cbn.
  rewrite (proj2 (dmem_false _ _)) by apply dget_dpop_eq. cbn.
  eexists _, pkt, addr. split; [done|]. split; cbn.
  - by rewrite lookup_insert_eq.
  - done.
  - by apply dpop_wf, dset_wf.
  - intros q j. cbn. by apply apart_after.
Qed.

Lemma round_missed hb task p missed ids i now :
  at_rest hb task p missed (i :: ids) → missed ≤ 5 →
  ∃ hb' pkt addr, heartbeat_round hb task (i, false, now) =
      (hb', HbSend pkt addr :: (if decide (missed = 5) then [HbDisconnect p]
                                else if decide (2 ≤ missed) then [HbSuspect p] else [])) ∧
    if decide (missed = 5) then hb_loops hb' !! task = None else at_rest hb' task p (S missed) ids.
Proof.
  intros Hr Hm. destruct (wake_ping_at_rest _ _ _ _ _ _ Hr) as (pkt & addr & E).
  destruct Hr as [Hl Hi Hwf Ha]. unfold heartbeat_round. rewrite E. cbn zeta iota beta.
  unfold wake_check. cbn. rewrite lookup_insert_eq. cbn.
  rewrite (proj2 (dmem_spec _ _)) by (rewrite dget_dset_eq; eauto).
  destruct (Nat.leb_spec 6 (S missed)).
  - eexists _, pkt, addr. rewrite !decide_True by lia. split; [done|]. cbn. apply lookup_delete_eq.
  - replace (3 <=? S missed)%nat with (bool_decide (2 ≤ missed)).
    2:{ apply eq_iff_eq_true. rewrite bool_decide_eq_true, Nat.leb_le. lia. }
    eexists _, pkt, addr. rewrite !(decide_False (P := missed = 5)) by lia. split.
    { cbn. f_equal. f_equal. case_bool_decide; [by rewrite decide_True|by rewrite decide_False]. }
    split; cbn.
    + by rewrite lookup_insert_eq.
    + done.
    + by apply dpop_wf, dset_wf.
    + intros q j. cbn. by apply apart_after.
Qed.

Lemma round_ended hb task round :
  hb_loops hb !! task = None →
  (heartbeat_round hb task round).2 = [] ∧ hb_loops (heartbeat_round hb task round).1 !! task = None.
Proof.
  intros Hl. destruct round as [[i a] now]. unfold heartbeat_round, wake_ping. rewrite Hl.
  assert (∀ hb', hb_loops hb' = hb_loops hb → wake_check hb' task = (hb', [])) as Hc.
  { intros hb' Hb. unfold wake_check. by rewrite Hb, Hl. }
  assert (hb_loops (if a then (handle_pong hb (mkPong [] i) now).1 else hb) = hb_loops hb) as Hp.
  { destruct a; [|done]. unfold handle_pong. by destruct (dfind _ _) as [[]|]. }
  rewrite Hc by done. cbn. split; [done|]. by rewrite Hp.
Qed.

Lemma run_ended hb task rounds :
  hb_loops hb !! task = None → (heartbeat_run hb task rounds).2 = [].
Proof.
  revert hb. induction rounds as [|r rounds IH]; intros hb Hl; cbn; [done|].
  destruct (round_ended hb task r Hl) as [He Hl'].
  destruct (heartbeat_round hb task r) as [hb1 ev1]. cbn in *. specialize (IH hb1 Hl').
  destruct (heartbeat_run hb1 task rounds). cbn in *. by subst.
Qed.

Lemma heartbeat_run_spec hb task p missed rounds :
  at_rest hb task p missed rounds.*1.*1 → missed ≤ 5 →
  filter (λ e, is_notice e = true) (heartbeat_run hb task rounds).2
    = heartbeat_spec p missed rounds.*1.*2.
Proof.
  revert hb missed. induction rounds as [|[[i a] now] rounds IH]; intros hb missed Hr Hm; [done|].
  cbn [heartbeat_run heartbeat_spec fmap list_fmap fst snd].
  destruct a.
  - destruct (round_answered _ _ _ _ _ _ now Hr) as (hb1 & pkt & addr & E & Hr1). cbn [fst] in E. rewrite E.
    specialize (IH hb1 0 Hr1 ltac:(lia)). destruct (heartbeat_run hb1 task rounds). done.
  - destruct (round_missed _ _ _ _ _ _ now Hr Hm) as (hb1 & pkt & addr & E & Hr1). cbn [fst] in E. rewrite E.
    case_decide as E5.
    + pose proof (run_ended hb1 task rounds Hr1) as He.
      destruct (heartbeat_run hb1 task rounds). cbn in He. subst. done.
    + specialize (IH hb1 (S missed) Hr1 ltac:(lia)).
      destruct (heartbeat_run hb1 task rounds) as [hb2 ev2]. cbn [fst snd] in *.
      rewrite <- IH, <- app_comm_cons, filter_cons_False, filter_app by done. by case_decide.
Qed.

(** ** Properties *)

(** C35: suspicion and disconnection follow the missed pings.  Started for a registered peer, the
    heartbeat loop tells the node, for every sequence of answered and missed pings, exactly what the
    count of consecutive misses says: a suspicion at the third, fourth and fifth, the disconnection
    at the sixth, nothing after that, and the count starts again at every answer. *)
Theorem heartbeat_refines_spec (hb : HeartbeatManager) (p sid : bytes) (addr : endpoint) (task : nat)
    (now : seconds) (rounds : list (bytes * bool * seconds)) :
  dict_wf (hb_pending_pings hb) → pings_apart hb p rounds.*1.*1 →
  let hb1 := start_heartbeat (register_peer hb p sid addr now) p task in
  filter (λ e, is_notice e = true) (heartbeat_run hb1 task rounds).2
    = heartbeat_spec p 0 rounds.*1.*2.
Proof.
  intros Hwf Ha. apply heartbeat_run_spec; [|lia].
  unfold start_heartbeat, stop_heartbeat, register_peer. cbn.
  destruct (dget (hb_tasks hb) p); split; cbn; rewrite ?lookup_insert_eq, ?dget_dset_eq; eauto.
Qed.

(** One loop per peer.  Starting a heartbeat cancels the peer's running loop, if any: afterwards the
    new task is the peer's task and it is the only loop the manager's tasks lead to for that peer;
    loops of other tasks are untouched. *)
Theorem start_heartbeat_replaces (hb : HeartbeatManager) (p : bytes) (task : nat) :
  let hb1 := start_heartbeat hb p task in
  dget (hb_tasks hb1) p = Some task ∧ hb_loops hb1 !! task = Some (mkLoop p 0 SleepInterval) ∧
  (∀ old, dget (hb_tasks hb) p = Some old → old ≠ task → hb_loops hb1 !! old = None) ∧
  (∀ t, t ≠ task → dget (hb_tasks hb) p ≠ Some t → hb_loops hb1 !! t = hb_loops hb !! t).
Proof.
  unfold start_heartbeat, stop_heartbeat. cbn.
  destruct (dget (hb_tasks hb) p) as [old|] eqn:E; cbn; rewrite dget_dset_eq, lookup_insert_eq.
  - split_and!; [done..| |].
    + intros old' [= <-] Hne. by rewrite lookup_insert_ne, lookup_delete_eq.
    + intros t Ht Ht'. rewrite lookup_insert_ne by done. apply lookup_delete_ne. congruence.
  - split_and!; [done..|]. intros t Ht _. by apply lookup_insert_ne.
Qed.

(** ** Who runs

    Every running loop is the one its peer's entry in [_tasks] names, so a peer has at most one. *)
Definition hb_owned (hb : HeartbeatManager) : Prop :=
  ∀ t l, hb_loops hb !! t = Some l → dget (hb_tasks hb) (lp_peer l) = Some t.

Section owned.
Implicit Types hb : HeartbeatManager.

Lemma owned_stop hb p : hb_owned hb → hb_owned (stop_heartbeat hb p).
Proof.
  intros Ho. unfold stop_heartbeat. destruct (dget (hb_tasks hb) p) as [old|] eqn:E; [|done].
  intros t l. cbn. rewrite lookup_delete_Some. intros [Hne Hl]. specialize (Ho t l Hl).
  rewrite dget_dpop_ne; [done|]. intros Hp. congruence.
Qed.

Lemma owned_start hb p task : hb_owned hb → hb_owned (start_heartbeat hb p task).
Proof.
  intros Ho t l. unfold start_heartbeat. cbn. rewrite lookup_insert_Some. intros [[<- <-]|[Hne Hl]].
  - apply dget_dset_eq.
  - rewrite dget_dset_ne; [by apply (owned_stop hb p Ho)|]. intros <-.
    apply (owned_stop hb _ Ho) in Hl. unfold stop_heartbeat in Hl.
    destruct (dget (hb_tasks hb) (lp_peer l)) eqn:E; cbn in Hl; [by rewrite dget_dpop_eq in Hl|congruence].
Qed.

Lemma owned_loop hb t l l' :
  hb_owned hb → hb_loops hb !! t = Some l → lp_peer l' = lp_peer l →
  hb_owned (with_loops hb (<[t := l']> (hb_loops hb))).
Proof.
  intros Ho Hl Hp t' k. cbn. rewrite lookup_insert_Some. intros [[<- <-]|[_ Hk]]; [rewrite Hp|]; by apply Ho.
Qed.

Lemma owned_ended hb t : hb_owned hb → hb_owned (with_loops hb (delete t (hb_loops hb))).
Proof. intros Ho t' k. cbn. rewrite lookup_delete_Some. intros [_ Hk]. by apply Ho. Qed.

Lemma owned_frame hb hb' : hb_loops hb' = hb_loops hb → hb_tasks hb' = hb_tasks hb → hb_owned hb → hb_owned hb'.
Proof. unfold hb_owned. by intros -> ->. Qed.

Lemma owned_wake_ping hb task ping_id : hb_owned hb → hb_owned (wake_ping hb task ping_id).1.
Proof.
  intros Ho. unfold wake_ping. destruct (hb_loops hb !! task) as [[p missed ph]|] eqn:E; [|done].
  destruct ph; [|done]. destruct (dget (hb_peer_info hb) p) as [[sid addr]|]; [|by apply owned_ended].
  destruct (make_packet _ _) as [ping|e]; [|by apply (owned_ended (with_pings hb _))].
  by apply (owned_loop (with_pings hb _) _ _ _ Ho E).
Qed.

Lemma owned_wake_check hb task : hb_owned hb → hb_owned (wake_check hb task).1.
Proof.
  intros Ho. unfold wake_check. destruct (hb_loops hb !! task) as [[p missed ph]|] eqn:E; [|done].
  destruct ph; [done|]. destruct (dmem _ _); [|by apply (owned_loop hb _ _ _ Ho E)].
  destruct (_ <=? _)%nat; [by apply (owned_ended (with_pings hb _))|].
  by apply (owned_loop (with_pings hb _) _ _ _ Ho E).
Qed.

Lemma owned_pong hb pong now : hb_owned hb → hb_owned (handle_pong hb pong now).1.
Proof. intros Ho. unfold handle_pong. by destruct (dfind _ _) as [[]|]. Qed.

Lemma stop_all_loops hb : hb_owned hb → hb_owned (stop_all hb) ∧ hb_loops (stop_all hb) = ∅.
Proof.
  intros Ho. unfold stop_all.
  assert (∀ ps hb, hb_owned hb → hb_owned (foldl stop_heartbeat hb ps) ∧
    ∀ t l, hb_loops (foldl stop_heartbeat hb ps) !! t = Some l → hb_loops hb !! t = Some l ∧ lp_peer l ∉ ps) as H.
  { clear. intros ps. induction ps as [|p ps IH]; intros hb Ho; cbn; [split; [done|]; set_solver|].
    destruct (IH _ (owned_stop hb p Ho)) as [H1 H2]. split; [done|]. intros t l Hl.
    destruct (H2 t l Hl) as [Hk Hn]. rewrite not_elem_of_cons. unfold stop_heartbeat in Hk.
    destruct (dget (hb_tasks hb) p) as [old|] eqn:E; cbn in Hk.
    - apply lookup_delete_Some in Hk as [Hne Hk]. split_and!; try done. intros <-. apply Hne.
      apply Ho in Hk. congruence.
    - split_and!; try done. intros <-. apply Ho in Hk. congruence. }
  destruct (H (hb_tasks hb).*1 hb Ho) as [H1 H2]. split; [done|]. apply map_eq. intros t. rewrite lookup_empty.
  destruct (hb_loops (foldl _ _ _) !! t) as [l|] eqn:E; [|done]. destruct (H2 t l E) as [Hl Hn].
  destruct Hn. apply Ho in Hl. apply dget_is_Some. eauto.
Qed.
End owned.

#[export] Hint Resolve owned_start owned_wake_ping owned_wake_check owned_pong : ashichat.

(** ** Witnesses *)

Module HeartbeatExample.
Definition p : bytes := be_encode 32 1.
Definition rounds : list (bytes * bool * seconds) :=
  (λ '(n, a), (be_encode 8 (Z.of_nat n), a, secs (Z.of_nat n))) <$>
  [(1, false); (2, false); (3, true); (4, false); (5, false); (6, false); (7, false); (8, false);
   (9, false); (10, true)].

Lemma heartbeat_refines_spec_witness :
  let hb1 := start_heartbeat (register_peer empty_heartbeat p (be_encode 8 0) (str "h", 1%Z) (secs 0)) p 0 in
  filter (λ e, is_notice e = true) (heartbeat_run hb1 0 rounds).2
    = [HbSuspect p; HbSuspect p; HbSuspect p; HbDisconnect p].
Proof.
  apply (heartbeat_refines_spec empty_heartbeat p (be_encode 8 0) (str "h", 1%Z) 0 (secs 0) rounds).
  - apply NoDup_nil_2.
  - intros q i. discriminate.
Defined.
End HeartbeatExample.
