(* ===== verification/NatTraversal.v ===== *)
(** * NAT traversal (nat.py)

    [punch_hole] sends a burst of PINGs, waiting a little for a response after each.  [responses] says
    for each burst whether [response_event] is set before the wait ends; without an event argument the
    code makes a fresh one that nothing sets, so it is never set.  Ping ids are drawn. *)

From S2P Require Import Prelude Bytes PyText Packet Overlay.

Definition BURST_COUNT : nat := 15.

(** [NATTraversal(session_id).__init__] *)
Definition nat_session_id (session_id : option bytes) : bytes :=
  match session_id with
  | Some (b :: bs) => b :: bs
  | _ => replicate 8 Byte.x00
  end.

(** The loop from burst [i] on, with [n] bursts left. *)
Fixpoint punch_bursts (sid : bytes) (addr : endpoint) (ids : nat → bytes) (responses : nat → bool)
    (i n : nat) : result (list (Packet * endpoint) * bool) :=
  match n with
  | 0 => Ok ([], false)
  | S n =>
      ping ← make_packet PING (PPing (mkPing sid (ids i)));
      if responses i then Ok ([(ping, addr)], true)
      else r ← punch_bursts sid addr ids responses (S i) n; Ok ((ping, addr) :: r.1, r.2)
  end.

Definition punch_hole (sid : bytes) (target_addr : endpoint) (ids : nat → bytes)
    (responses : nat → bool) : result (list (Packet * endpoint) * bool) :=
  punch_bursts sid target_addr ids responses 0 BURST_COUNT.

(** [learn_endpoint]: did the endpoint change? *)
Definition learn_endpoint (observed_addr : endpoint) (current_addr : option endpoint) : bool :=
  negb (current_addr =?b Some observed_addr).

Lemma punch_bursts_spec sid addr ids responses i n :
  ∃ out ok, punch_bursts sid addr ids responses i n = Ok (out, ok) ∧
    Forall (λ pa, pkt_type pa.1 = PING ∧ pa.2 = addr) out ∧
    (if ok then ∃ k, k < n ∧ responses (i + k) = true ∧ (∀ j, j < k → responses (i + j) = false) ∧
                  length out = S k
     else (∀ j, j < n → responses (i + j) = false) ∧ length out = n).
Proof.
  revert i. induction n as [|n IH]; intros i; cbn [punch_bursts].
  - exists [], false. split; [done|]. split; [constructor|]. split; [lia|done].
  - unfold make_packet at 1. cbn [payload_serialize mbind result_bind].
    destruct (responses i) eqn:Er.
    + eexists _, true. split; [reflexivity|]. split; [by repeat constructor|].
      exists 0. rewrite Nat.add_0_r. split_and!; [lia|done|lia|done].
    + destruct (IH (S i)) as (out & ok & -> & Hf & Hok). cbn [mbind result_bind].
      eexists _, ok. split; [reflexivity|]. cbn [fst snd]. split; [by constructor|].
      destruct ok.
      * destruct Hok as (k & Hk & Hr & Hb & Hl). exists (S k). split_and!; [lia| | |cbn; lia].
        { by rewrite <- Nat.add_succ_comm. }
        intros [|j] Hj; [by rewrite Nat.add_0_r|]. rewrite <- Nat.add_succ_comm. apply Hb. lia.
      * destruct Hok as [Hb Hl]. split; [|cbn; lia].
        intros [|j] Hj; [by rewrite Nat.add_0_r|]. rewrite <- Nat.add_succ_comm. apply Hb. lia.
Qed.

(** Hole punching is a bounded burst that stops at the first response.  It sends only PINGs, all to
    the target; it succeeds exactly when some burst is answered, having sent no ping after the first
    answered one, and otherwise gives up after [BURST_COUNT] pings, as it always does without an
    event to wait for. *)
Theorem punch_hole_bursts (sid : bytes) (addr : endpoint) (ids : nat → bytes) (responses : nat → bool) :
  ∃ out ok, punch_hole sid addr ids responses = Ok (out, ok) ∧
    Forall (λ pa, pkt_type pa.1 = PING ∧ pa.2 = addr) out ∧
    (if ok then ∃ k, k < BURST_COUNT ∧ responses k = true ∧ (∀ j, j < k → responses j = false) ∧
                  length out = S k
     else (∀ j, j < BURST_COUNT → responses j = false) ∧ length out = BURST_COUNT).
Proof. exact (punch_bursts_spec sid addr ids responses 0 BURST_COUNT). Qed.
