(* ===== verification/Storage.v ===== *)
(** * The metadata store (storage.py, [StorageManager])

    The database is a record of its four tables.  A table is a dict from the primary key to the row,
    in rowid order, which is the order a scan returns: a plain INSERT appends, ON CONFLICT DO UPDATE
    and UPDATE keep the place, INSERT OR REPLACE deletes the old row and appends.  Foreign keys are
    declared but SQLite does not enforce them by default, and the program does not turn that on.  An
    integer parameter outside SQLite's signed 64 bits makes the driver raise.  A statement and its
    commit are one atomic step. *)

From S2P Require Import Prelude Bytes PyDict PyText QueueManager Overlay.

(** ** Rows *)

Record PeerRecord := mkPeerRecord {
  pr_peer_id : bytes;
  pr_public_key : bytes;
  pr_last_known_endpoint : option pystr;
  pr_version_counter : Z;
  pr_last_seen : option seconds;
  pr_nickname : option pystr;
  pr_archived : bool;
  pr_endpoint_signature : option bytes }.

Record QueueRecord := mkQueueRecord {
  qr_message_id : pystr;
  qr_receiver : bytes;
  qr_status : pystr;
  qr_retry_count : Z;
  qr_created_at : seconds;
  qr_updated_at : seconds;
  qr_plaintext : bytes;
  qr_sequence_number : option Z }.

Record SessionRecord := mkSessionRecord {
  sr_session_id : bytes;
  sr_peer_id : bytes;
  sr_send_sequence : Z;
  sr_recv_sequence : Z;
  sr_created_at : seconds }.

Record database := mkDb {
  db_peers : dict bytes PeerRecord;
  db_queue : dict pystr QueueRecord;
  db_sessions : dict bytes SessionRecord;
  db_endpoint_version : option Z }.

Definition empty_db : database := mkDb [] [] [] None.

Definition with_db_peers (db : database) (d : dict bytes PeerRecord) : database :=
  mkDb d (db_queue db) (db_sessions db) (db_endpoint_version db).
Definition with_db_queue (db : database) (d : dict pystr QueueRecord) : database :=
  mkDb (db_peers db) d (db_sessions db) (db_endpoint_version db).
Definition with_db_sessions (db : database) (d : dict bytes SessionRecord) : database :=
  mkDb (db_peers db) (db_queue db) d (db_endpoint_version db).

(** Binding an integer parameter. *)
Definition sqlite_int (n : Z) : bool := ((- 2 ^ 63 <=? n) && (n <? 2 ^ 63))%Z.

(** [_format_endpoint] of an address *)
Definition format_endpoint (ep : endpoint) : pystr := ep.1 ++ str ":" ++ str_of_Z ep.2.

(** [COALESCE(a, b)] *)
Definition coalesce {A} (a b : option A) : option A := match a with Some _ => a | None => b end.

(** [_row_to_peer]: an empty signature column reads as [None] *)
Definition row_to_peer (r : PeerRecord) : PeerRecord :=
  mkPeerRecord (pr_peer_id r) (pr_public_key r) (pr_last_known_endpoint r) (pr_version_counter r)
    (pr_last_seen r) (pr_nickname r) (pr_archived r)
    (match pr_endpoint_signature r with Some (b :: s) => Some (b :: s) | _ => None end).

(** ** Peers *)

Definition db_add_peer (db : database) (peer_id public_key : bytes) (nickname : option pystr)
    (ep : option endpoint) (now : seconds) : database :=
  let endpoint_text := format_endpoint <$> ep in
  with_db_peers db (dset (db_peers db) peer_id
    (match dget (db_peers db) peer_id with
     | None => mkPeerRecord peer_id public_key endpoint_text 0 (Some now) nickname false None
     | Some r =>
         mkPeerRecord (pr_peer_id r) public_key (coalesce endpoint_text (pr_last_known_endpoint r))
           (pr_version_counter r) (Some now) (coalesce nickname (pr_nickname r)) (pr_archived r)
           (pr_endpoint_signature r)
     end)).

Definition db_get_peer (db : database) (peer_id : bytes) : option PeerRecord :=
  row_to_peer <$> dget (db_peers db) peer_id.

Definition db_get_all_peers (db : database) : list PeerRecord := row_to_peer <$> (db_peers db).*2.

(** [update_endpoint(peer_id, endpoint, version_counter, signature)] *)
Definition db_update_endpoint (db : database) (peer_id : bytes) (endpoint_text : pystr)
    (version_counter : Z) (signature : option bytes) (now : seconds) : database * result bool :=
  if match dget (db_peers db) peer_id with
     | Some r => (version_counter <=? pr_version_counter r)%Z
     | None => false
     end then (db, Ok false) else
  if negb (sqlite_int version_counter) then (db, Raise OtherError) else
  (with_db_peers db (dupd (db_peers db) peer_id (λ r,
     mkPeerRecord (pr_peer_id r) (pr_public_key r) (Some endpoint_text) version_counter (Some now)
       (pr_nickname r) (pr_archived r) (coalesce signature (pr_endpoint_signature r)))),
   Ok true).

Definition db_get_local_endpoint_version (db : database) : Z := default 0%Z (db_endpoint_version db).

Definition db_set_local_endpoint_version (db : database) (version : Z) : database * result () :=
  if negb (sqlite_int version) then (db, Raise OtherError) else
  (mkDb (db_peers db) (db_queue db) (db_sessions db) (Some version), Ok ()).

Definition db_remember_endpoint (db : database) (peer_id : bytes) (ep : endpoint) (now : seconds)
    : database :=
  with_db_peers db (dupd (db_peers db) peer_id (λ r,
    mkPeerRecord (pr_peer_id r) (pr_public_key r) (Some (format_endpoint ep)) (pr_version_counter r)
      (Some now) (pr_nickname r) (pr_archived r) (pr_endpoint_signature r))).

Definition db_update_last_seen (db : database) (peer_id : bytes) (now : seconds) : database :=
  with_db_peers db (dupd (db_peers db) peer_id (λ r,
    mkPeerRecord (pr_peer_id r) (pr_public_key r) (pr_last_known_endpoint r) (pr_version_counter r)
      (Some now) (pr_nickname r) (pr_archived r) (pr_endpoint_signature r))).

Definition db_update_peer_nickname (db : database) (peer_id : bytes) (nickname : option pystr)
    : database :=
  with_db_peers db (dupd (db_peers db) peer_id (λ r,
    mkPeerRecord (pr_peer_id r) (pr_public_key r) (pr_last_known_endpoint r) (pr_version_counter r)
      (pr_last_seen r) nickname (pr_archived r) (pr_endpoint_signature r))).

Definition db_set_peer_archived (db : database) (peer_id : bytes) (archived : bool) : database :=
  with_db_peers db (dupd (db_peers db) peer_id (λ r,
    mkPeerRecord (pr_peer_id r) (pr_public_key r) (pr_last_known_endpoint r) (pr_version_counter r)
      (pr_last_seen r) (pr_nickname r) archived (pr_endpoint_signature r))).

Definition db_remove_peer (db : database) (peer_id : bytes) : database :=
  mkDb (dpop (db_peers db) peer_id)
    (filter (λ kr, qr_receiver kr.2 ≠ peer_id) (db_queue db))
    (filter (λ kr, sr_peer_id kr.2 ≠ peer_id) (db_sessions db))
    (db_endpoint_version db).

(** ** Queue *)

Definition db_enqueue_message (db : database) (message_id : pystr) (receiver : bytes)
    (created_at : seconds) (plaintext : bytes) : database * result () :=
  if dmem (db_queue db) message_id then (db, Raise IntegrityError) else
  (with_db_queue db (dset (db_queue db) message_id
     (mkQueueRecord message_id receiver (str "queued") 0 created_at created_at plaintext None)), Ok ()).

Definition db_update_message_status (db : database) (message_id status : pystr) (now : seconds)
    : database :=
  with_db_queue db (dupd (db_queue db) message_id (λ r,
    mkQueueRecord (qr_message_id r) (qr_receiver r) status (qr_retry_count r) (qr_created_at r) now
      (qr_plaintext r) (qr_sequence_number r))).

(** [ORDER BY created_at] *)
Definition created_le (a b : QueueRecord) : bool := tle (qr_created_at a) (qr_created_at b).

Definition db_get_queued_messages (db : database) (receiver : bytes) : list QueueRecord :=
  py_sorted created_le
    (filter (λ r, qr_receiver r = receiver ∧ qr_status r = str "queued") (db_queue db).*2).

Definition db_load_all_queued_messages (db : database) : list QueueRecord :=
  py_sorted created_le
    (filter (λ r, qr_status r ∈ [str "queued"; str "pending"; str "delivered"; str "acknowledged"])
       (db_queue db).*2).

Definition db_update_message_sequence (db : database) (message_id : pystr) (sequence_number : Z)
    (now : seconds) : database :=
  with_db_queue db (dupd (db_queue db) message_id (λ r,
    mkQueueRecord (qr_message_id r) (qr_receiver r) (qr_status r) (qr_retry_count r)
      (qr_created_at r) now (qr_plaintext r) (Some sequence_number))).

Definition db_increment_retry (db : database) (message_id : pystr) (now : seconds) : database * Z :=
  let db' := with_db_queue db (dupd (db_queue db) message_id (λ r,
    mkQueueRecord (qr_message_id r) (qr_receiver r) (qr_status r) (qr_retry_count r + 1)
      (qr_created_at r) now (qr_plaintext r) (qr_sequence_number r))) in
  (db', match dget (db_queue db') message_id with Some r => qr_retry_count r | None => 0%Z end).

Definition db_clear_message_plaintext (db : database) (message_id : pystr) : database :=
  with_db_queue db (dupd (db_queue db) message_id (λ r,
    mkQueueRecord (qr_message_id r) (qr_receiver r) (qr_status r) (qr_retry_count r)
      (qr_created_at r) (qr_updated_at r) [] (qr_sequence_number r))).

(** ** Sessions *)

(** [save_session_state]: INSERT OR REPLACE *)
Definition db_save_session_state (db : database) (session_id peer_id : bytes) (send_seq recv_seq : Z)
    (now : seconds) : database :=
  with_db_sessions db (dpop (db_sessions db) session_id
    ++ [(session_id, mkSessionRecord session_id peer_id send_seq recv_seq now)]).

Definition db_load_session_state (db : database) (session_id : bytes) : option SessionRecord :=
  dget (db_sessions db) session_id.

Definition db_update_send_sequence (db : database) (session_id : bytes) (seq : Z) : database :=
  with_db_sessions db (dupd (db_sessions db) session_id (λ r,
    mkSessionRecord (sr_session_id r) (sr_peer_id r) seq (sr_recv_sequence r) (sr_created_at r))).

Definition db_update_recv_sequence (db : database) (session_id : bytes) (seq : Z) : database :=
  with_db_sessions db (dupd (db_sessions db) session_id (λ r,
    mkSessionRecord (sr_session_id r) (sr_peer_id r) (sr_send_sequence r) seq (sr_created_at r))).

Definition db_load_all_sessions (db : database) : list SessionRecord := (db_sessions db).*2.

(** ** All write operations *)

Inductive db_op :=
| DbAddPeer (peer_id public_key : bytes) (nickname : option pystr) (ep : option endpoint) (now : seconds)
| DbUpdateEndpoint (peer_id : bytes) (ep : pystr) (version : Z) (sig : option bytes) (now : seconds)
| DbSetLocalVersion (version : Z)
| DbRememberEndpoint (peer_id : bytes) (ep : endpoint) (now : seconds)
| DbUpdateLastSeen (peer_id : bytes) (now : seconds)
| DbUpdateNickname (peer_id : bytes) (nickname : option pystr)
| DbSetArchived (peer_id : bytes) (archived : bool)
| DbRemovePeer (peer_id : bytes)
| DbEnqueue (message_id : pystr) (receiver : bytes) (created_at : seconds) (plaintext : bytes)
| DbUpdateStatus (message_id status : pystr) (now : seconds)
| DbUpdateSequence (message_id : pystr) (seq : Z) (now : seconds)
| DbIncrementRetry (message_id : pystr) (now : seconds)
| DbClearPlaintext (message_id : pystr)
| DbSaveSession (session_id peer_id : bytes) (send_seq recv_seq : Z) (now : seconds)
| DbUpdateSend (session_id : bytes) (seq : Z)
| DbUpdateRecv (session_id : bytes) (seq : Z).

Definition db_exec (db : database) (op : db_op) : database :=
  match op with
  | DbAddPeer p k n e t => db_add_peer db p k n e t
  | DbUpdateEndpoint p e v s t => (db_update_endpoint db p e v s t).1
  | DbSetLocalVersion v => (db_set_local_endpoint_version db v).1
  | DbRememberEndpoint p e t => db_remember_endpoint db p e t
  | DbUpdateLastSeen p t => db_update_last_seen db p t
  | DbUpdateNickname p n => db_update_peer_nickname db p n
  | DbSetArchived p a => db_set_peer_archived db p a
  | DbRemovePeer p => db_remove_peer db p
  | DbEnqueue m r c p => (db_enqueue_message db m r c p).1
  | DbUpdateStatus m s t => db_update_message_status db m s t
  | DbUpdateSequence m n t => db_update_message_sequence db m n t
  | DbIncrementRetry m t => (db_increment_retry db m t).1
  | DbClearPlaintext m => db_clear_message_plaintext db m
  | DbSaveSession s p a b t => db_save_session_state db s p a b t
  | DbUpdateSend s n => db_update_send_sequence db s n
  | DbUpdateRecv s n => db_update_recv_sequence db s n
  end.

(** The tables have their primary keys: no key twice, each row under its own. *)
Record db_wf (db : database) : Prop := {
  dw_peers : dict_wf (db_peers db);
  dw_peers_key : ∀ k r, (k, r) ∈ db_peers db → pr_peer_id r = k;
  dw_queue : dict_wf (db_queue db);
  dw_queue_key : ∀ k r, (k, r) ∈ db_queue db → qr_message_id r = k;
  dw_sessions : dict_wf (db_sessions db);
  dw_sessions_key : ∀ k r, (k, r) ∈ db_sessions db → sr_session_id r = k }.

Section keyed.
Context {K V : Type} `{EqDecision K} (key : V → K).

(** A keyed table: distinct keys, each row under its own key. *)
Definition keyed (d : dict K V) : Prop := dict_wf d ∧ ∀ k r, (k, r) ∈ d → key r = k.

Lemma keyed_dset d k r : keyed d → key r = k → keyed (dset d k r).
Proof using Type.
  intros [Hd Hk] Hr. split; [by apply dset_wf|]. intros j s Hin.
  apply elem_of_dset in Hin as [[= -> ->]|[_ Hin]]; eauto.
Qed.

Lemma keyed_dupd d k f : keyed d → (∀ r, key (f r) = key r) → keyed (dupd d k f).
Proof using Type.
  intros Hd Hf. unfold dupd. destruct (dget d k) as [r|] eqn:E; [|done].
  apply keyed_dset; [done|]. rewrite Hf. apply Hd. by apply dget_Some_elem.
Qed.

Lemma keyed_filter d (P : K * V → Prop) `{∀ x, Decision (P x)} : keyed d → keyed (filter P d).
Proof using Type.
  intros [Hd Hk]. split; [|intros k r [_ Hin]%list_elem_of_filter; eauto].
  clear Hk. unfold dict_wf in *. induction d as [|[k r] d IH]; cbn; [done|].
  apply NoDup_cons in Hd as [Hn Hd]. case_decide; [|by apply IH]. cbn. apply NoDup_cons.
  split; [|by apply IH]. intros (kv & -> & [_ Hin]%list_elem_of_filter)%list_elem_of_fmap.
  apply Hn, list_elem_of_fmap. by exists kv.
Qed.

Lemma keyed_append d k r : keyed d → key r = k → keyed (dpop d k ++ [(k, r)]).
Proof using Type.
  intros Hd Hr. rewrite <- dset_absent.
  - apply keyed_dset; [|done]. by apply keyed_filter.
  - rewrite dpop_keys. intros [? _]%list_elem_of_filter. done.
Qed.
End keyed.

Lemma db_wf_keyed db :
  db_wf db ↔ keyed pr_peer_id (db_peers db) ∧ keyed qr_message_id (db_queue db)
    ∧ keyed sr_session_id (db_sessions db).
Proof. split; [intros [????? ?]; done|intros ([] & [] & []); by split]. Qed.

Lemma empty_db_wf : db_wf empty_db.
Proof. apply db_wf_keyed. split_and!; (split; [apply NoDup_nil_2|by intros ? ? ?%elem_of_nil]). Qed.

Lemma db_exec_wf db op : db_wf db → db_wf (db_exec db op).
Proof.
  rewrite !db_wf_keyed. intros (Hp & Hq & Hs).
  destruct op; cbn; unfold db_update_endpoint, db_set_local_endpoint_version, db_enqueue_message;
    repeat case_match; cbn; try done; split_and!; try done;
    first [ apply keyed_dset; [done|] | by apply keyed_dupd | by apply keyed_append
          | by apply keyed_filter | idtac ]; try done.
  cbn. apply Hp. by apply dget_Some_elem.
Qed.

(** ** The version counter *)

Definition peer_version (db : database) (p : bytes) : option Z :=
  pr_version_counter <$> dget (db_peers db) p.

(** [v] is a version no smaller than [u], where absent is smallest. *)
Definition version_le (u v : option Z) : Prop :=
  match u, v with Some a, Some b => (a ≤ b)%Z | None, _ => True | Some _, None => False end.

Lemma version_dupd db p q f :
  (∀ r, pr_version_counter (f r) = pr_version_counter r) →
  peer_version (with_db_peers db (dupd (db_peers db) p f)) q = peer_version db q.
Proof.
  intros Hf. unfold peer_version. cbn. rewrite dget_dupd. case_decide; [|done]. subst.
  destruct (dget (db_peers db) p); cbn; [by rewrite Hf|done].
Qed.

Lemma db_exec_version db op p :
  op ≠ DbRemovePeer p → version_le (peer_version db p) (peer_version (db_exec db op) p).
Proof.
  assert (∀ v, version_le v v) as Hrefl by (intros [v|]; cbn; lia).
  intros Hop. destruct op; cbn [db_exec]; try apply Hrefl;
    try (unfold db_remember_endpoint, db_update_last_seen, db_update_peer_nickname,
           db_set_peer_archived; rewrite version_dupd by done; apply Hrefl).
  - unfold db_add_peer, peer_version. cbn. rewrite dget_dset. case_decide; [|apply Hrefl].
    subst. destruct (dget (db_peers db) peer_id) eqn:E; cbn; lia.
  - unfold db_update_endpoint.
    destruct (dget (db_peers db) peer_id) as [r|] eqn:E.
    + destruct (Z.leb_spec version (pr_version_counter r)); [apply Hrefl|].
      destruct (negb _); cbn; [apply Hrefl|]. unfold peer_version. cbn. rewrite dget_dupd.
      case_decide; [|apply Hrefl]. subst. rewrite E. cbn. lia.
    + destruct (negb _); cbn; [apply Hrefl|]. unfold dupd. rewrite E. apply Hrefl.
  - unfold db_set_local_endpoint_version. destruct (negb _); apply Hrefl.
  - unfold db_remove_peer, peer_version. cbn. rewrite dget_dpop_ne; [apply Hrefl|]. congruence.
  - unfold db_enqueue_message. destruct (dmem _ _); apply Hrefl.
Qed.

(** ** Properties *)

(** Endpoint versions never go back.  Along any sequence of database operations that does not
    delete the peer, the version counter stored for a peer never decreases, whatever the updates
    that arrive. *)
Theorem endpoint_version_monotone (db : database) (ops : list db_op) (p : bytes) :
  Forall (λ op, op ≠ DbRemovePeer p) ops →
  version_le (peer_version db p) (peer_version (foldl db_exec db ops) p).
Proof.
  intros H. revert db. induction H as [|op ops Hop Hops IH]; intros db; cbn.
  - destruct (peer_version db p); cbn; lia.
  - pose proof (db_exec_version db op p Hop) as H1. specialize (IH (db_exec db op)).
    destruct (peer_version db p), (peer_version (db_exec db op) p),
      (peer_version (foldl db_exec (db_exec db op) ops) p); cbn in *; try done; lia.
Qed.

(** What [update_endpoint] does.  For a stored peer, an update with a version that is not newer is
    refused and changes nothing; a newer one that fits SQLite's integers is stored with its signature
    and answered [True], and the other peers keep their rows; a newer one that does not fit raises and
    changes nothing. *)
Theorem db_update_endpoint_spec (db : database) (p : bytes) (r : PeerRecord) (ep : pystr) (v : Z)
    (sig : bytes) (now : seconds) :
  dget (db_peers db) p = Some r →
  let '(db', res) := db_update_endpoint db p ep v (Some sig) now in
  if (v <=? pr_version_counter r)%Z then db' = db ∧ res = Ok false
  else if sqlite_int v then
    res = Ok true ∧ (∀ q, q ≠ p → db_get_peer db' q = db_get_peer db q) ∧
    ∃ r', dget (db_peers db') p = Some r' ∧ pr_last_known_endpoint r' = Some ep ∧
      pr_version_counter r' = v ∧ pr_endpoint_signature r' = Some sig ∧
      pr_public_key r' = pr_public_key r ∧ pr_nickname r' = pr_nickname r ∧
      pr_archived r' = pr_archived r
  else db' = db ∧ res = Raise OtherError.
Proof.
  intros Hr. unfold db_update_endpoint. rewrite Hr. destruct (v <=? _)%Z; [done|].
  destruct (sqlite_int v); cbn [negb]; [|done]. split; [done|]. split.
  - intros q Hq. unfold db_get_peer. cbn. rewrite dget_dupd. by rewrite decide_False.
  - cbn. rewrite dget_dupd, decide_True, Hr by done. cbn. eauto 10.
Qed.

(** Adding a contact twice loses nothing.  [add_peer] on an unknown id stores a fresh row (version 0,
    not archived); on a known id it takes over the new public key, and keeps the old endpoint or
    nickname where none is given, and the version, signature and archived flag in any case.  Other
    rows do not change. *)
Theorem db_add_peer_spec (db : database) (p key : bytes) (nick : option pystr) (ep : option endpoint)
    (now : seconds) :
  let db' := db_add_peer db p key nick ep now in
  (∀ q, q ≠ p → db_get_peer db' q = db_get_peer db q) ∧
  db_queue db' = db_queue db ∧ db_sessions db' = db_sessions db ∧
  db_get_peer db' p = Some
    match db_get_peer db p with
    | None => mkPeerRecord p key (format_endpoint <$> ep) 0 (Some now) nick false None
    | Some r =>
        mkPeerRecord (pr_peer_id r) key
          (match ep with Some e => Some (format_endpoint e) | None => pr_last_known_endpoint r end)
          (pr_version_counter r) (Some now)
          (match nick with Some n => Some n | None => pr_nickname r end)
          (pr_archived r) (pr_endpoint_signature r)
    end.
Proof.
  cbn zeta. unfold db_add_peer, db_get_peer. cbn. split_and!; [|done..|].
  - intros q Hq. by rewrite dget_dset_ne.
  - rewrite dget_dset_eq. destruct (dget (db_peers db) p) as [r|]; cbn; [|done].
    unfold row_to_peer. cbn. destruct ep, nick; done.
Qed.

(** Removing a contact removes everything of it.  After [remove_peer] the peer, its sessions and its
    queued messages are gone, and every row of other peers is kept. *)
Theorem db_remove_peer_spec (db : database) (p : bytes) :
  let db' := db_remove_peer db p in
  db_get_peer db' p = None ∧
  (∀ k r, (k, r) ∈ db_sessions db' ↔ (k, r) ∈ db_sessions db ∧ sr_peer_id r ≠ p) ∧
  (∀ k r, (k, r) ∈ db_queue db' ↔ (k, r) ∈ db_queue db ∧ qr_receiver r ≠ p) ∧
  (∀ q, q ≠ p → db_get_peer db' q = db_get_peer db q).
Proof.
  cbn zeta. unfold db_remove_peer, db_get_peer. cbn. split_and!.
  - by rewrite dget_dpop_eq.
  - intros k r. rewrite list_elem_of_filter. naive_solver.
  - intros k r. rewrite list_elem_of_filter. naive_solver.
  - intros q Hq. by rewrite dget_dpop_ne.
Qed.

(** ** Witnesses *)

Module StorageExample.
Definition p : bytes := be_encode 32 1.
Definition ops : list db_op :=
  [DbUpdateEndpoint p (str "10.0.0.1:1") 7 None (secs 1);
   DbUpdateEndpoint p (str "10.0.0.2:1") 3 None (secs 2);
   DbRememberEndpoint p (str "10.0.0.3", 1%Z) (secs 3)].
Definition db0 : database := db_add_peer empty_db p [] None None (secs 0).
Definition row0 : PeerRecord := mkPeerRecord p [] None 0 (Some (secs 0)) None false None.

Lemma endpoint_version_monotone_witness :
  peer_version (foldl db_exec db0 ops) p = Some 7%Z ∧
  version_le (peer_version db0 p) (peer_version (foldl db_exec db0 ops) p).
Proof.
  split; [vm_compute; reflexivity|]. apply (endpoint_version_monotone db0 ops p).
  repeat constructor; discriminate.
Defined.

Lemma db_update_endpoint_spec_witness :
  let '(db', res) := db_update_endpoint db0 p (str "10.0.0.1:1") (2 ^ 63) (Some []) (secs 1) in
  db' = db0 ∧ res = Raise OtherError.
Proof.
  apply (db_update_endpoint_spec db0 p row0 (str "10.0.0.1:1") (2 ^ 63) [] (secs 1)).
  reflexivity.
Defined.
End StorageExample.
