(* ===== verification/Schema.v ===== *)
(** * The tables and their migration (storage.py, [_SCHEMA], [StorageManager.initialize])

    The database file as SQLite sees it: tables with named columns and positional rows.  [initialize] creates the tables
    that are missing and adds the columns that older versions of the program did not have; the code reads rows by
    position ([SELECT] of all columns), so what matters is that the positions stay right.  [Storage] models the same
    tables by what their rows mean; [database_of] relates the two.  Of a column the model keeps its name and its default;
    a row of the wrong types has no meaning ([None]). *)

From S2P Require Import Prelude Bytes PyDict PyText QueueManager Overlay Storage.

Inductive sql_value := VNull | VInt (n : Z) | VReal (t : seconds) | VText (s : pystr) | VBlob (b : bytes).

Record column := mkColumn { col_name : pystr; col_default : sql_value }.
Record sql_table := mkSqlTable { tb_columns : list column; tb_rows : list (list sql_value) }.
Definition sql_db : Type := dict pystr sql_table.

(** A column without a default. *)
Definition col (name : string) : column := mkColumn (str name) VNull.

Definition peers_columns : list column :=
  [col "peer_id"; col "public_key"; col "last_known_endpoint"; mkColumn (str "version_counter") (VInt 0);
   col "last_seen"; col "nickname"; mkColumn (str "archived") (VInt 0); col "endpoint_signature"].
Definition queue_columns : list column :=
  [col "message_id"; col "receiver"; mkColumn (str "status") (VText (str "queued"));
   mkColumn (str "retry_count") (VInt 0); col "created_at"; col "updated_at";
   mkColumn (str "plaintext") (VBlob []); col "sequence_number"].
Definition sessions_columns : list column :=
  [col "session_id"; col "peer_id"; mkColumn (str "send_sequence") (VInt 0); mkColumn (str "recv_sequence") (VInt 0);
   col "created_at"].
Definition meta_columns : list column := [col "key"; col "value"].

(** [_SCHEMA] *)
Definition SCHEMA : list (pystr * list column) :=
  [(str "peers", peers_columns); (str "message_queue", queue_columns); (str "sessions", sessions_columns);
   (str "meta", meta_columns)].

(** [CREATE TABLE IF NOT EXISTS] *)
Definition create_if_missing (db : sql_db) (t : pystr * list column) : sql_db :=
  if dmem db t.1 then db else dset db t.1 (mkSqlTable t.2 []).

(** [PRAGMA table_info], the names *)
Definition table_info (db : sql_db) (name : string) : list pystr :=
  match dget db (str name) with Some t => col_name <$> tb_columns t | None => [] end.

(** [ALTER TABLE ... ADD COLUMN]: the rows there are get the default *)
Definition add_column (db : sql_db) (name : string) (c : column) : sql_db :=
  dupd db (str name) (λ t, mkSqlTable (tb_columns t ++ [c]) ((λ r, r ++ [col_default c]) <$> tb_rows t)).

(** [if c not in cols: ALTER TABLE ...], with the columns read before *)
Definition add_if_missing (cols : list pystr) (name : string) (c : column) (db : sql_db) : sql_db :=
  if bool_decide (col_name c ∈ cols) then db else add_column db name c.

(** [initialize(db_path)] on what the file holds *)
Definition initialize (db : sql_db) : sql_db :=
  let db := foldl create_if_missing db SCHEMA in
  let cols := table_info db "peers" in
  let db := add_if_missing cols "peers" (mkColumn (str "archived") (VInt 0)) db in
  let db := add_if_missing cols "peers" (col "endpoint_signature") db in
  let mq_cols := table_info db "message_queue" in
  let db := add_if_missing mq_cols "message_queue" (mkColumn (str "plaintext") (VBlob [])) db in
  add_if_missing mq_cols "message_queue" (col "sequence_number") db.

(** ** Reading rows *)

Definition v_text (v : sql_value) : option (option pystr) :=
  match v with VNull => Some None | VText s => Some (Some s) | _ => None end.
Definition v_real (v : sql_value) : option (option seconds) :=
  match v with VNull => Some None | VReal t => Some (Some t) | _ => None end.

(** [_row_to_peer] *)
Definition peer_of_row (row : list sql_value) : option PeerRecord :=
  match row with
  | VBlob pid :: VBlob pk :: ep :: VInt v :: seen :: nick :: rest =>
      ep ← v_text ep; seen ← v_real seen; nick ← v_text nick;
      archived ← match rest !! 0 with
                 | None | Some VNull => Some false
                 | Some (VInt n) => Some (negb (n =? 0)%Z)
                 | _ => None
                 end;
      sig ← match rest !! 1 with
            | None | Some VNull | Some (VBlob []) => Some None
            | Some (VBlob s) => Some (Some s)
            | _ => None
            end;
      Some (mkPeerRecord pid pk ep v seen nick archived sig)
  | _ => None
  end.

(** [_row_to_queue] *)
Definition queued_of_row (row : list sql_value) : option QueueRecord :=
  match row with
  | VText i :: VBlob r :: VText st :: VInt n :: VReal c :: VReal u :: rest =>
      plain ← match rest !! 0 with None | Some VNull => Some [] | Some (VBlob b) => Some b | _ => None end;
      seq ← match rest !! 1 with None | Some VNull => Some None | Some (VInt k) => Some (Some k) | _ => None end;
      Some (mkQueueRecord i r st n c u plain seq)
  | _ => None
  end.

(** [_row_to_session] *)
Definition session_of_row (row : list sql_value) : option SessionRecord :=
  match row with
  | VBlob sid :: VBlob pid :: VInt s :: VInt r :: VReal c :: _ => Some (mkSessionRecord sid pid s r c)
  | _ => None
  end.

Definition version_of_row (row : list sql_value) : option (pystr * Z) :=
  match row with VText k :: VInt v :: _ => Some (k, v) | _ => None end.

(** [SELECT * FROM name] *)
Definition select_all (db : sql_db) (name : string) : list (list sql_value) :=
  match dget db (str name) with Some t => tb_rows t | None => [] end.

(** What the tables mean: the records of [Storage], by primary key in the order of the rows. *)
Definition database_of (db : sql_db) : option database :=
  ps ← mapM peer_of_row (select_all db "peers");
  qs ← mapM queued_of_row (select_all db "message_queue");
  ss ← mapM session_of_row (select_all db "sessions");
  vs ← mapM version_of_row (select_all db "meta");
  Some (mkDb ((λ r, (pr_peer_id r, r)) <$> ps) ((λ r, (qr_message_id r, r)) <$> qs) ((λ r, (sr_session_id r, r)) <$> ss)
          (dget vs (str "local_endpoint_version"))).

(** ** Old databases *)

(** A table as some version of the program created it: the first columns of today's, at least [least] of them, and rows
    of that width. *)
Definition layout (least : nat) (cols : list column) (t : sql_table) : Prop :=
  ∃ k, least ≤ k ≤ length cols ∧ tb_columns t = take k cols ∧ Forall (λ r, length r = k) (tb_rows t).

(** Every table there is has such a layout. *)
Definition old_database (db : sql_db) : Prop :=
  ∀ name t, dget db name = Some t →
    (name = str "peers" → layout 6 peers_columns t) ∧ (name = str "message_queue" → layout 6 queue_columns t) ∧
    (name = str "sessions" → layout 5 sessions_columns t) ∧ (name = str "meta" → layout 2 meta_columns t).

(** ** The migration *)

Lemma create_get db t n :
  dget (create_if_missing db t) n
    = match dget db n with Some x => Some x | None => if decide (n = t.1) then Some (mkSqlTable t.2 []) else None end.
Proof.
  unfold create_if_missing. destruct (dmem db t.1) eqn:E.
  - apply dmem_spec in E as [x E]. case_decide; [subst; by rewrite E|by destruct (dget db n)].
  - apply dmem_false in E. rewrite dget_dset. case_decide; [subst; by rewrite E|by destruct (dget db n)].
Qed.

(** After the script every table of the schema is there, the old ones as they were. *)
Definition after_script (db : sql_db) (n : pystr) : option sql_table :=
  match dget db n with Some x => Some x | None => (λ cols, mkSqlTable cols []) <$> dget SCHEMA n end.

Lemma script_get db n : dget (foldl create_if_missing db SCHEMA) n = after_script db n.
Proof.
  unfold after_script, SCHEMA. cbn [foldl]. rewrite !create_get. cbn [fst snd].
  destruct (dget db n) as [x|]; [done|]. cbn [dget]. unfold SCHEMA. repeat case_decide; subst; try done.
  all: unfold dget; repeat case_decide; done.
Qed.

Lemma add_if_missing_get cols name c db n :
  dget (add_if_missing cols name c db) n
    = if decide (n = str name ∧ col_name c ∉ cols)
      then (λ t, mkSqlTable (tb_columns t ++ [c]) ((λ r, r ++ [col_default c]) <$> tb_rows t)) <$> dget db n
      else dget db n.
Proof.
  unfold add_if_missing, add_column. case_bool_decide.
  - by rewrite decide_False by naive_solver.
  - rewrite dget_dupd. repeat case_decide; naive_solver.
Qed.

(** A table with all columns: rows are filled up with defaults. *)
Definition migrated (cols : list column) (t : sql_table) : sql_table :=
  mkSqlTable cols ((λ r, r ++ drop (length (tb_columns t)) (col_default <$> cols)) <$> tb_rows t).

Lemma migrated_full cols t : tb_columns t = cols → migrated cols t = t.
Proof.
  intros E. unfold migrated. rewrite E, drop_ge by (by rewrite length_fmap). destruct t as [cs rows]. cbn in *. subst. f_equal.
  rewrite <- (list_fmap_id rows) at 2. apply list_fmap_ext. intros ? r _. apply app_nil_r.
Qed.

Lemma migrate_two name base c1 c2 db t n :
  length base = 6 → NoDup (col_name <$> base ++ [c1; c2]) → layout 6 (base ++ [c1; c2]) t → dget db (str name) = Some t →
  dget (add_if_missing (col_name <$> tb_columns t) name c2 (add_if_missing (col_name <$> tb_columns t) name c1 db)) n
    = if decide (n = str name) then Some (migrated (base ++ [c1; c2]) t) else dget db n.
Proof.
  intros Hlen Hnd (k & Hk & Hcols & _) Ht. rewrite !add_if_missing_get.
  destruct (decide (n = str name)) as [->|Hn]; [|by rewrite !decide_False by naive_solver]. rewrite Ht.
  rewrite fmap_app in Hnd. cbn in Hnd.
  apply NoDup_app in Hnd as (_ & Hd & Hnd2).
  assert (col_name c1 ∉ col_name <$> base) as H1 by (intros H; apply (Hd _ H); set_solver).
  assert (col_name c2 ∉ col_name <$> base) as H2 by (intros H; apply (Hd _ H); set_solver).
  assert (col_name c2 ≠ col_name c1) as H3 by (intros H; apply NoDup_cons in Hnd2 as [Hni _]; set_solver).
  rewrite length_app in Hk. cbn in Hk. destruct t as [cs rows]. cbn [tb_columns tb_rows] in *.
  assert (k = 6 ∨ k = 7 ∨ k = 8) as [-> |[-> | ->]] by lia; subst cs.
  - rewrite take_app_le, take_ge by lia. rewrite !decide_True by done. cbn. unfold migrated. cbn [tb_columns tb_rows].
    rewrite <- app_assoc. cbn. do 2 f_equal. rewrite <- list_fmap_compose. apply list_fmap_ext. intros ? r _. cbn.
    rewrite fmap_app, drop_app_ge, length_fmap, Hlen by (rewrite length_fmap; lia). by rewrite <- app_assoc.
  - rewrite take_app_ge by lia. rewrite Hlen. cbn [Nat.sub take].
    assert (col_name c1 ∈ col_name <$> base ++ [c1]) as H4 by (rewrite fmap_app; set_solver).
    assert (col_name c2 ∉ col_name <$> base ++ [c1]) as H5 by (rewrite fmap_app; set_solver).
    rewrite (decide_False (P := _ ∧ col_name c1 ∉ _)) by naive_solver. rewrite decide_True by done. cbn. unfold migrated. cbn [tb_columns tb_rows].
    rewrite <- app_assoc. cbn. do 2 f_equal. apply list_fmap_ext. intros ? r _.
    rewrite fmap_app, drop_app_ge, length_fmap by (rewrite length_fmap, length_app; cbn; lia). rewrite length_app, Hlen. done.
  - rewrite take_ge by (rewrite length_app; cbn; lia).
    rewrite !decide_False by (rewrite fmap_app; set_solver). by rewrite migrated_full.
Qed.

(** The tables after the script have a known layout. *)
Lemma script_layout db name cols least :
  (∀ t, dget db (str name) = Some t → layout least cols t) → dget SCHEMA (str name) = Some cols → least ≤ length cols →
  ∃ t, after_script db (str name) = Some t ∧ layout least cols t ∧
    tb_rows t = select_all db name.
Proof.
  intros Hold Hs Hle. unfold after_script, select_all. destruct (dget db (str name)) as [t|] eqn:E.
  - exists t. split_and!; [done|by apply Hold|done].
  - rewrite Hs. eexists. split; [reflexivity|]. split; [|done]. exists (length cols). cbn. rewrite firstn_all.
    split_and!; [lia..|done|constructor].
Qed.

Lemma initialize_get db :
  old_database db →
  ∃ tp tq, after_script db (str "peers") = Some tp ∧ after_script db (str "message_queue") = Some tq ∧
    layout 6 peers_columns tp ∧ layout 6 queue_columns tq ∧
    tb_rows tp = select_all db "peers" ∧ tb_rows tq = select_all db "message_queue" ∧
    ∀ n, dget (initialize db) n
      = if decide (n = str "message_queue") then Some (migrated queue_columns tq)
        else if decide (n = str "peers") then Some (migrated peers_columns tp) else after_script db n.
Proof.
  intros Hold.
  destruct (script_layout db "peers" peers_columns 6 (λ t Ht, proj1 (Hold _ t Ht) eq_refl) eq_refl) as (tp & Ep & Hp & Rp); [cbn; lia|].
  destruct (script_layout db "message_queue" queue_columns 6 (λ t Ht, proj1 (proj2 (Hold _ t Ht)) eq_refl) eq_refl)
    as (tq & Eq & Hq & Rq); [cbn; lia|].
  exists tp, tq. split_and!; [done..|]. intros n. unfold initialize. cbv zeta.
  set (db1 := foldl create_if_missing db SCHEMA). assert (∀ m, dget db1 m = after_script db m) as H1 by apply script_get.
  assert (table_info db1 "peers" = col_name <$> tb_columns tp) as -> by (unfold table_info; by rewrite H1, Ep).
  set (db2 := add_if_missing _ "peers" (col "endpoint_signature") _).
  assert (∀ m, dget db2 m = if decide (m = str "peers") then Some (migrated peers_columns tp) else after_script db m) as H2.
  { intros m. unfold db2. rewrite (migrate_two "peers" (take 6 peers_columns) (mkColumn (str "archived") (VInt 0))
      (col "endpoint_signature") db1 tp m); [by rewrite H1|done| |done|by rewrite H1].
    apply (bool_decide_unpack _). by vm_compute. }
  assert (dget db2 (str "message_queue") = Some tq) as H2q by (rewrite H2, decide_False by done; exact Eq).
  assert (table_info db2 "message_queue" = col_name <$> tb_columns tq) as -> by (unfold table_info; by rewrite H2q).
  rewrite (migrate_two "message_queue" (take 6 queue_columns) (mkColumn (str "plaintext") (VBlob []))
    (col "sequence_number") db2 tq n); [by rewrite H2|done| |done|done].
  apply (bool_decide_unpack _). by vm_compute.
Qed.

(** Filling a row up does not change what it means. *)
Lemma peer_of_filled_row k r :
  6 ≤ k ≤ 8 → length r = k → peer_of_row (r ++ drop k (col_default <$> peers_columns)) = peer_of_row r.
Proof.
  intros Hk Hr. destruct r as [|v0 [|v1 [|v2 [|v3 [|v4 [|v5 r]]]]]]; cbn in Hr; try lia.
  assert (k = 6 ∨ k = 7 ∨ k = 8) as [-> |[-> | ->]] by lia; destruct r as [|v6 [|v7 [|? ?]]]; try discriminate Hr.
  all: cbn; destruct v0, v1, v3; try done.
  all: destruct (v_text v2), (v_real v4), (v_text v5); try done.
Qed.

Lemma queued_of_filled_row k r :
  6 ≤ k ≤ 8 → length r = k → queued_of_row (r ++ drop k (col_default <$> queue_columns)) = queued_of_row r.
Proof.
  intros Hk Hr. destruct r as [|v0 [|v1 [|v2 [|v3 [|v4 [|v5 r]]]]]]; cbn in Hr; try lia.
  assert (k = 6 ∨ k = 7 ∨ k = 8) as [-> |[-> | ->]] by lia; destruct r as [|v6 [|v7 [|? ?]]]; try discriminate Hr.
  all: cbn; destruct v0, v1; try done; destruct v2, v3; try done; destruct v4, v5; done.
Qed.

Lemma mapM_migrated {A} (f : list sql_value → option A) least cols t :
  layout least cols t →
  (∀ k r, least ≤ k ≤ length cols → length r = k → f (r ++ drop k (col_default <$> cols)) = f r) →
  mapM f (tb_rows (migrated cols t)) = mapM f (tb_rows t).
Proof.
  intros (k & Hk & Hc & Hrows) Hf. cbn. rewrite Hc, length_take_le by lia. induction Hrows as [|r rows Hr _ IH]; [done|].
  cbn. by rewrite Hf, IH.
Qed.

Lemma add_present cols name c db : col_name c ∈ cols → add_if_missing cols name c db = db.
Proof. intros H. unfold add_if_missing. by rewrite bool_decide_true. Qed.

(** [known_column] finds a column in a closed list. *)
Ltac known_column := apply (bool_decide_unpack _); vm_compute; exact I.

(** The tables mean what they meant before. *)
Lemma initialize_keeps db : old_database db → database_of (initialize db) = database_of db.
Proof.
  intros Hold. destruct (initialize_get db Hold) as (tp & tq & Ep & Eq & Hp & Hq & Rp & Rq & Hget).
  assert (∀ name, str name ≠ str "peers" → str name ≠ str "message_queue" →
    select_all (initialize db) name = select_all db name) as Hsame.
  { intros name H1 H2. unfold select_all. rewrite Hget, !decide_False by done. unfold after_script.
    destruct (dget db (str name)); [done|]. by destruct (dget SCHEMA (str name)). }
  unfold database_of. rewrite (Hsame "sessions"), (Hsame "meta") by done.
  assert (select_all (initialize db) "peers" = tb_rows (migrated peers_columns tp)) as ->
    by (unfold select_all at 1; by rewrite Hget, decide_False, decide_True by done).
  assert (select_all (initialize db) "message_queue" = tb_rows (migrated queue_columns tq)) as ->
    by (unfold select_all at 1; by rewrite Hget, decide_True by done).
  rewrite (mapM_migrated peer_of_row 6 _ tp Hp) by (intros; by apply peer_of_filled_row).
  rewrite (mapM_migrated queued_of_row 6 _ tq Hq) by (intros; by apply queued_of_filled_row). by rewrite Rp, Rq.
Qed.

(** C26: Opening a database of an earlier version.  For a database whose tables are those of an earlier version of the
    program (missing tables, or tables without the columns added later), [initialize] brings every table to the layout the
    code reads, all contacts, messages, sessions and the endpoint version mean what they meant before, tables of others
    are left alone, and opening it again changes nothing. *)
Theorem migration_correct (db : sql_db) :
  old_database db →
  (∀ name cols, dget SCHEMA name = Some cols → ∃ t, dget (initialize db) name = Some t ∧ tb_columns t = cols) ∧
  database_of (initialize db) = database_of db ∧
  (∀ name, dget SCHEMA name = None → dget (initialize db) name = dget db name) ∧
  initialize (initialize db) = initialize db.
Proof.
  intros Hold. destruct (initialize_get db Hold) as (tp & tq & Ep & Eq & Hp & Hq & Rp & Rq & Hget).
  destruct (script_layout db "sessions" sessions_columns 5 (λ t Ht, proj1 (proj2 (proj2 (Hold _ t Ht))) eq_refl) eq_refl)
    as (ts & Es & (ks & Hks & Hcs & _) & Rs); [cbn; lia|].
  destruct (script_layout db "meta" meta_columns 2 (λ t Ht, proj2 (proj2 (proj2 (Hold _ t Ht))) eq_refl) eq_refl)
    as (tm & Em & (km & Hkm & Hcm & _) & Rm); [cbn; lia|].
  rewrite take_ge in Hcs, Hcm by (cbn in *; lia).
  assert (∀ name cols, dget SCHEMA name = Some cols → ∃ t, dget (initialize db) name = Some t ∧ tb_columns t = cols) as Hcols.
  { intros name cols Hn. rewrite Hget. apply dget_Some_elem in Hn. unfold SCHEMA in Hn. rewrite !elem_of_cons in Hn.
    destruct Hn as [[= -> ->]|[[= -> ->]|[[= -> ->]|[[= -> ->]|Hn]]]]; [| | | |by apply elem_of_nil in Hn].
    all: repeat (rewrite decide_False by done || rewrite decide_True by done); eauto. }
  split; [exact Hcols|]. split_and!.
  - by apply initialize_keeps.
  - intros name Hn. rewrite Hget. rewrite !decide_False by (intros ->; done). unfold after_script. rewrite Hn.
    by destruct (dget db name).
  - set (db' := initialize db) in *.
    assert (foldl create_if_missing db' SCHEMA = db') as E1.
    { unfold SCHEMA. cbn [foldl]. unfold create_if_missing. cbn [fst].
      assert (∀ name, is_Some (dget SCHEMA name) → dmem db' name = true) as Hm.
      { intros name [cols Hc]. apply dmem_spec. destruct (Hcols name cols Hc) as (t & -> & _). eauto. }
      rewrite !Hm; by eexists. }
    assert (∀ name cols, dget SCHEMA (str name) = Some cols → table_info db' name = col_name <$> cols) as Hti.
    { intros name cols Hc. unfold table_info. by destruct (Hcols _ _ Hc) as (t & -> & ->). }
    unfold initialize. cbv zeta. rewrite E1, (Hti "peers" peers_columns eq_refl).
    rewrite !(add_present (col_name <$> peers_columns)) by known_column. rewrite (Hti "message_queue" queue_columns eq_refl).
    by rewrite !(add_present (col_name <$> queue_columns)) by known_column.
Qed.

(** ** Example *)

Module SchemaExample.
(** A database from before the contacts could be archived, without the other tables. *)
Definition old_peers : sql_table :=
  mkSqlTable (take 6 peers_columns)
    [[VBlob (be_encode 4 1); VBlob (be_encode 4 2); VNull; VInt 3; VReal (secs 5); VText (str "Ann")]].
Definition old : sql_db := [(str "peers", old_peers)].

Lemma old_is_old : old_database old.
Proof.
  intros name t H. cbn in H. case_decide; [|discriminate H]. injection H as <-. subst name. split_and!; try discriminate. intros _.
  exists 6. split; [cbn; lia|]. split; [reflexivity|]. by apply Forall_singleton.
Qed.

Lemma migration_correct_witness :
  database_of (initialize old)
    = Some (mkDb [(be_encode 4 1, mkPeerRecord (be_encode 4 1) (be_encode 4 2) None 3 (Some (secs 5)) (Some (str "Ann")) false None)]
              [] [] None).
Proof.
  destruct (migration_correct old old_is_old) as (_ & H & _). rewrite H. reflexivity.
Defined.
End SchemaExample.
