(* ===== verification/LogFiles.v ===== *)
(** * Message logs and the outbox (storage.py, [MessageLog] and [OutboxStore])

    Files are a finite map from path to contents.  The writes of [append_message] and
    [store_message] are sequences of file-system steps, so that a crash between or within them can be
    talked about: a step is atomic except for writing data, after which, until it is synced, the file
    may hold anything.  Paths are relative to the store's directory.  [os.write] is taken to write
    everything it is given. *)

From S2P Require Import Prelude Bytes PyText Crypto.

Abbreviation path := pystr.
Abbreviation files := (gmap pystr bytes).

Inductive fs_step :=
| FsTrunc (p : path)
| FsWrite (p : path) (data : bytes)
| FsSync (p : path)
| FsRename (p q : path).

Definition fs_exec (fs : files) (s : fs_step) : files :=
  match s with
  | FsTrunc p => <[p := []]> fs
  | FsWrite p data => <[p := default [] (fs !! p) ++ data]> fs
  | FsSync _ => fs
  | FsRename p q => match fs !! p with Some c => <[q := c]> (delete p fs) | None => fs end
  end.

(** The states a crash during [steps] can leave. *)
Inductive crash : files → list fs_step → files → Prop :=
| crash_here fs steps : crash fs steps fs
| crash_torn fs p data c steps : crash fs (FsWrite p data :: steps) (<[p := c]> fs)
| crash_next fs s steps fs' : crash (fs_exec fs s) steps fs' → crash fs (s :: steps) fs'.

(** Write a file and move it into place: the steps shared by both stores. *)
Definition replace_steps (tmp final : path) (data : bytes) : list fs_step :=
  [FsTrunc tmp; FsWrite tmp data; FsSync tmp; FsRename tmp final].

(** ** MessageLog *)

Record MessageLog := mkMessageLog { ml_limit_bytes : Z; ml_max_rotations : nat }.

(** [MessageLog(dir, log_limit_mb, max_rotations)] *)
Definition new_message_log (log_limit_mb : Z) (max_rotations : nat) : MessageLog :=
  mkMessageLog (log_limit_mb * 1024 * 1024) max_rotations.

Definition log_path (peer_id : bytes) : path := bytes_hex peer_id ++ str ".log".
(** [log_path.with_suffix(".log.tmp")], [log_path.with_suffix(f".log.{i}")] *)
Definition log_tmp_path (peer_id : bytes) : path := log_path peer_id ++ str ".tmp".
Definition rot_path (peer_id : bytes) (i : nat) : path :=
  log_path peer_id ++ str "." ++ str_of_Z (Z.of_nat i).

(** The length-prefixed line of a blob. *)
Definition log_line (blob : bytes) : result bytes :=
  h ← struct_pack 4 (Z.of_nat (length blob)); Ok (h ++ blob ++ [Byte.x0a]).

(** The body of the rotation loop for [i]. *)
Definition rotate_step (k : nat) (peer_id : bytes) (fs : files) (i : nat) : files :=
  let fs1 := if (i =? k)%nat then delete (rot_path peer_id i) fs else fs in
  if (1 <? i)%nat
  then fs_exec fs1 (FsRename (rot_path peer_id (i - 1)) (rot_path peer_id i))
  else fs1.

(** [for i in range(max_rotations, 0, -1)], then the log itself *)
Definition rotate_files (k : nat) (peer_id : bytes) (fs : files) : files :=
  fs_exec (foldl (rotate_step k peer_id) fs (reverse (seq 1 k)))
    (FsRename (log_path peer_id) (rot_path peer_id 1)).

Definition rotate_if_needed (ml : MessageLog) (fs : files) (peer_id : bytes) : files :=
  match fs !! log_path peer_id with
  | None => fs
  | Some c =>
      if (Z.of_nat (length c) <=? ml_limit_bytes ml)%Z then fs
      else rotate_files (ml_max_rotations ml) peer_id fs
  end.

Definition append_steps (fs : files) (peer_id line : bytes) : list fs_step :=
  replace_steps (log_tmp_path peer_id) (log_path peer_id)
    (default [] (fs !! log_path peer_id) ++ line).

(** [append_message(peer_id, encrypted_blob)] *)
Definition append_message (ml : MessageLog) (fs : files) (peer_id encrypted_blob : bytes)
    : files * result () :=
  match log_line encrypted_blob with
  | Raise e => (fs, Raise e)
  | Ok line => (rotate_if_needed ml (foldl fs_exec fs (append_steps fs peer_id line)) peer_id, Ok ())
  end.

(** The reading loop, from the bytes at [pos] on.  Each turn reads at least five bytes or stops, so
    the number of bytes is enough fuel. *)
Fixpoint parse_log (fuel : nat) (data : bytes) : list bytes :=
  match fuel with
  | 0 => []
  | S fuel =>
      if (length data <? 4)%nat then [] else
      let n := Z.to_nat (be_decode (take 4 data)) in
      let rest := drop 4 data in
      if (length rest <? n)%nat then [] else
      take n rest :: parse_log fuel (drop (n + 1) rest)
  end.

Definition read_file (fs : files) (p : path) : list bytes :=
  match fs !! p with None => [] | Some data => parse_log (length data) data end.

(** [read_messages(peer_id)] *)
Definition read_messages (fs : files) (peer_id : bytes) : list bytes :=
  read_file fs (log_path peer_id).

(** ** OutboxStore *)

Section outbox.
Context `{C : CryptoLib}.

Definition outbox_path (message_id : pystr) : path := message_id ++ str ".bin".
Definition outbox_tmp_path (message_id : pystr) : path := message_id ++ str ".bin.tmp".

(** [store_message(message_id, plaintext)]; [nonce] is drawn *)
Definition store_message (key : bytes) (fs : files) (message_id : pystr) (plaintext nonce : bytes)
    : files * result () :=
  match utf8_encode message_id with
  | Raise e => (fs, Raise e)
  | Ok aad =>
      (foldl fs_exec fs (replace_steps (outbox_tmp_path message_id) (outbox_path message_id)
         (nonce ++ aes_encrypt key nonce plaintext aad)), Ok ())
  end.

(** [load_message(message_id)] *)
Definition load_message (key : bytes) (fs : files) (message_id : pystr) : option bytes :=
  match fs !! outbox_path message_id with
  | None => None
  | Some blob =>
      if (length blob <? 12)%nat then None else
      match utf8_encode message_id with
      | Raise _ => None
      | Ok aad =>
          match aes_decrypt key (take 12 blob) (drop 12 blob) aad with
          | Ok plaintext => Some plaintext
          | Raise _ => None
          end
      end
  end.

(** [delete_message(message_id)] *)
Definition delete_message (fs : files) (message_id : pystr) : files :=
  delete (outbox_path message_id) fs.
End outbox.

(** ** Lemmas: paths *)

Lemma str_of_nat_inj i j : str_of_Z (Z.of_nat i) = str_of_Z (Z.of_nat j) → i = j.
Proof.
  intros H. apply (f_equal py_int) in H. rewrite !py_int_str_of_Z in H by lia.
  apply Ok_inj in H. lia.
Qed.

Lemma rot_path_inj p i j : rot_path p i = rot_path p j → i = j.
Proof. intros H%app_inv_head%app_inv_head. by apply str_of_nat_inj. Qed.

Lemma rot_log_ne p i : rot_path p i ≠ log_path p.
Proof.
  unfold rot_path. intros H. apply (f_equal length) in H. rewrite !length_app in H. cbn in H. lia.
Qed.

Lemma tmp_log_ne p : log_tmp_path p ≠ log_path p.
Proof. unfold log_tmp_path. intros H. apply (f_equal length) in H. rewrite length_app in H. cbn in H. lia. Qed.

Lemma rot_tmp_ne p i : rot_path p i ≠ log_tmp_path p.
Proof.
  intros H%app_inv_head. change (str ".tmp") with (str "." ++ str "tmp") in H.
  apply app_inv_head in H. apply (f_equal py_int) in H. rewrite py_int_str_of_Z in H by lia.
  revert H. vm_compute. discriminate.
Qed.

(** ** Lemmas: replacing a file *)

Lemma replace_lookup fs tmp final data q :
  tmp ≠ final →
  foldl fs_exec fs (replace_steps tmp final data) !! q =
    if decide (q = final) then Some data else if decide (q = tmp) then None else fs !! q.
Proof.
  intros Hne. unfold replace_steps. cbn [foldl fs_exec]. rewrite !lookup_insert_eq. cbn.
  rewrite lookup_insert. case_decide as E.
  - subst. by rewrite decide_True.
  - rewrite (decide_False (P := q = final)) by congruence. case_decide; subst.
    + apply lookup_delete_eq.
    + rewrite lookup_delete_ne, !lookup_insert_ne by done. done.
Qed.

Lemma replace_crash fs tmp final data fs' :
  tmp ≠ final → crash fs (replace_steps tmp final data) fs' →
  (fs' !! final = fs !! final ∨ fs' !! final = Some data) ∧
  ∀ q, q ≠ final → q ≠ tmp → fs' !! q = fs !! q.
Proof.
  intros Hne Hc. unfold replace_steps in Hc.
  repeat match goal with
  | H : crash _ (_ :: _) _ |- _ => inversion H; subst; clear H
  | H : crash _ [] _ |- _ => inversion H; subst; clear H
  end; cbn [fs_exec]; rewrite ?lookup_insert_eq; cbn [default from_option id app];
    (split; [|intros q H1 H2]); rewrite ?lookup_insert_ne, ?lookup_delete_ne by done;
    rewrite ?lookup_insert_eq; cbn; auto;
    rewrite ?lookup_insert_ne, ?lookup_delete_ne by done; rewrite ?lookup_insert_ne by done; auto.
Qed.

(** ** Lemmas: the line format *)

Lemma parse_log_line blob line fuel rest :
  log_line blob = Ok line → parse_log (S fuel) (line ++ rest) = blob :: parse_log fuel rest.
Proof.
  unfold log_line. intros H. invert_ok. apply struct_pack_Ok in H0 as [Hr ->]. subst line.
  cbn [parse_log]. rewrite <- !app_assoc.
  rewrite (proj2 (Nat.ltb_ge _ _)) by (rewrite length_app, length_be_encode; lia).
  rewrite take_app_length', drop_app_length' by (by rewrite length_be_encode).
  rewrite be_decode_encode, Nat2Z.id by done.
  rewrite (proj2 (Nat.ltb_ge _ _)) by (rewrite length_app; lia).
  rewrite take_app_length. rewrite app_assoc, drop_app_length' by (rewrite length_app; done). done.
Qed.

Lemma length_log_line blob line : log_line blob = Ok line → length line = length blob + 5.
Proof.
  unfold log_line. intros H. invert_ok. apply length_struct_pack in H0. subst line.
  rewrite !length_app. cbn. lia.
Qed.

(** [data] is the lines of [blobs], one after the other. *)
Inductive log_of : list bytes → bytes → Prop :=
| log_of_nil : log_of [] []
| log_of_snoc blobs data blob line :
    log_of blobs data → log_line blob = Ok line → log_of (blobs ++ [blob]) (data ++ line).

Lemma log_of_cons blob line blobs data :
  log_line blob = Ok line → log_of blobs data → log_of (blob :: blobs) (line ++ data).
Proof.
  intros Hl. induction 1 as [|blobs data b l H IH Hb].
  - rewrite app_nil_r. change [blob] with ([] ++ [blob]). change line with ([] ++ line).
    by constructor; [constructor|].
  - rewrite app_assoc, app_comm_cons. by constructor.
Qed.

Lemma log_of_inv blobs data :
  log_of blobs data →
  (blobs = [] ∧ data = []) ∨
  ∃ b bs l d, blobs = b :: bs ∧ data = l ++ d ∧ log_line b = Ok l ∧ log_of bs d.
Proof.
  induction 1 as [|blobs data b l H IH Hb]; [by left|]. right.
  destruct IH as [[-> ->]|(b0 & bs & l0 & d & -> & -> & H0 & Hd)].
  - exists b, [], l, []. rewrite app_nil_r. split_and!; [done..|constructor].
  - exists b0, (bs ++ [b]), l0, (d ++ l). rewrite <- app_assoc. split_and!; [done..|]. by constructor.
Qed.

Lemma parse_log_of blobs data fuel :
  log_of blobs data → length data ≤ fuel → parse_log fuel data = blobs.
Proof.
  revert data fuel. induction blobs as [|b bs IH]; intros data fuel Hl Hf;
    apply log_of_inv in Hl as [[Hn ->]|(b0 & bs0 & l & d & Hbs & -> & Hline & Hd)]; try done.
  - by destruct fuel.
  - simplify_eq. pose proof (length_log_line _ _ Hline). rewrite length_app in Hf.
    destruct fuel as [|fuel]; [lia|]. rewrite (parse_log_line b0 l) by done. f_equal.
    apply IH; [done|lia].
Qed.

Lemma read_file_of fs p blobs data : fs !! p = Some data → log_of blobs data → read_file fs p = blobs.
Proof. intros Hp Hl. unfold read_file. rewrite Hp. by apply parse_log_of. Qed.

(** ** Lemmas: rotation *)

Lemma rename_lookup fs p q x :
  p ≠ q →
  fs_exec fs (FsRename p q) !! x =
    if decide (x = q) then (if decide (is_Some (fs !! p)) then fs !! p else fs !! q)
    else if decide (x = p) then None else fs !! x.
Proof.
  intros Hne. cbn. destruct (fs !! p) as [c|] eqn:E.
  - rewrite lookup_insert. case_decide as E1.
    + subst. rewrite decide_True by done. by rewrite decide_True by eauto.
    + rewrite decide_False by congruence. rewrite lookup_delete. repeat case_decide; congruence.
  - case_decide; subst; [by rewrite decide_False by (by intros [])|]. case_decide; by subst.
Qed.

(** The state of the loop when [m] turns are left: slot [m] is free unless it is the last. *)
Lemma rotate_loop k p fs m :
  m ≤ k → (m = 0 ∨ m = k ∨ fs !! rot_path p m = None) →
  let fs' := foldl (rotate_step k p) fs (reverse (seq 1 m)) in
  (∀ i, 2 ≤ i ≤ m → fs' !! rot_path p i = fs !! rot_path p (i - 1)) ∧
  (1 ≤ m → fs' !! rot_path p 1 = None) ∧
  ∀ q, (∀ i, 1 ≤ i ≤ m → q ≠ rot_path p i) → fs' !! q = fs !! q.
Proof.
  revert fs. induction m as [|m IH]; intros fs Hm Hfree; cbn zeta.
  - split_and!; [lia|lia|done].
  - rewrite seq_S, reverse_app. cbn [reverse rev_append app foldl]. change (1 + m) with (S m).
    set (fs1 := if (S m =? k)%nat then delete (rot_path p (S m)) fs else fs).
    assert (fs1 !! rot_path p (S m) = None) as Hf1.
    { unfold fs1. destruct (Nat.eqb_spec (S m) k); [apply lookup_delete_eq|]. naive_solver lia. }
    assert (∀ q, q ≠ rot_path p (S m) → fs1 !! q = fs !! q) as Hf2.
    { intros q Hq. unfold fs1. destruct (_ =? _)%nat; [|done]. by apply lookup_delete_ne. }
    unfold rotate_step at 2. fold fs1. destruct m as [|m].
    + cbn [Nat.ltb Nat.leb seq reverse rev_append foldl]. split_and!; [lia|done|].
      intros q Hq. apply Hf2, Hq. lia.
    + change (1 <? S (S m))%nat with true. cbn iota. rewrite Nat.sub_succ, Nat.sub_0_r.
      set (fs2 := fs_exec fs1 _).
      assert (rot_path p (S m) ≠ rot_path p (S (S m))) as Hne by (intros E%rot_path_inj; lia).
      pose proof (λ x, rename_lookup fs1 (rot_path p (S m)) (rot_path p (S (S m))) x Hne) as Hr.
      fold fs2 in Hr.
      destruct (IH fs2) as (H1 & H2 & H3); [lia| |].
      { right. right. rewrite Hr. rewrite decide_False by done. by rewrite decide_True. }
      split_and!; [|intros _; apply H2; lia|].
      * intros i Hi. destruct (decide (i = S (S m))) as [->|].
        { rewrite H3 by (intros j Hj E%rot_path_inj; lia). rewrite Hr, decide_True by done.
          rewrite Nat.sub_succ, Nat.sub_0_r. rewrite <- (Hf2 (rot_path p (S m))) by done.
          case_decide as Ed; [done|]. rewrite Hf1. symmetry. by apply eq_None_not_Some. }
        rewrite H1 by lia. rewrite Hr. rewrite !decide_False by (intros E%rot_path_inj; lia).
        apply Hf2. intros E%rot_path_inj; lia.
      * intros q Hq. rewrite H3 by (intros i Hi; apply Hq; lia). rewrite Hr.
        rewrite !decide_False by (apply Hq; lia). apply Hf2, Hq. lia.
Qed.

Lemma rotate_files_spec k p fs :
  1 ≤ k →
  (∀ i, 2 ≤ i ≤ k → rotate_files k p fs !! rot_path p i = fs !! rot_path p (i - 1)) ∧
  rotate_files k p fs !! rot_path p 1 = fs !! log_path p ∧
  rotate_files k p fs !! log_path p = None ∧
  ∀ q, q ≠ log_path p → (∀ i, 1 ≤ i ≤ k → q ≠ rot_path p i) → rotate_files k p fs !! q = fs !! q.
Proof.
  intros Hk. destruct (rotate_loop k p fs k) as (H1 & H2 & H3); [lia|auto|].
  unfold rotate_files. set (fs1 := foldl _ _ _) in *.
  assert (log_path p ≠ rot_path p 1) as Hne by (apply not_eq_sym, rot_log_ne).
  assert (fs1 !! log_path p = fs !! log_path p) as Hlog
    by (apply H3; intros i _; apply not_eq_sym, rot_log_ne).
  pose proof (λ x, rename_lookup fs1 (log_path p) (rot_path p 1) x Hne) as Hr.
  split_and!.
  - intros i Hi. rewrite Hr, decide_False by (intros E%rot_path_inj; lia).
    rewrite decide_False by apply rot_log_ne. by apply H1.
  - rewrite Hr, decide_True by done. rewrite H2 by lia. case_decide as E; [done|].
    rewrite <- Hlog. symmetry. by apply eq_None_not_Some.
  - rewrite Hr, decide_False by done. by rewrite decide_True.
  - intros q Hq Hq'. rewrite Hr, !decide_False by (done || (apply Hq'; lia)). by apply H3.
Qed.

(** ** The message history across rotations *)

(** The messages in the rotated files, oldest first, and with the current log. *)
Fixpoint rotated (p : bytes) (fs : files) (m : nat) : list bytes :=
  match m with 0 => [] | S m => read_file fs (rot_path p (S m)) ++ rotated p fs m end.

Definition log_history (k : nat) (p : bytes) (fs : files) : list bytes :=
  rotated p fs k ++ read_messages fs p.

Lemma read_file_ext fs fs' p q : fs' !! p = fs !! q → read_file fs' p = read_file fs q.
Proof. unfold read_file. by intros ->. Qed.

Lemma rotated_shift p fs fs' m :
  (∀ i, 2 ≤ i ≤ S m → fs' !! rot_path p i = fs !! rot_path p (i - 1)) →
  fs' !! rot_path p 1 = fs !! log_path p →
  rotated p fs' (S m) = rotated p fs m ++ read_messages fs p.
Proof.
  intros H H1. induction m as [|m IH].
  - cbn. rewrite app_nil_r. by apply read_file_ext.
  - change (read_file fs' (rot_path p (S (S m))) ++ rotated p fs' (S m)
      = (read_file fs (rot_path p (S m)) ++ rotated p fs m) ++ read_messages fs p).
    rewrite IH by (intros i Hi; apply H; lia). rewrite <- app_assoc. f_equal.
    apply read_file_ext. by rewrite H by lia.
Qed.

Lemma rotated_ext p fs fs' m :
  (∀ i, 1 ≤ i ≤ m → fs' !! rot_path p i = fs !! rot_path p i) → rotated p fs' m = rotated p fs m.
Proof.
  intros H. induction m as [|m IH]; cbn; [done|]. rewrite IH by (intros; apply H; lia).
  f_equal. apply read_file_ext, H. lia.
Qed.

(** The current log is absent or a sequence of lines. *)
Definition log_ok (p : bytes) (fs : files) : Prop :=
  fs !! log_path p = None ∨ ∃ data, fs !! log_path p = Some data ∧ log_of (read_messages fs p) data.

Lemma append_steps_lookup fs p line q :
  foldl fs_exec fs (append_steps fs p line) !! q =
    if decide (q = log_path p) then Some (default [] (fs !! log_path p) ++ line)
    else if decide (q = log_tmp_path p) then None else fs !! q.
Proof. apply replace_lookup, tmp_log_ne. Qed.

(** Before rotation, the appended message is at the end. *)
Lemma append_steps_read fs p blob line :
  log_ok p fs → log_line blob = Ok line →
  let fs1 := foldl fs_exec fs (append_steps fs p line) in
  log_ok p fs1 ∧ read_messages fs1 p = read_messages fs p ++ [blob].
Proof.
  intros Hok Hl. cbn zeta.
  assert (log_of (read_messages fs p) (default [] (fs !! log_path p))) as Hof.
  { destruct Hok as [Hn|(data & Hd & Hof)].
    - unfold read_messages, read_file. rewrite Hn. constructor.
    - by rewrite Hd. }
  pose proof (log_of_snoc _ _ _ _ Hof Hl) as Hof1.
  pose proof (append_steps_lookup fs p line (log_path p)) as Hlog. rewrite decide_True in Hlog by done.
  pose proof (read_file_of _ _ _ _ Hlog Hof1) as Hread. split; [|done].
  right. eexists. split; [done|]. unfold read_messages at 1. by rewrite Hread.
Qed.

Lemma append_message_history ml fs p blob fs' :
  1 ≤ ml_max_rotations ml → log_ok p fs → append_message ml fs p blob = (fs', Ok ()) →
  log_ok p fs' ∧
  let h := log_history (ml_max_rotations ml) p in
  ((read_messages fs' p = read_messages fs p ++ [blob] ∧ h fs' = h fs ++ [blob]) ∨
   (read_messages fs' p = [] ∧
    h fs ++ [blob] = read_file fs (rot_path p (ml_max_rotations ml)) ++ h fs')).
Proof.
  intros Hk Hok. unfold append_message. destruct (log_line blob) as [line|] eqn:Hl; [|done].
  intros Hf. apply (f_equal fst) in Hf. cbn [fst] in Hf. subst fs'.
  destruct (append_steps_read fs p blob line Hok Hl) as [Hok1 Hread].
  set (fs1 := foldl fs_exec fs (append_steps fs p line)) in *.
  assert (∀ i, fs1 !! rot_path p i = fs !! rot_path p i) as Hrot.
  { intros i. unfold fs1. rewrite append_steps_lookup.
    rewrite decide_False by apply rot_log_ne. by rewrite decide_False by apply rot_tmp_ne. }
  pose proof (append_steps_lookup fs p line (log_path p)) as Hlog. rewrite decide_True in Hlog by done.
  fold fs1 in Hlog. unfold rotate_if_needed. rewrite Hlog.
  destruct (_ <=? ml_limit_bytes ml)%Z.
  - split; [done|]. left. split; [done|]. unfold log_history. rewrite Hread, app_assoc.
    f_equal. f_equal. by apply rotated_ext.
  - destruct (rotate_files_spec (ml_max_rotations ml) p fs1 Hk) as (H1 & H2 & H3 & _).
    assert (read_messages (rotate_files (ml_max_rotations ml) p fs1) p = []) as Hnil.
    { unfold read_messages, read_file. by rewrite H3. }
    split; [by left|]. right. split; [done|]. unfold log_history. rewrite Hnil, app_nil_r.
    set (k := ml_max_rotations ml) in *. clearbody k. destruct k as [|m]; [lia|].
    rewrite (rotated_shift p fs1 (rotate_files (S m) p fs1)) by done.
    rewrite Hread. cbn [rotated]. rewrite (rotated_ext p fs fs1 m) by (intros; apply Hrot).
    by rewrite <- !app_assoc.
Qed.

(** ** Properties *)

(** Appending messages one by one. *)
Fixpoint append_all (ml : MessageLog) (fs : files) (p : bytes) (blobs : list bytes)
    : files * result () :=
  match blobs with
  | [] => (fs, Ok ())
  | b :: blobs =>
      let '(fs1, r) := append_message ml fs p b in
      match r with Ok _ => append_all ml fs1 p blobs | Raise e => (fs1, Raise e) end
  end.

Lemma append_all_history ml fs p blobs fs' :
  1 ≤ ml_max_rotations ml → log_ok p fs → append_all ml fs p blobs = (fs', Ok ()) →
  ∃ lost, log_history (ml_max_rotations ml) p fs ++ blobs
    = lost ++ log_history (ml_max_rotations ml) p fs'.
Proof.
  intros Hk. revert fs. induction blobs as [|b blobs IH]; intros fs Hok; cbn.
  - intros [= <-]. exists []. by rewrite app_nil_r.
  - destruct (append_message ml fs p b) as [fs1 [[]|]] eqn:E; [|done]. intros Ha.
    destruct (append_message_history ml fs p b fs1 Hk Hok E) as [Hok1 Hh].
    destruct (IH fs1 Hok1 Ha) as [lost Hl].
    destruct Hh as [[_ Hh]|[_ Hh]].
    + exists lost. by rewrite <- Hl, Hh, <- app_assoc.
    + exists (read_file fs (rot_path p (ml_max_rotations ml)) ++ lost).
      rewrite <- app_assoc, <- Hl, app_assoc, <- Hh. by rewrite <- app_assoc.
Qed.

(** C36: the log keeps the newest messages in order.  Append any messages to a peer's log, starting from
    no files, with any size limit and at least one rotation: if all the appends succeed, the messages
    found in the rotated files and the log, read oldest file first, are the last ones appended, in
    order, with nothing altered, duplicated or missing in between. *)
Theorem message_log_history (ml : MessageLog) (p : bytes) (blobs : list bytes) (fs : files) :
  1 ≤ ml_max_rotations ml → append_all ml ∅ p blobs = (fs, Ok ()) →
  ∃ lost, blobs = lost ++ log_history (ml_max_rotations ml) p fs.
Proof.
  intros Hk Ha. destruct (append_all_history ml ∅ p blobs fs Hk) as [lost Hl]; [by left|done|].
  exists lost. rewrite <- Hl. unfold log_history, read_messages.
  assert (∀ m, rotated p ∅ m = []) as -> by (intros m; induction m; cbn; done). done.
Qed.

(** Append, then read.  Appending a blob shorter than 4 GB to a log that is a sequence of entries (or
    absent) succeeds; reading then gives the messages from before followed by the new one, unless the
    new file exceeds the size limit: then the log is rotated and reading the log gives none, while
    the messages are found in the first rotated file. *)
Theorem append_then_read (ml : MessageLog) (fs : files) (p blob : bytes) :
  1 ≤ ml_max_rotations ml → log_ok p fs → (Z.of_nat (length blob) < 2 ^ 32)%Z →
  let '(fs', r) := append_message ml fs p blob in
  r = Ok () ∧ log_ok p fs' ∧
  (if (Z.of_nat (length (default [] (fs !! log_path p)) + length blob + 5) <=? ml_limit_bytes ml)%Z
   then read_messages fs' p = read_messages fs p ++ [blob]
   else read_messages fs' p = [] ∧
        read_file fs' (rot_path p 1) = read_messages fs p ++ [blob]).
Proof.
  intros Hk Hok Hb. destruct (log_line blob) as [line|e] eqn:Hl.
  2:{ revert Hl. unfold log_line. rewrite struct_pack_fits; [done|]. change (256 ^ Z.of_nat 4)%Z with (2 ^ 32)%Z. lia. }
  assert (append_message ml fs p blob
    = (rotate_if_needed ml (foldl fs_exec fs (append_steps fs p line)) p, Ok ())) as E
    by (unfold append_message; by rewrite Hl).
  destruct (append_message_history ml fs p blob _ Hk Hok E) as [Hok' _].
  rewrite E. split; [done|]. split; [done|].
  destruct (append_steps_read fs p blob line Hok Hl) as [_ Hread].
  pose proof (append_steps_lookup fs p line (log_path p)) as Hlog. rewrite decide_True in Hlog by done.
  set (fs1 := foldl fs_exec fs (append_steps fs p line)) in *.
  unfold rotate_if_needed. rewrite Hlog, length_app, (length_log_line _ _ Hl), Nat.add_assoc.
  destruct (_ <=? ml_limit_bytes ml)%Z; [done|].
  destruct (rotate_files_spec (ml_max_rotations ml) p fs1 Hk) as (_ & H2 & H3 & _). split.
  - unfold read_messages, read_file. by rewrite H3.
  - rewrite <- Hread. by apply read_file_ext.
Qed.

(** A crash does not damage the log.  If the node crashes at any point while an entry is being written
    and moved into place, with whatever part of the temporary file on disk, the log holds either
    exactly what it held before or that followed by the complete entry, and no file other than the
    log and the temporary file has changed. *)
Theorem append_crash_safe (fs fs' : files) (p line : bytes) :
  crash fs (append_steps fs p line) fs' →
  (fs' !! log_path p = fs !! log_path p ∨
   fs' !! log_path p = Some (default [] (fs !! log_path p) ++ line)) ∧
  ∀ q, q ≠ log_path p → q ≠ log_tmp_path p → fs' !! q = fs !! q.
Proof. apply replace_crash, tmp_log_ne. Qed.

(** The outbox returns what was stored.  A plaintext stored under a message id that encodes to UTF-8,
    with a 12-byte nonce, is loaded back, whatever else the outbox holds; before the store completes a
    crash leaves the old file or the new one, and after [delete_message] there is none. *)
Theorem outbox_roundtrip `{C : CryptoLib} `{!CryptoLaws C} (key : bytes) (fs : files) (m : pystr)
    (pt nonce aad : bytes) :
  utf8_encode m = Ok aad → length nonce = 12 →
  let '(fs', r) := store_message key fs m pt nonce in
  r = Ok () ∧ load_message key fs' m = Some pt ∧ load_message key (delete_message fs' m) m = None ∧
  ∀ crashed, crash fs (replace_steps (outbox_tmp_path m) (outbox_path m)
                         (nonce ++ aes_encrypt key nonce pt aad)) crashed →
    load_message key crashed m = load_message key fs m ∨ load_message key crashed m = Some pt.
Proof.
  intros Hm Hn. unfold store_message. rewrite Hm. split; [done|].
  assert (outbox_tmp_path m ≠ outbox_path m) as Hne.
  { unfold outbox_tmp_path, outbox_path. intros H%app_inv_head. discriminate H. }
  assert (∀ fs', fs' !! outbox_path m = Some (nonce ++ aes_encrypt key nonce pt aad) →
    load_message key fs' m = Some pt) as Hload.
  { intros fs' H. unfold load_message. rewrite H, Hm.
    rewrite (proj2 (Nat.ltb_ge _ _)) by (rewrite length_app; lia).
    rewrite take_app_length', drop_app_length' by done. by rewrite aes_decrypt_encrypt. }
  split_and!.
  - apply Hload. rewrite replace_lookup by done. by rewrite decide_True.
  - unfold load_message, delete_message. by rewrite lookup_delete_eq.
  - intros crashed Hc. destruct (replace_crash _ _ _ _ _ Hne Hc) as [[Hf|Hf] _]; [|auto].
    left. unfold load_message. by rewrite Hf.
Qed.

(** ** Witnesses *)

Module LogExample.
Import ToyCrypto.
Definition p : bytes := be_encode 2 1.
Definition ml : MessageLog := mkMessageLog 14 2.
Definition blobs : list bytes := (λ n, be_encode 3 (Z.of_nat n)) <$> seq 0 7.

Lemma message_log_history_witness :
  ∃ lost, blobs = lost ++ log_history 2 p (append_all ml ∅ p blobs).1.
Proof.
  apply (message_log_history ml p blobs).
  - cbn. lia.
  - vm_compute. reflexivity.
Defined.

Lemma append_then_read_witness :
  let '(fs', r) := append_message ml ∅ p (be_encode 3 5) in
  r = Ok () ∧ read_messages fs' p = [be_encode 3 5].
Proof.
  pose proof (append_then_read ml ∅ p (be_encode 3 5)) as H.
  destruct (append_message ml ∅ p (be_encode 3 5)) as [fs' r]. destruct H as (H1 & _ & H2).
  - cbn. lia.
  - left. reflexivity.
  - vm_compute. reflexivity.
  - split; [exact H1|exact H2].
Defined.

Lemma append_crash_safe_witness :
  let torn : files := <[log_tmp_path p := be_encode 1 7]> (<[log_tmp_path p := []]> ∅) in
  torn !! log_path p = None ∨ torn !! log_path p = Some (be_encode 4 9).
Proof.
  destruct (append_crash_safe ∅ (<[log_tmp_path p := be_encode 1 7]> (<[log_tmp_path p := []]> ∅))
    p (be_encode 4 9)) as [H _].
  - apply crash_next, crash_torn.
  - exact H.
Defined.

Lemma outbox_roundtrip_witness :
  load_message (C := ToyCrypto.toy) (be_encode 32 1)
    (store_message (C := ToyCrypto.toy) (be_encode 32 1) ∅ (str "m") (be_encode 3 5) (be_encode 12 9)).1
    (str "m") = Some (be_encode 3 5).
Proof.
  pose proof (outbox_roundtrip (C := ToyCrypto.toy) (be_encode 32 1) ∅ (str "m") (be_encode 3 5)
    (be_encode 12 9) (bytes_of_string "m")) as H.
  destruct (store_message _ _ _ _ _) as [fs' r]. apply H; reflexivity.
Defined.
End LogExample.
