(* ===== verification/NodeState.v ===== *)
(** * The node's state and the monad of its code (node.py, [Node])

    [node] is the state of a started node: the state of every subsystem it owns, the dictionaries of
    its own, the heap its session objects live in, the database writes it has scheduled with
    [ensure_future], and the trace of what it has done to the outside so far.  The code of a method is
    a computation [M A]: it changes the state, and returns or raises; what has been changed when it
    raises stays changed.  A method runs as one step: the awaits of database calls inside it are not
    scheduling points of the model, the waits for time or for the network are (each part between two
    of them is a definition of its own). *)

From S2P Require Import Prelude Bytes PyDict PyText Packet Crypto Session Handshake QueueManager.
From S2P Require Import PeerState RateLimiter Overlay Resolution Reconnect Heartbeat Storage LogFiles.

(** ** State *)

(** A [_retry_hello] task: its closure and the attempt it makes next. *)
Record HelloRetry := mkHelloRetry {
  hr_peer : bytes; hr_packet : Packet; hr_endpoint : endpoint; hr_attempt : nat }.

(** What the rest of the world sees, in order. *)
Inductive event :=
| EvSend (pkt : Packet) (addr : endpoint)       (* a datagram handed to the socket *)
| EvDb (op : db_op)                             (* a committed database write *)
| EvMessage (peer_id plaintext : bytes)         (* the message callbacks *)
| EvState (e : state_event)                     (* a peer state callback *)
| EvPeersChanged                                (* the peer list callbacks *)
| EvConnection (message : pystr)                (* the connection event callbacks *)
| EvPunch (addr : endpoint).                    (* a hole punching task started *)

Record node := mkNode {
  n_identity : LocalIdentity;
  n_bound_port : Z;
  n_table : PeerTable;
  n_heap : sheap;
  n_registry : SessionRegistry;
  n_db : database;
  n_message_log : MessageLog;
  n_log_files : files;
  n_outbox_key : bytes;
  n_outbox : files;
  n_queue : queue;
  n_heartbeat : HeartbeatManager;
  n_peer_states : PeerStateManager;
  n_overlay : OverlayManager;
  n_resolver : ResolutionManager;
  n_rate_limiter : PeerRateLimiter;
  n_global_limiter : TokenBucket;
  n_reconnect : ReconnectManager;
  n_pending_hello : dict bytes HandshakeState;
  n_hello_retry_tasks : dict bytes nat;
  n_hello_loops : gmap nat HelloRetry;
  n_local_endpoint_version : Z;
  n_sequence_floors : dict bytes (Z * Z);
  n_scheduled : list db_op;
  n_trace : list event }.

(** Assignments to one field. *)
Definition set_n_identity (x : LocalIdentity) (n : node) : node :=
  mkNode x (n_bound_port n) (n_table n) (n_heap n) (n_registry n) (n_db n) (n_message_log n)
    (n_log_files n) (n_outbox_key n) (n_outbox n) (n_queue n) (n_heartbeat n) (n_peer_states n)
    (n_overlay n) (n_resolver n) (n_rate_limiter n) (n_global_limiter n) (n_reconnect n)
    (n_pending_hello n) (n_hello_retry_tasks n) (n_hello_loops n) (n_local_endpoint_version n)
    (n_sequence_floors n) (n_scheduled n) (n_trace n).
Definition set_n_bound_port (x : Z) (n : node) : node :=
  mkNode (n_identity n) x (n_table n) (n_heap n) (n_registry n) (n_db n) (n_message_log n)
    (n_log_files n) (n_outbox_key n) (n_outbox n) (n_queue n) (n_heartbeat n) (n_peer_states n)
    (n_overlay n) (n_resolver n) (n_rate_limiter n) (n_global_limiter n) (n_reconnect n)
    (n_pending_hello n) (n_hello_retry_tasks n) (n_hello_loops n) (n_local_endpoint_version n)
    (n_sequence_floors n) (n_scheduled n) (n_trace n).
Definition set_n_table (x : PeerTable) (n : node) : node :=
  mkNode (n_identity n) (n_bound_port n) x (n_heap n) (n_registry n) (n_db n) (n_message_log n)
    (n_log_files n) (n_outbox_key n) (n_outbox n) (n_queue n) (n_heartbeat n) (n_peer_states n)
    (n_overlay n) (n_resolver n) (n_rate_limiter n) (n_global_limiter n) (n_reconnect n)
    (n_pending_hello n) (n_hello_retry_tasks n) (n_hello_loops n) (n_local_endpoint_version n)
    (n_sequence_floors n) (n_scheduled n) (n_trace n).
Definition set_n_heap (x : sheap) (n : node) : node :=
  mkNode (n_identity n) (n_bound_port n) (n_table n) x (n_registry n) (n_db n) (n_message_log
    n) (n_log_files n) (n_outbox_key n) (n_outbox n) (n_queue n) (n_heartbeat n) (n_peer_states
    n) (n_overlay n) (n_resolver n) (n_rate_limiter n) (n_global_limiter n) (n_reconnect n)
    (n_pending_hello n) (n_hello_retry_tasks n) (n_hello_loops n) (n_local_endpoint_version n)
    (n_sequence_floors n) (n_scheduled n) (n_trace n).
Definition set_n_registry (x : SessionRegistry) (n : node) : node :=
  mkNode (n_identity n) (n_bound_port n) (n_table n) (n_heap n) x (n_db n) (n_message_log n)
    (n_log_files n) (n_outbox_key n) (n_outbox n) (n_queue n) (n_heartbeat n) (n_peer_states n)
    (n_overlay n) (n_resolver n) (n_rate_limiter n) (n_global_limiter n) (n_reconnect n)
    (n_pending_hello n) (n_hello_retry_tasks n) (n_hello_loops n) (n_local_endpoint_version n)
    (n_sequence_floors n) (n_scheduled n) (n_trace n).
Definition set_n_db (x : database) (n : node) : node :=
  mkNode (n_identity n) (n_bound_port n) (n_table n) (n_heap n) (n_registry n) x (n_message_log
    n) (n_log_files n) (n_outbox_key n) (n_outbox n) (n_queue n) (n_heartbeat n) (n_peer_states
    n) (n_overlay n) (n_resolver n) (n_rate_limiter n) (n_global_limiter n) (n_reconnect n)
    (n_pending_hello n) (n_hello_retry_tasks n) (n_hello_loops n) (n_local_endpoint_version n)
    (n_sequence_floors n) (n_scheduled n) (n_trace n).
Definition set_n_message_log (x : MessageLog) (n : node) : node :=
  mkNode (n_identity n) (n_bound_port n) (n_table n) (n_heap n) (n_registry n) (n_db n) x
    (n_log_files n) (n_outbox_key n) (n_outbox n) (n_queue n) (n_heartbeat n) (n_peer_states n)
    (n_overlay n) (n_resolver n) (n_rate_limiter n) (n_global_limiter n) (n_reconnect n)
    (n_pending_hello n) (n_hello_retry_tasks n) (n_hello_loops n) (n_local_endpoint_version n)
    (n_sequence_floors n) (n_scheduled n) (n_trace n).
Definition set_n_log_files (x : files) (n : node) : node :=
  mkNode (n_identity n) (n_bound_port n) (n_table n) (n_heap n) (n_registry n) (n_db n)
    (n_message_log n) x (n_outbox_key n) (n_outbox n) (n_queue n) (n_heartbeat n)
    (n_peer_states n) (n_overlay n) (n_resolver n) (n_rate_limiter n) (n_global_limiter n)
    (n_reconnect n) (n_pending_hello n) (n_hello_retry_tasks n) (n_hello_loops n)
    (n_local_endpoint_version n) (n_sequence_floors n) (n_scheduled n) (n_trace n).
Definition set_n_outbox_key (x : bytes) (n : node) : node :=
  mkNode (n_identity n) (n_bound_port n) (n_table n) (n_heap n) (n_registry n) (n_db n)
    (n_message_log n) (n_log_files n) x (n_outbox n) (n_queue n) (n_heartbeat n) (n_peer_states
    n) (n_overlay n) (n_resolver n) (n_rate_limiter n) (n_global_limiter n) (n_reconnect n)
    (n_pending_hello n) (n_hello_retry_tasks n) (n_hello_loops n) (n_local_endpoint_version n)
    (n_sequence_floors n) (n_scheduled n) (n_trace n).
Definition set_n_outbox (x : files) (n : node) : node :=
  mkNode (n_identity n) (n_bound_port n) (n_table n) (n_heap n) (n_registry n) (n_db n)
    (n_message_log n) (n_log_files n) (n_outbox_key n) x (n_queue n) (n_heartbeat n)
    (n_peer_states n) (n_overlay n) (n_resolver n) (n_rate_limiter n) (n_global_limiter n)
    (n_reconnect n) (n_pending_hello n) (n_hello_retry_tasks n) (n_hello_loops n)
    (n_local_endpoint_version n) (n_sequence_floors n) (n_scheduled n) (n_trace n).
Definition set_n_queue (x : queue) (n : node) : node :=
  mkNode (n_identity n) (n_bound_port n) (n_table n) (n_heap n) (n_registry n) (n_db n)
    (n_message_log n) (n_log_files n) (n_outbox_key n) (n_outbox n) x (n_heartbeat n)
    (n_peer_states n) (n_overlay n) (n_resolver n) (n_rate_limiter n) (n_global_limiter n)
    (n_reconnect n) (n_pending_hello n) (n_hello_retry_tasks n) (n_hello_loops n)
    (n_local_endpoint_version n) (n_sequence_floors n) (n_scheduled n) (n_trace n).
Definition set_n_heartbeat (x : HeartbeatManager) (n : node) : node :=
  mkNode (n_identity n) (n_bound_port n) (n_table n) (n_heap n) (n_registry n) (n_db n)
    (n_message_log n) (n_log_files n) (n_outbox_key n) (n_outbox n) (n_queue n) x
    (n_peer_states n) (n_overlay n) (n_resolver n) (n_rate_limiter n) (n_global_limiter n)
    (n_reconnect n) (n_pending_hello n) (n_hello_retry_tasks n) (n_hello_loops n)
    (n_local_endpoint_version n) (n_sequence_floors n) (n_scheduled n) (n_trace n).
Definition set_n_peer_states (x : PeerStateManager) (n : node) : node :=
  mkNode (n_identity n) (n_bound_port n) (n_table n) (n_heap n) (n_registry n) (n_db n)
    (n_message_log n) (n_log_files n) (n_outbox_key n) (n_outbox n) (n_queue n) (n_heartbeat n)
    x (n_overlay n) (n_resolver n) (n_rate_limiter n) (n_global_limiter n) (n_reconnect n)
    (n_pending_hello n) (n_hello_retry_tasks n) (n_hello_loops n) (n_local_endpoint_version n)
    (n_sequence_floors n) (n_scheduled n) (n_trace n).
Definition set_n_overlay (x : OverlayManager) (n : node) : node :=
  mkNode (n_identity n) (n_bound_port n) (n_table n) (n_heap n) (n_registry n) (n_db n)
    (n_message_log n) (n_log_files n) (n_outbox_key n) (n_outbox n) (n_queue n) (n_heartbeat n)
    (n_peer_states n) x (n_resolver n) (n_rate_limiter n) (n_global_limiter n) (n_reconnect n)
    (n_pending_hello n) (n_hello_retry_tasks n) (n_hello_loops n) (n_local_endpoint_version n)
    (n_sequence_floors n) (n_scheduled n) (n_trace n).
Definition set_n_resolver (x : ResolutionManager) (n : node) : node :=
  mkNode (n_identity n) (n_bound_port n) (n_table n) (n_heap n) (n_registry n) (n_db n)
    (n_message_log n) (n_log_files n) (n_outbox_key n) (n_outbox n) (n_queue n) (n_heartbeat n)
    (n_peer_states n) (n_overlay n) x (n_rate_limiter n) (n_global_limiter n) (n_reconnect n)
    (n_pending_hello n) (n_hello_retry_tasks n) (n_hello_loops n) (n_local_endpoint_version n)
    (n_sequence_floors n) (n_scheduled n) (n_trace n).
Definition set_n_rate_limiter (x : PeerRateLimiter) (n : node) : node :=
  mkNode (n_identity n) (n_bound_port n) (n_table n) (n_heap n) (n_registry n) (n_db n)
    (n_message_log n) (n_log_files n) (n_outbox_key n) (n_outbox n) (n_queue n) (n_heartbeat n)
    (n_peer_states n) (n_overlay n) (n_resolver n) x (n_global_limiter n) (n_reconnect n)
    (n_pending_hello n) (n_hello_retry_tasks n) (n_hello_loops n) (n_local_endpoint_version n)
    (n_sequence_floors n) (n_scheduled n) (n_trace n).
Definition set_n_global_limiter (x : TokenBucket) (n : node) : node :=
  mkNode (n_identity n) (n_bound_port n) (n_table n) (n_heap n) (n_registry n) (n_db n)
    (n_message_log n) (n_log_files n) (n_outbox_key n) (n_outbox n) (n_queue n) (n_heartbeat n)
    (n_peer_states n) (n_overlay n) (n_resolver n) (n_rate_limiter n) x (n_reconnect n)
    (n_pending_hello n) (n_hello_retry_tasks n) (n_hello_loops n) (n_local_endpoint_version n)
    (n_sequence_floors n) (n_scheduled n) (n_trace n).
Definition set_n_reconnect (x : ReconnectManager) (n : node) : node :=
  mkNode (n_identity n) (n_bound_port n) (n_table n) (n_heap n) (n_registry n) (n_db n)
    (n_message_log n) (n_log_files n) (n_outbox_key n) (n_outbox n) (n_queue n) (n_heartbeat n)
    (n_peer_states n) (n_overlay n) (n_resolver n) (n_rate_limiter n) (n_global_limiter n) x
    (n_pending_hello n) (n_hello_retry_tasks n) (n_hello_loops n) (n_local_endpoint_version n)
    (n_sequence_floors n) (n_scheduled n) (n_trace n).
Definition set_n_pending_hello (x : dict bytes HandshakeState) (n : node) : node :=
  mkNode (n_identity n) (n_bound_port n) (n_table n) (n_heap n) (n_registry n) (n_db n)
    (n_message_log n) (n_log_files n) (n_outbox_key n) (n_outbox n) (n_queue n) (n_heartbeat n)
    (n_peer_states n) (n_overlay n) (n_resolver n) (n_rate_limiter n) (n_global_limiter n)
    (n_reconnect n) x (n_hello_retry_tasks n) (n_hello_loops n) (n_local_endpoint_version n)
    (n_sequence_floors n) (n_scheduled n) (n_trace n).
Definition set_n_hello_retry_tasks (x : dict bytes nat) (n : node) : node :=
  mkNode (n_identity n) (n_bound_port n) (n_table n) (n_heap n) (n_registry n) (n_db n)
    (n_message_log n) (n_log_files n) (n_outbox_key n) (n_outbox n) (n_queue n) (n_heartbeat n)
    (n_peer_states n) (n_overlay n) (n_resolver n) (n_rate_limiter n) (n_global_limiter n)
    (n_reconnect n) (n_pending_hello n) x (n_hello_loops n) (n_local_endpoint_version n)
    (n_sequence_floors n) (n_scheduled n) (n_trace n).
Definition set_n_hello_loops (x : gmap nat HelloRetry) (n : node) : node :=
  mkNode (n_identity n) (n_bound_port n) (n_table n) (n_heap n) (n_registry n) (n_db n)
    (n_message_log n) (n_log_files n) (n_outbox_key n) (n_outbox n) (n_queue n) (n_heartbeat n)
    (n_peer_states n) (n_overlay n) (n_resolver n) (n_rate_limiter n) (n_global_limiter n)
    (n_reconnect n) (n_pending_hello n) (n_hello_retry_tasks n) x (n_local_endpoint_version n)
    (n_sequence_floors n) (n_scheduled n) (n_trace n).
Definition set_n_local_endpoint_version (x : Z) (n : node) : node :=
  mkNode (n_identity n) (n_bound_port n) (n_table n) (n_heap n) (n_registry n) (n_db n)
    (n_message_log n) (n_log_files n) (n_outbox_key n) (n_outbox n) (n_queue n) (n_heartbeat n)
    (n_peer_states n) (n_overlay n) (n_resolver n) (n_rate_limiter n) (n_global_limiter n)
    (n_reconnect n) (n_pending_hello n) (n_hello_retry_tasks n) (n_hello_loops n) x
    (n_sequence_floors n) (n_scheduled n) (n_trace n).
Definition set_n_sequence_floors (x : dict bytes (Z * Z)) (n : node) : node :=
  mkNode (n_identity n) (n_bound_port n) (n_table n) (n_heap n) (n_registry n) (n_db n)
    (n_message_log n) (n_log_files n) (n_outbox_key n) (n_outbox n) (n_queue n) (n_heartbeat n)
    (n_peer_states n) (n_overlay n) (n_resolver n) (n_rate_limiter n) (n_global_limiter n)
    (n_reconnect n) (n_pending_hello n) (n_hello_retry_tasks n) (n_hello_loops n)
    (n_local_endpoint_version n) x (n_scheduled n) (n_trace n).
Definition set_n_scheduled (x : list db_op) (n : node) : node :=
  mkNode (n_identity n) (n_bound_port n) (n_table n) (n_heap n) (n_registry n) (n_db n)
    (n_message_log n) (n_log_files n) (n_outbox_key n) (n_outbox n) (n_queue n) (n_heartbeat n)
    (n_peer_states n) (n_overlay n) (n_resolver n) (n_rate_limiter n) (n_global_limiter n)
    (n_reconnect n) (n_pending_hello n) (n_hello_retry_tasks n) (n_hello_loops n)
    (n_local_endpoint_version n) (n_sequence_floors n) x (n_trace n).
Definition set_n_trace (x : list event) (n : node) : node :=
  mkNode (n_identity n) (n_bound_port n) (n_table n) (n_heap n) (n_registry n) (n_db n)
    (n_message_log n) (n_log_files n) (n_outbox_key n) (n_outbox n) (n_queue n) (n_heartbeat n)
    (n_peer_states n) (n_overlay n) (n_resolver n) (n_rate_limiter n) (n_global_limiter n)
    (n_reconnect n) (n_pending_hello n) (n_hello_retry_tasks n) (n_hello_loops n)
    (n_local_endpoint_version n) (n_sequence_floors n) (n_scheduled n) x.

(** ** The monad *)

Definition M (A : Type) : Type := node → node * result A.

#[export] Instance M_ret : MRet M := fun A a n => (n, Ok a).
#[export] Instance M_bind : MBind M := fun A B k c n =>
  match c n with
  | (n', Ok a) => k a n'
  | (n', Raise e) => (n', Raise e)
  end.

Definition raise {A} (e : exn) : M A := λ n, (n, Raise e).
Definition gets {A} (f : node → A) : M A := λ n, (n, Ok (f n)).
Definition modify (f : node → node) : M () := λ n, (f n, Ok ()).
Definition lift {A} (r : result A) : M A := λ n, (n, r).

(** [try: c except e: h] for one exception class *)
Definition try_except {A} (c : M A) (e : exn) (h : M A) : M A := λ n,
  match c n with
  | (n', Raise e') => if e' =?b e then h n' else (n', Raise e')
  | r => r
  end.

(** [try: c except Exception: log] *)
Definition try_log (c : M ()) : M () := λ n, ((c n).1, Ok ()).

Definition emit (ev : event) : M () := modify (λ n, set_n_trace (n_trace n ++ [ev]) n).

(** [for x in l: body] *)
Fixpoint for_each {A} (body : A → M ()) (l : list A) : M () :=
  match l with
  | [] => mret ()
  | x :: l => body x ;; for_each body l
  end.

(** ** Primitive actions *)

(** How a database write ends. *)
Definition db_status (db : database) (op : db_op) : result () :=
  match op with
  | DbUpdateEndpoint p e v s t => (λ _, ()) <$> (db_update_endpoint db p e v s t).2
  | DbSetLocalVersion v => (db_set_local_endpoint_version db v).2
  | DbEnqueue m r c p => (db_enqueue_message db m r c p).2
  | _ => Ok ()
  end.

(** [await self.storage.op(...)] *)
Definition storage (op : db_op) : M () := λ n,
  match db_status (n_db n) op with
  | Ok _ => emit (EvDb op) (set_n_db (db_exec (n_db n) op) n)
  | Raise e => (n, Raise e)
  end.

(** [asyncio.ensure_future(self.storage.op(...))] and its later run *)
Definition schedule (op : db_op) : M () := modify (λ n, set_n_scheduled (n_scheduled n ++ [op]) n).

Definition run_scheduled : M () := λ n,
  match n_scheduled n with
  | [] => (n, Ok ())
  | op :: ops => try_log (storage op) (set_n_scheduled ops n)
  end.

(** [_send_to(packet, addr)], with [UDPTransport.send_packet]: serializing may raise *)
Definition send_to (pkt : Packet) (addr : endpoint) : M () :=
  _ ← lift (packet_serialize pkt); emit (EvSend pkt addr).

Definition notify_peers_changed : M () := emit EvPeersChanged.
Definition notify_connection_event (message : pystr) : M () := emit (EvConnection message).

(** [await self.peer_states.update_state(peer_id, new_state)] *)
Definition set_peer_state (peer_id : bytes) (new_state : PeerState) (now : seconds) : M () := λ n,
  let '(mgr, r) := update_state (n_peer_states n) peer_id new_state now in
  let n1 := set_n_peer_states mgr n in
  match r with
  | Ok evs => for_each (λ e, emit (EvState e)) evs n1
  | Raise e => (n1, Raise e)
  end.

(** [entry = self.peer_table.get_entry(peer_id); if entry: entry.endpoint = addr] *)
Definition table_set_endpoint (peer_id : bytes) (addr : endpoint) : M () :=
  modify (λ n, set_n_table (update_entry (n_table n) peer_id (set_endpoint (Some addr))) n).

(** The session object at [r]. *)
Definition get_session (r : sref) : M Session := λ n,
  match n_heap n !! r with Some s => (n, Ok s) | None => (n, Raise KeyError) end.
Definition put_session (r : sref) (s : Session) : M () :=
  modify (λ n, set_n_heap (<[r := s]> (n_heap n)) n).

(** [self.queue_manager.build_data_packet(msg_id, session)] *)
Definition build_with_session `{C : CryptoLib} (msg_id : pystr) (r : sref) (now : seconds)
    (s : Session) : M (option (Packet * Z)) := λ n,
  let '(q, s', res) := build_data_packet (n_queue n) msg_id s now in
  (set_n_queue q (set_n_heap (<[r := s']> (n_heap n)) n), res).

Definition node_build_data_packet `{C : CryptoLib} (msg_id : pystr) (r : sref) (now : seconds)
    : M (option (Packet * Z)) :=
  s ← get_session r; build_with_session msg_id r now s.
