(* ===== verification/Node.v ===== *)
(** * The node (node.py, transport_udp.py)

    The packet dispatcher, the ten handlers, sending, connecting, and the callbacks the background
    loops use, each composed from the operations of the subsystems in the order of the code.  [now] is
    the clock and [d] what the method draws at random or from the event loop (task and future
    numbers). *)

From S2P Require Import Prelude Bytes PyDict PyText Packet Crypto Session Handshake QueueManager.
From S2P Require Import PeerState RateLimiter Overlay Resolution Reconnect Heartbeat Storage LogFiles.
From S2P Require Import Invite NodeState.

Record draws := mkDraws {
  d_ephemeral : bytes; d_nonce : bytes; d_session_id : bytes;
  d_task : nat; d_hello_task : nat;
  d_uuid : pystr; d_outbox_nonce : bytes;
  d_request_id : bytes; d_future : nat }.

Record ContactAddResult := mkContactAddResult {
  car_peer_id : bytes; car_endpoint : option endpoint; car_connection_started : bool }.

(** [peer_id.hex()[:8]] *)
Definition short_id (peer_id : bytes) : pystr := take 8 (bytes_hex peer_id).

(** [if msg_id:] for a message id or [None] *)
Definition truthy (o : option pystr) : option pystr :=
  match o with Some (c :: s) => Some (c :: s) | _ => None end.

(** ** Helpers *)

(** [_parse_endpoint(ep)] *)
Definition parse_endpoint (ep : pystr) : option endpoint :=
  match str_rsplit1 58 ep with
  | Raise _ => None
  | Ok (host, port_str) =>
      match py_int port_str with Ok port => Some (host, port) | Raise _ => None end
  end.

(** [_peer_id_from_addr(addr)] *)
Definition peer_id_from_addr (n : node) (addr : endpoint) : option bytes :=
  match dfind (λ _ info, info.2 =?b addr) (hb_peer_info (n_heartbeat n)) with
  | Some (pid, _) => Some pid
  | None => pe_peer_id <$> List.find (λ e, pe_endpoint e =?b Some addr) (get_direct_peers (n_table n))
  end.

(** [_apply_sequence_floors(session)] *)
Definition apply_sequence_floors (r : sref) : M () :=
  s ← get_session r;
  floors ← gets n_sequence_floors;
  match dget floors (s_remote_peer_id s) with
  | None => mret ()
  | Some (send_floor, recv_floor) =>
      let s := if (s_send_sequence s <? send_floor)%Z then set_send_sequence send_floor s else s in
      let s := if (s_recv_sequence s <? recv_floor)%Z then set_recv_sequence recv_floor s else s in
      put_session r s ;;
      modify (set_n_sequence_floors (dpop floors (s_remote_peer_id s)))
  end.

(** [_mark_peer_connected(peer_id)] *)
Definition mark_peer_connected (peer_id : bytes) (now : seconds) : M () :=
  current ← gets (λ n, get_state (n_peer_states n) peer_id);
  if current =?b CONNECTED then mret () else
  try_except
    ((match current with
      | DISCONNECTED | ARCHIVED | RESOLVING => set_peer_state peer_id CONNECTING now
      | PeerState.FAILED => set_peer_state peer_id DISCONNECTED now ;; set_peer_state peer_id CONNECTING now
      | _ => mret ()
      end) ;;
     set_peer_state peer_id CONNECTED now)
    ValueError
    (modify (λ n,
       let '(mgr, _) := ensure_machine (n_peer_states n) peer_id DISCONNECTED now in
       set_n_peer_states
         (mkManager (dset (psm_machines mgr) peer_id (mkMachine CONNECTING now)) (psm_callbacks mgr)) n) ;;
     set_peer_state peer_id CONNECTED now) ;;
  notify_peers_changed.

Section node.
Context `{C : CryptoLib}.

(** The common tail of sending: persist, then send.  [_flush_queued_for_peer], [_resend_message]. *)
Definition transmit (msg_id : pystr) (r : sref) (ep : endpoint) (now : seconds) : M () :=
  res ← node_build_data_packet msg_id r now;
  match res with
  | None => mret ()
  | Some (pkt, seq) =>
      s ← get_session r;
      storage (DbUpdateSend (s_session_id s) (s_send_sequence s)) ;;
      storage (DbUpdateSequence msg_id seq now) ;;
      storage (DbUpdateStatus msg_id (str "pending") now) ;;
      send_to pkt ep
  end.

(** [_flush_queued_for_peer(peer_id)] *)
Definition flush_queued_for_peer (peer_id : bytes) (now : seconds) : M () :=
  session ← gets (λ n, get_by_peer_id (n_registry n) peer_id);
  ep ← gets (λ n, get_endpoint (n_table n) peer_id);
  match session, ep with
  | Some r, Some ep =>
      ids ← gets (λ n, get_queued_for_peer (n_queue n) peer_id);
      for_each (λ msg_id, transmit msg_id r ep now) ids
  | _, _ => mret ()
  end.

(** [_resend_message(msg_id, peer_id)] *)
Definition resend_message (msg_id : pystr) (peer_id : bytes) (now : seconds) : M () :=
  session ← gets (λ n, get_by_peer_id (n_registry n) peer_id);
  ep ← gets (λ n, get_endpoint (n_table n) peer_id);
  match session, ep with
  | Some r, Some ep => transmit msg_id r ep now
  | _, _ => mret ()
  end.

(** [_on_message_failed(msg_id, peer_id)] *)
Definition on_message_failed (msg_id : pystr) (peer_id : bytes) (now : seconds) : M () :=
  storage (DbUpdateStatus msg_id (str "failed") now).

(** [_send_sync(session, addr)] *)
Definition send_sync (r : sref) (addr : endpoint) : M () :=
  s ← get_session r;
  pkt ← lift (make_packet SYNC (PSync (mkSync (s_session_id s) (s_recv_sequence s))));
  send_to pkt addr.

(** ** Setting up a session: the common part of the HELLO and HELLO_ACK handlers *)

(** [Session(...)], [_apply_sequence_floors], [register], [save_session_state] *)
Definition open_session (keys : SessionKeys) (now : seconds) : M sref :=
  r ← gets (λ n, fresh (dom (n_heap n)));
  put_session r (new_session (sk_session_id keys) (sk_encryption_key keys) (sk_remote_peer_id keys) now) ;;
  apply_sequence_floors r ;;
  reg ← gets (λ n, register (n_heap n) (n_registry n) r);
  reg' ← lift reg;
  modify (set_n_registry reg') ;;
  s ← get_session r;
  storage (DbSaveSession (s_session_id s) (s_remote_peer_id s) (s_send_sequence s) (s_recv_sequence s) now) ;;
  mret r.

(** [heartbeat.register_peer], [heartbeat.start_heartbeat] *)
Definition begin_heartbeat (pid sid : bytes) (addr : endpoint) (task : nat) (now : seconds) : M () :=
  modify (λ n, set_n_heartbeat
    (start_heartbeat (register_peer (n_heartbeat n) pid sid addr now) pid task) n).

(** ** Handlers *)

(** [_handle_hello(packet, addr)] *)
Definition handle_hello (packet : Packet) (addr : endpoint) (now : seconds) (d : draws) : M () :=
  hello ← lift (hello_deserialize (pkt_payload packet));
  remote_pub ← lift (ed_from_public_bytes (hello_identity_public_key hello));
  let remote_peer_id := derive_peer_id remote_pub in
  existing ← gets (λ n, get_by_peer_id (n_registry n) remote_peer_id);
  if bool_decide (is_Some existing) then mret () else
  pending ← gets (λ n, dmem (n_pending_hello n) remote_peer_id);
  me ← gets n_identity;
  if pending && bytes_ltb (id_peer_id me) remote_peer_id then mret () else
  (if (pending : bool) then modify (λ n, set_n_pending_hello (dpop (n_pending_hello n) remote_peer_id) n)
   else mret ()) ;;
  known ← gets (λ n, get_direct_peer_ids (n_table n));
  (if bool_decide (remote_peer_id ∈ known) then table_set_endpoint remote_peer_id addr
   else
     storage (DbAddPeer remote_peer_id (hello_identity_public_key hello) None (Some addr) now) ;;
     saved ← gets (λ n, db_get_peer (n_db n) remote_peer_id);
     modify (λ n, set_n_table
       (add_direct_peer (n_table n) remote_peer_id (hello_identity_public_key hello)
          (saved ≫= pr_nickname) (Some addr) now) n) ;;
     notify_peers_changed) ;;
  storage (DbRememberEndpoint remote_peer_id addr now) ;;
  known ← gets (λ n, get_direct_peer_ids (n_table n));
  result ← lift (process_hello packet known me (d_ephemeral d) (d_nonce d) (d_session_id d));
  match result with
  | None => mret ()
  | Some (ack_pkt, keys) =>
      send_to ack_pkt addr ;;
      r ← open_session keys now;
      mark_peer_connected (sk_remote_peer_id keys) now ;;
      modify (λ n, set_n_reconnect (record_connect (n_reconnect n) (sk_remote_peer_id keys)) n) ;;
      begin_heartbeat (sk_remote_peer_id keys) (sk_session_id keys) addr (d_task d) now ;;
      flush_queued_for_peer (sk_remote_peer_id keys) now ;;
      notify_connection_event (str "Session established with " ++ short_id (sk_remote_peer_id keys) ++ str " (receiver)") ;;
      send_sync r addr
  end.

(** [_handle_hello_ack(packet, addr)] *)
Definition handle_hello_ack (packet : Packet) (addr : endpoint) (now : seconds) (d : draws) : M () :=
  ack_preview ← lift (hello_ack_deserialize (pkt_payload packet));
  remote_pub ← lift (ed_from_public_bytes (hack_identity_public_key ack_preview));
  let remote_peer_id := derive_peer_id remote_pub in
  state ← gets (λ n, dget (n_pending_hello n) remote_peer_id);
  modify (λ n, set_n_pending_hello (dpop (n_pending_hello n) remote_peer_id) n) ;;
  match state with
  | None => mret ()
  | Some state =>
      existing ← gets (λ n, get_by_peer_id (n_registry n) remote_peer_id);
      if bool_decide (is_Some existing) then mret () else
      known ← gets (λ n, get_direct_peer_ids (n_table n));
      result ← lift (process_hello_ack packet state known);
      match result with
      | None => mret ()
      | Some keys =>
          r ← open_session keys now;
          mark_peer_connected (sk_remote_peer_id keys) now ;;
          modify (λ n, set_n_reconnect (record_connect (n_reconnect n) (sk_remote_peer_id keys)) n) ;;
          storage (DbRememberEndpoint (sk_remote_peer_id keys) addr now) ;;
          table_set_endpoint (sk_remote_peer_id keys) addr ;;
          begin_heartbeat (sk_remote_peer_id keys) (sk_session_id keys) addr (d_task d) now ;;
          flush_queued_for_peer (sk_remote_peer_id keys) now ;;
          modify (λ n, match dget (n_hello_retry_tasks n) (sk_remote_peer_id keys) with
                       | None => n
                       | Some task =>
                           set_n_hello_retry_tasks (dpop (n_hello_retry_tasks n) (sk_remote_peer_id keys))
                             (set_n_hello_loops (delete task (n_hello_loops n)) n)
                       end) ;;
          notify_connection_event (str "Session established with " ++ short_id (sk_remote_peer_id keys) ++ str " (initiator)") ;;
          send_sync r addr
      end
  end.

(** The decryption of [_handle_data]: the session object is advanced in place. *)
Definition open_data (dp : DataPayload) (r : sref) (s : Session) : M (option bytes) := λ n,
  let '(s', res) := decrypt_data_packet dp s in
  (set_n_heap (<[r := s']> (n_heap n)) n, res).

Definition log_append (peer_id blob : bytes) : M () := λ n,
  let '(fs, res) := append_message (n_message_log n) (n_log_files n) peer_id blob in
  (set_n_log_files fs n, res).

(** [_handle_data(packet, addr)] *)
Definition handle_data (packet : Packet) (addr : endpoint) (now : seconds) : M () :=
  dp ← lift (data_deserialize (pkt_payload packet));
  session ← gets (λ n, get_by_session_id (n_registry n) (data_session_id dp));
  match session with
  | None => mret ()
  | Some r =>
      s ← get_session r;
      plaintext ← open_data dp r s;
      match plaintext with
      | None => mret ()
      | Some plaintext =>
          s ← get_session r;
          storage (DbUpdateRecv (s_session_id s) (s_recv_sequence s)) ;;
          ack_pkt ← lift (build_ack (data_session_id dp) (data_sequence_number dp));
          send_to ack_pkt addr ;;
          log_append (s_remote_peer_id s) (data_ciphertext dp ++ data_auth_tag dp) ;;
          storage (DbRememberEndpoint (s_remote_peer_id s) addr now) ;;
          table_set_endpoint (s_remote_peer_id s) addr ;;
          emit (EvMessage (s_remote_peer_id s) plaintext) ;;
          modify (λ n, set_n_heartbeat (record_traffic (n_heartbeat n) (s_remote_peer_id s) now) n) ;;
          app_ack_pkt ← lift (make_packet APP_ACK
            (PAppAck (mkAppAck (data_session_id dp) (data_sequence_number dp))));
          send_to app_ack_pkt addr
      end
  end.

(** [_handle_ack(packet, addr)] *)
Definition node_handle_ack (packet : Packet) (now : seconds) : M () :=
  ack ← lift (ack_deserialize (pkt_payload packet));
  res ← gets (λ n, handle_ack (n_queue n) ack);
  modify (set_n_queue res.1) ;;
  match truthy res.2 with
  | Some msg_id => storage (DbUpdateStatus msg_id (str "delivered") now)
  | None => mret ()
  end.

(** [_handle_ping(packet, addr)] *)
Definition handle_ping (packet : Packet) (addr : endpoint) : M () :=
  ping ← lift (ping_deserialize (pkt_payload packet));
  pong ← lift (make_packet PONG (PPong (mkPong (ping_session_id ping) (ping_ping_id ping))));
  send_to pong addr.

(** [_handle_pong(packet, addr)] *)
Definition node_handle_pong (packet : Packet) (now : seconds) : M () :=
  pong ← lift (pong_deserialize (pkt_payload packet));
  modify (λ n, set_n_heartbeat (handle_pong (n_heartbeat n) pong now).1 n).

(** ** Endpoint updates *)

Definition ENDPOINT_INFO : bytes := bytes_of_string "ashichat-endpoint-v1".

(** The signed bytes: ip || port || version || info *)
Definition endpoint_sig_data (ip : pystr) (port version : Z) : result bytes :=
  ip_bytes ← utf8_encode ip;
  p ← struct_pack 2 port;
  v ← struct_pack 8 version;
  Ok (ip_bytes ++ p ++ v ++ ENDPOINT_INFO).

(** [_build_endpoint_update(endpoint, peer_id)]; [peer_id] is [None] or empty for the own endpoint *)
Definition build_endpoint_update (ep : endpoint) (peer_id : option bytes) : M Packet :=
  me ← gets n_identity;
  let target_id := match peer_id with Some (b :: p) => b :: p | _ => id_peer_id me end in
  version ←
    (if target_id =?b id_peer_id me then
       v ← gets (λ n, (n_local_endpoint_version n + 1)%Z);
       modify (set_n_local_endpoint_version v) ;;
       schedule (DbSetLocalVersion v) ;;
       mret v
     else
       gets (λ n, match get_entry (n_table n) target_id with
                  | Some e => pe_version_counter e
                  | None => 0%Z
                  end));
  sig_data ← lift (endpoint_sig_data ep.1 ep.2 version);
  lift (make_packet ENDPOINT_UPDATE (PEndpointUpdate
    (mkEndpointUpdate target_id ep.1 ep.2 version (identity_sign me sig_data)))).

(** [_verify_endpoint_signature(update)]; a malformed address or number cannot come out of the decoder,
    [false] stands for the exception it would raise *)
Definition verify_endpoint_signature (n : node) (update : EndpointUpdatePayload) : bool :=
  match get_entry (n_table n) (eu_peer_id update) with
  | None => false
  | Some entry =>
      match ed_from_public_bytes (pe_public_key entry) with
      | Raise _ => false
      | Ok remote_pub =>
          match endpoint_sig_data (eu_endpoint_ip update) (eu_endpoint_port update)
                  (eu_version_counter update) with
          | Raise _ => false
          | Ok sig_data => verify_signature remote_pub sig_data (eu_signature update)
          end
      end
  end.

(** [_apply_endpoint_update(peer_id, endpoint, version, signature)] *)
Definition apply_endpoint_update (now : seconds) (update : EndpointUpdatePayload) (n : node) : node :=
  let ep := (eu_endpoint_ip update, eu_endpoint_port update) in
  let v := eu_version_counter update in
  let n1 := set_n_table (update_entry (n_table n) (eu_peer_id update) (λ e,
    if (pe_version_counter e <? v)%Z
    then set_version v (Some (eu_signature update)) (set_endpoint (Some ep) e) else e)) n in
  (schedule (DbUpdateEndpoint (eu_peer_id update) (format_endpoint ep) v
               (Some (eu_signature update)) now) n1).1.

(** [_handle_endpoint_update(packet, addr)] *)
Definition node_handle_endpoint_update (packet : Packet) (now : seconds) : M () :=
  update ← lift (endpoint_update_deserialize (pkt_payload packet));
  modify (λ n,
    let '(rm, n', _) := handle_endpoint_update (verify_endpoint_signature n)
                          (apply_endpoint_update now) (n_resolver n) n update in
    set_n_resolver rm n').

Definition send_all_to (out : list (Packet * endpoint)) : M () :=
  for_each (λ pe, send_to pe.1 pe.2) out.

(** [broadcast_endpoint_update(endpoint)] *)
Definition broadcast_endpoint_update (ep : endpoint) : M () :=
  pkt ← build_endpoint_update ep None;
  direct ← gets (λ n, omap pe_endpoint (get_direct_peers (n_table n)));
  for_each (send_to pkt) direct ;;
  overlay ← gets (λ n, omap (get_endpoint (n_table n)) (ov_overlay (n_overlay n)));
  for_each (send_to pkt) overlay.

(** The signed record of a peer that can answer for it. *)
Definition cached_update (n : node) (target : bytes) : option EndpointUpdatePayload :=
  entry ← get_entry (n_table n) target;
  ep ← pe_endpoint entry;
  sig ← pe_endpoint_signature entry;
  if (0 <? pe_version_counter entry)%Z
  then Some (mkEndpointUpdate target ep.1 ep.2 (pe_version_counter entry) sig)
  else None.

(** [resolver.handle_resolve_request(req, addr)], its packets sent with [_send_to] *)
Definition resolver_handle_request (req : ResolveRequestPayload) (addr : endpoint) (now : seconds)
    : M () := λ n,
  let '(rm, out) := handle_resolve_request (id_peer_id (n_identity n)) (ov_overlay (n_overlay n))
                      (get_endpoint (n_table n)) (n_resolver n) req addr now in
  match out with
  | Ok out => send_all_to out (set_n_resolver rm n)
  | Raise e => (set_n_resolver rm n, Raise e)
  end.

(** [_handle_resolve_request(packet, addr)] *)
Definition node_handle_resolve_request (packet : Packet) (addr : endpoint) (now : seconds) : M () :=
  req ← lift (resolve_deserialize (pkt_payload packet));
  lim ← gets (λ n, check_resolve_forward (n_global_limiter n) now);
  modify (set_n_global_limiter lim.1) ;;
  if negb lim.2 then mret () else
  me ← gets n_identity;
  if rr_target_peer_id req =?b id_peer_id me then
    port ← gets n_bound_port;
    pkt ← build_endpoint_update (addr.1, port) None;
    send_to pkt addr
  else
  cached ← gets (λ n, cached_update n (rr_target_peer_id req));
  match cached with
  | Some u => pkt ← lift (make_packet ENDPOINT_UPDATE (PEndpointUpdate u)); send_to pkt addr
  | None =>
      known_ep ← gets (λ n, get_endpoint (n_table n) (rr_target_peer_id req));
      match known_ep with
      | Some ep => fwd ← lift (make_packet RESOLVE_REQUEST (PResolve req)); send_to fwd ep
      | None => resolver_handle_request req addr now
      end
  end.

(** ** Synchronisation and application acknowledgements *)

Definition rebuild_with_session (msg_id : pystr) (s : Session) (now : seconds) : M (option Packet) := λ n,
  let '(q, res) := rebuild_for_sync (n_queue n) msg_id s now in (set_n_queue q n, res).

(** [_handle_sync(packet, addr)] *)
Definition handle_sync (packet : Packet) (addr : endpoint) (now : seconds) : M () :=
  sync ← lift (sync_deserialize (pkt_payload packet));
  session ← gets (λ n, get_by_session_id (n_registry n) (sync_session_id sync));
  match session with
  | None => mret ()
  | Some r =>
      s ← get_session r;
      entries ← gets n_queue;
      for_each (λ '(msg_id, entry),
        if negb (qe_receiver entry =?b s_remote_peer_id s) then mret () else
        match qe_sequence_number entry with
        | Some seq =>
            if (sync_sequence_number sync <? seq)%Z then
              pkt ← rebuild_with_session msg_id s now;
              match pkt with Some pkt => send_to pkt addr | None => mret () end
            else mret ()
        | None => mret ()
        end) entries
  end.

(** [_handle_app_ack(packet, addr)] *)
Definition handle_app_ack (packet : Packet) (now : seconds) : M () :=
  app_ack ← lift (app_ack_deserialize (pkt_payload packet));
  session ← gets (λ n, get_by_session_id (n_registry n) (app_ack_session_id app_ack));
  match session with
  | None => mret ()
  | Some r =>
      s ← get_session r;
      res ← gets (λ n, acknowledge_by_sequence (n_queue n) (s_remote_peer_id s)
                         (app_ack_sequence_number app_ack));
      modify (set_n_queue res.1) ;;
      match truthy res.2 with
      | Some msg_id => storage (DbUpdateStatus msg_id (str "acknowledged") now)
      | None => mret ()
      end
  end.

(** ** The dispatcher *)

(** The handler of a packet type. *)
Definition dispatch (packet : Packet) (addr : endpoint) (now : seconds) (d : draws) : M () :=
  match pkt_type packet with
  | HELLO => handle_hello packet addr now d
  | HELLO_ACK => handle_hello_ack packet addr now d
  | DATA => handle_data packet addr now
  | ACK => node_handle_ack packet now
  | PING => handle_ping packet addr
  | PONG => node_handle_pong packet now
  | RESOLVE_REQUEST => node_handle_resolve_request packet addr now
  | ENDPOINT_UPDATE => node_handle_endpoint_update packet now
  | SYNC => handle_sync packet addr now
  | APP_ACK => handle_app_ack packet now
  end.

(** The rate limiting at the start of [handle_packet]: may the packet pass? *)
Definition rate_limit (packet : Packet) (addr : endpoint) (now : seconds) : M bool := λ n,
  if bool_decide (pkt_type packet ∈ [DATA; RESOLVE_REQUEST; ENDPOINT_UPDATE]) then
    match peer_id_from_addr n addr with
    | Some pid =>
        let '(rl, ok) := RateLimiter.check (n_rate_limiter n) pid (pkt_type packet) now in
        (set_n_rate_limiter rl n, Ok ok)
    | None => (n, Ok true)
    end
  else (n, Ok true).

(** [handle_packet(packet, addr)] *)
Definition handle_packet (packet : Packet) (addr : endpoint) (now : seconds) (d : draws) : M () :=
  ok ← rate_limit packet addr now;
  if (ok : bool) then try_log (dispatch packet addr now d) else mret ().

(** [UDPTransport.datagram_received(data, addr)] *)
Definition datagram_received (data : bytes) (addr : endpoint) (now : seconds) (d : draws) : M () :=
  match packet_deserialize data with
  | Ok packet => handle_packet packet addr now d
  | Raise PacketError => mret ()
  | Raise e => raise e
  end.

(** ** Connecting *)

(** [connect_to_peer(peer_id, endpoint)] *)
Definition connect_to_peer (peer_id : bytes) (ep : endpoint) (now : seconds) (d : draws) : M () :=
  existing ← gets (λ n, get_by_peer_id (n_registry n) peer_id);
  if bool_decide (is_Some existing) then mret () else
  pending ← gets (λ n, dmem (n_pending_hello n) peer_id);
  if (pending : bool) then mret () else
  me ← gets n_identity;
  hello ← lift (create_hello me (d_ephemeral d) (d_nonce d));
  let '(hello_pkt, st) := hello in
  modify (λ n, set_n_pending_hello (dset (n_pending_hello n) peer_id
    (mkHandshakeState (hs_ephemeral_private_key_bytes st) (hs_ephemeral_public_key_bytes st)
       (hs_local_nonce st) (Some peer_id))) n) ;;
  storage (DbRememberEndpoint peer_id ep now) ;;
  table_set_endpoint peer_id ep ;;
  try_except (set_peer_state peer_id CONNECTING now) ValueError (mret ()) ;;
  emit (EvPunch ep) ;;
  send_to hello_pkt ep ;;
  notify_connection_event (str "Sending HELLO to " ++ short_id peer_id ++ str " at " ++ format_endpoint ep ++ str "...") ;;
  modify (λ n,
    let loops := match dget (n_hello_retry_tasks n) peer_id with
                 | Some old => delete old (n_hello_loops n)
                 | None => n_hello_loops n
                 end in
    set_n_hello_retry_tasks (dset (dpop (n_hello_retry_tasks n) peer_id) peer_id (d_hello_task d))
      (set_n_hello_loops (<[d_hello_task d := mkHelloRetry peer_id hello_pkt ep 2]> loops) n)).

(** [_retry_hello], after all attempts *)
Definition hello_exhausted (peer_id : bytes) (now : seconds) : M () :=
  existing ← gets (λ n, get_by_peer_id (n_registry n) peer_id);
  if bool_decide (is_Some existing) then mret () else
  modify (λ n, set_n_pending_hello (dpop (n_pending_hello n) peer_id) n) ;;
  notify_connection_event (str "Connection to " ++ short_id peer_id ++ str " failed " ++ [8212%Z] ++
    str " no response after 7 attempts.") ;;
  try_except (set_peer_state peer_id DISCONNECTED now) ValueError (mret ()) ;;
  modify (λ n, set_n_reconnect (record_disconnect (n_reconnect n) peer_id now) n).

(** [_retry_hello], one wake-up of its loop: attempts 2 to 7, three seconds apart *)
Definition retry_hello_wake (task : nat) (now : seconds) : M () :=
  loop ← gets (λ n, n_hello_loops n !! task);
  match loop with
  | None => mret ()
  | Some h =>
      let finish := modify (λ n, set_n_hello_loops (delete task (n_hello_loops n)) n) in
      existing ← gets (λ n, get_by_peer_id (n_registry n) (hr_peer h));
      pending ← gets (λ n, dmem (n_pending_hello n) (hr_peer h));
      if bool_decide (is_Some existing) || negb pending then finish else
      send_to (hr_packet h) (hr_endpoint h) ;;
      notify_connection_event (str "HELLO retry " ++ str_of_Z (Z.of_nat (hr_attempt h)) ++ str "/7 to "
        ++ short_id (hr_peer h) ++ str "...") ;;
      if (hr_attempt h <? 7)%nat then
        modify (λ n, set_n_hello_loops (<[task :=
          mkHelloRetry (hr_peer h) (hr_packet h) (hr_endpoint h) (S (hr_attempt h))]>
          (n_hello_loops n)) n)
      else finish ;; hello_exhausted (hr_peer h) now
  end.

(** [resolver.resolve_peer(peer_id, force_network)] up to its wait; the future it waits on *)
Definition start_resolution (peer_id : bytes) (force : bool) (d : draws) : M (option endpoint * option nat) :=
  λ n,
  let '(rm, out) := resolve_start (ov_overlay (n_overlay n)) (get_endpoint (n_table n)) (n_resolver n)
                      peer_id force (d_request_id d) (d_future d) in
  let n1 := set_n_resolver rm n in
  match out with
  | Raise e => (n1, Raise e)
  | Ok (Resolved ep) => (n1, Ok (Some ep, None))
  | Ok (Waiting fut out) => (send_all_to out ;; mret (None, Some fut)) n1
  end.

(** The end of [resolve_peer]: its result *)
Definition finish_resolution (peer_id : bytes) (fut : nat) : M (option endpoint) := λ n,
  let '(rm, ep) := resolve_finish (n_resolver n) peer_id fut in (set_n_resolver rm n, Ok ep).

(** ** Sending a message *)

(** [send_message(peer_id, text)].  Without a session and an endpoint it waits for the resolution whose
    future it returns, and continues with [send_message_resolved]. *)
Definition store_outbox (msg_id : pystr) (plaintext nonce : bytes) : M () := λ n,
  let '(fs, r) := store_message (n_outbox_key n) (n_outbox n) msg_id plaintext nonce in
  (set_n_outbox fs n, r).

Definition send_message (peer_id : bytes) (text : pystr) (now : seconds) (d : draws)
    : M (pystr * option nat) :=
  session ← gets (λ n, get_by_peer_id (n_registry n) peer_id);
  plaintext ← lift (utf8_encode text);
  let msg_id := d_uuid d in
  modify (λ n, set_n_queue (enqueue (n_queue n) msg_id peer_id plaintext now) n) ;;
  store_outbox msg_id plaintext (d_outbox_nonce d) ;;
  storage (DbEnqueue msg_id peer_id now []) ;;
  match session with
  | None =>
      ep ← gets (λ n, get_endpoint (n_table n) peer_id);
      match ep with
      | Some ep => connect_to_peer peer_id ep now d ;; mret (msg_id, None)
      | None =>
          out ← start_resolution peer_id false d;
          match out with
          | (Some ep, _) => connect_to_peer peer_id ep now d ;; mret (msg_id, None)
          | (None, fut) => mret (msg_id, fut)
          end
      end
  | Some r =>
      res ← node_build_data_packet msg_id r now;
      match res with
      | None => mret (msg_id, None)
      | Some (pkt, seq) =>
          s ← get_session r;
          storage (DbUpdateSend (s_session_id s) (s_send_sequence s)) ;;
          storage (DbUpdateSequence msg_id seq now) ;;
          storage (DbUpdateStatus msg_id (str "pending") now) ;;
          ep ← gets (λ n, get_endpoint (n_table n) peer_id);
          (match ep with Some ep => send_to pkt ep | None => mret () end) ;;
          mret (msg_id, None)
      end
  end.

Definition send_message_resolved (peer_id : bytes) (fut : nat) (now : seconds) (d : draws) : M () :=
  resolved ← finish_resolution peer_id fut;
  match resolved with
  | Some ep => connect_to_peer peer_id ep now d
  | None => mret ()
  end.

(** ** Contacts *)

(** [add_contact_from_invite(invite_code)] *)
Definition add_contact_from_invite (invite_code : pystr) (now : seconds) (d : draws) : M ContactAddResult :=
  data ← lift (parse_invite invite_code);
  let pub_raw := inv_public_key data in
  let ep := inv_endpoint data in
  pub ← lift (ed_from_public_bytes pub_raw);
  let peer_id := derive_peer_id pub in
  me ← gets n_identity;
  if peer_id =?b id_peer_id me then raise ValueError else
  storage (DbAddPeer peer_id pub_raw None ep now) ;;
  saved ← gets (λ n, db_get_peer (n_db n) peer_id);
  match saved with
  | None => raise RuntimeError
  | Some saved =>
      entry ← gets (λ n, get_entry (n_table n) peer_id);
      modify (λ n, set_n_table
        (match entry with
         | None =>
             add_direct_peer (n_table n) peer_id pub_raw (pr_nickname saved)
               (coalesce ep (pr_last_known_endpoint saved ≫= parse_endpoint)) now
         | Some _ =>
             update_entry (n_table n) peer_id (λ e,
               mkPeerEntry (pe_peer_id e) pub_raw true (coalesce ep (pe_endpoint e)) (pe_last_seen e)
                 (pe_version_counter e) (coalesce (pr_nickname saved) (pe_nickname e))
                 (pe_endpoint_signature e))
         end) n) ;;
      notify_peers_changed ;;
      match ep with
      | Some ep => connect_to_peer peer_id ep now d ;; mret (mkContactAddResult peer_id (Some ep) true)
      | None => mret (mkContactAddResult peer_id None false)
      end
  end.

(** [rename_peer(peer_id, nickname)] *)
Definition rename_peer (peer_id : bytes) (nickname : pystr) : M () :=
  let nickname := str_strip nickname in
  if bool_decide (nickname = []) then raise ValueError else
  storage (DbUpdateNickname peer_id (Some nickname)) ;;
  modify (λ n, set_n_table (update_entry (n_table n) peer_id (set_nickname (Some nickname))) n) ;;
  notify_peers_changed.

(** [set_peer_archived(peer_id, archived)] *)
Definition set_peer_archived (peer_id : bytes) (archived : bool) (now : seconds) : M () :=
  storage (DbSetArchived peer_id archived) ;;
  let target := if archived then ARCHIVED else DISCONNECTED in
  current ← gets (λ n, get_state (n_peer_states n) peer_id);
  if current =?b target then notify_peers_changed else
  try_except (set_peer_state peer_id target now) ValueError
    (if archived && negb (current =?b DISCONNECTED) then
       set_peer_state peer_id DISCONNECTED now ;; set_peer_state peer_id ARCHIVED now
     else if negb archived && (current =?b ARCHIVED) then set_peer_state peer_id DISCONNECTED now
     else mret ()) ;;
  notify_peers_changed.

(** [self.session_registry.remove(session.session_id)] for the session of a peer, if any *)
Definition drop_session (peer_id : bytes) : M () :=
  session ← gets (λ n, get_by_peer_id (n_registry n) peer_id);
  match session with
  | None => mret ()
  | Some r =>
      s ← get_session r;
      modify (λ n, set_n_registry (remove (n_heap n) (n_registry n) (s_session_id s)) n)
  end.

(** [remove_peer(peer_id)] *)
Definition node_remove_peer (peer_id : bytes) : M () :=
  ids ← gets (λ n, (filter (λ me : pystr * QueueEntry, qe_receiver me.2 = peer_id) (n_queue n)).*1);
  for_each (λ i, modify (λ n, set_n_outbox (delete_message (n_outbox n) i) n)) ids ;;
  storage (DbRemovePeer peer_id) ;;
  modify (λ n, set_n_table (table_remove_peer (n_table n) peer_id) n) ;;
  drop_session peer_id ;;
  notify_peers_changed.

(** ** Disconnection and reconnection *)

(** [_handle_peer_disconnect(peer_id)] *)
Definition handle_peer_disconnect (peer_id : bytes) (now : seconds) : M () :=
  try_except (set_peer_state peer_id DISCONNECTED now) ValueError (mret ()) ;;
  drop_session peer_id ;;
  modify (λ n, set_n_reconnect (record_disconnect (n_reconnect n) peer_id now) n) ;;
  notify_peers_changed.

(** [_reconnect_peer(peer_id)] up to the wait for a resolution, whose future it returns *)
Definition reconnect_peer (peer_id : bytes) (now : seconds) (d : draws) : M (option nat) :=
  existing ← gets (λ n, get_by_peer_id (n_registry n) peer_id);
  if bool_decide (is_Some existing) then
    modify (λ n, set_n_reconnect (record_connect (n_reconnect n) peer_id) n) ;; mret None
  else
  attempts ← gets (λ n, get_attempt_count (n_reconnect n) peer_id);
  ep ← gets (λ n, get_endpoint (n_table n) peer_id);
  match ep, attempts with
  | Some ep, 0 => connect_to_peer peer_id ep now d ;; mret None
  | _, _ =>
      try_except (set_peer_state peer_id RESOLVING now) ValueError (mret ()) ;;
      out ← start_resolution peer_id (bool_decide (is_Some ep)) d;
      mret out.2
  end.

(** [_reconnect_peer(peer_id)] after the wait; [ep] is the endpoint known before it *)
Definition reconnect_peer_resolved (peer_id : bytes) (ep : option endpoint) (fut : nat) (now : seconds)
    (d : draws) : M () :=
  resolved ← finish_resolution peer_id fut;
  match resolved, ep with
  | Some ep, _ =>
      storage (DbRememberEndpoint peer_id ep now) ;;
      table_set_endpoint peer_id ep ;;
      connect_to_peer peer_id ep now d
  | None, Some ep => connect_to_peer peer_id ep now d
  | None, None => try_except (set_peer_state peer_id PeerState.FAILED now) ValueError (mret ())
  end.

(** ** Callbacks of the background loops *)

(** The queue's retry loop with the callbacks the node passes. *)
Definition node_retry_pass (now : seconds) (n : node) : node :=
  retry_pass n_queue set_n_queue (λ i p, resend_message i p now) (λ i p, on_message_failed i p now) n now.

(** What the heartbeat's [on_suspect] and [on_disconnect] tasks do. *)
Definition heartbeat_notice (e : hb_event) (now : seconds) : M () :=
  match e with
  | HbSend pkt addr => send_to pkt addr
  | HbSuspect pid => try_log (set_peer_state pid SUSPECT now)
  | HbDisconnect pid => try_log (handle_peer_disconnect pid now)
  end.

(** ** Startup and shutdown *)

(** A node before [start] has read the database: the identity, the database and the files it finds. *)
Definition fresh_node (me : LocalIdentity) (port overlay_k : Z) (ml : MessageLog) (db : database)
    (logs outbox : files) (now : seconds) : node :=
  mkNode me port (mkTable (id_peer_id me) []) ∅ empty_registry db ml logs
    (sha256 (id_private_key me ++ bytes_of_string "ashichat-outbox-v1")) outbox [] empty_heartbeat
    (mkManager [] []) (new_overlay overlay_k) empty_resolver [] (new_global_limiter now)
    empty_reconnect [] [] ∅ (db_get_local_endpoint_version db) [] [] [].

(** Step 3: one row of the peers table *)
Definition load_peer (now : seconds) (p : PeerRecord) : M () :=
  modify (λ n, set_n_table
    (update_entry
       (add_direct_peer (n_table n) (pr_peer_id p) (pr_public_key p) (pr_nickname p)
          (match pr_last_known_endpoint p with
           | Some (c :: ep) => parse_endpoint (c :: ep)
           | _ => None
           end) now)
       (pr_peer_id p) (set_version (pr_version_counter p) (pr_endpoint_signature p))) n) ;;
  if pr_archived p then set_peer_state (pr_peer_id p) ARCHIVED now else mret ().

(** Step 3b: one row of the sessions table *)
Definition load_floor (sr : SessionRecord) : M () :=
  modify (λ n, if is_known (n_table n) (sr_peer_id sr)
               then set_n_sequence_floors (dset (n_sequence_floors n) (sr_peer_id sr)
                      (sr_send_sequence sr, sr_recv_sequence sr)) n
               else n).

(** Step 3c: one row of the message queue; [nonce] is drawn if the payload moves to the outbox *)
Definition load_queued (now : seconds) (nonce : pystr → bytes) (qr : QueueRecord) : M () :=
  stored ← gets (λ n, default [] (load_message (n_outbox_key n) (n_outbox n) (qr_message_id qr)));
  (if bool_decide (stored = []) && negb (bool_decide (qr_plaintext qr = [])) then
     store_outbox (qr_message_id qr) (qr_plaintext qr) (nonce (qr_message_id qr)) ;;
     storage (DbClearPlaintext (qr_message_id qr))
   else mret ()) ;;
  let plaintext := match stored with [] => qr_plaintext qr | _ => stored end in
  if bool_decide (plaintext = []) then
    storage (DbUpdateStatus (qr_message_id qr) (str "failed") now)
  else
    modify (λ n, set_n_queue (restore_entry (n_queue n) (qr_message_id qr) (qr_receiver qr)
      (qr_status qr) (qr_retry_count qr) plaintext (qr_sequence_number qr) now) n).

(** [start()], its database part and the overlay *)
Definition node_start (now : seconds) (nonce : pystr → bytes)
    (shuffle1 : list PeerEntry → list PeerEntry) (shuffle2 : list bytes → list bytes) : M () :=
  peers ← gets (λ n, db_get_all_peers (n_db n));
  for_each (load_peer now) peers ;;
  sessions ← gets (λ n, db_load_all_sessions (n_db n));
  for_each load_floor sessions ;;
  saved ← gets (λ n, db_load_all_queued_messages (n_db n));
  for_each (load_queued now nonce) saved ;;
  modify (λ n, set_n_overlay (select_overlay shuffle1 shuffle2 (n_overlay n) (n_table n) now) n).

(** The flush of [stop()]: the counters of all sessions are saved *)
Definition flush_sessions (now : seconds) : M () :=
  refs ← gets (λ n, all_sessions (n_registry n));
  for_each (λ r,
    s ← get_session r;
    storage (DbSaveSession (s_session_id s) (s_remote_peer_id s) (s_send_sequence s)
               (s_recv_sequence s) now)) refs.

(** [stop()]: the heartbeats end and all session counters are saved *)
Definition node_stop (now : seconds) : M () :=
  modify (λ n, set_n_heartbeat (stop_all (n_heartbeat n)) n) ;;
  flush_sessions now.
End node.
