(* ===== verification/NodeProps.v ===== *)
(** * Properties of the node (node.py)

    What the node does to the outside and in which order, the peer states its code leads to, which
    packets change it, and the passage of a message from one node to another. *)

From S2P Require Import Prelude Bytes PyDict PyText IpAddr Packet Crypto Session Handshake QueueManager.
From S2P Require Import PeerState RateLimiter Overlay Resolution Reconnect Heartbeat Storage LogFiles.
From S2P Require Import NodeState Node.

(** ** Reasoning about computations *)

Lemma bind_eq {A B} (c : M A) (k : A → M B) n :
  (c ≫= k) n = match c n with (n', Ok a) => k a n' | (n', Raise e) => (n', Raise e) end.
Proof. done. Qed.

Lemma bind_ok {A B} (c : M A) (k : A → M B) n n' a :
  c n = (n', Ok a) → (c ≫= k) n = k a n'.
Proof. intros H. rewrite bind_eq. by rewrite H. Qed.

Lemma bind_raise {A B} (c : M A) (k : A → M B) n n' e :
  c n = (n', Raise e) → (c ≫= k) n = (n', Raise e).
Proof. intros H. rewrite bind_eq. by rewrite H. Qed.

Lemma gets_bind {A B} (f : node → A) (k : A → M B) n : (gets f ≫= k) n = k (f n) n.
Proof. done. Qed.

Lemma modify_bind {B} f (k : () → M B) n : (modify f ≫= k) n = k () (f n).
Proof. done. Qed.

Lemma lift_bind_ok {A B} (a : A) (k : A → M B) n : (lift (Ok a) ≫= k) n = k a n.
Proof. done. Qed.

Lemma emit_bind {B} ev (k : () → M B) n :
  (emit ev ≫= k) n = k () (set_n_trace (n_trace n ++ [ev]) n).
Proof. done. Qed.

Lemma get_session_ok r s n : n_heap n !! r = Some s → get_session r n = (n, Ok s).
Proof. intros H. unfold get_session. by rewrite H. Qed.

(** A database write that cannot fail. *)
Lemma storage_ok op n :
  db_status (n_db n) op = Ok () →
  storage op n = (set_n_trace (n_trace n ++ [EvDb op]) (set_n_db (db_exec (n_db n) op) n), Ok ()).
Proof. intros H. unfold storage. by rewrite H. Qed.

(** [traces P c]: what [c] adds to the trace satisfies [P], whether it returns or raises. *)
Definition traces {A} (P : list event → Prop) (c : M A) : Prop :=
  ∀ n, ∃ l, n_trace (c n).1 = n_trace n ++ l ∧ P l.

Section traces.
Context (P : list event → Prop) (P_nil : P []) (P_app : ∀ l k, P l → P k → P (l ++ k)).

Lemma traces_same {A} (c : M A) : (∀ n, n_trace (c n).1 = n_trace n) → traces P c.
Proof using P_nil. intros H n. exists []. by rewrite app_nil_r. Qed.

Lemma traces_bind' {A B} (c : M A) (k : A → M B) :
  traces P c → (∀ a n n', c n = (n', Ok a) → traces P (k a)) → traces P (c ≫= k).
Proof using P_app.
  intros Hc Hk n. rewrite bind_eq. destruct (Hc n) as (l & Hl & HP).
  destruct (c n) as [n' [a|e]] eqn:E; [|eauto]. destruct (Hk a n n' E n') as (l' & Hl' & HP').
  exists (l ++ l'). cbn in *. rewrite Hl', Hl, app_assoc. eauto.
Qed.

Lemma traces_bind {A B} (c : M A) (k : A → M B) :
  traces P c → (∀ a, traces P (k a)) → traces P (c ≫= k).
Proof using P_app. intros Hc Hk. apply traces_bind'; [done|]. intros a _ _ _. apply Hk. Qed.

Lemma traces_emit ev : P [ev] → traces P (emit ev).
Proof using Type. intros H n. exists [ev]. done. Qed.

Lemma traces_storage op : P [EvDb op] → traces P (storage op).
Proof using P_nil.
  intros H n. unfold storage. destruct (db_status (n_db n) op).
  - exists [EvDb op]. done.
  - exists []. cbn. by rewrite app_nil_r.
Qed.

Lemma traces_send pkt addr : P [EvSend pkt addr] → traces P (send_to pkt addr).
Proof using P_nil.
  intros H n. unfold send_to. rewrite bind_eq. unfold lift. destruct (packet_serialize pkt).
  - exists [EvSend pkt addr]. done.
  - exists []. cbn. by rewrite app_nil_r.
Qed.

Lemma traces_for_each {A} (body : A → M ()) l : (∀ x, traces P (body x)) → traces P (for_each body l).
Proof using P_nil P_app.
  intros H. induction l as [|x l IH]; [by apply traces_same|]. cbn. by apply traces_bind.
Qed.

Lemma traces_try {A} (c : M A) e h : traces P c → traces P h → traces P (try_except c e h).
Proof using P_app.
  intros Hc Hh n. unfold try_except. destruct (Hc n) as (l & Hl & HP).
  destruct (c n) as [n' [a|e']]; [eauto|]. destruct (e' =?b e); [|eauto].
  destruct (Hh n') as (l' & Hl' & HP'). exists (l ++ l'). cbn in *. rewrite Hl', Hl, app_assoc. eauto.
Qed.

Lemma traces_set_peer_state p st now :
  (∀ e, P [EvState e]) → traces P (set_peer_state p st now).
Proof using P_nil P_app.
  intros He n. unfold set_peer_state. destruct (update_state _ _ _ _) as [mgr [evs|e]].
  - destruct (traces_for_each (λ e, emit (EvState e)) evs (λ e, traces_emit _ (He e))
      (set_n_peer_states mgr n)) as (l & Hl & HP). eauto.
  - exists []. cbn. by rewrite app_nil_r.
Qed.
End traces.

(** ** Persist before sending *)

(** Every DATA packet in [l] is sent after the session's next number has been written. *)
Definition persisted (l : list event) : Prop :=
  ∀ i pkt addr dp, l !! i = Some (EvSend pkt addr) → pkt_type pkt = DATA →
    data_deserialize (pkt_payload pkt) = Ok dp →
    ∃ j, j < i ∧ l !! j = Some (EvDb (DbUpdateSend (data_session_id dp) (data_sequence_number dp + 1))).

Definition not_data (e : event) : Prop :=
  match e with EvSend pkt _ => pkt_type pkt ≠ DATA | _ => True end.

Lemma persisted_nil : persisted [].
Proof. intros i pkt addr dp H. by rewrite lookup_nil in H. Qed.

Lemma persisted_app l k : persisted l → persisted k → persisted (l ++ k).
Proof.
  intros Hl Hk i pkt addr dp Hi Ht Hd. apply lookup_app_Some in Hi as [Hi|[Hle Hi]].
  - destruct (Hl _ _ _ _ Hi Ht Hd) as (j & Hj & Hjl). exists j. split; [done|].
    by apply lookup_app_l_Some.
  - destruct (Hk _ _ _ _ Hi Ht Hd) as (j & Hj & Hjl). exists (length l + j). split; [lia|].
    rewrite lookup_app_r by lia. by replace (length l + j - length l) with j by lia.
Qed.

Lemma persisted_quiet e : not_data e → persisted [e].
Proof.
  intros He i pkt addr dp Hi Ht _. apply list_lookup_singleton_Some in Hi as [_ ->]. done.
Qed.

#[export] Hint Resolve persisted_nil persisted_app persisted_quiet : ashichat.

(** [traces_step] follows the structure of a computation; it leaves the calls of other methods. *)
Ltac traces_step :=
  lazymatch goal with
  | |- traces persisted (mbind _ _) => apply traces_bind; [apply persisted_app| |intros ?]
  | |- traces persisted (storage _) =>
      apply traces_storage; [apply persisted_nil|by apply persisted_quiet]
  | |- traces persisted (emit _) => apply traces_emit; by apply persisted_quiet
  | |- traces persisted (notify_connection_event _) => apply traces_emit; by apply persisted_quiet
  | |- traces persisted notify_peers_changed => apply traces_emit; by apply persisted_quiet
  | |- traces persisted (set_peer_state _ _ _) =>
      apply traces_set_peer_state;
        [apply persisted_nil|apply persisted_app|intros ?; by apply persisted_quiet]
  | |- traces persisted (try_except _ _ _) => apply traces_try; [apply persisted_app| |]
  | |- traces persisted (for_each _ _) =>
      apply traces_for_each; [apply persisted_nil|apply persisted_app|intros ?]
  | |- traces persisted (gets _) => apply traces_same; [apply persisted_nil|done]
  | |- traces persisted (lift _) => apply traces_same; [apply persisted_nil|done]
  | |- traces persisted (mret _) => apply traces_same; [apply persisted_nil|done]
  | |- traces persisted (modify _) =>
      apply traces_same; [apply persisted_nil|intros ?; cbn; by repeat case_match]
  | |- traces persisted (table_set_endpoint _ _) => apply traces_same; [apply persisted_nil|done]
  | |- traces persisted (if ?b then _ else _) => destruct b
  | |- traces persisted (match ?x with _ => _ end) => destruct x
  end.

Lemma persisted_send pkt addr : pkt_type pkt ≠ DATA → traces persisted (send_to pkt addr).
Proof. intros H. apply traces_send; [apply persisted_nil|by apply persisted_quiet]. Qed.

Section persist.
Context `{C : CryptoLib} `{!CryptoLaws C}.

(** A packet made by [build_data_packet] carries the sealed plaintext of a queued message. *)
Lemma build_data_packet_sealed q i s now q' s' pkt seq :
  build_data_packet q i s now = (q', s', Ok (Some (pkt, seq))) →
  seq = s_send_sequence s ∧ s' = set_send_sequence (seq + 1) s ∧ pkt_type pkt = DATA ∧
  ∃ e dp, dget q i = Some e ∧ qe_status e = QUEUED ∧ seal_data s seq (qe_plaintext e) = Ok dp ∧
    data_deserialize (pkt_payload pkt) = Ok dp.
Proof using CryptoLaws0.
  intros (e & payload & pl & Hg & Hst & Hseq & Hs' & Hseal & Hser & -> & _)%build_data_packet_Some.
  split_and!; [done..|]. exists e, payload. split_and!; [done..|].
  apply seal_data_inv in Hseal as (nonce & aad & ct & tag & Hn & _ & He & ->).
  destruct (encrypt_decrypt _ _ _ _ _ _ He) as (_ & Htag & _).
  destruct (build_nonce_range _ _ _ Hn) as [Hsid Hu].
  cbn. rewrite <- (app_nil_r pl). apply data_roundtrip; [|done].
  unfold data_serialize in Hser. invert_ok. apply struct_pack_Ok in H0 as [Hl _].
  rewrite pow256_4 in Hl. done.
Qed.

(** It decodes to the session's id and the number used. *)
Lemma build_data_packet_decodes q i s now q' s' pkt seq :
  build_data_packet q i s now = (q', s', Ok (Some (pkt, seq))) →
  seq = s_send_sequence s ∧ s' = set_send_sequence (seq + 1) s ∧ pkt_type pkt = DATA ∧
  ∃ dp, data_deserialize (pkt_payload pkt) = Ok dp ∧ data_session_id dp = s_session_id s ∧
    data_sequence_number dp = seq.
Proof using CryptoLaws0.
  intros (Hseq & Hs' & Ht & e & dp & _ & _ & Hseal & Hdp)%build_data_packet_sealed.
  split_and!; [done..|]. exists dp.
  by apply seal_data_inv in Hseal as (nonce & aad & ct & tag & _ & _ & _ & ->).
Qed.

(** What building does to the node. *)
Lemma node_build_some msg r now n n' pkt seq :
  node_build_data_packet msg r now n = (n', Ok (Some (pkt, seq))) →
  ∃ s, n_heap n !! r = Some s ∧ n_trace n' = n_trace n ∧ n_db n' = n_db n ∧ n_table n' = n_table n ∧
    n_registry n' = n_registry n ∧
    n_heap n' !! r = Some (set_send_sequence (seq + 1) s) ∧
    build_data_packet (n_queue n) msg s now
      = (n_queue n', set_send_sequence (seq + 1) s, Ok (Some (pkt, seq))).
Proof using CryptoLaws0.
  unfold node_build_data_packet, get_session. rewrite bind_eq.
  destruct (n_heap n !! r) as [s|] eqn:Hs; [|done]. unfold build_with_session.
  destruct (build_data_packet (n_queue n) msg s now) as [[q s'] res] eqn:E. intros [= <- ->].
  destruct (build_data_packet_decodes _ _ _ _ _ _ _ _ E) as (-> & -> & _).
  exists s. cbn. rewrite lookup_insert_eq. done.
Qed.

Lemma node_build_trace msg r now n : n_trace (node_build_data_packet msg r now n).1 = n_trace n.
Proof using Type.
  unfold node_build_data_packet, get_session. rewrite bind_eq.
  destruct (n_heap n !! r) as [s|]; [|done]. unfold build_with_session.
  by destruct (build_data_packet _ _ _ _) as [[q s'] res].
Qed.

(** [k] sends [pkt] at most once, last. *)
Definition sends_only {A} (pkt : Packet) (k : M A) : Prop :=
  ∀ n, n_trace (k n).1 = n_trace n ∨ ∃ ep, n_trace (k n).1 = n_trace n ++ [EvSend pkt ep].

Lemma send_to_sends_only pkt ep : sends_only pkt (send_to pkt ep).
Proof using Type.
  intros n. unfold send_to. rewrite bind_eq. unfold lift. destruct (packet_serialize pkt); cbn; eauto.
Qed.

(** The writes that follow a successful build, and then the send. *)
Lemma persist_send_trace {A} pkt seq r msg now sid (k : M A) :
  sends_only pkt k →
  (∀ dp, data_deserialize (pkt_payload pkt) = Ok dp →
     data_session_id dp = sid ∧ data_sequence_number dp = seq) →
  ∀ n s, n_heap n !! r = Some s → s_session_id s = sid → s_send_sequence s = (seq + 1)%Z →
  ∃ l, n_trace ((s ← get_session r;
          storage (DbUpdateSend (s_session_id s) (s_send_sequence s)) ;;
          storage (DbUpdateSequence msg seq now) ;;
          storage (DbUpdateStatus msg (str "pending") now) ;; k) n).1 = n_trace n ++ l ∧ persisted l.
Proof using Type.
  intros Hk Hdp n s Hs Hsid Hseq.
  rewrite (bind_ok _ _ _ n s) by (unfold get_session; by rewrite Hs).
  do 3 (erewrite bind_ok by (by apply storage_ok)).
  match goal with |- ∃ l, n_trace (k ?n').1 = _ ∧ _ => destruct (Hk n') as [E|[ep E]] end;
    rewrite E; cbn; rewrite <- !app_assoc; (eexists; split; [reflexivity|]);
    intros i pkt' addr dp Hi Ht Hd; do 3 (destruct i as [|i]; [done|]); [done|].
  destruct i as [|i]; [|done]. cbn in Hi. simplify_eq. destruct (Hdp dp Hd) as [H1 H2].
  exists 0. split; [lia|]. cbn. by rewrite H1, H2, Hseq.
Qed.

Lemma build_then_persist {A} msg r now (k : option (Packet * Z) → M A) :
  (∀ n, n_trace (k None n).1 = n_trace n) →
  (∀ pkt seq, ∃ k', sends_only pkt k' ∧ k (Some (pkt, seq)) = (
     s ← get_session r;
     storage (DbUpdateSend (s_session_id s) (s_send_sequence s)) ;;
     storage (DbUpdateSequence msg seq now) ;;
     storage (DbUpdateStatus msg (str "pending") now) ;; k')) →
  traces persisted (node_build_data_packet msg r now ≫= k).
Proof using CryptoLaws0.
  intros Hnone Hsome n. rewrite bind_eq. pose proof (node_build_trace msg r now n) as Ht.
  destruct (node_build_data_packet msg r now n) as [n' [[[pkt seq]|]|e]] eqn:E; cbn in Ht.
  - destruct (Hsome pkt seq) as (k' & Hk' & ->).
    destruct (node_build_some _ _ _ _ _ _ _ E) as (s & Hs & _ & _ & _ & _ & Hs' & Hb).
    destruct (build_data_packet_decodes _ _ _ _ _ _ _ _ Hb) as (_ & _ & _ & dp & Hdp & H1 & H2).
    destruct (persist_send_trace pkt seq r msg now (s_session_id s) k' Hk') with (n := n')
      (s := set_send_sequence (seq + 1) s) as (l & Hl & HP); [|done..|].
    { intros dp' Hdp'. rewrite Hdp in Hdp'. by simplify_eq. }
    exists l. rewrite Hl. by rewrite Ht.
  - exists []. cbn. rewrite Hnone, app_nil_r. auto with ashichat.
  - exists []. cbn. rewrite app_nil_r. auto with ashichat.
Qed.

Lemma transmit_persisted msg r ep now : traces persisted (transmit msg r ep now).
Proof using CryptoLaws0.
  apply build_then_persist; [done|]. intros pkt seq. exists (send_to pkt ep).
  split; [apply send_to_sends_only|done].
Qed.

Lemma create_hello_type me eph nonce pkt st :
  create_hello me eph nonce = Ok (pkt, st) → pkt_type pkt = HELLO.
Proof using Type. unfold create_hello, make_packet. cbn. by intros [= <- <-]. Qed.

Lemma connect_persisted p ep now d : traces persisted (connect_to_peer p ep now d).
Proof using Type.
  unfold connect_to_peer. do 3 traces_step; try traces_step. do 2 traces_step; try traces_step.
  traces_step; [traces_step|]. apply traces_bind'; [apply persisted_app|traces_step|].
  intros [pkt st] n n' Hh. apply (f_equal snd) in Hh. apply create_hello_type in Hh.
  repeat traces_step. apply persisted_send. by rewrite Hh.
Qed.

Lemma overlay_sends_type pkt overlay ge ok pkt' ep :
  (pkt', ep) ∈ send_to_overlay pkt overlay ge ok → pkt' = pkt.
Proof using Type.
  intros (pid & _ & Hs)%list_elem_of_omap. destruct (ge pid) as [e|]; [|done]. cbn in Hs.
  destruct (ok e); by simplify_eq.
Qed.

Lemma send_all_persisted out :
  Forall (λ pe : Packet * endpoint, pkt_type pe.1 ≠ DATA) out → traces persisted (send_all_to out).
Proof using Type.
  unfold send_all_to. induction 1 as [|[pkt ep] out H Hout IH]; cbn; [traces_step|].
  traces_step; [by apply persisted_send|done].
Qed.

Lemma start_resolution_persisted p force d : traces persisted (start_resolution p force d).
Proof using Type.
  intros n. unfold start_resolution.
  destruct (resolve_start _ _ _ _ _ _ _) as [rm out] eqn:E.
  assert (∀ fut o, out = Ok (Waiting fut o) →
    Forall (λ pe : Packet * endpoint, pkt_type pe.1 ≠ DATA) o) as Ho.
  { intros fut o ->. unfold resolve_start in E.
    destruct (make_packet RESOLVE_REQUEST _) as [pkt|] eqn:Ep.
    - assert (pkt_type pkt = RESOLVE_REQUEST) as Ht.
      { unfold make_packet in Ep. invert_ok. by subst. }
      assert (o = send_to_overlay pkt (ov_overlay (n_overlay n)) (get_endpoint (n_table n)) (λ _, true)) as ->
        by (destruct (get_endpoint (n_table n) p), force; by simplify_eq).
      apply Forall_forall. intros [pkt' ep'] Hin. apply overlay_sends_type in Hin as ->. cbn.
      by rewrite Ht.
    - destruct (get_endpoint (n_table n) p), force; by simplify_eq. }
  destruct out as [[ep|fut o]|e].
  - exists []. cbn. rewrite app_nil_r. auto with ashichat.
  - assert (traces persisted (send_all_to o ;; mret (None (A := endpoint), Some fut))) as Ht.
    { traces_step; [apply send_all_persisted; eauto|traces_step]. }
    apply (Ht (set_n_resolver rm n)).
  - exists []. cbn. rewrite app_nil_r. auto with ashichat.
Qed.

Lemma store_outbox_trace m p nonce : traces persisted (store_outbox m p nonce).
Proof using Type.
  apply traces_same; [apply persisted_nil|]. intros n. unfold store_outbox.
  by destruct (store_message _ _ _ _ _).
Qed.

Lemma flush_persisted p now : traces persisted (flush_queued_for_peer p now).
Proof using CryptoLaws0.
  unfold flush_queued_for_peer. repeat traces_step. apply transmit_persisted.
Qed.

Lemma resend_persisted i p now : traces persisted (resend_message i p now).
Proof using CryptoLaws0. unfold resend_message. repeat traces_step. apply transmit_persisted. Qed.

Lemma send_message_persisted p text now d : traces persisted (send_message p text now d).
Proof using CryptoLaws0.
  unfold send_message. do 3 (traces_step; [repeat traces_step|]).
  traces_step; [apply store_outbox_trace|]. traces_step; [traces_step|].
  destruct a as [r|].
  - apply build_then_persist; [done|]. intros pkt seq. eexists. split; [|reflexivity].
    intros n. rewrite gets_bind. destruct (get_endpoint (n_table n) p) as [ep|]; [|by left].
    rewrite bind_eq. pose proof (send_to_sends_only pkt ep n) as Hs.
    by destruct (send_to pkt ep n) as [n' [[]|e]].
  - traces_step; [traces_step|]. destruct a as [ep|].
    + traces_step; [apply connect_persisted|traces_step].
    + traces_step; [apply start_resolution_persisted|]. destruct a as [[ep|] fut]; [|traces_step].
      traces_step; [apply connect_persisted|traces_step].
Qed.
End persist.

Section persist_properties.
Context `{C : CryptoLib} `{!CryptoLaws C}.

Lemma retry_one_persisted now n i :
  ∃ l, n_trace (retry_one n_queue set_n_queue (λ i p, resend_message i p now)
                  (λ i p, on_message_failed i p now) n i) = n_trace n ++ l ∧ persisted l.
Proof using CryptoLaws0.
  unfold retry_one. destruct (handle_timeout (n_queue n) i) as [q' st].
  destruct (dget q' i) as [e|].
  2:{ exists []. rewrite app_nil_r. auto with ashichat. }
  destruct st; try (exists []; rewrite app_nil_r; by auto with ashichat).
  - apply (resend_persisted i (qe_receiver e) now (set_n_queue q' n)).
  - assert (traces persisted (on_message_failed i (qe_receiver e) now)) as Ht
      by (unfold on_message_failed; traces_step).
    apply (Ht (set_n_queue q' n)).
Qed.

(** The database is written before a message is sent.  Whatever the state of the node, in the
    events of sending a message, of flushing the queue to a peer, of resending one message and of a
    turn of the retry loop, every DATA packet that goes out is preceded by the write that sets the
    stored send counter of its session past its sequence number.  So a restart never hands the number
    out again. *)
Theorem persist_before_send (n : node) (p : bytes) (text i : pystr) (now : seconds) (d : draws) :
  (∃ l, n_trace (send_message p text now d n).1 = n_trace n ++ l ∧ persisted l) ∧
  (∃ l, n_trace (flush_queued_for_peer p now n).1 = n_trace n ++ l ∧ persisted l) ∧
  (∃ l, n_trace (resend_message i p now n).1 = n_trace n ++ l ∧ persisted l) ∧
  (∃ l, n_trace (node_retry_pass now n) = n_trace n ++ l ∧ persisted l).
Proof using CryptoLaws0.
  split_and!.
  - apply send_message_persisted.
  - apply flush_persisted.
  - apply resend_persisted.
  - unfold node_retry_pass, retry_pass. generalize (get_timed_out_messages (n_queue n) now).
    intros ids. revert n. induction ids as [|j ids IH]; intros n; cbn.
    + exists []. rewrite app_nil_r. auto with ashichat.
    + destruct (retry_one_persisted now n j) as (l & Hl & HP).
      destruct (IH (retry_one n_queue set_n_queue (λ i p, resend_message i p now)
                  (λ i p, on_message_failed i p now) n j)) as (l' & Hl' & HP').
      exists (l ++ l'). rewrite Hl', Hl, app_assoc. auto with ashichat.
Qed.
End persist_properties.

(** ** Receiving a message *)

Section receive.
Context `{C : CryptoLib}.

Lemma build_ack_ok sid seq : u32 seq → ∃ pkt, build_ack sid seq = Ok pkt ∧ pkt_type pkt = ACK ∧
  pkt_version pkt = PROTOCOL_VERSION ∧ pkt_payload pkt = sid ++ be_encode 4 seq.
Proof using Type.
  intros Hu. unfold build_ack, make_packet. cbn. unfold ack_serialize. cbn.
  rewrite struct_pack_u32 by done. cbn. eexists. done.
Qed.

Lemma app_ack_ok sid seq : u32 seq →
  ∃ pkt, make_packet APP_ACK (PAppAck (mkAppAck sid seq)) = Ok pkt ∧ pkt_type pkt = APP_ACK ∧
  pkt_version pkt = PROTOCOL_VERSION ∧ pkt_payload pkt = sid ++ be_encode 4 seq.
Proof using Type.
  intros Hu. unfold make_packet. cbn. unfold app_ack_serialize. cbn.
  rewrite struct_pack_u32 by done. cbn. eexists. done.
Qed.

Lemma send_to_ok pkt addr n :
  pkt_version pkt = PROTOCOL_VERSION → (Z.of_nat (length (pkt_payload pkt)) ≤ MAX_PAYLOAD_SIZE)%Z →
  send_to pkt addr n = (set_n_trace (n_trace n ++ [EvSend pkt addr]) n, Ok ()).
Proof using Type.
  intros Hv Hl. destruct pkt as [v t pl]. cbn in Hv, Hl. subst v.
  destruct (packet_serialize_ok t pl Hl) as [bs Hbs]. unfold send_to. rewrite bind_eq. unfold lift.
  by rewrite Hbs.
Qed.

Lemma data_deserialize_bounds data dp :
  data_deserialize data = Ok dp →
  length (data_session_id dp) = 8 ∧ u32 (data_sequence_number dp) ∧
  length (data_ciphertext dp ++ data_auth_tag dp) ≤ length data.
Proof using Type.
  unfold data_deserialize. destruct (Nat.ltb_spec (length data) 28) as [|H28]; [done|]. intros H.
  apply bind_Ok_inv in H as (seq & Hseq & H). apply bind_Ok_inv in H as (ctl & Hctl & H).
  destruct (Z.ltb_spec (Z.of_nat (length data)) (16 + ctl + 16)) as [|Hl]; [done|].
  apply Ok_inj in H as <-. cbn [data_session_id data_sequence_number data_ciphertext data_auth_tag].
  apply struct_unpack_Ok in Hseq as [Hseq ->], Hctl as [Hctl ->].
  pose proof (be_decode_range (slice 8 12 data)) as Hr. rewrite Hseq, pow256_4 in Hr.
  pose proof (be_decode_range (slice 12 16 data)) as Hr'.
  rewrite length_app, !length_slice by lia. split_and!; [done..|]. lia.
Qed.

Lemma log_append_ok pid blob n :
  (Z.of_nat (length blob) < 2 ^ 32)%Z →
  log_append pid blob n
    = (set_n_log_files (append_message (n_message_log n) (n_log_files n) pid blob).1 n, Ok ()).
Proof using Type.
  intros Hl. unfold log_append, append_message, log_line. rewrite struct_pack_fits; [done|].
  rewrite pow256_4. lia.
Qed.

(** A packet that can be sent, and arrives as it was. *)
Definition on_wire (pkt : Packet) : Prop :=
  ∃ wire, packet_serialize pkt = Ok wire ∧ packet_deserialize wire = Ok pkt.

Lemma on_wire_ok pkt :
  pkt_version pkt = PROTOCOL_VERSION → (Z.of_nat (length (pkt_payload pkt)) ≤ MAX_PAYLOAD_SIZE)%Z →
  on_wire pkt.
Proof using Type.
  destruct pkt as [v t pl]. cbn. intros -> Hl. destruct (packet_serialize_ok t pl Hl) as [wire Hw].
  exists wire. split; [done|]. rewrite <- (app_nil_r wire). by apply packet_deserialize_serialize.
Qed.

Lemma registry_inv_sid h reg sid r s :
  registry_inv h reg → get_by_session_id reg sid = Some r → h !! r = Some s → s_session_id s = sid.
Proof using Type. intros Hi Hr Hs. destruct (ri_s _ _ Hi _ _ Hr) as (s0 & Hs0 & <- & _). by simplify_eq. Qed.

(** The node after a message from the peer of session object [r] has been accepted. *)
(** The node after an accepted DATA packet: every other field is as before. *)
Definition data_effects (addr : endpoint) (now : seconds) (dp : DataPayload) (r : sref) (s : Session)
    (pt : bytes) (ack app_ack : Packet) (n : node) : node :=
  let p := s_remote_peer_id s in
  let seq := data_sequence_number dp in
  let recv := DbUpdateRecv (data_session_id dp) seq in
  let seen := DbRememberEndpoint p addr now in
  set_n_trace (n_trace n ++ [EvDb recv; EvSend ack addr; EvDb seen; EvMessage p pt; EvSend app_ack addr])
    (set_n_heartbeat (record_traffic (n_heartbeat n) p now)
      (set_n_table (update_entry (n_table n) p (set_endpoint (Some addr)))
        (set_n_log_files
          (append_message (n_message_log n) (n_log_files n) p (data_ciphertext dp ++ data_auth_tag dp)).1
          (set_n_db (db_exec (db_exec (n_db n) recv) seen)
            (set_n_heap (<[r := set_recv_sequence seq s]> (n_heap n)) n))))).

Lemma handle_data_accept n packet addr now dp r s s' pt :
  s_session_id s = data_session_id dp →
  data_deserialize (pkt_payload packet) = Ok dp → (Z.of_nat (length (pkt_payload packet)) < 2 ^ 32)%Z →
  get_by_session_id (n_registry n) (data_session_id dp) = Some r → n_heap n !! r = Some s →
  decrypt_data_packet dp s = (s', Ok (Some pt)) →
  ∃ n' ack app_ack,
    handle_data packet addr now n = (n', Ok ()) ∧
    ack_deserialize (pkt_payload ack) = Ok (mkAck (data_session_id dp) (data_sequence_number dp)) ∧
    pkt_type ack = ACK ∧ on_wire ack ∧
    app_ack_deserialize (pkt_payload app_ack)
      = Ok (mkAppAck (data_session_id dp) (data_sequence_number dp)) ∧
    pkt_type app_ack = APP_ACK ∧ on_wire app_ack ∧
    n_trace n' = n_trace n ++
      [EvDb (DbUpdateRecv (data_session_id dp) (data_sequence_number dp)); EvSend ack addr;
       EvDb (DbRememberEndpoint (s_remote_peer_id s) addr now);
       EvMessage (s_remote_peer_id s) pt; EvSend app_ack addr] ∧
    n_heap n' = <[r := set_recv_sequence (data_sequence_number dp) s]> (n_heap n) ∧
    n_registry n' = n_registry n ∧ n_queue n' = n_queue n ∧ n_hello_loops n' = n_hello_loops n ∧
    n_log_files n' = (append_message (n_message_log n) (n_log_files n) (s_remote_peer_id s)
                        (data_ciphertext dp ++ data_auth_tag dp)).1 ∧
    n' = data_effects addr now dp r s pt ack app_ack n.
Proof using Type.
  intros Hsid0 Hd Hlen Hr Hs Hdec.
  destruct (data_deserialize_bounds _ _ Hd) as (Hsid & Hu & Hct).
  destruct (decrypt_accepted _ _ _ _ Hdec) as [_ ->].
  destruct (build_ack_ok (data_session_id dp) _ Hu) as (ack & Hack & Hackt & Hackv & Hackp).
  destruct (app_ack_ok (data_session_id dp) _ Hu) as (app & Happ & Happt & Happv & Happp).
  assert (Z.of_nat (length (data_session_id dp ++ be_encode 4 (data_sequence_number dp)))
    ≤ MAX_PAYLOAD_SIZE)%Z as Hsmall
    by (rewrite length_app, length_be_encode, Hsid; unfold MAX_PAYLOAD_SIZE; lia).
  assert (Z.of_nat (length (data_ciphertext dp ++ data_auth_tag dp)) < 2 ^ 32)%Z as Hblob by lia.
  assert (get_session r n = (n, Ok s)) as Hget by (unfold get_session; by rewrite Hs).
  unfold handle_data. rewrite Hd, lift_bind_ok, gets_bind, Hr. rewrite (bind_ok _ _ _ _ _ Hget).
  unfold open_data at 1. rewrite bind_eq, Hdec. cbv beta iota zeta.
  set (n1 := set_n_heap _ n).
  assert (get_session r n1 = (n1, Ok (set_recv_sequence (data_sequence_number dp) s))) as Hget1
    by (unfold get_session, n1; cbn; by rewrite lookup_insert_eq).
  rewrite (bind_ok _ _ _ _ _ Hget1). erewrite bind_ok by (by apply storage_ok).
  rewrite Hack, lift_bind_ok. erewrite bind_ok by (apply send_to_ok; [done|by rewrite Hackp]).
  rewrite (bind_ok _ _ _ _ _ (log_append_ok _ _ _ Hblob)).
  erewrite bind_ok by (by apply storage_ok). unfold table_set_endpoint.
  rewrite modify_bind, emit_bind, modify_bind, Happ, lift_bind_ok.
  rewrite send_to_ok by (done || by rewrite Happp).
  eexists _, ack, app. split; [reflexivity|].
  split_and!; [|done|apply on_wire_ok; [done|by rewrite Hackp]| |done
    |apply on_wire_ok; [done|by rewrite Happp]|cbn; rewrite <- !app_assoc, Hsid0; done|done..|].
  3:{ unfold data_effects, n1. cbn. rewrite <- !app_assoc, Hsid0. reflexivity. }
  - rewrite Hackp, <- (app_nil_r (data_session_id dp ++ _)).
    apply (ack_roundtrip [] (mkAck (data_session_id dp) (data_sequence_number dp))); [done|].
    unfold ack_serialize. cbn. by rewrite struct_pack_u32.
  - rewrite Happp, <- (app_nil_r (data_session_id dp ++ _)).
    apply (app_ack_roundtrip [] (mkAppAck (data_session_id dp) (data_sequence_number dp))); [done|].
    unfold app_ack_serialize. cbn. by rewrite struct_pack_u32.
Qed.

Lemma set_heap_same n r s : n_heap n !! r = Some s → set_n_heap (<[r := s]> (n_heap n)) n = n.
Proof using Type. intros H. rewrite insert_id by done. by destruct n. Qed.

(** A DATA packet that is not accepted has no effect. *)
Lemma handle_data_reject (n : node) (packet : Packet) (addr : endpoint) (now : seconds) :
  (∀ dp r s s' pt,
     data_deserialize (pkt_payload packet) = Ok dp →
     get_by_session_id (n_registry n) (data_session_id dp) = Some r → n_heap n !! r = Some s →
     decrypt_data_packet dp s ≠ (s', Ok (Some pt))) →
  (handle_data packet addr now n).1 = n.
Proof using Type.
  intros Hno. unfold handle_data. rewrite bind_eq. unfold lift at 1.
  destruct (data_deserialize (pkt_payload packet)) as [dp|e] eqn:Hd; [|done]. rewrite gets_bind.
  destruct (get_by_session_id (n_registry n) (data_session_id dp)) as [r|] eqn:Hr; [|done].
  rewrite bind_eq. unfold get_session at 1. destruct (n_heap n !! r) as [s|] eqn:Hs; [|done].
  unfold open_data. rewrite bind_eq.
  destruct (decrypt_data_packet dp s) as [s' [[pt|]|e]] eqn:Hdec.
  - by destruct (Hno dp r s s' pt).
  - apply decrypt_unchanged in Hdec as ->; [|done]. cbn. by apply set_heap_same.
  - apply decrypt_unchanged in Hdec as ->; [|done]. cbn. by apply set_heap_same.
Qed.

(** C10: what a DATA packet does.  If it belongs to a registered session and decrypts, the handler returns
    and does exactly this, in this order: the new receive counter is written to the database, an ACK packet
    for the packet's number goes to the sender, the ciphertext is appended to the peer's log and the
    address remembered in the database, the user sees the plaintext as coming from the session's peer, and an
    APP_ACK packet for the number is sent.  In memory the session's counter is the packet's number, the peer's
    endpoint is the address, the heartbeat manager has recorded the traffic, and every other field of the
    node is unchanged; the registry stays consistent.  If it is malformed, names no registered session, is a
    replay or does not decrypt, the whole node stays as it was: nothing is sent, written, logged, shown or counted. *)
Theorem handle_data_spec (n : node) (packet : Packet) (addr : endpoint) (now : seconds) :
  registry_inv (n_heap n) (n_registry n) → (Z.of_nat (length (pkt_payload packet)) < 2 ^ 32)%Z →
  (∀ dp r s s' pt,
     data_deserialize (pkt_payload packet) = Ok dp →
     get_by_session_id (n_registry n) (data_session_id dp) = Some r → n_heap n !! r = Some s →
     decrypt_data_packet dp s = (s', Ok (Some pt)) →
     ∃ ack app_ack,
       handle_data packet addr now n = (data_effects addr now dp r s pt ack app_ack n, Ok ()) ∧
       pkt_type ack = ACK ∧
       ack_deserialize (pkt_payload ack) = Ok (mkAck (data_session_id dp) (data_sequence_number dp)) ∧ on_wire ack ∧
       pkt_type app_ack = APP_ACK ∧
       app_ack_deserialize (pkt_payload app_ack)
         = Ok (mkAppAck (data_session_id dp) (data_sequence_number dp)) ∧ on_wire app_ack ∧
       registry_inv (<[r := set_recv_sequence (data_sequence_number dp) s]> (n_heap n)) (n_registry n)) ∧
  ((∀ dp r s s' pt,
     data_deserialize (pkt_payload packet) = Ok dp →
     get_by_session_id (n_registry n) (data_session_id dp) = Some r → n_heap n !! r = Some s →
     decrypt_data_packet dp s ≠ (s', Ok (Some pt))) →
   (handle_data packet addr now n).1 = n).
Proof using Type.
  intros Hinv Hl. split; [|apply handle_data_reject]. intros dp r s s' pt Hd Hr Hs Hdec.
  destruct (handle_data_accept n packet addr now dp r s s' pt (registry_inv_sid _ _ _ _ _ Hinv Hr Hs) Hd Hl
    Hr Hs Hdec)
    as (n' & ack & app & H1 & H2 & Ht2 & Hw2 & H3 & Ht3 & Hw3 & _ & _ & _ & _ & _ & _ & ->).
  exists ack, app. split_and!; try done. by eapply registry_inv_update.
Qed.

(** C30: no datagram stops the node.  Whatever bytes arrive from whatever address, [datagram_received]
    returns: the decoder's error is caught there, any exception of a handler in [handle_packet]; and
    bytes that are no packet of this protocol version leave the node unchanged. *)
Theorem datagram_received_total (n : node) (data : bytes) (addr : endpoint) (now : seconds) (d : draws) :
  (datagram_received data addr now d n).2 = Ok () ∧
  (packet_deserialize data = Raise PacketError → datagram_received data addr now d n = (n, Ok ())).
Proof using Type.
  unfold datagram_received. pose proof (packet_deserialize_errors data) as He.
  destruct (packet_deserialize data) as [packet|e].
  - split; [|done]. unfold handle_packet. rewrite bind_eq.
    assert (∃ n1 ok, rate_limit packet addr now n = (n1, Ok ok)) as (n1 & ok & ->).
    { unfold rate_limit. case_bool_decide; [|eauto]. destruct (peer_id_from_addr n addr); [|eauto].
      destruct (RateLimiter.check _ _ _ _). eauto. }
    by destruct ok.
  - rewrite (He e eq_refl). done.
Qed.
End receive.

(** ** Peer states *)

Lemma set_peer_state_ok p st now n :
  st ∈ VALID_TRANSITIONS (get_state (n_peer_states n) p) →
  ∃ n', set_peer_state p st now n = (n', Ok ()) ∧ get_state (n_peer_states n') p = st ∧
    (∀ q, q ≠ p → get_state (n_peer_states n') q = get_state (n_peer_states n) q) ∧ n_db n' = n_db n.
Proof.
  intros Hv. unfold set_peer_state.
  destruct (update_state_ok (n_peer_states n) p st now Hv) as (mgr & -> & _ & Hg). cbv beta iota zeta.
  set (n1 := set_n_peer_states mgr n).
  assert (∀ evs m, ∃ m', for_each (λ e, emit (EvState e)) evs m = (m', Ok ()) ∧
    n_peer_states m' = n_peer_states m ∧ n_db m' = n_db m) as Hevs.
  { intros evs. induction evs as [|e evs IH]; intros m; cbn; [eauto|].
    destruct (IH (set_n_trace (n_trace m ++ [EvState e]) m)) as (m' & Hm & Hp & Hd). eauto. }
  destruct (Hevs ((λ cb, mkStateEvent cb p (get_state (n_peer_states n) p) st)
    <$> psm_callbacks (n_peer_states n)) n1) as (n' & -> & Hp & Hd).
  exists n'. rewrite Hp, Hd. cbn. split_and!; [done| | |done].
  - rewrite Hg. by rewrite decide_True.
  - intros q Hq. rewrite Hg. by rewrite decide_False.
Qed.

Lemma set_peer_state_error p st now n :
  st ∉ VALID_TRANSITIONS (get_state (n_peer_states n) p) →
  ∃ n', set_peer_state p st now n = (n', Raise ValueError) ∧
    (∀ q, get_state (n_peer_states n') q = get_state (n_peer_states n) q) ∧ n_db n' = n_db n.
Proof.
  intros Hv. unfold set_peer_state.
  destruct (update_state_error (n_peer_states n) p st now Hv) as (mgr & -> & _ & Hg).
  eexists. split; [done|]. done.
Qed.

Lemma try_except_ok {A} (c : M A) e h n n' a : c n = (n', Ok a) → try_except c e h n = (n', Ok a).
Proof. intros H. unfold try_except. by rewrite H. Qed.

Lemma try_except_caught {A} (c : M A) e h n n' : c n = (n', Raise e) → try_except c e h n = h n'.
Proof. intros H. unfold try_except. rewrite H. by rewrite bool_decide_true. Qed.

#[local] Arguments set_peer_state : simpl never.

(** A walk of valid transitions, taken one [update_state] at a time. *)
Fixpoint walk_states (p : bytes) (l : list PeerState) (now : seconds) : M () :=
  match l with
  | [] => mret ()
  | st :: l => set_peer_state p st now ;; walk_states p l now
  end.

Lemma walk_states_ok p l now n :
  valid_walk (get_state (n_peer_states n) p) l = true →
  ∃ n', walk_states p l now n = (n', Ok ()) ∧
    get_state (n_peer_states n') p = walk_end (get_state (n_peer_states n) p) l ∧
    (∀ q, q ≠ p → get_state (n_peer_states n') q = get_state (n_peer_states n) q) ∧ n_db n' = n_db n.
Proof.
  revert n. induction l as [|st l IH]; intros n Hw; cbn in *; [eauto|]. bool_hyps.
  destruct (set_peer_state_ok p st now n H) as (n1 & E1 & H1 & H2 & H3).
  rewrite (bind_ok _ _ _ _ _ E1). destruct (IH n1) as (n2 & E2 & H4 & H5 & H6); [by rewrite H1|].
  exists n2. rewrite E2, H4, H1, H6. split_and!; [done..| |done]. intros q Hq. rewrite H5 by done. auto.
Qed.

(** [_mark_peer_connected] always succeeds.  From whatever state the peer is in, the method returns
    with the peer CONNECTED and the state of no other peer changed, through valid transitions only:
    its fallback that overwrites the state machine is never needed. *)
Theorem mark_peer_connected_connects (n : node) (p : bytes) (now : seconds) :
  ∃ n', mark_peer_connected p now n = (n', Ok ()) ∧ get_state (n_peer_states n') p = CONNECTED ∧
    (∀ q, q ≠ p → get_state (n_peer_states n') q = get_state (n_peer_states n) q) ∧
    ∃ l m, walk_states p l now n = (m, Ok ()) ∧ n_peer_states n' = n_peer_states m.
Proof.
  set (cur := get_state (n_peer_states n) p).
  set (l := match cur with PeerState.FAILED => [DISCONNECTED; CONNECTING; CONNECTED] | c => connect_walk c end).
  destruct (walk_states_ok p l now n) as (m & E & H1 & H2 & _); [by unfold l, cur; destruct (get_state _ p)|].
  assert (walk_end cur l = CONNECTED) as Hend by (by unfold l; destruct cur).
  unfold mark_peer_connected. rewrite gets_bind. fold cur. destruct (decide (cur = CONNECTED)) as [Ec|Ec].
  - rewrite bool_decide_true by done. exists n. split_and!; [done..|]. by exists [], n.
  - rewrite bool_decide_false by done.
    exists (set_n_trace (n_trace m ++ [EvPeersChanged]) m).
    split_and!; [|cbn; by rewrite H1|done|by exists l, m].
    erewrite bind_ok; [reflexivity|]. apply try_except_ok.
    rewrite <- E. unfold l. destruct cur; try done; cbn; unfold mbind, M_bind, mret, M_ret;
      repeat match goal with
      | |- context [set_peer_state p ?st now ?m] => destruct (set_peer_state p st now m) as [? [[]|]]
      end; done.
Qed.

(** The part of [set_peer_archived] after the database write, for a state that is not the target. *)
Definition archive_transition (p : bytes) (archived : bool) (cur : PeerState) (now : seconds) : M () :=
  try_except (set_peer_state p (if archived then ARCHIVED else DISCONNECTED) now) ValueError
    (if archived && negb (cur =?b DISCONNECTED) then
       set_peer_state p DISCONNECTED now ;; set_peer_state p ARCHIVED now
     else if negb archived && (cur =?b ARCHIVED) then set_peer_state p DISCONNECTED now
     else mret ()).

Definition archive_result (archived : bool) (cur : PeerState) : result () * PeerState :=
  match archived, cur with
  | true, RESOLVING => (Raise ValueError, RESOLVING)
  | true, _ => (Ok (), ARCHIVED)
  | false, ARCHIVED => (Raise ValueError, ARCHIVED)
  | false, RESOLVING => (Ok (), RESOLVING)
  | false, _ => (Ok (), DISCONNECTED)
  end.

Lemma archive_transition_spec p (archived : bool) now n :
  let cur := get_state (n_peer_states n) p in
  cur ≠ (if archived then ARCHIVED else DISCONNECTED) →
  ∃ n' r, archive_transition p archived cur now n = (n', r) ∧ n_db n' = n_db n ∧
    (r, get_state (n_peer_states n') p) = archive_result archived cur.
Proof.
  cbn zeta. set (cur := get_state (n_peer_states n) p). intros Hne. unfold archive_transition.
  set (target := if archived then ARCHIVED else DISCONNECTED) in *.
  destruct (decide (target ∈ VALID_TRANSITIONS cur)) as [Hv|Hv].
  - destruct (set_peer_state_ok p target now n Hv) as (n1 & E1 & H1 & _ & H3).
    rewrite (try_except_ok _ _ _ _ _ _ E1). eexists _, _. split; [done|]. split; [done|].
    rewrite H1. unfold target in *. destruct archived, cur; try done; set_solver.
  - destruct (set_peer_state_error p target now n Hv) as (n1 & E1 & H1 & H3).
    rewrite (try_except_caught _ _ _ _ _ E1).
    assert (get_state (n_peer_states n1) p = cur) as Hc by apply H1.
    destruct (decide (archived = true ∧ valid_walk cur [DISCONNECTED; ARCHIVED] = true)) as [[-> Hw]|Hw].
    + destruct (walk_states_ok p [DISCONNECTED; ARCHIVED] now n1) as (n2 & E2 & H4 & _ & H5);
        [by rewrite Hc|].
      assert (cur ≠ DISCONNECTED) as Hd by (intros Hd; rewrite Hd in Hw; discriminate Hw).
      rewrite (bool_decide_false (cur = DISCONNECTED)) by done. exists n2, (Ok ()).
      rewrite H4, H5. split_and!; [|done|by destruct cur].
      rewrite <- E2. cbn. unfold mbind, M_bind, mret, M_ret.
      repeat match goal with
      | |- context [set_peer_state p ?st now ?m] => destruct (set_peer_state p st now m) as [? [[]|]]
      end; done.
    + assert ((archived = true ∧ cur = RESOLVING) ∨ (archived = false ∧ (cur = ARCHIVED ∨ cur = RESOLVING)))
        as Hcases.
      { unfold target in *. destruct archived, cur; try (by left); try (by right; split; auto);
          try (exfalso; apply Hw; by split); exfalso; apply Hv; set_solver. }
      destruct (set_peer_state_error p DISCONNECTED now n1) as (n2 & E2 & H4 & H5).
      { rewrite Hc. destruct Hcases as [[_ ->]|[_ [->| ->]]]; set_solver. }
      destruct Hcases as [[-> Hr]|[-> [Hr|Hr]]]; rewrite Hr; cbn [andb negb bool_decide].
      * rewrite bool_decide_false by done. cbn [negb]. rewrite (bind_raise _ _ _ _ _ E2).
        exists n2, (Raise ValueError). rewrite H4, Hc, Hr. split_and!; [done|congruence|done].
      * rewrite bool_decide_true by done. exists n2, (Raise ValueError). rewrite H4, Hc, Hr.
        split_and!; [done|congruence|done].
      * rewrite bool_decide_false by done. exists n1, (Ok ()). rewrite Hc, Hr. done.
Qed.

(** Archiving and unarchiving.  Archiving writes the flag and leads to ARCHIVED from every state but
    RESOLVING, from which it raises; unarchiving leads to DISCONNECTED, except that from RESOLVING
    nothing happens and that from ARCHIVED, the one state it is for, it always raises [ValueError] and
    leaves the peer ARCHIVED, after the database has been told otherwise. *)
Theorem set_peer_archived_outcome (n : node) (p : bytes) (archived : bool) (now : seconds) :
  ∃ n' r, set_peer_archived p archived now n = (n', r) ∧
    (pr_archived <$> dget (db_peers (n_db n')) p) = ((λ _, archived) <$> dget (db_peers (n_db n)) p) ∧
    (r, get_state (n_peer_states n') p) =
      match archived, get_state (n_peer_states n) p with
      | true, RESOLVING => (Raise ValueError, RESOLVING)
      | true, _ => (Ok (), ARCHIVED)
      | false, ARCHIVED => (Raise ValueError, ARCHIVED)
      | false, RESOLVING => (Ok (), RESOLVING)
      | false, _ => (Ok (), DISCONNECTED)
      end.
Proof.
  unfold set_peer_archived. erewrite bind_ok by (by apply storage_ok).
  set (n1 := set_n_trace _ _).
  assert ((pr_archived <$> dget (db_peers (n_db n1)) p) = ((λ _, archived) <$> dget (db_peers (n_db n)) p))
    as Hdb.
  { cbn. unfold db_set_peer_archived. cbn. rewrite dget_dupd, decide_True by done.
    by destruct (dget (db_peers (n_db n)) p). }
  rewrite gets_bind. rewrite <- Hdb. change (n_peer_states n) with (n_peer_states n1).
  clearbody n1. clear Hdb n. rename n1 into n.
  case_bool_decide as Hc.
  - eexists _, _. split; [done|]. split; [done|]. cbn. rewrite Hc. by destruct archived.
  - destruct (archive_transition_spec p archived now n Hc) as (n' & r & E & Hd & Hr).
    unfold archive_transition in E. rewrite bind_eq, E. destruct r as [[]|e].
    + eexists _, _. split; [done|]. cbn. rewrite Hd. done.
    + eexists _, _. split; [done|]. rewrite Hd. done.
Qed.
