(* ===== verification/NodeExchange.v ===== *)
(** * Two nodes (node.py)

    A message from the sender's [send_message] to the receiver's user and back through both
    acknowledgements, as datagrams between two nodes that share a session. *)

From S2P Require Import Prelude Bytes PyDict PyText IpAddr Packet Crypto Session Handshake QueueManager.
From S2P Require Import PeerState RateLimiter Overlay Resolution Reconnect Heartbeat Storage LogFiles.
From S2P Require Import NodeState Node NodeProps.

(** ** Two nodes with a common session *)

(** Node [a] has session [sa] (at [ra]) to the peer of [b], and [b] has the other end [sb] (at [rb]). *)
Record linked (a b : node) (ra rb : sref) (sa sb : Session) : Prop := {
  ln_inv_a : registry_inv (n_heap a) (n_registry a);
  ln_inv_b : registry_inv (n_heap b) (n_registry b);
  ln_a : get_by_peer_id (n_registry a) (s_remote_peer_id sa) = Some ra;
  ln_sa : n_heap a !! ra = Some sa;
  ln_b : get_by_session_id (n_registry b) (s_session_id sb) = Some rb;
  ln_sb : n_heap b !! rb = Some sb;
  ln_sid : s_session_id sb = s_session_id sa;
  ln_key : s_encryption_key sb = s_encryption_key sa;
  ln_len : length (s_session_id sa) = 8 }.

(** The row of a message in the queue table. *)
Definition db_message_status (n : node) (i : pystr) : option pystr :=
  qr_status <$> dget (db_queue (n_db n)) i.

(** ** Datagrams *)

(** The rate limiter either drops a packet or passes it, and changes only itself. *)
Lemma rate_limit_cases packet addr now n :
  ∃ rl ok, rate_limit packet addr now n = (set_n_rate_limiter rl n, Ok ok) ∧
    (pkt_type packet ∉ [DATA; RESOLVE_REQUEST; ENDPOINT_UPDATE] →
     rate_limit packet addr now n = (n, Ok true)).
Proof.
  assert (n = set_n_rate_limiter (n_rate_limiter n) n) as Hn by (by destruct n).
  unfold rate_limit. case_bool_decide as Ht.
  - destruct (peer_id_from_addr n addr) as [pid|].
    + destruct (RateLimiter.check _ _ _ _) as [rl ok]. by exists rl, ok.
    + exists (n_rate_limiter n), true. by rewrite <- Hn.
  - exists (n_rate_limiter n), true. by rewrite <- Hn.
Qed.

Section exchange.
Context `{C : CryptoLib} `{!CryptoLaws C}.

(** A datagram of a packet type that is not rate limited reaches its handler. *)
Lemma datagram_dispatched wire packet addr now d n n' :
  packet_deserialize wire = Ok packet →
  pkt_type packet ∉ [DATA; RESOLVE_REQUEST; ENDPOINT_UPDATE] →
  dispatch packet addr now d n = (n', Ok ()) →
  datagram_received wire addr now d n = (n', Ok ()).
Proof using Type.
  intros Hw Ht Hd. unfold datagram_received. rewrite Hw. unfold handle_packet.
  destruct (rate_limit_cases packet addr now n) as (rl & ok & _ & Hr).
  rewrite (bind_ok _ _ _ _ _ (Hr Ht)). unfold try_log. by rewrite Hd.
Qed.

(** ** Sending *)

(** [send_message] with a session and an endpoint. *)
Lemma send_message_sent n p text pt aad now d r s ep :
  get_by_peer_id (n_registry n) p = Some r → n_heap n !! r = Some s → length (s_session_id s) = 8 →
  get_endpoint (n_table n) p = Some ep →
  utf8_encode text = Ok pt → utf8_encode (d_uuid d) = Ok aad →
  dmem (db_queue (n_db n)) (d_uuid d) = false →
  u32 (s_send_sequence s) → (Z.of_nat (length pt) + 32 ≤ MAX_PAYLOAD_SIZE)%Z →
  ∃ n' pkt,
    send_message p text now d n = (n', Ok (d_uuid d, None)) ∧
    build_data_packet (enqueue (n_queue n) (d_uuid d) p pt now) (d_uuid d) s now
      = (n_queue n', set_send_sequence (s_send_sequence s + 1) s, Ok (Some (pkt, s_send_sequence s))) ∧
    n_trace n' = n_trace n ++
      [EvDb (DbEnqueue (d_uuid d) p now []);
       EvDb (DbUpdateSend (s_session_id s) (s_send_sequence s + 1));
       EvDb (DbUpdateSequence (d_uuid d) (s_send_sequence s) now);
       EvDb (DbUpdateStatus (d_uuid d) (str "pending") now); EvSend pkt ep] ∧
    n_heap n' = <[r := set_send_sequence (s_send_sequence s + 1) s]> (n_heap n) ∧
    n_registry n' = n_registry n ∧ n_table n' = n_table n ∧
    db_message_status n' (d_uuid d) = Some (str "pending").
Proof using CryptoLaws0.
  intros Hr Hs Hlen Hep Htext Huuid Hdb Hu Hfit.
  destruct (data_delivery (enqueue (n_queue n) (d_uuid d) p pt now) (d_uuid d)
    (mkEntry p QUEUED 0 pt now None None) s now) as (pkt & wire & dp & Hb & Hw & _);
    [apply dget_dset_eq|done..|].
  unfold send_message. rewrite gets_bind, Hr, Htext, lift_bind_ok, modify_bind.
  erewrite (bind_ok (store_outbox _ _ _)) by (unfold store_outbox, store_message; rewrite Huuid; done).
  erewrite bind_ok by (apply storage_ok; cbn; unfold db_enqueue_message; by rewrite Hdb).
  erewrite (bind_ok (node_build_data_packet _ _ _)) by (unfold node_build_data_packet, get_session;
    erewrite bind_ok by (cbn; by rewrite Hs); unfold build_with_session; cbn; by rewrite Hb).
  cbv beta iota zeta.
  erewrite (bind_ok (get_session r)) by (unfold get_session; cbn; by rewrite lookup_insert_eq).
  do 3 (erewrite bind_ok by (by apply storage_ok)). rewrite gets_bind.
  match goal with |- context [get_endpoint (n_table ?m) p] =>
    change (n_table m) with (n_table n); set (n4 := m) end.
  rewrite Hep. unfold send_to. rewrite Hw.
  exists (set_n_trace (n_trace n4 ++ [EvSend pkt ep]) n4), pkt.
  split; [done|]. split; [exact Hb|]. unfold n4.
  split_and!; [cbn; by rewrite <- !app_assoc|done|done|done|].
  unfold db_message_status. cbn. repeat (rewrite dget_dupd, decide_True by done). cbn.
  unfold db_enqueue_message. rewrite Hdb. cbn. by rewrite dget_dset_eq.
Qed.

(** ** Acknowledgements *)

Lemma truthy_some i : i ≠ [] → truthy (Some i) = Some i.
Proof using Type. by destruct i. Qed.

(** What an ACK or an application ACK leaves behind. *)
Definition settled (n n' : node) (q : queue) (i status : pystr) : Prop :=
  n_queue n' = q ∧ n_registry n' = n_registry n ∧ n_heap n' = n_heap n ∧
  db_message_status n' i = ((λ _, status) <$> db_message_status n i).

Lemma store_status_settled n q i status now :
  ∃ n', (modify (set_n_queue q) ;; storage (DbUpdateStatus i status now)) n = (n', Ok ()) ∧
    settled n n' q i status.
Proof using Type.
  eexists. rewrite modify_bind, storage_ok by done. split; [done|]. split_and!; [done..|].
  unfold db_message_status. cbn. rewrite dget_dupd, decide_True by done.
  by destruct (dget (db_queue (n_db n)) i).
Qed.

Lemma node_handle_ack_settles n packet now ack q i :
  ack_deserialize (pkt_payload packet) = Ok ack → handle_ack (n_queue n) ack = (q, Some i) → i ≠ [] →
  ∃ n', node_handle_ack packet now n = (n', Ok ()) ∧ settled n n' q i (str "delivered").
Proof using Type.
  intros Hd Ha Hi. destruct (store_status_settled n q i (str "delivered") now) as (n' & E & Hs).
  exists n'. split; [|done]. rewrite <- E. unfold node_handle_ack.
  rewrite Hd, lift_bind_ok, gets_bind, Ha. cbn [fst snd]. by rewrite (truthy_some i).
Qed.

Lemma handle_app_ack_settles n packet now ack q i r s :
  app_ack_deserialize (pkt_payload packet) = Ok ack →
  get_by_session_id (n_registry n) (app_ack_session_id ack) = Some r → n_heap n !! r = Some s →
  acknowledge_by_sequence (n_queue n) (s_remote_peer_id s) (app_ack_sequence_number ack) = (q, Some i) →
  i ≠ [] →
  ∃ n', handle_app_ack packet now n = (n', Ok ()) ∧ settled n n' q i (str "acknowledged").
Proof using Type.
  intros Hd Hr Hs Ha Hi. destruct (store_status_settled n q i (str "acknowledged") now) as (n' & E & Hn).
  exists n'. split; [|done]. rewrite <- E. unfold handle_app_ack.
  rewrite Hd, lift_bind_ok, gets_bind, Hr. rewrite (bind_ok _ _ _ n s) by (unfold get_session; by rewrite Hs).
  rewrite gets_bind, Ha. cbn [fst snd]. by rewrite (truthy_some i).
Qed.

(** ** Receiving *)

(** A DATA packet that the rate limiter passes and the session accepts. *)
Lemma datagram_data_accepted wire packet dp addr now d n r s pt :
  packet_deserialize wire = Ok packet → pkt_type packet = DATA →
  (Z.of_nat (length (pkt_payload packet)) ≤ MAX_PAYLOAD_SIZE)%Z →
  (rate_limit packet addr now n).2 = Ok true →
  registry_inv (n_heap n) (n_registry n) → data_deserialize (pkt_payload packet) = Ok dp →
  get_by_session_id (n_registry n) (data_session_id dp) = Some r → n_heap n !! r = Some s →
  decrypt_data_packet dp s = (set_recv_sequence (data_sequence_number dp) s, Ok (Some pt)) →
  ∃ n' ack app_ack,
    datagram_received wire addr now d n = (n', Ok ()) ∧
    ack_deserialize (pkt_payload ack) = Ok (mkAck (data_session_id dp) (data_sequence_number dp)) ∧
    pkt_type ack = ACK ∧ on_wire ack ∧
    app_ack_deserialize (pkt_payload app_ack)
      = Ok (mkAppAck (data_session_id dp) (data_sequence_number dp)) ∧
    pkt_type app_ack = APP_ACK ∧ on_wire app_ack ∧
    n_trace n' = n_trace n ++
      [EvDb (DbUpdateRecv (data_session_id dp) (data_sequence_number dp)); EvSend ack addr;
       EvDb (DbRememberEndpoint (s_remote_peer_id s) addr now);
       EvMessage (s_remote_peer_id s) pt; EvSend app_ack addr] ∧
    n_heap n' = <[r := set_recv_sequence (data_sequence_number dp) s]> (n_heap n) ∧
    n_registry n' = n_registry n.
Proof using Type.
  intros Hw Ht Hl Hok Hinv Hd Hr Hs Hdec. unfold MAX_PAYLOAD_SIZE in Hl.
  destruct (rate_limit_cases packet addr now n) as (rl & ok & Hrl & _). rewrite Hrl in Hok.
  apply Ok_inj in Hok as ->.
  destruct (handle_data_accept (set_n_rate_limiter rl n) packet addr now dp r s
    (set_recv_sequence (data_sequence_number dp) s) pt (registry_inv_sid _ _ _ _ _ Hinv Hr Hs) Hd)
    as (n' & ack & app & H1 & H2 & H3 & H4 & H5 & H6 & H7 & H8 & H9 & H10 & _); [lia|done..|].
  exists n', ack, app. split_and!; try done.
  unfold datagram_received. rewrite Hw. unfold handle_packet. rewrite (bind_ok _ _ _ _ _ Hrl).
  unfold try_log, dispatch. by rewrite Ht, H1.
Qed.

(** A DATA packet the session has seen: only the rate limiter may notice. *)
Lemma datagram_data_replayed wire packet dp addr now d n r s :
  packet_deserialize wire = Ok packet → pkt_type packet = DATA →
  data_deserialize (pkt_payload packet) = Ok dp →
  get_by_session_id (n_registry n) (data_session_id dp) = Some r → n_heap n !! r = Some s →
  (data_sequence_number dp ≤ s_recv_sequence s)%Z →
  ∃ rl, datagram_received wire addr now d n = (set_n_rate_limiter rl n, Ok ()).
Proof using Type.
  intros Hw Ht Hd Hr Hs Hle. destruct (rate_limit_cases packet addr now n) as (rl & ok & Hrl & _).
  exists rl. unfold datagram_received. rewrite Hw. unfold handle_packet. rewrite (bind_ok _ _ _ _ _ Hrl).
  destruct ok; [|done]. unfold try_log, dispatch. rewrite Ht, handle_data_reject; [done|].
  intros dp' r' s' s2 pt Hd' Hr' Hs' Hdec. cbn in *. rewrite Hd in Hd'. apply Ok_inj in Hd' as <-.
  simplify_eq.
  apply decrypt_accepted in Hdec as [Hlt _]. lia.
Qed.

(** The datagrams of the two acknowledgements of a message, back at its sender. *)
Lemma acks_settle a ack aw app pw sid seq r s i q1 q2 ep t t' d d' :
  ack_deserialize (pkt_payload ack) = Ok (mkAck sid seq) → pkt_type ack = ACK → packet_deserialize aw = Ok ack →
  app_ack_deserialize (pkt_payload app) = Ok (mkAppAck sid seq) → pkt_type app = APP_ACK →
  packet_deserialize pw = Ok app →
  get_by_session_id (n_registry a) sid = Some r → n_heap a !! r = Some s →
  handle_ack (n_queue a) (mkAck sid seq) = (q1, Some i) →
  acknowledge_by_sequence q1 (s_remote_peer_id s) seq = (q2, Some i) → i ≠ [] →
  ∃ a2 a3, datagram_received aw ep t d a = (a2, Ok ()) ∧ n_queue a2 = q1 ∧
    db_message_status a2 i = ((λ _, str "delivered") <$> db_message_status a i) ∧
    datagram_received pw ep t' d' a2 = (a3, Ok ()) ∧ n_queue a3 = q2 ∧
    db_message_status a3 i = ((λ _, str "acknowledged") <$> db_message_status a i).
Proof using CryptoLaws0.
  intros Hack Hackt Haw Happ Happt Hpw Hr Hs H1 H2 Hne.
  destruct (node_handle_ack_settles a ack t _ q1 i Hack H1 Hne) as (a2 & Ha2 & Q1 & R1 & Hp1 & D1).
  destruct (handle_app_ack_settles a2 app t' _ q2 i r s Happ) as (a3 & Ha3 & Q2 & _ & _ & D2);
    [by rewrite R1|by rewrite Hp1|by rewrite Q1|done|].
  exists a2, a3. split_and!; try done.
  - apply (datagram_dispatched _ ack); [done|rewrite Hackt; set_solver|]. unfold dispatch. by rewrite Hackt.
  - apply (datagram_dispatched _ app); [done|rewrite Happt; set_solver|]. unfold dispatch. by rewrite Happt.
  - rewrite D2, D1. by destruct (db_message_status a i).
Qed.

(** C3: a message arrives once and is acknowledged.  Two nodes share a session.  [send_message] on the
    first returns the message's id and sends one packet; when its datagram reaches the second node the
    user there sees the text, as coming from the session's peer, after the receive counter was stored
    and the ACK sent; the same datagram again, whenever and from wherever, changes nothing but the rate
    limiter; and the datagrams of the two acknowledgements, back at the first node, mark the message
    delivered and then acknowledged, in the queue and in the database.  The text fits a datagram, the
    number is 32 bits wide and new to the receiver, the rate limiter passes the packet, and no other
    pending or delivered message of the sender carries the same number. *)
Theorem message_exchange (a b : node) (ra rb : sref) (sa sb : Session) (ep_b addr_a : endpoint)
    (text : pystr) (pt aad : bytes) (t1 t2 t3 t4 t5 : seconds) (d1 d2 d3 d4 d5 : draws) :
  linked a b ra rb sa sb → get_endpoint (n_table a) (s_remote_peer_id sa) = Some ep_b →
  utf8_encode text = Ok pt → (Z.of_nat (length pt) + 32 ≤ MAX_PAYLOAD_SIZE)%Z →
  utf8_encode (d_uuid d1) = Ok aad → d_uuid d1 ≠ [] → dmem (db_queue (n_db a)) (d_uuid d1) = false →
  u32 (s_send_sequence sa) → (s_recv_sequence sb < s_send_sequence sa)%Z →
  dict_wf (n_queue a) →
  (∀ j e, dget (n_queue a) j = Some e → qe_sequence_number e = Some (s_send_sequence sa) →
     qe_status e ≠ PENDING ∧ qe_status e ≠ DELIVERED) →
  (∀ pkt, pkt_type pkt = DATA → (rate_limit pkt addr_a t2 b).2 = Ok true) →
  ∃ a1 pkt wire b1 ack ack_wire app_ack app_wire a2 a3,
    send_message (s_remote_peer_id sa) text t1 d1 a = (a1, Ok (d_uuid d1, None)) ∧
    n_trace a1 = n_trace a ++
      [EvDb (DbEnqueue (d_uuid d1) (s_remote_peer_id sa) t1 []);
       EvDb (DbUpdateSend (s_session_id sa) (s_send_sequence sa + 1));
       EvDb (DbUpdateSequence (d_uuid d1) (s_send_sequence sa) t1);
       EvDb (DbUpdateStatus (d_uuid d1) (str "pending") t1); EvSend pkt ep_b] ∧
    packet_serialize pkt = Ok wire ∧
    datagram_received wire addr_a t2 d2 b = (b1, Ok ()) ∧
    n_trace b1 = n_trace b ++
      [EvDb (DbUpdateRecv (s_session_id sa) (s_send_sequence sa)); EvSend ack addr_a;
       EvDb (DbRememberEndpoint (s_remote_peer_id sb) addr_a t2);
       EvMessage (s_remote_peer_id sb) pt; EvSend app_ack addr_a] ∧
    (∀ addr, ∃ rl, datagram_received wire addr t3 d3 b1 = (set_n_rate_limiter rl b1, Ok ())) ∧
    packet_serialize ack = Ok ack_wire ∧ packet_serialize app_ack = Ok app_wire ∧
    datagram_received ack_wire ep_b t4 d4 a1 = (a2, Ok ()) ∧
    get_status (n_queue a2) (d_uuid d1) = Some DELIVERED ∧
    db_message_status a2 (d_uuid d1) = Some (str "delivered") ∧
    datagram_received app_wire ep_b t5 d5 a2 = (a3, Ok ()) ∧
    get_status (n_queue a3) (d_uuid d1) = Some ACKNOWLEDGED ∧
    db_message_status a3 (d_uuid d1) = Some (str "acknowledged").
Proof using CryptoLaws0.
  intros Hl Hep Htext Hfit Haad Hne Hdb Hu Hlt Hwf Hother Hrate.
  destruct (send_message_sent a (s_remote_peer_id sa) text pt aad t1 d1 ra sa ep_b)
    as (a1 & pkt & Hsend & Hb & Htr & Hheap & Hreg & _ & Hst); [apply Hl|apply Hl|apply Hl|done..|].
  set (q0 := enqueue (n_queue a) (d_uuid d1) (s_remote_peer_id sa) pt t1) in *.
  destruct (data_delivery q0 (d_uuid d1) (mkEntry (s_remote_peer_id sa) QUEUED 0 pt t1 None None) sa t1)
    as (pkt' & wire & dp & Hb' & Hw & Hw' & Ht & Hdp & Hsid & Hseq & Hlen & Hdec);
    [apply dget_dset_eq|done|apply Hl|done..|].
  rewrite Hb in Hb'. injection Hb' as Hq1 <-. cbn [qe_plaintext] in Hdec.
  specialize (Hdec sb (ln_sid _ _ _ _ _ _ Hl) (ln_key _ _ _ _ _ _ Hl) Hlt).
  assert (get_by_session_id (n_registry b) (data_session_id dp) = Some rb) as Hrb
    by (rewrite Hsid, <- (ln_sid _ _ _ _ _ _ Hl); apply Hl).
  rewrite <- Hseq in Hdec.
  destruct (datagram_data_accepted wire pkt dp addr_a t2 d2 b rb sb pt Hw' Ht Hlen (Hrate pkt Ht)
    (ln_inv_b _ _ _ _ _ _ Hl) Hdp Hrb (ln_sb _ _ _ _ _ _ Hl) Hdec)
    as (b1 & ack & app & Hb1 & Hack & Hackt & (aw & Haw & Haw') & Happ & Happt & (pw & Hpw & Hpw')
        & Htb & Hhb & Hrgb).
  destruct (sent_then_settled q0 (d_uuid d1) sa _ t1 _ _ _ (data_session_id dp) (dset_wf _ _ _ Hwf) Hb)
    as (e & q1 & He & Hha & Hs1 & Hha2 & Hs2).
  { intros j e. unfold q0, enqueue. rewrite dget_dset. case_decide; [by intros [= <-]|]. apply Hother. }
  unfold q0, enqueue in He. rewrite dget_dset_eq in He. injection He as <-. cbn [qe_receiver] in *.
  rewrite <- Hseq in Hha, Hha2, Hs2.
  destruct (acknowledge_by_sequence q1 (s_remote_peer_id sa) (data_sequence_number dp)) as [q2 oi] eqn:Hq3.
  cbn [fst snd] in *. subst oi.
  destruct (ri_p _ _ (ln_inv_a _ _ _ _ _ _ Hl) _ _ (ln_a _ _ _ _ _ _ Hl)) as (sa' & Hsa' & _ & Hra).
  rewrite (ln_sa _ _ _ _ _ _ Hl) in Hsa'. injection Hsa' as <-.
  destruct (acks_settle a1 ack aw app pw (data_session_id dp) (data_sequence_number dp) ra
    (set_send_sequence (s_send_sequence sa + 1) sa) (d_uuid d1) q1 q2 ep_b t4 t5 d4 d5)
    as (a2 & a3 & Ha2 & Hq2 & Hd2 & Ha3 & Hq4 & Hd3); try done.
  { by rewrite Hreg, Hsid. }
  { by rewrite Hheap, lookup_insert_eq. }
  rewrite Hst in Hd2, Hd3. rewrite Hsid, Hseq in Htb.
  exists a1, pkt, wire, b1, ack, aw, app, pw, a2, a3. split_and!; try done; [|by rewrite Hq2|by rewrite Hq4].
  intros addr. eapply (datagram_data_replayed wire pkt dp addr t3 d3 b1 rb); try done.
  - by rewrite Hrgb.
  - by rewrite Hhb, lookup_insert_eq.
  - done.
Qed.

(** ** Synchronisation *)

(** [handle_sync] when the queue holds one message to the peer, numbered above what the peer has. *)
Lemma handle_sync_one n packet addr now sync r s i e seq pkt wire q :
  sync_deserialize (pkt_payload packet) = Ok sync →
  get_by_session_id (n_registry n) (sync_session_id sync) = Some r → n_heap n !! r = Some s →
  n_queue n = [(i, e)] → qe_receiver e = s_remote_peer_id s → qe_sequence_number e = Some seq →
  (sync_sequence_number sync < seq)%Z →
  rebuild_for_sync [(i, e)] i s now = (q, Ok (Some pkt)) → packet_serialize pkt = Ok wire →
  ∃ n', handle_sync packet addr now n = (n', Ok ()) ∧ n_trace n' = n_trace n ++ [EvSend pkt addr].
Proof using Type.
  intros Hd Hr Hs Hq Hrec Hseq Hlt Hb Hw. unfold handle_sync. rewrite Hd, lift_bind_ok, gets_bind, Hr.
  rewrite (bind_ok _ _ _ n s) by (unfold get_session; by rewrite Hs). rewrite gets_bind, Hq.
  cbn [for_each]. rewrite Hrec, bool_decide_true by done. cbn [negb]. rewrite Hseq.
  rewrite (proj2 (Z.ltb_lt _ _)) by done.
  eexists. split.
  - erewrite bind_ok; [reflexivity|]. erewrite bind_ok by (unfold rebuild_with_session; rewrite Hq, Hb; reflexivity).
    unfold send_to. rewrite Hw. reflexivity.
  - done.
Qed.

(** C39: reconnecting shows old messages again.  Two nodes have set up a new session and the receiver has
    got nothing on it, so it asks for everything above 0 with its SYNC.  A message that the sender has
    already seen acknowledged on an earlier session (the queue keeps it) is then encrypted and sent once
    more, the receiver accepts its number on the new session, and its user sees the same text again. *)
Theorem sync_redelivers_acknowledged (a b : node) (ra rb : sref) (sa sb : Session) (addr_a addr_b : endpoint)
    (i : pystr) (e : QueueEntry) (seq : Z) (t2 t3 : seconds) (d1 d2 : draws) :
  linked a b ra rb sa sb → s_recv_sequence sb = 0%Z →
  n_queue a = [(i, e)] → qe_receiver e = s_remote_peer_id sa → qe_status e = ACKNOWLEDGED →
  qe_sequence_number e = Some seq → (0 < seq < 2 ^ 32)%Z → qe_plaintext e ≠ [] →
  (Z.of_nat (length (qe_plaintext e)) + 32 ≤ MAX_PAYLOAD_SIZE)%Z →
  (∀ pkt, pkt_type pkt = DATA → (rate_limit pkt addr_a t3 b).2 = Ok true) →
  ∃ b0 sync sync_wire a1 pkt wire b1,
    send_sync rb addr_a b = (b0, Ok ()) ∧ n_trace b0 = n_trace b ++ [EvSend sync addr_a] ∧
    packet_serialize sync = Ok sync_wire ∧
    datagram_received sync_wire addr_b t2 d1 a = (a1, Ok ()) ∧
    n_trace a1 = n_trace a ++ [EvSend pkt addr_b] ∧ packet_serialize pkt = Ok wire ∧
    datagram_received wire addr_a t3 d2 b = (b1, Ok ()) ∧
    EvMessage (s_remote_peer_id sb) (qe_plaintext e) ∈ n_trace b1.
Proof using CryptoLaws0.
  intros Hl Hrecv Hq Hrec Hst Hseq Hrange Hne Hfit Hrate.
  assert (u32 (s_recv_sequence sb)) as Hu0 by (rewrite Hrecv; unfold u32; lia).
  assert (length (s_session_id sb) = 8) as Hlen by (rewrite (ln_sid _ _ _ _ _ _ Hl); apply Hl).
  set (sync := mkSync (s_session_id sb) (s_recv_sequence sb)).
  set (bs := s_session_id sb ++ be_encode 4 (s_recv_sequence sb)).
  assert (make_packet SYNC (PSync sync) = Ok (mkPacket PROTOCOL_VERSION SYNC bs)) as Hmk.
  { unfold make_packet. cbn. unfold sync_serialize. cbn. by rewrite struct_pack_u32. }
  assert (Z.of_nat (length bs) ≤ MAX_PAYLOAD_SIZE)%Z as Hbs.
  { unfold bs. rewrite length_app, length_be_encode, Hlen. unfold MAX_PAYLOAD_SIZE. lia. }
  destruct (on_wire_ok (mkPacket PROTOCOL_VERSION SYNC bs) eq_refl Hbs) as (sw & Hsw & Hsw').
  assert (sync_deserialize bs = Ok sync) as Hsync.
  { rewrite <- (app_nil_r bs). apply (sync_roundtrip [] sync); [done|]. unfold sync_serialize. cbn.
    by rewrite struct_pack_u32. }
  destruct (rebuild_delivery [(i, e)] i e sa seq t2) as (pkt & wire & dp & Hb & Hw & Hw' & Ht & Hdp & Hsid & Hsq & Hpl & Hdec);
    [cbn; by rewrite decide_True|done|done|apply Hl|unfold u32; lia|done|].
  destruct (ri_p _ _ (ln_inv_a _ _ _ _ _ _ Hl) _ _ (ln_a _ _ _ _ _ _ Hl)) as (sa' & Hsa' & _ & Hra).
  rewrite (ln_sa _ _ _ _ _ _ Hl) in Hsa'. injection Hsa' as <-.
  destruct (handle_sync_one a (mkPacket PROTOCOL_VERSION SYNC bs) addr_b t2 sync ra sa i e seq pkt wire
    (dset [(i, e)] i (set_sent seq t2 e)) Hsync)
    as (a1 & Ha1 & Hta1); [cbn; by rewrite (ln_sid _ _ _ _ _ _ Hl)|apply Hl|done|done|done|cbn; lia|done|done|].
  specialize (Hdec sb (ln_sid _ _ _ _ _ _ Hl) (ln_key _ _ _ _ _ _ Hl) ltac:(lia)). rewrite <- Hsq in Hdec.
  destruct (datagram_data_accepted wire pkt dp addr_a t3 d2 b rb sb (qe_plaintext e) Hw' Ht Hpl (Hrate pkt Ht)
    (ln_inv_b _ _ _ _ _ _ Hl) Hdp) as (b1 & ack & app & Hb1 & _ & _ & _ & _ & _ & _ & Htb & _);
    [rewrite Hsid, <- (ln_sid _ _ _ _ _ _ Hl); apply Hl|apply Hl|done|].
  exists (set_n_trace (n_trace b ++ [EvSend (mkPacket PROTOCOL_VERSION SYNC bs) addr_a]) b),
    (mkPacket PROTOCOL_VERSION SYNC bs), sw, a1, pkt, wire, b1.
  split_and!; try done.
  - unfold send_sync. rewrite (bind_ok _ _ _ b sb) by (unfold get_session; by rewrite (ln_sb _ _ _ _ _ _ Hl)).
    fold sync. rewrite Hmk, lift_bind_ok. by apply send_to_ok.
  - apply (datagram_dispatched _ (mkPacket PROTOCOL_VERSION SYNC bs)); [done|cbn; set_solver|done].
  - rewrite Htb. apply elem_of_app. right. do 3 (apply elem_of_cons; right). apply elem_of_cons. by left.
Qed.
End exchange.

(** ** Example: two nodes *)

Module NodeExample.
Import ToyCrypto.

Definition alice : LocalIdentity := generate_identity (be_encode 32 1).
Definition bob : LocalIdentity := generate_identity (be_encode 32 2).
Definition addr_alice : endpoint := (str "192.0.2.1", 4001%Z).
Definition addr_bob : endpoint := (str "192.0.2.2", 4002%Z).
Definition sid : bytes := be_encode 8 7.
Definition key : bytes := be_encode 32 9.
Definition session_ab : Session := new_session sid key (id_peer_id bob) (secs 0).
Definition session_ba : Session := new_session sid key (id_peer_id alice) (secs 0).
Definition drawn : draws :=
  mkDraws (be_encode 32 3) (be_encode 16 4) (be_encode 8 5) 0 1 (str "id1") (be_encode 12 6)
    (be_encode 8 8) 0.

(** A node that knows one peer and has a session with it. *)
Definition example_node (me : LocalIdentity) (s : Session) (pk : bytes) (addr : endpoint) : node :=
  let n := fresh_node me 4001 8 (new_message_log 50 5) empty_db ∅ ∅ (secs 0) in
  set_n_table (add_direct_peer (n_table n) (s_remote_peer_id s) pk None (Some addr) (secs 0))
    (set_n_heap {[0 := s]} (set_n_registry
       (mkRegistry [(s_session_id s, 0)] [(s_remote_peer_id s, 0)]) n)).

Definition node_a : node := example_node alice session_ab (id_public_key bob) addr_bob.
Definition node_b : node := example_node bob session_ba (id_public_key alice) addr_alice.

Lemma example_registry me s pk addr :
  registry_inv (n_heap (example_node me s pk addr)) (n_registry (example_node me s pk addr)).
Proof.
  eapply (register_inv {[0 := s]} empty_registry (empty_registry_inv _) 0);
    [apply lookup_singleton_eq|done|]. unfold register. by rewrite lookup_singleton_eq.
Qed.

Lemma nodes_linked : linked node_a node_b 0 0 session_ab session_ba.
Proof. split; try apply example_registry; vm_compute; reflexivity. Qed.

Lemma message_exchange_witness :
  ∃ a1 pkt wire b1,
    send_message (id_peer_id bob) (str "hello") (secs 1) drawn node_a = (a1, Ok (str "id1", None)) ∧
    packet_serialize pkt = Ok wire ∧
    datagram_received wire addr_alice (secs 2) drawn node_b = (b1, Ok ()) ∧
    EvMessage (id_peer_id alice) (bytes_of_string "hello") ∈ n_trace b1.
Proof.
  destruct (message_exchange node_a node_b 0 0 session_ab session_ba addr_bob addr_alice (str "hello")
    (bytes_of_string "hello") (bytes_of_string "id1") (secs 1) (secs 2) (secs 3) (secs 4) (secs 5)
    drawn drawn drawn drawn drawn) as (a1 & pkt & wire & b1 & ack & aw & app & pw & a2 & a3 & H).
  - exact nodes_linked.
  - vm_compute. reflexivity.
  - vm_compute. reflexivity.
  - vm_compute. discriminate.
  - vm_compute. reflexivity.
  - discriminate.
  - vm_compute. reflexivity.
  - vm_compute. split; [discriminate|reflexivity].
  - vm_compute. reflexivity.
  - apply NoDup_nil_2.
  - discriminate.
  - intros pkt Ht. unfold rate_limit. rewrite Ht. vm_compute. reflexivity.
  - destruct H as (H1 & _ & H3 & H4 & H5 & _). exists a1, pkt, wire, b1.
    split_and!; [exact H1|exact H3|exact H4|]. rewrite H5. apply elem_of_app. right.
    do 3 (apply elem_of_cons; right). apply elem_of_cons. by left.
Defined.

(** A DATA packet for [node_b]. *)
Definition data_pkt : Packet :=
  match build_data_packet (enqueue [] (str "id1") (id_peer_id bob) (bytes_of_string "hello") (secs 1))
          (str "id1") session_ab (secs 1) with
  | (_, _, Ok (Some (pkt, _))) => pkt
  | _ => mkPacket PROTOCOL_VERSION DATA []
  end.

Lemma handle_data_spec_witness :
  ∃ n', handle_data data_pkt addr_alice (secs 2) node_b = (n', Ok ()) ∧
    EvMessage (id_peer_id alice) (bytes_of_string "hello") ∈ n_trace n' ∧
    (handle_data (mkPacket PROTOCOL_VERSION DATA []) addr_alice (secs 2) node_b).1 = node_b.
Proof.
  destruct (handle_data_spec node_b data_pkt addr_alice (secs 2)) as [H _].
  - apply example_registry.
  - vm_compute. reflexivity.
  - destruct (data_deserialize (pkt_payload data_pkt)) as [dp|] eqn:Hd; [|vm_compute in Hd; discriminate Hd].
    vm_compute in Hd. apply Ok_inj in Hd. subst dp.
    edestruct H as (ack & app & H1 & _);
      [reflexivity|vm_compute; reflexivity|vm_compute; reflexivity|vm_compute; reflexivity|].
    eexists. split_and!; [exact H1| |].
    + unfold data_effects. cbn [n_trace set_n_trace]. apply elem_of_app. right. do 3 (apply elem_of_cons; right). apply elem_of_cons. left.
      vm_compute. reflexivity.
    + apply (handle_data_spec node_b (mkPacket PROTOCOL_VERSION DATA []) addr_alice (secs 2)).
      * apply example_registry.
      * vm_compute. reflexivity.
      * intros dp r s s' pt Hd. vm_compute in Hd. discriminate Hd.
Defined.

(** [node_a] with a message that was acknowledged on an earlier session as number 1. *)
Definition acked_entry : QueueEntry :=
  mkEntry (id_peer_id bob) ACKNOWLEDGED 0 (bytes_of_string "hello") (secs 0) (Some 1%Z) (Some (secs 0)).

Lemma sync_redelivers_acknowledged_witness :
  ∃ b0 sync a1 pkt wire b1,
    send_sync 0 addr_alice node_b = (b0, Ok ()) ∧
    datagram_received sync addr_bob (secs 2) drawn (set_n_queue [(str "old", acked_entry)] node_a)
      = (a1, Ok ()) ∧
    packet_serialize pkt = Ok wire ∧
    datagram_received wire addr_alice (secs 3) drawn node_b = (b1, Ok ()) ∧
    EvMessage (id_peer_id alice) (bytes_of_string "hello") ∈ n_trace b1.
Proof.
  destruct (sync_redelivers_acknowledged (set_n_queue [(str "old", acked_entry)] node_a) node_b 0 0
    session_ab session_ba addr_alice addr_bob (str "old") acked_entry 1 (secs 2) (secs 3) drawn drawn)
    as (b0 & sync & sw & a1 & pkt & wire & b1 & H1 & _ & _ & H2 & _ & H3 & H4 & H5).
  - destruct nodes_linked. split; assumption.
  - reflexivity.
  - reflexivity.
  - reflexivity.
  - reflexivity.
  - reflexivity.
  - lia.
  - discriminate.
  - vm_compute. discriminate.
  - intros pkt Ht. unfold rate_limit. rewrite Ht. vm_compute. reflexivity.
  - exists b0, sw, a1, pkt, wire, b1. split_and!; [exact H1|exact H2|exact H3|exact H4|exact H5].
Defined.

Lemma persist_before_send_witness :
  ∃ l, n_trace (send_message (id_peer_id bob) (str "hello") (secs 1) drawn node_a).1 = l ∧ persisted l ∧
    length l = 5.
Proof.
  destruct (persist_before_send node_a (id_peer_id bob) (str "hello") (str "id1") (secs 1) drawn)
    as ((l & H1 & H2) & _).
  exists l. split_and!; [exact H1|exact H2|]. vm_compute in H1. rewrite <- H1. reflexivity.
Defined.
End NodeExample.
