(* ===== verification/Delivery.v ===== *)
(** * Losing packets (node.py, queue_manager.py)

    A message whose packets do not reach the other node is sent again by the retry loop, each time under a new number.  As
    long as one of its transmissions gets through, and with it the acknowledgements, the message is delivered. *)

From S2P Require Import Prelude Bytes PyDict PyText IpAddr Packet Crypto Session Handshake QueueManager.
From S2P Require Import PeerState RateLimiter Overlay Resolution Reconnect Heartbeat Storage LogFiles.
From S2P Require Import NodeState Node NodeProps NodeExchange.

(** ** Which messages have timed out *)

Lemma timed_out_only q t i :
  (∀ j e, j ≠ i → dget q j = Some e → qe_status e ≠ PENDING) → dict_wf q →
  (∃ e, dget q i = Some e ∧ timed_out t e = true) → get_timed_out_messages q t = [i].
Proof.
  intros Hothers Hwf (e & He & Ht). unfold get_timed_out_messages.
  assert (∀ j, j ∈ (filter (λ me : pystr * QueueEntry, timed_out t me.2 = true) q).*1 → j = i) as Hin.
  { intros j ([j' e'] & -> & [Ht' Hj]%list_elem_of_filter)%list_elem_of_fmap. cbn in *.
    apply dget_elem in Hj; [|done]. destruct (decide (j' = i)) as [|Hne]; [done|].
    destruct (Hothers _ _ Hne Hj). unfold timed_out in Ht'. apply andb_true_iff in Ht' as [Hp _]. by case_bool_decide. }
  assert (i ∈ (filter (λ me : pystr * QueueEntry, timed_out t me.2 = true) q).*1) as Hi.
  { apply list_elem_of_fmap. exists (i, e). split; [done|]. apply list_elem_of_filter. split; [done|].
    by apply dget_Some_elem. }
  assert (NoDup (filter (λ me : pystr * QueueEntry, timed_out t me.2 = true) q).*1) as Hnd.
  { unfold dict_wf in Hwf. eapply sublist_NoDup; [exact Hwf|]. apply fmap_sublist, sublist_filter. }
  destruct (filter _ q).*1 as [|x [|y l]]; [by apply elem_of_nil in Hi| |].
  - by rewrite (Hin x) by (by left).
  - apply NoDup_cons in Hnd as [Hx _]. destruct Hx. rewrite (Hin x), (Hin y) by set_solver. by left.
Qed.

Lemma timed_out_none q t : (∀ j e, dget q j = Some e → qe_status e ≠ PENDING) → dict_wf q → get_timed_out_messages q t = [].
Proof.
  intros Hothers Hwf. unfold get_timed_out_messages.
  destruct (filter _ q) as [|[j e] l] eqn:E; [done|]. exfalso.
  assert ((j, e) ∈ filter (λ me : pystr * QueueEntry, timed_out t me.2 = true) q) as Hin by (rewrite E; by left).
  apply list_elem_of_filter in Hin as [Ht Hj]. apply dget_elem in Hj; [|done]. apply (Hothers _ _ Hj).
  unfold timed_out in Ht. apply andb_true_iff in Ht as [Hp _]. by case_bool_decide.
Qed.

Lemma acknowledge_unique q p seq i e :
  dict_wf q → dget q i = Some e → qe_status e = DELIVERED → qe_receiver e = p → qe_sequence_number e = Some seq →
  (∀ j e', dget q j = Some e' → qe_status e' = DELIVERED → qe_sequence_number e' = Some seq → j = i) →
  acknowledge_by_sequence q p seq = (dset q i (set_status ACKNOWLEDGED e), Some i).
Proof.
  intros Hwf Hg Hst Hrec Hseq Huniq. unfold acknowledge_by_sequence. destruct (dfind _ q) as [[j e']|] eqn:E.
  - apply dfind_Some in E as [Hin Hp]. bool_hyps. apply dget_elem in Hin; [|done].
    assert (j = i) as -> by eauto. by simplify_eq.
  - rewrite dfind_None in E. specialize (E i e (dget_Some_elem _ _ _ Hg)).
    by rewrite Hst, Hrec, Hseq, !bool_decide_true in E.
Qed.

(** The retry loop finds the message timed out each time: it runs more than [ACK_TIMEOUT] after the last transmission. *)
Fixpoint spaced (t : seconds) (ts : list seconds) : Prop :=
  match ts with
  | [] => True
  | t' :: ts => tlt ACK_TIMEOUT (tsub t' t) = true ∧ spaced t' ts
  end.

Section delivery.
Context `{C : CryptoLib} `{!CryptoLaws C}.

(** ** A message on its way *)

(** The packet carries [pt] under the number [seq] of the session [s]. *)
Definition carries (pkt : Packet) (s : Session) (seq : Z) (pt : bytes) : Prop :=
  ∃ dp, pkt_type pkt = DATA ∧ (Z.of_nat (length (pkt_payload pkt)) ≤ MAX_PAYLOAD_SIZE)%Z ∧ on_wire pkt ∧
    data_deserialize (pkt_payload pkt) = Ok dp ∧ data_session_id dp = s_session_id s ∧ data_sequence_number dp = seq ∧
    ∀ o, s_session_id o = s_session_id s → s_encryption_key o = s_encryption_key s → (s_recv_sequence o < seq)%Z →
      decrypt_data_packet dp o = (set_recv_sequence seq o, Ok (Some pt)).

(** Node [n] has sent message [i] to the peer of session [s] (at [r]) as [pkt], at time [t] and after [k] timeouts, and
    waits for the answer.  No other message is pending, and none that is delivered has the packet's number or a later one. *)
Record on_its_way (n : node) (r : sref) (s : Session) (ep : endpoint) (i : pystr) (pt : bytes) (k : Z) (t : seconds)
    (pkt : Packet) : Prop := {
  ow_peer : get_by_peer_id (n_registry n) (s_remote_peer_id s) = Some r;
  ow_sid : get_by_session_id (n_registry n) (s_session_id s) = Some r;
  ow_session : n_heap n !! r = Some s;
  ow_length : length (s_session_id s) = 8;
  ow_endpoint : get_endpoint (n_table n) (s_remote_peer_id s) = Some ep;
  ow_queue : dict_wf (n_queue n);
  ow_entry : ∃ c, dget (n_queue n) i =
    Some (mkEntry (s_remote_peer_id s) PENDING k pt c (Some (s_send_sequence s - 1)%Z) (Some t));
  ow_others : ∀ j e, j ≠ i → dget (n_queue n) j = Some e →
    qe_status e ≠ PENDING ∧ (qe_status e = DELIVERED → ∀ v, qe_sequence_number e = Some v → (v < s_send_sequence s - 1)%Z);
  ow_row : db_message_status n i = Some (str "pending");
  ow_packet : carries pkt s (s_send_sequence s - 1) pt;
  ow_sent : last (n_trace n) = Some (EvSend pkt ep) }.

(** ** Sending again *)

(** [transmit] on a queued message. *)
Lemma transmit_sent n i r s ep e now :
  n_heap n !! r = Some s → length (s_session_id s) = 8 → dget (n_queue n) i = Some e → qe_status e = QUEUED →
  u32 (s_send_sequence s) → (Z.of_nat (length (qe_plaintext e)) + 32 ≤ MAX_PAYLOAD_SIZE)%Z →
  ∃ n' pkt, transmit i r ep now n = (n', Ok ()) ∧
    carries pkt s (s_send_sequence s) (qe_plaintext e) ∧
    n_queue n' = dset (n_queue n) i (set_sent (s_send_sequence s) now (set_status PENDING e)) ∧
    n_heap n' = <[r := set_send_sequence (s_send_sequence s + 1) s]> (n_heap n) ∧
    n_registry n' = n_registry n ∧ n_table n' = n_table n ∧
    db_message_status n' i = (λ _, str "pending") <$> db_message_status n i ∧
    ∃ l, n_trace n' = n_trace n ++ l ++ [EvSend pkt ep].
Proof using CryptoLaws0.
  intros Hs Hlen He Hst Hu Hfit.
  destruct (data_delivery (n_queue n) i e s now) as (pkt & wire & dp & Hb & Hw & Hw' & Ht & Hd & Hsid & Hseq & Hl & Hdec);
    [done..|].
  unfold transmit. erewrite bind_ok by (unfold node_build_data_packet; rewrite (bind_ok _ _ _ _ _ (get_session_ok _ _ _ Hs));
    unfold build_with_session; rewrite Hb; reflexivity).
  cbv beta iota zeta. erewrite (bind_ok (get_session r)) by (apply get_session_ok; cbn; apply lookup_insert_eq).
  do 3 (erewrite bind_ok by (by apply storage_ok)). unfold send_to. rewrite Hw, lift_bind_ok.
  eexists _, pkt. split; [reflexivity|]. split_and!; try done.
  - exists dp. split_and!; try done. by exists wire.
  - unfold db_message_status. cbn. repeat (rewrite dget_dupd, decide_True by done).
    by destruct (dget (db_queue (n_db n)) i).
  - eexists [_; _; _]. cbn. by rewrite <- !app_assoc.
Qed.

(** A pass of the retry loop more than [ACK_TIMEOUT] after the last transmission sends the message again, under the next
    number, unless the retries are used up. *)
Lemma retry_transmits n r s ep i pt k t t' pkt :
  on_its_way n r s ep i pt k t pkt → (k + 1 < MAX_RETRIES)%Z → tlt ACK_TIMEOUT (tsub t' t) = true →
  u32 (s_send_sequence s) → (Z.of_nat (length pt) + 32 ≤ MAX_PAYLOAD_SIZE)%Z →
  ∃ pkt' l, on_its_way (node_retry_pass t' n) r (set_send_sequence (s_send_sequence s + 1) s) ep i pt (k + 1) t' pkt' ∧
    n_trace (node_retry_pass t' n) = n_trace n ++ l ++ [EvSend pkt' ep].
Proof using CryptoLaws0.
  intros [Hp Hsid Hs Hlen Hep Hwf [c He] Hothers Hrow _ _] Hk Ht Hu Hfit.
  unfold node_retry_pass, retry_pass.
  rewrite (timed_out_only _ _ i); [|by intros j e Hj Hje; apply (Hothers j e Hj Hje)|done|].
  2:{ eexists. split; [exact He|]. unfold timed_out. cbn. by rewrite bool_decide_true. }
  cbn [foldl]. unfold retry_one, handle_timeout. rewrite He. cbn [qe_retry_count qe_status].
  rewrite (proj2 (Z.leb_gt _ _)) by done. set (e := set_status QUEUED _). rewrite dget_dset_eq.
  unfold resend_message. rewrite !gets_bind. cbn [n_registry n_table set_n_queue qe_receiver e set_status set_retry_count].
  rewrite Hp, Hep.
  destruct (transmit_sent (set_n_queue (dset (n_queue n) i e) n) i r s ep e t')
    as (n' & pkt' & -> & Hc & Hq & Hh & Hr & Htb & Hdb & l & Hl); [done|done|apply dget_dset_eq|done..|].
  exists pkt', l. cbn [fst]. cbn [n_queue set_n_queue n_heap n_registry n_table n_trace] in *. split; [|done].
  split; cbn [s_send_sequence s_remote_peer_id s_session_id set_send_sequence]; try done.
  - by rewrite Hr.
  - by rewrite Hr.
  - rewrite Hh. apply lookup_insert_eq.
  - by rewrite Htb.
  - rewrite Hq. by repeat apply dset_wf.
  - exists c. rewrite Hq, dget_dset_eq. unfold e. cbn. by rewrite Z.add_simpl_r.
  - intros j e' Hj. rewrite Hq, !dget_dset_ne by done. intros Hje. destruct (Hothers j e' Hj Hje) as [H1 H2].
    split; [done|]. intros Hd v Hv. specialize (H2 Hd v Hv). lia.
  - rewrite Hdb. change (db_message_status (set_n_queue _ n) i) with (db_message_status n i). by rewrite Hrow.
  - rewrite Z.add_simpl_r. destruct Hc as (dp & H). by exists dp.
  - by rewrite Hl, app_assoc, last_snoc.
Qed.

(** When the retries are used up the pass gives the message up: it sends nothing and marks it failed. *)
Lemma retry_gives_up n r s ep i pt k t t' pkt aad :
  on_its_way n r s ep i pt k t pkt → (MAX_RETRIES ≤ k + 1)%Z → tlt ACK_TIMEOUT (tsub t' t) = true →
  utf8_encode i = Ok aad →
  get_status (n_queue (node_retry_pass t' n)) i = Some QueueManager.FAILED ∧
  db_message_status (node_retry_pass t' n) i = Some (str "failed") ∧
  n_trace (node_retry_pass t' n) = n_trace n ++ [EvDb (DbUpdateStatus i (str "failed") t')].
Proof using Type.
  intros [Hp Hsid Hs Hlen Hep Hwf [c He] Hothers Hrow _ _] Hk Ht Hi.
  unfold node_retry_pass, retry_pass.
  rewrite (timed_out_only _ _ i); [|by intros j e Hj Hje; apply (Hothers j e Hj Hje)|done|].
  2:{ eexists. split; [exact He|]. unfold timed_out. cbn. by rewrite bool_decide_true. }
  cbn [foldl]. unfold retry_one, handle_timeout. rewrite He. cbn [qe_retry_count qe_status].
  rewrite (proj2 (Z.leb_le _ _)) by done. set (e := set_status QueueManager.FAILED _). rewrite dget_dset_eq.
  unfold on_message_failed. rewrite storage_ok by done. cbn [fst n_queue set_n_queue set_n_trace set_n_db n_trace].
  split; [unfold get_status; by rewrite dget_dset_eq|]. split; [|done].
  unfold db_message_status in *. cbn. rewrite dget_dupd, decide_True by done. by destruct (dget (db_queue (n_db n)) i).
Qed.

Lemma last_cons_default (t t' : seconds) ts : List.last (t' :: ts) t = List.last ts t'.
Proof using Type. revert t t'. induction ts as [|t2 ts IH]; intros t t'; [done|]. cbn [List.last]. exact (eq_trans (IH t t2) (eq_sym (IH t' t2))). Qed.

(** Passes of the retry loop at the given times. *)
Definition retries (ts : list seconds) (n : node) : node := foldl (λ n t, node_retry_pass t n) n ts.

Lemma after_losses ts : ∀ n r s ep i pt k t pkt,
  on_its_way n r s ep i pt k t pkt → spaced t ts → (0 ≤ k)%Z → (k + Z.of_nat (length ts) < MAX_RETRIES)%Z →
  (0 ≤ s_send_sequence s)%Z → (s_send_sequence s + Z.of_nat (length ts) ≤ 2 ^ 32)%Z →
  (Z.of_nat (length pt) + 32 ≤ MAX_PAYLOAD_SIZE)%Z →
  ∃ pkt', on_its_way (retries ts n) r (set_send_sequence (s_send_sequence s + Z.of_nat (length ts)) s) ep i pt
    (k + Z.of_nat (length ts)) (List.last ts t) pkt'.
Proof using CryptoLaws0.
  induction ts as [|t' ts IH]; intros n r s ep i pt k t pkt Hw Hsp H0 Hk Hs0 Hu Hfit; cbn [length spaced] in *.
  - exists pkt. rewrite !Z.add_0_r. destruct s. exact Hw.
  - destruct Hsp as [Ht Hsp]. destruct (retry_transmits n r s ep i pt k t t' pkt Hw) as (pkt' & l & Hw' & _);
      [lia|done|unfold u32; lia|done|].
    destruct (IH _ _ _ _ _ _ _ _ _ Hw' Hsp) as (pkt2 & H2); [lia|lia|cbn; lia|cbn; lia|done|].
    exists pkt2. rewrite last_cons_default. cbn [s_send_sequence set_send_sequence] in H2.
    replace (k + Z.of_nat (S (length ts)))%Z with (k + 1 + Z.of_nat (length ts))%Z by lia.
    replace (s_send_sequence s + Z.of_nat (S (length ts)))%Z with (s_send_sequence s + 1 + Z.of_nat (length ts))%Z by lia.
    exact H2.
Qed.

(** ** Getting through *)

(** The packet at the other end of the session. *)
Lemma carried_accepted b rb s sb addr pkt seq pt t d :
  carries pkt s seq pt →
  registry_inv (n_heap b) (n_registry b) → get_by_session_id (n_registry b) (s_session_id sb) = Some rb →
  n_heap b !! rb = Some sb → s_session_id sb = s_session_id s → s_encryption_key sb = s_encryption_key s →
  (s_recv_sequence sb < seq)%Z → (rate_limit pkt addr t b).2 = Ok true →
  ∃ wire b1 ack ack_wire app_ack app_wire,
    packet_serialize pkt = Ok wire ∧ datagram_received wire addr t d b = (b1, Ok ()) ∧
    n_trace b1 = n_trace b ++
      [EvDb (DbUpdateRecv (s_session_id s) seq); EvSend ack addr;
       EvDb (DbRememberEndpoint (s_remote_peer_id sb) addr t);
       EvMessage (s_remote_peer_id sb) pt; EvSend app_ack addr] ∧
    n_heap b1 = <[rb := set_recv_sequence seq sb]> (n_heap b) ∧ n_registry b1 = n_registry b ∧
    (ack_deserialize (pkt_payload ack) = Ok (mkAck (s_session_id s) seq) ∧ pkt_type ack = ACK ∧
     packet_serialize ack = Ok ack_wire ∧ packet_deserialize ack_wire = Ok ack) ∧
    (app_ack_deserialize (pkt_payload app_ack) = Ok (mkAppAck (s_session_id s) seq) ∧ pkt_type app_ack = APP_ACK ∧
     packet_serialize app_ack = Ok app_wire ∧ packet_deserialize app_wire = Ok app_ack).
Proof using Type.
  intros (dp & Htype & Hl & (wire & Hw & Hw') & Hd & Hdsid & Hdseq & Hdec) Hinv Hrb Hsb Esid Ekey Hlt Hrate.
  specialize (Hdec sb Esid Ekey Hlt). rewrite <- Hdseq in Hdec.
  destruct (datagram_data_accepted wire pkt dp addr t d b rb sb pt Hw' Htype Hl Hrate Hinv Hd)
    as (b1 & ack & app & Hb1 & Hack & Hackt & (aw & Haw & Haw') & Happ & Happt & (pw & Hpw & Hpw') & Htb & Hhb & Hrg);
    [by rewrite Hdsid, <- Esid|done|done|].
  rewrite Hdsid, Hdseq in *. exists wire, b1, ack, aw, app, pw. by split_and!.
Qed.

(** The last packet reaches the other end of the session, and the acknowledgements come back. *)
Lemma gets_through a b r rb s sb ep addr i pt k t pkt t2 t3 t4 d2 d3 d4 :
  on_its_way a r s ep i pt k t pkt → i ≠ [] →
  registry_inv (n_heap b) (n_registry b) → get_by_session_id (n_registry b) (s_session_id sb) = Some rb →
  n_heap b !! rb = Some sb → s_session_id sb = s_session_id s → s_encryption_key sb = s_encryption_key s →
  (s_recv_sequence sb < s_send_sequence s - 1)%Z → (rate_limit pkt addr t2 b).2 = Ok true →
  ∃ wire b1 ack ack_wire app_ack app_wire a2 a3,
    packet_serialize pkt = Ok wire ∧ datagram_received wire addr t2 d2 b = (b1, Ok ()) ∧
    n_trace b1 = n_trace b ++
      [EvDb (DbUpdateRecv (s_session_id s) (s_send_sequence s - 1)); EvSend ack addr;
       EvDb (DbRememberEndpoint (s_remote_peer_id sb) addr t2);
       EvMessage (s_remote_peer_id sb) pt; EvSend app_ack addr] ∧
    packet_serialize ack = Ok ack_wire ∧ packet_serialize app_ack = Ok app_wire ∧
    datagram_received ack_wire ep t3 d3 a = (a2, Ok ()) ∧ get_status (n_queue a2) i = Some DELIVERED ∧
    datagram_received app_wire ep t4 d4 a2 = (a3, Ok ()) ∧ get_status (n_queue a3) i = Some ACKNOWLEDGED ∧
    db_message_status a3 i = Some (str "acknowledged") ∧ ∀ t', node_retry_pass t' a3 = a3.
Proof using CryptoLaws0.
  intros [Hp Hsid Hs Hlen Hep Hwf [c He] Hothers Hrow Hcar _] Hne Hinv Hrb Hsb Esid Ekey Hlt Hrate.
  destruct (carried_accepted b rb s sb addr pkt _ pt t2 d2 Hcar Hinv Hrb Hsb Esid Ekey Hlt Hrate)
    as (wire & b1 & ack & aw & app & pw & Hw & Hb1 & Htb & _ & _ & (Hack & Hackt & Haw & Haw') & (Happ & Happt & Hpw & Hpw')).
  set (seq := (s_send_sequence s - 1)%Z) in *. set (e := mkEntry _ PENDING k pt c _ _) in *.
  set (q1 := dset (n_queue a) i (set_status DELIVERED e)). assert (dict_wf q1) as Hwf1 by (by apply dset_wf).
  assert (handle_ack (n_queue a) (mkAck (s_session_id s) seq) = (q1, Some i)) as Ha1.
  { apply handle_ack_unique; try done. intros j e' Hj Hst _. destruct (decide (j = i)) as [|Hji]; [done|].
    by destruct (Hothers j e' Hji Hj). }
  assert (acknowledge_by_sequence q1 (s_remote_peer_id s) seq
    = (dset q1 i (set_status ACKNOWLEDGED (set_status DELIVERED e)), Some i)) as Ha2.
  { apply acknowledge_unique; [done|apply dget_dset_eq|done..|]. intros j e' Hj Hst Hseq.
    destruct (decide (j = i)) as [|Hji]; [done|]. unfold q1 in Hj. rewrite dget_dset_ne in Hj by done.
    pose proof (proj2 (Hothers j e' Hji Hj) Hst seq Hseq). lia. }
  destruct (acks_settle a ack aw app pw (s_session_id s) seq r s i q1
    (dset q1 i (set_status ACKNOWLEDGED (set_status DELIVERED e))) ep t3 t4 d3 d4)
    as (a2 & a3 & Ea2 & Q1 & _ & Ea3 & Q2 & D2); try done.
  exists wire, b1, ack, aw, app, pw, a2, a3. split_and!; try done.
  - unfold get_status. rewrite Q1. unfold q1. by rewrite dget_dset_eq.
  - unfold get_status. rewrite Q2. by rewrite dget_dset_eq.
  - by rewrite D2, Hrow.
  - intros t'. unfold node_retry_pass, retry_pass. rewrite timed_out_none; [done| |rewrite Q2; by apply dset_wf].
    intros j e'. rewrite Q2. destruct (decide (j = i)) as [->|Hji]; [rewrite dget_dset_eq; by intros [= <-]|].
    unfold q1. rewrite !dget_dset_ne by done. intros Hj. apply (Hothers j e' Hji Hj).
Qed.

(** [send_message] puts the message on its way. *)
Lemma sent_on_its_way a b ra rb sa sb ep text pt aad t1 d1 :
  linked a b ra rb sa sb → get_endpoint (n_table a) (s_remote_peer_id sa) = Some ep →
  utf8_encode text = Ok pt → (Z.of_nat (length pt) + 32 ≤ MAX_PAYLOAD_SIZE)%Z →
  utf8_encode (d_uuid d1) = Ok aad → dmem (db_queue (n_db a)) (d_uuid d1) = false → u32 (s_send_sequence sa) →
  dict_wf (n_queue a) →
  (∀ j e, j ≠ d_uuid d1 → dget (n_queue a) j = Some e → qe_status e ≠ PENDING ∧
     (qe_status e = DELIVERED → ∀ v, qe_sequence_number e = Some v → (v < s_send_sequence sa)%Z)) →
  ∃ a1 pkt l, send_message (s_remote_peer_id sa) text t1 d1 a = (a1, Ok (d_uuid d1, None)) ∧
    on_its_way a1 ra (set_send_sequence (s_send_sequence sa + 1) sa) ep (d_uuid d1) pt 0 t1 pkt ∧
    n_trace a1 = n_trace a ++ l ++ [EvSend pkt ep].
Proof using CryptoLaws0.
  intros Hl Hep Htext Hfit Haad Hdb Hu Hwf Hothers.
  destruct (send_message_sent a (s_remote_peer_id sa) text pt aad t1 d1 ra sa ep)
    as (a1 & pkt & Hsend & Hb & Htr & Hheap & Hreg & Htab & Hst); [apply Hl|apply Hl|apply Hl|done..|].
  destruct (data_delivery (enqueue (n_queue a) (d_uuid d1) (s_remote_peer_id sa) pt t1) (d_uuid d1)
    (mkEntry (s_remote_peer_id sa) QUEUED 0 pt t1 None None) sa t1)
    as (pkt' & wire & dp & Hb' & Hw & Hw' & Ht & Hdp & Hsid & Hseq & Hlen & Hdec);
    [apply dget_dset_eq|done|apply Hl|done..|].
  rewrite Hb in Hb'. injection Hb' as Hq <-.
  destruct (ri_p _ _ (ln_inv_a _ _ _ _ _ _ Hl) _ _ (ln_a _ _ _ _ _ _ Hl)) as (sa' & Hsa' & _ & Hra).
  rewrite (ln_sa _ _ _ _ _ _ Hl) in Hsa'. injection Hsa' as <-.
  eexists a1, pkt, [_; _; _; _]. split; [done|]. split; [|exact Htr]. split; cbn [s_send_sequence s_remote_peer_id s_session_id set_send_sequence];
    rewrite ?Hreg, ?Hheap, ?Htab, ?Hq, ?Z.add_simpl_r; try done.
  - apply Hl.
  - apply lookup_insert_eq.
  - apply Hl.
  - by apply dset_wf, dset_wf.
  - exists t1. by rewrite dget_dset_eq.
  - intros j e Hj. unfold enqueue. rewrite !dget_dset_ne by done. by apply Hothers.
  - exists dp. split_and!; try done. by exists wire.
  - by rewrite Htr, last_app.
Qed.

(** C4: a message outlives the loss of its packets.  Two nodes share a session, and the first sends a message while no
    other is pending.  The retry loop runs up to four passes, each more than [ACK_TIMEOUT] after the one before, and each
    sends the message again.  Every packet before the last one is lost (so at most the first and three repetitions).  The
    last one, which carries a number of its own, gets through:
    the user of the other node sees the text, and the two acknowledgements mark the message delivered and then
    acknowledged, in the queue and in the database.  After that the retry loop leaves it alone.  Five packets are all
    there are: if the fifth is lost too, the next pass sends nothing and marks the message failed. *)
Theorem delivery_despite_losses (a b : node) (ra rb : sref) (sa sb : Session) (ep_b addr_a : endpoint)
    (text : pystr) (pt aad : bytes) (t1 t2 t3 t4 : seconds) (ts : list seconds) (d1 d2 d3 d4 : draws) :
  linked a b ra rb sa sb → get_endpoint (n_table a) (s_remote_peer_id sa) = Some ep_b →
  utf8_encode text = Ok pt → (Z.of_nat (length pt) + 32 ≤ MAX_PAYLOAD_SIZE)%Z →
  utf8_encode (d_uuid d1) = Ok aad → d_uuid d1 ≠ [] → dmem (db_queue (n_db a)) (d_uuid d1) = false →
  dict_wf (n_queue a) →
  (∀ j e, j ≠ d_uuid d1 → dget (n_queue a) j = Some e → qe_status e ≠ PENDING ∧
     (qe_status e = DELIVERED → ∀ v, qe_sequence_number e = Some v → (v < s_send_sequence sa)%Z)) →
  (0 ≤ s_recv_sequence sb < s_send_sequence sa)%Z →
  (Z.of_nat (length ts) < MAX_RETRIES)%Z → (s_send_sequence sa + Z.of_nat (length ts) < 2 ^ 32)%Z → spaced t1 ts →
  (∀ pkt, pkt_type pkt = DATA → (rate_limit pkt addr_a t2 b).2 = Ok true) →
  ∃ a1 pkt wire b1 ack ack_wire app_ack app_wire a2 a3,
    send_message (s_remote_peer_id sa) text t1 d1 a = (a1, Ok (d_uuid d1, None)) ∧
    last (n_trace (retries ts a1)) = Some (EvSend pkt ep_b) ∧ packet_serialize pkt = Ok wire ∧
    datagram_received wire addr_a t2 d2 b = (b1, Ok ()) ∧
    n_trace b1 = n_trace b ++
      [EvDb (DbUpdateRecv (s_session_id sa) (s_send_sequence sa + Z.of_nat (length ts))); EvSend ack addr_a;
       EvDb (DbRememberEndpoint (s_remote_peer_id sb) addr_a t2);
       EvMessage (s_remote_peer_id sb) pt; EvSend app_ack addr_a] ∧
    packet_serialize ack = Ok ack_wire ∧ packet_serialize app_ack = Ok app_wire ∧
    datagram_received ack_wire ep_b t3 d3 (retries ts a1) = (a2, Ok ()) ∧
    get_status (n_queue a2) (d_uuid d1) = Some DELIVERED ∧
    datagram_received app_wire ep_b t4 d4 a2 = (a3, Ok ()) ∧
    get_status (n_queue a3) (d_uuid d1) = Some ACKNOWLEDGED ∧
    db_message_status a3 (d_uuid d1) = Some (str "acknowledged") ∧
    (∀ t, node_retry_pass t a3 = a3) ∧
    (Z.of_nat (length ts) = MAX_RETRIES - 1 → ∀ t, tlt ACK_TIMEOUT (tsub t (List.last ts t1)) = true →
       let given_up := node_retry_pass t (retries ts a1) in
       get_status (n_queue given_up) (d_uuid d1) = Some QueueManager.FAILED ∧
       db_message_status given_up (d_uuid d1) = Some (str "failed") ∧
       n_trace given_up = n_trace (retries ts a1) ++ [EvDb (DbUpdateStatus (d_uuid d1) (str "failed") t)])%Z.
Proof using CryptoLaws0.
  intros Hl Hep Htext Hfit Haad Hne Hdb Hwf Hothers Hrecv Hts Hu Hsp Hrate.
  destruct (sent_on_its_way a b ra rb sa sb ep_b text pt aad t1 d1) as (a1 & pkt1 & l & Hsend & Hw1 & _);
    [done..|unfold u32; lia|done|done|].
  destruct (after_losses ts _ _ _ _ _ _ _ _ _ Hw1 Hsp) as (pkt & Hw);
    [lia|lia|cbn [s_send_sequence set_send_sequence]; lia..|done|].
  cbn [s_send_sequence set_send_sequence] in Hw.
  destruct (gets_through _ b ra rb _ sb ep_b addr_a (d_uuid d1) pt _ _ pkt t2 t3 t4 d2 d3 d4 Hw Hne)
    as (wire & b1 & ack & aw & app & pw & a2 & a3 & G1 & G2 & G3 & G4); try apply Hl.
  { cbn. lia. }
  { destruct (ow_packet _ _ _ _ _ _ _ _ _ Hw) as (dp & Ht & _). by apply Hrate. }
  cbn [s_send_sequence s_session_id set_send_sequence] in G3.
  replace (s_send_sequence sa + 1 + Z.of_nat (length ts) - 1)%Z with (s_send_sequence sa + Z.of_nat (length ts))%Z in G3 by lia.
  exists a1, pkt, wire, b1, ack, aw, app, pw, a2, a3. split; [done|]. split; [apply Hw|].
  destruct G4 as (G4 & G5 & G6 & G7 & G8 & G9 & G10 & G11).
  split_and!; try done. intros Hfour t Ht. eapply retry_gives_up; [exact Hw| |exact Ht|exact Haad].
  lia.
Qed.
End delivery.

(** ** Example: four packets of five are lost *)

Module DeliveryExample.
Import ToyCrypto NodeExample.

Definition passes : list seconds := [secs 40; secs 80; secs 120; secs 160].

Lemma delivery_despite_losses_witness :
  ∃ a1 pkt wire b1,
    send_message (id_peer_id bob) (str "hello") (secs 1) drawn node_a = (a1, Ok (str "id1", None)) ∧
    last (n_trace (retries passes a1)) = Some (EvSend pkt addr_bob) ∧ packet_serialize pkt = Ok wire ∧
    datagram_received wire addr_alice (secs 161) drawn node_b = (b1, Ok ()) ∧
    EvMessage (id_peer_id alice) (bytes_of_string "hello") ∈ n_trace b1 ∧
    EvDb (DbUpdateRecv sid 5) ∈ n_trace b1 ∧
    get_status (n_queue (node_retry_pass (secs 200) (retries passes a1))) (str "id1") = Some QueueManager.FAILED.
Proof.
  destruct (delivery_despite_losses node_a node_b 0 0 session_ab session_ba addr_bob addr_alice (str "hello")
    (bytes_of_string "hello") (bytes_of_string "id1") (secs 1) (secs 161) (secs 162) (secs 163) passes
    drawn drawn drawn drawn) as (a1 & pkt & wire & b1 & ack & aw & app & pw & a2 & a3 & H).
  - exact nodes_linked.
  - vm_compute. reflexivity.
  - vm_compute. reflexivity.
  - vm_compute. discriminate.
  - vm_compute. reflexivity.
  - discriminate.
  - vm_compute. reflexivity.
  - apply NoDup_nil_2.
  - discriminate.
  - split; [discriminate|reflexivity].
  - reflexivity.
  - reflexivity.
  - repeat split; vm_compute; reflexivity.
  - intros pkt Ht. unfold rate_limit. rewrite Ht. vm_compute. reflexivity.
  - destruct H as (H1 & H2 & H3 & H4 & H5 & _ & _ & _ & _ & _ & _ & _ & _ & H6). exists a1, pkt, wire, b1.
    split_and!; [exact H1|exact H2|exact H3|exact H4|rewrite H5..|].
    + apply elem_of_app. right. do 3 (apply elem_of_cons; right). apply elem_of_cons. by left.
    + apply elem_of_app. right. apply elem_of_cons. by left.
    + apply H6; vm_compute; reflexivity.
Defined.
End DeliveryExample.
