(* ===== verification/Transport.v ===== *)
(** * The transports (transport_udp.py, transport_tcp.py)

    A datagram transport of asyncio is an open or closed socket with the datagrams that were handed to it; the sockets of
    the process are a map.  [UDPTransport] keeps the number of its socket once [connection_made] was called.  What
    [datagram_received] does with a decoded packet is a value: a task for a coroutine function, a call for any other
    handler.  Binding is a call of the operating system and fails where [bind] says so.  Sending through a socket that
    is already closed is not documented by asyncio and ends in [Unmodelled].

    The node model joins these callbacks with its own handlers ([Node.datagram_received], [NodeState.send_to]); the
    theorem here shows that it does so as the transport prescribes. *)

From S2P Require Import Prelude Bytes PyDict PyText Packet Crypto Session Overlay Storage LogFiles NodeState Node NodeProps.

Record socket := mkSocket { sk_local : endpoint; sk_sent : list (bytes * endpoint); sk_open : bool }.

Abbreviation sockets := (gmap nat socket).

(** [DatagramTransport.sendto(data, addr)] *)
Definition sendto (ss : sockets) (k : nat) (data : bytes) (addr : endpoint) : sockets * result () :=
  match ss !! k with
  | Some s =>
      if sk_open s then (<[k := mkSocket (sk_local s) (sk_sent s ++ [(data, addr)]) true]> ss, Ok ())
      else (ss, Raise Unmodelled)
  | None => (ss, Raise Unmodelled)
  end.

(** [DatagramTransport.close()] *)
Definition socket_close (ss : sockets) (k : nat) : sockets :=
  alter (λ s, mkSocket (sk_local s) (sk_sent s) false) k ss.

(** [ut_coroutine]: whether the handler is a coroutine function *)
Record UDPTransport := mkUDP { ut_coroutine : bool; ut_transport : option nat }.

Definition new_udp (coroutine : bool) : UDPTransport := mkUDP coroutine None.

Definition connection_made (u : UDPTransport) (k : nat) : UDPTransport := mkUDP (ut_coroutine u) (Some k).

(** What is done with a packet: [loop.create_task(handler(packet, addr))] or [handler(packet, addr)] *)
Inductive delivery :=
| CreateTask (packet : Packet) (addr : endpoint)
| CallHandler (packet : Packet) (addr : endpoint).

Definition udp_datagram_received (u : UDPTransport) (data : bytes) (addr : endpoint) : result (option delivery) :=
  match packet_deserialize data with
  | Ok packet => Ok (Some (if ut_coroutine u then CreateTask packet addr else CallHandler packet addr))
  | Raise PacketError => Ok None
  | Raise e => Raise e
  end.

(** [error_received] and [connection_lost] only log. *)
Definition error_received (u : UDPTransport) : UDPTransport := u.
Definition connection_lost (u : UDPTransport) : UDPTransport := u.

(** [send_packet(packet, addr)] *)
Definition send_packet (u : UDPTransport) (ss : sockets) (packet : Packet) (addr : endpoint) : sockets * result () :=
  match ut_transport u with
  | None => (ss, Ok ())
  | Some k =>
      match packet_serialize packet with
      | Ok data => sendto ss k data addr
      | Raise e => (ss, Raise e)
      end
  end.

Definition udp_close (u : UDPTransport) (ss : sockets) : sockets :=
  match ut_transport u with Some k => socket_close ss k | None => ss end.

(** [start_udp_listener(port, packet_handler, bind_addr)]: the event loop binds a socket, makes the protocol and calls
    its [connection_made]. *)
Definition start_udp_listener (bind : endpoint → bool) (port : Z) (coroutine : bool) (bind_addr : pystr) (ss : sockets)
    : sockets * result (nat * UDPTransport) :=
  let k := fresh (dom ss) in
  if bind (bind_addr, port)
  then (<[k := mkSocket (bind_addr, port) [] true]> ss, Ok (k, connection_made (new_udp coroutine) k))
  else (ss, Raise OtherError).

Definition stop_udp_listener (u : UDPTransport) (ss : sockets) : sockets := udp_close u ss.

(** [Node._send_to(packet, addr)] *)
Definition node_send (transport : option UDPTransport) (ss : sockets) (packet : Packet) (addr : endpoint)
    : sockets * result () :=
  match transport with Some u => send_packet u ss packet addr | None => (ss, Ok ()) end.

(** The TCP transport is a stub. *)
Definition tcp_connect (addr : endpoint) : result () := Raise NotImplemented.
Definition tcp_send_packet (packet : Packet) (addr : endpoint) : result () := Raise NotImplemented.
Definition tcp_close (ss : sockets) : sockets := ss.

(** ** Lemmas *)

(** The datagrams a trace puts on the wire. *)
Definition wire_of (e : event) : list (bytes * endpoint) :=
  match e with
  | EvSend pkt addr => match packet_serialize pkt with Ok data => [(data, addr)] | Raise _ => [] end
  | _ => []
  end.

Definition wire (tr : list event) : list (bytes * endpoint) := tr ≫= wire_of.

Lemma sendto_open ss k s data addr :
  ss !! k = Some s → sk_open s = true →
  sendto ss k data addr = (<[k := mkSocket (sk_local s) (sk_sent s ++ [(data, addr)]) true]> ss, Ok ()).
Proof. intros H Ho. unfold sendto. by rewrite H, Ho. Qed.

Lemma started_listener bind port c addr ss ss' k u :
  start_udp_listener bind port c addr ss = (ss', Ok (k, u)) →
  u = mkUDP c (Some k) ∧ ss !! k = None ∧ ss' = <[k := mkSocket (addr, port) [] true]> ss.
Proof.
  unfold start_udp_listener. destruct (bind _); [|done]. intros [= <- <- <-]. split_and!; try done.
  apply not_elem_of_dom. apply is_fresh.
Qed.

Lemma closed_listener ss k u s :
  ut_transport u = Some k → ss !! k = Some s →
  stop_udp_listener u ss !! k = Some (mkSocket (sk_local s) (sk_sent s) false) ∧
  ∀ j, j ≠ k → stop_udp_listener u ss !! j = ss !! j.
Proof.
  intros Hu Hs. unfold stop_udp_listener, udp_close, socket_close. rewrite Hu. split.
  - by rewrite lookup_alter_eq, Hs.
  - intros j Hj. by rewrite lookup_alter_ne.
Qed.

Lemma wire_snoc tr e : wire (tr ++ [e]) = wire tr ++ wire_of e.
Proof. unfold wire. rewrite bind_app. cbn. by rewrite app_nil_r. Qed.

Lemma received_encoding u p data rest from :
  pkt_version p = PROTOCOL_VERSION → packet_serialize p = Ok data →
  udp_datagram_received u (data ++ rest) from =
    Ok (Some (if ut_coroutine u then CreateTask p from else CallHandler p from)).
Proof.
  destruct p as [v t pl]. cbn. intros -> Hs. unfold udp_datagram_received.
  by rewrite (packet_deserialize_serialize t pl data rest Hs).
Qed.

Lemma udp_never_raises u data from : is_ok (udp_datagram_received u data from) = true.
Proof.
  unfold udp_datagram_received. pose proof (packet_deserialize_errors data) as He.
  destruct (packet_deserialize data) as [p|e]; [done|]. by rewrite (He e eq_refl).
Qed.

Section transport.
Context `{C : CryptoLib}.

(** Running what the transport delivers, for a node *)
Definition deliver (r : option delivery) (now : seconds) (d : draws) : M () :=
  match r with
  | None => mret ()
  | Some (CreateTask p addr) | Some (CallHandler p addr) => handle_packet p addr now d
  end.

Lemma node_send_open ss k s u p addr (n : node) :
  ut_transport u = Some k → ss !! k = Some s → sk_open s = true → sk_sent s = wire (n_trace n) →
  ∃ ss' s' n' r, node_send (Some u) ss p addr = (ss', r) ∧ send_to p addr n = (n', r) ∧
    ss' !! k = Some s' ∧ sk_open s' = true ∧ sk_sent s' = wire (n_trace n') ∧
    (∀ j, j ≠ k → ss' !! j = ss !! j) ∧
    (∀ data, packet_serialize p = Ok data → r = Ok () ∧ sk_sent s' = sk_sent s ++ [(data, addr)]) ∧
    (∀ e, packet_serialize p = Raise e → r = Raise e ∧ s' = s).
Proof using Type.
  intros Hu Hk Ho Hw. unfold node_send, send_packet, send_to. rewrite Hu, bind_eq. cbn [lift].
  destruct (packet_serialize p) as [data|e] eqn:Hs.
  - rewrite (sendto_open _ _ _ _ _ Hk Ho). eexists _, _, _, (Ok ()). split; [done|]. split; [done|].
    split; [apply lookup_insert_eq|]. cbn. rewrite wire_snoc. cbn. rewrite Hs, Hw. split_and!; try done.
    + intros j Hj. by rewrite lookup_insert_ne.
    + by intros ? [= <-].
  - exists ss, s, n, (Raise e). split_and!; try done. by intros ? [= <-].
Qed.

(** Sending one packet after the other, on the socket and in the trace *)
Definition send_all (u : UDPTransport) (ss : sockets) (pkts : list (Packet * endpoint)) : sockets :=
  foldl (λ ss pa, (node_send (Some u) ss pa.1 pa.2).1) ss pkts.

Definition record_all (n : node) (pkts : list (Packet * endpoint)) : node :=
  foldl (λ n pa, (send_to pa.1 pa.2 n).1) n pkts.

Lemma send_all_spec ss k s u pkts (n : node) :
  ut_transport u = Some k → ss !! k = Some s → sk_open s = true → sk_sent s = wire (n_trace n) →
  ∃ s', send_all u ss pkts !! k = Some s' ∧ sk_open s' = true ∧ sk_sent s' = wire (n_trace (record_all n pkts)) ∧
    ∀ j, j ≠ k → send_all u ss pkts !! j = ss !! j.
Proof using Type.
  intros Hu Hk Ho Hw. induction pkts as [|[p addr] pkts (s1 & H1 & H2 & H3 & H4)] using rev_ind; [by exists s|].
  unfold send_all, record_all in *. rewrite !foldl_app. cbn [foldl fst snd].
  destruct (node_send_open _ k s1 u p addr _ Hu H1 H2 H3) as (ss' & s' & n' & r & -> & -> & E1 & E2 & E3 & E4 & _).
  exists s'. split_and!; try done. intros j Hj. cbn. rewrite E4 by done. by apply H4.
Qed.

(** C19: the node is attached to the network as the UDP transport prescribes.  A transport that was started sends what
    the node records: the datagrams on its socket are the encodings of the packets of the trace, in order, and no other
    socket is touched; [_send_to] raises exactly when serializing the packet does, and then nothing is sent.  The
    transport at the other end turns such a datagram, whatever follows it, into a task for the same packet with the
    address it came from.  For every sequence of bytes [datagram_received] returns, starts at most one handler, and what
    the node does is the run of that handler. *)
Theorem node_uses_transport (bind : endpoint → bool) (port : Z) (host : pystr) (ss0 ss1 : sockets) (k : nat)
    (u : UDPTransport) (n : node) (pkts : list (Packet * endpoint)) :
  start_udp_listener bind port true host ss0 = (ss1, Ok (k, u)) →
  n_trace n = [] →
  let ss2 := send_all u ss1 pkts in
  let n2 := record_all n pkts in
  (∃ s, ss2 !! k = Some s ∧ sk_open s = true ∧ sk_sent s = wire (n_trace n2) ∧ ∀ j, j ≠ k → ss2 !! j = ss0 !! j) ∧
  (∀ p addr, (node_send (Some u) ss2 p addr).2 = (send_to p addr n2).2 ∧
     ((node_send (Some u) ss2 p addr).2 = Ok () ↔ is_ok (packet_serialize p) = true)) ∧
  (∀ p data, pkt_version p = PROTOCOL_VERSION → packet_serialize p = Ok data →
     ∀ v from rest, udp_datagram_received v (data ++ rest) from =
       Ok (Some (if ut_coroutine v then CreateTask p from else CallHandler p from))) ∧
  (∀ data from now d m, ∃ r, udp_datagram_received u data from = Ok r ∧
     datagram_received data from now d m = deliver r now d m).
Proof using Type.
  intros (-> & Hk & ->)%started_listener Htr ss2 n2.
  destruct (send_all_spec (<[k := mkSocket (host, port) [] true]> ss0) k (mkSocket (host, port) [] true)
    (mkUDP true (Some k)) pkts n) as (s & H1 & H2 & H3 & H4); try done; [apply lookup_insert_eq|by rewrite Htr|].
  split_and!.
  - exists s. split_and!; try done. intros j Hj. unfold ss2. rewrite H4, lookup_insert_ne; done.
  - intros p addr. destruct (node_send_open ss2 k s (mkUDP true (Some k)) p addr n2 eq_refl H1 H2 H3)
      as (ss' & s' & n' & r & -> & -> & _ & _ & _ & _ & E5 & E6). split; [done|]. cbn.
    destruct (packet_serialize p) as [data|e]; [by destruct (E5 data eq_refl) as [-> _]|].
    by destruct (E6 e eq_refl) as [-> _].
  - intros p data Hv Hs v from rest. by apply received_encoding.
  - intros data from now d m. unfold udp_datagram_received, datagram_received.
    pose proof (packet_deserialize_errors data) as He.
    destruct (packet_deserialize data) as [p|e]; [by eexists|]. rewrite (He e eq_refl). by exists None.
Qed.
End transport.

Module TransportExample.
Import ToyCrypto.

Definition here : endpoint := (str "0.0.0.0", 4001%Z).
Definition me : LocalIdentity := mkIdentity (be_encode 32 1) (be_encode 32 2) (be_encode 32 3).

Definition ss : sockets := {[0 := mkSocket here [] true]}.
Definition node0 : node := fresh_node me 4001 8 (new_message_log 50 5) empty_db ∅ ∅ (secs 0).
Definition ping : Packet := mkPacket PROTOCOL_VERSION PING (be_encode 16 5).
Definition no_version : Packet := mkPacket 256 PING (be_encode 16 5).

Lemma node_uses_transport_witness :
  let u := mkUDP true (Some 0) in
  start_udp_listener (λ _, true) 4001 true (str "0.0.0.0") ∅ = (ss, Ok (0, u)) ∧
  (∃ s, send_all u ss [(ping, here); (no_version, here); (ping, here)] !! 0 = Some s ∧
     sk_sent s = wire (n_trace (record_all node0 [(ping, here); (no_version, here); (ping, here)]))) ∧
  length (wire (n_trace (record_all node0 [(ping, here); (no_version, here); (ping, here)]))) = 2.
Proof.
  assert (E : start_udp_listener (λ _, true) 4001 true (str "0.0.0.0") ∅ = (ss, Ok (0, mkUDP true (Some 0))))
    by (vm_compute; reflexivity).
  destruct (node_uses_transport (λ _, true) 4001 (str "0.0.0.0") ∅ ss 0 (mkUDP true (Some 0)) node0
    [(ping, here); (no_version, here); (ping, here)] E eq_refl) as ((s & H1 & _ & H2 & _) & _).
  split; [exact E|]. split; [exists s; exact (conj H1 H2)|]. vm_compute. reflexivity.
Defined.
End TransportExample.
