(* ===== verification/Tasks.v ===== *)
(** * Tasks and their suspension points (node.py, transport_udp.py)

    [datagram_received] starts a task for every packet, and the user interface and the background loops run
    in tasks of their own.  A task runs until it awaits the database and goes on when its statement has been
    executed; in between other tasks run.  Here the code of the node is cut at these points: a [proc] is a
    sequence of atomic computations and of database requests.  Running a [proc] alone is the method of
    [Node]; running several at once is the relation [sys_step]. *)

From S2P Require Import Prelude Bytes PyDict PyText IpAddr Packet Crypto Session Handshake QueueManager.
From S2P Require Import PeerState RateLimiter Overlay Resolution Reconnect Heartbeat Storage LogFiles.
From S2P Require Import Invite NodeState Node NodeProps.

(** ** Code with suspension points *)

(** A database request: a write, or a query. *)
Inductive dbq : Type → Type :=
| QWrite (op : db_op) : dbq ()
| QRead {B} (f : database → B) : dbq B.

Definition dbq_run {B} (q : dbq B) : M B :=
  match q with
  | QWrite op => storage op
  | QRead f => gets (λ n, f (n_db n))
  end.

(** [Await] waits for the database, [Pause] for the next turn of the event loop. *)
Inductive proc (A : Type) : Type :=
| Done (r : result A)
| Atom {B : Type} (c : M B) (k : result B → proc A)
| Await {B : Type} (q : dbq B) (k : result B → proc A)
| Pause (p : proc A).
Arguments Done {A} _.
Arguments Atom {A B} _ _.
Arguments Await {A B} _ _.
Arguments Pause {A} _.

Fixpoint proc_bind_ {A B} (k : A → proc B) (p : proc A) : proc B :=
  match p with
  | Done (Ok a) => k a
  | Done (Raise e) => Done (Raise e)
  | Atom c h => Atom c (λ r, proc_bind_ k (h r))
  | Await q h => Await q (λ r, proc_bind_ k (h r))
  | Pause p => Pause (proc_bind_ k p)
  end.

#[export] Instance proc_ret : MRet proc := λ A a, Done (Ok a).
#[export] Instance proc_bind : MBind proc := λ A B k p, proc_bind_ k p.

(** A computation without suspension, a write, a query, a turn of the event loop. *)
Definition atom {A} (c : M A) : proc A := Atom c Done.
Definition write (op : db_op) : proc () := Await (QWrite op) Done.
Definition query {A} (f : database → A) : proc A := Await (QRead f) Done.
Definition pause : proc () := Pause (Done (Ok ())).

(** [try: p except Exception: log] *)
Fixpoint proc_log (p : proc ()) : proc () :=
  match p with
  | Done _ => Done (Ok ())
  | Atom c h => Atom c (λ r, proc_log (h r))
  | Await q h => Await q (λ r, proc_log (h r))
  | Pause p => Pause (proc_log p)
  end.

Fixpoint proc_for_each {A} (body : A → proc ()) (l : list A) : proc () :=
  match l with
  | [] => mret ()
  | x :: l => body x ;; proc_for_each body l
  end.

(** The task alone: nothing happens between its parts. *)
Fixpoint run {A} (p : proc A) : M A := λ n,
  match p with
  | Done r => (n, r)
  | Atom c k => let '(n', r) := c n in run (k r) n'
  | Await q k => let '(n', r) := dbq_run q n in run (k r) n'
  | Pause p => run p n
  end.

(** The task up to its next suspension: what is left of it, if it does not end. *)
Fixpoint advance {A} (p : proc A) : node → node * option (proc A) := λ n,
  match p with
  | Done _ => (n, None)
  | Atom c k => let '(n', r) := c n in advance (k r) n'
  | Await _ _ | Pause _ => (n, Some p)
  end.

(** ** The tasks *)

Section tasks.
Context `{C : CryptoLib}.

(** [build_data_packet], and the arguments of the [update_send_sequence] that follows it *)
Definition build_and_read (msg_id : pystr) (r : sref) (now : seconds) : M (option (Packet * Z * bytes * Z)) :=
  res ← node_build_data_packet msg_id r now;
  match res with
  | None => mret None
  | Some (pkt, seq) => s ← get_session r; mret (Some (pkt, seq, s_session_id s, s_send_sequence s))
  end.

(** The three writes before a packet goes out *)
Definition store_numbers (msg_id : pystr) (seq : Z) (sid : bytes) (send_sequence : Z) (now : seconds) : proc () :=
  write (DbUpdateSend sid send_sequence) ;;
  write (DbUpdateSequence msg_id seq now) ;;
  write (DbUpdateStatus msg_id (str "pending") now).

Definition transmit_task (msg_id : pystr) (r : sref) (ep : endpoint) (now : seconds) : proc () :=
  res ← atom (build_and_read msg_id r now);
  match res with
  | None => mret ()
  | Some (pkt, seq, sid, send_sequence) =>
      store_numbers msg_id seq sid send_sequence now ;;
      atom (send_to pkt ep)
  end.

(** [_flush_queued_for_peer(peer_id)] *)
Definition flush_task (peer_id : bytes) (now : seconds) : proc () :=
  session ← atom (gets (λ n, get_by_peer_id (n_registry n) peer_id));
  ep ← atom (gets (λ n, get_endpoint (n_table n) peer_id));
  match session, ep with
  | Some r, Some ep =>
      ids ← atom (gets (λ n, get_queued_for_peer (n_queue n) peer_id));
      proc_for_each (λ msg_id, transmit_task msg_id r ep now) ids
  | _, _ => mret ()
  end.

(** [_resend_message(msg_id, peer_id)] *)
Definition resend_task (msg_id : pystr) (peer_id : bytes) (now : seconds) : proc () :=
  session ← atom (gets (λ n, get_by_peer_id (n_registry n) peer_id));
  ep ← atom (gets (λ n, get_endpoint (n_table n) peer_id));
  match session, ep with
  | Some r, Some ep => transmit_task msg_id r ep now
  | _, _ => mret ()
  end.

(** One turn of [_retry_loop]: the list of messages is made once, before the first await *)
Definition retry_one_task (now : seconds) (msg_id : pystr) : proc () :=
  out ← atom ((λ n, let '(q, st) := handle_timeout (n_queue n) msg_id in
                    (set_n_queue q n, Ok (dget q msg_id, st))) : M (option QueueEntry * MessageStatus));
  match out with
  | (Some entry, QueueManager.FAILED) => proc_log (write (DbUpdateStatus msg_id (str "failed") now))
  | (Some entry, QUEUED) => proc_log (resend_task msg_id (qe_receiver entry) now)
  | _ => mret ()
  end.

Definition retry_task (now : seconds) : proc () :=
  ids ← atom (gets (λ n, get_timed_out_messages (n_queue n) now));
  proc_for_each (retry_one_task now) ids.

(** [Session(...)] to [save_session_state] *)
Definition register_session (keys : SessionKeys) (now : seconds) : M (sref * Session) :=
  r ← gets (λ n, fresh (dom (n_heap n)));
  put_session r (new_session (sk_session_id keys) (sk_encryption_key keys) (sk_remote_peer_id keys) now) ;;
  apply_sequence_floors r ;;
  reg ← gets (λ n, register (n_heap n) (n_registry n) r);
  reg' ← lift reg;
  modify (set_n_registry reg') ;;
  s ← get_session r;
  mret (r, s).

Definition open_session_task (keys : SessionKeys) (now : seconds) : proc sref :=
  rs ← atom (register_session keys now);
  write (DbSaveSession (s_session_id rs.2) (s_remote_peer_id rs.2) (s_send_sequence rs.2)
           (s_recv_sequence rs.2) now) ;;
  mret rs.1.

(** The end of [start_heartbeat] *)
Definition launch_heartbeat (hb : HeartbeatManager) (peer_id : bytes) (task : nat) : HeartbeatManager :=
  mkHeartbeat (dset (hb_tasks hb) peer_id task) (<[task := mkLoop peer_id 0 SleepInterval]> (hb_loops hb))
    (hb_last_traffic hb) (hb_pending_pings hb) (hb_peer_info hb).

(** [register_peer], [start_heartbeat]: a running loop of the peer is cancelled and awaited *)
Definition begin_heartbeat_task (pid sid : bytes) (addr : endpoint) (task : nat) (now : seconds) : proc () :=
  running ← atom (gets (λ n, match dget (hb_tasks (n_heartbeat n)) pid with
                             | Some t => bool_decide (is_Some (hb_loops (n_heartbeat n) !! t))
                             | None => false
                             end));
  atom (modify (λ n, set_n_heartbeat
          (stop_heartbeat (register_peer (n_heartbeat n) pid sid addr now) pid) n)) ;;
  (if (running : bool) then pause else mret ()) ;;
  atom (modify (λ n, set_n_heartbeat (launch_heartbeat (n_heartbeat n) pid task) n)).

(** ** The handlers *)

(** [_handle_hello(packet, addr)] *)
Definition handle_hello_task (packet : Packet) (addr : endpoint) (now : seconds) (d : draws) : proc () :=
  hello ← atom (lift (hello_deserialize (pkt_payload packet)));
  remote_pub ← atom (lift (ed_from_public_bytes (hello_identity_public_key hello)));
  let remote_peer_id := derive_peer_id remote_pub in
  existing ← atom (gets (λ n, get_by_peer_id (n_registry n) remote_peer_id));
  if bool_decide (is_Some existing) then mret () else
  pending ← atom (gets (λ n, dmem (n_pending_hello n) remote_peer_id));
  me ← atom (gets n_identity);
  if pending && bytes_ltb (id_peer_id me) remote_peer_id then mret () else
  (if (pending : bool)
   then atom (modify (λ n, set_n_pending_hello (dpop (n_pending_hello n) remote_peer_id) n))
   else mret ()) ;;
  known ← atom (gets (λ n, get_direct_peer_ids (n_table n)));
  (if bool_decide (remote_peer_id ∈ known) then atom (table_set_endpoint remote_peer_id addr)
   else
     write (DbAddPeer remote_peer_id (hello_identity_public_key hello) None (Some addr) now) ;;
     saved ← query (λ db, db_get_peer db remote_peer_id);
     atom (modify (λ n, set_n_table
       (add_direct_peer (n_table n) remote_peer_id (hello_identity_public_key hello)
          (saved ≫= pr_nickname) (Some addr) now) n)) ;;
     atom notify_peers_changed) ;;
  write (DbRememberEndpoint remote_peer_id addr now) ;;
  known ← atom (gets (λ n, get_direct_peer_ids (n_table n)));
  result ← atom (lift (process_hello packet known me (d_ephemeral d) (d_nonce d) (d_session_id d)));
  match result with
  | None => mret ()
  | Some (ack_pkt, keys) =>
      atom (send_to ack_pkt addr) ;;
      r ← open_session_task keys now;
      atom (mark_peer_connected (sk_remote_peer_id keys) now) ;;
      atom (modify (λ n, set_n_reconnect (record_connect (n_reconnect n) (sk_remote_peer_id keys)) n)) ;;
      begin_heartbeat_task (sk_remote_peer_id keys) (sk_session_id keys) addr (d_task d) now ;;
      flush_task (sk_remote_peer_id keys) now ;;
      atom (notify_connection_event (str "Session established with " ++ short_id (sk_remote_peer_id keys) ++ str " (receiver)")) ;;
      atom (send_sync r addr)
  end.

(** [_handle_hello_ack(packet, addr)] *)
Definition handle_hello_ack_task (packet : Packet) (addr : endpoint) (now : seconds) (d : draws) : proc () :=
  ack_preview ← atom (lift (hello_ack_deserialize (pkt_payload packet)));
  remote_pub ← atom (lift (ed_from_public_bytes (hack_identity_public_key ack_preview)));
  let remote_peer_id := derive_peer_id remote_pub in
  state ← atom (gets (λ n, dget (n_pending_hello n) remote_peer_id));
  atom (modify (λ n, set_n_pending_hello (dpop (n_pending_hello n) remote_peer_id) n)) ;;
  match state with
  | None => mret ()
  | Some state =>
      existing ← atom (gets (λ n, get_by_peer_id (n_registry n) remote_peer_id));
      if bool_decide (is_Some existing) then mret () else
      known ← atom (gets (λ n, get_direct_peer_ids (n_table n)));
      result ← atom (lift (process_hello_ack packet state known));
      match result with
      | None => mret ()
      | Some keys =>
          r ← open_session_task keys now;
          atom (mark_peer_connected (sk_remote_peer_id keys) now) ;;
          atom (modify (λ n, set_n_reconnect (record_connect (n_reconnect n) (sk_remote_peer_id keys)) n)) ;;
          write (DbRememberEndpoint (sk_remote_peer_id keys) addr now) ;;
          atom (table_set_endpoint (sk_remote_peer_id keys) addr) ;;
          begin_heartbeat_task (sk_remote_peer_id keys) (sk_session_id keys) addr (d_task d) now ;;
          flush_task (sk_remote_peer_id keys) now ;;
          atom (modify (λ n, match dget (n_hello_retry_tasks n) (sk_remote_peer_id keys) with
                             | None => n
                             | Some task =>
                                 set_n_hello_retry_tasks (dpop (n_hello_retry_tasks n) (sk_remote_peer_id keys))
                                   (set_n_hello_loops (delete task (n_hello_loops n)) n)
                             end)) ;;
          atom (notify_connection_event (str "Session established with " ++ short_id (sk_remote_peer_id keys) ++ str " (initiator)")) ;;
          atom (send_sync r addr)
      end
  end.

(** [_handle_data(packet, addr)].  The arguments of [update_recv_sequence] are read with the decryption. *)
Definition handle_data_task (packet : Packet) (addr : endpoint) (now : seconds) : proc () :=
  dp ← atom (lift (data_deserialize (pkt_payload packet)));
  session ← atom (gets (λ n, get_by_session_id (n_registry n) (data_session_id dp)));
  match session with
  | None => mret ()
  | Some r =>
      opened ← atom (s ← get_session r; plaintext ← open_data dp r s; s ← get_session r; mret (plaintext, s));
      match opened with
      | (None, _) => mret ()
      | (Some plaintext, s) =>
          write (DbUpdateRecv (s_session_id s) (s_recv_sequence s)) ;;
          ack_pkt ← atom (lift (build_ack (data_session_id dp) (data_sequence_number dp)));
          atom (send_to ack_pkt addr) ;;
          atom (log_append (s_remote_peer_id s) (data_ciphertext dp ++ data_auth_tag dp)) ;;
          write (DbRememberEndpoint (s_remote_peer_id s) addr now) ;;
          atom (table_set_endpoint (s_remote_peer_id s) addr) ;;
          atom (emit (EvMessage (s_remote_peer_id s) plaintext)) ;;
          atom (modify (λ n, set_n_heartbeat (record_traffic (n_heartbeat n) (s_remote_peer_id s) now) n)) ;;
          app_ack_pkt ← atom (lift (make_packet APP_ACK
            (PAppAck (mkAppAck (data_session_id dp) (data_sequence_number dp)))));
          atom (send_to app_ack_pkt addr)
      end
  end.

(** [_handle_ack(packet, addr)] *)
Definition handle_ack_task (packet : Packet) (now : seconds) : proc () :=
  ack ← atom (lift (ack_deserialize (pkt_payload packet)));
  res ← atom (gets (λ n, handle_ack (n_queue n) ack));
  atom (modify (set_n_queue res.1)) ;;
  match truthy res.2 with
  | Some msg_id => write (DbUpdateStatus msg_id (str "delivered") now)
  | None => mret ()
  end.

(** [_handle_app_ack(packet, addr)] *)
Definition handle_app_ack_task (packet : Packet) (now : seconds) : proc () :=
  app_ack ← atom (lift (app_ack_deserialize (pkt_payload packet)));
  session ← atom (gets (λ n, get_by_session_id (n_registry n) (app_ack_session_id app_ack)));
  match session with
  | None => mret ()
  | Some r =>
      s ← atom (get_session r);
      res ← atom (gets (λ n, acknowledge_by_sequence (n_queue n) (s_remote_peer_id s)
                               (app_ack_sequence_number app_ack)));
      atom (modify (set_n_queue res.1)) ;;
      match truthy res.2 with
      | Some msg_id => write (DbUpdateStatus msg_id (str "acknowledged") now)
      | None => mret ()
      end
  end.

(** The handlers without a database call run in one go. *)
Definition dispatch_task (packet : Packet) (addr : endpoint) (now : seconds) (d : draws) : proc () :=
  match pkt_type packet with
  | HELLO => handle_hello_task packet addr now d
  | HELLO_ACK => handle_hello_ack_task packet addr now d
  | DATA => handle_data_task packet addr now
  | ACK => handle_ack_task packet now
  | PING => atom (handle_ping packet addr)
  | PONG => atom (node_handle_pong packet now)
  | RESOLVE_REQUEST => atom (node_handle_resolve_request packet addr now)
  | ENDPOINT_UPDATE => atom (node_handle_endpoint_update packet now)
  | SYNC => atom (handle_sync packet addr now)
  | APP_ACK => handle_app_ack_task packet now
  end.

(** [handle_packet(packet, addr)], the task that [datagram_received] creates *)
Definition handle_packet_task (packet : Packet) (addr : endpoint) (now : seconds) (d : draws) : proc () :=
  ok ← atom (rate_limit packet addr now);
  if (ok : bool) then proc_log (dispatch_task packet addr now d) else mret ().

(** ** Calls of the user interface *)

(** [connect_to_peer(peer_id, endpoint)] *)
Definition connect_task (peer_id : bytes) (ep : endpoint) (now : seconds) (d : draws) : proc () :=
  existing ← atom (gets (λ n, get_by_peer_id (n_registry n) peer_id));
  if bool_decide (is_Some existing) then mret () else
  pending ← atom (gets (λ n, dmem (n_pending_hello n) peer_id));
  if (pending : bool) then mret () else
  me ← atom (gets n_identity);
  hello ← atom (lift (create_hello me (d_ephemeral d) (d_nonce d)));
  let '(hello_pkt, st) := hello in
  atom (modify (λ n, set_n_pending_hello (dset (n_pending_hello n) peer_id
    (mkHandshakeState (hs_ephemeral_private_key_bytes st) (hs_ephemeral_public_key_bytes st)
       (hs_local_nonce st) (Some peer_id))) n)) ;;
  write (DbRememberEndpoint peer_id ep now) ;;
  atom (
    table_set_endpoint peer_id ep ;;
    try_except (set_peer_state peer_id CONNECTING now) ValueError (mret ()) ;;
    emit (EvPunch ep) ;;
    send_to hello_pkt ep ;;
    notify_connection_event (str "Sending HELLO to " ++ short_id peer_id ++ str " at " ++ format_endpoint ep ++ str "...") ;;
    modify (λ n,
      let loops := match dget (n_hello_retry_tasks n) peer_id with
                   | Some old => delete old (n_hello_loops n)
                   | None => n_hello_loops n
                   end in
      set_n_hello_retry_tasks (dset (dpop (n_hello_retry_tasks n) peer_id) peer_id (d_hello_task d))
        (set_n_hello_loops (<[d_hello_task d := mkHelloRetry peer_id hello_pkt ep 2]> loops) n))).

(** [send_message(peer_id, text)]; the session is looked up before the first await *)
Definition send_message_task (peer_id : bytes) (text : pystr) (now : seconds) (d : draws)
    : proc (pystr * option nat) :=
  session ← atom (gets (λ n, get_by_peer_id (n_registry n) peer_id));
  plaintext ← atom (lift (utf8_encode text));
  let msg_id := d_uuid d in
  atom (modify (λ n, set_n_queue (enqueue (n_queue n) msg_id peer_id plaintext now) n)) ;;
  atom (store_outbox msg_id plaintext (d_outbox_nonce d)) ;;
  write (DbEnqueue msg_id peer_id now []) ;;
  match session with
  | None =>
      ep ← atom (gets (λ n, get_endpoint (n_table n) peer_id));
      match ep with
      | Some ep => connect_task peer_id ep now d ;; mret (msg_id, None)
      | None =>
          out ← atom (start_resolution peer_id false d);
          match out with
          | (Some ep, _) => connect_task peer_id ep now d ;; mret (msg_id, None)
          | (None, fut) => mret (msg_id, fut)
          end
      end
  | Some r =>
      res ← atom (build_and_read msg_id r now);
      match res with
      | None => mret (msg_id, None)
      | Some (pkt, seq, sid, send_sequence) =>
          store_numbers msg_id seq sid send_sequence now ;;
          ep ← atom (gets (λ n, get_endpoint (n_table n) peer_id));
          (match ep with Some ep => atom (send_to pkt ep) | None => mret () end) ;;
          mret (msg_id, None)
      end
  end.

(** [add_contact_from_invite(invite_code)] *)
Definition add_contact_task (invite_code : pystr) (now : seconds) (d : draws) : proc ContactAddResult :=
  data ← atom (lift (parse_invite invite_code));
  let pub_raw := inv_public_key data in
  let ep := inv_endpoint data in
  pub ← atom (lift (ed_from_public_bytes pub_raw));
  let peer_id := derive_peer_id pub in
  me ← atom (gets n_identity);
  if peer_id =?b id_peer_id me then Done (Raise ValueError) else
  write (DbAddPeer peer_id pub_raw None ep now) ;;
  saved ← query (λ db, db_get_peer db peer_id);
  match saved with
  | None => Done (Raise RuntimeError)
  | Some saved =>
      entry ← atom (gets (λ n, get_entry (n_table n) peer_id));
      atom (modify (λ n, set_n_table
        (match entry with
         | None =>
             add_direct_peer (n_table n) peer_id pub_raw (pr_nickname saved)
               (coalesce ep (pr_last_known_endpoint saved ≫= parse_endpoint)) now
         | Some _ =>
             update_entry (n_table n) peer_id (λ e,
               mkPeerEntry (pe_peer_id e) pub_raw true (coalesce ep (pe_endpoint e)) (pe_last_seen e)
                 (pe_version_counter e) (coalesce (pr_nickname saved) (pe_nickname e))
                 (pe_endpoint_signature e))
         end) n)) ;;
      atom notify_peers_changed ;;
      match ep with
      | Some ep => connect_task peer_id ep now d ;; mret (mkContactAddResult peer_id (Some ep) true)
      | None => mret (mkContactAddResult peer_id None false)
      end
  end.

(** [rename_peer(peer_id, nickname)] *)
Definition rename_task (peer_id : bytes) (nickname : pystr) : proc () :=
  let nickname := str_strip nickname in
  if bool_decide (nickname = []) then Done (Raise ValueError) else
  write (DbUpdateNickname peer_id (Some nickname)) ;;
  atom (modify (λ n, set_n_table (update_entry (n_table n) peer_id (set_nickname (Some nickname))) n) ;;
        notify_peers_changed).

(** [set_peer_archived(peer_id, archived)] *)
Definition archive_task (peer_id : bytes) (archived : bool) (now : seconds) : proc () :=
  write (DbSetArchived peer_id archived) ;;
  atom (
    let target := if archived then ARCHIVED else DISCONNECTED in
    current ← gets (λ n, get_state (n_peer_states n) peer_id);
    if current =?b target then notify_peers_changed else
    try_except (set_peer_state peer_id target now) ValueError
      (if archived && negb (current =?b DISCONNECTED) then
         set_peer_state peer_id DISCONNECTED now ;; set_peer_state peer_id ARCHIVED now
       else if negb archived && (current =?b ARCHIVED) then set_peer_state peer_id DISCONNECTED now
       else mret ()) ;;
    notify_peers_changed).

(** [remove_peer(peer_id)] *)
Definition remove_task (peer_id : bytes) : proc () :=
  ids ← atom (gets (λ n, (filter (λ me : pystr * QueueEntry, qe_receiver me.2 = peer_id) (n_queue n)).*1));
  proc_for_each (λ i, atom (modify (λ n, set_n_outbox (delete_message (n_outbox n) i) n))) ids ;;
  write (DbRemovePeer peer_id) ;;
  atom (modify (λ n, set_n_table (table_remove_peer (n_table n) peer_id) n) ;;
        drop_session peer_id ;;
        notify_peers_changed).

(** [_reconnect_peer(peer_id)] up to the wait for a resolution *)
Definition reconnect_task (peer_id : bytes) (now : seconds) (d : draws) : proc (option nat) :=
  existing ← atom (gets (λ n, get_by_peer_id (n_registry n) peer_id));
  if bool_decide (is_Some existing) then
    atom (modify (λ n, set_n_reconnect (record_connect (n_reconnect n) peer_id) n)) ;; mret None
  else
  attempts ← atom (gets (λ n, get_attempt_count (n_reconnect n) peer_id));
  ep ← atom (gets (λ n, get_endpoint (n_table n) peer_id));
  match ep, attempts with
  | Some ep, 0 => connect_task peer_id ep now d ;; mret None
  | _, _ =>
      atom (try_except (set_peer_state peer_id RESOLVING now) ValueError (mret ())) ;;
      out ← atom (start_resolution peer_id (bool_decide (is_Some ep)) d);
      mret out.2
  end.

(** The end of [stop()]: the counters of all sessions are saved *)
Definition stop_task (now : seconds) : proc () :=
  atom (modify (λ n, set_n_heartbeat (stop_all (n_heartbeat n)) n)) ;;
  refs ← atom (gets (λ n, all_sessions (n_registry n)));
  proc_for_each (λ r,
    s ← atom (get_session r);
    write (DbSaveSession (s_session_id s) (s_remote_peer_id s) (s_send_sequence s)
             (s_recv_sequence s) now)) refs.
End tasks.
