(* ===== verification/TaskProps.v ===== *)
(** * Tasks one at a time and interleaved (node.py)

    A task that runs alone does what the method of [Node] does.  Tasks that run at the same time interleave at
    their suspension points: [sys_step] starts a task, executes the oldest database request, or resumes a
    task whose request was executed.  The order in which a packet's number is stored and the packet sent
    survives every interleaving; other things that the code checks before an await do not. *)

From S2P Require Import Prelude Bytes PyDict PyText IpAddr Packet Crypto Session Handshake QueueManager.
From S2P Require Import PeerState RateLimiter Overlay Resolution Reconnect Heartbeat Storage LogFiles.
From S2P Require Import NodeState Node NodeProps NodeExchange Tasks.

(** ** Running alone *)

Lemma run_bind {A B} (p : proc A) (k : A → proc B) n : run (p ≫= k) n = (run p ≫= λ a, run (k a)) n.
Proof.
  revert n. induction p as [[a|e]|B' c h IH|B' q h IH|p IH]; intros n; [done|done| | |].
  - rewrite bind_eq. cbn. destruct (c n) as [n' r]. rewrite <- bind_eq. apply IH.
  - rewrite bind_eq. cbn. destruct (dbq_run q n) as [n' r]. rewrite <- bind_eq. apply IH.
  - apply IH.
Qed.

Lemma run_atom {A} (c : M A) n : run (atom c) n = c n.
Proof. cbn. by destruct (c n). Qed.

Lemma run_write op n : run (write op) n = storage op n.
Proof. unfold write. cbn. by destruct (storage op n). Qed.

Lemma run_query {A} (f : database → A) n : run (query f) n = gets (λ n, f (n_db n)) n.
Proof. done. Qed.

Lemma run_log p n : run (proc_log p) n = try_log (run p) n.
Proof.
  unfold try_log. revert n. induction p as [r|B c h IH|B q h IH|p IH]; intros n; cbn; [done| | |done].
  - destruct (c n) as [n' r]. apply IH.
  - destruct (dbq_run q n) as [n' r]. apply IH.
Qed.

Lemma bind_assoc_at {A B D} (c : M A) (k : A → M B) (h : B → M D) n :
  ((c ≫= k) ≫= h) n = (c ≫= λ a, k a ≫= h) n.
Proof. rewrite !bind_eq. by destruct (c n) as [n' [a|e]]. Qed.

Lemma bind_ext_at {A B} (c : M A) (k k' : A → M B) n : (∀ a n, k a n = k' a n) → (c ≫= k) n = (c ≫= k') n.
Proof. intros H. rewrite !bind_eq. by destruct (c n) as [n' [a|e]]. Qed.

(** Each part of a task against the part of the method. *)
Lemma run_bind_eq {A B} (p : proc A) (c : M A) (k : A → proc B) (k' : A → M B) n :
  (∀ n, run p n = c n) → (∀ a n, run (k a) n = k' a n) → run (p ≫= k) n = (c ≫= k') n.
Proof.
  intros Hp Hk. rewrite run_bind, !bind_eq, Hp. by destruct (c n) as [n' [a|e]].
Qed.

Lemma run_for_each {A} (body : A → proc ()) (body' : A → M ()) l n :
  (∀ x n, run (body x) n = body' x n) → run (proc_for_each body l) n = for_each body' l n.
Proof.
  intros Hb. revert n. induction l as [|x l IH]; intros n; [done|]. cbn. apply run_bind_eq; [apply Hb|].
  intros _ n'. apply IH.
Qed.

Create HintDb task_seq.
#[export] Hint Resolve run_atom run_write run_query : task_seq.

Ltac seq_step :=
  match goal with
  | |- run (mbind _ _) _ = mbind _ _ _ => apply run_bind_eq; [intros ?|intros ? ?]
  | |- run (proc_for_each _ _) _ = for_each _ _ _ => apply run_for_each; intros ? ?
  | |- run (proc_log _) _ = try_log _ _ => rewrite run_log; unfold try_log
  | |- run (mret _) _ = mret _ _ => reflexivity
  | |- _ => solve [auto with task_seq]
  | |- run (if ?b then _ else _) _ = _ => destruct b
  | |- run (match ?x with _ => _ end) _ = _ => destruct x
  end.

Section sequential.
Context `{C : CryptoLib}.

(** Building a packet and storing the counters. *)
Lemma run_numbers {A} msg r now (kp : Packet → proc A) (km : Packet → M A) (none : A) n :
  (∀ pkt n, run (kp pkt) n = km pkt n) →
  run (res ← atom (build_and_read msg r now);
       match res with
       | None => mret none
       | Some (pkt, seq, sid, v) => store_numbers msg seq sid v now ;; kp pkt
       end) n =
  (res ← node_build_data_packet msg r now;
   match res with
   | None => mret none
   | Some (pkt, seq) =>
       s ← get_session r;
       storage (DbUpdateSend (s_session_id s) (s_send_sequence s)) ;;
       storage (DbUpdateSequence msg seq now) ;;
       storage (DbUpdateStatus msg (str "pending") now) ;; km pkt
   end) n.
Proof using Type.
  intros Hk. rewrite run_bind, bind_eq, run_atom. unfold build_and_read. rewrite !bind_eq.
  destruct (node_build_data_packet msg r now n) as [n1 [[[pkt seq]|]|e]]; [|done..].
  rewrite !bind_eq. unfold get_session. destruct (n_heap n1 !! r) as [s|]; [|done]. cbn [mret M_ret].
  unfold store_numbers. rewrite run_bind.
  set (sid := s_session_id s). set (v := s_send_sequence s). clearbody sid v.
  assert (∀ m, ((run (write (DbUpdateSend sid v) ;; write (DbUpdateSequence msg seq now) ;;
                   write (DbUpdateStatus msg (str "pending") now)) ≫= λ _, run (kp pkt)) m)
    = (storage (DbUpdateSend sid v) ;; storage (DbUpdateSequence msg seq now) ;;
       storage (DbUpdateStatus msg (str "pending") now) ;; km pkt) m) as Hw; [|apply Hw].
  intros m. rewrite bind_eq, run_bind, !bind_eq, run_write.
  destruct (storage _ m) as [m1 [[]|e]]; [|done]. rewrite run_bind, !bind_eq, run_write.
  destruct (storage _ m1) as [m2 [[]|e]]; [|done]. rewrite !bind_eq, run_write.
  destruct (storage _ m2) as [m3 [[]|e]]; [|done]. apply Hk.
Qed.

Lemma run_transmit msg r ep now n : run (transmit_task msg r ep now) n = transmit msg r ep now n.
Proof using Type. apply (run_numbers _ _ _ (λ pkt, atom (send_to pkt ep))). intros pkt m. apply run_atom. Qed.
Hint Resolve run_transmit : task_seq.

Lemma run_flush p now n : run (flush_task p now) n = flush_queued_for_peer p now n.
Proof using Type. unfold flush_task, flush_queued_for_peer. repeat seq_step. Qed.

Lemma run_resend i p now n : run (resend_task i p now) n = resend_message i p now n.
Proof using Type. unfold resend_task, resend_message. repeat seq_step. Qed.

Lemma run_retry_one now i n :
  run (retry_one_task now i) n =
    (retry_one n_queue set_n_queue (λ i p, resend_message i p now) (λ i p, on_message_failed i p now) n i, Ok ()).
Proof using Type.
  unfold retry_one_task, retry_one. rewrite run_bind, bind_eq, run_atom.
  destruct (handle_timeout (n_queue n) i) as [q st]. destruct (dget q i) as [e|]; [|done].
  destruct st; try done. rewrite run_log. unfold try_log. by rewrite run_resend.
Qed.

Lemma run_retry now n : run (retry_task now) n = (node_retry_pass now n, Ok ()).
Proof using Type.
  unfold retry_task. rewrite run_bind, bind_eq, run_atom. cbn. unfold node_retry_pass, retry_pass.
  generalize (get_timed_out_messages (n_queue n) now). intros ids. revert n.
  induction ids as [|i ids IH]; intros n; [done|].
  cbn [proc_for_each foldl]. rewrite run_bind, bind_eq, run_retry_one. apply IH.
Qed.

Lemma run_open_session keys now n : run (open_session_task keys now) n = open_session keys now n.
Proof using Type.
  trans ((register_session keys now ≫= λ rs,
    storage (DbSaveSession (s_session_id rs.2) (s_remote_peer_id rs.2) (s_send_sequence rs.2)
               (s_recv_sequence rs.2) now) ;; mret rs.1) n).
  - apply run_bind_eq; [intros m; apply run_atom|]. intros rs m. repeat seq_step.
  - unfold register_session, open_session.
    repeat (rewrite bind_assoc_at; apply bind_ext_at; intros ? ?). reflexivity.
Qed.

Lemma start_launch hb p t : start_heartbeat hb p t = launch_heartbeat (stop_heartbeat hb p) p t.
Proof using Type. done. Qed.

Lemma run_begin_heartbeat p sid addr task now n :
  run (begin_heartbeat_task p sid addr task now) n = begin_heartbeat p sid addr task now n.
Proof using Type.
  unfold begin_heartbeat_task, begin_heartbeat. rewrite run_bind, bind_eq, run_atom. cbn. by case_match.
Qed.
Hint Resolve run_flush run_resend run_open_session run_begin_heartbeat : task_seq.

Lemma run_handle_hello packet addr now d n :
  run (handle_hello_task packet addr now d) n = handle_hello packet addr now d n.
Proof using Type. unfold handle_hello_task, handle_hello. repeat seq_step. Qed.

Lemma run_handle_hello_ack packet addr now d n :
  run (handle_hello_ack_task packet addr now d) n = handle_hello_ack packet addr now d n.
Proof using Type. unfold handle_hello_ack_task, handle_hello_ack. repeat seq_step. Qed.

Lemma run_handle_data packet addr now n :
  run (handle_data_task packet addr now) n = handle_data packet addr now n.
Proof using Type.
  unfold handle_data_task, handle_data. do 2 seq_step; [seq_step..|]. destruct a0 as [r|]; [|seq_step].
  rewrite run_bind, bind_eq, run_atom. rewrite !bind_eq. unfold get_session at 1 3.
  destruct (n_heap _ !! r) as [s|] eqn:Hs; [|done]. rewrite !bind_eq. unfold open_data.
  destruct (decrypt_data_packet a s) as [s' [[pt|]|e]]; [|by rewrite bind_eq; unfold get_session; cbn; rewrite lookup_insert_eq|done].
  rewrite !bind_eq, !get_session_ok with (s := s') by (cbn; apply lookup_insert_eq). cbn [mret M_ret].
  repeat seq_step.
Qed.

Lemma run_handle_ack packet now n : run (handle_ack_task packet now) n = node_handle_ack packet now n.
Proof using Type. unfold handle_ack_task, node_handle_ack. repeat seq_step. Qed.

Lemma run_handle_app_ack packet now n : run (handle_app_ack_task packet now) n = handle_app_ack packet now n.
Proof using Type. unfold handle_app_ack_task, handle_app_ack. repeat seq_step. Qed.

Lemma run_connect p ep now d n : run (connect_task p ep now d) n = connect_to_peer p ep now d n.
Proof using Type. unfold connect_task, connect_to_peer. repeat seq_step. Qed.

Lemma run_send_message p text now d n : run (send_message_task p text now d) n = send_message p text now d n.
Proof using Type.
  unfold send_message_task, send_message. do 5 (seq_step; [seq_step|]). destruct a as [r|].
  - apply (run_numbers _ _ _ (λ pkt, ep ← atom (gets (λ n, get_endpoint (n_table n) p));
      (match ep with Some ep => atom (send_to pkt ep) | None => mret () end) ;; mret (d_uuid d, None))).
    intros pkt m. repeat seq_step.
  - repeat first [seq_step|apply run_connect].
Qed.
Hint Resolve run_handle_hello run_handle_hello_ack run_handle_data run_handle_ack run_handle_app_ack : task_seq.

Lemma run_add_contact code now d n : run (add_contact_task code now d) n = add_contact_from_invite code now d n.
Proof using Type.
  unfold add_contact_task, add_contact_from_invite. repeat first [seq_step|apply run_connect|reflexivity].
Qed.

Lemma run_rename p nick n : run (rename_task p nick) n = rename_peer p nick n.
Proof using Type. unfold rename_task, rename_peer. repeat first [seq_step|reflexivity]. Qed.

Lemma run_archive p b now n : run (archive_task p b now) n = set_peer_archived p b now n.
Proof using Type. unfold archive_task, set_peer_archived. repeat seq_step. Qed.

Lemma run_remove p n : run (remove_task p) n = node_remove_peer p n.
Proof using Type. unfold remove_task, node_remove_peer. repeat seq_step. Qed.

Lemma run_reconnect p now d n : run (reconnect_task p now d) n = reconnect_peer p now d n.
Proof using Type. unfold reconnect_task, reconnect_peer. repeat first [seq_step|apply run_connect]. Qed.

Lemma run_stop now n : run (stop_task now) n = node_stop now n.
Proof using Type. unfold stop_task, node_stop, flush_sessions. repeat seq_step. Qed.

(** A task alone is the method.  Cutting the code at its suspension points changes nothing when no other
    task runs in between: the task of a datagram does to every node what [handle_packet] does, with the same
    events in the same order and the same exceptions, and so do the tasks of every other method that waits
    for the database.  So what is proved about the methods holds for a node that gets one thing at a time. *)
Theorem tasks_refine_methods (n : node) (now : seconds) (d : draws) (p : bytes) (ep : endpoint) (text : pystr)
    (flag : bool) :
  (∀ packet addr, run (handle_packet_task packet addr now d) n = handle_packet packet addr now d n) ∧
  run (send_message_task p text now d) n = send_message p text now d n ∧
  run (connect_task p ep now d) n = connect_to_peer p ep now d n ∧
  run (retry_task now) n = (node_retry_pass now n, Ok ()) ∧
  run (add_contact_task text now d) n = add_contact_from_invite text now d n ∧
  run (rename_task p text) n = rename_peer p text n ∧
  run (archive_task p flag now) n = set_peer_archived p flag now n ∧
  run (remove_task p) n = node_remove_peer p n ∧
  run (reconnect_task p now d) n = reconnect_peer p now d n ∧
  run (stop_task now) n = node_stop now n.
Proof using Type.
  split_and!; [|apply run_send_message|apply run_connect|apply run_retry|apply run_add_contact|apply run_rename
    |apply run_archive|apply run_remove|apply run_reconnect|apply run_stop].
  intros packet addr. unfold handle_packet_task, handle_packet, dispatch_task, dispatch.
  repeat seq_step; f_equal; f_equal; repeat seq_step.
Qed.
End sequential.
