(* ===== verification/NodePeers.v ===== *)
(** * What a node knows of its peers (node.py)

    Endpoint updates from the signer to the peer table, who gets into the peer table through a HELLO,
    how requests for a peer are passed on, and what survives a restart. *)

From S2P Require Import Prelude Bytes PyDict PyText IpAddr Packet Crypto Session Handshake QueueManager.
From S2P Require Import PeerState RateLimiter Overlay Resolution Reconnect Heartbeat Storage LogFiles.
From S2P Require Import NodeState Node NodeProps NodeExchange.

(** ** Endpoints as text *)

(** An endpoint survives the database.  [_parse_endpoint] reads back what [_format_endpoint] wrote,
    for every host text (IPv6 addresses and their colons included) and every port. *)
Theorem endpoint_text_roundtrip (host : pystr) (port : Z) :
  (0 ≤ port)%Z → parse_endpoint (format_endpoint (host, port)) = Some (host, port).
Proof.
  intros Hp. unfold parse_endpoint, format_endpoint. cbn [fst snd].
  change (str ":") with [58%Z]. cbn [app]. rewrite str_rsplit1_app.
  - by rewrite py_int_str_of_Z.
  - unfold str_of_Z. destruct (Z.ltb_spec port 0) as [?|_]; [lia|]. intros Hin%dec_chars; lia.
Qed.

(** ** Endpoint updates *)

Lemma ip_str_utf8 a : ∃ bs, utf8_encode (ip_str a) = Ok bs.
Proof.
  eexists. apply utf8_encode_ascii. intros c Hc.
  destruct a as [p|p]; [apply ipv4_str_chars in Hc|apply ipv6_str_chars in Hc]; lia.
Qed.

Lemma endpoint_update_length u bs :
  payload_wf (PEndpointUpdate u) → endpoint_update_serialize u = Ok bs → length bs ≤ 123.
Proof.
  intros (Hid & (a & Ha & Hip) & _ & _ & Hsig). unfold endpoint_update_serialize.
  rewrite Hip, ip_address_ip_str by done. intros H. invert_ok.
  apply length_struct_pack in H0, H1, H2. subst bs. rewrite !length_app, Hid, Hsig.
  destruct a; cbn in Ha |- *; lia.
Qed.

Section updates.
Context `{C : CryptoLib} `{!CryptoLaws C}.

Lemma endpoint_sig_data_ok a port v :
  (0 ≤ port < 2 ^ 16)%Z → (0 ≤ v < 2 ^ 64)%Z → ∃ data, endpoint_sig_data (ip_str a) port v = Ok data.
Proof using Type.
  intros Hp Hv. unfold endpoint_sig_data. destruct (ip_str_utf8 a) as [bs ->]. cbn.
  rewrite !struct_pack_fits by done. cbn. eauto.
Qed.

(** A node's signed endpoint is accepted by those who know its key.  The packet that
    [_build_endpoint_update] makes for an address in the form the system reports it carries the node's
    next version, travels as a datagram, and at any node whose peer table holds the sender's public key
    [_verify_endpoint_signature] accepts it. *)
Theorem endpoint_update_verifies (a b : node) (ip : ip) (port : Z) (e : PeerEntry) :
  identity_wf (n_identity a) → ip_wf ip → (0 ≤ port < 2 ^ 16)%Z →
  (0 ≤ n_local_endpoint_version a < 2 ^ 64 - 1)%Z →
  get_entry (n_table b) (id_peer_id (n_identity a)) = Some e →
  pe_public_key e = id_public_key (n_identity a) →
  ∃ a' pkt wire u,
    build_endpoint_update (ip_str ip, port) None a = (a', Ok pkt) ∧
    n_local_endpoint_version a' = (n_local_endpoint_version a + 1)%Z ∧
    n_scheduled a' = n_scheduled a ++ [DbSetLocalVersion (n_local_endpoint_version a + 1)] ∧
    packet_serialize pkt = Ok wire ∧ packet_deserialize wire = Ok pkt ∧
    endpoint_update_deserialize (pkt_payload pkt) = Ok u ∧
    eu_peer_id u = id_peer_id (n_identity a) ∧ eu_endpoint_ip u = ip_str ip ∧
    eu_endpoint_port u = port ∧ eu_version_counter u = (n_local_endpoint_version a + 1)%Z ∧
    verify_endpoint_signature b u = true.
Proof using CryptoLaws0.
  intros [Hpub Hid] Hip Hport Hv He Hk. set (me := n_identity a) in *.
  set (v := (n_local_endpoint_version a + 1)%Z).
  assert (0 ≤ v < 2 ^ 64)%Z as Hv' by (unfold v; lia).
  destruct (endpoint_sig_data_ok ip port v Hport Hv') as [data Hdata].
  set (u := mkEndpointUpdate (id_peer_id me) (ip_str ip) port v (identity_sign me data)).
  assert (payload_wf (PEndpointUpdate u)) as Hwf.
  { cbn. split_and!; [|by exists ip|lia..|].
    - rewrite Hid. unfold derive_peer_id. apply sha256_length.
    - apply ed_sign_length. }
  destruct (payload_serialize_ok _ Hwf) as [bs Hbs]. cbn in Hbs.
  assert (Z.of_nat (length bs) ≤ MAX_PAYLOAD_SIZE)%Z as Hlen.
  { pose proof (endpoint_update_length _ _ Hwf Hbs). unfold MAX_PAYLOAD_SIZE. lia. }
  destruct (on_wire_ok (mkPacket PROTOCOL_VERSION ENDPOINT_UPDATE bs) eq_refl Hlen) as (wire & Hw & Hw').
  unfold build_endpoint_update. rewrite gets_bind. fold me. cbv zeta.
  rewrite bool_decide_true by done. rewrite bind_eq, gets_bind, modify_bind. fold v.
  eexists _, (mkPacket PROTOCOL_VERSION ENDPOINT_UPDATE bs), wire, u.
  split.
  { unfold schedule. rewrite modify_bind. cbv beta iota. unfold mret at 1, M_ret at 1. cbv beta iota. cbn [fst snd]. rewrite Hdata, lift_bind_ok.
    unfold make_packet. cbn [payload_serialize]. fold u. rewrite Hbs. reflexivity. }
  split_and!; try done.
  - cbn. rewrite <- (app_nil_r bs). by apply endpoint_update_roundtrip.
  - unfold verify_endpoint_signature. change (eu_peer_id u) with (id_peer_id me).
    rewrite He, Hk, Hpub, ed_from_public_bytes_ok by apply ed_public_length.
    change (endpoint_sig_data _ _ _) with (endpoint_sig_data (ip_str ip) port v).
    rewrite Hdata. apply ed_verify_sign.
Qed.

(** C34: only a signed and newer endpoint changes the peer table.  An ENDPOINT_UPDATE that does not verify
    under the stored key of the peer it names leaves the whole node unchanged.  One that does verify sets
    the peer's endpoint, version and signature if its version is above the stored one and nothing
    otherwise; no other entry changes, and the database update is scheduled.  So no update, forged,
    replayed or reordered, takes a version back. *)
Theorem endpoint_update_applied (n : node) (packet : Packet) (now : seconds) (u : EndpointUpdatePayload) :
  endpoint_update_deserialize (pkt_payload packet) = Ok u →
  let ep := (eu_endpoint_ip u, eu_endpoint_port u) in
  ∃ n', node_handle_endpoint_update packet now n = (n', Ok ()) ∧
    (verify_endpoint_signature n u = false → n' = n) ∧
    (verify_endpoint_signature n u = true → ∃ e,
       get_entry (n_table n) (eu_peer_id u) = Some e ∧
       get_entry (n_table n') (eu_peer_id u) =
         Some (if (pe_version_counter e <? eu_version_counter u)%Z
               then set_version (eu_version_counter u) (Some (eu_signature u)) (set_endpoint (Some ep) e)
               else e) ∧
       (∀ q, q ≠ eu_peer_id u → get_entry (n_table n') q = get_entry (n_table n) q) ∧
       n_scheduled n' = n_scheduled n ++ [DbUpdateEndpoint (eu_peer_id u) (format_endpoint ep)
                                            (eu_version_counter u) (Some (eu_signature u)) now]) ∧
    (∀ q e, get_entry (n_table n) q = Some e → ∃ e', get_entry (n_table n') q = Some e' ∧
       (pe_version_counter e ≤ pe_version_counter e')%Z ∧ pe_public_key e' = pe_public_key e).
Proof using Type.
  intros Hu ep. unfold node_handle_endpoint_update. rewrite Hu, lift_bind_ok.
  eexists. split; [reflexivity|]. unfold handle_endpoint_update.
  destruct (verify_endpoint_signature n u) eqn:Hv; cbn [negb].
  - assert (is_Some (get_entry (n_table n) (eu_peer_id u))) as [e He].
    { unfold verify_endpoint_signature in Hv. destruct (get_entry _ _); [eauto|done]. }
    unfold get_entry, apply_endpoint_update in *. cbn.
    split_and!; [done| |].
    + intros _. exists e. split_and!; [done|rewrite dget_dupd, decide_True by done; by rewrite He| |done].
      intros q Hq. rewrite dget_dupd. by rewrite decide_False.
    + intros q eq Hq. rewrite dget_dupd. case_decide; [|exists eq; by split_and!]. subst. rewrite Hq. cbn.
      eexists. split; [done|].
      destruct (Z.ltb_spec (pe_version_counter eq) (eu_version_counter u)); cbn; split; lia || done.
  - split_and!; [intros _; by destruct n|done|]. intros q e Hq. exists e. by split_and!.
Qed.
End updates.

(** ** Unknown peers *)

Section unknown.
Context `{C : CryptoLib} `{!CryptoLaws C}.

Lemma process_hello_bad_signature packet hello known me eph nonce sid :
  hello_deserialize (pkt_payload packet) = Ok hello →
  verify_signature (hello_identity_public_key hello)
    (hello_signed_data (hello_ephemeral_public_key hello) (hello_random_nonce hello))
    (hello_signature hello) = false →
  process_hello packet known me eph nonce sid = Ok None.
Proof using CryptoLaws0.
  intros Hh Hs. destruct (hello_deserialize_lengths _ _ Hh) as (Hl & _).
  unfold process_hello. rewrite Hh. cbn. rewrite ed_from_public_bytes_ok by done. cbn.
  destruct (negb _); [done|]. by rewrite Hs.
Qed.

(** C40: a HELLO adds its sender to the contacts before its signature is checked.  If a HELLO names a key
    that is not a direct peer's and its signature does not verify, no session is opened and nothing is
    sent, but the peer is now a direct peer with the datagram's source as its endpoint, in the peer
    table and in the database.  Anyone can so fill both, and from then on a properly signed HELLO of
    that key is answered. *)
Theorem unverified_hello_adds_peer (n : node) (packet : Packet) (addr : endpoint) (now : seconds)
    (d : draws) (hello : HelloPayload) :
  let p := derive_peer_id (hello_identity_public_key hello) in
  table_wf (n_table n) → p ≠ pt_local_id (n_table n) →
  hello_deserialize (pkt_payload packet) = Ok hello →
  verify_signature (hello_identity_public_key hello)
    (hello_signed_data (hello_ephemeral_public_key hello) (hello_random_nonce hello))
    (hello_signature hello) = false →
  get_by_peer_id (n_registry n) p = None → dmem (n_pending_hello n) p = false →
  p ∉ get_direct_peer_ids (n_table n) →
  ∃ n', handle_hello packet addr now d n = (n', Ok ()) ∧
    p ∈ get_direct_peer_ids (n_table n') ∧ get_endpoint (n_table n') p = Some addr ∧
    (pr_last_known_endpoint <$> db_get_peer (n_db n') p) = Some (Some (format_endpoint addr)) ∧
    n_registry n' = n_registry n ∧
    n_trace n' = n_trace n ++ [EvDb (DbAddPeer p (hello_identity_public_key hello) None (Some addr) now);
                               EvPeersChanged; EvDb (DbRememberEndpoint p addr now)].
Proof using CryptoLaws0.
  intros p Hwf Hself Hh Hsig Hreg Hpend Hknown.
  destruct (hello_deserialize_lengths _ _ Hh) as (Hl & _).
  unfold handle_hello. rewrite Hh, lift_bind_ok, ed_from_public_bytes_ok, lift_bind_ok by done. fold p.
  cbv zeta. rewrite gets_bind, Hreg. rewrite bool_decide_false by (by intros [? ?]).
  rewrite gets_bind, Hpend, gets_bind. cbn [andb]. rewrite (bind_ok (mret ()) _ n n ()) by done.
  rewrite gets_bind, bool_decide_false by done.
  rewrite (bind_ok _ _ n _ ()) by (erewrite bind_ok by (by apply storage_ok);
    rewrite gets_bind, modify_bind; reflexivity).
  erewrite bind_ok by (by apply storage_ok). rewrite gets_bind, process_hello_bad_signature with (hello := hello)
    by done. rewrite lift_bind_ok.
  eexists. split; [reflexivity|].
  assert (∀ nick, get_entry (add_direct_peer (n_table n) p (hello_identity_public_key hello) nick (Some addr) now) p
    = Some (mkPeerEntry p (hello_identity_public_key hello) true (Some addr) now 0 nick None)) as Hentry.
  { intros nick. unfold add_direct_peer, get_entry. rewrite bool_decide_false by done. apply dget_dset_eq. }
  split_and!; [| | |done|cbn; by rewrite <- !app_assoc].
  - apply elem_of_direct_ids; [by apply add_direct_peer_wf|]. eexists. by split; [apply Hentry|].
  - unfold get_endpoint. change (dget (pt_peers (n_table ?m)) p) with (get_entry (n_table m) p).
    cbn -[get_entry]. by rewrite Hentry.
  - unfold db_get_peer. cbn. rewrite dget_dupd, decide_True by done.
    rewrite dget_dset_eq. by destruct (dget (db_peers (n_db n)) p).
Qed.
Lemma process_hello_ack_bad_signature packet ack st known :
  hello_ack_deserialize (pkt_payload packet) = Ok ack →
  verify_signature (hack_identity_public_key ack)
    (ack_signed_data (hack_session_id ack) (hack_ephemeral_public_key ack)
       (hs_ephemeral_public_key_bytes st) (hs_local_nonce st)) (hack_signature ack) = false →
  process_hello_ack packet st known = Ok None.
Proof using CryptoLaws0.
  intros Hh Hs. destruct (hello_ack_deserialize_lengths _ _ Hh) as (Hl & _).
  unfold process_hello_ack. rewrite Hh. cbn. rewrite ed_from_public_bytes_ok by done. cbn.
  destruct (negb _); [done|]. by rewrite Hs.
Qed.

(** A HELLO_ACK when no HELLO is pending for its sender. *)
Lemma hello_ack_without_pending n packet addr now d ack :
  hello_ack_deserialize (pkt_payload packet) = Ok ack →
  dget (n_pending_hello n) (derive_peer_id (hack_identity_public_key ack)) = None →
  handle_hello_ack packet addr now d n = (n, Ok ()).
Proof using CryptoLaws0.
  intros Hh Hp. destruct (hello_ack_deserialize_lengths _ _ Hh) as (Hl & _).
  unfold handle_hello_ack. rewrite Hh, lift_bind_ok, ed_from_public_bytes_ok, lift_bind_ok by done.
  cbv zeta. rewrite gets_bind, Hp, modify_bind. rewrite dpop_absent by (by apply dget_None).
  by destruct n.
Qed.

(** A forged HELLO_ACK ends a connection attempt.  The pending HELLO of the named peer is taken out
    before the signature is checked: after a HELLO_ACK that carries the peer's public key and any
    signature that does not verify, no session exists, nothing is pending any more, and the peer's
    genuine HELLO_ACK, whenever it comes, is ignored. *)
Theorem forged_hello_ack_ends_attempt (n : node) (forged : Packet) (addr : endpoint) (now : seconds)
    (d : draws) (ack : HelloAckPayload) (st : HandshakeState) :
  let p := derive_peer_id (hack_identity_public_key ack) in
  hello_ack_deserialize (pkt_payload forged) = Ok ack →
  dget (n_pending_hello n) p = Some st → get_by_peer_id (n_registry n) p = None →
  verify_signature (hack_identity_public_key ack)
    (ack_signed_data (hack_session_id ack) (hack_ephemeral_public_key ack)
       (hs_ephemeral_public_key_bytes st) (hs_local_nonce st)) (hack_signature ack) = false →
  ∃ n', handle_hello_ack forged addr now d n = (n', Ok ()) ∧
    n_registry n' = n_registry n ∧ dget (n_pending_hello n') p = None ∧
    ∀ genuine addr' now' d' ack',
      hello_ack_deserialize (pkt_payload genuine) = Ok ack' →
      hack_identity_public_key ack' = hack_identity_public_key ack →
      handle_hello_ack genuine addr' now' d' n' = (n', Ok ()).
Proof using CryptoLaws0.
  intros p Hh Hpend Hreg Hsig. destruct (hello_ack_deserialize_lengths _ _ Hh) as (Hl & _).
  exists (set_n_pending_hello (dpop (n_pending_hello n) p) n). split_and!; [|done|apply dget_dpop_eq|].
  - unfold handle_hello_ack. rewrite Hh, lift_bind_ok, ed_from_public_bytes_ok, lift_bind_ok by done.
    fold p. cbv zeta. rewrite gets_bind, Hpend, modify_bind, gets_bind. cbn [n_registry set_n_pending_hello].
    rewrite Hreg, bool_decide_false by (by intros [? ?]). rewrite gets_bind.
    by rewrite (process_hello_ack_bad_signature _ ack).
  - intros genuine addr' now' d' ack' Hg Hk. apply (hello_ack_without_pending _ _ _ _ _ ack'); [done|].
    rewrite Hk. apply dget_dpop_eq.
Qed.
End unknown.

(** ** Requests for a known peer *)

Lemma resolve_deserialize_wf data req :
  resolve_deserialize data = Ok req → payload_wf (PResolve req).
Proof.
  unfold resolve_deserialize. destruct (Nat.ltb_spec (length data) (16 + 32 + 1)) as [|Hl]; [done|].
  destruct (data !! 48) as [b|]; [|done]. intros <-%Ok_inj.
  cbn [payload_wf rr_request_id rr_target_peer_id rr_ttl].
  pose proof (byte_val_range b). unfold MAX_TTL. rewrite !length_slice by lia. lia.
Qed.

Section fallback.
Context `{C : CryptoLib}.

(** A request for a peer whose endpoint is known but not signed is passed on as it came.  The node
    sends the same request, its TTL not reduced (even a TTL of 0) and its id not remembered, to the
    peer's endpoint; so the limits that the resolver keeps on forwarding do not hold on this path, and
    the same request is passed on again each time it comes. *)
Theorem resolve_fallback_keeps_ttl (n : node) (packet : Packet) (addr ep : endpoint) (now : seconds)
    (req : ResolveRequestPayload) (e : PeerEntry) :
  resolve_deserialize (pkt_payload packet) = Ok req →
  (check_resolve_forward (n_global_limiter n) now).2 = true →
  rr_target_peer_id req ≠ id_peer_id (n_identity n) →
  get_entry (n_table n) (rr_target_peer_id req) = Some e → pe_endpoint e = Some ep →
  pe_endpoint_signature e = None →
  ∃ n' fwd, node_handle_resolve_request packet addr now n = (n', Ok ()) ∧
    n_trace n' = n_trace n ++ [EvSend fwd ep] ∧ pkt_type fwd = RESOLVE_REQUEST ∧
    resolve_deserialize (pkt_payload fwd) = Ok req ∧ n_resolver n' = n_resolver n.
Proof using Type.
  intros Hr Hlim Hself He Hep Hsig.
  assert (payload_wf (PResolve req)) as Hwf by (by eapply resolve_deserialize_wf).
  destruct (payload_serialize_ok _ Hwf) as [bs Hbs]. cbn in Hbs.
  assert (Z.of_nat (length bs) ≤ MAX_PAYLOAD_SIZE)%Z as Hlen.
  { unfold resolve_serialize in Hbs. invert_ok. apply length_struct_pack in H.
    destruct Hwf as (Hw1 & Hw2 & _). subst bs. rewrite !length_app, Hw1, Hw2. unfold MAX_PAYLOAD_SIZE. lia. }
  unfold node_handle_resolve_request. rewrite Hr, lift_bind_ok, gets_bind, modify_bind, Hlim.
  cbn [negb]. rewrite gets_bind. cbn [n_identity set_n_global_limiter].
  rewrite bool_decide_false by done. rewrite !gets_bind.
  change (n_table (set_n_global_limiter _ n)) with (n_table n) in *.
  assert (cached_update (set_n_global_limiter (check_resolve_forward (n_global_limiter n) now).1 n)
    (rr_target_peer_id req) = None) as ->.
  { unfold cached_update. cbn. unfold get_entry in *. rewrite He. cbn. rewrite Hep. cbn. by rewrite Hsig. }
  rewrite gets_bind. unfold get_endpoint, get_entry in *. cbn [n_table set_n_global_limiter].
  rewrite He. cbn [mbind option_bind]. rewrite Hep.
  unfold make_packet. cbn [payload_serialize]. rewrite Hbs. cbn [mbind result_bind]. rewrite lift_bind_ok.
  eexists _, _. split; [by apply send_to_ok|]. split_and!; [done..| |done].
  cbn. rewrite <- (app_nil_r bs). by apply resolve_roundtrip.
Qed.
End fallback.

(** ** Restart *)

Lemma set_peer_state_frame p st now n :
  ∃ ps tr, (set_peer_state p st now n).1 = set_n_trace tr (set_n_peer_states ps n).
Proof.
  unfold set_peer_state. destruct (update_state (n_peer_states n) p st now) as [mgr [evs|e]].
  - exists mgr. generalize (set_n_peer_states mgr n). intros m.
    assert (∃ tr, (for_each (λ e, emit (EvState e)) evs m).1 = set_n_trace tr m) as [tr ->]; [|eauto].
    revert m. induction evs as [|e evs IH]; intros m; [by exists (n_trace m); destruct m|].
    destruct (IH (set_n_trace (n_trace m ++ [EvState e]) m)) as [tr Htr]. exists tr. exact Htr.
  - exists mgr, (n_trace n). by destruct n.
Qed.

(** The parts of the node that loading the peers and the queue does not touch. *)
Definition same_sessions (n n' : node) : Prop :=
  n_registry n' = n_registry n ∧ n_heap n' = n_heap n ∧ n_sequence_floors n' = n_sequence_floors n ∧
  pt_local_id (n_table n') = pt_local_id (n_table n) ∧ n_identity n' = n_identity n.

Lemma load_peer_ok now pr n :
  get_state (n_peer_states n) (pr_peer_id pr) = DISCONNECTED →
  ∃ n', load_peer now pr n = (n', Ok ()) ∧ same_sessions n n' ∧ n_db n' = n_db n ∧
    (∀ q, q ≠ pt_local_id (n_table n) →
       is_known (n_table n') q = is_known (n_table n) q || bool_decide (q = pr_peer_id pr)) ∧
    (∀ q, q ≠ pr_peer_id pr → get_state (n_peer_states n') q = get_state (n_peer_states n) q).
Proof.
  intros Hst. unfold load_peer. rewrite modify_bind.
  match goal with |- context [set_n_table ?t n] => set (tbl := t) end.
  assert (pt_local_id tbl = pt_local_id (n_table n)) as Hloc.
  { unfold tbl, update_entry, add_direct_peer. by case_bool_decide. }
  assert (∀ q, q ≠ pt_local_id (n_table n) →
    is_known tbl q = is_known (n_table n) q || bool_decide (q = pr_peer_id pr)) as Hk.
  { intros q Hq. unfold tbl, is_known, update_entry, add_direct_peer, dmem. cbn [pt_peers with_peers].
    rewrite dget_dupd. destruct (decide (q = pr_peer_id pr)) as [->|Hne].
    - rewrite (bool_decide_false (pr_peer_id pr = _)) by done. cbn [pt_peers with_peers].
      rewrite dget_dset_eq. cbn. rewrite (bool_decide_true (_ = _)) by done. by rewrite orb_true_r.
    - rewrite (bool_decide_false (q = _)), orb_false_r by done.
      destruct (_ =?b pt_local_id _); [done|]. cbn [pt_peers with_peers]. by rewrite dget_dset_ne. }
  clearbody tbl. destruct (pr_archived pr).
  - destruct (set_peer_state_ok (pr_peer_id pr) ARCHIVED now (set_n_table tbl n)) as (n' & E & _ & Hq & Hd).
    { cbn. rewrite Hst. set_solver. }
    destruct (set_peer_state_frame (pr_peer_id pr) ARCHIVED now (set_n_table tbl n)) as (ps & tr & Hf).
    rewrite E in Hf. cbn in Hf. exists n'. split; [done|]. subst n'. split_and!; try done.
  - eexists. split; [done|]. split_and!; done.
Qed.

Lemma same_sessions_trans n1 n2 n3 : same_sessions n1 n2 → same_sessions n2 n3 → same_sessions n1 n3.
Proof. unfold same_sessions. intuition congruence. Qed.

(** Loading the peers of a table: all of them are known afterwards. *)
Lemma load_peers_ok now l n :
  NoDup (pr_peer_id <$> l) → (∀ pr, pr ∈ l → get_state (n_peer_states n) (pr_peer_id pr) = DISCONNECTED) →
  ∃ n', for_each (load_peer now) l n = (n', Ok ()) ∧ same_sessions n n' ∧ n_db n' = n_db n ∧
    (∀ q, q ≠ pt_local_id (n_table n) → (q ∈ pr_peer_id <$> l) ∨ is_known (n_table n) q = true →
       is_known (n_table n') q = true).
Proof.
  revert n. induction l as [|pr l IH]; intros n Hnd Hst; cbn.
  { exists n. split_and!; try done. intros q _ [Hq|Hq]; [by apply elem_of_nil in Hq|done]. }
  apply NoDup_cons in Hnd as [Hpr Hnd].
  destruct (load_peer_ok now pr n) as (n1 & E1 & Hs1 & Hd1 & Hk1 & Hg1); [apply Hst; set_solver|].
  rewrite (bind_ok _ _ _ _ _ E1). destruct (IH n1 Hnd) as (n2 & E2 & Hs2 & Hd2 & Hk2).
  { intros pr' Hin. rewrite Hg1; [apply Hst; set_solver|].
    intros Heq. apply Hpr. rewrite <- Heq. by apply list_elem_of_fmap_2. }
  exists n2. split_and!; [done|by eapply same_sessions_trans|congruence|].
  destruct Hs1 as (_ & _ & _ & Hloc & _). intros q Hq Hor. apply Hk2; [by rewrite Hloc|].
  rewrite Hk1 by done. destruct Hor as [[->|Hin]%elem_of_cons|Hkn]; [|by left|].
  - right. rewrite bool_decide_true by done. by rewrite orb_true_r.
  - right. by rewrite Hkn.
Qed.

(** Loading the session rows: the last row of a known peer gives its floors. *)
Lemma load_floors_ok l n :
  ∃ n', for_each load_floor l n = (n', Ok ()) ∧ n_registry n' = n_registry n ∧ n_heap n' = n_heap n ∧
    n_table n' = n_table n ∧ n_db n' = n_db n ∧ n_identity n' = n_identity n ∧
    ∀ p sr, is_known (n_table n) p = true → last (filter (λ sr, sr_peer_id sr = p) l) = Some sr →
      dget (n_sequence_floors n') p = Some (sr_send_sequence sr, sr_recv_sequence sr).
Proof.
  induction l as [|sr l IH] using rev_ind; [by exists n|].
  destruct IH as (n1 & E1 & Hr & Hh & Ht & Hd & Hi & Hf).
  assert (∀ m, for_each load_floor (l ++ [sr]) m = (for_each load_floor l ;; load_floor sr) m) as Happ.
  { clear. induction l as [|x l IH]; intros m; cbn [app for_each].
    - change (for_each load_floor [] ;; load_floor sr) with (mret () ;; load_floor sr).
      rewrite (bind_ok (mret ()) _ m m ()), bind_eq by done. by destruct (load_floor sr m) as [m' [[]|e]].
    - rewrite !bind_eq. destruct (load_floor x m) as [m' [[]|e]]; [|done]. rewrite IH. by rewrite bind_eq. }
  rewrite Happ, (bind_ok _ _ _ _ _ E1). unfold load_floor at 1, modify. eexists. split; [reflexivity|].
  destruct (is_known (n_table n1) (sr_peer_id sr)) eqn:Hk.
  - split_and!; [done..|]. intros p sr' Hp. rewrite filter_app, filter_cons, filter_nil. cbn.
    rewrite dget_dset. case_decide as Heq; case_decide as Heq'; try congruence.
    + rewrite last_snoc. by intros [= ->].
    + rewrite app_nil_r. by apply Hf.
  - split_and!; [done..|]. intros p sr' Hp. rewrite filter_app, filter_cons, filter_nil. cbn.
    case_decide as Heq; [|rewrite app_nil_r; by apply Hf]. subst. rewrite Ht, Hp in Hk. done.
Qed.

Lemma all_peers_keys db : db_wf db → pr_peer_id <$> db_get_all_peers db = (db_peers db).*1.
Proof.
  intros Hdb. pose proof (dw_peers_key _ Hdb) as Hk. unfold db_get_all_peers. revert Hk.
  induction (db_peers db) as [|[k r] d IH]; intros Hk; [done|].
  cbn. rewrite (Hk k r) by set_solver. f_equal. apply IH. set_solver.
Qed.

Lemma loaded_messages db qr :
  db_wf db → qr ∈ db_load_all_queued_messages db → dget (db_queue db) (qr_message_id qr) = Some qr.
Proof.
  intros Hdb Hin. unfold db_load_all_queued_messages in Hin. rewrite py_sorted_perm in Hin.
  apply list_elem_of_filter in Hin as [_ Hin].
  apply list_elem_of_fmap in Hin as ([k r] & -> & Hin). cbn.
  rewrite (dw_queue_key _ Hdb _ _ Hin). by apply dget_elem; [apply Hdb|].
Qed.

Section restart.
Context `{C : CryptoLib}.

Lemma load_queued_ok now nonce qr n :
  (∃ bs, utf8_encode (qr_message_id qr) = Ok bs) →
  ∃ n', load_queued now nonce qr n = (n', Ok ()) ∧ same_sessions n n' ∧ db_peers (n_db n') = db_peers (n_db n).
Proof using Type.
  intros [bs Hbs]. unfold load_queued. rewrite gets_bind.
  match goal with |- context [mbind _ (if ?b then _ else _)] => destruct b end.
  - rewrite bind_eq. erewrite bind_ok by (unfold store_outbox, store_message; rewrite Hbs; done).
    rewrite storage_ok by done. case_bool_decide.
    + rewrite storage_ok by done. eexists. split; [done|]. done.
    + eexists. split; [done|]. done.
  - rewrite (bind_ok (mret ()) _ n n ()) by done. case_bool_decide.
    + rewrite storage_ok by done. eexists. split; [done|]. done.
    + eexists. split; [done|]. done.
Qed.

Lemma load_queue_ok now nonce l n :
  (∀ qr, qr ∈ l → ∃ bs, utf8_encode (qr_message_id qr) = Ok bs) →
  ∃ n', for_each (load_queued now nonce) l n = (n', Ok ()) ∧ same_sessions n n' ∧ db_peers (n_db n') = db_peers (n_db n).
Proof using Type.
  revert n. induction l as [|qr l IH]; intros n Hl; cbn; [by exists n|].
  destruct (load_queued_ok now nonce qr n) as (n1 & E1 & H1 & P1); [apply Hl; set_solver|].
  rewrite (bind_ok _ _ _ _ _ E1). destruct (IH n1) as (n2 & E2 & H2 & P2); [set_solver|].
  exists n2. split_and!; [done|by eapply same_sessions_trans|congruence].
Qed.

(** Opening a session when none is registered: the counters start at the floors. *)
Lemma open_session_floors keys now n a b :
  n_registry n = empty_registry →
  dget (n_sequence_floors n) (sk_remote_peer_id keys) = Some (a, b) →
  ∃ n' r s, open_session keys now n = (n', Ok r) ∧ n_heap n' !! r = Some s ∧
    get_by_peer_id (n_registry n') (sk_remote_peer_id keys) = Some r ∧
    s_session_id s = sk_session_id keys ∧ s_encryption_key s = sk_encryption_key keys ∧
    s_send_sequence s = Z.max 1 a ∧ s_recv_sequence s = Z.max 0 b.
Proof using Type.
  intros Hreg Hf. unfold open_session. rewrite gets_bind. set (r := fresh _).
  unfold put_session at 1. rewrite modify_bind.
  set (s0 := new_session _ _ _ now).
  erewrite (bind_ok (apply_sequence_floors r)).
  2:{ unfold apply_sequence_floors. rewrite (bind_ok _ _ _ _ s0)
        by (unfold get_session; cbn; by rewrite lookup_insert_eq).
      rewrite gets_bind. cbn [n_sequence_floors set_n_heap]. change (s_remote_peer_id s0) with (sk_remote_peer_id keys).
      rewrite Hf. unfold put_session. rewrite modify_bind. reflexivity. }
  match goal with |- context [set_n_heap (<[r := ?x]> _)] => set (s2 := x) end.
  assert (s_send_sequence s2 = Z.max 1 a ∧ s_recv_sequence s2 = Z.max 0 b ∧ same_ids s0 s2)
    as (Hsend & Hrecv & Hid & Hpid & Hkey).
  { unfold s2, same_ids. cbn. destruct (Z.ltb_spec 1 a); cbn; destruct (Z.ltb_spec 0 b); cbn; split_and!; try done; lia. }
  clearbody s2. rewrite gets_bind. cbn [n_heap set_n_heap set_n_sequence_floors n_registry]. rewrite Hreg.
  rewrite (register_eq _ empty_registry r s2)
    by (apply lookup_insert_eq || (cbn; unfold MAX_SESSIONS; lia)).
  rewrite lift_bind_ok, modify_bind.
  rewrite (bind_ok (get_session r) _ _ _ s2) by (unfold get_session; cbn; by rewrite lookup_insert_eq).
  erewrite bind_ok by (by apply storage_ok).
  eexists _, r, s2. split; [reflexivity|]. cbn. rewrite lookup_insert_eq. split_and!; try done.
  unfold get_by_peer_id. cbn. rewrite Hpid. by rewrite decide_True.
Qed.

(** Starting on a well-formed database. *)
Lemma node_start_ok (me : LocalIdentity) (port k : Z) (ml : MessageLog) (db : database) (logs outbox : files)
    (t0 t1 : seconds) (nonce : pystr → bytes) (shuffle1 : list PeerEntry → list PeerEntry)
    (shuffle2 : list bytes → list bytes) :
  db_wf db → (∀ m qr, dget (db_queue db) m = Some qr → ∃ bs, utf8_encode m = Ok bs) →
  ∃ n', node_start t1 nonce shuffle1 shuffle2 (fresh_node me port k ml db logs outbox t0) = (n', Ok ()) ∧
    n_registry n' = empty_registry ∧ n_identity n' = me ∧ db_peers (n_db n') = db_peers db ∧
    ∀ p sr, p ≠ id_peer_id me → is_Some (dget (db_peers db) p) →
      last (filter (λ sr, sr_peer_id sr = p) (db_load_all_sessions db)) = Some sr →
      dget (n_sequence_floors n') p = Some (sr_send_sequence sr, sr_recv_sequence sr).
Proof using Type.
  intros Hdb Hids. set (n := fresh_node me port k ml db logs outbox t0). unfold node_start. rewrite gets_bind.
  destruct (load_peers_ok t1 (db_get_all_peers (n_db n)) n) as (n1 & E1 & Hs1 & Hd1 & Hk1).
  { cbn. rewrite all_peers_keys by done. apply Hdb. }
  { done. }
  rewrite (bind_ok _ _ _ _ _ E1), gets_bind, Hd1.
  destruct (load_floors_ok (db_load_all_sessions db) n1) as (n2 & E2 & Hr2 & Hh2 & Ht2 & Hd2 & Hi2 & Hf2).
  change (n_db n) with db. rewrite (bind_ok _ _ _ _ _ E2), gets_bind, Hd2, Hd1. change (n_db n) with db.
  destruct (load_queue_ok t1 nonce (db_load_all_queued_messages db) n2) as (n3 & E3 & Hs3 & Hp3).
  { intros qr Hin%loaded_messages; [|done]. by eapply Hids. }
  rewrite (bind_ok _ _ _ _ _ E3). unfold modify. eexists. split; [reflexivity|]. cbn.
  destruct Hs1 as (Hr1 & _ & _ & _ & Hi1), Hs3 as (Hr3 & _ & Hf3 & _ & Hi3).
  split_and!; [by rewrite Hr3, Hr2, Hr1|by rewrite Hi3, Hi2, Hi1|by rewrite Hp3, Hd2, Hd1|].
  intros p sr Hself Hpeer Hlast. rewrite Hf3. apply Hf2; [|done]. apply Hk1; [done|]. left. cbn.
  rewrite all_peers_keys by done. by apply dget_is_Some.
Qed.

(** C13: counters survive a restart.  A node started on a well-formed database (with message ids that are
    text) comes up, and the first session it opens with a known peer continues at the counters of that
    peer's last session row: the next number to send is the stored one, so none written before a packet
    went out is used again, and every packet numbered up to the stored receive counter is refused, also
    when the peer, who did not restart, numbers its packets in the new session from 1. *)
Theorem restart_continues_counters (me : LocalIdentity) (port k : Z) (ml : MessageLog) (db : database)
    (logs outbox : files) (t0 t1 t2 : seconds) (nonce : pystr → bytes)
    (shuffle1 : list PeerEntry → list PeerEntry) (shuffle2 : list bytes → list bytes)
    (keys : SessionKeys) (sr : SessionRecord) :
  db_wf db → (∀ m qr, dget (db_queue db) m = Some qr → ∃ bs, utf8_encode m = Ok bs) →
  sk_remote_peer_id keys ≠ id_peer_id me → is_Some (dget (db_peers db) (sk_remote_peer_id keys)) →
  last (filter (λ sr, sr_peer_id sr = sk_remote_peer_id keys) (db_load_all_sessions db)) = Some sr →
  ∃ n1 n2 r s,
    node_start t1 nonce shuffle1 shuffle2 (fresh_node me port k ml db logs outbox t0) = (n1, Ok ()) ∧
    open_session keys t2 n1 = (n2, Ok r) ∧ n_heap n2 !! r = Some s ∧
    get_by_peer_id (n_registry n2) (sk_remote_peer_id keys) = Some r ∧
    s_send_sequence s = Z.max 1 (sr_send_sequence sr) ∧ s_recv_sequence s = Z.max 0 (sr_recv_sequence sr) ∧
    ∀ dp, (data_sequence_number dp ≤ sr_recv_sequence sr)%Z → decrypt_data_packet dp s = (s, Ok None).
Proof using Type.
  intros Hdb Hids Hself Hpeer Hlast.
  destruct (node_start_ok me port k ml db logs outbox t0 t1 nonce shuffle1 shuffle2 Hdb Hids) as (n1 & E1 & Hreg & _ & _ & Hf).
  destruct (open_session_floors keys t2 n1 (sr_send_sequence sr) (sr_recv_sequence sr))
    as (n2 & r & s & Hopen & Hs & Hget & _ & _ & Hsend & Hrecv); [done|by apply Hf|].
  exists n1, n2, r, s. split_and!; try done.
  intros dp Hle. unfold decrypt_data_packet, check_recv_sequence. by rewrite (proj2 (Z.ltb_ge _ _)) by lia.
Qed.
End restart.

(** ** Examples *)

Module PeersExample.
Import ToyCrypto NodeExample.

Lemma endpoint_text_roundtrip_witness :
  parse_endpoint (str "fe80::1:4001") = Some (str "fe80::1", 4001%Z).
Proof. apply (endpoint_text_roundtrip (str "fe80::1") 4001). lia. Defined.

Definition home : ip := IPv4 (be_encode 4 3221225985).

Lemma endpoint_update_verifies_witness :
  ∃ a' pkt wire u, build_endpoint_update (str "192.0.2.1", 4001%Z) None node_a = (a', Ok pkt) ∧
    packet_serialize pkt = Ok wire ∧ endpoint_update_deserialize (pkt_payload pkt) = Ok u ∧
    verify_endpoint_signature node_b u = true.
Proof.
  destruct (endpoint_update_verifies node_a node_b home 4001
    (mkPeerEntry (id_peer_id alice) (id_public_key alice) true (Some addr_alice) (secs 0) 0 None None))
    as (a' & pkt & wire & u & H1 & _ & _ & H2 & _ & H3 & _ & _ & _ & _ & H4).
  - split; reflexivity.
  - reflexivity.
  - lia.
  - vm_compute. split; [discriminate|reflexivity].
  - vm_compute. reflexivity.
  - reflexivity.
  - exists a', pkt, wire, u. split_and!; [exact H1|exact H2|exact H3|exact H4].
Defined.

(** The update [node_a] signs, as a packet. *)
Definition update_pkt : Packet :=
  match build_endpoint_update (str "192.0.2.9", 4009%Z) None node_a with
  | (_, Ok pkt) => pkt
  | _ => mkPacket PROTOCOL_VERSION ENDPOINT_UPDATE []
  end.

Lemma endpoint_update_applied_witness :
  ∃ n', node_handle_endpoint_update update_pkt (secs 3) node_b = (n', Ok ()) ∧
    get_endpoint (n_table n') (id_peer_id alice) = Some (str "192.0.2.9", 4009%Z).
Proof.
  destruct (endpoint_update_deserialize (pkt_payload update_pkt)) as [u|] eqn:Hu;
    [|vm_compute in Hu; discriminate Hu].
  destruct (endpoint_update_applied node_b update_pkt (secs 3) u Hu) as (n' & H1 & _ & H2 & _).
  exists n'. split; [exact H1|]. vm_compute in Hu. apply Ok_inj in Hu. subst u.
  destruct H2 as (e & He & He' & _); [vm_compute; reflexivity|].
  unfold get_endpoint. unfold get_entry in *. vm_compute in He. injection He as <-.
  match type of He' with dget _ ?k = _ => change k with (id_peer_id alice) in He' end.
  rewrite He'. vm_compute. reflexivity.
Defined.

(** A HELLO of a stranger with a signature of zeros. *)
Definition stranger : LocalIdentity := generate_identity (be_encode 32 77).
Definition bad_hello : HelloPayload :=
  mkHello (id_public_key stranger) (be_encode 32 5) (be_encode 16 6) (be_encode 64 0).

Lemma unverified_hello_adds_peer_witness :
  ∃ n', handle_hello (mkPacket PROTOCOL_VERSION HELLO (hello_serialize bad_hello)) addr_alice (secs 3) drawn
          node_b = (n', Ok ()) ∧
    id_peer_id stranger ∈ get_direct_peer_ids (n_table n').
Proof.
  destruct (unverified_hello_adds_peer node_b
    (mkPacket PROTOCOL_VERSION HELLO (hello_serialize bad_hello)) addr_alice (secs 3) drawn bad_hello)
    as (n' & H1 & H2 & _).
  - split; cbn.
    + apply NoDup_singleton.
    + intros k e [= -> ->]%list_elem_of_singleton. split; [reflexivity|]. vm_compute. discriminate.
  - vm_compute. discriminate.
  - vm_compute. reflexivity.
  - vm_compute. reflexivity.
  - vm_compute. reflexivity.
  - vm_compute. reflexivity.
  - apply (bool_decide_unpack _). vm_compute. exact I.
  - exists n'. split; [exact H1|exact H2].
Defined.

(** [node_b] waits for [stranger]'s answer, and gets one signed with zeros. *)
Definition waiting : node :=
  set_n_pending_hello [(id_peer_id stranger, mkHandshakeState (be_encode 32 3) (be_encode 32 3)
    (be_encode 16 4) (Some (id_peer_id stranger)))] node_b.
Definition bad_ack : HelloAckPayload :=
  mkHelloAck (id_public_key stranger) (be_encode 32 5) (be_encode 8 6) (be_encode 16 7) (be_encode 64 0).

Lemma forged_hello_ack_ends_attempt_witness :
  ∃ n', handle_hello_ack (mkPacket PROTOCOL_VERSION HELLO_ACK (hello_ack_serialize bad_ack)) addr_alice
          (secs 3) drawn waiting = (n', Ok ()) ∧
    dget (n_pending_hello n') (id_peer_id stranger) = None.
Proof.
  destruct (forged_hello_ack_ends_attempt waiting
    (mkPacket PROTOCOL_VERSION HELLO_ACK (hello_ack_serialize bad_ack)) addr_alice (secs 3) drawn bad_ack
    (mkHandshakeState (be_encode 32 3) (be_encode 32 3) (be_encode 16 4) (Some (id_peer_id stranger))))
    as (n' & H1 & _ & H2 & _).
  - vm_compute. reflexivity.
  - vm_compute. reflexivity.
  - vm_compute. reflexivity.
  - vm_compute. reflexivity.
  - exists n'. split; [exact H1|exact H2].
Defined.

(** A request for [alice] with TTL 0 reaches [node_b], which knows her address. *)
Definition request : ResolveRequestPayload := mkResolve (be_encode 16 1) (id_peer_id alice) 0.
Definition request_pkt : Packet :=
  mkPacket PROTOCOL_VERSION RESOLVE_REQUEST (be_encode 16 1 ++ id_peer_id alice ++ be_encode 1 0).

Lemma resolve_fallback_keeps_ttl_witness :
  ∃ n' fwd, node_handle_resolve_request request_pkt (str "192.0.2.7", 7%Z) (secs 3) node_b = (n', Ok ()) ∧
    n_trace n' = [EvSend fwd addr_alice] ∧ resolve_deserialize (pkt_payload fwd) = Ok request.
Proof.
  destruct (resolve_fallback_keeps_ttl node_b request_pkt (str "192.0.2.7", 7%Z) addr_alice (secs 3) request
    (mkPeerEntry (id_peer_id alice) (id_public_key alice) true (Some addr_alice) (secs 0) 0 None None))
    as (n' & fwd & H1 & H2 & _ & H3 & _).
  - vm_compute. reflexivity.
  - vm_compute. reflexivity.
  - vm_compute. discriminate.
  - vm_compute. reflexivity.
  - reflexivity.
  - reflexivity.
  - exists n', fwd. split_and!; [exact H1|exact H2|exact H3].
Defined.

(** A database with one peer and one session that got to 12 sent and 10 received. *)
Definition saved_db : database :=
  foldl db_exec empty_db
    [DbAddPeer (id_peer_id bob) (id_public_key bob) None (Some addr_bob) (secs 1);
     DbSaveSession sid (id_peer_id bob) 12 10 (secs 2)].

Definition new_keys : SessionKeys := mkKeys key (be_encode 8 99) (id_peer_id bob) (id_public_key bob).

Lemma restart_continues_counters_witness :
  ∃ n1 n2 r s,
    node_start (secs 5) (λ _, be_encode 12 1) id id
      (fresh_node alice 4001 8 (new_message_log 50 5) saved_db ∅ ∅ (secs 4)) = (n1, Ok ()) ∧
    open_session new_keys (secs 6) n1 = (n2, Ok r) ∧ n_heap n2 !! r = Some s ∧
    s_send_sequence s = 12%Z ∧ s_recv_sequence s = 10%Z.
Proof.
  destruct (restart_continues_counters alice 4001 8 (new_message_log 50 5) saved_db ∅ ∅ (secs 4) (secs 5)
    (secs 6) (λ _, be_encode 12 1) id id new_keys
    (mkSessionRecord sid (id_peer_id bob) 12 10 (secs 2))) as (n1 & n2 & r & s & H1 & H2 & H3 & _ & H4 & H5 & _).
  - unfold saved_db. cbn [foldl]. do 2 apply db_exec_wf. apply empty_db_wf.
  - intros m qr Hm. vm_compute in Hm. discriminate Hm.
  - vm_compute. discriminate.
  - vm_compute. eexists. reflexivity.
  - vm_compute. reflexivity.
  - exists n1, n2, r, s. split_and!; [exact H1|exact H2|exact H3|exact H4|exact H5].
Defined.
End PeersExample.
