(* ===== verification/NodeInv.v ===== *)
(** * Invariants of the running node (node.py)

    Everything that can happen to a node after it was created is a step: a datagram, a call from the
    user interface, a turn of one of the background loops.  An invariant that every step keeps holds in
    every state the node can reach, and no step takes a session's counters back. *)

From S2P Require Import Prelude Bytes PyDict PyText IpAddr Packet Crypto Session Handshake QueueManager.
From S2P Require Import PeerState RateLimiter Overlay Resolution Reconnect Heartbeat Storage LogFiles.
From S2P Require Import NodeState Node NodeProps NodeExchange NodePeers.

(** ** The invariant *)

Record node_ok (n : node) : Prop := {
  nk_table : table_wf (n_table n);
  nk_local : pt_local_id (n_table n) = id_peer_id (n_identity n);
  nk_db : db_wf (n_db n);
  nk_queue : dict_wf (n_queue n);
  nk_registry : registry_ok (n_heap n) (n_registry n);
  nk_heartbeat : hb_owned (n_heartbeat n) }.

(** What one step may do: keep the invariant, and change session objects only forwards. *)
Definition evolves (n n' : node) : Prop :=
  (node_ok n → node_ok n') ∧ heap_grows (n_heap n) (n_heap n').

Lemma evolves_refl n : evolves n n.
Proof. split; [done|apply heap_grows_refl]. Qed.

Lemma evolves_trans n1 n2 n3 : evolves n1 n2 → evolves n2 n3 → evolves n1 n3.
Proof. intros [A1 B1] [A2 B2]. split; [auto|by eapply heap_grows_trans]. Qed.

(** Changes outside the invariant. *)
Lemma evolves_frame n n' :
  n_table n' = n_table n → n_identity n' = n_identity n → n_db n' = n_db n → n_queue n' = n_queue n →
  n_registry n' = n_registry n → n_heap n' = n_heap n → n_heartbeat n' = n_heartbeat n → evolves n n'.
Proof.
  intros Ht Hi Hd Hq Hr Hh Hb. split; [|rewrite Hh; apply heap_grows_refl].
  intros [? ? ? ? ? ?]. split; rewrite ?Hh, ?Ht, ?Hi, ?Hd, ?Hq, ?Hr, ?Hb; done.
Qed.

Lemma evolves_table n t :
  (table_wf (n_table n) → table_wf t ∧ pt_local_id t = pt_local_id (n_table n)) →
  evolves n (set_n_table t n).
Proof.
  intros Ht. split; [|apply heap_grows_refl]. intros [? Hl ? ? ? ?].
  destruct Ht as [? Hl']; [done|]. split; try done. cbn. congruence.
Qed.

Lemma evolves_queue n q : (dict_wf (n_queue n) → dict_wf q) → evolves n (set_n_queue q n).
Proof. intros Hq. split; [|apply heap_grows_refl]. intros [? ? ? ? ? ?]. split; cbn; auto. Qed.

Lemma evolves_heap n h : heap_grows (n_heap n) h → evolves n (set_n_heap h n).
Proof.
  intros Hh. split; [|done]. intros [? ? ? ? Hr ?]. split; try done. by eapply registry_ok_grows.
Qed.

Lemma evolves_registry n reg :
  (registry_ok (n_heap n) (n_registry n) → registry_ok (n_heap n) reg) → evolves n (set_n_registry reg n).
Proof. intros Hr. split; [|apply heap_grows_refl]. intros [? ? ? ? ? ?]. split; cbn; auto. Qed.

Lemma evolves_heartbeat n hb :
  (hb_owned (n_heartbeat n) → hb_owned hb) → evolves n (set_n_heartbeat hb n).
Proof. intros Hb. split; [|apply heap_grows_refl]. intros [? ? ? ? ? ?]. split; cbn; auto. Qed.

(** ** Computations that evolve the node *)

Lemma ev_bind {A B} (c : M A) (k : A → M B) n :
  evolves n (c n).1 → (∀ a n', c n = (n', Ok a) → evolves n' (k a n').1) → evolves n ((c ≫= k) n).1.
Proof.
  intros Hc Hk. rewrite bind_eq. destruct (c n) as [n' [a|e]] eqn:E; [|done].
  eapply evolves_trans; [exact Hc|by apply Hk].
Qed.

Lemma ev_try {A} (c : M A) e h n :
  evolves n (c n).1 → (∀ n', evolves n' (h n').1) → evolves n (try_except c e h n).1.
Proof.
  intros Hc Hh. unfold try_except. destruct (c n) as [n' [a|e']]; [done|].
  destruct (e' =?b e); [|done]. eapply evolves_trans; [exact Hc|apply Hh].
Qed.

Lemma ev_try_log c n : evolves n (c n).1 → evolves n (try_log c n).1.
Proof. done. Qed.

Lemma ev_for_each {A} (body : A → M ()) l n :
  (∀ x n', evolves n' (body x n').1) → evolves n (for_each body l n).1.
Proof.
  intros Hb. revert n. induction l as [|x l IH]; intros n; cbn; [apply evolves_refl|].
  apply ev_bind; [apply Hb|]. intros _ n' _. apply IH.
Qed.

Lemma ev_storage op n : evolves n (storage op n).1.
Proof.
  unfold storage. destruct (db_status (n_db n) op); [|apply evolves_refl].
  split; [|apply heap_grows_refl]. intros [? ? ? ? ? ?]. split; cbn; try done. by apply db_exec_wf.
Qed.

Lemma ev_send pkt addr n : evolves n (send_to pkt addr n).1.
Proof.
  unfold send_to. rewrite bind_eq. unfold lift. destruct (packet_serialize pkt); by apply evolves_frame.
Qed.

Lemma ev_set_peer_state p st now n : evolves n (set_peer_state p st now n).1.
Proof. destruct (set_peer_state_frame p st now n) as (ps & tr & ->). by apply evolves_frame. Qed.

Lemma ev_table_set_endpoint p addr n : evolves n (table_set_endpoint p addr n).1.
Proof.
  apply evolves_table. intros Ht. split; [|done]. by apply update_entry_wf.
Qed.

(** Reading a session object. *)
Lemma ev_get_session {A} r (k : Session → M A) n :
  (∀ s, n_heap n !! r = Some s → evolves n (k s n).1) → evolves n ((get_session r ≫= k) n).1.
Proof.
  intros Hk. rewrite bind_eq. unfold get_session. destruct (n_heap n !! r) eqn:E; [auto|apply evolves_refl].
Qed.

Create HintDb node_ev.
#[export] Hint Resolve evolves_refl ev_storage ev_send ev_set_peer_state ev_table_set_endpoint : node_ev.

(** [ev_step] follows a computation; it leaves changes of the invariant's parts and method calls that the
    database does not know. *)
Ltac ev_step :=
  match goal with
  | |- evolves ?n ((get_session _ ≫= _) ?n).1 => apply ev_get_session; intros ? ?
  | |- evolves ?n ((gets _ ≫= _) ?n).1 => rewrite gets_bind
  | |- evolves ?n ((_ ≫= _) ?n).1 => apply ev_bind; [|intros ? ? ?]
  | |- evolves ?n (try_except _ _ _ ?n).1 => apply ev_try; [|intros ?]
  | |- evolves ?n (try_log _ ?n).1 => apply ev_try_log
  | |- evolves ?n (for_each _ _ ?n).1 => apply ev_for_each; intros ? ?
  | |- evolves ?n (lift _ ?n).1 => apply evolves_refl
  | |- evolves ?n (mret _ ?n).1 => apply evolves_refl
  | |- evolves ?n (raise _ ?n).1 => apply evolves_refl
  | |- evolves ?n (gets _ ?n).1 => apply evolves_refl
  | |- evolves ?n (emit _ ?n).1 => by apply evolves_frame
  | |- evolves ?n (notify_peers_changed ?n).1 => by apply evolves_frame
  | |- evolves ?n (notify_connection_event _ ?n).1 => by apply evolves_frame
  | |- evolves ?n (schedule _ ?n).1 => by apply evolves_frame
  | |- evolves ?n (modify _ ?n).1 =>
      solve [cbv beta iota delta [modify fst]; repeat case_match; by apply evolves_frame
            |apply evolves_heartbeat; eauto with ashichat]
  | |- evolves ?n _ => solve [eauto with node_ev]
  | |- evolves ?n ((if ?b then _ else _) ?n).1 => destruct b
  | |- evolves ?n ((match ?x with _ => _ end) ?n).1 => destruct x
  end.

Lemma ev_mark_connected p now n : evolves n (mark_peer_connected p now n).1.
Proof.
  unfold mark_peer_connected. repeat ev_step.
Qed.
#[export] Hint Resolve ev_mark_connected : node_ev.

(** ** The methods *)

Section methods.
Context `{C : CryptoLib}.

Lemma ev_apply_floors r n : evolves n (apply_sequence_floors r n).1.
Proof using Type.
  unfold apply_sequence_floors. do 2 ev_step. destruct (dget _ _) as [[a b]|]; [|ev_step].
  ev_step; [|by ev_step]. apply evolves_heap. eapply heap_grows_insert; [done|..].
  - unfold same_ids. by repeat case_match.
  - destruct (Z.ltb_spec (s_send_sequence s) a); cbn; destruct (_ <? b)%Z; cbn; lia.
  - destruct (s_send_sequence s <? a)%Z; cbn; destruct (Z.ltb_spec (s_recv_sequence s) b); cbn; lia.
Qed.

Lemma ev_open_session keys now n : evolves n (open_session keys now n).1.
Proof using Type.
  unfold open_session. ev_step. set (r := fresh _). ev_step.
  { apply evolves_heap, heap_grows_alloc. apply not_elem_of_dom, is_fresh. }
  ev_step; [apply ev_apply_floors|]. ev_step. ev_step; [ev_step|].
  unfold lift in H1. injection H1 as <- Hreg.
  ev_step; [|repeat ev_step].
  apply evolves_registry. intros Hok. by eapply register_ok.
Qed.

Lemma ev_build msg r now n : evolves n (node_build_data_packet msg r now n).1.
Proof using Type.
  unfold node_build_data_packet. ev_step. unfold build_with_session.
  destruct (build_data_packet (n_queue n) msg s now) as [[q s'] res] eqn:E.
  eapply evolves_trans; [apply (evolves_heap n (<[r := s']> (n_heap n)))|apply evolves_queue].
  - pose proof (build_data_packet_counters (n_queue n) msg s now) as (Hid & Hs & Hr).
    rewrite E in *. cbn in *. eapply heap_grows_insert; [done..|lia].
  - intros Hq. cbn in *. apply build_data_packet_queue in E as [[-> _]|(e & seq & _ & _ & ->)]; [done|].
    by apply dset_wf.
Qed.
Hint Resolve ev_apply_floors ev_open_session ev_build : node_ev.

Lemma ev_transmit msg r ep now n : evolves n (transmit msg r ep now n).1.
Proof using Type. unfold transmit. repeat ev_step. Qed.
Hint Resolve ev_transmit : node_ev.

Lemma ev_flush p now n : evolves n (flush_queued_for_peer p now n).1.
Proof using Type. unfold flush_queued_for_peer. repeat ev_step. Qed.

Lemma ev_resend i p now n : evolves n (resend_message i p now n).1.
Proof using Type. unfold resend_message. repeat ev_step. Qed.

Lemma ev_send_sync r addr n : evolves n (send_sync r addr n).1.
Proof using Type. unfold send_sync. repeat ev_step. Qed.

Lemma ev_begin_heartbeat p sid addr task now n : evolves n (begin_heartbeat p sid addr task now n).1.
Proof using Type. apply evolves_heartbeat. intros Hb. by apply owned_start. Qed.
Hint Resolve ev_flush ev_resend ev_send_sync ev_begin_heartbeat : node_ev.

Lemma ev_add_direct n p k nick ep now :
  evolves n (modify (λ n, set_n_table (add_direct_peer (n_table n) p k (nick n) ep now) n) n).1.
Proof using Type.
  apply evolves_table. intros Ht. split; [by apply add_direct_peer_wf|].
  unfold add_direct_peer. by case_bool_decide.
Qed.

Lemma ev_handle_hello packet addr now d n : evolves n (handle_hello packet addr now d n).1.
Proof using Type.
  unfold handle_hello. repeat ev_step.
  apply (ev_add_direct n'2 _ _ (λ _, _)).
Qed.

Lemma ev_handle_hello_ack packet addr now d n : evolves n (handle_hello_ack packet addr now d n).1.
Proof using Type. unfold handle_hello_ack. repeat ev_step. Qed.

Lemma ev_open_data dp r s n : n_heap n !! r = Some s → evolves n (open_data dp r s n).1.
Proof using Type.
  intros Hs. unfold open_data. destruct (decrypt_data_packet dp s) as [s' res] eqn:E.
  apply evolves_heap. destruct res as [[pt|]|e].
  - apply decrypt_accepted in E as [Hlt ->]. eapply heap_grows_insert; [done..| |]; cbn; lia.
  - apply decrypt_unchanged in E as ->; [|done]. rewrite insert_id by done. apply heap_grows_refl.
  - apply decrypt_unchanged in E as ->; [|done]. rewrite insert_id by done. apply heap_grows_refl.
Qed.

Lemma ev_log_append p blob n : evolves n (log_append p blob n).1.
Proof using Type. unfold log_append. destruct (append_message _ _ _ _). by apply evolves_frame. Qed.
Hint Resolve ev_open_data ev_log_append : node_ev.

Lemma ev_handle_data packet addr now n : evolves n (handle_data packet addr now n).1.
Proof using Type. unfold handle_data. repeat ev_step. Qed.

Lemma handle_ack_wf q a : dict_wf q → dict_wf (handle_ack q a).1.
Proof using Type. intros H. unfold handle_ack. case_match; [|done]. case_match. by apply dset_wf. Qed.

Lemma acknowledge_wf q p k : dict_wf q → dict_wf (acknowledge_by_sequence q p k).1.
Proof using Type.
  intros H. unfold acknowledge_by_sequence. case_match; [|done]. case_match. by apply dset_wf.
Qed.

Lemma handle_timeout_wf q i : dict_wf q → dict_wf (handle_timeout q i).1.
Proof using Type. intros H. unfold handle_timeout. case_match; [|done]. by apply dset_wf. Qed.

Lemma ev_node_handle_ack packet now n : evolves n (node_handle_ack packet now n).1.
Proof using Type.
  unfold node_handle_ack. repeat ev_step. apply evolves_queue, handle_ack_wf.
Qed.

Lemma ev_handle_app_ack packet now n : evolves n (handle_app_ack packet now n).1.
Proof using Type.
  unfold handle_app_ack. repeat ev_step. apply evolves_queue, acknowledge_wf.
Qed.

Lemma ev_rebuild i s now n : evolves n (rebuild_with_session i s now n).1.
Proof using Type.
  unfold rebuild_with_session. pose proof (rebuild_for_sync_queue (n_queue n) i s now) as Hq.
  destruct (rebuild_for_sync (n_queue n) i s now) as [q res]. apply evolves_queue. intros Hwf.
  destruct Hq as [Hq|(e & seq & _ & _ & Hq)]; cbn in Hq; subst q; [done|]. by apply dset_wf.
Qed.
Hint Resolve ev_rebuild : node_ev.

Lemma ev_handle_sync packet addr now n : evolves n (handle_sync packet addr now n).1.
Proof using Type. unfold handle_sync. repeat ev_step. Qed.

Lemma ev_handle_ping packet addr n : evolves n (handle_ping packet addr n).1.
Proof using Type. unfold handle_ping. repeat ev_step. Qed.

Lemma ev_node_handle_pong packet now n : evolves n (node_handle_pong packet now n).1.
Proof using Type. unfold node_handle_pong. repeat ev_step. Qed.

Lemma ev_build_endpoint_update ep p n : evolves n (build_endpoint_update ep p n).1.
Proof using Type. unfold build_endpoint_update. repeat ev_step. Qed.
Hint Resolve ev_build_endpoint_update : node_ev.

Lemma ev_apply_endpoint_update now u n : evolves n (apply_endpoint_update now u n).
Proof using Type.
  unfold apply_endpoint_update. eapply evolves_trans; [apply evolves_table|by apply evolves_frame].
  intros Ht. split; [|done]. apply update_entry_wf; [|done]. intros e. by case_match.
Qed.

Lemma ev_node_handle_endpoint_update packet now n :
  evolves n (node_handle_endpoint_update packet now n).1.
Proof using Type.
  unfold node_handle_endpoint_update. ev_step; [ev_step|]. unfold modify, handle_endpoint_update. cbn [fst].
  destruct (negb _); [by apply evolves_frame|].
  eapply evolves_trans; [apply ev_apply_endpoint_update|by apply evolves_frame].
Qed.

Lemma ev_send_all out n : evolves n (send_all_to out n).1.
Proof using Type. unfold send_all_to. repeat ev_step. Qed.
Hint Resolve ev_send_all : node_ev.

Lemma ev_resolver_handle_request req addr now n : evolves n (resolver_handle_request req addr now n).1.
Proof using Type.
  unfold resolver_handle_request. destruct (handle_resolve_request _ _ _ _ _ _ _) as [rm [out|e]].
  - apply (evolves_trans _ (set_n_resolver rm n)); [by apply evolves_frame|apply ev_send_all].
  - by apply evolves_frame.
Qed.
Hint Resolve ev_resolver_handle_request : node_ev.

Lemma ev_node_handle_resolve packet addr now n :
  evolves n (node_handle_resolve_request packet addr now n).1.
Proof using Type. unfold node_handle_resolve_request. repeat ev_step. Qed.

Lemma ev_rate_limit packet addr now n : evolves n (rate_limit packet addr now n).1.
Proof using Type.
  unfold rate_limit. repeat case_match; by apply evolves_frame.
Qed.

Hint Resolve ev_handle_hello ev_handle_hello_ack ev_handle_data ev_node_handle_ack ev_handle_app_ack
  ev_handle_sync ev_handle_ping ev_node_handle_pong ev_node_handle_endpoint_update
  ev_node_handle_resolve ev_rate_limit : node_ev.

Lemma ev_datagram data addr now d n : evolves n (datagram_received data addr now d n).1.
Proof using Type.
  unfold datagram_received, handle_packet, dispatch. repeat ev_step.
Qed.

Lemma ev_connect p ep now d n : evolves n (connect_to_peer p ep now d n).1.
Proof using Type. unfold connect_to_peer. repeat ev_step. Qed.
Hint Resolve ev_connect : node_ev.

Lemma ev_hello_exhausted p now n : evolves n (hello_exhausted p now n).1.
Proof using Type. unfold hello_exhausted. repeat ev_step. Qed.
Hint Resolve ev_hello_exhausted : node_ev.

Lemma ev_retry_hello_wake task now n : evolves n (retry_hello_wake task now n).1.
Proof using Type. unfold retry_hello_wake. repeat ev_step. Qed.

Lemma ev_start_resolution p force d n : evolves n (start_resolution p force d n).1.
Proof using Type.
  unfold start_resolution. destruct (resolve_start _ _ _ _ _ _ _) as [rm [[ep|fut out]|e]];
    [by apply evolves_frame| |by apply evolves_frame].
  apply (evolves_trans _ (set_n_resolver rm n)); [by apply evolves_frame|]. repeat ev_step.
Qed.

Lemma ev_finish_resolution p fut n : evolves n (finish_resolution p fut n).1.
Proof using Type. unfold finish_resolution. destruct (resolve_finish _ _ _). by apply evolves_frame. Qed.

Lemma ev_store_outbox m p nonce n : evolves n (store_outbox m p nonce n).1.
Proof using Type. unfold store_outbox. destruct (store_message _ _ _ _ _). by apply evolves_frame. Qed.
Hint Resolve ev_start_resolution ev_finish_resolution ev_store_outbox : node_ev.

Lemma ev_send_message p text now d n : evolves n (send_message p text now d n).1.
Proof using Type.
  unfold send_message. repeat ev_step. apply evolves_queue. by apply dset_wf.
Qed.

Lemma ev_send_message_resolved p fut now d n : evolves n (send_message_resolved p fut now d n).1.
Proof using Type. unfold send_message_resolved. repeat ev_step. Qed.

Lemma ev_add_contact code now d n : evolves n (add_contact_from_invite code now d n).1.
Proof using Type.
  unfold add_contact_from_invite. repeat ev_step. apply evolves_table. intros Ht.
  destruct (get_entry _ _); (split; [|by unfold add_direct_peer; try case_bool_decide]).
  - by apply update_entry_wf.
  - by apply add_direct_peer_wf.
Qed.

Lemma ev_rename_peer p nick n : evolves n (rename_peer p nick n).1.
Proof using Type.
  unfold rename_peer. repeat ev_step. apply evolves_table. intros Ht. split; [|done].
  by apply update_entry_wf.
Qed.

Lemma ev_set_peer_archived p b now n : evolves n (set_peer_archived p b now n).1.
Proof using Type. unfold set_peer_archived. repeat ev_step. Qed.

Lemma ev_drop_session p n : evolves n (drop_session p n).1.
Proof using Type.
  unfold drop_session. repeat ev_step. apply evolves_registry. apply remove_ok.
Qed.
Hint Resolve ev_drop_session : node_ev.

Lemma ev_remove_peer p n : evolves n (node_remove_peer p n).1.
Proof using Type.
  unfold node_remove_peer. repeat ev_step. apply evolves_table. intros Ht. split; [|done].
  by apply table_remove_peer_wf.
Qed.

Lemma ev_disconnect p now n : evolves n (handle_peer_disconnect p now n).1.
Proof using Type. unfold handle_peer_disconnect. repeat ev_step. Qed.

Lemma ev_reconnect p now d n : evolves n (reconnect_peer p now d n).1.
Proof using Type. unfold reconnect_peer. repeat ev_step. Qed.

Lemma ev_reconnect_resolved p ep fut now d n : evolves n (reconnect_peer_resolved p ep fut now d n).1.
Proof using Type. unfold reconnect_peer_resolved. repeat ev_step. Qed.

Lemma ev_retry_pass now n : evolves n (node_retry_pass now n).
Proof using Type.
  unfold node_retry_pass, retry_pass. generalize (get_timed_out_messages (n_queue n) now).
  intros ids. revert n. induction ids as [|i ids IH]; intros n; cbn; [apply evolves_refl|].
  eapply evolves_trans; [|apply IH]. unfold retry_one.
  pose proof (handle_timeout_wf (n_queue n) i) as Hwf. destruct (handle_timeout (n_queue n) i) as [q st].
  apply (evolves_trans _ (set_n_queue q n)); [by apply evolves_queue|].
  destruct (dget q i) as [e|]; [|apply evolves_refl].
  destruct st; try apply evolves_refl; [apply ev_resend|]. apply ev_storage.
Qed.

Lemma ev_broadcast ep n : evolves n (broadcast_endpoint_update ep n).1.
Proof using Type. unfold broadcast_endpoint_update. repeat ev_step. Qed.

Lemma ev_run_scheduled n : evolves n (run_scheduled n).1.
Proof using Type.
  unfold run_scheduled. destruct (n_scheduled n) as [|op ops]; [apply evolves_refl|].
  apply (evolves_trans _ (set_n_scheduled ops n)); [by apply evolves_frame|]. apply ev_storage.
Qed.
Hint Resolve ev_disconnect : node_ev.

Lemma ev_heartbeat_notice e now n : evolves n (heartbeat_notice e now n).1.
Proof using Type. unfold heartbeat_notice. repeat ev_step. Qed.

Lemma ev_load_peer now pr n : evolves n (load_peer now pr n).1.
Proof using Type.
  unfold load_peer. repeat ev_step. apply evolves_table. intros Ht. split.
  - apply update_entry_wf; [done|]. by apply add_direct_peer_wf.
  - unfold update_entry, add_direct_peer. by case_bool_decide.
Qed.

Lemma ev_load_floor sr n : evolves n (load_floor sr n).1.
Proof using Type. unfold load_floor. repeat ev_step. Qed.

Lemma ev_load_queued now nonce qr n : evolves n (load_queued now nonce qr n).1.
Proof using Type.
  unfold load_queued. repeat ev_step. apply evolves_queue. by apply dset_wf.
Qed.
Hint Resolve ev_load_peer ev_load_floor ev_load_queued : node_ev.

Lemma ev_start now nonce sh1 sh2 n : evolves n (node_start now nonce sh1 sh2 n).1.
Proof using Type. unfold node_start. repeat ev_step. Qed.

Lemma ev_stop now n : evolves n (node_stop now n).1.
Proof using Type.
  unfold node_stop, flush_sessions. repeat ev_step. apply evolves_heartbeat. apply stop_all_loops.
Qed.
End methods.

(** ** Steps *)

Section steps.
Context `{C : CryptoLib}.

(** A turn of a heartbeat loop up to its second sleep: the ping goes out at once. *)
Definition node_wake_ping (task : nat) (ping_id : bytes) (now : seconds) : M () := λ n,
  let '(hb, evs) := wake_ping (n_heartbeat n) task ping_id in
  for_each (λ e, heartbeat_notice e now) evs (set_n_heartbeat hb n).

Lemma ev_wake_ping task ping_id now n : evolves n (node_wake_ping task ping_id now n).1.
Proof using Type.
  unfold node_wake_ping. pose proof (owned_wake_ping (n_heartbeat n) task ping_id) as Hw.
  destruct (wake_ping _ _ _) as [hb evs]. apply (evolves_trans _ (set_n_heartbeat hb n)); [by apply evolves_heartbeat|].
  apply ev_for_each. intros e n'. apply ev_heartbeat_notice.
Qed.

(** The background loops that the node starts once. *)
Inductive background := RotationLoop | ReconnectLoop | RetryLoop.

#[export] Instance background_eq_dec : EqDecision background.
Proof. solve_decision. Defined.

(** A turn of a background loop.  The reconnect loop takes the peers one by one: it archives, or it connects,
    perhaps after a resolution, and records the attempt. *)
Inductive loop_step : background → node → node → Prop :=
| loop_rotate sh1 sh2 now n :
    loop_step RotationLoop n (set_n_overlay (rotate sh1 sh2 (n_overlay n) (n_table n) now) n)
| loop_retry now n : loop_step RetryLoop n (node_retry_pass now n)
| loop_reconnect p now d n : loop_step ReconnectLoop n (reconnect_peer p now d n).1
| loop_reconnect_resolved p ep fut now d n : loop_step ReconnectLoop n (reconnect_peer_resolved p ep fut now d n).1
| loop_attempted p now n : loop_step ReconnectLoop n (set_n_reconnect (record_attempt (n_reconnect n) p now) n)
| loop_archive p now n : loop_step ReconnectLoop n (set_peer_archived p true now n).1.

(** A call from the user interface, or a turn of a task that belongs to one peer: HELLO retries, heartbeats,
    scheduled writes.  The notices of the heartbeat loop run as tasks of their own. *)
Inductive call_step : node → node → Prop :=
| step_send p text now d n : call_step n (send_message p text now d n).1
| step_send_resolved p fut now d n : call_step n (send_message_resolved p fut now d n).1
| step_connect p ep now d n : call_step n (connect_to_peer p ep now d n).1
| step_hello_retry task now n : call_step n (retry_hello_wake task now n).1
| step_scheduled n : call_step n (run_scheduled n).1
| step_wake_ping task ping_id now n : call_step n (node_wake_ping task ping_id now n).1
| step_wake_check task n : call_step n (set_n_heartbeat (wake_check (n_heartbeat n) task).1 n)
| step_notice e now n : is_notice e = true → call_step n (heartbeat_notice e now n).1
| step_add_contact code now d n : call_step n (add_contact_from_invite code now d n).1
| step_rename p nick n : call_step n (rename_peer p nick n).1
| step_archive p b now n : call_step n (set_peer_archived p b now n).1
| step_remove p n : call_step n (node_remove_peer p n).1
| step_broadcast ep n : call_step n (broadcast_endpoint_update ep n).1.

(** What the node does by itself or for the user interface. *)
Inductive local_step : node → node → Prop :=
| step_start now nonce sh1 sh2 n : local_step n (node_start now nonce sh1 sh2 n).1
| step_loop b n n' : loop_step b n n' → local_step n n'
| step_call n n' : call_step n n' → local_step n n'
| step_stop now n : local_step n (node_stop now n).1.

(** What can happen to a node: something local, or a datagram arrives. *)
Inductive node_step : node → node → Prop :=
| step_local n n' : local_step n n' → node_step n n'
| step_datagram data addr now d n : node_step n (datagram_received data addr now d n).1.

Lemma loop_step_evolves b n n' : loop_step b n n' → evolves n n'.
Proof using Type.
  destruct 1; first [by apply evolves_frame | apply ev_retry_pass | apply ev_reconnect | apply ev_reconnect_resolved
    | apply ev_set_peer_archived].
Qed.

Lemma call_step_evolves n n' : call_step n n' → evolves n n'.
Proof using Type.
  destruct 1; first [by apply evolves_heartbeat, owned_wake_check | apply ev_send_message
    | apply ev_send_message_resolved | apply ev_connect | apply ev_retry_hello_wake
    | apply ev_run_scheduled | apply ev_wake_ping | apply ev_heartbeat_notice
    | apply ev_add_contact | apply ev_rename_peer | apply ev_set_peer_archived
    | apply ev_remove_peer | apply ev_broadcast].
Qed.

Lemma local_step_evolves n n' : local_step n n' → evolves n n'.
Proof using Type.
  destruct 1; eauto using ev_start, ev_stop, loop_step_evolves, call_step_evolves.
Qed.

Lemma node_step_evolves n n' : node_step n n' → evolves n n'.
Proof using Type. destruct 1; [by apply local_step_evolves|apply ev_datagram]. Qed.

Lemma node_steps_evolve n n' : rtc node_step n n' → evolves n n'.
Proof using Type.
  induction 1 as [|n1 n2 n3 H _ IH]; [apply evolves_refl|].
  eapply evolves_trans; [by apply node_step_evolves|done].
Qed.

Lemma fresh_node_ok me port k ml db logs outbox t :
  db_wf db → node_ok (fresh_node me port k ml db logs outbox t).
Proof using Type.
  intros Hdb. split; cbn; [|done|done|apply NoDup_nil_2|apply empty_registry_ok|done].
  split; cbn; [apply NoDup_nil_2|]. intros k' e Hin. by apply elem_of_nil in Hin.
Qed.

(** C5: the invariant of the node.  In every state that a node created on a well-formed database reaches
    through any datagrams, calls and background activity, in any order: the peer table holds each peer
    once, under its own id, and not the node itself; the database tables keep their primary keys; the
    queue holds each message once; the session registry lists at most 100 sessions, each live and
    under its own session id and peer id; and every running heartbeat loop is the one registered for its
    peer, so no peer has two. *)
Theorem reachable_node_ok (me : LocalIdentity) (port k : Z) (ml : MessageLog) (db : database)
    (logs outbox : files) (t : seconds) (n : node) :
  db_wf db → rtc node_step (fresh_node me port k ml db logs outbox t) n → node_ok n.
Proof using Type. intros Hdb Hn. apply (node_steps_evolve _ _ Hn). by apply fresh_node_ok. Qed.

(** Session counters never go back.  Whatever happens to a node, a session object keeps its id, key
    and peer, and its send and receive counters never decrease: nothing but advancing touches them, so
    no number is sent twice by [build_data_packet] and no accepted number becomes acceptable again. *)
Theorem session_counters_monotone (n n' : node) (r : sref) (s : Session) :
  rtc node_step n n' → n_heap n !! r = Some s →
  ∃ s', n_heap n' !! r = Some s' ∧ s_session_id s' = s_session_id s ∧
    s_encryption_key s' = s_encryption_key s ∧ s_remote_peer_id s' = s_remote_peer_id s ∧
    (s_send_sequence s ≤ s_send_sequence s')%Z ∧ (s_recv_sequence s ≤ s_recv_sequence s')%Z ∧
    ∀ seq, check_recv_sequence s seq = false → check_recv_sequence s' seq = false.
Proof using Type.
  intros Hn Hs. destruct (proj2 (node_steps_evolve _ _ Hn) r s Hs) as (s' & Hs' & (I1 & I2 & I3) & A & B).
  exists s'. split_and!; try done. intros seq. unfold check_recv_sequence. rewrite !Z.ltb_ge. lia.
Qed.
End steps.

(** ** Examples *)

Module InvExample.
Import ToyCrypto NodeExample PeersExample.

(** A node that is started and gets a datagram. *)
Definition first : node := fresh_node alice 4001 8 (new_message_log 50 5) saved_db ∅ ∅ (secs 4).
Definition second : node := (node_start (secs 5) (λ _, be_encode 12 1) id id first).1.
Definition third : node := (datagram_received (be_encode 9 1) addr_bob (secs 6) drawn second).1.

Lemma two_steps : rtc node_step first third.
Proof.
  apply (rtc_l _ _ second); [apply step_local, step_start|]. apply (rtc_l _ _ third); [apply step_datagram|].
  apply rtc_refl.
Qed.

Lemma reachable_node_ok_witness : node_ok third ∧ length (pt_peers (n_table third)) = 1.
Proof.
  split; [|vm_compute; reflexivity].
  apply (reachable_node_ok alice 4001 8 (new_message_log 50 5) saved_db ∅ ∅ (secs 4)).
  - unfold saved_db. cbn [foldl]. do 2 apply db_exec_wf. apply empty_db_wf.
  - apply two_steps.
Defined.

(** [node_b] accepts a message. *)
Definition after_data : node :=
  (datagram_received (default [] (match packet_serialize data_pkt with Ok w => Some w | Raise _ => None end))
     addr_alice (secs 2) drawn node_b).1.

Lemma session_counters_monotone_witness :
  ∃ s', n_heap after_data !! 0 = Some s' ∧ s_recv_sequence s' = 1%Z ∧
    check_recv_sequence s' 0 = false.
Proof.
  destruct (session_counters_monotone node_b after_data 0 session_ba)
    as (s' & H1 & _ & _ & _ & _ & _ & H2).
  - apply (rtc_l _ _ after_data); [apply step_datagram|apply rtc_refl].
  - vm_compute. reflexivity.
  - exists s'. split_and!; [exact H1| |apply H2; vm_compute; reflexivity].
    vm_compute in H1. by injection H1 as <-.
Defined.
End InvExample.
