(* ===== verification/Lifecycle.v ===== *)
(** * Starting and stopping the node (node.py, overlay.py, reconnect.py, queue_manager.py)

    Around the node stand the tasks of its background loops, the attributes that name them ([overlay._task],
    [reconnect._task] and [_running], [queue_manager._retry_task] and [_retry_running]) and the UDP listener.  Tasks have
    numbers; [rt_tasks] holds the unfinished ones.  Each of the loops catches [CancelledError] and returns, so cancelling
    a task and awaiting it ends it.  A turn of a loop is one step ([loop_step]); the retry and the reconnect loop look
    at their flag before each turn and return when it is down. *)

From S2P Require Import Prelude Bytes PyDict PyText IpAddr Packet Crypto Session Handshake QueueManager.
From S2P Require Import PeerState RateLimiter Overlay Resolution Reconnect Heartbeat Storage LogFiles.
From S2P Require Import NodeState Node NodeProps NodeExchange NodePeers NodeInv Transport.

Record runtime := mkRuntime {
  rt_node : node;
  rt_next : nat;                       (* the number of the next task *)
  rt_tasks : gmap nat background;
  rt_rotation_task : option nat;
  rt_reconnect_running : bool;
  rt_reconnect_task : option nat;
  rt_retry_running : bool;
  rt_retry_task : option nat;
  rt_transport : option UDPTransport;
  rt_sockets : sockets;
  rt_running : bool;
  rt_storage_open : bool }.

(** ** Assignments *)

Definition set_rt_node (n : node) (rt : runtime) : runtime :=
  mkRuntime n (rt_next rt) (rt_tasks rt) (rt_rotation_task rt) (rt_reconnect_running rt) (rt_reconnect_task rt)
    (rt_retry_running rt) (rt_retry_task rt) (rt_transport rt) (rt_sockets rt) (rt_running rt) (rt_storage_open rt).
Definition set_rt_tasks (ts : gmap nat background) (rt : runtime) : runtime :=
  mkRuntime (rt_node rt) (rt_next rt) ts (rt_rotation_task rt) (rt_reconnect_running rt) (rt_reconnect_task rt)
    (rt_retry_running rt) (rt_retry_task rt) (rt_transport rt) (rt_sockets rt) (rt_running rt) (rt_storage_open rt).
Definition set_rt_rotation (t : option nat) (rt : runtime) : runtime :=
  mkRuntime (rt_node rt) (rt_next rt) (rt_tasks rt) t (rt_reconnect_running rt) (rt_reconnect_task rt)
    (rt_retry_running rt) (rt_retry_task rt) (rt_transport rt) (rt_sockets rt) (rt_running rt) (rt_storage_open rt).
Definition set_rt_reconnect (b : bool) (t : option nat) (rt : runtime) : runtime :=
  mkRuntime (rt_node rt) (rt_next rt) (rt_tasks rt) (rt_rotation_task rt) b t
    (rt_retry_running rt) (rt_retry_task rt) (rt_transport rt) (rt_sockets rt) (rt_running rt) (rt_storage_open rt).
Definition set_rt_retry (b : bool) (t : option nat) (rt : runtime) : runtime :=
  mkRuntime (rt_node rt) (rt_next rt) (rt_tasks rt) (rt_rotation_task rt) (rt_reconnect_running rt)
    (rt_reconnect_task rt) b t (rt_transport rt) (rt_sockets rt) (rt_running rt) (rt_storage_open rt).
Definition set_rt_transport (u : option UDPTransport) (ss : sockets) (rt : runtime) : runtime :=
  mkRuntime (rt_node rt) (rt_next rt) (rt_tasks rt) (rt_rotation_task rt) (rt_reconnect_running rt)
    (rt_reconnect_task rt) (rt_retry_running rt) (rt_retry_task rt) u ss (rt_running rt) (rt_storage_open rt).
Definition set_rt_running (b : bool) (rt : runtime) : runtime :=
  mkRuntime (rt_node rt) (rt_next rt) (rt_tasks rt) (rt_rotation_task rt) (rt_reconnect_running rt)
    (rt_reconnect_task rt) (rt_retry_running rt) (rt_retry_task rt) (rt_transport rt) (rt_sockets rt) b (rt_storage_open rt).
Definition set_rt_storage_open (b : bool) (rt : runtime) : runtime :=
  mkRuntime (rt_node rt) (rt_next rt) (rt_tasks rt) (rt_rotation_task rt) (rt_reconnect_running rt)
    (rt_reconnect_task rt) (rt_retry_running rt) (rt_retry_task rt) (rt_transport rt) (rt_sockets rt) (rt_running rt) b.

(** ** The event loop *)

(** [asyncio.create_task]; the number of the task is [rt_next]. *)
Definition create_task (b : background) (rt : runtime) : runtime :=
  mkRuntime (rt_node rt) (S (rt_next rt)) (<[rt_next rt := b]> (rt_tasks rt)) (rt_rotation_task rt)
    (rt_reconnect_running rt) (rt_reconnect_task rt) (rt_retry_running rt) (rt_retry_task rt) (rt_transport rt)
    (rt_sockets rt) (rt_running rt) (rt_storage_open rt).

(** [if task and not task.done(): task.cancel(); await task] *)
Definition cancel_task (t : option nat) (rt : runtime) : runtime :=
  match t with Some t => set_rt_tasks (delete t (rt_tasks rt)) rt | None => rt end.

(** ** The loops *)

(** [OverlayManager.start_rotation_loop] *)
Definition start_rotation_loop (rt : runtime) : runtime :=
  set_rt_rotation (Some (rt_next rt)) (create_task RotationLoop rt).

(** [OverlayManager.stop] *)
Definition overlay_stop (rt : runtime) : runtime := cancel_task (rt_rotation_task rt) rt.

(** [ReconnectManager.start] *)
Definition reconnect_start (rt : runtime) : runtime :=
  if rt_reconnect_running rt then rt
  else set_rt_reconnect true (Some (rt_next rt)) (create_task ReconnectLoop rt).

(** [ReconnectManager.stop] *)
Definition reconnect_stop (rt : runtime) : runtime :=
  set_rt_reconnect false None (cancel_task (rt_reconnect_task rt) rt).

(** [QueueManager.start_retry_loop] *)
Definition start_retry_loop (rt : runtime) : runtime :=
  set_rt_retry true (Some (rt_next rt)) (create_task RetryLoop rt).

(** [QueueManager.stop_retry_loop] *)
Definition stop_retry_loop (rt : runtime) : runtime :=
  let rt1 := set_rt_retry false (rt_retry_task rt) rt in cancel_task (rt_retry_task rt1) rt1.

(** [StorageManager.close] *)
Definition storage_close (rt : runtime) : runtime := if rt_storage_open rt then set_rt_storage_open false rt else rt.

(** ** The node *)

Section lifecycle.
Context `{C : CryptoLib}.

(** [Node(config)], with the identity, the database and the files that [start] finds *)
Definition new_runtime (n : node) (ss : sockets) : runtime := 
  mkRuntime n 0 ∅ None false None false None None ss false false.

(** [start()] *)
Definition node_boot (bind : endpoint → bool) (now : seconds) (nonce : pystr → bytes)
    (shuffle1 : list PeerEntry → list PeerEntry) (shuffle2 : list bytes → list bytes) (rt : runtime)
    : runtime * result () :=
  let '(n, r) := node_start now nonce shuffle1 shuffle2 (rt_node rt) in
  let rt1 := set_rt_node n (set_rt_storage_open true rt) in
  match r with
  | Raise e => (rt1, Raise e)
  | Ok _ =>
      let rt2 := start_rotation_loop rt1 in
      let '(ss, l) := start_udp_listener bind (n_bound_port n) true (str "0.0.0.0") (rt_sockets rt2) in
      match l with
      | Raise e => (set_rt_transport (rt_transport rt2) ss rt2, Raise e)
      | Ok (_, u) =>
          let rt3 := set_rt_transport (Some u) ss rt2 in
          (set_rt_running true (start_retry_loop (reconnect_start rt3)), Ok ())
      end
  end.

(** [stop()]: the loops, the heartbeats and the socket *)
Definition stop_tasks (rt : runtime) : runtime :=
  let rt1 := reconnect_stop (stop_retry_loop (set_rt_running false rt)) in
  let rt2 := set_rt_node (set_n_heartbeat (stop_all (n_heartbeat (rt_node rt1))) (rt_node rt1)) rt1 in
  let rt3 := overlay_stop rt2 in
  match rt_transport rt3 with
  | Some u => set_rt_transport (Some u) (udp_close u (rt_sockets rt3)) rt3
  | None => rt3
  end.

(** [stop()] *)
Definition node_shutdown (now : seconds) (rt : runtime) : runtime * result () :=
  let rt1 := stop_tasks rt in
  let '(n, r) := flush_sessions now (rt_node rt1) in
  let rt2 := set_rt_node n rt1 in
  match r with
  | Raise e => (rt2, Raise e)
  | Ok _ => (storage_close rt2, Ok ())
  end.

(** ** Running *)

Inductive runtime_step : runtime → runtime → Prop :=
| run_turn t b rt n' :                  (* a turn of a background loop *)
    rt_tasks rt !! t = Some b →
    (b = ReconnectLoop → rt_reconnect_running rt = true) → (b = RetryLoop → rt_retry_running rt = true) →
    loop_step b (rt_node rt) n' → runtime_step rt (set_rt_node n' rt)
| run_reconnect_ends t rt :             (* the loop sees that its flag is down *)
    rt_tasks rt !! t = Some ReconnectLoop → rt_reconnect_running rt = false →
    runtime_step rt (set_rt_tasks (delete t (rt_tasks rt)) rt)
| run_retry_ends t rt :
    rt_tasks rt !! t = Some RetryLoop → rt_retry_running rt = false →
    runtime_step rt (set_rt_tasks (delete t (rt_tasks rt)) rt)
| run_datagram u k s r data addr now d rt :   (* a datagram arrives on the socket of the node *)
    rt_transport rt = Some u → ut_transport u = Some k → rt_sockets rt !! k = Some s → sk_open s = true →
    udp_datagram_received u data addr = Ok r →
    runtime_step rt (set_rt_node (deliver r now d (rt_node rt)).1 rt)
| run_call rt n' :                      (* a call, or a task of one peer *)
    call_step (rt_node rt) n' → runtime_step rt (set_rt_node n' rt).

(** Exactly the three loops run, each once and under the name its manager knows, and the socket is open. *)
Record runtime_up (local : endpoint) (rt : runtime) : Prop := {
  ru_tasks : ∃ t1 t2 t3, t1 ≠ t2 ∧ t1 ≠ t3 ∧ t2 ≠ t3 ∧
    rt_tasks rt = {[t1 := RotationLoop; t2 := ReconnectLoop; t3 := RetryLoop]} ∧
    rt_rotation_task rt = Some t1 ∧ rt_reconnect_task rt = Some t2 ∧ rt_retry_task rt = Some t3;
  ru_flags : rt_reconnect_running rt = true ∧ rt_retry_running rt = true ∧ rt_running rt = true ∧ rt_storage_open rt = true;
  ru_socket : ∃ u k s, rt_transport rt = Some u ∧ ut_coroutine u = true ∧ ut_transport u = Some k ∧
    rt_sockets rt !! k = Some s ∧ sk_open s = true ∧ sk_local s = local }.

(** Nothing runs that belongs to the node as a whole. *)
Record runtime_down (rt : runtime) : Prop := {
  rd_tasks : rt_tasks rt = ∅;
  rd_flags : rt_reconnect_running rt = false ∧ rt_retry_running rt = false ∧ rt_running rt = false ∧ rt_storage_open rt = false;
  rd_heartbeats : hb_loops (n_heartbeat (rt_node rt)) = ∅;
  rd_socket : ∃ u k s, rt_transport rt = Some u ∧ ut_transport u = Some k ∧ rt_sockets rt !! k = Some s ∧
    sk_open s = false }.

(** ** Lemmas *)

Lemma up_node local rt n : runtime_up local rt → runtime_up local (set_rt_node n rt).
Proof using Type. intros [H1 H2 H3]. by split. Qed.

Lemma runtime_step_node rt rt' :
  runtime_step rt rt' → evolves (rt_node rt) (rt_node rt').
Proof using Type.
  destruct 1 as [t b rt n' _ _ _ H| | |u k s r data addr now d rt _ _ _ _ Hr|rt n' H]; cbn;
    try apply evolves_refl; [by eapply loop_step_evolves| |by apply call_step_evolves].
  assert (datagram_received data addr now d (rt_node rt) = deliver r now d (rt_node rt)) as <-; [|apply ev_datagram].
  unfold udp_datagram_received in Hr. unfold datagram_received.
  destruct (packet_deserialize data) as [p|[]]; try done; apply Ok_inj in Hr as <-; [|done].
  by destruct (ut_coroutine u).
Qed.

Lemma runtime_step_up local rt rt' : runtime_up local rt → runtime_step rt rt' → runtime_up local rt'.
Proof using Type.
  intros Hup Hs. pose proof (ru_flags _ _ Hup) as (F1 & F2 & _).
  destruct Hs; try (by apply up_node); congruence.
Qed.

Lemma runtime_steps_up local rt rt' :
  runtime_up local rt → rtc runtime_step rt rt' → runtime_up local rt' ∧ evolves (rt_node rt) (rt_node rt').
Proof using Type.
  intros Hup Hs. induction Hs as [rt|rt1 rt2 rt3 H12 _ IH]; [split; [done|apply evolves_refl]|].
  destruct IH as [H3 E]; [by eapply runtime_step_up|]. split; [done|].
  eapply evolves_trans; [by apply runtime_step_node|done].
Qed.

Lemma boot_up bind now nonce sh1 sh2 n n1 ss :
  node_start now nonce sh1 sh2 n = (n1, Ok ()) → bind (str "0.0.0.0", n_bound_port n1) = true →
  ∃ rt1, node_boot bind now nonce sh1 sh2 (new_runtime n ss) = (rt1, Ok ()) ∧ rt_node rt1 = n1 ∧
    runtime_up (str "0.0.0.0", n_bound_port n1) rt1.
Proof using Type.
  intros Hn Hb. unfold node_boot. cbn [rt_node new_runtime]. rewrite Hn.
  destruct (start_udp_listener _ _ _ _ _) as [ss' r] eqn:El. pose proof El as El'.
  unfold start_udp_listener in El. rewrite Hb in El. injection El as _ Hr. rewrite <- Hr in *.
  apply started_listener in El' as (_ & _ & Hss). eexists. split; [reflexivity|]. split; [done|]. split.
  - exists 0, 1, 2. cbn. split_and!; try done.
  - done.
  - eexists _, _, (mkSocket _ [] true). cbn. rewrite Hss, lookup_insert_eq. by split_and!.
Qed.

(** ** The flush *)

Lemma filter_id {A} (P : A → Prop) `{∀ x, Decision (P x)} (l : list A) : (∀ x, x ∈ l → P x) → filter P l = l.
Proof using Type.
  induction l as [|x l IH]; intros HP; [done|]. rewrite filter_cons_True by (apply HP; set_solver).
  f_equal. apply IH. set_solver.
Qed.

Lemma filter_none {A} (P : A → Prop) `{∀ x, Decision (P x)} (l : list A) : (∀ x, x ∈ l → ¬ P x) → filter P l = [].
Proof using Type.
  induction l as [|x l IH]; intros HP; [done|]. rewrite filter_cons_False by (apply HP; set_solver). apply IH. set_solver.
Qed.

(** The row that [save_session_state] writes for a session object *)
Definition session_row (h : sheap) (now : seconds) (e : bytes * sref) : list (bytes * SessionRecord) :=
  match h !! e.2 with
  | Some s => [(e.1, mkSessionRecord (s_session_id s) (s_remote_peer_id s) (s_send_sequence s) (s_recv_sequence s) now)]
  | None => []
  end.

Lemma flush_list now l n :
  NoDup l.*1 → (∀ sid r, (sid, r) ∈ l → ∃ s, n_heap n !! r = Some s ∧ s_session_id s = sid) →
  ∃ n', for_each (λ r,
      s ← get_session r;
      storage (DbSaveSession (s_session_id s) (s_remote_peer_id s) (s_send_sequence s)
                 (s_recv_sequence s) now)) l.*2 n = (n', Ok ()) ∧
    db_sessions (n_db n') = filter (λ kr, kr.1 ∉ l.*1) (db_sessions (n_db n)) ++ (l ≫= session_row (n_heap n) now) ∧
    n_heap n' = n_heap n ∧ n_registry n' = n_registry n ∧ n_heartbeat n' = n_heartbeat n ∧
    n_hello_loops n' = n_hello_loops n.
Proof using Type.
  revert n. induction l as [|[sid r] l IH]; intros n Hnd Hl.
  - exists n. split; [done|]. split_and!; try done. cbn. rewrite app_nil_r. symmetry. apply filter_id.
    intros kr _. set_solver.
  - apply NoDup_cons in Hnd as [Hsid Hnd]. destruct (Hl sid r) as (s & Hs & Hid); [set_solver|].
    set (n1 := (storage (DbSaveSession (s_session_id s) (s_remote_peer_id s) (s_send_sequence s)
                 (s_recv_sequence s) now) n).1).
    destruct (IH n1) as (n' & E & Hd & Hh & Hr & Hb & Hhl); [done|intros sid' r' Hin; apply Hl; set_solver|].
    exists n'. split.
    { cbn [for_each fmap list_fmap snd]. rewrite bind_eq, bind_eq. unfold get_session. rewrite Hs. exact E. }
    split_and!; try done. rewrite Hd. unfold n1. cbn. unfold session_row at 2. cbn [fst snd]. rewrite Hs, Hid.
    rewrite filter_app. unfold dpop. rewrite list_filter_filter. rewrite (filter_id _ [_]).
    + rewrite <- app_assoc. f_equal. apply list_filter_iff. intros [k x]. cbn. set_solver.
    + intros kr ->%list_elem_of_singleton. done.
Qed.

(** The last row of a peer with one session is that session's. *)
Lemma flushed_last h now l old sid r s :
  (sid, r) ∈ l → h !! r = Some s →
  (∀ sid' r' s', (sid', r') ∈ l → h !! r' = Some s' → s_remote_peer_id s' = s_remote_peer_id s → (sid', r') = (sid, r)) →
  NoDup l →
  last (filter (λ sr, sr_peer_id sr = s_remote_peer_id s) (old ++ (l ≫= session_row h now)).*2) =
  Some (mkSessionRecord (s_session_id s) (s_remote_peer_id s) (s_send_sequence s) (s_recv_sequence s) now).
Proof using Type.
  intros Hin Hs Huniq Hnd. apply list_elem_of_split in Hin as (l1 & l2 & ->).
  apply NoDup_app in Hnd as (_ & Hn1 & Hn2). apply NoDup_cons in Hn2 as [Hn2 _].
  assert (filter (λ sr, sr_peer_id sr = s_remote_peer_id s) (l2 ≫= session_row h now).*2 = []) as E.
  { apply filter_none. intros sr (kr & -> & Hkr)%list_elem_of_fmap.
    apply list_elem_of_bind in Hkr as ([sid' r'] & Hrow & Hin'). unfold session_row in Hrow. cbn [fst snd] in Hrow.
    destruct (h !! r') as [s'|] eqn:Hs'; [|by apply elem_of_nil in Hrow]. apply list_elem_of_singleton in Hrow as ->.
    cbn. intros Hp. apply Hn2. rewrite <- (Huniq sid' r' s'); [done|set_solver|done..]. }
  assert (session_row h now (sid, r) = [(sid, mkSessionRecord (s_session_id s) (s_remote_peer_id s) (s_send_sequence s)
    (s_recv_sequence s) now)]) as Er by (unfold session_row; cbn; by rewrite Hs).
  rewrite bind_app, bind_cons, Er, !fmap_app, !filter_app, E, app_nil_r, app_assoc. cbn [fmap list_fmap snd].
  rewrite filter_cons_True by done. apply last_snoc.
Qed.

Lemma shutdown_down local now rt :
  runtime_up local rt → node_ok (rt_node rt) →
  ∃ rt', node_shutdown now rt = (rt', Ok ()) ∧ runtime_down rt' ∧
    n_hello_loops (rt_node rt') = n_hello_loops (rt_node rt) ∧
    let n := rt_node rt in
    let l := by_session (n_registry n) in
    db_sessions (n_db (rt_node rt')) =
      filter (λ kr, kr.1 ∉ l.*1) (db_sessions (n_db n)) ++ (l ≫= session_row (n_heap n) now).
Proof using Type.
  intros [Hts (F1 & F2 & F3 & F4) (u & k & s & Hu & Hc & Hk & Hs & Ho & _)] Hok.
  destruct Hts as (t1 & t2 & t3 & N1 & N2 & N3 & Ht & H1 & H2 & H3).
  destruct rt as [n next tasks rot rcr rct rtr rtt tr ss run open]. cbn in *. subst.
  destruct (flush_list now (by_session (n_registry n)) (set_n_heartbeat (stop_all (n_heartbeat n)) n))
    as (n' & E & Hd & _ & _ & Hb & Hhl).
  { apply (nk_registry _ Hok). }
  { intros sid r Hin. apply (ro_s _ _ (nk_registry _ Hok)). by apply dget_elem; [apply (nk_registry _ Hok)|]. }
  set (rt := mkRuntime _ _ _ _ _ _ _ _ _ _ _ _). assert (flush_sessions now (rt_node (stop_tasks rt)) = (n', Ok ())) as Hf.
  { unfold flush_sessions. rewrite gets_bind. exact E. }
  unfold node_shutdown. cbv zeta. rewrite Hf. eexists. split; [reflexivity|]. split_and!; [|done|done].
  split; [|done|cbn; rewrite Hb; cbn; apply stop_all_loops, Hok|].
  - apply map_eq. intros i. cbn. rewrite lookup_empty. unfold singletonM, map_singleton.
    rewrite !lookup_delete, !lookup_insert, lookup_empty. by repeat case_decide.
  - exists u, k, (mkSocket (sk_local s) (sk_sent s) false). split_and!; try done. by apply closed_listener.
Qed.

(** After the stop only calls are left. *)
Lemma down_only_calls rt rt' :
  runtime_down rt → runtime_step rt rt' → ∃ n', call_step (rt_node rt) n' ∧ rt' = set_rt_node n' rt.
Proof using Type.
  intros [Ht _ _ (u & k & s & Hu & Hk & Hs & Ho)] Hst.
  destruct Hst as [t b rt n' H|t rt H|t rt H|u' k' s' r data addr now d rt H1 H2 H3 H4 _|rt n' H]; [..|by eauto].
  1-3: by rewrite Ht, lookup_empty in H.
  congruence.
Qed.

(** C11: the node comes up, runs and goes down as a whole.  Started on a well-formed database with a free port, [start]
    returns.  From then on, whatever datagrams arrive, calls are made and loops turn, there is exactly one task of the
    overlay rotation, one of the reconnect loop and one of the retry loop, each the one its manager would cancel, and the
    socket stays open on the same address and the database open.  [stop] in any of these states returns, and afterwards none of the loops and no
    heartbeat runs, the socket and the database are closed and no datagram is handled; the counters of every registered session are in the
    sessions table, after the rows of earlier sessions, so that for a peer with one session the row a restart reads last
    is that session's.  What [stop] leaves running are the HELLO retries. *)
Theorem lifecycle_correct (me : LocalIdentity) (port k : Z) (ml : MessageLog) (db : database) (logs outbox : files)
    (t0 t1 : seconds) (nonce : pystr → bytes) (shuffle1 : list PeerEntry → list PeerEntry)
    (shuffle2 : list bytes → list bytes) (bind : endpoint → bool) (ss : sockets) :
  db_wf db → (∀ m qr, dget (db_queue db) m = Some qr → ∃ bs, utf8_encode m = Ok bs) →
  (∀ ep, bind ep = true) →
  ∃ rt1 local,
    node_boot bind t1 nonce shuffle1 shuffle2 (new_runtime (fresh_node me port k ml db logs outbox t0) ss) = (rt1, Ok ()) ∧
    ∀ rt2, rtc runtime_step rt1 rt2 →
      runtime_up local rt2 ∧
      ∀ t2, ∃ rt3, node_shutdown t2 rt2 = (rt3, Ok ()) ∧ runtime_down rt3 ∧
        (∀ rt4, runtime_step rt3 rt4 → ∃ n, call_step (rt_node rt3) n ∧ rt4 = set_rt_node n rt3) ∧
        n_hello_loops (rt_node rt3) = n_hello_loops (rt_node rt2) ∧
        ∀ sid r, get_by_session_id (n_registry (rt_node rt2)) sid = Some r →
          ∃ s, n_heap (rt_node rt2) !! r = Some s ∧
            let row := mkSessionRecord sid (s_remote_peer_id s) (s_send_sequence s) (s_recv_sequence s) t2 in
            (sid, row) ∈ db_sessions (n_db (rt_node rt3)) ∧
            ((∀ sid' r' s', get_by_session_id (n_registry (rt_node rt2)) sid' = Some r' → n_heap (rt_node rt2) !! r' = Some s' →
                s_remote_peer_id s' = s_remote_peer_id s → sid' = sid) →
             last (filter (λ sr, sr_peer_id sr = s_remote_peer_id s) (db_load_all_sessions (n_db (rt_node rt3)))) = Some row).
Proof using Type.
  intros Hdb Hids Hbind.
  destruct (node_start_ok me port k ml db logs outbox t0 t1 nonce shuffle1 shuffle2 Hdb Hids) as (n1 & En & _).
  destruct (boot_up bind t1 nonce shuffle1 shuffle2 _ n1 ss En (Hbind _)) as (rt1 & Eb & Hn1 & Hup).
  exists rt1, (str "0.0.0.0", n_bound_port n1). split; [done|]. intros rt2 Hrun.
  destruct (runtime_steps_up _ _ _ Hup Hrun) as [Hup2 Hev]. split; [done|]. intros t2.
  assert (node_ok (rt_node rt2)) as Hok.
  { apply Hev. rewrite Hn1. pose proof (ev_start t1 nonce shuffle1 shuffle2 (fresh_node me port k ml db logs outbox t0)) as Hs.
    rewrite En in Hs. apply Hs. by apply fresh_node_ok. }
  destruct (shutdown_down _ t2 rt2 Hup2 Hok) as (rt3 & E3 & Hdown & Hh & Hrows). exists rt3. split_and!; try done.
  { intros rt4. by apply down_only_calls. }
  pose proof (nk_registry _ Hok) as Hreg. cbn zeta in Hrows.
  intros sid r Hr. destruct (ro_s _ _ Hreg _ _ Hr) as (s & Hs & Hsid). exists s. split; [done|]. cbn zeta.
  assert (Hin := dget_Some_elem _ _ _ Hr). split.
  - rewrite Hrows. apply elem_of_app. right. apply list_elem_of_bind. exists (sid, r). split; [|done].
    unfold session_row. cbn. rewrite Hs, Hsid. by apply list_elem_of_singleton.
  - intros Huniq. unfold db_load_all_sessions. rewrite Hrows, <- Hsid. apply flushed_last with (sid := sid) (r := r); try done.
    + intros sid' r' s' Hin' Hs' Hp. apply dget_elem in Hin'; [|apply Hreg].
      rewrite (Huniq sid' r' s') in * by done. unfold get_by_session_id in *. congruence.
    + apply (NoDup_fmap_1 fst). apply Hreg.
Qed.

(** A port in use: [start] raises after the rotation loop was started, and its task is left running. *)
Lemma boot_port_taken bind now nonce sh1 sh2 n n1 ss :
  node_start now nonce sh1 sh2 n = (n1, Ok ()) → bind (str "0.0.0.0", n_bound_port n1) = false →
  ∃ rt1, node_boot bind now nonce sh1 sh2 (new_runtime n ss) = (rt1, Raise OtherError) ∧
    rt_tasks rt1 = {[0 := RotationLoop]} ∧ rt_transport rt1 = None ∧ rt_running rt1 = false.
Proof using Type.
  intros Hn Hb. unfold node_boot. cbn [rt_node new_runtime]. rewrite Hn. unfold start_udp_listener. rewrite Hb.
  eexists. split; [reflexivity|]. done.
Qed.

(** [ReconnectManager.start] twice is [start] once. *)
Lemma reconnect_start_idempotent rt : reconnect_start (reconnect_start rt) = reconnect_start rt.
Proof using Type. unfold reconnect_start at 2 3. destruct (rt_reconnect_running rt) eqn:E; [|done]. unfold reconnect_start. by rewrite E. Qed.
End lifecycle.

Module LifecycleExample.
Import ToyCrypto NodeExample PeersExample.

Lemma lifecycle_correct_witness :
  ∃ rt1 local, node_boot (λ _, true) (secs 5) (λ _, be_encode 12 1) id id
      (new_runtime (fresh_node alice 4001 8 (new_message_log 50 5) saved_db ∅ ∅ (secs 4)) ∅) = (rt1, Ok ()) ∧
    runtime_up local rt1 ∧ ∃ rt3, node_shutdown (secs 9) rt1 = (rt3, Ok ()) ∧ runtime_down rt3.
Proof.
  destruct (lifecycle_correct alice 4001 8 (new_message_log 50 5) saved_db ∅ ∅ (secs 4) (secs 5) (λ _, be_encode 12 1) id id
    (λ _, true) ∅) as (rt1 & local & E & H).
  - unfold saved_db. cbn [foldl]. do 2 apply db_exec_wf. apply empty_db_wf.
  - intros m qr Hm. vm_compute in Hm. discriminate Hm.
  - reflexivity.
  - destruct (H rt1 (rtc_refl _ _)) as [Hup Hst]. destruct (Hst (secs 9)) as (rt3 & E3 & Hd & _).
    exists rt1, local. split; [exact E|]. split; [exact Hup|]. exists rt3. exact (conj E3 Hd).
Defined.
End LifecycleExample.
