(* ===== verification/NodeMoves.v ===== *)
(** * The elementary moves of a node (node.py)

    Whatever a method of the node does to the session objects, to the HELLO packets that wait for a retry
    and to the outside is a sequence of a few kinds of moves.  An invariant of these parts is proved once
    per kind and then holds for every method. *)

From S2P Require Import Prelude Bytes PyDict PyText IpAddr Packet Crypto Session Handshake QueueManager.
From S2P Require Import PeerState RateLimiter Overlay Resolution Reconnect Heartbeat Storage LogFiles.
From S2P Require Import NodeState Node NodeProps NodeExchange NodePeers NodeInv.

(** ** Moves *)

(** An event that neither sends a DATA packet nor shows a message. *)
Definition plain_event (ev : event) : Prop :=
  match ev with EvSend pkt _ => pkt_type pkt ≠ DATA | EvMessage _ _ => False | _ => True end.

(** An event that is not a database write either. *)
Definition quiet_event (ev : event) : Prop := match ev with EvDb _ => False | _ => plain_event ev end.

(** What a move means: nothing; a database write; a message numbered and sent on session object [r]; a
    payload accepted and shown; a packet rebuilt for a SYNC. *)
Inductive label :=
| Quiet
| Store (op : db_op)
| Transmit (r : sref) (seq : Z) (pt : bytes)
| Accept (r : sref) (dp : DataPayload) (pt : bytes)
| Resend.

Section moves.
Context `{C : CryptoLib}.

Inductive move : label → node → node → Prop :=
| move_frame n n' :
    n_heap n' = n_heap n → n_hello_loops n' = n_hello_loops n → n_trace n' = n_trace n →
    n_db n' = n_db n → move Quiet n n'
| move_emit ev n : quiet_event ev → move Quiet n (set_n_trace (n_trace n ++ [ev]) n)
| move_store op n :
    move (Store op) n (set_n_trace (n_trace n ++ [EvDb op]) (set_n_db (db_exec (n_db n) op) n))
| move_alloc r s n : n_heap n !! r = None → move Quiet n (set_n_heap (<[r := s]> (n_heap n)) n)
| move_session r s s' n :
    n_heap n !! r = Some s → same_ids s s' → (s_send_sequence s ≤ s_send_sequence s')%Z →
    (s_recv_sequence s ≤ s_recv_sequence s')%Z → move Quiet n (set_n_heap (<[r := s']> (n_heap n)) n)
| move_loops loops n :
    (∀ t h, loops !! t = Some h → pkt_type (hr_packet h) = HELLO ∨
       ∃ t' h', n_hello_loops n !! t' = Some h' ∧ hr_packet h' = hr_packet h) →
    move Quiet n (set_n_hello_loops loops n)
| move_hello t h ep n :
    n_hello_loops n !! t = Some h → move Quiet n (set_n_trace (n_trace n ++ [EvSend (hr_packet h) ep]) n)
| move_transmit r s dp pt pkt ep l n n' :
    n_heap n !! r = Some s → seal_data s (s_send_sequence s) pt = Ok dp →
    pkt_type pkt = DATA → data_deserialize (pkt_payload pkt) = Ok dp →
    n_heap n' = <[r := set_send_sequence (s_send_sequence s + 1) s]> (n_heap n) →
    n_hello_loops n' = n_hello_loops n → Forall plain_event l →
    n_trace n' = n_trace n ++ l ++ [EvSend pkt ep] → move (Transmit r (s_send_sequence s) pt) n n'
| move_accept r s s' dp pt l1 l2 n n' :
    n_heap n !! r = Some s → s_session_id s = data_session_id dp →
    decrypt_data_packet dp s = (s', Ok (Some pt)) → n_heap n' = <[r := s']> (n_heap n) →
    n_hello_loops n' = n_hello_loops n → Forall plain_event l1 → Forall plain_event l2 →
    n_trace n' = n_trace n ++ l1 ++ [EvMessage (s_remote_peer_id s) pt] ++ l2 → move (Accept r dp pt) n n'
| move_resend pkt ep n : move Resend n (set_n_trace (n_trace n ++ [EvSend pkt ep]) n).

(** The moves of a method, all with labels in [ok]. *)
Definition moves (ok : label → Prop) : node → node → Prop := rtc (λ n n', ∃ l, ok l ∧ move l n n').

Lemma moves_weaken (ok ok' : label → Prop) n n' : (∀ l, ok l → ok' l) → moves ok n n' → moves ok' n n'.
Proof using Type.
  intros Hok. apply rtc_subrel. intros m m' (l & Hl & Hm). eauto.
Qed.

(** Moves change session objects forwards only. *)
Lemma move_heap_grows l n n' : move l n n' → heap_grows (n_heap n) (n_heap n').
Proof using Type.
  destruct 1 as [n n' Hh| | | | | | |r s dp pt pkt ep l n n' Hs _ _ _ Hh|r s s' dp pt l1 l2 n n' Hs _ Hd Hh|];
    try apply heap_grows_refl.
  - rewrite Hh. apply heap_grows_refl.
  - by apply heap_grows_alloc.
  - by eapply heap_grows_insert.
  - rewrite Hh. eapply heap_grows_insert; [done..| |]; cbn; lia.
  - rewrite Hh. apply decrypt_accepted in Hd as [? ->]. eapply heap_grows_insert; [done..| |]; cbn; lia.
Qed.

Lemma moves_heap_grows ok n n' : moves ok n n' → heap_grows (n_heap n) (n_heap n').
Proof using Type.
  induction 1 as [|n1 n2 n3 (l & _ & Hm) _ IH]; [apply heap_grows_refl|].
  eapply heap_grows_trans; [by eapply move_heap_grows|done].
Qed.

(** The packets that wait for a retry are HELLO packets. *)
Definition loops_hello (n : node) : Prop :=
  ∀ t h, n_hello_loops n !! t = Some h → pkt_type (hr_packet h) = HELLO.

Lemma move_loops_hello l n n' : move l n n' → loops_hello n → loops_hello n'.
Proof using Type.
  unfold loops_hello.
  destruct 1 as [| | | | |loops n H| | | |]; intros Hl t' h' Hh'; cbn in *; try (apply (Hl t'); congruence).
  destruct (H _ _ Hh') as [?|(t1 & h1 & Hh1 & <-)]; eauto.
Qed.

Lemma moves_loops_hello ok n n' : moves ok n n' → loops_hello n → loops_hello n'.
Proof using Type.
  induction 1 as [|n1 n2 n3 (l & _ & Hm) _ IH]; [done|]. intros Hl. eauto using move_loops_hello.
Qed.
End moves.

(** ** Computations made of quiet moves and transmissions *)

Section computations.
Context `{C : CryptoLib} (ok : label → Prop).
Hypothesis ok_quiet : ok Quiet.
Local Abbreviation steps := (moves ok).

Lemma steps_refl n : steps n n.
Proof using Type. apply rtc_refl. Qed.

Lemma steps_trans n1 n2 n3 : steps n1 n2 → steps n2 n3 → steps n1 n3.
Proof using Type. intros H1 H2. by eapply rtc_trans. Qed.

Lemma steps_quiet n n' : move Quiet n n' → steps n n'.
Proof using ok_quiet. intros H. apply rtc_once. eauto. Qed.

Lemma steps_frame n n' :
  n_heap n' = n_heap n → n_hello_loops n' = n_hello_loops n → n_trace n' = n_trace n →
  n_db n' = n_db n → steps n n'.
Proof using ok_quiet. intros. by apply steps_quiet, move_frame. Qed.

Lemma steps_bind {A B} (c : M A) (k : A → M B) n :
  steps n (c n).1 → (∀ a n', c n = (n', Ok a) → steps n' (k a n').1) → steps n ((c ≫= k) n).1.
Proof using Type.
  intros Hc Hk. rewrite bind_eq. destruct (c n) as [n' [a|e]] eqn:E; [|done].
  eapply steps_trans; [exact Hc|by apply Hk].
Qed.

Lemma steps_try {A} (c : M A) e h n :
  steps n (c n).1 → (∀ n', steps n' (h n').1) → steps n (try_except c e h n).1.
Proof using Type.
  intros Hc Hh. unfold try_except. destruct (c n) as [n' [a|e']]; [done|].
  destruct (e' =?b e); [|done]. eapply steps_trans; [exact Hc|apply Hh].
Qed.

Lemma steps_for_each {A} (body : A → M ()) l n :
  (∀ x n', x ∈ l → steps n' (body x n').1) → steps n (for_each body l n).1.
Proof using Type.
  revert n. induction l as [|x l IH]; intros n Hb; cbn; [apply steps_refl|].
  apply steps_bind; [apply Hb; by left|]. intros _ n' _. apply IH. intros y n'' Hy. apply Hb. by right.
Qed.

Lemma steps_emit ev n : quiet_event ev → steps n (emit ev n).1.
Proof using ok_quiet. intros H. by apply steps_quiet, move_emit. Qed.

Lemma steps_storage op n : ok (Store op) → steps n (storage op n).1.
Proof using Type.
  intros Hok. unfold storage. destruct (db_status (n_db n) op); [|apply steps_refl].
  apply rtc_once. exists (Store op). split; [done|apply move_store].
Qed.

Lemma steps_send pkt addr n : pkt_type pkt ≠ DATA → steps n (send_to pkt addr n).1.
Proof using ok_quiet.
  intros H. unfold send_to. rewrite bind_eq. unfold lift.
  destruct (packet_serialize pkt); [by apply steps_emit|apply steps_refl].
Qed.

Lemma steps_set_peer_state p st now n : steps n (set_peer_state p st now n).1.
Proof using ok_quiet.
  unfold set_peer_state. destruct (update_state (n_peer_states n) p st now) as [mgr [evs|e]].
  - apply (steps_trans _ (set_n_peer_states mgr n)); [by apply steps_frame|].
    apply steps_for_each. intros ev n' _. by apply steps_emit.
  - by apply steps_frame.
Qed.

Lemma steps_get_session {A} r (k : Session → M A) n :
  (∀ s, n_heap n !! r = Some s → steps n (k s n).1) → steps n ((get_session r ≫= k) n).1.
Proof using Type.
  intros Hk. rewrite bind_eq. unfold get_session. destruct (n_heap n !! r) eqn:E; [auto|apply steps_refl].
Qed.

Lemma steps_read_session r n : steps n (get_session r n).1.
Proof using Type. unfold get_session. destruct (n_heap n !! r); apply steps_refl. Qed.

Lemma steps_modify f n :
  (∀ n, n_heap (f n) = n_heap n ∧ n_hello_loops (f n) = n_hello_loops n ∧ n_trace (f n) = n_trace n ∧
        n_db (f n) = n_db n) →
  steps n (modify f n).1.
Proof using ok_quiet. intros H. destruct (H n) as (? & ? & ? & ?). by apply steps_frame. Qed.
End computations.

Lemma make_packet_type t pl pkt : make_packet t pl = Ok pkt → pkt_type pkt = t.
Proof. unfold make_packet. intros H. invert_ok. by subst. Qed.

Create HintDb node_mv.
#[export] Hint Resolve steps_refl steps_read_session steps_storage steps_set_peer_state : node_mv.

(** A packet that [make_packet] has just built. *)
Ltac made_packet :=
  match goal with
  | H : lift (make_packet ?t ?pl) _ = (_, Ok ?pkt) |- pkt_type ?pkt ≠ DATA =>
      apply (f_equal snd) in H; unfold lift in H; cbn [snd] in H;
      rewrite (make_packet_type _ _ _ H); discriminate
  end.

(** [mv_step] follows a computation; it leaves changes of session objects and of the HELLO loops, and the
    method calls that the database does not know. *)
Ltac mv_step :=
  match goal with
  | |- moves _ ?n ((get_session _ ≫= _) ?n).1 => apply steps_get_session; intros ? ?
  | |- moves _ ?n ((gets _ ≫= _) ?n).1 => rewrite gets_bind
  | |- moves _ ?n ((_ ≫= _) ?n).1 => apply steps_bind; [|intros ? ? ?]
  | |- moves _ ?n (try_except _ _ _ ?n).1 => apply steps_try; [|intros ?]
  | |- moves _ ?n (try_log ?c ?n).1 => change (try_log c n).1 with (c n).1
  | |- moves _ ?n (for_each _ _ ?n).1 => apply steps_for_each; intros ? ? ?
  | |- moves _ ?n (lift _ ?n).1 => apply steps_refl
  | |- moves _ ?n (mret _ ?n).1 => apply steps_refl
  | |- moves _ ?n (raise _ ?n).1 => apply steps_refl
  | |- moves _ ?n (gets _ ?n).1 => apply steps_refl
  | |- moves _ ?n (emit _ ?n).1 => by apply steps_emit
  | |- moves _ ?n (notify_peers_changed ?n).1 => by apply steps_emit
  | |- moves _ ?n (notify_connection_event _ ?n).1 => by apply steps_emit
  | |- moves _ ?n (schedule _ ?n).1 => by apply steps_frame
  | |- moves _ ?n (table_set_endpoint _ _ ?n).1 => by apply steps_frame
  | |- moves _ ?n (modify _ ?n).1 =>
      solve [apply steps_modify; [done|]; intros ?; cbn; repeat case_match; done]
  | |- moves _ ?n (send_to _ _ ?n).1 => apply steps_send; [done|made_packet]
  | |- moves _ ?n _ => solve [eauto with node_mv]
  | |- moves _ ?n ((if ?b then _ else _) ?n).1 => destruct b
  | |- moves _ ?n ((match ?x with _ => _ end) ?n).1 => destruct x
  end.

(** ** The methods *)

Section quiet_methods.
Context `{C : CryptoLib} (ok : label → Prop) (ok_quiet : ok Quiet) (ok_store : ∀ op, ok (Store op)).
Local Abbreviation steps := (moves ok).

Lemma mv_mark_connected p now n : steps n (mark_peer_connected p now n).1.
Proof using ok_quiet. unfold mark_peer_connected. repeat mv_step. Qed.

Lemma mv_apply_floors r n : steps n (apply_sequence_floors r n).1.
Proof using ok_quiet.
  unfold apply_sequence_floors. do 2 mv_step. destruct (dget _ _) as [[a b]|]; [|mv_step].
  mv_step; [|by mv_step]. apply steps_quiet; [done|]. eapply move_session; [done|..].
  - unfold same_ids. by repeat case_match.
  - destruct (Z.ltb_spec (s_send_sequence s) a); cbn; destruct (_ <? b)%Z; cbn; lia.
  - destruct (s_send_sequence s <? a)%Z; cbn; destruct (Z.ltb_spec (s_recv_sequence s) b); cbn; lia.
Qed.
Hint Resolve mv_mark_connected mv_apply_floors : node_mv.

Lemma mv_open_session keys now n : steps n (open_session keys now n).1.
Proof using ok_quiet ok_store.
  unfold open_session. mv_step. set (r := fresh _). mv_step; [|repeat mv_step].
  apply steps_quiet; [done|]. apply move_alloc, not_elem_of_dom, is_fresh.
Qed.

Lemma mv_begin_heartbeat p sid addr task now n : steps n (begin_heartbeat p sid addr task now n).1.
Proof using ok_quiet. by apply steps_frame. Qed.

Lemma mv_send_sync r addr n : steps n (send_sync r addr n).1.
Proof using ok_quiet. unfold send_sync. repeat mv_step. Qed.

Lemma mv_node_handle_ack packet now n : steps n (node_handle_ack packet now n).1.
Proof using ok_quiet ok_store. unfold node_handle_ack. repeat mv_step. Qed.

Lemma mv_handle_app_ack packet now n : steps n (handle_app_ack packet now n).1.
Proof using ok_quiet ok_store. unfold handle_app_ack. repeat mv_step. Qed.

Lemma mv_handle_ping packet addr n : steps n (handle_ping packet addr n).1.
Proof using ok_quiet. unfold handle_ping. repeat mv_step. Qed.

Lemma mv_node_handle_pong packet now n : steps n (node_handle_pong packet now n).1.
Proof using ok_quiet. unfold node_handle_pong. repeat mv_step. Qed.

Lemma mv_node_handle_endpoint_update packet now n : steps n (node_handle_endpoint_update packet now n).1.
Proof using ok_quiet.
  unfold node_handle_endpoint_update. mv_step; [mv_step|]. apply steps_modify; [done|]. intros m.
  unfold handle_endpoint_update. by destruct (negb _).
Qed.

Lemma build_endpoint_update_type ep p n n' pkt :
  build_endpoint_update ep p n = (n', Ok pkt) → pkt_type pkt = ENDPOINT_UPDATE.
Proof using Type.
  unfold build_endpoint_update. rewrite gets_bind, bind_eq. cbv zeta.
  match goal with |- context [match ?c with _ => _ end] => destruct c as [n1 [v|e]] end; [|done].
  rewrite bind_eq. unfold lift. destruct (endpoint_sig_data _ _ _); [|done]. intros [= _ Hp].
  by eapply make_packet_type.
Qed.

Lemma mv_build_endpoint_update ep p n : steps n (build_endpoint_update ep p n).1.
Proof using ok_quiet. unfold build_endpoint_update. repeat mv_step. Qed.
Hint Resolve mv_build_endpoint_update mv_open_session mv_begin_heartbeat mv_send_sync : node_mv.

Lemma mv_broadcast ep n : steps n (broadcast_endpoint_update ep n).1.
Proof using ok_quiet.
  unfold broadcast_endpoint_update. mv_step; [mv_step|]. apply build_endpoint_update_type in H.
  repeat mv_step; (apply steps_send; [done|by rewrite H]).
Qed.

Lemma mv_send_all out n :
  Forall (λ pe : Packet * endpoint, pkt_type pe.1 ≠ DATA) out → steps n (send_all_to out n).1.
Proof using ok_quiet.
  intros Hout. apply steps_for_each. intros pe n' Hin. apply steps_send; [done|].
  rewrite Forall_forall in Hout. by apply Hout.
Qed.

Lemma overlay_sends_plain t pl pkt overlay ge f :
  make_packet t pl = Ok pkt → t ≠ DATA →
  Forall (λ pe : Packet * endpoint, pkt_type pe.1 ≠ DATA) (send_to_overlay pkt overlay ge f).
Proof using Type.
  intros Hp Ht. apply Forall_forall. intros [pkt' ep] Hin. apply overlay_sends_type in Hin as ->.
  cbn. by rewrite (make_packet_type _ _ _ Hp).
Qed.

Lemma mv_resolver_handle_request req addr now n : steps n (resolver_handle_request req addr now n).1.
Proof using ok_quiet.
  unfold resolver_handle_request, handle_resolve_request. case_match eqn:Hm; simplify_eq.
  assert (∀ rm out, Forall (λ pe : Packet * endpoint, pkt_type pe.1 ≠ DATA) out →
    steps n (send_all_to out (set_n_resolver rm n)).1) as Hs.
  { intros rm out Hout. apply (steps_trans _ _ (set_n_resolver rm n)); [by apply steps_frame|by apply mv_send_all]. }
  destruct (dmem _ _); simplify_eq; [by apply Hs|].
  destruct (_ =?b _); [by apply Hs|]. case_bool_decide; [by apply Hs|]. destruct (0 <? _)%Z; [|by apply Hs].
  destruct (make_packet _ _) as [pkt|] eqn:Hp; cbn; [|by apply steps_frame].
  apply Hs. by eapply overlay_sends_plain.
Qed.

Lemma mv_start_resolution p force d n : steps n (start_resolution p force d n).1.
Proof using ok_quiet.
  unfold start_resolution, resolve_start.
  assert (∀ rm pl pkt (fut : nat) f, make_packet RESOLVE_REQUEST pl = Ok pkt →
    steps n ((send_all_to (send_to_overlay pkt (ov_overlay (n_overlay n)) (get_endpoint (n_table n)) f) ;;
              mret (None (A := endpoint), Some fut)) (set_n_resolver rm n)).1) as Hs.
  { intros rm pl pkt fut f Hp. apply (steps_trans _ _ (set_n_resolver rm n)); [by apply steps_frame|].
    mv_step; [|mv_step]. apply mv_send_all. by eapply overlay_sends_plain. }
  destruct (get_endpoint (n_table n) p) as [ep|]; [destruct force|]; try by apply steps_frame.
  all: destruct (make_packet _ _) as [pkt|] eqn:Hp; [by eapply Hs|by apply steps_frame].
Qed.
Hint Resolve mv_resolver_handle_request mv_start_resolution : node_mv.

Lemma mv_node_handle_resolve packet addr now n : steps n (node_handle_resolve_request packet addr now n).1.
Proof using ok_quiet.
  unfold node_handle_resolve_request. repeat mv_step.
  apply steps_send; [done|]. by rewrite (build_endpoint_update_type _ _ _ _ _ H1).
Qed.

Lemma mv_rate_limit packet addr now n : steps n (rate_limit packet addr now n).1.
Proof using ok_quiet. unfold rate_limit. repeat case_match; by apply steps_frame. Qed.

Lemma loops_deleted task n : steps n (modify (λ n, set_n_hello_loops (delete task (n_hello_loops n)) n) n).1.
Proof using ok_quiet.
  apply steps_quiet; [done|]. apply move_loops. intros t h [_ Hh]%lookup_delete_Some. right. eauto.
Qed.

(** The start of a HELLO retry loop. *)
Lemma mv_hello_loop p ep pkt task n :
  pkt_type pkt = HELLO →
  steps n (modify (λ n,
    let loops := match dget (n_hello_retry_tasks n) p with
                 | Some old => delete old (n_hello_loops n)
                 | None => n_hello_loops n
                 end in
    set_n_hello_retry_tasks (dset (dpop (n_hello_retry_tasks n) p) p task)
      (set_n_hello_loops (<[task := mkHelloRetry p pkt ep 2]> loops) n)) n).1.
Proof using ok_quiet.
  intros Ht. unfold modify. cbn [fst]. cbv zeta.
  match goal with |- moves _ ?m (set_n_hello_retry_tasks ?x (set_n_hello_loops ?loops _)) =>
    apply (steps_trans _ _ (set_n_hello_loops loops m)); [|by apply steps_frame];
    apply steps_quiet; [done|] end.
  apply move_loops. intros t h [[<- <-]|[_ Hh]]%lookup_insert_Some; [by left|].
  right. exists t, h. split; [|done]. case_match; [|done]. by apply lookup_delete_Some in Hh as [_ ?].
Qed.

Lemma mv_connect p ep now d n : steps n (connect_to_peer p ep now d n).1.
Proof using ok_quiet ok_store.
  unfold connect_to_peer. do 2 (mv_step; case_match; [mv_step|]). mv_step.
  mv_step; [mv_step|]. destruct a as [pkt st]. apply (f_equal snd), create_hello_type in H1.
  repeat mv_step; [apply steps_send; [done|by rewrite H1]|by apply mv_hello_loop].
Qed.
Hint Resolve mv_connect : node_mv.

Lemma mv_hello_exhausted p now n : steps n (hello_exhausted p now n).1.
Proof using ok_quiet. unfold hello_exhausted. repeat mv_step. Qed.
Hint Resolve mv_hello_exhausted loops_deleted : node_mv.

Lemma mv_send_hello t h ep n : n_hello_loops n !! t = Some h → steps n (send_to (hr_packet h) ep n).1.
Proof using ok_quiet.
  intros Hh. unfold send_to. rewrite bind_eq. unfold lift.
  destruct (packet_serialize _); [|apply steps_refl]. apply steps_quiet; [done|]. by eapply move_hello.
Qed.

Lemma send_to_loops pkt ep n n' a : send_to pkt ep n = (n', Ok a) → n_hello_loops n' = n_hello_loops n.
Proof using Type.
  unfold send_to. rewrite bind_eq. unfold lift. destruct (packet_serialize pkt); [|done]. by intros [= <- _].
Qed.

Lemma mv_retry_hello_wake task now n : steps n (retry_hello_wake task now n).1.
Proof using ok_quiet.
  unfold retry_hello_wake. mv_step. destruct (n_hello_loops n !! task) as [h|] eqn:Hh; [|mv_step].
  do 2 mv_step. case_match; [mv_step|]. mv_step; [by eapply mv_send_hello|]. apply send_to_loops in H0.
  mv_step; [mv_step|]. injection H1 as <-. case_match; [|repeat mv_step].
  apply steps_quiet; [done|]. apply move_loops. cbn. intros t h' [[<- <-]|[_ Hh']]%lookup_insert_Some; right.
  - exists task, h. by rewrite H0.
  - eauto.
Qed.

Lemma mv_finish_resolution p fut n : steps n (finish_resolution p fut n).1.
Proof using ok_quiet. unfold finish_resolution. destruct (resolve_finish _ _ _). by apply steps_frame. Qed.

Lemma mv_store_outbox m p nonce n : steps n (store_outbox m p nonce n).1.
Proof using ok_quiet. unfold store_outbox. destruct (store_message _ _ _ _ _). by apply steps_frame. Qed.
Hint Resolve mv_finish_resolution mv_store_outbox : node_mv.

Lemma mv_send_message_resolved p fut now d n : steps n (send_message_resolved p fut now d n).1.
Proof using ok_quiet ok_store. unfold send_message_resolved. repeat mv_step. Qed.

Lemma mv_add_contact code now d n : steps n (add_contact_from_invite code now d n).1.
Proof using ok_quiet ok_store. unfold add_contact_from_invite. repeat mv_step. Qed.

Lemma mv_rename_peer p nick n : steps n (rename_peer p nick n).1.
Proof using ok_quiet ok_store. unfold rename_peer. repeat mv_step. Qed.

Lemma mv_set_peer_archived p b now n : steps n (set_peer_archived p b now n).1.
Proof using ok_quiet ok_store. unfold set_peer_archived. repeat mv_step. Qed.

Lemma mv_drop_session p n : steps n (drop_session p n).1.
Proof using ok_quiet. unfold drop_session. repeat mv_step. Qed.
Hint Resolve mv_drop_session : node_mv.

Lemma mv_remove_peer p n : steps n (node_remove_peer p n).1.
Proof using ok_quiet ok_store. unfold node_remove_peer. repeat mv_step. Qed.

Lemma mv_disconnect p now n : steps n (handle_peer_disconnect p now n).1.
Proof using ok_quiet. unfold handle_peer_disconnect. repeat mv_step. Qed.

Lemma mv_reconnect p now d n : steps n (reconnect_peer p now d n).1.
Proof using ok_quiet ok_store. unfold reconnect_peer. repeat mv_step. Qed.

Lemma mv_reconnect_resolved p ep fut now d n : steps n (reconnect_peer_resolved p ep fut now d n).1.
Proof using ok_quiet ok_store. unfold reconnect_peer_resolved. repeat mv_step. Qed.

Lemma mv_run_scheduled n : steps n (run_scheduled n).1.
Proof using ok_quiet ok_store.
  unfold run_scheduled. destruct (n_scheduled n) as [|op ops]; [apply steps_refl|].
  apply (steps_trans _ _ (set_n_scheduled ops n)); [by apply steps_frame|]. by apply steps_storage.
Qed.
Hint Resolve mv_disconnect : node_mv.

Lemma mv_heartbeat_notice e now n :
  (∀ pkt addr, e = HbSend pkt addr → pkt_type pkt ≠ DATA) → steps n (heartbeat_notice e now n).1.
Proof using ok_quiet.
  intros He. destruct e as [pkt addr| |]; cbn; [|repeat mv_step..]. apply steps_send; [done|]. by eapply He.
Qed.

Lemma mv_wake_ping task ping_id now n : steps n (node_wake_ping task ping_id now n).1.
Proof using ok_quiet.
  unfold node_wake_ping. destruct (wake_ping _ _ _) as [hb evs] eqn:E.
  apply (steps_trans _ _ (set_n_heartbeat hb n)); [by apply steps_frame|].
  apply steps_for_each. intros e n' Hin. apply mv_heartbeat_notice. intros pkt addr ->.
  unfold wake_ping in E. repeat case_match; simplify_eq; apply list_elem_of_singleton in Hin || by apply elem_of_nil in Hin.
  simplify_eq. by erewrite make_packet_type by done.
Qed.

Lemma mv_start now nonce sh1 sh2 n : steps n (node_start now nonce sh1 sh2 n).1.
Proof using ok_quiet ok_store.
  unfold node_start, load_peer, load_floor, load_queued. repeat mv_step.
Qed.

Lemma mv_stop now n : steps n (node_stop now n).1.
Proof using ok_quiet ok_store. unfold node_stop, flush_sessions. repeat mv_step. Qed.
End quiet_methods.

#[export] Hint Resolve mv_mark_connected mv_open_session mv_begin_heartbeat mv_send_sync mv_store_outbox
  mv_start_resolution mv_connect : node_mv.

(** ** Numbering and sending *)

Section transmitting_methods.
Context `{C : CryptoLib} `{!CryptoLaws C} (ok : label → Prop) (ok_quiet : ok Quiet).
Context (ok_store : ∀ op, ok (Store op)).
Hypothesis ok_transmit : ∀ r seq pt, ok (Transmit r seq pt).
Local Abbreviation steps := (moves ok).

(** Building a packet without sending it uses up a number. *)
Lemma mv_build msg r now n : steps n (node_build_data_packet msg r now n).1.
Proof using ok_quiet.
  unfold node_build_data_packet. mv_step. unfold build_with_session.
  pose proof (build_data_packet_counters (n_queue n) msg s now) as (Hid & Hs & Hr).
  destruct (build_data_packet (n_queue n) msg s now) as [[q s'] res]. cbn in *.
  apply (steps_trans _ _ (set_n_heap (<[r := s']> (n_heap n)) n)); [|by apply steps_frame].
  apply steps_quiet; [done|]. eapply move_session; [done..|lia].
Qed.

Lemma node_build_heap msg r now n n' pkt seq s :
  node_build_data_packet msg r now n = (n', Ok (Some (pkt, seq))) → n_heap n !! r = Some s →
  n_heap n' = <[r := set_send_sequence (seq + 1) s]> (n_heap n) ∧ n_hello_loops n' = n_hello_loops n.
Proof using CryptoLaws0.
  intros E Hs. destruct (node_build_some _ _ _ _ _ _ _ E) as (s0 & Hs0 & _ & _ & _ & _ & _ & Hb).
  rewrite Hs in Hs0. injection Hs0 as <-.
  unfold node_build_data_packet in E. rewrite (bind_ok _ _ _ _ _ (get_session_ok _ _ _ Hs)) in E.
  unfold build_with_session in E. destruct (build_data_packet (n_queue n) msg s now) as [[q s'] res].
  injection E as <- _. injection Hb as -> _. done.
Qed.

(** A message is numbered, the counters are stored, and [k] sends its packet or does not. *)
Lemma mv_number_and_send {A} msg r now (k : option (Packet * Z) → M A) n :
  (∀ n, steps n (k None n).1) →
  (∀ pkt seq, ∃ k', k (Some (pkt, seq)) = (
     s ← get_session r;
     storage (DbUpdateSend (s_session_id s) (s_send_sequence s)) ;;
     storage (DbUpdateSequence msg seq now) ;;
     storage (DbUpdateStatus msg (str "pending") now) ;; k') ∧
     ∀ n, (k' n).1 = n ∨ ∃ ep, (k' n).1 = set_n_trace (n_trace n ++ [EvSend pkt ep]) n) →
  steps n ((node_build_data_packet msg r now ≫= k) n).1.
Proof using CryptoLaws0 ok_quiet ok_transmit ok_store.
  intros Hnone Hsome. pose proof (mv_build msg r now n) as Hb. rewrite bind_eq.
  destruct (node_build_data_packet msg r now n) as [n' [[[pkt seq]|]|e]] eqn:E; [|by eapply steps_trans|done].
  destruct (Hsome pkt seq) as (k' & -> & Hk').
  destruct (node_build_some _ _ _ _ _ _ _ E) as (s & Hs & Ht & _ & _ & _ & Hs' & Hbuild).
  destruct (build_data_packet_sealed _ _ _ _ _ _ _ _ Hbuild) as (Hseq & _ & Htype & e & dp & _ & _ & Hseal & Hdp).
  rewrite (bind_ok _ _ _ _ _ (get_session_ok _ _ _ Hs')).
  do 3 (erewrite bind_ok by (by apply storage_ok)).
  match goal with |- moves _ _ (k' ?m).1 => set (m' := m) end.
  destruct (Hk' m') as [->|[ep ->]].
  - eapply steps_trans; [exact Hb|]. cbn [fst]. unfold m'.
    apply (steps_trans _ _ (storage (DbUpdateSend (s_session_id s) (seq + 1)) n').1); [by apply steps_storage|].
    eapply steps_trans; [by apply (steps_storage _ (DbUpdateSequence msg seq now))|].
    by apply (steps_storage _ (DbUpdateStatus msg (str "pending") now)).
  - apply rtc_once. exists (Transmit r seq (qe_plaintext e)). split; [done|].
    destruct (node_build_heap _ _ _ _ _ _ _ _ E Hs) as [Hheap Hloops]. subst seq.
    eapply (move_transmit r s dp (qe_plaintext e) pkt ep
      [EvDb (DbUpdateSend (s_session_id s) (s_send_sequence s + 1)); EvDb (DbUpdateSequence msg (s_send_sequence s) now);
       EvDb (DbUpdateStatus msg (str "pending") now)]); try done.
    + by repeat constructor.
    + unfold m'. cbn. by rewrite Ht, <- !app_assoc.
Qed.

Lemma send_to_cases pkt ep n :
  (send_to pkt ep n).1 = n ∨ (send_to pkt ep n).1 = set_n_trace (n_trace n ++ [EvSend pkt ep]) n.
Proof using Type.
  unfold send_to. rewrite bind_eq. unfold lift. destruct (packet_serialize pkt); [by right|by left].
Qed.

Lemma mv_transmit msg r ep now n : steps n (transmit msg r ep now n).1.
Proof using CryptoLaws0 ok_quiet ok_transmit ok_store.
  apply mv_number_and_send; [intros m; mv_step|]. intros pkt seq. exists (send_to pkt ep).
  split; [done|]. intros m. destruct (send_to_cases pkt ep m) as [->| ->]; eauto.
Qed.
Hint Resolve mv_transmit : node_mv.

Lemma mv_flush p now n : steps n (flush_queued_for_peer p now n).1.
Proof using CryptoLaws0 ok_quiet ok_transmit ok_store. unfold flush_queued_for_peer. repeat mv_step. Qed.

Lemma mv_resend i p now n : steps n (resend_message i p now n).1.
Proof using CryptoLaws0 ok_quiet ok_transmit ok_store. unfold resend_message. repeat mv_step. Qed.

Lemma mv_retry_pass now n : steps n (node_retry_pass now n).
Proof using CryptoLaws0 ok_quiet ok_transmit ok_store.
  unfold node_retry_pass, retry_pass. generalize (get_timed_out_messages (n_queue n) now).
  intros ids. revert n. induction ids as [|i ids IH]; intros n; cbn; [apply steps_refl|].
  eapply steps_trans; [|apply IH]. unfold retry_one. destruct (handle_timeout (n_queue n) i) as [q st].
  apply (steps_trans _ _ (set_n_queue q n)); [by apply steps_frame|].
  destruct (dget q i) as [e|]; [|apply steps_refl].
  destruct st; try apply steps_refl; [apply mv_resend|]. by apply steps_storage.
Qed.

Lemma mv_send_message p text now d n : steps n (send_message p text now d n).1.
Proof using CryptoLaws0 ok_quiet ok_transmit ok_store.
  unfold send_message. mv_step. do 4 (mv_step; [repeat mv_step|]).
  destruct (get_by_peer_id (n_registry n) p) as [r|]; [|repeat mv_step].
  apply mv_number_and_send; [intros m; mv_step|]. intros pkt seq. eexists. split; [reflexivity|].
  intros m. rewrite gets_bind. destruct (get_endpoint (n_table m) p) as [ep|]; [|by left].
  rewrite bind_eq. destruct (send_to_cases pkt ep m) as [E|E];
    destruct (send_to pkt ep m) as [m' [[]|e]]; cbn in *; eauto.
Qed.
Hint Resolve mv_flush : node_mv.

Lemma mv_handle_hello packet addr now d n : steps n (handle_hello packet addr now d n).1.
Proof using CryptoLaws0 ok_quiet ok_transmit ok_store.
  unfold handle_hello. repeat mv_step. apply steps_send; [done|].
  match goal with H : lift (process_hello _ _ _ _ _ _) _ = (_, Ok _) |- _ => injection H as _ Hp end.
  by apply process_hello_Some in Hp as (hello & pub & xpub & ss & _ & _ & _ & _ & _ & _ & _ & ->).
Qed.

Lemma mv_handle_hello_ack packet addr now d n : steps n (handle_hello_ack packet addr now d n).1.
Proof using CryptoLaws0 ok_quiet ok_transmit ok_store.
  unfold handle_hello_ack. repeat mv_step. unfold modify. cbn [fst]. case_match; [|apply steps_refl].
  match goal with |- moves _ ?m (set_n_hello_retry_tasks _ (set_n_hello_loops ?loops _)) =>
    apply (steps_trans _ _ (set_n_hello_loops loops m)); [by apply loops_deleted|by apply steps_frame] end.
Qed.

(** Everything the node does by itself consists of quiet moves and transmissions. *)
Lemma loop_step_moves b n n' : loop_step b n n' → steps n n'.
Proof using CryptoLaws0 ok_quiet ok_transmit ok_store.
  destruct 1; first [by apply steps_frame | apply mv_retry_pass | by apply mv_reconnect | by apply mv_reconnect_resolved
    | by apply mv_set_peer_archived].
Qed.

Lemma call_step_moves n n' : call_step n n' → steps n n'.
Proof using CryptoLaws0 ok_quiet ok_transmit ok_store.
  destruct 1; first [by apply steps_frame | apply mv_send_message
    | by apply mv_send_message_resolved | by apply mv_connect | by apply mv_retry_hello_wake
    | by apply mv_run_scheduled | by apply mv_wake_ping
    | by apply mv_add_contact | by apply mv_rename_peer | by apply mv_set_peer_archived | by apply mv_remove_peer
    | by apply mv_broadcast | idtac].
  apply mv_heartbeat_notice; [done|]. by intros pkt addr ->.
Qed.

Lemma local_step_moves n n' : local_step n n' → steps n n'.
Proof using CryptoLaws0 ok_quiet ok_transmit ok_store.
  destruct 1; first [by apply mv_start | by apply mv_stop | by eapply loop_step_moves | by apply call_step_moves].
Qed.

(** ** Datagrams *)

Lemma accepted_payload_small data packet :
  packet_deserialize data = Ok packet → (Z.of_nat (length (pkt_payload packet)) < 2 ^ 32)%Z.
Proof using Type.
  intros (_ & bs & rest & Hs & _)%packet_deserialize_sound. unfold packet_serialize in Hs. invert_ok.
  apply struct_pack_Ok in H1 as [Hl _]. lia.
Qed.

(** [handle_data]: nothing, or the payload is accepted and shown. *)
Lemma mv_handle_data packet addr now n :
  registry_ok (n_heap n) (n_registry n) → (Z.of_nat (length (pkt_payload packet)) < 2 ^ 32)%Z →
  (∀ r dp pt, data_deserialize (pkt_payload packet) = Ok dp → ok (Accept r dp pt)) →
  steps n (handle_data packet addr now n).1.
Proof using Type.
  intros Hreg Hl Hok.
  destruct (data_deserialize (pkt_payload packet)) as [dp|] eqn:Hd.
  2:{ rewrite handle_data_reject; [apply steps_refl|]. intros dp. by rewrite Hd. }
  destruct (get_by_session_id (n_registry n) (data_session_id dp)) as [r|] eqn:Hr.
  2:{ rewrite handle_data_reject; [apply steps_refl|]. intros dp'. rewrite Hd. intros ? ? ? ? [= <-]. by rewrite Hr. }
  destruct (ro_s _ _ Hreg _ _ Hr) as (s & Hs & Hsid).
  destruct (decrypt_data_packet dp s) as [s' [[pt|]|e]] eqn:Hdec.
  2,3: rewrite handle_data_reject; [apply steps_refl|]; intros dp' r' s0 s1 pt Hd' Hr' Hs0; simplify_eq;
    rewrite Hd in Hd'; apply Ok_inj in Hd' as <-; simplify_eq; by rewrite Hdec.
  destruct (handle_data_accept n packet addr now dp r s s' pt Hsid Hd Hl Hr Hs Hdec)
    as (n' & ack & app & -> & _ & Hackt & _ & _ & Happt & _ & Ht & Hh & _ & _ & Hloops & _).
  apply rtc_once. exists (Accept r dp pt). split; [by apply Hok|].
  eapply (move_accept r s s' dp pt
    [EvDb (DbUpdateRecv (data_session_id dp) (data_sequence_number dp)); EvSend ack addr;
     EvDb (DbRememberEndpoint (s_remote_peer_id s) addr now)] [EvSend app addr]); try done.
  - by apply decrypt_accepted in Hdec as [_ ->].
  - repeat constructor; cbn. by rewrite Hackt.
  - repeat constructor; cbn. by rewrite Happt.
Qed.

Lemma mv_handle_sync packet addr now n : ok Resend → steps n (handle_sync packet addr now n).1.
Proof using ok_quiet.
  intros Hok. unfold handle_sync. repeat mv_step.
  - unfold rebuild_with_session. destruct (rebuild_for_sync _ _ _ _). by apply steps_frame.
  - match goal with |- moves _ ?m (send_to ?pkt ?ep ?m).1 => destruct (send_to_cases pkt ep m) as [-> | ->] end;
      [apply steps_refl|]. apply rtc_once. exists Resend. split; [done|apply move_resend].
Qed.

(** A datagram: it may be accepted if it is a DATA packet, and make packets again if it is a SYNC. *)
Lemma datagram_moves data addr now d n :
  registry_ok (n_heap n) (n_registry n) →
  (∀ packet, packet_deserialize data = Ok packet →
     (pkt_type packet = SYNC → ok Resend) ∧
     (∀ r dp pt, pkt_type packet = DATA → data_deserialize (pkt_payload packet) = Ok dp → ok (Accept r dp pt))) →
  steps n (datagram_received data addr now d n).1.
Proof using CryptoLaws0 ok_quiet ok_transmit ok_store.
  intros Hreg Hok. unfold datagram_received.
  destruct (packet_deserialize data) as [packet|e] eqn:Hp; [|destruct e; apply steps_refl].
  destruct (Hok packet eq_refl) as [Hsync Hdata]. unfold handle_packet.
  destruct (rate_limit_cases packet addr now n) as (rl & pass & Hrl & _).
  rewrite (bind_ok _ _ _ _ _ Hrl).
  apply (steps_trans _ _ (set_n_rate_limiter rl n)); [by apply steps_frame|].
  destruct pass; [|apply steps_refl]. mv_step. unfold dispatch.
  destruct (pkt_type packet) eqn:Ht;
    first [ apply mv_handle_hello | apply mv_handle_hello_ack | by apply mv_node_handle_ack
          | by apply mv_handle_ping | by apply mv_node_handle_pong | by apply mv_node_handle_resolve
          | by apply mv_node_handle_endpoint_update | by apply mv_handle_app_ack
          | apply mv_handle_sync; by apply Hsync | idtac ].
  apply mv_handle_data; [done|by eapply accepted_payload_small|]. intros r dp pt Hd. by apply Hdata.
Qed.
End transmitting_methods.
