(* ===== verification/Network.v ===== *)
(** * Two nodes and the network (node.py, queue_manager.py)

    Two nodes hold the ends of one session.  Between them is a network that loses, repeats, reorders and
    alters datagrams and that anybody can send to; what it cannot do is forge a payload that opens under the
    session's key.  Whatever the two nodes do meanwhile, the messages that the one sends and the other shows behave
    like a channel that gives out numbered packets unaltered, with rising numbers and so none twice.  As long as no
    SYNC makes the sender repeat packets of the session it is a first-in-first-out channel that may lose messages. *)

From S2P Require Import Prelude Bytes PyDict PyText IpAddr Packet Crypto Session Handshake QueueManager.
From S2P Require Import PeerState RateLimiter Overlay Resolution Reconnect Heartbeat Storage LogFiles.
From S2P Require Import NodeState Node NodeProps NodeExchange Delivery NodePeers NodeInv NodeMoves.

(** ** The abstract channel *)

(** What was put in, what is under way, and what came out. *)
Record channel := mkChannel { ch_sent : list bytes; ch_queue : list bytes; ch_delivered : list bytes }.

Inductive channel_step : channel → channel → Prop :=
| ch_send m sent q out : channel_step (mkChannel sent q out) (mkChannel (sent ++ [m]) (q ++ [m]) out)
| ch_lose m sent q1 q2 out : channel_step (mkChannel sent (q1 ++ m :: q2) out) (mkChannel sent (q1 ++ q2) out)
| ch_deliver m sent q out : channel_step (mkChannel sent (m :: q) out) (mkChannel sent q (out ++ [m])).

(** Any part of what is under way can get lost. *)
Lemma channel_loses sent q q' out :
  q' `sublist_of` q → rtc channel_step (mkChannel sent q out) (mkChannel sent q' out).
Proof.
  intros Hq. cut (∀ pre, rtc channel_step (mkChannel sent (pre ++ q) out) (mkChannel sent (pre ++ q') out));
    [intros H; apply (H [])|].
  induction Hq as [|m q' q _ IH|m q' q _ IH]; intros pre; [apply rtc_refl| |].
  - specialize (IH (pre ++ [m])). by rewrite <- !app_assoc in IH.
  - eapply rtc_l; [apply ch_lose|apply IH].
Qed.

(** What comes out and what is under way went in, in this order. *)
Lemma channel_in_order c c' :
  rtc channel_step c c' →
  ∃ put got, ch_sent c' = ch_sent c ++ put ∧ ch_delivered c' = ch_delivered c ++ got ∧
    got ++ ch_queue c' `sublist_of` ch_queue c ++ put.
Proof.
  induction 1 as [c|c1 c2 c3 H _ (put & got & Hp & Hg & Hs)].
  - exists [], []. by rewrite !app_nil_r.
  - destruct H as [m sent q out|m sent q1 q2 out|m sent q out]; cbn in *.
    + exists (m :: put), got. by rewrite <- !app_assoc in *.
    + exists put, got. split_and!; [done..|]. etrans; [exact Hs|].
      rewrite <- !app_assoc. apply sublist_app; [done|]. by apply sublist_cons.
    + exists put, (m :: got). rewrite <- app_assoc in Hg. split_and!; [done..|]. cbn. by apply sublist_skip.
Qed.

(** A channel of numbered packets: what was put in, the highest number that came out, and the texts that came out.  Any
    packet that was put in may come out, as often as it likes to try, but never one that is not above the highest. *)
Record numbered := mkNumbered { nb_sent : list (Z * bytes); nb_high : Z; nb_delivered : list bytes }.

Inductive numbered_step : numbered → numbered → Prop :=
| nb_send m sent high out : numbered_step (mkNumbered sent high out) (mkNumbered (sent ++ [m]) high out)
| nb_skip high' sent high out : (high ≤ high')%Z → numbered_step (mkNumbered sent high out) (mkNumbered sent high' out)
| nb_deliver m sent high out :
    m ∈ sent → (high < m.1)%Z → numbered_step (mkNumbered sent high out) (mkNumbered sent m.1 (out ++ [m.2])).

Lemma numbered_sends sent ms high out :
  rtc numbered_step (mkNumbered sent high out) (mkNumbered (sent ++ ms) high out).
Proof.
  induction ms as [|m ms IH] using rev_ind; [by rewrite app_nil_r|]. eapply rtc_r; [exact IH|]. rewrite app_assoc. apply nb_send.
Qed.

(** What comes out was put in, and its numbers rise. *)
Lemma numbered_rising c c' :
  rtc numbered_step c c' →
  (∃ put, nb_sent c' = nb_sent c ++ put) ∧ (nb_high c ≤ nb_high c')%Z ∧
  ∃ got, nb_delivered c' = nb_delivered c ++ got.*2 ∧ StronglySorted Z.lt got.*1 ∧
    Forall (λ m, m ∈ nb_sent c' ∧ (nb_high c < m.1)%Z) got.
Proof.
  induction 1 as [c|c1 c2 c3 H _ ([put Hp] & Hh & got & Hg & Hs & Ha)].
  { split; [exists []; by rewrite app_nil_r|]. split; [lia|]. exists []. rewrite app_nil_r. split_and!; [done|constructor..]. }
  destruct H as [m sent high out|high' sent high out Hle|m sent high out Hin Hlt]; cbn in *.
  - split; [exists (m :: put); by rewrite Hp, <- app_assoc|]. split; [lia|]. exists got. done.
  - split; [by exists put|]. split; [lia|]. exists got. split_and!; [done..|]. eapply Forall_impl; [exact Ha|]. cbn.
    intros m [? ?]. split; [done|lia].
  - split; [by exists put|]. split; [lia|]. exists (m :: got). split_and!.
    + rewrite Hg, <- app_assoc. done.
    + cbn. constructor; [done|]. apply Forall_fmap. eapply Forall_impl; [exact Ha|]. by intros m' [_ ?].
    + constructor; [rewrite Hp; split; [set_solver|done]|]. eapply Forall_impl; [exact Ha|]. intros m' [? ?]. split; [done|lia].
Qed.

(** ** The two nodes *)

Section network.
Context `{C : CryptoLib} `{!CryptoLaws C}.
(** The session's id and key, its object on the sender and on the receiver, and the sender's peer id. *)
Context (sid key : bytes) (ra rb : sref) (pa : bytes).

(** The plaintext of a payload of the session, if it opens under the key. *)
Definition opened (dp : DataPayload) : option bytes :=
  if data_session_id dp =?b sid then
    match (decrypt_data_packet dp (mkSession sid key [] 0 (data_sequence_number dp - 1) (secs 0))).2 with
    | Ok o => o
    | Raise _ => None
    end
  else None.

(** A DATA packet of the session that goes out: its number and plaintext. *)
Definition sent_data (ev : event) : option (Z * bytes) :=
  match ev with
  | EvSend pkt _ =>
      if pkt_type pkt =?b DATA then
        match data_deserialize (pkt_payload pkt) with
        | Ok dp => (λ pt, (data_sequence_number dp, pt)) <$> opened dp
        | Raise _ => None
        end
      else None
  | _ => None
  end.

Definition sent (a : node) : list (Z * bytes) := omap sent_data (n_trace a).

(** A message of the sender that is shown. *)
Definition shown_message (ev : event) : option bytes :=
  match ev with EvMessage p pt => if p =?b pa then Some pt else None | _ => None end.

Definition shown_by (b : node) : list bytes := omap shown_message (n_trace b).

(** A datagram that opens under the key carries what the sender put under its number. *)
Definition genuine (a : node) (data : bytes) : Prop :=
  ∀ packet dp pt, packet_deserialize data = Ok packet → pkt_type packet = DATA →
    data_deserialize (pkt_payload packet) = Ok dp → opened dp = Some pt →
    (data_sequence_number dp, pt) ∈ sent a.

(** Either node does something on its own or gets a datagram: the sender any at all, the receiver any that is not forged.
    Without [resends] the runs are those in which no SYNC makes the sender repeat packets of the session. *)
Inductive net_step (resends : bool) : node * node → node * node → Prop :=
| net_sender a a' b : local_step a a' → net_step resends (a, b) (a', b)
| net_sender_datagram data addr now d a b :
    (resends = false → ∀ packet, packet_deserialize data = Ok packet → pkt_type packet = SYNC →
       sent (datagram_received data addr now d a).1 = sent a) →
    net_step resends (a, b) ((datagram_received data addr now d a).1, b)
| net_receiver a b b' : local_step b b' → net_step resends (a, b) (a, b')
| net_receiver_datagram data addr now d a b :
    genuine a data → net_step resends (a, b) (a, (datagram_received data addr now d b).1).

(** No other session object of the sender has the id, none of the receiver the peer. *)
Definition sole_sid (a : node) : Prop := ∀ r s, n_heap a !! r = Some s → s_session_id s = sid → r = ra.
Definition sole_peer (b : node) : Prop := ∀ r s, n_heap b !! r = Some s → s_remote_peer_id s = pa → r = rb.

(** The receiver's counter and the state of the channel. *)
Definition received (b : node) : Z := default 0%Z (s_recv_sequence <$> n_heap b !! rb).

Definition channel_of (a b : node) : channel :=
  mkChannel (sent a).*2 (filter (λ m, (received b < m.1)%Z) (sent a)).*2 (shown_by b).

Definition numbered_of (a b : node) : numbered := mkNumbered (sent a) (received b) (shown_by b).

(** The invariant of the sender's end: what it sent bears increasing numbers below the counter. *)
Record sender_ok (a : node) : Prop := {
  so_loops : loops_hello a;
  so_session : ∃ s, n_heap a !! ra = Some s ∧ s_session_id s = sid ∧ s_encryption_key s = key ∧
    Forall (λ m, (m.1 < s_send_sequence s)%Z) (sent a);
  so_sorted : StronglySorted Z.lt (sent a).*1 }.

(** The invariant of the receiver's end. *)
Definition receiver_ok (b : node) : Prop :=
  ∃ s, n_heap b !! rb = Some s ∧ s_session_id s = sid ∧ s_encryption_key s = key.

(** ** Lemmas *)

Lemma sole_sid_before a a' : heap_grows (n_heap a) (n_heap a') → sole_sid a' → sole_sid a.
Proof using Type.
  intros Hg Hu r s Hs Hsid. destruct (Hg r s Hs) as (s' & Hs' & (I & _) & _). eapply Hu; [done|congruence].
Qed.

Lemma sole_peer_before b b' : heap_grows (n_heap b) (n_heap b') → sole_peer b' → sole_peer b.
Proof using Type.
  intros Hg Hu r s Hs Hp. destruct (Hg r s Hs) as (s' & Hs' & (_ & I & _) & _). eapply Hu; [done|congruence].
Qed.

(** A sealed payload opens, an accepted one did. *)
Lemma opened_sealed s seq pt dp :
  s_session_id s = sid → s_encryption_key s = key → seal_data s seq pt = Ok dp →
  opened dp = Some pt ∧ data_sequence_number dp = seq.
Proof using CryptoLaws0.
  intros Hsid Hkey Hseal.
  assert (data_session_id dp = sid ∧ data_sequence_number dp = seq) as [H1 H2].
  { by apply seal_data_inv in Hseal as (nonce & aad & ct & tag & _ & _ & _ & ->). }
  split; [|done]. unfold opened. rewrite bool_decide_true by done.
  erewrite open_sealed by (done || cbn; lia). done.
Qed.

Lemma opened_accepted s s' dp pt :
  s_session_id s = sid → s_encryption_key s = key → data_session_id dp = sid →
  decrypt_data_packet dp s = (s', Ok (Some pt)) → opened dp = Some pt.
Proof using Type.
  intros Hsid Hkey Hdp Hdec. pose proof (proj1 (decrypt_accepted _ _ _ _ Hdec)) as Hlt.
  unfold opened. rewrite bool_decide_true by done. unfold decrypt_data_packet, check_recv_sequence in *.
  rewrite (proj2 (Z.ltb_lt _ _)) in Hdec by done. cbn. rewrite (proj2 (Z.ltb_lt _ _)) by lia.
  cbn [negb] in *. rewrite Hsid, Hkey in Hdec.
  destruct (build_nonce _ _); [|done]. destruct (data_aad _); [|done]. destruct (decrypt _ _ _ _ _); [|done].
  by injection Hdec as _ ->.
Qed.

Lemma sent_plain ev : plain_event ev → sent_data ev = None.
Proof using Type. destruct ev; cbn; try done. intros H. by rewrite bool_decide_false. Qed.

Lemma shown_plain ev : plain_event ev → shown_message ev = None.
Proof using Type. by destruct ev. Qed.

Lemma omap_none {A B} (f : A → option B) l : Forall (λ x, f x = None) l → omap f l = [].
Proof using Type. induction 1 as [|x l Hx _ IH]; cbn; [done|]. by rewrite Hx. Qed.

Lemma sent_plains l : Forall plain_event l → omap sent_data l = [].
Proof using Type. intros H. apply omap_none. eapply Forall_impl; [exact H|apply sent_plain]. Qed.

Lemma shown_plains l : Forall plain_event l → omap shown_message l = [].
Proof using Type. intros H. apply omap_none. eapply Forall_impl; [exact H|apply shown_plain]. Qed.

Lemma sent_app a a' l : n_trace a' = n_trace a ++ l → sent a' = sent a ++ omap sent_data l.
Proof using Type. intros H. unfold sent. by rewrite H, omap_app. Qed.

Lemma shown_app b b' l : n_trace b' = n_trace b ++ l → shown_by b' = shown_by b ++ omap shown_message l.
Proof using Type. intros H. unfold shown_by. by rewrite H, omap_app. Qed.

(** ** The sender *)

(** Changes of the sender that send nothing on the session. *)
Lemma sender_ok_same a a' :
  sender_ok a → heap_grows (n_heap a) (n_heap a') → loops_hello a' → sent a' = sent a → sender_ok a'.
Proof using Type.
  intros [Hl (s & Hs & Hsid & Hkey & Hlt) Hst] Hg Hl' E. split; [done| |by rewrite E].
  destruct (Hg ra s Hs) as (s' & Hs' & (I1 & _ & I3) & A & _). exists s'. rewrite E.
  split_and!; [done|congruence..|]. eapply Forall_impl; [exact Hlt|]. cbn. lia.
Qed.

Lemma sender_move l a a' :
  move l a a' → l ≠ Resend → sole_sid a' → sender_ok a →
  sender_ok a' ∧ ∃ ms, sent a' = sent a ++ ms.
Proof using CryptoLaws0.
  intros Hm Hl Hu Hok. pose proof (move_heap_grows _ _ _ Hm) as Hg.
  pose proof (move_loops_hello _ _ _ Hm (so_loops _ Hok)) as Hl'.
  assert (sent a' = sent a → sender_ok a' ∧ ∃ ms, sent a' = sent a ++ ms) as Hsame.
  { intros E. split; [by eapply sender_ok_same|]. exists []. by rewrite app_nil_r. }
  destruct Hm as [a a' _ _ Ht|ev a Hev|op a|r s a _|r s s' a _ _ _ _|loops a _|t h ep a Hh
    |r s dp pt pkt ep l a a' Hs Hseal Htype Hdp Hh Hloops Hpl Ht|r s s' dp pt l1 l2 a a' _ _ _ _ _ H1 H2 Ht|];
    try by apply Hsame.
  - apply Hsame. unfold sent. by rewrite Ht.
  - apply Hsame. erewrite sent_app by done. cbn. by rewrite sent_plain, app_nil_r by (by destruct ev).
  - apply Hsame. erewrite sent_app by done. cbn. by rewrite app_nil_r.
  - apply Hsame. erewrite sent_app by done. cbn. rewrite (so_loops _ Hok _ _ Hh), bool_decide_false by done.
    by rewrite app_nil_r.
  - destruct (decide (s_session_id s = sid)) as [Hsid|Hsid].
    + assert (r = ra) as -> by (eapply sole_sid_before; eauto).
      destruct Hok as [_ (s0 & Hs0 & _ & Hkey & Hlt) Hst]. rewrite Hs in Hs0. injection Hs0 as <-.
      destruct (opened_sealed s _ pt dp Hsid Hkey Hseal) as [Hop Hnum].
      assert (sent a' = sent a ++ [(s_send_sequence s, pt)]) as E.
      { rewrite (sent_app _ _ _ Ht), omap_app, (sent_plains _ Hpl). cbn.
        rewrite Htype, Hdp, bool_decide_true, Hop by done. cbn. by rewrite Hnum. }
      split; [|by eexists]. split; [done| |].
      * eexists. rewrite Hh, lookup_insert_eq, E. split_and!; [done..|]. cbn. apply Forall_app_2.
        -- eapply Forall_impl; [exact Hlt|]. cbn. lia.
        -- repeat constructor. cbn. lia.
      * rewrite E, fmap_app. apply strongly_sorted_snoc; [done|]. by apply Forall_fmap.
    + apply Hsame. rewrite (sent_app _ _ _ Ht), omap_app, (sent_plains _ Hpl). cbn.
      rewrite Htype, Hdp, bool_decide_true by done. unfold opened.
      apply seal_data_inv in Hseal as (nonce & aad & ct & tag & _ & _ & _ & ->). cbn.
      rewrite bool_decide_false by done. by rewrite app_nil_r.
  - apply Hsame. rewrite (sent_app _ _ _ Ht), !omap_app, (sent_plains _ H1), (sent_plains _ H2). cbn.
    by rewrite app_nil_r.
Qed.

Lemma sender_moves a a' :
  moves (λ l, l ≠ Resend) a a' → sole_sid a' → sender_ok a → sender_ok a' ∧ ∃ ms, sent a' = sent a ++ ms.
Proof using CryptoLaws0.
  induction 1 as [a|a1 a2 a3 (l & Hl & Hm) H IH]; intros Hu Hok.
  - split; [done|]. exists []. by rewrite app_nil_r.
  - assert (sole_sid a2) as Hu2 by (eapply (sole_sid_before a2 a3); [exact (moves_heap_grows _ _ _ H)|done]).
    destruct (sender_move l a1 a2 Hm Hl Hu2 Hok) as [Hok2 [ms E]].
    destruct (IH Hu Hok2) as [Hok3 [ms' E']]. split; [done|]. exists (ms ++ ms'). by rewrite E', E, app_assoc.
Qed.

(** What the sender sends enters the channel. *)
Lemma channel_sends a a' b ms :
  sent a' = sent a ++ ms → rtc channel_step (channel_of a b) (channel_of a' b).
Proof using Type.
  intros E. unfold channel_of. rewrite E. clear E. induction ms as [|m ms IH] using rev_ind.
  - rewrite app_nil_r. apply rtc_refl.
  - eapply rtc_trans; [exact IH|]. rewrite app_assoc. generalize (sent a ++ ms). intros l.
    rewrite filter_app, !fmap_app.
    eapply rtc_l; [apply (ch_send m.2)|]. apply channel_loses, sublist_app; [done|].
    rewrite filter_cons. case_decide; cbn; [done|]. apply sublist_nil_l.
Qed.

(** ** The receiver *)

Lemma filter_above_sublist (k k' : Z) (l : list (Z * bytes)) :
  (k ≤ k')%Z → filter (λ m, (k' < m.1)%Z) l `sublist_of` filter (λ m, (k < m.1)%Z) l.
Proof using Type.
  intros Hk. induction l as [|m l IH]; [done|]. rewrite !filter_cons.
  repeat case_decide; try lia; [by apply sublist_skip|by apply sublist_cons|done].
Qed.

Lemma fmap_sublist {A B} (f : A → B) l k : l `sublist_of` k → f <$> l `sublist_of` f <$> k.
Proof using Type. induction 1; cbn; by constructor. Qed.

(** The receiver's counter advances past what it has not seen. *)
Lemma channel_skips a b b' :
  (received b ≤ received b')%Z → shown_by b' = shown_by b → rtc channel_step (channel_of a b) (channel_of a b').
Proof using Type.
  intros Hr E. unfold channel_of. rewrite E. apply channel_loses, fmap_sublist. by apply filter_above_sublist.
Qed.

(** Of sent messages in increasing order, the one with number [k] comes before those above [k]. *)
Lemma sent_from (k k' : Z) pt (l : list (Z * bytes)) :
  StronglySorted Z.lt l.*1 → (k', pt) ∈ l → (k < k')%Z →
  (k', pt) :: filter (λ m, (k' < m.1)%Z) l `sublist_of` filter (λ m, (k < m.1)%Z) l.
Proof using Type.
  induction l as [|m l IH]; intros Hs Hin Hk; [by apply elem_of_nil in Hin|]. cbn in Hs.
  apply StronglySorted_inv in Hs as [Hs Hm]. rewrite !filter_cons. apply elem_of_cons in Hin as [<-|Hin].
  - cbn. rewrite decide_False, decide_True by lia. apply sublist_skip. apply filter_above_sublist. lia.
  - assert (m.1 < k')%Z as Hlt.
    { rewrite Forall_forall in Hm. apply Hm. apply list_elem_of_fmap. by exists (k', pt). }
    rewrite decide_False by lia. specialize (IH Hs Hin Hk). case_decide; [by apply sublist_cons|done].
Qed.

Lemma received_grows b b' :
  receiver_ok b → heap_grows (n_heap b) (n_heap b') → receiver_ok b' ∧ (received b ≤ received b')%Z.
Proof using Type.
  intros (s & Hs & Hsid & Hkey) Hg. destruct (Hg rb s Hs) as (s' & Hs' & (I1 & _ & I3) & _ & B).
  split; [exists s'; split_and!; congruence|]. unfold received. by rewrite Hs, Hs'.
Qed.

(** A move of the receiver shows nothing and does not lower the counter, or it shows one message that the sender sent,
    whose number is above the counter and becomes the counter. *)
Definition receives (sent : list (Z * bytes)) (b b' : node) : Prop :=
  (shown_by b' = shown_by b ∧ (received b ≤ received b')%Z) ∨
  (∃ m, m ∈ sent ∧ (received b < m.1)%Z ∧ received b' = m.1 ∧ shown_by b' = shown_by b ++ [m.2]).

Lemma receiver_move l a b b' :
  move l b b' → (∀ r dp pt, l = Accept r dp pt → opened dp = Some pt → (data_sequence_number dp, pt) ∈ sent a) →
  sole_peer b' → receiver_ok b → receiver_ok b' ∧ receives (sent a) b b'.
Proof using Type.
  intros Hm Hgen Hu Hok. pose proof (move_heap_grows _ _ _ Hm) as Hg.
  destruct (received_grows _ _ Hok Hg) as [Hok' Hle]. split; [done|].
  assert (shown_by b' = shown_by b → receives (sent a) b b') as Hsame by (by left).
  destruct Hm as [b b' _ _ Ht|ev b Hev|op b|r s b _|r s s' b _ _ _ _|loops b _|t h ep b Hh
    |r s dp pt pkt ep l b b' Hs Hseal Htype Hdp Hh Hloops Hpl Ht
    |r s s' dp pt l1 l2 b b' Hs Hsid Hdec Hh _ H1 H2 Ht|pkt ep b];
    try (apply Hsame; reflexivity).
  - apply Hsame. unfold shown_by. by rewrite Ht.
  - apply Hsame. erewrite shown_app by done. cbn. by rewrite shown_plain, app_nil_r by (by destruct ev).
  - apply Hsame. erewrite shown_app by done. cbn. by rewrite app_nil_r.
  - apply Hsame. erewrite shown_app by done. cbn. by rewrite app_nil_r.
  - apply Hsame. rewrite (shown_app _ _ _ Ht), omap_app, (shown_plains _ Hpl). cbn. by rewrite app_nil_r.
  - assert (shown_by b' = shown_by b ++ (if s_remote_peer_id s =?b pa then [pt] else [])) as E.
    { rewrite (shown_app _ _ _ Ht), !omap_app, (shown_plains _ H1), (shown_plains _ H2). cbn.
      by destruct (s_remote_peer_id s =?b pa). }
    case_bool_decide as Hp; [|apply Hsame; by rewrite E, app_nil_r].
    assert (r = rb) as -> by (eapply sole_peer_before; eauto).
    destruct Hok as (s0 & Hs0 & Hsid0 & Hkey). rewrite Hs in Hs0. injection Hs0 as <-.
    destruct (decrypt_accepted _ _ _ _ Hdec) as [Hlt ->].
    assert (opened dp = Some pt) as Hop by (eapply opened_accepted; eauto; congruence).
    right. exists (data_sequence_number dp, pt). split; [by apply (Hgen rb dp pt)|]. split; [|split; [|done]].
    + unfold received. by rewrite Hs.
    + unfold received. by rewrite Hh, lookup_insert_eq.
  - apply Hsame. erewrite shown_app by done. cbn. by rewrite app_nil_r.
Qed.

(** A datagram or a step of its own takes the receiver through such moves. *)
Lemma receiver_moves a b b' (ok : label → Prop) :
  moves ok b b' → (∀ r dp pt, ok (Accept r dp pt) → opened dp = Some pt → (data_sequence_number dp, pt) ∈ sent a) →
  sole_peer b' → receiver_ok b → receiver_ok b' ∧ rtc (receives (sent a)) b b'.
Proof using Type.
  intros Hm Hgen. induction Hm as [b|b1 b2 b3 (l & Hl & Hm) H IH]; intros Hu Hok; [by split|].
  assert (sole_peer b2) as Hu2 by (eapply (sole_peer_before b2 b3); [exact (moves_heap_grows _ _ _ H)|done]).
  destruct (receiver_move l a b1 b2 Hm) as [Hok2 H2]; [by intros r dp pt ->; apply (Hgen r)|done..|].
  destruct (IH Hu Hok2) as [Hok3 H3]. split; [done|]. by eapply rtc_l.
Qed.

(** In the two channels. *)
Lemma receives_channel a b b' :
  StronglySorted Z.lt (sent a).*1 → rtc (receives (sent a)) b b' → rtc channel_step (channel_of a b) (channel_of a b').
Proof using Type.
  intros Hst. induction 1 as [b|b1 b2 b3 H _ IH]; [apply rtc_refl|]. eapply rtc_trans; [|exact IH].
  destruct H as [[E Hle]|([n pt] & Hin & Hlt & Hr & E)]; [by apply channel_skips|]. cbn in *.
  unfold channel_of. rewrite E, Hr. eapply rtc_r; [apply channel_loses, fmap_sublist; by eapply sent_from|]. apply ch_deliver.
Qed.

Lemma receives_numbered a b b' :
  rtc (receives (sent a)) b b' → rtc numbered_step (numbered_of a b) (numbered_of a b').
Proof using Type.
  induction 1 as [b|b1 b2 b3 H _ IH]; [apply rtc_refl|]. eapply rtc_l; [|exact IH].
  unfold numbered_of. destruct H as [[E Hle]|(m & Hin & Hlt & Hr & E)]; rewrite E; [by apply nb_skip|].
  rewrite Hr. by apply nb_deliver.
Qed.

(** ** The refinement *)

Record net_ok (ab : node * node) : Prop := {
  no_a : node_ok ab.1;
  no_b : node_ok ab.2;
  no_receiver : receiver_ok ab.2 }.

Lemma is_sync_or_not data :
  (∃ packet, packet_deserialize data = Ok packet ∧ pkt_type packet = SYNC) ∨
  (∀ packet, packet_deserialize data = Ok packet → pkt_type packet ≠ SYNC).
Proof using Type.
  destruct (packet_deserialize data) as [packet|e]; [|by right].
  destruct (decide (pkt_type packet = SYNC)); [left; eauto|right]. by intros ? [= <-].
Qed.

(** What a node has sent stays sent. *)
Lemma moves_sent ok a a' : moves ok a a' → ∃ ms, sent a' = sent a ++ ms.
Proof using Type.
  induction 1 as [a|a1 a2 a3 (l & _ & Hm) _ (ms & E)]; [exists []; by rewrite app_nil_r|].
  assert (∃ evs, n_trace a2 = n_trace a1 ++ evs) as (evs & Ht).
  { destruct Hm; eauto; exists []; by rewrite app_nil_r. }
  rewrite E, (sent_app _ _ _ Ht). eexists. by rewrite <- app_assoc.
Qed.

(** One step, in a run that ends in nodes without a second session of the receiver with the peer: the sender sends, or
    the receiver receives. *)
Lemma net_step_cases resends ab ab' :
  net_step resends ab ab' → sole_peer ab'.2 → net_ok ab →
  net_ok ab' ∧
  ((ab'.2 = ab.2 ∧ ∃ ms, sent ab'.1 = sent ab.1 ++ ms) ∨ (ab'.1 = ab.1 ∧ rtc (receives (sent ab.1)) ab.2 ab'.2)).
Proof using CryptoLaws0.
  intros Hstep Hub [Ha Hb Hr].
  destruct Hstep as [a a' b Hl|data addr now d a b Hsync|a b b' Hl|data addr now d a b Hgen]; cbn in *.
  - split; [split; cbn; try done; by apply (local_step_evolves _ _ Hl)|]. left. split; [done|].
    apply (moves_sent (λ _, True)). by apply local_step_moves.
  - split; [split; cbn; try done; by apply ev_datagram|]. left. split; [done|].
    apply (moves_sent (λ _, True)). apply datagram_moves; try done. apply Ha.
  - destruct (receiver_moves a b b' (λ l, ∀ r dp pt, l ≠ Accept r dp pt)) as [Hr' Hc];
      [by apply local_step_moves|by intros r dp pt Hno; destruct (Hno r dp pt)|done..|].
    split; [|by right]. split; cbn; try done. by apply (local_step_evolves _ _ Hl).
  - destruct (receiver_moves a b (datagram_received data addr now d b).1
      (λ l, ∀ r dp pt, l = Accept r dp pt → opened dp = Some pt → (data_sequence_number dp, pt) ∈ sent a))
      as [Hr' Hc]; [|by intros r dp pt H; apply (H r)|done..|].
    + apply datagram_moves; [done|done|done|apply Hb|]. intros packet Hp. split; [done|].
      intros r dp pt Ht Hd r' dp' pt' [= <- <- <-]. by eapply Hgen.
    + split; [|by right]. split; cbn; try done. by apply ev_datagram.
Qed.

(** A step without resends keeps the sender's invariant. *)
Lemma net_step_sender ab ab' :
  net_step false ab ab' → sole_sid ab'.1 → node_ok ab.1 → sender_ok ab.1 → sender_ok ab'.1.
Proof using CryptoLaws0.
  intros Hstep Hua Ha Hs.
  destruct Hstep as [a a' b Hl|data addr now d a b Hsync|a b b' Hl|data addr now d a b Hgen]; cbn in *; try done.
  - eapply (sender_moves a a'); [by apply local_step_moves|done..].
  - destruct (is_sync_or_not data) as [(packet & Hp & Ht)|Hno].
    + assert (moves (λ _, True) a (datagram_received data addr now d a).1) as Hm by (apply datagram_moves; try done; apply Ha).
      eapply sender_ok_same; [done|by eapply moves_heap_grows| |by eapply Hsync].
      eapply moves_loops_hello; [exact Hm|apply Hs].
    + eapply (sender_moves a (datagram_received data addr now d a).1); [|done..]. apply datagram_moves; [done|done|done|apply Ha|].
      intros packet Hp. split; [|done]. intros Ht. by destruct (Hno packet).
Qed.

Lemma net_step_grows resends ab ab' :
  net_step resends ab ab' → heap_grows (n_heap ab.1) (n_heap ab'.1) ∧ heap_grows (n_heap ab.2) (n_heap ab'.2).
Proof using Type.
  destruct 1; cbn; split; try apply heap_grows_refl;
    first [by apply local_step_evolves | apply ev_datagram].
Qed.

Lemma net_steps_grow resends ab ab' :
  rtc (net_step resends) ab ab' → heap_grows (n_heap ab.1) (n_heap ab'.1) ∧ heap_grows (n_heap ab.2) (n_heap ab'.2).
Proof using Type.
  induction 1 as [ab|ab1 ab2 ab3 H _ [IHa IHb]]; [split; apply heap_grows_refl|].
  destruct (net_step_grows _ _ _ H). split; by eapply heap_grows_trans.
Qed.

(** All runs refine the numbered channel. *)
Lemma net_steps_numbered resends ab ab' :
  rtc (net_step resends) ab ab' → sole_peer ab'.2 → net_ok ab →
  rtc numbered_step (numbered_of ab.1 ab.2) (numbered_of ab'.1 ab'.2).
Proof using CryptoLaws0.
  intros Hsteps Hub. induction Hsteps as [ab|ab1 ab2 ab3 H Hsteps IH]; intros Hok; [apply rtc_refl|].
  assert (sole_peer ab2.2) as Hub2 by (eapply sole_peer_before; [by apply (net_steps_grow _ _ _ Hsteps)|done]).
  destruct (net_step_cases _ _ _ H Hub2 Hok) as [Hok2 Hc]. eapply rtc_trans; [|by apply IH].
  destruct Hc as [[-> (ms & E)]|[-> Hc]]; [|by apply receives_numbered].
  unfold numbered_of. rewrite E. apply numbered_sends.
Qed.

(** Runs without resends refine the first-in-first-out channel. *)
Lemma net_steps_channel ab ab' :
  rtc (net_step false) ab ab' → sole_sid ab'.1 → sole_peer ab'.2 → net_ok ab → sender_ok ab.1 →
  sender_ok ab'.1 ∧ rtc channel_step (channel_of ab.1 ab.2) (channel_of ab'.1 ab'.2).
Proof using CryptoLaws0.
  intros Hsteps Hua Hub. induction Hsteps as [ab|ab1 ab2 ab3 H Hsteps IH]; intros Hok Hs; [by split|].
  destruct (net_steps_grow _ _ _ Hsteps) as [Hga Hgb].
  destruct (net_step_cases _ _ _ H) as [Hok2 Hc]; [by eapply sole_peer_before|done|].
  assert (sender_ok ab2.1) as Hs2 by (eapply (net_step_sender _ _ H); [by eapply sole_sid_before|apply Hok|done]).
  destruct (IH Hua Hub Hok2 Hs2) as [Hs3 Hc3]. split; [done|]. eapply rtc_trans; [|exact Hc3].
  destruct Hc as [[-> (ms & E)]|[-> Hc]]; [by eapply channel_sends|]. apply receives_channel; [apply Hs|done].
Qed.

(** C1: a session is a channel of numbered packets, and first-in-first-out until a SYNC makes the sender repeat.  Two nodes
    hold the ends of a session.  They then do anything in any order (send, retry,
    connect, disconnect, talk to others, run their background loops) and get any datagrams, lost, repeated, reordered or
    invented, as long as the receiver gets no payload forged under the session's key and opens no second session with the
    peer.  Then the messages sent and shown are a run of the numbered channel: what the receiver's user sees are texts that
    the sender put into packets of the session, unaltered, with strictly rising packet numbers, so no packet counts twice.
    If, besides, the session is new, no SYNC makes the sender repeat packets of the session (the repetitions bear old numbers) and the sender
    opens no second session with the id, they are a run of the lossy first-in-first-out channel: the packets bear strictly
    rising numbers and the user sees a subsequence of what was sent. *)
Theorem session_refines_channel (resends : bool) (a0 b0 a b : node) :
  rtc (net_step resends) (a0, b0) (a, b) → net_ok (a0, b0) → sole_peer b →
  (rtc numbered_step (numbered_of a0 b0) (numbered_of a b) ∧
   ∃ got, shown_by b = shown_by b0 ++ got.*2 ∧ StronglySorted Z.lt got.*1 ∧
     Forall (λ m, m ∈ sent a ∧ (received b0 < m.1)%Z) got) ∧
  (resends = false → sent a0 = [] → sender_ok a0 → sole_sid a →
   rtc channel_step (mkChannel [] [] (shown_by b0)) (channel_of a b) ∧
   StronglySorted Z.lt (sent a).*1 ∧
   ∃ got, shown_by b = shown_by b0 ++ got ∧ got `sublist_of` (sent a).*2).
Proof using CryptoLaws0.
  intros Hsteps Hok Hub. split.
  - pose proof (net_steps_numbered _ _ _ Hsteps Hub Hok) as Hc. split; [exact Hc|].
    exact (proj2 (proj2 (numbered_rising _ _ Hc))).
  - intros -> H0 Hs0 Hua. destruct (net_steps_channel _ _ Hsteps Hua Hub Hok Hs0) as [Hs Hc].
    cbn in *. unfold channel_of at 1 in Hc. rewrite H0 in Hc. split_and!; [exact Hc|apply Hs|].
    destruct (channel_in_order _ _ Hc) as (put & got & Hput & Hgot & Hsub). cbn in *. exists got.
    split; [done|]. rewrite Hput. etrans; [|exact Hsub]. by apply sublist_inserts_r.
Qed.
End network.

(** ** A lost acknowledgement *)

Section lost_ack.
Context `{C : CryptoLib} `{!CryptoLaws C}.

(** C37: a lost ACK shows a message twice.  Two nodes share a session; a message is sent and shown, but the
    acknowledgements get lost.  When the sender's retry loop runs after the timeout it encrypts the message
    again under the next number, so the receiver takes the datagram for a new message: it is accepted,
    written to the log, acknowledged, and its user sees the same text a second time.  Replay protection
    works on packet numbers, and nothing compares message ids. *)
Theorem lost_ack_duplicates (a b : node) (ra rb : sref) (sa sb : Session) (ep_b addr_a : endpoint)
    (text : pystr) (pt aad : bytes) (t1 t2 t3 t4 : seconds) (d1 d2 d4 : draws) :
  linked a b ra rb sa sb → get_endpoint (n_table a) (s_remote_peer_id sa) = Some ep_b → n_queue a = [] →
  utf8_encode text = Ok pt → (Z.of_nat (length pt) + 32 ≤ MAX_PAYLOAD_SIZE)%Z →
  utf8_encode (d_uuid d1) = Ok aad → dmem (db_queue (n_db a)) (d_uuid d1) = false →
  u32 (s_send_sequence sa) → u32 (s_send_sequence sa + 1) → (s_recv_sequence sb < s_send_sequence sa)%Z →
  tlt ACK_TIMEOUT (tsub t3 t1) = true →
  (∀ pkt, pkt_type pkt = DATA → (rate_limit pkt addr_a t2 b).2 = Ok true) →
  ∃ a1 pkt1 wire1 b1 pkt2 wire2 l1 l2,
    send_message (s_remote_peer_id sa) text t1 d1 a = (a1, Ok (d_uuid d1, None)) ∧
    n_trace a1 = n_trace a ++ l1 ++ [EvSend pkt1 ep_b] ∧ packet_serialize pkt1 = Ok wire1 ∧
    datagram_received wire1 addr_a t2 d2 b = (b1, Ok ()) ∧
    n_trace (node_retry_pass t3 a1) = n_trace a1 ++ l2 ++ [EvSend pkt2 ep_b] ∧
    packet_serialize pkt2 = Ok wire2 ∧ pkt_type pkt2 = DATA ∧
    ((rate_limit pkt2 addr_a t4 b1).2 = Ok true → ∃ b2 m1 m2 m3,
       datagram_received wire2 addr_a t4 d4 b1 = (b2, Ok ()) ∧
       n_trace b2 = n_trace b ++ m1 ++ EvMessage (s_remote_peer_id sb) pt :: m2 ++
         EvMessage (s_remote_peer_id sb) pt :: m3).
Proof using CryptoLaws0.
  intros Hl Hep Hq Htext Hfit Haad Hdb Hu Hu' Hlt Hto Hrate.
  destruct (sent_on_its_way a b ra rb sa sb ep_b text pt aad t1 d1) as (a1 & pkt1 & l1 & Hsend & Hw1 & Htr1); try done.
  { rewrite Hq. apply NoDup_nil_2. } { by rewrite Hq. }
  destruct (retry_transmits a1 _ _ _ _ _ 0 t1 t3 pkt1 Hw1) as (pkt2 & l2 & Hw2 & Htr2); [done|done|exact Hu'|done|].
  pose proof (ow_packet _ _ _ _ _ _ _ _ _ Hw1) as Hc1. pose proof (ow_packet _ _ _ _ _ _ _ _ _ Hw2) as Hc2.
  cbn [s_send_sequence set_send_sequence] in Hc1, Hc2. rewrite Z.add_simpl_r in Hc1, Hc2.
  assert (pkt_type pkt1 = DATA ∧ pkt_type pkt2 = DATA) as [T1 T2].
  { destruct Hc1 as (? & ? & _), Hc2 as (? & ? & _). done. }
  destruct (carried_accepted b rb _ sb addr_a pkt1 _ pt t2 d2 Hc1) as (wire1 & b1 & ack & aw & app & pw & W1 & B1 & Tr1 & H1 & R1 & _);
    [apply Hl..|done|by apply Hrate|].
  assert (on_wire pkt2) as (wire2 & W2 & _) by (by destruct Hc2 as (? & _ & _ & ? & _)).
  exists a1, pkt1, wire1, b1, pkt2, wire2, l1, l2. split_and!; try done. intros Hrate2.
  destruct (carried_accepted b1 rb _ (set_recv_sequence (s_send_sequence sa) sb) addr_a pkt2 _ pt t4 d4 Hc2)
    as (wire & b2 & ack2 & aw2 & app2 & pw2 & W & B2 & Tr2 & _); try done.
  - rewrite H1, R1. eapply registry_inv_update; [apply Hl|apply Hl|done].
  - rewrite R1. apply Hl.
  - by rewrite H1, lookup_insert_eq.
  - apply Hl.
  - apply Hl.
  - cbn. lia.
  - rewrite W2 in W. apply Ok_inj in W as <-. eexists b2, [_; _; _], [_; _; _; _], [_]. split; [done|].
    rewrite Tr2, Tr1, <- app_assoc. done.
Qed.
End lost_ack.

(** ** Examples *)

Module NetworkExample.
Import ToyCrypto NodeExample.

Lemma example_node_ok me s pk addr :
  s_remote_peer_id s ≠ id_peer_id me → node_ok (example_node me s pk addr).
Proof.
  intros Hne. pose proof (example_registry me s pk addr) as Hr. split.
  - unfold example_node. cbn [n_table set_n_table]. apply add_direct_peer_wf.
    split; cbn; [apply NoDup_nil_2|]. intros k e Hin. by apply elem_of_nil in Hin.
  - cbn. unfold add_direct_peer. by case_bool_decide.
  - apply empty_db_wf.
  - apply NoDup_nil_2.
  - destruct Hr as [H1 H2 H3 H4 H5]. split; [exact H1|exact H2|exact H3| |].
    + intros sid r H. destruct (H4 sid r H) as (s0 & Hs & Hi & _). by exists s0.
    + intros p r H. destruct (H5 p r H) as (s0 & Hs & Hi & _). by exists s0.  - intros t l Hl. cbn in Hl. by rewrite lookup_empty in Hl.
Qed.

Lemma example_net_ok : net_ok sid key 0 (node_a, node_b).
Proof.
  split; cbn [fst snd].
  - apply example_node_ok. vm_compute. discriminate.
  - apply example_node_ok. vm_compute. discriminate.
  - exists session_ba. split_and!; vm_compute; reflexivity.
Qed.

Lemma example_sender_ok : sender_ok sid key 0 node_a.
Proof.
  assert (sent sid key node_a = []) as E by (vm_compute; reflexivity). split.
  - intros t h Hh. vm_compute in Hh. discriminate Hh.
  - exists session_ab. split_and!; [vm_compute; reflexivity|reflexivity|reflexivity|]. rewrite E. apply Forall_nil_2.
  - rewrite E. apply SSorted_nil.
Qed.

(** Alice sends, the datagram arrives at Bob. *)
Definition alice1 : node := (send_message (id_peer_id bob) (str "hello") (secs 1) drawn node_a).1.
Definition wire1 : bytes :=
  match last (n_trace alice1) with
  | Some (EvSend pkt _) => match packet_serialize pkt with Ok w => w | Raise _ => [] end
  | _ => []
  end.
Definition bob1 : node := (datagram_received wire1 addr_alice (secs 2) drawn node_b).1.

Lemma wire1_genuine : genuine sid key alice1 wire1.
Proof.
  intros packet dp pt Hp Ht Hd Ho. vm_compute in Hp. apply Ok_inj in Hp. subst packet.
  vm_compute in Hd. apply Ok_inj in Hd. subst dp. vm_compute in Ho. injection Ho as <-.
  replace (sent sid key alice1) with [(1%Z, bytes_of_string "hello")] by (vm_compute; reflexivity).
  apply list_elem_of_singleton. vm_compute. reflexivity.
Qed.

Lemma session_refines_channel_witness :
  ∃ got, shown_by (id_peer_id alice) bob1 = got ∧ got `sublist_of` (sent sid key alice1).*2 ∧ length got = 1.
Proof.
  destruct (session_refines_channel sid key 0 0 (id_peer_id alice) false node_a node_b alice1 bob1) as [_ H].
  - apply (rtc_l _ _ (alice1, node_b)); [apply net_sender, step_call, step_send|].
    apply (rtc_l _ _ (alice1, bob1)); [|apply rtc_refl]. apply net_receiver_datagram. exact wire1_genuine.
  - exact example_net_ok.
  - intros r s Hs _. revert r s Hs.
    apply (bool_decide_unpack (map_Forall (λ r _, r = 0) (n_heap bob1))). vm_compute. exact I.
  - destruct H as (_ & _ & got & Hs & Hsub).
    + reflexivity.
    + vm_compute. reflexivity.
    + exact example_sender_ok.
    + intros r s. change (n_heap alice1) with (<[0 := set_send_sequence 2 session_ab]> ({[0 := session_ab]} : sheap)).
      intros [[<- _]|[_ [<- _]%lookup_singleton_Some]]%lookup_insert_Some _; reflexivity.
    + exists got. split_and!; [|exact Hsub|].
      * rewrite Hs. vm_compute. reflexivity.
      * apply (f_equal length) in Hs. rewrite length_app in Hs. vm_compute in Hs. symmetry. exact Hs.
Defined.

Lemma lost_ack_duplicates_witness :
  ∃ a1 wire1 b1 wire2 b2 m1 m2 m3,
    send_message (id_peer_id bob) (str "hello") (secs 1) drawn node_a = (a1, Ok (str "id1", None)) ∧
    datagram_received wire1 addr_alice (secs 2) drawn node_b = (b1, Ok ()) ∧
    datagram_received wire2 addr_alice (secs 41) drawn b1 = (b2, Ok ()) ∧
    n_trace b2 = m1 ++ EvMessage (id_peer_id alice) (bytes_of_string "hello") :: m2 ++
      EvMessage (id_peer_id alice) (bytes_of_string "hello") :: m3.
Proof.
  destruct (lost_ack_duplicates node_a node_b 0 0 session_ab session_ba addr_bob addr_alice (str "hello")
    (bytes_of_string "hello") (bytes_of_string "id1") (secs 1) (secs 2) (secs 40) (secs 41) drawn drawn drawn)
    as (a1 & pkt1 & wire1 & b1 & pkt2 & wire2 & l1 & l2 & H1 & H2 & H3 & H4 & H5 & H6 & Ht2 & H7).
  - exact nodes_linked.
  - vm_compute. reflexivity.
  - reflexivity.
  - vm_compute. reflexivity.
  - vm_compute. discriminate.
  - vm_compute. reflexivity.
  - vm_compute. reflexivity.
  - vm_compute. split; [discriminate|reflexivity].
  - vm_compute. split; [discriminate|reflexivity].
  - vm_compute. reflexivity.
  - vm_compute. reflexivity.
  - intros pkt Ht. unfold rate_limit. rewrite Ht. vm_compute. reflexivity.
  - pose proof (f_equal (λ x, last (n_trace x.1)) H1) as E. cbn [fst] in E.
    rewrite H2, app_assoc, last_snoc in E. vm_compute in E. injection E as E. subst pkt1.
    vm_compute in H3. apply Ok_inj in H3.
    destruct H7 as (b2 & m1 & m2 & m3 & H7 & H8).
    + apply (f_equal fst) in H4. cbn [fst] in H4. subst b1 wire1. unfold rate_limit. rewrite Ht2.
      vm_compute. reflexivity.
    + exists a1, wire1, b1, wire2, b2, m1, m2, m3. split_and!; [exact H1|exact H4|exact H7|exact H8].
Defined.
End NetworkExample.
