(* ===== verification/Interleaving.v ===== *)
(** * Interleaved tasks (node.py, storage.py)

    The event loop with its tasks and the database thread.  A task runs to its next suspension; requests are
    executed in the order in which they were made; a task whose request was executed goes on later, after
    any number of other tasks.  Whatever the interleaving, the number of every DATA packet is in the
    database before the packet leaves, and the stored counter never goes back; the exception are the packets with which
    the SYNC handler repeats old numbers, which store nothing. *)

From S2P Require Import Prelude Bytes PyDict PyText IpAddr Packet Crypto Session Handshake QueueManager.
From S2P Require Import PeerState RateLimiter Overlay Resolution Reconnect Heartbeat Storage LogFiles.
From S2P Require Import NodeState Node NodeProps NodeExchange NodePeers NodeInv NodeMoves Tasks.

(** ** The event loop *)

(** The node, the tasks whose database request is not yet executed, oldest first, and the tasks that can go
    on. *)
Record sys := mkSys { sy_node : node; sy_waiting : list (proc ()); sy_ready : list (proc ()) }.

(** Where a suspended task goes. *)
Definition park (rest : option (proc ())) (s : sys) : sys :=
  match rest with
  | None => s
  | Some (Pause p) => mkSys (sy_node s) (sy_waiting s) (sy_ready s ++ [p])
  | Some p => mkSys (sy_node s) (sy_waiting s ++ [p]) (sy_ready s)
  end.

Definition resume (p : proc ()) (s : sys) : sys :=
  let '(n, rest) := advance p (sy_node s) in park rest (mkSys n (sy_waiting s) (sy_ready s)).

(** The database executes a task's request. *)
Definition execute (p : proc ()) (n : node) : node * proc () :=
  match p with
  | Await q k => let '(n', r) := dbq_run q n in (n', k r)
  | p => (n, p)
  end.

Section system.
Context `{C : CryptoLib}.

(** The tasks of a node; the label says that the task handles a SYNC packet. *)
Inductive node_task : bool → proc () → Prop :=
| task_packet packet addr now d : node_task (pkt_type packet =?b SYNC) (handle_packet_task packet addr now d)
| task_send p text now d : node_task false (send_message_task p text now d ;; mret ())
| task_connect p ep now d : node_task false (connect_task p ep now d)
| task_retry now : node_task false (retry_task now)
| task_add_contact code now d : node_task false (add_contact_task code now d ;; mret ())
| task_rename p nick : node_task false (rename_task p nick)
| task_archive p b now : node_task false (archive_task p b now)
| task_remove p : node_task false (remove_task p)
| task_reconnect p now d : node_task false (reconnect_task p now d ;; mret ())
| task_stop now : node_task false (stop_task now)
| task_atom (c : M ()) : (∀ n, moves (λ l, l = Quiet) n (c n).1) → node_task false (atom c).

(** One turn of the event loop or of the database thread; the label says that a SYNC packet is handled, which takes one
    turn. *)
Inductive sys_step : bool → sys → sys → Prop :=
| sys_start sync p s : node_task sync p → sys_step sync s (resume p s)
| sys_execute n p ws rs :
    sys_step false (mkSys n (p :: ws) rs) (mkSys (execute p n).1 ws (rs ++ [(execute p n).2]))
| sys_resume n ws r1 p r2 : sys_step false (mkSys n ws (r1 ++ p :: r2)) (resume p (mkSys n ws (r1 ++ r2))).

(** The positions at which [k'] goes beyond [k]. *)
Definition added {A} (k k' : list A) : list nat := seq (length k) (length k' - length k).

(** The runs from a node without tasks, with the places in its trace that the SYNC handler wrote. *)
Inductive sys_run (n0 : node) : list nat → sys → Prop :=
| run_start : sys_run n0 [] (mkSys n0 [] [])
| run_step (sync : bool) resent s s' :
    sys_run n0 resent s → sys_step sync s s' →
    sys_run n0 (if sync then resent ++ added (n_trace (sy_node s)) (n_trace (sy_node s')) else resent) s'.

Lemma task_packet_plain packet addr now d :
  pkt_type packet ≠ SYNC → node_task false (handle_packet_task packet addr now d).
Proof using Type. intros H. rewrite <- (bool_decide_false (pkt_type packet = SYNC) H). apply task_packet. Qed.

(** A run in which no SYNC arrives. *)
Lemma run_without_sync n0 s : rtc (sys_step false) (mkSys n0 [] []) s → sys_run n0 [] s.
Proof using Type.
  intros H. remember (mkSys n0 [] []) as s0 eqn:E.
  assert (sys_run n0 [] s0) as H0 by (rewrite E; apply run_start). clear E.
  induction H as [s|s1 s2 s3 H _ IH]; [done|]. apply IH. exact (run_step n0 false [] s1 s2 H0 H).
Qed.

(** The first SYNC of a run. *)
Lemma run_first_sync n0 s s' resent :
  sys_run n0 [] s → sys_step true s s' → added (n_trace (sy_node s)) (n_trace (sy_node s')) = resent →
  sys_run n0 resent s'.
Proof using Type. intros H Hs <-. exact (run_step n0 true [] s s' H Hs). Qed.

(** ** What a task may do *)

(** The send counter that a write stores. *)
Definition counter_write (op : db_op) : option (bytes * Z) :=
  match op with
  | DbUpdateSend sid v => Some (sid, v)
  | DbSaveSession sid _ v _ _ => Some (sid, v)
  | _ => None
  end.

Definition number_write (op : db_op) : list (bytes * Z) :=
  match op with DbUpdateSend sid v => [(sid, v)] | _ => [] end.

Definition request_op {B} (q : dbq B) : option db_op := match q with QWrite op => Some op | QRead _ => None end.

Definition stored {B} (q : dbq B) (r : result B) : list (bytes * Z) :=
  match r, request_op q with Ok _, Some op => number_write op | _, _ => [] end.

(** A session object has the counter [v] now. *)
Definition current (n : node) (sid : bytes) (v : Z) : Prop :=
  ∃ r s, n_heap n !! r = Some s ∧ s_session_id s = sid ∧ s_send_sequence s = v.

(** A request made now stores a counter as it is now. *)
Definition posted {B} (q : dbq B) (n : node) : Prop :=
  ∀ op sid v, request_op q = Some op → counter_write op = Some (sid, v) → current n sid v.

(** An event between two suspensions, when the numbers in [W] are stored. *)
Definition allowed (W : list (bytes * Z)) (ev : event) : Prop :=
  match ev with
  | EvDb _ => False
  | EvSend pkt _ => pkt_type pkt = DATA → ∀ dp, data_deserialize (pkt_payload pkt) = Ok dp →
      (data_session_id dp, (data_sequence_number dp + 1)%Z) ∈ W
  | _ => True
  end.

Record safe (W : list (bytes * Z)) (n n' : node) : Prop := {
  sf_loops : loops_hello n';
  sf_db : n_db n' = n_db n;
  sf_heap : heap_grows (n_heap n) (n_heap n');
  sf_trace : ∃ l, n_trace n' = n_trace n ++ l ∧ Forall (allowed W) l }.

(** The task [p], going on from node [n] with the numbers in [W] stored. *)
Fixpoint tame {A} (W : list (bytes * Z)) (p : proc A) (n : node) : Prop :=
  match p with
  | Done _ => True
  | Atom c k => (loops_hello n → safe W n (c n).1) ∧ tame W (k (c n).2) (c n).1
  | Await q k => posted q n ∧ ∀ r n', tame (stored q r ++ W) (k r) n'
  | Pause p => ∀ n', tame W p n'
  end.

(** ** Lemmas *)

Lemma allowed_mono W W' ev : W ⊆ W' → allowed W ev → allowed W' ev.
Proof using Type. intros HW. destruct ev; cbn; try done. intros H Ht dp Hdp. by apply HW, H. Qed.

Lemma safe_mono W W' n n' : W ⊆ W' → safe W n n' → safe W' n n'.
Proof using Type.
  intros HW [H1 H2 H3 (l & Hl & HF)]. split; try done. exists l. split; [done|].
  eapply Forall_impl; [exact HF|]. intros ev. by apply allowed_mono.
Qed.

Lemma safe_trans W n1 n2 n3 : safe W n1 n2 → safe W n2 n3 → safe W n1 n3.
Proof using Type.
  intros [_ D1 G1 (l1 & T1 & F1)] [L2 D2 G2 (l2 & T2 & F2)]. split; [done|congruence|by eapply heap_grows_trans|].
  exists (l1 ++ l2). rewrite T2, T1, <- app_assoc. split; [done|by apply Forall_app_2].
Qed.

Lemma tame_mono {A} (p : proc A) W W' n : W ⊆ W' → tame W p n → tame W' p n.
Proof using Type.
  revert W W' n. induction p as [r|B c k IH|B q k IH|p IH]; intros W W' n HW; cbn; [done| | |].
  - intros [Hs Hk]. split; [|by eapply IH]. intros Hl. eapply safe_mono; [done|by apply Hs].
  - intros [Hp Hk]. split; [done|]. intros r n'. eapply IH; [|apply Hk]. set_solver.
  - intros Hp n'. eapply IH; [done|apply Hp].
Qed.

Lemma tame_bind {A B} (p : proc A) (k : A → proc B) W n :
  tame W p n → (∀ a W' n', W ⊆ W' → tame W' (k a) n') → tame W (p ≫= k) n.
Proof using Type.
  unfold mbind, proc_bind. revert W n.
  induction p as [[a|e]|B' c h IH|B' q h IH|p IH]; intros W n Hp Hk; cbn in *; [by apply Hk|done| | |].
  - destruct Hp as [Hs Hp]. split; [done|]. by apply IH.
  - destruct Hp as [Hs Hp]. split; [done|]. intros r n'. apply IH; [done|]. intros a W' n'' HW. apply Hk. set_solver.
  - intros n'. apply IH; [apply Hp|done].
Qed.

Lemma tame_log p W n : tame W p n → tame W (proc_log p) n.
Proof using Type.
  revert W n. induction p as [r|B c k IH|B q k IH|p IH]; intros W n; cbn; [done| | |].
  - intros [Hs Hk]. split; [done|by apply IH].
  - intros [Hs Hk]. split; [done|]. intros r n'. apply IH, Hk.
  - intros Hp n'. apply IH, Hp.
Qed.

Lemma tame_for_each {A} (body : A → proc ()) l W n :
  (∀ x W' n', W ⊆ W' → tame W' (body x) n') → tame W (proc_for_each body l) n.
Proof using Type.
  revert W n. induction l as [|x l IH]; intros W n Hb; [done|]. cbn. apply tame_bind; [by apply Hb|].
  intros _ W' n' HW. apply IH. intros y W'' n'' HW'. apply Hb. by etrans.
Qed.

(** Quiet moves. *)
Lemma quiet_move_safe W n n' : move Quiet n n' → loops_hello n → safe W n n'.
Proof using Type.
  intros Hm Hl. pose proof (move_heap_grows _ _ _ Hm). pose proof (move_loops_hello _ _ _ Hm Hl).
  inversion Hm; subst; split; try done;
    first [exists []; rewrite app_nil_r; done | eexists; split; [reflexivity|]; repeat constructor; cbn].
  - destruct ev; cbn in *; done.
  - match goal with H : n_hello_loops _ !! _ = Some _ |- _ => by rewrite (Hl _ _ H) end.
Qed.

Lemma quiet_safe W n n' : moves (λ l, l = Quiet) n n' → loops_hello n → safe W n n'.
Proof using Type.
  induction 1 as [n|n1 n2 n3 (l & -> & Hm) _ IH]; intros Hl.
  - split; [done|done|apply heap_grows_refl|]. exists []. by rewrite app_nil_r.
  - pose proof (quiet_move_safe W _ _ Hm Hl) as H. eapply safe_trans; [exact H|]. apply IH, H.
Qed.

Lemma tame_atom {A} (c : M A) W n : moves (λ l, l = Quiet) n (c n).1 → tame W (atom c) n.
Proof using Type. intros H. split; [|done]. by apply quiet_safe. Qed.

Lemma tame_write op W n : counter_write op = None → tame W (write op) n.
Proof using Type. intros H. split; [|done]. intros op' sid v [= <-] Hop. by rewrite H in Hop. Qed.

Lemma tame_query {A} (f : database → A) W n : tame W (query f) n.
Proof using Type. split; [|done]. intros op' sid v Hop. done. Qed.

Lemma tame_ret {A} (a : A) W n : tame W (mret a) n.
Proof using Type. done. Qed.

Lemma tame_atom_bind {A B} (c : M A) (k : A → proc B) W n :
  moves (λ l, l = Quiet) n (c n).1 → (∀ a n', c n = (n', Ok a) → tame W (k a) n') →
  tame W (atom c ≫= k) n.
Proof using Type.
  intros Hc Hk. cbn. split; [by apply quiet_safe|]. destruct (c n) as [n' [a|e]]; cbn; [by apply Hk|done].
Qed.

Lemma tame_write_bind {B} op (k : () → proc B) W n :
  counter_write op = None → (∀ n', tame W (k ()) n') → tame W (write op ≫= k) n.
Proof using Type.
  intros Hop Hk. cbn. split.
  - intros op' sid v [= <-] Hop'. by rewrite Hop in Hop'.
  - intros [[]|e] n'; cbn; [|done]. eapply tame_mono; [|apply Hk]. set_solver.
Qed.

Lemma tame_query_bind {A B} (f : database → A) (k : A → proc B) W n :
  (∀ a n', tame W (k a) n') → tame W (query f ≫= k) n.
Proof using Type. intros Hk. cbn. split; [done|]. intros [a|e] n'; cbn; [apply Hk|done]. Qed.
End system.

Create HintDb task_tame.

(** [tame_step] follows a task. *)
Ltac tame_step :=
  match goal with
  | |- tame _ (atom (gets _) ≫= _) _ => apply tame_atom_bind; [apply steps_refl|intros ? ? ?]
  | |- tame _ (atom (lift _) ≫= _) _ => apply tame_atom_bind; [apply steps_refl|intros ? ? ?]
  | |- tame _ (atom _ ≫= _) _ => apply tame_atom_bind; [|intros ? ? ?]
  | |- tame _ (write _ ≫= _) _ => apply tame_write_bind; [reflexivity|intros ?]
  | |- tame _ (query _ ≫= _) _ => apply tame_query_bind; intros ? ?
  | |- tame _ (atom _) _ => apply tame_atom
  | |- tame _ (write _) _ => apply tame_write; reflexivity
  | |- tame _ (mret _) _ => exact I
  | |- tame _ (Done _) _ => exact I
  | |- tame _ pause _ => intros ?; exact I
  | |- tame _ (proc_log _) _ => apply tame_log
  | |- tame _ (proc_for_each _ _) _ => apply tame_for_each; intros ? ? ? ?
  | |- tame _ _ _ => solve [auto with task_tame]
  | |- moves _ _ _ => mv_step
  | |- tame _ (mbind _ _) _ => apply tame_bind; [|intros ? ? ? ?]
  | |- tame _ (if ?b then _ else _) _ => destruct b
  | |- tame _ (match ?x with _ => _ end) _ => destruct x
  end.

(** ** The tasks are tame *)

Section tame_tasks.
Context `{C : CryptoLib} `{!CryptoLaws C}.

(** A sealed packet of the session and the counter that follows its number. *)
Lemma build_and_read_ok msg r now n n' pkt seq sid v :
  build_and_read msg r now n = (n', Ok (Some (pkt, seq, sid, v))) →
  v = (seq + 1)%Z ∧ current n' sid v ∧
  ∀ dp, data_deserialize (pkt_payload pkt) = Ok dp → data_session_id dp = sid ∧ data_sequence_number dp = seq.
Proof using CryptoLaws0.
  unfold build_and_read. rewrite bind_eq.
  destruct (node_build_data_packet msg r now n) as [n1 [[[pkt1 seq1]|]|e]] eqn:E; [|done..].
  destruct (node_build_some _ _ _ _ _ _ _ E) as (s & Hs & _ & _ & _ & _ & Hs' & Hb).
  rewrite (bind_ok _ _ _ _ _ (get_session_ok _ _ _ Hs')). intros [= <- <- <- <- <-].
  destruct (build_data_packet_decodes _ _ _ _ _ _ _ _ Hb) as (_ & _ & _ & dp & Hdp & H1 & H2).
  split_and!; [done|by exists r, (set_send_sequence (seq1 + 1) s)|].
  intros dp'. rewrite Hdp. by intros [= <-].
Qed.

Lemma build_and_read_quiet msg r now n : moves (λ l, l = Quiet) n (build_and_read msg r now n).1.
Proof using Type.
  unfold build_and_read. apply steps_bind; [by apply mv_build|]. intros [[pkt seq]|] n' _; repeat mv_step.
Qed.

(** The numbers are stored before the packet goes out. *)
Lemma tame_numbered_send {A} msg r now (kp : Packet → proc A) none W n :
  (∀ pkt W' n', (∀ dp, data_deserialize (pkt_payload pkt) = Ok dp →
       (data_session_id dp, (data_sequence_number dp + 1)%Z) ∈ W') → tame W' (kp pkt) n') →
  tame W (res ← atom (build_and_read msg r now);
          match res with
          | None => mret none
          | Some (pkt, seq, sid, v) => store_numbers msg seq sid v now ;; kp pkt
          end) n.
Proof using CryptoLaws0.
  intros Hk. apply tame_atom_bind; [apply build_and_read_quiet|]. intros [[[[pkt seq] sid] v]|] n' E; [|done].
  destruct (build_and_read_ok _ _ _ _ _ _ _ _ _ E) as (-> & Hcur & Hdp). cbn. split.
  - intros op sid' v' [= <-] [= <- <-]. exact Hcur.
  - intros [[]|e] n1; [|done]. cbn. split; [intros op sid' v' [= <-]; done|].
    intros [[]|e] n2; [|done]. cbn. split; [intros op sid' v' [= <-]; done|].
    intros [[]|e] n3; [|done]. cbn. apply Hk. intros dp Hd. destruct (Hdp dp Hd) as [-> ->]. set_solver.
Qed.

Lemma tame_send_data pkt ep W n :
  (∀ dp, data_deserialize (pkt_payload pkt) = Ok dp →
     (data_session_id dp, (data_sequence_number dp + 1)%Z) ∈ W) → tame W (atom (send_to pkt ep)) n.
Proof using C.
  intros Hdp. cbn. split; [|done]. intros Hl. unfold send_to. rewrite bind_eq. unfold lift.
  destruct (packet_serialize pkt); cbn.
  - split; [done|done|apply heap_grows_refl|]. exists [EvSend pkt ep]. split; [done|]. apply Forall_singleton.
    by intros _.
  - apply quiet_safe; [apply steps_refl|done].
Qed.

Lemma tame_transmit msg r ep now W n : tame W (transmit_task msg r ep now) n.
Proof using CryptoLaws0.
  apply (tame_numbered_send _ _ _ (λ pkt, atom (send_to pkt ep))). intros pkt W' n' H. by apply tame_send_data.
Qed.
Hint Resolve tame_transmit : task_tame.

Lemma tame_flush p now W n : tame W (flush_task p now) n.
Proof using CryptoLaws0. unfold flush_task. repeat tame_step. Qed.

Lemma tame_resend i p now W n : tame W (resend_task i p now) n.
Proof using CryptoLaws0. unfold resend_task. repeat tame_step. Qed.
Hint Resolve tame_flush tame_resend : task_tame.

Lemma tame_retry now W n : tame W (retry_task now) n.
Proof using CryptoLaws0.
  unfold retry_task, retry_one_task. repeat tame_step. destruct (handle_timeout _ _) as [q st].
  by apply steps_frame.
Qed.

Lemma register_session_ok keys now n n' r s :
  register_session keys now n = (n', Ok (r, s)) → n_heap n' !! r = Some s.
Proof using Type.
  unfold register_session. rewrite gets_bind. intros H.
  repeat (rewrite bind_eq in H; match type of H with (let (_, _) := ?c in _) = _ => destruct c as [? [?|?]] eqn:? end;
    [|done]).
  injection H as <- <- <-. unfold get_session in *. destruct (n_heap _ !! _) eqn:Hs in Heqp4; [|done].
  by injection Heqp4 as <- <-.
Qed.

Lemma tame_open_session keys now W n : tame W (open_session_task keys now) n.
Proof using C.
  unfold open_session_task. apply tame_atom_bind.
  - unfold register_session. mv_step. set (r := fresh _). mv_step; [|repeat mv_step; by apply mv_apply_floors].
    apply steps_quiet; [done|]. apply move_alloc, not_elem_of_dom, is_fresh.
  - intros [r s] n' E. apply register_session_ok in E. cbn. split; [|by intros [[]|e] n1].
    intros op sid v [= <-] [= <- <-]. by exists r, s.
Qed.

Lemma tame_begin_heartbeat p sid addr task now W n : tame W (begin_heartbeat_task p sid addr task now) n.
Proof using C. unfold begin_heartbeat_task. repeat tame_step. Qed.
Hint Resolve tame_open_session tame_begin_heartbeat : task_tame.

Lemma tame_handle_hello packet addr now d W n : tame W (handle_hello_task packet addr now d) n.
Proof using CryptoLaws0.
  unfold handle_hello_task. repeat tame_step. apply steps_send; [done|].
  match goal with H : lift (process_hello _ _ _ _ _ _) _ = (_, Ok _) |- _ => injection H as _ Hp end.
  by apply process_hello_Some in Hp as (hello & pub & xpub & ss & _ & _ & _ & _ & _ & _ & _ & ->).
Qed.

Lemma tame_handle_hello_ack packet addr now d W n : tame W (handle_hello_ack_task packet addr now d) n.
Proof using CryptoLaws0.
  unfold handle_hello_ack_task. repeat tame_step. unfold modify. cbn [fst]. case_match; [|apply steps_refl].
  match goal with |- moves _ ?m (set_n_hello_retry_tasks _ (set_n_hello_loops ?loops _)) =>
    apply (steps_trans _ _ (set_n_hello_loops loops m)); [by apply loops_deleted|by apply steps_frame] end.
Qed.

Lemma tame_message_shown p pt W n : tame W (atom (emit (EvMessage p pt))) n.
Proof using Type.
  cbn. split; [|done]. intros Hl. split; [done|done|apply heap_grows_refl|].
  exists [EvMessage p pt]. split; [done|]. by apply Forall_singleton.
Qed.

Lemma open_data_quiet dp r s n : n_heap n !! r = Some s → moves (λ l, l = Quiet) n (open_data dp r s n).1.
Proof using Type.
  intros Hs. unfold open_data. destruct (decrypt_data_packet dp s) as [s' res] eqn:E. apply steps_quiet; [done|].
  apply (move_session r s s'); [done|..]; destruct res as [[pt|]|e];
    first [apply decrypt_accepted in E as [? ->]; cbn; by (split_and! || lia)
          |apply decrypt_unchanged in E as ->; [|done]; by (split_and! || lia)].
Qed.

Lemma log_append_quiet p blob n : moves (λ l, l = Quiet) n (log_append p blob n).1.
Proof using Type. unfold log_append. destruct (append_message _ _ _ _). by apply steps_frame. Qed.

Lemma tame_handle_data packet addr now W n : tame W (handle_data_task packet addr now) n.
Proof using Type.
  unfold handle_data_task. do 2 tame_step. destruct a0 as [r|]; [|tame_step]. apply tame_atom_bind.
  { mv_step. apply steps_bind; [by apply open_data_quiet|]. intros pt n2 _. repeat mv_step. }
  intros [[pt|] s] n2 _; [|tame_step]. do 2 tame_step.
  assert (pkt_type a0 ≠ DATA) as Ht by (unfold build_ack in *; made_packet).
  tame_step; [by apply steps_send|]. tame_step; [apply log_append_quiet|]. tame_step. tame_step; [mv_step|].
  apply tame_bind; [apply tame_message_shown|]. intros _ W' n5 _. repeat tame_step.
Qed.

Lemma tame_handle_ack packet now W n : tame W (handle_ack_task packet now) n.
Proof using C. unfold handle_ack_task. repeat tame_step. Qed.

Lemma tame_handle_app_ack packet now W n : tame W (handle_app_ack_task packet now) n.
Proof using C. unfold handle_app_ack_task. repeat tame_step. Qed.

Lemma tame_connect p ep now d W n : tame W (connect_task p ep now d) n.
Proof using Type.
  unfold connect_task. do 2 (tame_step; tame_step; [tame_step|]). do 2 tame_step. destruct a1 as [pkt st].
  apply (f_equal snd), create_hello_type in H2. tame_step; [mv_step|]. do 2 tame_step.
  repeat mv_step; [apply steps_send; [done|by rewrite H2]|by apply mv_hello_loop].
Qed.
Hint Resolve tame_connect tame_handle_hello tame_handle_hello_ack tame_handle_data tame_handle_ack
  tame_handle_app_ack : task_tame.

Lemma tame_send_message p text now d W n : tame W (send_message_task p text now d) n.
Proof using CryptoLaws0.
  unfold send_message_task. do 3 (tame_step; try mv_step). tame_step; [mv_step|]. tame_step. destruct a as [r|].
  - apply (tame_numbered_send _ _ _ (λ pkt, ep ← atom (gets (λ n, get_endpoint (n_table n) p));
      (match ep with Some ep => atom (send_to pkt ep) | None => mret () end) ;; mret (d_uuid d, None))).
    intros pkt W' m Hdp. tame_step. apply tame_bind; [|done].
    destruct a; [by apply tame_send_data|done].
  - repeat tame_step.
Qed.

Lemma tame_handle_packet packet addr now d W n :
  (pkt_type packet =?b SYNC) = false → tame W (handle_packet_task packet addr now d) n.
Proof using CryptoLaws0.
  intros Ht%bool_decide_eq_false. unfold handle_packet_task, dispatch_task. tame_step; [by apply mv_rate_limit|].
  destruct a; [|tame_step]. tame_step. destruct (pkt_type packet); try done; repeat tame_step;
    first [by apply mv_handle_ping|by apply mv_node_handle_pong|by apply mv_node_handle_resolve
          |by apply mv_node_handle_endpoint_update].
Qed.

(** Every task of a node but that of a SYNC is tame, wherever it starts. *)
Lemma node_task_tame p W n : node_task false p → tame W p n.
Proof using CryptoLaws0.
  intros Hp. remember false as sync eqn:E. destruct Hp as [packet addr now d| | | | | | | | | |c Hc].
  - by apply tame_handle_packet.
  - apply tame_bind; [apply tame_send_message|done].
  - apply tame_connect.
  - apply tame_retry.
  - apply tame_bind; [|done]. unfold add_contact_task. repeat tame_step.
  - unfold rename_task. repeat tame_step.
  - unfold archive_task. repeat tame_step.
  - unfold remove_task. repeat tame_step. by apply mv_drop_session.
  - apply tame_bind; [|done]. unfold reconnect_task. repeat tame_step.
  - unfold stop_task. do 3 tame_step. tame_step; [apply steps_read_session|].
    unfold get_session in *. case_match; [|done]. simplify_eq. split; [|done].
    intros op sid v [= <-] [= <- <-]. by eexists _, _.
  - by apply tame_atom.
Qed.
End tame_tasks.

(** ** The SYNC handler *)

Section sync.
Context `{C : CryptoLib}.

Definition sends_data (ev : event) : Prop := match ev with EvSend pkt _ => pkt_type pkt = DATA | _ => False end.

(** The SYNC handler only sends DATA packets: it writes nothing and leaves sessions and HELLO retries as they are. *)
Record repeats (n n' : node) : Prop := {
  rp_heap : n_heap n' = n_heap n;
  rp_db : n_db n' = n_db n;
  rp_loops : n_hello_loops n' = n_hello_loops n;
  rp_trace : ∃ l, n_trace n' = n_trace n ++ l ∧ Forall sends_data l }.

Lemma repeats_silent n n' :
  n_heap n' = n_heap n → n_db n' = n_db n → n_hello_loops n' = n_hello_loops n → n_trace n' = n_trace n → repeats n n'.
Proof using Type. intros H1 H2 H3 H4. split; [done..|]. exists []. by rewrite app_nil_r. Qed.

Lemma repeats_refl n : repeats n n.
Proof using Type. by apply repeats_silent. Qed.

Lemma repeats_trans n1 n2 n3 : repeats n1 n2 → repeats n2 n3 → repeats n1 n3.
Proof using Type.
  intros [H1 H2 H3 (l & Hl & Fl)] [K1 K2 K3 (k & Hk & Fk)]. split; [congruence..|]. exists (l ++ k).
  rewrite Hk, Hl, <- app_assoc. split; [done|by apply Forall_app_2].
Qed.

Lemma repeats_for_each {A} (body : A → M ()) l n :
  (∀ x n', repeats n' (body x n').1) → repeats n (for_each body l n).1.
Proof using Type.
  intros Hb. revert n. induction l as [|x l IH]; intros n; [apply repeats_refl|]. cbn. rewrite bind_eq.
  pose proof (Hb x n) as Hx. destruct (body x n) as [n' [u|e]]; [|done]. eapply repeats_trans; [exact Hx|apply IH].
Qed.

Lemma repeats_rebuild msg s now n :
  repeats n (rebuild_with_session msg s now n).1 ∧
  ∀ n' pkt, rebuild_with_session msg s now n = (n', Ok (Some pkt)) → pkt_type pkt = DATA.
Proof using Type.
  unfold rebuild_with_session, rebuild_for_sync. destruct (dget (n_queue n) msg) as [e|]; cbn; [|by split; [apply repeats_silent|]].
  destruct (qe_sequence_number e) as [seq|]; cbn; [|by split; [apply repeats_silent|]].
  case_bool_decide; cbn; [by split; [apply repeats_silent|]|].
  destruct (seal_data s seq (qe_plaintext e)) as [dp|]; cbn; [|by split; [apply repeats_silent|]].
  split; [by apply repeats_silent|]. intros n' pkt E. apply (f_equal snd) in E. cbn in E.
  destruct (data_serialize dp) as [pl|]; [|done]. cbn in E. apply Ok_inj in E. by injection E as <-.
Qed.

Lemma handle_sync_repeats packet addr now n : repeats n (handle_sync packet addr now n).1.
Proof using Type.
  unfold handle_sync. rewrite bind_eq. unfold lift at 1. destruct (sync_deserialize _) as [sync|]; [|apply repeats_refl].
  rewrite gets_bind. destruct (get_by_session_id _ _) as [r|]; [|apply repeats_refl].
  rewrite bind_eq. unfold get_session at 1. destruct (n_heap n !! r) as [s|]; [|apply repeats_refl]. rewrite gets_bind.
  apply repeats_for_each. intros [msg e] m. destruct (negb _); [apply repeats_refl|].
  destruct (qe_sequence_number e) as [seq|]; [|apply repeats_refl]. destruct (_ <? _)%Z; [|apply repeats_refl].
  destruct (repeats_rebuild msg s now m) as [H1 H2]. rewrite bind_eq.
  destruct (rebuild_with_session msg s now m) as [m' [[pkt|]|e']]; [|done..]. eapply repeats_trans; [exact H1|].
  unfold send_to. rewrite bind_eq. unfold lift. destruct (packet_serialize pkt); [|apply repeats_refl].
  split; [done..|]. exists [EvSend pkt addr]. split; [done|]. apply Forall_singleton. cbn. by eapply H2.
Qed.

(** The whole task of a SYNC packet: it never waits. *)
Lemma sync_task_repeats packet addr now d n :
  pkt_type packet = SYNC →
  repeats n (advance (handle_packet_task packet addr now d) n).1 ∧ (advance (handle_packet_task packet addr now d) n).2 = None.
Proof using Type.
  intros Ht. destruct (rate_limit_cases packet addr now n) as (rl & ok & Hrl & _).
  assert (repeats n (set_n_rate_limiter rl n)) as H0 by by apply repeats_silent.
  unfold handle_packet_task. cbn. rewrite Hrl. destruct ok; cbn; [|done]. unfold dispatch_task. rewrite Ht. cbn.
  pose proof (handle_sync_repeats packet addr now (set_n_rate_limiter rl n)) as H.
  destruct (handle_sync _ _ _ _) as [n' res]. cbn in *. split; [by eapply repeats_trans|by destruct res].
Qed.
End sync.

(** ** The invariant of the event loop *)

(** The numbers a trace has stored. *)
Definition written (ev : event) : list (bytes * Z) := match ev with EvDb op => number_write op | _ => [] end.
Definition stored_numbers (l : list event) : list (bytes * Z) := l ≫= written.

(** The counters stored for one session, and those on their way. *)
Definition op_counter (sid : bytes) (op : db_op) : option Z :=
  '(sid', v) ← counter_write op; if sid' =?b sid then Some v else None.

Definition executed (sid : bytes) (n : node) : list Z :=
  omap (λ ev, match ev with EvDb op => op_counter sid op | _ => None end) (n_trace n).

Definition task_op (p : proc ()) : option db_op := match p with Await q _ => request_op q | _ => None end.
Definition pending (sid : bytes) (ws : list (proc ())) : list Z := omap (λ p, task_op p ≫= op_counter sid) ws.

(** A task that waits for the database. *)
Definition parked (W : list (bytes * Z)) (p : proc ()) : Prop :=
  match p with Await q k => ∀ r n, tame (stored q r ++ W) (k r) n | _ => False end.

(** Session ids are not used twice. *)
Definition sids_unique (n : node) : Prop :=
  ∀ r1 r2 s1 s2, n_heap n !! r1 = Some s1 → n_heap n !! r2 = Some s2 → s_session_id s1 = s_session_id s2 → r1 = r2.

Lemma sids_unique_before n n' : heap_grows (n_heap n) (n_heap n') → sids_unique n' → sids_unique n.
Proof.
  intros Hg Hu r1 r2 s1 s2 H1 H2 E. destruct (Hg _ _ H1) as (t1 & T1 & (I1 & _) & _), (Hg _ _ H2) as (t2 & T2 & (I2 & _) & _).
  eapply Hu; [done..|congruence].
Qed.

(** All DATA packets but those at the places in [resent] go out after the session's next number has been written. *)
Definition persisted_but (resent : list nat) (l : list event) : Prop :=
  ∀ i pkt addr dp, i ∉ resent → l !! i = Some (EvSend pkt addr) → pkt_type pkt = DATA →
    data_deserialize (pkt_payload pkt) = Ok dp →
    ∃ j, j < i ∧ l !! j = Some (EvDb (DbUpdateSend (data_session_id dp) (data_sequence_number dp + 1))).

(** At these places there are DATA packets. *)
Definition data_at (resent : list nat) (l : list event) : Prop :=
  Forall (λ i, ∃ ev, l !! i = Some ev ∧ sends_data ev) resent.

Lemma data_at_app resent l k : data_at resent l → data_at resent (l ++ k).
Proof.
  intros H. eapply Forall_impl; [exact H|]. intros i (ev & Hi & Hev). exists ev. split; [by apply lookup_app_l_Some|done].
Qed.

Ltac sys_simpl := cbn [sy_node sy_waiting sy_ready] in *.

Section invariant.
Context (resent : list nat).

Record sys_ok (s : sys) : Prop := {
  sk_loops : loops_hello (sy_node s);
  sk_db : db_wf (n_db (sy_node s));
  sk_persisted : persisted_but resent (n_trace (sy_node s));
  sk_resent : data_at resent (n_trace (sy_node s));
  sk_waiting : Forall (λ p, ∃ W, W ⊆ stored_numbers (n_trace (sy_node s)) ∧ parked W p) (sy_waiting s);
  sk_ready : Forall (λ p, ∃ W, W ⊆ stored_numbers (n_trace (sy_node s)) ∧ ∀ n, tame W p n) (sy_ready s);
  sk_order sid : sids_unique (sy_node s) → StronglySorted Z.le (executed sid (sy_node s) ++ pending sid (sy_waiting s));
  sk_bound sid v : v ∈ executed sid (sy_node s) ++ pending sid (sy_waiting s) →
    ∃ r o, n_heap (sy_node s) !! r = Some o ∧ s_session_id o = sid ∧ (v ≤ s_send_sequence o)%Z;
  sk_row sid row : sids_unique (sy_node s) → dget (db_sessions (n_db (sy_node s))) sid = Some row →
    Forall (λ v, (v ≤ sr_send_sequence row)%Z) (executed sid (sy_node s)) }.

Lemma stored_numbers_app l k : stored_numbers (l ++ k) = stored_numbers l ++ stored_numbers k.
Proof. apply bind_app. Qed.

Lemma stored_numbers_elem l sid v :
  (sid, v) ∈ stored_numbers l → ∃ j, l !! j = Some (EvDb (DbUpdateSend sid v)).
Proof.
  intros (ev & Hin & Hev)%list_elem_of_bind. destruct ev as [|op| | | | |]; try by apply elem_of_nil in Hin.
  destruct op; try by apply elem_of_nil in Hin. apply list_elem_of_singleton in Hin. simplify_eq.
  by apply list_elem_of_lookup in Hev.
Qed.

Lemma persisted_but_write l op : persisted_but resent l → persisted_but resent (l ++ [EvDb op]).
Proof.
  intros Hl i pkt addr dp Hr Hi Ht Hd. apply lookup_app_Some in Hi as [Hi|[_ Hi]].
  - destruct (Hl _ _ _ _ Hr Hi Ht Hd) as (j & Hj & Hjl). exists j. split; [done|]. by apply lookup_app_l_Some.
  - by apply list_lookup_singleton_Some in Hi as [_ Hi].
Qed.

(** Events between two suspensions keep the order of storing and sending. *)
Lemma persisted_extend l k W :
  persisted_but resent l → W ⊆ stored_numbers l → Forall (allowed W) k → persisted_but resent (l ++ k).
Proof.
  intros Hl HW Hk i pkt addr dp Hr Hi Ht Hd. apply lookup_app_Some in Hi as [Hi|[Hle Hi]].
  - destruct (Hl _ _ _ _ Hr Hi Ht Hd) as (j & Hj & Hjl). exists j. split; [done|]. by apply lookup_app_l_Some.
  - rewrite Forall_lookup in Hk. specialize (Hk _ _ Hi Ht dp Hd).
    destruct (stored_numbers_elem l _ _ (HW _ Hk)) as [j Hj]. pose proof (lookup_lt_Some _ _ _ Hj).
    exists j. split; [lia|]. by apply lookup_app_l_Some.
Qed.

Lemma executed_allowed W l sid :
  Forall (allowed W) l → omap (λ ev, match ev with EvDb op => op_counter sid op | _ => None end) l = [].
Proof. induction 1 as [|ev l Hev _ IH]; cbn; [done|]. by destruct ev. Qed.

(** A task to its next suspension. *)
Lemma advance_tame {A} (p : proc A) W n :
  tame W p n → loops_hello n →
  safe W n (advance p n).1 ∧
  match (advance p n).2 with
  | None => True
  | Some (Await q k) => posted q (advance p n).1 ∧ ∀ r n', tame (stored q r ++ W) (k r) n'
  | Some (Pause p') => ∀ n', tame W p' n'
  | Some _ => False
  end.
Proof.
  revert n. induction p as [r|B c k IH|B q k IH|p IH]; intros n Ht Hl; cbn in *.
  - split; [|done]. split; [done|done|apply heap_grows_refl|]. exists []. by rewrite app_nil_r.
  - destruct Ht as [Hs Ht]. specialize (Hs Hl). destruct (c n) as [n' r]. cbn in *.
    destruct (IH r n' Ht (sf_loops _ _ _ Hs)) as [H1 H2]. split; [by eapply safe_trans|done].
  - split; [|done]. split; [done|done|apply heap_grows_refl|]. exists []. by rewrite app_nil_r.
  - split; [|done]. split; [done|done|apply heap_grows_refl|]. exists []. by rewrite app_nil_r.
Qed.

(** What a quiet stretch of a task leaves of the invariant. *)
Lemma sys_ok_safe W n n' ws rs :
  sys_ok (mkSys n ws rs) → W ⊆ stored_numbers (n_trace n) → safe W n n' →
  sys_ok (mkSys n' ws rs) ∧ stored_numbers (n_trace n) ⊆ stored_numbers (n_trace n').
Proof.
  intros [H1 H2 H3 H0 H4 H5 H6 H7 H8] HW [L D G (l & Hl & HF)]. cbn in *.
  assert (stored_numbers (n_trace n) ⊆ stored_numbers (n_trace n')) as Hsub
    by (rewrite Hl, stored_numbers_app; set_solver).
  assert (∀ sid, executed sid n' = executed sid n) as He.
  { intros sid. unfold executed. by rewrite Hl, omap_app, (executed_allowed W l sid HF), app_nil_r. }
  split; [|done]. split; cbn.
  - done.
  - by rewrite D.
  - rewrite Hl. by eapply persisted_extend.
  - rewrite Hl. by apply data_at_app.
  - eapply Forall_impl; [exact H4|]. intros p (W' & HW' & Hp). exists W'. split; [by etrans|done].
  - eapply Forall_impl; [exact H5|]. intros p (W' & HW' & Hp). exists W'. split; [by etrans|done].
  - intros sid Hu. rewrite He. apply H6. by eapply sids_unique_before.
  - intros sid v. rewrite He. intros Hv. destruct (H7 sid v Hv) as (r & o & Ho & Hsid & Hle).
    destruct (G r o Ho) as (o' & Ho' & (I1 & _) & A & _). exists r, o'. split_and!; [done|congruence|lia].
  - intros sid row Hu. rewrite D, He. apply H8. by eapply sids_unique_before.
Qed.

Lemma pending_snoc sid ws p : pending sid (ws ++ [p]) = pending sid ws ++ option_list (task_op p ≫= op_counter sid).
Proof. unfold pending. rewrite omap_app. cbn. by destruct (_ ≫= _). Qed.

Lemma op_counter_Some sid op v : op_counter sid op = Some v → counter_write op = Some (sid, v).
Proof.
  unfold op_counter. destruct (counter_write op) as [[sid' v']|]; [|done]. cbn. case_bool_decide; [|done].
  intros [= <-]. by subst.
Qed.

(** A new request joins the queue. *)
Lemma sys_ok_post {B} (q : dbq B) k W n ws rs :
  sys_ok (mkSys n ws rs) → W ⊆ stored_numbers (n_trace n) → posted q n →
  (∀ r n', tame (stored q r ++ W) (k r) n') → sys_ok (mkSys n (ws ++ [Await q k]) rs).
Proof.
  intros [H1 H2 H3 H0 H4 H5 H6 H7 H8] HW Hpost Hk. sys_simpl. split; sys_simpl; try done.
  - apply Forall_app_2; [done|]. apply Forall_singleton. by exists W.
  - intros sid Hu. rewrite pending_snoc, app_assoc. specialize (H6 sid Hu).
    destruct (task_op (Await q k) ≫= op_counter sid) as [v|] eqn:E;
      cbn [option_list]; [|by rewrite app_nil_r].
    apply strongly_sorted_snoc; [done|]. apply Forall_forall. intros v' Hv'.
    apply bind_Some in E as (op & Hop & Hv). apply op_counter_Some in Hv.
    destruct (Hpost op sid v Hop Hv) as (r & o & Ho & Hsid & Hs).
    destruct (H7 sid v' Hv') as (r' & o' & Ho' & Hsid' & Hle).
    assert (r' = r) as -> by (eapply (Hu r' r); [exact Ho'|exact Ho|congruence]). by simplify_eq.
  - intros sid v. rewrite pending_snoc, app_assoc. intros [Hv|Hv]%elem_of_app; [by apply H7|].
    destruct (task_op (Await q k) ≫= op_counter sid) as [v'|] eqn:E; cbn [option_list] in Hv;
      [|by apply elem_of_nil in Hv]. apply list_elem_of_singleton in Hv as ->.
    apply bind_Some in E as (op & Hop & Hv). apply op_counter_Some in Hv.
    destruct (Hpost op sid v' Hop Hv) as (r & o & Ho & Hsid & Hs). exists r, o. split_and!; [done..|lia].
Qed.

Lemma sys_ok_wake p W n ws rs :
  sys_ok (mkSys n ws rs) → W ⊆ stored_numbers (n_trace n) → (∀ n', tame W p n') → sys_ok (mkSys n ws (rs ++ [p])).
Proof.
  intros [H1 H2 H3 H0 H4 H5 H6 H7 H8] HW Hp. sys_simpl. split; sys_simpl; try done.
  apply Forall_app_2; [done|]. apply Forall_singleton. by exists W.
Qed.

(** A task goes on. *)
Lemma resume_ok p W s :
  sys_ok s → W ⊆ stored_numbers (n_trace (sy_node s)) → tame W p (sy_node s) →
  sys_ok (resume p s) ∧ heap_grows (n_heap (sy_node s)) (n_heap (sy_node (resume p s))).
Proof.
  destruct s as [n ws rs]. intros Hok HW Hp. cbn in *.
  destruct (advance_tame p W n Hp (sk_loops _ Hok)) as [Hs Hrest]. unfold resume in *. cbn in *.
  destruct (advance p n) as [n' rest]. cbn in *.
  destruct (sys_ok_safe W n n' ws rs Hok HW Hs) as [Hok' Hsub].
  assert (W ⊆ stored_numbers (n_trace n')) as HW' by (by etrans).
  assert (sy_node (park rest (mkSys n' ws rs)) = n') as En.
  { destruct rest as [[]|]; done. }
  rewrite En in *. split; [|by destruct Hs].
  destruct rest as [[r|B c k|B q k|p']|]; cbn; try done.
  - destruct Hrest as [Hpost Hk]. by eapply sys_ok_post.
  - by eapply sys_ok_wake.
Qed.

(** ** The database thread *)

(** The row of a session after a write. *)
Lemma session_row_exec db op sid row' :
  db_wf db → dget (db_sessions (db_exec db op)) sid = Some row' →
  (∃ v, op_counter sid op = Some v ∧ sr_send_sequence row' = v) ∨
  (op_counter sid op = None ∧ ∃ row, dget (db_sessions db) sid = Some row ∧ sr_send_sequence row = sr_send_sequence row').
Proof.
  intros Hwf H.
  assert (counter_write op = None → db_sessions (db_exec db op) = db_sessions db →
    op_counter sid op = None ∧ ∃ row, dget (db_sessions db) sid = Some row ∧ sr_send_sequence row = sr_send_sequence row')
    as Hsame.
  { intros Hc E. unfold op_counter. rewrite Hc. split; [done|]. rewrite <- E. eauto. }
  destruct op; try (right; apply Hsame; [done|];
    cbn; unfold db_add_peer, db_update_endpoint, db_set_local_endpoint_version, db_enqueue_message;
    repeat case_match; done).
  - right. unfold op_counter. cbn. split; [done|]. cbn in H. exists row'. split; [|done].
    apply dget_Some_elem, list_elem_of_filter in H as [_ H]. apply dget_elem; [apply Hwf|done].
  - cbn in H. unfold op_counter. cbn. apply dget_Some_elem in H. apply elem_of_app in H as [H|H].
    + apply elem_of_dpop in H as [Hne H]. cbn in Hne. rewrite bool_decide_false by done. right. split; [done|].
      exists row'. split; [|done]. apply dget_elem; [apply Hwf|done].
    + apply list_elem_of_singleton in H. simplify_eq. rewrite bool_decide_true by done. left. by eexists.
  - cbn in H. unfold op_counter. cbn. rewrite dget_dupd in H. case_decide as E.
    + subst. rewrite bool_decide_true by done. left. apply fmap_Some in H as (row & _ & ->). by eexists.
    + rewrite bool_decide_false by done. right. eauto.
  - cbn in H. unfold op_counter. cbn. rewrite dget_dupd in H. right. split; [done|]. case_decide as E.
    + subst. apply fmap_Some in H as (row & Hrow & ->). by eexists.
    + eauto.
Qed.

Lemma executed_snoc sid n op :
  executed sid (set_n_trace (n_trace n ++ [EvDb op]) (set_n_db (db_exec (n_db n) op) n))
    = executed sid n ++ option_list (op_counter sid op).
Proof. unfold executed. cbn. rewrite omap_app. cbn. by destruct (op_counter sid op). Qed.

Lemma pending_cons sid p ws : pending sid (p :: ws) = option_list (task_op p ≫= op_counter sid) ++ pending sid ws.
Proof. unfold pending. cbn. by destruct (_ ≫= _). Qed.

(** A request that changes nothing is taken off the queue. *)
Lemma sys_ok_drop p n ws rs : sys_ok (mkSys n (p :: ws) rs) → sys_ok (mkSys n ws rs).
Proof.
  intros [H1 H2 H3 H0 H4 H5 H6 H7 H8]. sys_simpl. apply Forall_cons in H4 as [_ H4]. split; sys_simpl; try done.
  - intros sid Hu. eapply strongly_sorted_sublist; [|apply (H6 sid Hu)]. apply sublist_app; [done|].
    rewrite pending_cons. by apply sublist_inserts_l.
  - intros sid v Hv. apply H7. rewrite pending_cons. set_solver.
Qed.

(** A write is executed. *)
Lemma sys_ok_written op k n ws rs :
  sys_ok (mkSys n (Await (QWrite op) k :: ws) rs) →
  sys_ok (mkSys (set_n_trace (n_trace n ++ [EvDb op]) (set_n_db (db_exec (n_db n) op) n)) ws rs).
Proof.
  intros [H1 H2 H3 H0 H4 H5 H6 H7 H8]. sys_simpl. apply Forall_cons in H4 as [_ H4].
  set (n1 := set_n_trace _ _).
  assert (stored_numbers (n_trace n) ⊆ stored_numbers (n_trace n1)) as Hsub
    by (unfold n1; cbn; rewrite stored_numbers_app; set_solver).
  assert (∀ sid, executed sid n1 ++ pending sid ws
    = executed sid n ++ pending sid (Await (QWrite op) k :: ws)) as E.
  { intros sid. unfold n1. by rewrite executed_snoc, pending_cons, <- app_assoc. }
  split; sys_simpl.
  - done.
  - by apply db_exec_wf.
  - by apply persisted_but_write.
  - by apply data_at_app.
  - eapply Forall_impl; [exact H4|]. intros p (W' & HW' & Hp). exists W'. split; [by etrans|done].
  - eapply Forall_impl; [exact H5|]. intros p (W' & HW' & Hp). exists W'. split; [by etrans|done].
  - intros sid Hu. rewrite E. by apply H6.
  - intros sid v. rewrite E. apply H7.
  - intros sid row Hu Hrow. unfold n1 in *. rewrite executed_snoc.
    destruct (session_row_exec _ _ _ _ H2 Hrow) as [(v & Hv & Hs)|(Hv & row0 & Hrow0 & Hs)]; rewrite Hv; cbn [option_list].
    + specialize (H6 sid Hu). rewrite pending_cons in H6. cbn [task_op request_op mbind option_bind] in H6.
      rewrite Hv in H6. cbn [option_list] in H6. rewrite app_assoc in H6.
      apply StronglySorted_app_1_l in H6. rewrite Hs. apply Forall_app_2; [|by apply Forall_singleton].
      apply Forall_forall. intros v' Hv'. eapply (StronglySorted_app_1_elem_of Z.le); [exact H6|done|by left].
    + rewrite app_nil_r, <- Hs. by apply H8.
Qed.

(** The oldest request is executed. *)
Lemma execute_ok p n ws rs :
  sys_ok (mkSys n (p :: ws) rs) → sys_ok (mkSys (execute p n).1 ws (rs ++ [(execute p n).2])).
Proof.
  intros Hok. destruct (Forall_cons_1 _ _ _ (sk_waiting _ Hok)) as [(W & HW & Hp) _]. sys_simpl.
  destruct p as [r|B c k|B q k|p]; try done. cbn in Hp. destruct q as [op|B f]; cbn [execute dbq_run].
  - unfold storage. destruct (db_status (n_db n) op) as [[]|e]; cbn [fst snd].
    + apply (sys_ok_wake _ (number_write op ++ W) _ _ _ (sys_ok_written _ _ _ _ _ Hok)).
      * cbn. rewrite stored_numbers_app. cbn. rewrite app_nil_r. set_solver.
      * intros n'. apply (Hp (Ok ())).
    + eapply (sys_ok_wake _ W); [by eapply sys_ok_drop|done|]. intros n'. apply (Hp (Raise e)).
  - eapply (sys_ok_wake _ W); [by eapply sys_ok_drop|done|]. intros n'. apply (Hp (Ok (f (n_db n)))).
Qed.

End invariant.

(** A SYNC packet is handled: what it sends is added to the exceptions. *)
Lemma sync_ok `{C : CryptoLib} resent packet addr now d s :
  pkt_type packet = SYNC → sys_ok resent s →
  let s' := resume (handle_packet_task packet addr now d) s in
  sys_ok (resent ++ added (n_trace (sy_node s)) (n_trace (sy_node s'))) s' ∧
  n_heap (sy_node s') = n_heap (sy_node s).
Proof.
  destruct s as [n ws rs]. intros Ht [H1 H2 H3 H0 H4 H5 H6 H7 H8]. cbv zeta. sys_simpl.
  destruct (sync_task_repeats packet addr now d n Ht) as [[Eh Ed El (l & Hl & Fl)] En].
  unfold resume. sys_simpl. destruct (advance _ n) as [n' rest]. sys_simpl. cbn in Eh, Ed, El, Hl, En. subst rest. cbn [park]. sys_simpl.
  split; [|done].
  assert (stored_numbers (n_trace n) ⊆ stored_numbers (n_trace n')) as Hsub by (rewrite Hl, stored_numbers_app; set_solver).
  assert (∀ sid, executed sid n' = executed sid n) as He.
  { intros sid. unfold executed. rewrite Hl, omap_app.
    assert (omap (λ ev, match ev with EvDb op => op_counter sid op | _ => None end) l = []) as ->; [|by rewrite app_nil_r].
    clear -Fl. induction Fl as [|ev l Hev _ IH]; [done|]. cbn. by destruct ev. }
  assert (added (n_trace n) (n_trace n') = seq (length (n_trace n)) (length l)) as ->.
  { unfold added. rewrite Hl, length_app. f_equal. lia. }
  split; sys_simpl.
  - intros t h. rewrite El. apply H1.
  - by rewrite Ed.
  - intros i pkt ep dp [Hi1 Hi2]%not_elem_of_app Hi Htp Hdp. rewrite Hl in Hi. apply lookup_app_Some in Hi as [Hi|[Hle Hi]].
    + destruct (H3 _ _ _ _ Hi1 Hi Htp Hdp) as (j & Hj & Hjl). exists j. split; [done|]. rewrite Hl. by apply lookup_app_l_Some.
    + destruct Hi2. apply elem_of_seq. apply lookup_lt_Some in Hi. lia.
  - rewrite Hl. apply Forall_app_2; [by apply data_at_app|]. apply Forall_forall. intros i Hi%elem_of_seq.
    destruct (lookup_lt_is_Some_2 l (i - length (n_trace n))) as [ev Hev]; [lia|]. exists ev.
    split; [by rewrite lookup_app_r by lia|]. rewrite Forall_lookup in Fl. by eapply Fl.
  - eapply Forall_impl; [exact H4|]. intros p (W' & HW' & Hp). exists W'. split; [by etrans|done].
  - eapply Forall_impl; [exact H5|]. intros p (W' & HW' & Hp). exists W'. split; [by etrans|done].
  - intros sid Hu. rewrite He. apply H6. intros r1 r2 s1 s2. rewrite <- Eh. apply Hu.
  - intros sid v. rewrite He, Eh. apply H7.
  - intros sid row Hu. rewrite He, Ed. apply H8. intros r1 r2 s1 s2. rewrite <- Eh. apply Hu.
Qed.

(** ** Every interleaving *)

Section interleaving.
Context `{C : CryptoLib} `{!CryptoLaws C}.

Lemma execute_heap p n : n_heap (execute p n).1 = n_heap n.
Proof using Type.
  destruct p as [| |B q k|]; try done. destruct q as [op|B f]; [|done]. cbn. unfold storage.
  by destruct (db_status (n_db n) op).
Qed.

Lemma sys_step_ok sync resent s s' :
  sys_step sync s s' → sys_ok resent s →
  sys_ok (if sync then resent ++ added (n_trace (sy_node s)) (n_trace (sy_node s')) else resent) s'.
Proof using CryptoLaws0.
  destruct 1 as [sync p s Hp|n p ws rs|n ws r1 p r2]; intros Hok.
  - destruct sync.
    + inversion Hp as [packet addr now d E| | | | | | | | | |]; subst. apply bool_decide_eq_true in E. by apply sync_ok.
    + apply (resume_ok resent p []); [done|set_solver|by apply node_task_tame].
  - by apply execute_ok.
  - pose proof (sk_ready _ _ Hok) as Hr. sys_simpl. apply Forall_app in Hr as [Hr1 Hr2].
    apply Forall_cons in Hr2 as [(W & HW & Hp) Hr2].
    apply (resume_ok resent p W); [|done|apply Hp].
    destruct Hok as [H1 H2 H3 H0 H4 H5 H6 H7 H8]. split; try done. by apply Forall_app_2.
Qed.

(** Every moment of a run that starts with nothing sent. *)
Lemma run_ok (n0 : node) (resent : list nat) (s : sys) :
  n_trace n0 = [] → loops_hello n0 → db_wf (n_db n0) → sys_run n0 resent s → sys_ok resent s.
Proof using CryptoLaws0.
  intros Ht Hl Hdb. induction 1 as [|sync resent s s' _ IH Hstep]; [|by apply (sys_step_ok sync resent s)].
  split; sys_simpl; try done.
  - rewrite Ht. intros i pkt addr dp _ Hi. by rewrite lookup_nil in Hi.
  - apply Forall_nil_2.
  - intros sid _. unfold executed. rewrite Ht. apply SSorted_nil.
  - intros sid v. unfold executed. rewrite Ht. intros Hv. by apply elem_of_nil in Hv.
  - intros sid row _ _. unfold executed. rewrite Ht. apply Forall_nil_2.
Qed.

(** The stored counter is above every number that went out, except by a repetition. *)
Lemma number_below_row resent s i pkt addr dp row :
  sys_ok resent s → sids_unique (sy_node s) → i ∉ resent → n_trace (sy_node s) !! i = Some (EvSend pkt addr) →
  pkt_type pkt = DATA → data_deserialize (pkt_payload pkt) = Ok dp →
  db_load_session_state (n_db (sy_node s)) (data_session_id dp) = Some row →
  (data_sequence_number dp < sr_send_sequence row)%Z.
Proof using Type.
  intros Hok Hu Hr Hi Htype Hd Hrow.
  destruct (sk_persisted _ _ Hok _ _ _ _ Hr Hi Htype Hd) as (j & _ & Hj).
  pose proof (sk_row _ _ Hok _ _ Hu Hrow) as Hall. rewrite Forall_forall in Hall.
  enough (data_sequence_number dp + 1 ≤ sr_send_sequence row)%Z by lia.
  apply Hall, list_elem_of_omap. eexists. split; [by eapply list_elem_of_lookup_2|].
  unfold op_counter. cbn. by rewrite bool_decide_true.
Qed.

(** C6: no fresh number is used that a crash could give out again.  A node starts with an empty trace, no tasks and a
    well-formed database, and then runs any tasks (datagrams of every kind, messages, connections, retries, contact
    management, shutdown), interleaved in any way at their database awaits.  At every moment each DATA packet that went
    out, except those that the SYNC handler repeated, was preceded by the write that sets its session's stored counter past
    its number; and, as long as session ids are not used twice, the stored counter of the session is still above the
    number.  The SYNC handler's turns, whose places in the trace are [resent], send DATA packets and do nothing else that is
    visible: nothing is written for them. *)
Theorem numbers_durable (n0 : node) (resent : list nat) (s : sys) :
  n_trace n0 = [] → loops_hello n0 → db_wf (n_db n0) → sys_run n0 resent s →
  persisted_but resent (n_trace (sy_node s)) ∧ data_at resent (n_trace (sy_node s)) ∧
  (sids_unique (sy_node s) → ∀ i pkt addr dp row,
     i ∉ resent → n_trace (sy_node s) !! i = Some (EvSend pkt addr) → pkt_type pkt = DATA →
     data_deserialize (pkt_payload pkt) = Ok dp →
     db_load_session_state (n_db (sy_node s)) (data_session_id dp) = Some row →
     (data_sequence_number dp < sr_send_sequence row)%Z).
Proof using CryptoLaws0.
  intros Ht Hl Hdb Hrun. pose proof (run_ok n0 resent s Ht Hl Hdb Hrun) as Hok.
  split; [apply Hok|]. split; [apply Hok|]. intros. by eapply number_below_row.
Qed.

(** A row of the session table is found under its id. *)
Lemma loaded_session db row :
  db_wf db → row ∈ db_load_all_sessions db → db_load_session_state db (sr_session_id row) = Some row.
Proof using Type.
  intros Hdb ([k r] & -> & Hin)%list_elem_of_fmap. cbn. rewrite (dw_sessions_key _ Hdb _ _ Hin).
  apply dget_elem; [apply Hdb|done].
Qed.

(** C7: killed and restarted at any moment, the node does not number backwards.  A node runs its tasks, interleaved in any
    way, and is killed between two steps: what is left is the database with the writes executed so far.  A new process
    started on it comes up, and the first session it opens with a peer begins above the number of every DATA packet that
    had gone out in the peer's last session, whatever was still waiting to be written.  The exception are the packets that
    the SYNC handler repeated: nothing is stored for them, so if they bear numbers of an earlier session a restart may
    begin below them. *)
Theorem crash_restart_safe (n0 : node) (resent : list nat) (s : sys) (port k : Z) (ml : MessageLog) (logs outbox : files)
    (t0 t1 t2 : seconds) (nonce : pystr → bytes) (shuffle1 : list PeerEntry → list PeerEntry)
    (shuffle2 : list bytes → list bytes) (keys : SessionKeys) (row : SessionRecord) :
  let p := sk_remote_peer_id keys in let me := n_identity n0 in let db := n_db (sy_node s) in
  n_trace n0 = [] → loops_hello n0 → db_wf (n_db n0) → sys_run n0 resent s → sids_unique (sy_node s) →
  (∀ m qr, dget (db_queue db) m = Some qr → ∃ bs, utf8_encode m = Ok bs) →
  p ≠ id_peer_id me → is_Some (dget (db_peers db) p) →
  last (filter (λ sr, sr_peer_id sr = p) (db_load_all_sessions db)) = Some row →
  ∃ n1 n2 r o,
    node_start t1 nonce shuffle1 shuffle2 (fresh_node me port k ml db logs outbox t0) = (n1, Ok ()) ∧
    open_session keys t2 n1 = (n2, Ok r) ∧ n_heap n2 !! r = Some o ∧
    get_by_peer_id (n_registry n2) p = Some r ∧
    ∀ i pkt addr dp, i ∉ resent → n_trace (sy_node s) !! i = Some (EvSend pkt addr) → pkt_type pkt = DATA →
      data_deserialize (pkt_payload pkt) = Ok dp → data_session_id dp = sr_session_id row →
      (data_sequence_number dp < s_send_sequence o)%Z.
Proof using CryptoLaws0.
  intros p me db Ht Hl Hdb Hrun Hu Hids Hself Hpeer Hlast. pose proof (run_ok n0 resent s Ht Hl Hdb Hrun) as Hok.
  destruct (node_start_ok me port k ml db logs outbox t0 t1 nonce shuffle1 shuffle2 (sk_db _ _ Hok) Hids)
    as (n1 & E1 & Hreg & _ & _ & Hf).
  destruct (open_session_floors keys t2 n1 (sr_send_sequence row) (sr_recv_sequence row))
    as (n2 & r & o & Hopen & Ho & Hget & _ & _ & Hsend & _); [done|by apply Hf|].
  exists n1, n2, r, o. split_and!; try done. intros i pkt addr dp Hr Hi Htype Hd Hsid.
  assert (data_sequence_number dp < sr_send_sequence row)%Z; [|lia].
  eapply number_below_row; try done. rewrite Hsid. eapply loaded_session; [apply Hok|].
  by apply last_Some_elem_of, list_elem_of_filter in Hlast as [_ Hlast].
Qed.
End interleaving.
