(* ===== verification/TaskRaces.v ===== *)
(** * Races between tasks (node.py, queue_manager.py)

    Two checks that the code makes before an await and relies on after it: that a peer has no session yet
    (in the HELLO handler), and that a message has timed out (in the retry loop). *)

From S2P Require Import Prelude Bytes PyDict PyText IpAddr Packet Crypto Session Handshake QueueManager.
From S2P Require Import PeerState RateLimiter Overlay Resolution Reconnect Heartbeat Storage LogFiles.
From S2P Require Import NodeState Node NodeProps NodeExchange NodePeers NodeInv NodeMoves Tasks Interleaving.

(** ** Advancing a task *)

Lemma advance_atom {A B} (c : M A) (k : A → proc B) n n' a :
  c n = (n', Ok a) → advance (atom c ≫= k) n = advance (k a) n'.
Proof. intros H. cbn. by rewrite H. Qed.

Lemma advance_log p n : advance (proc_log p) n = ((advance p n).1, proc_log <$> (advance p n).2).
Proof.
  revert n. induction p as [r|B c k IH|B q k IH|p IH]; intros n; cbn; [done| |done|done].
  destruct (c n) as [n' r]. apply IH.
Qed.

Lemma resume_await {B} p n ws rs n' (q : dbq B) k :
  advance p n = (n', Some (Await q k)) → resume p (mkSys n ws rs) = mkSys n' (ws ++ [Await q k]) rs.
Proof. intros H. unfold resume. cbn [sy_node]. by rewrite H. Qed.

Section races.
Context `{C : CryptoLib}.

(** What is left of the HELLO handler after the endpoint has been stored. *)
Definition hello_rest (packet : Packet) (addr : endpoint) (now : seconds) (d : draws) (me : LocalIdentity) : proc () :=
  known ← atom (gets (λ n, get_direct_peer_ids (n_table n)));
  result ← atom (lift (process_hello packet known me (d_ephemeral d) (d_nonce d) (d_session_id d)));
  match result with
  | None => mret ()
  | Some (ack_pkt, keys) =>
      atom (send_to ack_pkt addr) ;;
      r ← open_session_task keys now;
      atom (mark_peer_connected (sk_remote_peer_id keys) now) ;;
      atom (modify (λ n, set_n_reconnect (record_connect (n_reconnect n) (sk_remote_peer_id keys)) n)) ;;
      begin_heartbeat_task (sk_remote_peer_id keys) (sk_session_id keys) addr (d_task d) now ;;
      flush_task (sk_remote_peer_id keys) now ;;
      atom (notify_connection_event (str "Session established with " ++ short_id (sk_remote_peer_id keys) ++ str " (receiver)")) ;;
      atom (send_sync r addr)
  end.

(** The HELLO of a known peer without a session: the handler waits for the database. *)
Lemma hello_first_part packet addr now d n hello pub p :
  hello_deserialize (pkt_payload packet) = Ok hello →
  ed_from_public_bytes (hello_identity_public_key hello) = Ok pub → p = derive_peer_id pub →
  get_by_peer_id (n_registry n) p = None → dmem (n_pending_hello n) p = false →
  p ∈ get_direct_peer_ids (n_table n) →
  advance (handle_hello_task packet addr now d) n =
    (set_n_table (update_entry (n_table n) p (set_endpoint (Some addr))) n,
     Some (write (DbRememberEndpoint p addr now) ;; hello_rest packet addr now d (n_identity n))).
Proof using Type.
  intros Hd Hp -> Hreg Hpend Hin. unfold handle_hello_task.
  rewrite (advance_atom _ _ _ n hello) by (unfold lift; by rewrite Hd).
  rewrite (advance_atom _ _ _ n pub) by (unfold lift; by rewrite Hp). cbv zeta.
  erewrite advance_atom by reflexivity. rewrite Hreg. cbn [is_Some]. rewrite bool_decide_false by (by intros []).
  erewrite advance_atom by reflexivity. rewrite Hpend. erewrite advance_atom by reflexivity. cbn [andb].
  change (mret () ≫= ?k) with (k ()). cbv beta.
  erewrite advance_atom by reflexivity. rewrite bool_decide_true by done.
  erewrite advance_atom by reflexivity. reflexivity.
Qed.

(** The rest, up to the next await: the peer gets its answer and a session. *)
Lemma hello_second_part packet addr now d me n ack keys wire :
  process_hello packet (get_direct_peer_ids (n_table n)) me (d_ephemeral d) (d_nonce d) (d_session_id d)
    = Ok (Some (ack, keys)) →
  packet_serialize ack = Ok wire → dget (n_sequence_floors n) (sk_remote_peer_id keys) = None →
  (active_count (n_registry n) < MAX_SESSIONS)%nat →
  let r := fresh (dom (n_heap n)) in
  let s := new_session (sk_session_id keys) (sk_encryption_key keys) (sk_remote_peer_id keys) now in
  let h := <[r := s]> (n_heap n) in
  ∃ reg p, register h (n_registry n) r = Ok reg ∧
    advance (hello_rest packet addr now d me) n =
      (set_n_registry reg (set_n_heap h (set_n_trace (n_trace n ++ [EvSend ack addr]) n)), Some p).
Proof using Type.
  intros Hp Hw Hf Hc r s h.
  assert (∃ reg, register h (n_registry n) r = Ok reg) as [reg Hreg].
  { eexists. apply (register_eq h (n_registry n) r s); [apply lookup_insert_eq|done]. }
  exists reg. eexists. split; [done|]. unfold hello_rest. erewrite advance_atom by reflexivity.
  erewrite advance_atom by (unfold lift; by rewrite Hp). cbv iota beta.
  erewrite advance_atom by (unfold send_to; by rewrite Hw).
  set (n1 := set_n_trace (n_trace n ++ [EvSend ack addr]) n). unfold open_session_task.
  assert (register_session keys now n1 = (set_n_registry reg (set_n_heap h n1), Ok (r, s))) as Hrs.
  { unfold register_session. rewrite gets_bind. change (fresh (dom (n_heap n1))) with r.
    unfold put_session. rewrite modify_bind. change (<[r := _]> (n_heap n1)) with h.
    erewrite (bind_ok (apply_sequence_floors r)).
    2:{ unfold apply_sequence_floors.
        rewrite (bind_ok _ _ _ _ s) by (apply get_session_ok, lookup_insert_eq). rewrite gets_bind. cbn.
        by rewrite Hf. }
    rewrite gets_bind. cbn [n_heap set_n_heap n_registry set_n_trace n1]. rewrite Hreg, lift_bind_ok, modify_bind.
    by rewrite (bind_ok _ _ _ _ s) by (apply get_session_ok, lookup_insert_eq). }
  cbn. rewrite Hrs. cbn. reflexivity.
Qed.

(** The same, for the task, with the answer of the database. *)
Definition hello_cont (packet : Packet) (addr : endpoint) (now : seconds) (d : draws) (me : LocalIdentity)
    (r : result ()) : proc () :=
  proc_log (match r with Ok _ => hello_rest packet addr now d me | Raise e => Done (Raise e) end).

(** The task of a HELLO packet, up to its first await. *)
Lemma hello_task_waits packet addr now d n hello pub p :
  pkt_type packet = HELLO → hello_deserialize (pkt_payload packet) = Ok hello →
  ed_from_public_bytes (hello_identity_public_key hello) = Ok pub → p = derive_peer_id pub →
  get_by_peer_id (n_registry n) p = None → dmem (n_pending_hello n) p = false →
  p ∈ get_direct_peer_ids (n_table n) →
  advance (handle_packet_task packet addr now d) n =
    (set_n_table (update_entry (n_table n) p (set_endpoint (Some addr))) n,
     Some (Await (QWrite (DbRememberEndpoint p addr now)) (hello_cont packet addr now d (n_identity n)))).
Proof using Type.
  intros Ht Hd Hp Ep Hreg Hpend Hin. unfold handle_packet_task.
  rewrite (advance_atom _ _ _ n true)
    by (unfold rate_limit; rewrite bool_decide_false; [done|rewrite Ht; set_solver]).
  rewrite advance_log. unfold dispatch_task. rewrite Ht.
  by rewrite (hello_first_part packet addr now d n hello pub p).
Qed.

Lemma direct_ids_update t p f :
  (∀ e, pe_is_direct (f e) = pe_is_direct e ∧ pe_peer_id (f e) = pe_peer_id e) →
  get_direct_peer_ids (update_entry t p f) = get_direct_peer_ids t.
Proof using Type.
  intros Hf. unfold get_direct_peer_ids, get_direct_peers, update_entry, dupd. f_equal. cbn.
  destruct (dget (pt_peers t) p) as [v|] eqn:E; [|done]. destruct (Hf v) as [Hd Hi].
  induction (pt_peers t) as [|[k e] l IH]; [done|]. cbn in E. cbn [dset].
  destruct (decide (p = k)) as [Hk|Hk]; cbn [fmap list_fmap snd]; rewrite !filter_cons.
  - injection E as ->. rewrite Hd. case_decide; cbn; by rewrite ?Hi.
  - case_decide; cbn; by rewrite IH.
Qed.

(** Two sessions of one peer, registered one after the other: the second takes the place of the first. *)
Lemma register_twice h reg r1 r2 s1 s2 reg1 reg2 :
  register (<[r1 := s1]> h) reg r1 = Ok reg1 → register (<[r2 := s2]> (<[r1 := s1]> h)) reg1 r2 = Ok reg2 →
  r1 ≠ r2 → s_remote_peer_id s1 = s_remote_peer_id s2 → s_session_id s1 ≠ s_session_id s2 →
  get_by_session_id reg2 (s_session_id s1) = None ∧ get_by_session_id reg2 (s_session_id s2) = Some r2 ∧
  get_by_peer_id reg2 (s_remote_peer_id s2) = Some r2.
Proof using Type.
  unfold register. rewrite lookup_insert_eq. case_match; [done|]. intros [= <-]. rewrite lookup_insert_eq.
  case_match; [done|]. intros [= <-] Hr Hp Hs. cbn. rewrite <- Hp, dget_dset_eq.
  rewrite lookup_insert_ne, lookup_insert_eq by done. unfold get_by_session_id, get_by_peer_id. cbn.
  rewrite dget_dset_ne, dget_dpop_eq, !dget_dset_eq by done. done.
Qed.

Lemma register_active h reg r reg' :
  register h reg r = Ok reg' → (active_count reg' ≤ S (active_count reg))%nat.
Proof using Type.
  unfold register, active_count. case_match; [|done]. case_match; [done|]. intros [= <-]. cbn.
  rewrite dset_length.
  assert (∀ d : dict bytes sref, length d ≤ length (by_session reg) →
    (if dmem d (s_session_id s) then length d else S (length d)) ≤ S (length (by_session reg)))%nat as Hle
    by (intros d Hd; case_match; lia).
  apply Hle. repeat case_match; try done; apply dpop_length_le.
Qed.

(** A HELLO_ACK for which no HELLO is pending. *)
Lemma hello_ack_unasked `{!CryptoLaws C} a addr now d ack :
  dget (n_pending_hello a) (derive_peer_id (hack_identity_public_key ack)) = None →
  payload_wf (PHelloAck ack) →
  handle_hello_ack (mkPacket PROTOCOL_VERSION HELLO_ACK (hello_ack_serialize ack)) addr now d a = (a, Ok ()).
Proof using Type.
  intros Hnone Hwf. unfold handle_hello_ack. cbn [pkt_payload].
  rewrite (hello_ack_payload_decodes ack Hwf), lift_bind_ok.
  rewrite ed_from_public_bytes_ok, lift_bind_ok by apply Hwf. cbv zeta. rewrite gets_bind, Hnone, modify_bind.
  rewrite dpop_absent by (by apply dget_None). by destruct a.
Qed.

(** Two tasks of the same HELLO: both have passed the check for a session and can go on. *)
Lemma two_hellos_wait packet addr now d1 d2 b hello pub p :
  pkt_type packet = HELLO → hello_deserialize (pkt_payload packet) = Ok hello →
  ed_from_public_bytes (hello_identity_public_key hello) = Ok pub → p = derive_peer_id pub →
  get_by_peer_id (n_registry b) p = None → dmem (n_pending_hello b) p = false →
  p ∈ get_direct_peer_ids (n_table b) →
  ∃ n, rtc (sys_step false) (mkSys b [] [])
         (mkSys n [] [proc_log (hello_rest packet addr now d1 (n_identity b));
                      proc_log (hello_rest packet addr now d2 (n_identity b))]) ∧
    n_trace n = n_trace b ++ [EvDb (DbRememberEndpoint p addr now); EvDb (DbRememberEndpoint p addr now)] ∧
    get_direct_peer_ids (n_table n) = get_direct_peer_ids (n_table b) ∧ n_identity n = n_identity b ∧
    n_registry n = n_registry b ∧ n_heap n = n_heap b ∧ n_sequence_floors n = n_sequence_floors b.
Proof using Type.
  intros Ht Hd Hpub Ep Hreg Hpend Hin.
  set (upd := λ n, set_n_table (update_entry (n_table n) p (set_endpoint (Some addr))) n).
  set (op := DbRememberEndpoint p addr now).
  assert (∀ n, get_direct_peer_ids (n_table (upd n)) = get_direct_peer_ids (n_table n)) as Hids
    by (intros n; by apply direct_ids_update).
  exists (storage op (storage op (upd (upd b))).1).1. split.
  - eapply rtc_l; [apply (sys_start false (handle_packet_task packet addr now d1)); apply task_packet_plain; by rewrite Ht|].
    rewrite (resume_await _ _ _ _ _ _ _ (hello_task_waits packet addr now d1 b hello pub p Ht Hd Hpub Ep Hreg Hpend Hin)).
    eapply rtc_l; [apply (sys_start false (handle_packet_task packet addr now d2)); apply task_packet_plain; by rewrite Ht|].
    erewrite resume_await by (eapply (hello_task_waits packet addr now d2 _ hello pub p); try done;
      cbn [n_table set_n_table]; by rewrite direct_ids_update).
    eapply rtc_l; [apply sys_execute|]. eapply rtc_l; [apply sys_execute|]. apply rtc_refl.
  - split_and!; try done; [cbn; by rewrite <- app_assoc|].
    change (get_direct_peer_ids (n_table (upd (upd b))) = get_direct_peer_ids (n_table b)). by rewrite !Hids.
Qed.

(** Both go on, one after the other. *)
Lemma resume_two n p1 p2 n1 n2 rest1 rest2 :
  advance p1 n = (n1, rest1) → advance p2 n1 = (n2, rest2) →
  ∃ s, rtc (sys_step false) (mkSys n [] [proc_log p1; proc_log p2]) s ∧ sy_node s = n2.
Proof using Type.
  intros H1 H2.
  assert (∀ rest s, sy_node (park rest s) = sy_node s) as Hpark by (intros [[]|] s; done).
  assert (∀ p m ws rs, ∃ ws' rs', resume (proc_log p) (mkSys m ws rs) = mkSys (advance p m).1 ws' (rs ++ rs')) as Hres.
  { intros p m ws rs. unfold resume. cbn [sy_node]. rewrite advance_log.
    destruct (advance p m) as [m' [q|]]; cbn; [|eexists _, []; by rewrite app_nil_r].
    destruct (proc_log q); cbn; try (eexists _, []; by rewrite app_nil_r). by eexists _, [_]. }
  destruct (Hres p1 n [] [proc_log p2]) as (ws & rs & E1). rewrite H1 in E1.
  destruct (Hres p2 n1 ws rs) as (ws2 & rs2 & E2). rewrite H2 in E2.
  eexists. split.
  - eapply rtc_l; [apply (sys_resume _ _ [])|]. cbn [app]. rewrite E1. cbn [app fst].
    eapply rtc_l; [apply (sys_resume _ _ [])|]. cbn [app]. rewrite E2. apply rtc_refl.
  - done.
Qed.

(** C38: a duplicated HELLO splits the session.  A known peer without a session sends a HELLO and the network
    delivers it twice.  Both tasks find no session and wait for the database; then each answers with a session
    id and key of its own and registers its session, the second in place of the first.  The initiator takes
    the first answer and ignores the second, so the two nodes hold different sessions: every message the
    initiator sends from then on names a session that the receiver does not have, and is dropped without a
    trace.  Handled one after the other, the second HELLO would have been ignored. *)
Theorem duplicate_hello_splits_session `{!CryptoLaws C} (b : node) (packet : Packet) (addr : endpoint) (now : seconds)
    (d1 d2 : draws) (ack1 ack2 : Packet) (keys1 keys2 : SessionKeys) (wire1 wire2 : bytes) :
  pkt_type packet = HELLO →
  process_hello packet (get_direct_peer_ids (n_table b)) (n_identity b) (d_ephemeral d1) (d_nonce d1)
    (d_session_id d1) = Ok (Some (ack1, keys1)) →
  process_hello packet (get_direct_peer_ids (n_table b)) (n_identity b) (d_ephemeral d2) (d_nonce d2)
    (d_session_id d2) = Ok (Some (ack2, keys2)) →
  packet_serialize ack1 = Ok wire1 → packet_serialize ack2 = Ok wire2 →
  let p := sk_remote_peer_id keys1 in
  get_by_peer_id (n_registry b) p = None → dmem (n_pending_hello b) p = false →
  dget (n_sequence_floors b) p = None → (S (active_count (n_registry b)) < MAX_SESSIONS)%nat →
  d_session_id d1 ≠ d_session_id d2 →
  ∃ s, rtc (sys_step false) (mkSys b [] []) s ∧
    n_trace (sy_node s) = n_trace b ++
      [EvDb (DbRememberEndpoint p addr now); EvDb (DbRememberEndpoint p addr now);
       EvSend ack1 addr; EvSend ack2 addr] ∧
    (∃ r, get_by_peer_id (n_registry (sy_node s)) p = Some r ∧
       get_by_session_id (n_registry (sy_node s)) (d_session_id d2) = Some r) ∧
    get_by_session_id (n_registry (sy_node s)) (d_session_id d1) = None ∧
    (∀ data dp addr' now', data_deserialize (pkt_payload data) = Ok dp → data_session_id dp = d_session_id d1 →
       handle_data data addr' now' (sy_node s) = (sy_node s, Ok ())) ∧
    (∀ a addr' now' d, dget (n_pending_hello a) (derive_peer_id (id_public_key (n_identity b))) = None →
       length (id_public_key (n_identity b)) = 32 → length (d_nonce d2) = 16 → length (d_session_id d2) = 8 →
       handle_hello_ack ack2 addr' now' d a = (a, Ok ())).
Proof using Type.
  intros Ht H1 H2 Hw1 Hw2 p Hreg Hpend Hfl Hact Hne.
  pose proof (process_hello_Some _ _ _ _ _ _ _ _ H1) as (hello & pub & xpub & ss & Hd & Hpub & Hin & _ & _ & _ & Hk1 & _).
  pose proof (process_hello_Some _ _ _ _ _ _ _ _ H2) as (hello' & pub' & xpub' & ss' & Hd' & Hpub' & _ & _ & _ & _ & Hk2 & Hack2).
  rewrite Hd in Hd'. apply Ok_inj in Hd' as <-. rewrite Hpub in Hpub'. apply Ok_inj in Hpub' as <-.
  assert (p = derive_peer_id pub) as Ep by (unfold p; by rewrite Hk1).
  assert (sk_remote_peer_id keys2 = p) as Ep2 by (rewrite Hk2, Ep; done).
  assert (sk_session_id keys1 = d_session_id d1 ∧ sk_session_id keys2 = d_session_id d2) as [Es1 Es2]
    by (by rewrite Hk1, Hk2).
  assert (sk_remote_peer_id keys1 = p) as Ep1 by done. clearbody p. clear Hk1 Hk2.
  destruct (two_hellos_wait packet addr now d1 d2 b hello pub p Ht Hd Hpub Ep Hreg Hpend) as (n & Hrun & Hn);
    [by rewrite Ep|]. destruct Hn as (Htr & Hids & Hme & Hrg & Hh & Hf).
  destruct (hello_second_part packet addr now d1 (n_identity b) n ack1 keys1 wire1)
    as (reg1 & rest1 & Hreg1 & Hadv1); [by rewrite Hids|done|congruence|rewrite Hrg; lia|].
  set (r1 := fresh (dom (n_heap n))) in *.
  set (s1 := new_session (sk_session_id keys1) (sk_encryption_key keys1) (sk_remote_peer_id keys1) now) in *.
  set (n' := set_n_registry reg1 (set_n_heap (<[r1 := s1]> (n_heap n)) (set_n_trace (n_trace n ++ [EvSend ack1 addr]) n))) in *.
  destruct (hello_second_part packet addr now d2 (n_identity b) n' ack2 keys2 wire2)
    as (reg2 & rest2 & Hreg2 & Hadv2); [cbn; by rewrite Hids|done|cbn; congruence| |].
  { pose proof (register_active _ _ _ _ Hreg1). rewrite Hrg in *. cbn. lia. }
  set (r2 := fresh (dom (n_heap n'))) in *.
  destruct (register_twice _ _ r1 r2 s1 _ reg1 reg2 Hreg1 Hreg2) as (G1 & G2 & G3).
  { intros E. assert (r1 ∈ dom (n_heap n')) as Hin1 by (cbn; set_solver).
    apply (is_fresh (dom (n_heap n'))). fold r2. by rewrite <- E. }
  { cbn. congruence. }
  { cbn. congruence. }
  cbn in G1, G2, G3. rewrite Es1 in G1. rewrite Es2 in G2. rewrite Ep2 in G3.
  destruct (resume_two _ _ _ _ _ _ _ Hadv1 Hadv2) as (s & Hrun2 & Hs).
  exists s. split; [by eapply rtc_trans|]. rewrite Hs. cbn [n_trace n_registry set_n_registry set_n_heap set_n_trace n'].
  split_and!; [by rewrite Htr, <- !app_assoc|by exists r2|done|..].
  - intros data dp addr' now' Hdp Esid. unfold handle_data. rewrite Hdp, lift_bind_ok, gets_bind.
    cbn [n_registry set_n_registry]. by rewrite Esid, G1.
  - intros a addr' now' d Hnone Hlk Hln Hls. rewrite Hack2. apply hello_ack_unasked; [done|].
    cbn. unfold identity_sign. by rewrite x_public_length, ed_sign_length.
Qed.
End races.

(** ** Schedules *)

(** What the event loop and the database do next: start a task, execute the oldest request, go on with the
    task at a place of the ready list. *)
Inductive action := Start (p : proc ()) | Execute | Resume (i : nat).

Definition act (a : action) (s : sys) : option sys :=
  match a with
  | Start p => Some (resume p s)
  | Execute =>
      match sy_waiting s with
      | p :: ws => Some (mkSys (execute p (sy_node s)).1 ws (sy_ready s ++ [(execute p (sy_node s)).2]))
      | [] => None
      end
  | Resume i =>
      p ← sy_ready s !! i;
      Some (resume p (mkSys (sy_node s) (sy_waiting s) (take i (sy_ready s) ++ drop (S i) (sy_ready s))))
  end.

Fixpoint schedule_run (l : list action) (s : sys) : option sys :=
  match l with
  | [] => Some s
  | a :: l => s' ← act a s; schedule_run l s'
  end.

Lemma act_sound `{C : CryptoLib} a s s' :
  act a s = Some s' → (∀ p, a = Start p → node_task false p) → sys_step false s s'.
Proof.
  destruct s as [n ws rs]. destruct a as [p| |i]; cbn; intros H Ha.
  - injection H as <-. by apply sys_start, Ha.
  - destruct ws as [|p ws]; [done|]. injection H as <-. apply sys_execute.
  - apply bind_Some in H as (p & Hp & [= <-]). rewrite <- (take_drop_middle _ _ _ Hp) at 1. apply sys_resume.
Qed.

Lemma schedule_sound `{C : CryptoLib} l s s' :
  schedule_run l s = Some s' → Forall (λ a, ∀ p, a = Start p → node_task false p) l → rtc (sys_step false) s s'.
Proof.
  revert s. induction l as [|a l IH]; cbn; intros s H Hl; [injection H as <-; apply rtc_refl|].
  apply bind_Some in H as (s1 & H1 & H2). apply Forall_cons in Hl as [Ha Hl].
  eapply rtc_l; [by eapply act_sound|by apply IH].
Qed.

(** The state after a schedule that can be followed to its end. *)
Definition after (l : list action) (s : sys) : sys := default s (schedule_run l s).

Lemma schedule_after `{C : CryptoLib} l s :
  (match schedule_run l s with Some _ => true | None => false end) = true →
  Forall (λ a, ∀ p, a = Start p → node_task false p) l → rtc (sys_step false) s (after l s).
Proof.
  intros H Hl. unfold after. destruct (schedule_run l s) as [s'|] eqn:E; [|done]. by eapply schedule_sound.
Qed.

(** ** Examples *)

Module RaceExample.
Import ToyCrypto NodeExample.

(** Bob knows Alice and has no session with her. *)
Definition bob_alone : node :=
  let n := fresh_node bob 4002 8 (new_message_log 50 5) empty_db ∅ ∅ (secs 0) in
  set_n_table (add_direct_peer (n_table n) (id_peer_id alice) (id_public_key alice) None (Some addr_alice) (secs 0)) n.

Definition alice_hello : Packet :=
  match create_hello alice (be_encode 32 21) (be_encode 16 22) with
  | Ok (pkt, _) => pkt
  | Raise _ => mkPacket PROTOCOL_VERSION HELLO []
  end.

Definition drawn2 : draws :=
  mkDraws (be_encode 32 31) (be_encode 16 32) (be_encode 8 33) 1 2 (str "id2") (be_encode 12 34)
    (be_encode 8 35) 1.

Definition answer (d : draws) : Packet * SessionKeys :=
  match process_hello alice_hello (get_direct_peer_ids (n_table bob_alone)) bob (d_ephemeral d) (d_nonce d) (d_session_id d) with
  | Ok (Some x) => x
  | _ => (mkPacket PROTOCOL_VERSION HELLO_ACK [], mkKeys [] [] [] [])
  end.

Definition wire_of (p : Packet) : bytes := match packet_serialize p with Ok w => w | Raise _ => [] end.

Lemma duplicate_hello_splits_session_witness :
  ∃ s, rtc (sys_step false) (mkSys bob_alone [] []) s ∧ length (n_trace (sy_node s)) = 4 ∧
    get_by_session_id (n_registry (sy_node s)) (d_session_id drawn) = None ∧
    is_Some (get_by_session_id (n_registry (sy_node s)) (d_session_id drawn2)).
Proof.
  destruct (duplicate_hello_splits_session bob_alone alice_hello addr_alice (secs 1) drawn drawn2
    (answer drawn).1 (answer drawn2).1 (answer drawn).2 (answer drawn2).2 (wire_of (answer drawn).1)
    (wire_of (answer drawn2).1)) as (s & H1 & H2 & (r & H3 & H4) & H5 & _).
  - vm_compute. reflexivity.
  - vm_compute. reflexivity.
  - vm_compute. reflexivity.
  - vm_compute. reflexivity.
  - vm_compute. reflexivity.
  - vm_compute. reflexivity.
  - vm_compute. reflexivity.
  - vm_compute. reflexivity.
  - vm_compute. apply (bool_decide_unpack _). vm_compute. exact I.
  - vm_compute. discriminate.
  - exists s. split_and!; [exact H1|rewrite H2; reflexivity|exact H5|rewrite H4; by eexists].
Defined.

(** Alice has two messages on their way to Bob, numbered 1 and 2, and no answer for a minute. *)
Definition sent_entry (seq : Z) : QueueEntry :=
  mkEntry (id_peer_id bob) PENDING 0 (bytes_of_string "hello") (secs 0) (Some seq) (Some (secs 0)).

Definition two_pending : node :=
  set_n_queue [(str "m1", sent_entry 1); (str "m2", sent_entry 2)]
    (set_n_heap {[0 := set_send_sequence 3 session_ab]} node_a).

Definition ack_of_2 : Packet :=
  match build_ack sid 2 with Ok p => p | Raise _ => mkPacket PROTOCOL_VERSION ACK [] end.

(** The retry loop stops in the middle of the first message; the ACK of the second arrives; the loop goes on. *)
Definition ack_arrives : list action :=
  [Start (retry_task (secs 60)); Start (handle_packet_task ack_of_2 addr_bob (secs 60) drawn)].
Definition loop_goes_on : list action :=
  [Execute; Resume 0; Execute; Execute; Resume 1; Execute; Resume 1;
   Execute; Resume 1; Execute; Resume 1; Execute; Resume 1].

Definition after_ack : sys := after ack_arrives (mkSys two_pending [] []).
Definition after_retry : sys := after loop_goes_on after_ack.

(** The packets of a trace with their numbers. *)
Definition data_number (ev : event) : option Z :=
  match ev with
  | EvSend pkt _ =>
      if pkt_type pkt =?b DATA then
        match data_deserialize (pkt_payload pkt) with Ok dp => Some (data_sequence_number dp) | Raise _ => None end
      else None
  | _ => None
  end.

(** The retry loop sends a delivered message again.  [_retry_loop] makes the list of messages that have
    timed out and then works through it, with three database writes for each.  When the ACK of a later message
    of the list arrives meanwhile, the message is DELIVERED, but the loop marks it as timed out, numbers and
    sends it again, and its status is PENDING once more: there is a run in which this happens. *)
Theorem retry_resends_delivered :
  ∃ s1 s2, rtc (sys_step false) (mkSys two_pending [] []) s1 ∧ rtc (sys_step false) s1 s2 ∧
    get_status (n_queue (sy_node s1)) (str "m2") = Some DELIVERED ∧
    omap data_number (n_trace (sy_node s1)) = [] ∧
    get_status (n_queue (sy_node s2)) (str "m2") = Some PENDING ∧
    (qe_sequence_number <$> dget (n_queue (sy_node s2)) (str "m2")) = Some (Some 4%Z) ∧
    omap data_number (n_trace (sy_node s2)) = [3%Z; 4%Z].
Proof.
  exists after_ack, after_retry. split_and!; [| |vm_compute; reflexivity..].
  - apply (schedule_after ack_arrives); [vm_compute; reflexivity|].
    repeat constructor; intros p [= <-]; [apply task_retry|apply task_packet_plain; discriminate].
  - apply (schedule_after loop_goes_on); [vm_compute; reflexivity|]. repeat constructor; intros p [=].
Qed.

(** Alice sends a message, alone, on a session that is in the database. *)
Definition alice_saved : node :=
  set_n_db (db_exec empty_db (DbSaveSession sid (id_peer_id bob) 1 0 (secs 0))) node_a.

Definition message_task : proc () := send_message_task (id_peer_id bob) (str "hello") (secs 1) drawn ;; mret ().
Definition one_message : list action :=
  [Start message_task;
   Execute; Resume 0; Execute; Resume 0; Execute; Resume 0; Execute; Resume 0].
Definition message_sent : sys := after one_message (mkSys alice_saved [] []).

Definition sent_packet : Packet :=
  match last (n_trace (sy_node message_sent)) with
  | Some (EvSend pkt _) => pkt
  | _ => mkPacket PROTOCOL_VERSION PING []
  end.

(** Then Bob asks for what he has not seen, and Alice repeats the message. *)
Definition bob_sync : Packet :=
  match make_packet SYNC (PSync (mkSync sid 0)) with Ok p => p | Raise _ => mkPacket PROTOCOL_VERSION SYNC [] end.
Definition synced : sys := resume (handle_packet_task bob_sync addr_bob (secs 2) drawn) message_sent.

Lemma synced_run : sys_run alice_saved [5] synced.
Proof.
  assert (sys_run alice_saved [] message_sent) as H.
  { apply run_without_sync, (schedule_after one_message); [vm_compute; reflexivity|].
    apply Forall_cons. split; [|repeat constructor; intros p [=]].
    intros p Hp. assert (message_task = p) as <- by (injection Hp; trivial).
    exact (task_send (id_peer_id bob) (str "hello") (secs 1) drawn). }
  assert ((pkt_type bob_sync =?b SYNC) = true) as Et by (vm_compute; reflexivity).
  pose proof (sys_start _ _ message_sent (task_packet bob_sync addr_bob (secs 2) drawn)) as Hs. rewrite Et in Hs.
  apply (run_first_sync alice_saved message_sent synced [5] H Hs). vm_compute. reflexivity.
Qed.

Lemma numbers_durable_witness :
  persisted_but [5] (n_trace (sy_node synced)) ∧ omap data_number (n_trace (sy_node synced)) = [1%Z; 1%Z] ∧
  ∃ dp row, data_deserialize (pkt_payload sent_packet) = Ok dp ∧ data_sequence_number dp = 1%Z ∧
    db_load_session_state (n_db (sy_node synced)) sid = Some row ∧ (1 < sr_send_sequence row)%Z.
Proof.
  destruct (numbers_durable alice_saved [5] synced) as (H1 & _ & H2).
  - reflexivity.
  - intros t h Hh. vm_compute in Hh. discriminate Hh.
  - apply db_exec_wf, empty_db_wf.
  - exact synced_run.
  - split_and!; [exact H1|vm_compute; reflexivity|].
    assert (data_deserialize (pkt_payload sent_packet)
      = Ok (match data_deserialize (pkt_payload sent_packet) with Ok dp => dp | Raise _ => mkData [] 0 [] [] end)) as Hd
      by (vm_compute; reflexivity).
    assert (db_load_session_state (n_db (sy_node synced)) sid
      = Some (mkSessionRecord sid (id_peer_id bob) 2 0 (secs 0))) as Hrow by (vm_compute; reflexivity).
    eexists _, _. split_and!; [exact Hd|vm_compute; reflexivity|exact Hrow|].
    refine (H2 _ 4 sent_packet addr_bob _ _ _ _ _ Hd _).
    + intros r1 r2 s1 s2 Hr1 Hr2 _.
      assert (∀ r s, n_heap (sy_node synced) !! r = Some s → r = 0) as Hz.
      { apply (bool_decide_unpack (map_Forall (λ r _, r = 0) (n_heap (sy_node synced)))). vm_compute. exact I. }
      rewrite (Hz r1 s1 Hr1), (Hz r2 s2 Hr2). reflexivity.
    + apply (bool_decide_unpack _). vm_compute. exact I.
    + vm_compute. reflexivity.
    + vm_compute. reflexivity.
    + exact Hrow.
Defined.

(** Alice knows Bob, is killed right after the packet went out, and is started again. *)
Definition alice_known : node :=
  set_n_db (db_exec (n_db alice_saved) (DbAddPeer (id_peer_id bob) (id_public_key bob) None (Some addr_bob) (secs 0))) node_a.
Definition killed : sys := after one_message (mkSys alice_known [] []).
Definition new_keys : SessionKeys := mkKeys (be_encode 32 11) (be_encode 8 12) (id_peer_id bob) (id_public_key bob).
Definition killed_packet : Packet :=
  match last (n_trace (sy_node killed)) with
  | Some (EvSend pkt _) => pkt
  | _ => mkPacket PROTOCOL_VERSION PING []
  end.
Definition killed_data : DataPayload :=
  match data_deserialize (pkt_payload killed_packet) with Ok dp => dp | Raise _ => mkData [] 0 [] [] end.

Lemma crash_restart_safe_witness :
  ∃ n1 n2 r o, node_start (secs 6) (λ _, be_encode 12 0) id id
      (fresh_node alice 4001 8 (new_message_log 50 5) (n_db (sy_node killed)) ∅ ∅ (secs 5)) = (n1, Ok ()) ∧
    open_session new_keys (secs 7) n1 = (n2, Ok r) ∧ n_heap n2 !! r = Some o ∧
    data_sequence_number killed_data = 1%Z ∧ (1 < s_send_sequence o)%Z.
Proof.
  destruct (crash_restart_safe alice_known [] killed 4001 8 (new_message_log 50 5) ∅ ∅ (secs 5) (secs 6) (secs 7)
    (λ _, be_encode 12 0) id id new_keys (mkSessionRecord sid (id_peer_id bob) 2 0 (secs 0)))
    as (n1 & n2 & r & o & H1 & H2 & H3 & _ & H4).
  - reflexivity.
  - intros t h Hh. vm_compute in Hh. discriminate Hh.
  - apply db_exec_wf, db_exec_wf, empty_db_wf.
  - apply run_without_sync, (schedule_after one_message); [vm_compute; reflexivity|].
    apply Forall_cons. split; [|repeat constructor; intros p [=]].
    intros p Hp. assert (message_task = p) as <- by (injection Hp; trivial).
    exact (task_send (id_peer_id bob) (str "hello") (secs 1) drawn).
  - intros r1 r2 s1 s2 Hr1 Hr2 _.
    assert (∀ r s, n_heap (sy_node killed) !! r = Some s → r = 0) as Hz.
    { apply (bool_decide_unpack (map_Forall (λ r _, r = 0) (n_heap (sy_node killed)))). vm_compute. exact I. }
    rewrite (Hz r1 s1 Hr1), (Hz r2 s2 Hr2). reflexivity.
  - intros m qr Hm. apply dget_Some_elem in Hm. exists (bytes_of_string "id1").
    assert (∀ x, x ∈ db_queue (n_db (sy_node killed)) → utf8_encode x.1 = Ok (bytes_of_string "id1")) as Hq.
    { apply Forall_forall, (bool_decide_unpack _). vm_compute. exact I. }
    exact (Hq _ Hm).
  - vm_compute. discriminate.
  - apply (bool_decide_unpack _). vm_compute. exact I.
  - vm_compute. reflexivity.
  - exists n1, n2, r, o. split_and!; [exact H1|exact H2|exact H3|vm_compute; reflexivity|].
    apply (H4 4 killed_packet addr_bob killed_data); [apply not_elem_of_nil|vm_compute; reflexivity..].
Defined.
End RaceExample.
