(* ===== verification/NodeContacts.v ===== *)
(** * From an invite to a contact (invite.py, node.py)

    What [connect_to_peer] and [add_contact_from_invite] do: the code one user generates, pasted by the
    other, makes the first one a direct contact in table and database and starts the handshake. *)

From S2P Require Import Prelude Bytes PyDict PyText IpAddr Packet Crypto Session Handshake QueueManager.
From S2P Require Import PeerState RateLimiter Overlay Resolution Reconnect Heartbeat Storage LogFiles.
From S2P Require Import Invite NodeState Node NodeProps NodeExchange NodePeers NodeInv.

(** ** Connecting *)

Lemma try_set_peer_state p st now n :
  ∃ ps tr, try_except (set_peer_state p st now) ValueError (mret ()) n
    = (set_n_trace tr (set_n_peer_states ps n), Ok ()).
Proof.
  destruct (set_peer_state_frame p st now n) as (ps & tr & Hf). exists ps, tr. rewrite <- Hf.
  destruct (decide (st ∈ VALID_TRANSITIONS (get_state (n_peer_states n) p))) as [Hv|Hv].
  - destruct (set_peer_state_ok p st now n Hv) as (n' & E & _). by rewrite (try_except_ok _ _ _ _ _ _ E), E.
  - destruct (set_peer_state_error p st now n Hv) as (n' & E & _). by rewrite (try_except_caught _ _ _ _ _ E), E.
Qed.

Section contacts.
Context `{C : CryptoLib} `{L : !CryptoLaws C}.

Lemma create_hello_ok me eph nonce :
  identity_wf me → length nonce = 16 →
  ∃ hello st, create_hello me eph nonce = Ok (hello, st) ∧ pkt_version hello = PROTOCOL_VERSION ∧
    pkt_type hello = HELLO ∧ (Z.of_nat (length (pkt_payload hello)) ≤ MAX_PAYLOAD_SIZE)%Z.
Proof using L.
  intros [Hpk _] Hn. do 2 eexists. split; [reflexivity|]. split_and!; [done..|]. cbn [pkt_payload].
  unfold hello_serialize. cbn. rewrite !length_app, Hpk, ed_public_length, x_public_length, Hn.
  unfold identity_sign. rewrite ed_sign_length. unfold MAX_PAYLOAD_SIZE. lia.
Qed.

(** Nothing happens while there is a session or a pending HELLO; otherwise the endpoint is stored and the
    HELLO goes out. *)
Definition connection_started (p : bytes) (ep : endpoint) (now : seconds) (n n' : node) : Prop :=
  n_table n' = update_entry (n_table n) p (set_endpoint (Some ep)) ∧
  n_db n' = db_remember_endpoint (n_db n) p ep now ∧
  is_Some (dget (n_pending_hello n') p) ∧
  ∃ hello, pkt_type hello = HELLO ∧ EvSend hello ep ∈ n_trace n'.

(** A packet the transport can send. *)
Definition sendable (pkt : Packet) : Prop :=
  pkt_version pkt = PROTOCOL_VERSION ∧ (Z.of_nat (length (pkt_payload pkt)) ≤ MAX_PAYLOAD_SIZE)%Z.

(** With neither, exactly this happens to the node. *)
Lemma connect_to_peer_fresh p ep now d n hello st :
  create_hello (n_identity n) (d_ephemeral d) (d_nonce d) = Ok (hello, st) → sendable hello →
  get_by_peer_id (n_registry n) p = None → dmem (n_pending_hello n) p = false →
  ∃ ps tr tasks loops,
    connect_to_peer p ep now d n = (set_n_hello_retry_tasks tasks (set_n_hello_loops loops (set_n_trace tr
      (set_n_peer_states ps (set_n_table (update_entry (n_table n) p (set_endpoint (Some ep)))
      (set_n_db (db_remember_endpoint (n_db n) p ep now)
      (set_n_pending_hello (dset (n_pending_hello n) p
        (mkHandshakeState (hs_ephemeral_private_key_bytes st) (hs_ephemeral_public_key_bytes st)
           (hs_local_nonce st) (Some p))) n)))))), Ok ()) ∧
    EvSend hello ep ∈ tr ∧ loops !! d_hello_task d = Some (mkHelloRetry p hello ep 2) ∧
    dget tasks p = Some (d_hello_task d).
Proof using L.
  intros Hh [Hv Hl] Es Ep. unfold connect_to_peer. rewrite gets_bind, Es.
  rewrite bool_decide_false by (by intros [? ?]). rewrite gets_bind, Ep.
  rewrite gets_bind, Hh, lift_bind_ok, modify_bind. rewrite (bind_ok _ _ _ _ _ (storage_ok (DbRememberEndpoint p ep now) _ eq_refl)).
  unfold table_set_endpoint. rewrite modify_bind.
  match goal with |- context [(try_except _ _ _ ≫= _) ?m] =>
    destruct (try_set_peer_state p CONNECTING now m) as (ps & tr & E) end.
  rewrite (bind_ok _ _ _ _ _ E). rewrite emit_bind.
  rewrite (bind_ok _ _ _ _ _ (send_to_ok hello ep _ Hv Hl)).
  unfold notify_connection_event. rewrite emit_bind. eexists ps, _, _, _. split; [reflexivity|].
  split; [cbn; set_solver|]. cbn. split; [apply lookup_insert_eq|apply dget_dset_eq].
Qed.

Lemma connect_to_peer_outcome p ep now d n :
  identity_wf (n_identity n) → length (d_nonce d) = 16 →
  ∃ n', connect_to_peer p ep now d n = (n', Ok ()) ∧
    (if bool_decide (is_Some (get_by_peer_id (n_registry n) p)) || dmem (n_pending_hello n) p
     then n' = n
     else connection_started p ep now n n' ∧
       ∃ hello, sendable hello ∧ n_hello_loops n' !! d_hello_task d = Some (mkHelloRetry p hello ep 2)).
Proof using L.
  intros Hid Hn. destruct (bool_decide (is_Some _)) eqn:Es; [|destruct (dmem (n_pending_hello n) p) eqn:Ep].
  - exists n. split; [|done]. unfold connect_to_peer. by rewrite gets_bind, Es.
  - exists n. split; [|done]. unfold connect_to_peer. by rewrite gets_bind, Es, gets_bind, Ep.
  - destruct (create_hello_ok (n_identity n) (d_ephemeral d) (d_nonce d) Hid Hn) as (hello & st & Hh & Hv & Ht & Hl).
    apply bool_decide_eq_false_1, eq_None_not_Some in Es.
    destruct (connect_to_peer_fresh p ep now d n hello st Hh (conj Hv Hl) Es Ep) as (ps & tr & tasks & loops & -> & Hin & Hlp & _).
    eexists. split; [reflexivity|]. split.
    + split_and!; cbn; try done; [rewrite dget_dset_eq; eauto|eauto].
    + exists hello. by split.
Qed.

(** ** Repeating the HELLO *)

(** Wake-ups of one retry task, and anything else in between that leaves its loop alone or cancels it; the number counts
    the wake-ups. *)
Inductive hello_run (task : nat) (n : node) : nat → node → Prop :=
| hello_run_start : hello_run task n 0 n
| hello_run_other k m m' :
    hello_run task n k m →
    n_hello_loops m' !! task = n_hello_loops m !! task ∨ n_hello_loops m' !! task = None → hello_run task n k m'
| hello_run_wake k m now : hello_run task n k m → hello_run task n (S k) (retry_hello_wake task now m).1.

Lemma hello_exhausted_loops p now n : n_hello_loops (hello_exhausted p now n).1 = n_hello_loops n.
Proof using Type.
  unfold hello_exhausted. rewrite gets_bind. case_bool_decide; [done|]. rewrite modify_bind.
  unfold notify_connection_event. rewrite emit_bind. rewrite bind_eq.
  match goal with |- context [try_except _ _ _ ?m] => destruct (try_set_peer_state p DISCONNECTED now m) as (ps & tr & ->) end.
  reflexivity.
Qed.

(** A wake-up makes the next attempt or ends the loop. *)
Lemma retry_hello_wake_loop task now n h :
  n_hello_loops n !! task = Some h → sendable (hr_packet h) →
  n_hello_loops (retry_hello_wake task now n).1 !! task = None ∨
  hr_attempt h < 7 ∧ n_hello_loops (retry_hello_wake task now n).1 !! task
    = Some (mkHelloRetry (hr_peer h) (hr_packet h) (hr_endpoint h) (S (hr_attempt h))).
Proof using Type.
  intros Hh [Hv Hl]. unfold retry_hello_wake. rewrite gets_bind, Hh. cbv zeta. rewrite !gets_bind.
  destruct (_ || _); [left; apply lookup_delete_eq|]. rewrite (bind_ok _ _ _ _ _ (send_to_ok _ _ _ Hv Hl)).
  unfold notify_connection_event. rewrite emit_bind. destruct (Nat.ltb_spec (hr_attempt h) 7).
  - right. split; [done|]. apply lookup_insert_eq.
  - left. rewrite modify_bind, hello_exhausted_loops. apply lookup_delete_eq.
Qed.

Lemma hello_run_attempts task n k m h0 :
  n_hello_loops n !! task = Some h0 → hr_attempt h0 = 2 → sendable (hr_packet h0) → hello_run task n k m →
  n_hello_loops m !! task = None ∨
  ∃ h, n_hello_loops m !! task = Some h ∧ hr_attempt h = 2 + k ∧ hr_attempt h ≤ 7 ∧ sendable (hr_packet h).
Proof using Type.
  intros H0 Ha Hs. induction 1 as [|k m m' _ IH [->|Hn]|k m now _ IH]; [|done|by left|].
  - right. exists h0. split_and!; [done|lia..|done].
  - destruct IH as [Hn|(h & Hh & Hk & H7 & Hp)].
    + left. unfold retry_hello_wake. by rewrite gets_bind, Hn.
    + destruct (retry_hello_wake_loop task now m h Hh Hp) as [?|[Hlt E]]; [by left|]. right. eexists. split; [exact E|].
      cbn. split_and!; [lia..|done].
Qed.

Lemma hello_run_none task n k m :
  n_hello_loops n !! task = None → hello_run task n k m → n_hello_loops m !! task = None.
Proof using Type.
  intros H0. induction 1 as [|k m m' _ IH [->|Hn]|k m now _ IH]; [done..|]. unfold retry_hello_wake. by rewrite gets_bind, IH.
Qed.

(** C27: Repeating the HELLO ends.  After [connect_to_peer] the retry task stops by its sixth wake-up, three seconds
    apart, whatever the node does in between: an unanswered HELLO is sent seven times and no more. *)
Theorem hello_retry_terminates (p : bytes) (ep : endpoint) (now : seconds) (d : draws) (n m : node) (k : nat) :
  identity_wf (n_identity n) → length (d_nonce d) = 16 → n_hello_loops n !! d_hello_task d = None →
  hello_run (d_hello_task d) (connect_to_peer p ep now d n).1 k m → 6 ≤ k →
  n_hello_loops m !! d_hello_task d = None.
Proof using L.
  intros Hid Hnonce Hfresh Hrun Hk. destruct (connect_to_peer_outcome p ep now d n Hid Hnonce) as (n' & E & Hout).
  rewrite E in Hrun. cbn [fst] in Hrun. destruct (_ || _).
  - subst n'. by eapply hello_run_none.
  - destruct Hout as (_ & hello & Hs & Hl).
    destruct (hello_run_attempts _ _ _ _ _ Hl eq_refl Hs Hrun) as [?|(h & _ & H1 & H2 & _)]; [done|lia].
Qed.

(** ** Adding a contact *)

(** The contact, as table and database hold it. *)
Definition contact_of (n : node) (p pub : bytes) (ep : option endpoint) : Prop :=
  (∃ e, get_entry (n_table n) p = Some e ∧ pe_is_direct e = true ∧ pe_public_key e = pub ∧
     (is_Some ep → pe_endpoint e = ep)) ∧
  (∃ r, dget (db_peers (n_db n)) p = Some r ∧ pr_public_key r = pub ∧
     (is_Some ep → pr_last_known_endpoint r = format_endpoint <$> ep)).

Lemma contact_connecting p pub ep now n n' :
  contact_of n p pub (Some ep) → connection_started p ep now n n' → contact_of n' p pub (Some ep).
Proof using Type.
  intros [(e & He & Hd & Hk & _) (r & Hr & Hrk & _)] (Ht & Hdb & _). split.
  - exists (set_endpoint (Some ep) e). rewrite Ht. unfold get_entry, update_entry in *. cbn.
    rewrite dget_dupd, decide_True, He by done. done.
  - eexists. rewrite Hdb. cbn. rewrite dget_dupd, decide_True, Hr by done. done.
Qed.

(** C15: A pasted invite makes a contact.  For the code (in either encoding) of another identity, a node in a
    reachable state returns from [add_contact_from_invite] with the peer id derived from the key and the endpoint of
    the invite; the peer is then a direct peer with that key and endpoint in the table and in the database, and if the
    invite has an endpoint and there is neither a session nor a pending HELLO, a HELLO was sent to that endpoint. *)
Theorem invite_adds_contact (n : node) (pub : bytes) (ep : option endpoint) (code : pystr) (now : seconds)
    (d : draws) :
  node_ok n → identity_wf (n_identity n) → length (d_nonce d) = 16 →
  length pub = 32 → invite_endpoint_wf ep → derive_peer_id pub ≠ id_peer_id (n_identity n) →
  generate_invite pub ep = Ok code ∨ generate_invite_readable pub ep = Ok code →
  let p := derive_peer_id pub in
  ∃ n', add_contact_from_invite code now d n
      = (n', Ok (mkContactAddResult p ep (bool_decide (is_Some ep)))) ∧
    node_ok n' ∧ contact_of n' p pub ep ∧
    (∀ a, ep = Some a → get_by_peer_id (n_registry n) p = None → dget (n_pending_hello n) p = None →
       is_Some (dget (n_pending_hello n') p) ∧ ∃ hello, pkt_type hello = HELLO ∧ EvSend hello a ∈ n_trace n').
Proof using L.
  intros Hok Hid Hn Hpub Hep Hne Hcode p.
  pose proof (invite_code_parses pub ep code Hpub Hep Hcode) as Hparse.
  pose proof (ev_add_contact code now d n) as [Hkeep _]. specialize (Hkeep Hok). revert Hkeep.
  unfold add_contact_from_invite. rewrite Hparse, lift_bind_ok. cbn [inv_public_key inv_endpoint].
  rewrite ed_from_public_bytes_ok, lift_bind_ok, gets_bind by done. fold p.
  rewrite (bool_decide_false (p = _)) by done.
  rewrite (bind_ok _ _ _ _ _ (storage_ok (DbAddPeer p pub None ep now) n eq_refl)), gets_bind.
  set (n1 := set_n_trace _ _).
  assert (∃ r, dget (db_peers (n_db n1)) p = Some r ∧ pr_public_key r = pub ∧
    (is_Some ep → pr_last_known_endpoint r = format_endpoint <$> ep)) as (r & Hr & Hrow).
  { cbn. rewrite dget_dset_eq. eexists. split; [reflexivity|].
    destruct (dget (db_peers (n_db n)) p); cbn; (split; [done|]); by intros [? ->]. }
  unfold db_get_peer. rewrite Hr. cbn [fmap option_fmap option_map]. rewrite gets_bind, modify_bind.
  unfold notify_peers_changed. rewrite emit_bind.
  match goal with |- context [set_n_table ?t n1] => set (tbl := t) end.
  assert (∃ e, get_entry tbl p = Some e ∧ pe_is_direct e = true ∧ pe_public_key e = pub ∧
     (is_Some ep → pe_endpoint e = ep)) as Hentry.
  { unfold tbl, get_entry, update_entry, add_direct_peer. change (n_table n1) with (n_table n).
    destruct (dget (pt_peers (n_table n)) p) as [e|] eqn:He.
    - cbn. rewrite dget_dupd, decide_True, He by done. eexists. split; [done|]. cbn. split_and!; [done..|].
      by intros [? ->].
    - rewrite (bool_decide_false (p = _)) by (by rewrite (nk_local _ Hok)). cbn. rewrite dget_dset_eq.
      eexists. split; [done|]. cbn. split_and!; [done..|]. by intros [? ->]. }
  set (n2 := set_n_trace _ (set_n_table tbl n1)).
  assert (contact_of n2 p pub ep) as Hc by (split; [exact Hentry|by exists r]).
  destruct ep as [a|]; intros Hkeep; [|by eexists].
  destruct (connect_to_peer_outcome p a now d n2 Hid Hn) as (n' & E & Hout).
  rewrite (bind_ok _ _ _ _ _ E) in Hkeep |- *. exists n'. split; [done|]. split; [exact Hkeep|].
  change (n_registry n2) with (n_registry n) in Hout. change (n_pending_hello n2) with (n_pending_hello n) in Hout.
  destruct (bool_decide (is_Some (get_by_peer_id (n_registry n) p)) || dmem (n_pending_hello n) p) eqn:Eb.
  - subst n'. split; [done|]. intros a' _ Hs Hp'. rewrite Hs in Eb.
    apply (proj2 (dmem_false (n_pending_hello n) p)) in Hp'. by rewrite Hp' in Eb.
  - destruct Hout as [Hout _]. split; [by eapply contact_connecting|]. intros a' [= <-] _ _. by destruct Hout as (_ & _ & ? & ?).
Qed.
End contacts.

(** ** Example *)

Module ContactsExample.
Import ToyCrypto NodeExample.

Definition carol : LocalIdentity := generate_identity (be_encode 32 33).
Definition carol_code : pystr :=
  match generate_invite (id_public_key carol) (Some (str "192.0.2.3", 4003%Z)) with
  | Ok code => code
  | Raise _ => []
  end.

Lemma invite_adds_contact_witness :
  ∃ n', add_contact_from_invite carol_code (secs 5) drawn
      (fresh_node alice 4001 8 (new_message_log 50 5) empty_db ∅ ∅ (secs 4))
      = (n', Ok (mkContactAddResult (id_peer_id carol) (Some (str "192.0.2.3", 4003%Z)) true)) ∧
    ∃ hello, EvSend hello (str "192.0.2.3", 4003%Z) ∈ n_trace n'.
Proof.
  destruct (invite_adds_contact (fresh_node alice 4001 8 (new_message_log 50 5) empty_db ∅ ∅ (secs 4))
    (id_public_key carol) (Some (str "192.0.2.3", 4003%Z)) carol_code (secs 5) drawn) as (n' & H1 & _ & _ & H2).
  - apply fresh_node_ok. apply empty_db_wf.
  - split; reflexivity.
  - reflexivity.
  - reflexivity.
  - split; [|lia]. exists (IPv4 (be_encode 4 3221225987)). by vm_compute.
  - vm_compute. discriminate.
  - left. vm_compute. reflexivity.
  - exists n'. split; [exact H1|].
    destruct (H2 _ eq_refl) as [_ (hello & _ & H3)]; [reflexivity..|]. by exists hello.
Defined.

(** Six wake-ups after connecting to Bob. *)
Definition connecting : node :=
  (connect_to_peer (id_peer_id bob) addr_bob (secs 5) drawn
     (fresh_node alice 4001 8 (new_message_log 50 5) empty_db ∅ ∅ (secs 4))).1.
Definition woken (k : nat) (n : node) : node := Nat.iter k (λ m, (retry_hello_wake 1 (secs 8) m).1) n.

Lemma woken_run n k : hello_run 1 n k (woken k n).
Proof. induction k as [|k IH]; [apply hello_run_start|]. exact (hello_run_wake _ _ _ _ _ IH). Qed.

Lemma hello_retry_terminates_witness :
  hr_attempt <$> n_hello_loops (woken 5 connecting) !! 1 = Some 7 ∧ n_hello_loops (woken 6 connecting) !! 1 = None.
Proof.
  split; [vm_compute; reflexivity|].
  apply (hello_retry_terminates (id_peer_id bob) addr_bob (secs 5) drawn
    (fresh_node alice 4001 8 (new_message_log 50 5) empty_db ∅ ∅ (secs 4)) (woken 6 connecting) 6).
  - split; reflexivity.
  - reflexivity.
  - reflexivity.
  - unfold connecting. change (d_hello_task drawn) with 1. apply woken_run.
  - lia.
Defined.
End ContactsExample.
