(* ===== verification/Connect.v ===== *)
(** * Opening a session between two nodes (node.py)

    The way from [connect_to_peer] to a session on both sides: the HELLO that goes out, the other node's answer, and what
    the answer does back at the first node.  The handshake of [Handshake] and the registries of [Session] meet here
    in the handlers; the result is the precondition under which messages are exchanged. *)

From S2P Require Import Prelude Bytes PyDict PyText IpAddr Packet Crypto Session Handshake QueueManager.
From S2P Require Import PeerState RateLimiter Overlay Resolution Reconnect Heartbeat Storage LogFiles.
From S2P Require Import Invite NodeState Node NodeProps NodeExchange NodePeers NodeInv NodeContacts.

(** ** Changes of peer states *)

(** A computation that changes the states of peers and the trace only. *)
Definition states_only {A} (c : M A) : Prop :=
  ∀ n, ∃ ps l, (c n).1 = set_n_trace (n_trace n ++ l) (set_n_peer_states ps n).

Lemma states_only_id {A} (c : M A) : (∀ n, (c n).1 = n) → states_only c.
Proof. intros H n. exists (n_peer_states n), []. rewrite H, app_nil_r. by destruct n. Qed.

Lemma states_only_bind {A B} (c : M A) (k : A → M B) : states_only c → (∀ a, states_only (k a)) → states_only (c ≫= k).
Proof.
  intros Hc Hk n. rewrite bind_eq. destruct (Hc n) as (ps & l & E). destruct (c n) as [n1 [a|e]]; cbn in E; subst n1; [|by exists ps, l].
  destruct (Hk a (set_n_trace (n_trace n ++ l) (set_n_peer_states ps n))) as (ps' & l' & ->). exists ps', (l ++ l').
  cbn. by rewrite app_assoc.
Qed.

Lemma states_only_try {A} (c : M A) e h : states_only c → states_only h → states_only (try_except c e h).
Proof.
  intros Hc Hh n. unfold try_except. destruct (Hc n) as (ps & l & E).
  destruct (c n) as [n1 [a|e']]; cbn in E; subst n1; [by exists ps, l|]. destruct (e' =?b e); [|by exists ps, l].
  destruct (Hh (set_n_trace (n_trace n ++ l) (set_n_peer_states ps n))) as (ps' & l' & ->). exists ps', (l ++ l').
  cbn. by rewrite app_assoc.
Qed.

Lemma states_only_set p st now : states_only (set_peer_state p st now).
Proof.
  intros n. unfold set_peer_state. destruct (update_state (n_peer_states n) p st now) as [mgr [evs|e]].
  - exists mgr. cut (∀ m, ∃ l, (for_each (λ e, emit (EvState e)) evs m).1 = set_n_trace (n_trace m ++ l) m).
    { intros H. destruct (H (set_n_peer_states mgr n)) as [l ->]. by exists l. }
    induction evs as [|e evs IH]; intros m; [exists []; rewrite app_nil_r; by destruct m|].
    destruct (IH (set_n_trace (n_trace m ++ [EvState e]) m)) as [l Hl]. exists ([EvState e] ++ l).
    rewrite app_assoc. exact Hl.
  - exists mgr, []. rewrite app_nil_r. by destruct n.
Qed.

Lemma states_only_mark p now : states_only (mark_peer_connected p now).
Proof.
  unfold mark_peer_connected. apply states_only_bind; [by apply states_only_id|]. intros current.
  destruct (current =?b CONNECTED); [by apply states_only_id|]. apply states_only_bind.
  - apply states_only_try; (apply states_only_bind; [|intros _; apply states_only_set]).
    + destruct current; try (by apply states_only_id); try apply states_only_set.
      apply states_only_bind; [apply states_only_set|intros _; apply states_only_set].
    + intros n. unfold modify. destruct (ensure_machine _ _ _ _) as [mgr x].
      match goal with |- context [set_n_peer_states ?ps n] => exists ps, [] end. rewrite app_nil_r. by destruct n.
  - intros _ n. by exists (n_peer_states n), [EvPeersChanged]; destruct n.
Qed.

(** [_mark_peer_connected] returns with the peer connected. *)
Lemma mark_connected p now n :
  ∃ ps l, mark_peer_connected p now n = (set_n_trace (n_trace n ++ l) (set_n_peer_states ps n), Ok ()) ∧
    get_state ps p = CONNECTED.
Proof.
  destruct (mark_peer_connected_connects n p now) as (n' & E & Hs & _). destruct (states_only_mark p now n) as (ps & l & Hf).
  rewrite E in Hf. cbn in Hf. subst n'. exists ps, l. split; [done|]. exact Hs.
Qed.

(** ** A new session *)

(** The session a node opens: the counters start at the floors kept from the time before a restart, or at 1 and 0. *)
Definition first_session (n : node) (sid key p : bytes) (now : seconds) : Session :=
  let '(a, b) := default (0, 0)%Z (dget (n_sequence_floors n) p) in
  set_recv_sequence (Z.max 0 b) (set_send_sequence (Z.max 1 a) (new_session sid key p now)).

(** The node can open a session with the peer [p] under the id [sid], and has nothing waiting for it. *)
Record ready_for (n : node) (p sid : bytes) : Prop := {
  rf_registry : registry_inv (n_heap n) (n_registry n);
  rf_peer : get_by_peer_id (n_registry n) p = None;
  rf_sid : get_by_session_id (n_registry n) sid = None;
  rf_room : (active_count (n_registry n) < MAX_SESSIONS)%nat;
  rf_queue : get_queued_for_peer (n_queue n) p = [];
  rf_floors : ∀ a b, dget (n_sequence_floors n) p = Some (a, b) → (b < 2 ^ 32)%Z }.

(** What the session looks like from one side. *)
Record joined (n : node) (r : sref) (s : Session) (ep : endpoint) : Prop := {
  jn_registry : registry_inv (n_heap n) (n_registry n);
  jn_object : n_heap n !! r = Some s;
  jn_peer : get_by_peer_id (n_registry n) (s_remote_peer_id s) = Some r;
  jn_sid : get_by_session_id (n_registry n) (s_session_id s) = Some r;
  jn_state : get_state (n_peer_states n) (s_remote_peer_id s) = CONNECTED;
  jn_endpoint : get_endpoint (n_table n) (s_remote_peer_id s) = Some ep;
  jn_row : dget (db_sessions (n_db n)) (s_session_id s) =
    Some (mkSessionRecord (s_session_id s) (s_remote_peer_id s) (s_send_sequence s) (s_recv_sequence s) (s_created_at s)) }.

Section connect.
Context `{C : CryptoLib} `{L : !CryptoLaws C}.

Lemma ready_frame n n' p sid :
  n_heap n' = n_heap n → n_registry n' = n_registry n → n_queue n' = n_queue n → n_sequence_floors n' = n_sequence_floors n →
  ready_for n p sid → ready_for n' p sid.
Proof using Type. intros H1 H2 H3 H4 [A B D E F G]. split; rewrite ?H1, ?H2, ?H3, ?H4; done. Qed.

Lemma first_session_ids n sid key p now :
  let s := first_session n sid key p now in
  s_session_id s = sid ∧ s_encryption_key s = key ∧ s_remote_peer_id s = p ∧ s_created_at s = now.
Proof using Type. cbv zeta. unfold first_session. by destruct (default _ _). Qed.

Lemma first_session_frame n n' sid key p now :
  n_sequence_floors n' = n_sequence_floors n → first_session n' sid key p now = first_session n sid key p now.
Proof using Type. intros E. unfold first_session. by rewrite E. Qed.

Lemma first_session_sync n sid key p now :
  ready_for n p sid → (0 ≤ s_recv_sequence (first_session n sid key p now) < 2 ^ 32)%Z.
Proof using Type.
  intros [_ _ _ _ _ Hf]. unfold first_session. destruct (dget _ p) as [[a b]|]; cbn; [|lia]. specialize (Hf a b eq_refl). lia.
Qed.

(** [_apply_sequence_floors] on the new session object. *)
Lemma floors_applied n r sid key p now :
  ∃ fl, apply_sequence_floors r (set_n_heap (<[r := new_session sid key p now]> (n_heap n)) n) =
    (set_n_sequence_floors fl (set_n_heap (<[r := first_session n sid key p now]> (n_heap n)) n), Ok ()).
Proof using Type.
  unfold apply_sequence_floors, first_session.
  rewrite (bind_ok _ _ _ _ (new_session sid key p now)) by (unfold get_session; cbn; by rewrite lookup_insert_eq).
  rewrite gets_bind. cbn [n_sequence_floors set_n_heap]. change (s_remote_peer_id (new_session sid key p now)) with p.
  destruct (dget (n_sequence_floors n) p) as [[a b]|]; cbn [default].
  - unfold put_session. rewrite modify_bind. cbn [n_heap set_n_heap]. rewrite insert_insert_eq.
    match goal with |- context [<[r := ?x]> _] => replace x
      with (set_recv_sequence (Z.max 0 b) (set_send_sequence (Z.max 1 a) (new_session sid key p now))) end; [by eexists|].
    change (s_send_sequence (new_session sid key p now)) with 1%Z.
    destruct (Z.ltb_spec 1 a); [rewrite (Z.max_r 1) by lia|rewrite (Z.max_l 1) by lia]; cbn;
      (destruct (Z.ltb_spec 0 b); [rewrite Z.max_r by lia|rewrite Z.max_l by lia]); done.
  - exists (n_sequence_floors n). by destruct n.
Qed.

Lemma open_session_new keys now n :
  ready_for n (sk_remote_peer_id keys) (sk_session_id keys) →
  ∃ r reg fl, let s := first_session n (sk_session_id keys) (sk_encryption_key keys) (sk_remote_peer_id keys) now in
    let op := DbSaveSession (s_session_id s) (s_remote_peer_id s) (s_send_sequence s) (s_recv_sequence s) now in
    open_session keys now n =
      (set_n_trace (n_trace n ++ [EvDb op]) (set_n_db (db_exec (n_db n) op)
         (set_n_registry reg (set_n_sequence_floors fl (set_n_heap (<[r := s]> (n_heap n)) n)))), Ok r) ∧
    registry_inv (<[r := s]> (n_heap n)) reg ∧
    get_by_peer_id reg (sk_remote_peer_id keys) = Some r ∧ get_by_session_id reg (sk_session_id keys) = Some r.
Proof using Type.
  intros [Hinv Hp Hsid Hroom _ _]. unfold open_session. rewrite gets_bind. set (r := fresh _).
  assert (n_heap n !! r = None) as Hr by (apply not_elem_of_dom, is_fresh).
  unfold put_session at 1. rewrite modify_bind.
  destruct (floors_applied n r (sk_session_id keys) (sk_encryption_key keys) (sk_remote_peer_id keys) now) as [fl E].
  rewrite (bind_ok _ _ _ _ _ E).
  destruct (first_session_ids n (sk_session_id keys) (sk_encryption_key keys) (sk_remote_peer_id keys) now) as (I1 & _ & I3 & _).
  set (s := first_session _ _ _ _ now) in *. clearbody s.
  rewrite gets_bind. cbn [n_heap set_n_heap n_registry set_n_sequence_floors].
  pose proof (registry_inv_alloc _ _ r s Hinv Hr) as Hinv'.
  pose proof (register_eq (<[r := s]> (n_heap n)) (n_registry n) r s (lookup_insert_eq _ _ _) Hroom) as Hreg.
  assert (registry_inv (<[r := s]> (n_heap n)) (mkRegistry
    (dset (without_peer (<[r := s]> (n_heap n)) (n_registry n) (s_remote_peer_id s)) (s_session_id s) r)
    (dset (by_peer (n_registry n)) (s_remote_peer_id s) r))) as Hinv2.
  { eapply (register_inv _ _ Hinv' r s); [apply lookup_insert_eq| |exact Hreg].
    intros r' o H. rewrite I1 in H. by rewrite Hsid in H. }
  rewrite Hreg, lift_bind_ok, modify_bind.
  rewrite (bind_ok (get_session r) _ _ _ s) by (unfold get_session; cbn; by rewrite lookup_insert_eq).
  erewrite bind_ok by (by apply storage_ok).
  eexists r, _, fl. cbv zeta. split; [reflexivity|]. split; [exact Hinv2|].
  unfold get_by_peer_id, get_by_session_id. cbn. by rewrite I1, I3, !dget_dset_eq.
Qed.

Lemma flush_nothing p now n : get_queued_for_peer (n_queue n) p = [] → flush_queued_for_peer p now n = (n, Ok ()).
Proof using Type.
  intros Hq. unfold flush_queued_for_peer. rewrite !gets_bind. repeat case_match; try done.
  by rewrite gets_bind, Hq.
Qed.

Lemma send_sync_new r s addr n :
  n_heap n !! r = Some s → (0 ≤ s_recv_sequence s < 2 ^ 32)%Z → length (s_session_id s) = 8 →
  ∃ pkt, send_sync r addr n = (set_n_trace (n_trace n ++ [EvSend pkt addr]) n, Ok ()).
Proof using Type.
  intros Hs H0 Hl. unfold send_sync. rewrite (bind_ok _ _ _ _ _ (get_session_ok _ _ _ Hs)).
  eexists. rewrite bind_eq. unfold lift, make_packet. cbn. unfold sync_serialize. cbn [sync_sequence_number sync_session_id].
  rewrite struct_pack_u32 by exact H0. cbn -[be_encode].
  apply send_to_ok; [done|]. cbn [pkt_payload]. rewrite length_app, Hl, length_be_encode. unfold MAX_PAYLOAD_SIZE. lia.
Qed.

(** ** The two handlers *)

(** The common end of both handlers: from a node in which the peer's endpoint is known, the session is opened and the peer
    marked connected.  The node keeps its identity, contacts and queue. *)
Record opened (n n' : node) (keys : SessionKeys) (r : sref) (now : seconds) : Prop := {
  op_registry : registry_inv (n_heap n') (n_registry n');
  op_object : n_heap n' !! r = Some (first_session n (sk_session_id keys) (sk_encryption_key keys) (sk_remote_peer_id keys) now);
  op_peer : get_by_peer_id (n_registry n') (sk_remote_peer_id keys) = Some r;
  op_sid : get_by_session_id (n_registry n') (sk_session_id keys) = Some r;
  op_state : get_state (n_peer_states n') (sk_remote_peer_id keys) = CONNECTED;
  op_row : let s := first_session n (sk_session_id keys) (sk_encryption_key keys) (sk_remote_peer_id keys) now in
    dget (db_sessions (n_db n')) (sk_session_id keys) =
    Some (mkSessionRecord (sk_session_id keys) (sk_remote_peer_id keys) (s_send_sequence s) (s_recv_sequence s) now);
  op_rest : n_identity n' = n_identity n ∧ n_table n' = n_table n ∧ n_queue n' = n_queue n ∧
    n_pending_hello n' = n_pending_hello n ∧ n_hello_retry_tasks n' = n_hello_retry_tasks n }.

Lemma session_opened keys now n :
  ready_for n (sk_remote_peer_id keys) (sk_session_id keys) →
  ∃ n1 n2 r l, open_session keys now n = (n1, Ok r) ∧ mark_peer_connected (sk_remote_peer_id keys) now n1 = (n2, Ok ()) ∧
    opened n n2 keys r now ∧ n_trace n2 = n_trace n ++ l.
Proof using Type.
  intros Hr. destruct (open_session_new keys now n Hr) as (r & reg & fl & E & Hinv & Hp & Hs). cbv zeta in E, Hinv.
  match type of E with _ = (?m, _) => destruct (mark_connected (sk_remote_peer_id keys) now m) as (ps & l & Em & Hst) end.
  eexists _, _, r, _. split_and!; [exact E|exact Em| |].
  - destruct (first_session_ids n (sk_session_id keys) (sk_encryption_key keys) (sk_remote_peer_id keys) now)
      as (I1 & _ & I3 & _). split; cbn; try done; [apply lookup_insert_eq|]. rewrite I1, I3. apply dget_snoc, dget_dpop_eq.
  - cbn. by rewrite <- app_assoc.
Qed.

(** What follows in the handlers changes neither the session nor the peer's state. *)
Lemma opened_joined n0 n n' m keys r now ep :
  opened n n' keys r now → n_sequence_floors n = n_sequence_floors n0 →
  n_heap m = n_heap n' → n_registry m = n_registry n' → n_peer_states m = n_peer_states n' →
  db_sessions (n_db m) = db_sessions (n_db n') → get_endpoint (n_table m) (sk_remote_peer_id keys) = Some ep →
  joined m r (first_session n0 (sk_session_id keys) (sk_encryption_key keys) (sk_remote_peer_id keys) now) ep.
Proof using Type.
  intros [O1 O2 O3 O4 O5 O6 _] Hf E1 E2 E3 E4 Hep. cbv zeta in O6.
  rewrite <- (first_session_frame n0 n) by done.
  destruct (first_session_ids n (sk_session_id keys) (sk_encryption_key keys) (sk_remote_peer_id keys) now)
    as (I1 & _ & I3 & I4).
  split; rewrite ?I1, ?I3, ?I4, ?E1, ?E2, ?E3, ?E4; done.
Qed.

(** The sender of a HELLO becomes a contact with the datagram's source as its endpoint, if it was not one. *)
Lemma contact_learned n (p key : bytes) addr now :
  table_wf (n_table n) → p ≠ pt_local_id (n_table n) →
  ∃ tb db l, (if bool_decide (p ∈ get_direct_peer_ids (n_table n)) then table_set_endpoint p addr
      else
        storage (DbAddPeer p key None (Some addr) now) ;;
        saved ← gets (λ n, db_get_peer (n_db n) p);
        modify (λ n, set_n_table (add_direct_peer (n_table n) p key (saved ≫= pr_nickname) (Some addr) now) n) ;;
        notify_peers_changed) n = (set_n_trace (n_trace n ++ l) (set_n_table tb (set_n_db db n)), Ok ()) ∧
    table_wf tb ∧ pt_local_id tb = pt_local_id (n_table n) ∧
    p ∈ get_direct_peer_ids tb ∧ get_endpoint tb p = Some addr ∧ db_sessions db = db_sessions (n_db n).
Proof using Type.
  intros Hwf Hself. case_bool_decide as Hk.
  - exists (update_entry (n_table n) p (set_endpoint (Some addr))), (n_db n), [].
    destruct (proj1 (elem_of_direct_ids _ _ Hwf) Hk) as (e & He & Hd).
    assert (get_entry (update_entry (n_table n) p (set_endpoint (Some addr))) p = Some (set_endpoint (Some addr) e)) as He'.
    { unfold get_entry, update_entry in *. cbn. rewrite dget_dupd, decide_True by done. by rewrite He. }
    assert (table_wf (update_entry (n_table n) p (set_endpoint (Some addr)))) as Hwf' by (by apply update_entry_wf).
    split_and!; try done.
    + rewrite app_nil_r. by destruct n.
    + apply elem_of_direct_ids; [done|]. eexists. by split.
    + unfold get_endpoint, get_entry in *. by rewrite He'.
  - erewrite bind_ok by (by apply storage_ok). rewrite gets_bind, modify_bind.
    match goal with |- context [add_direct_peer _ _ _ ?nk _ _] => set (nick := nk) end.
    set (op := DbAddPeer p key None (Some addr) now).
    exists (add_direct_peer (n_table n) p key nick (Some addr) now), (db_exec (n_db n) op), [EvDb op; EvPeersChanged].
    split; [unfold notify_peers_changed, emit, modify; cbn [n_trace n_table set_n_trace set_n_db set_n_table];
      by rewrite <- app_assoc|].
    assert (get_entry (add_direct_peer (n_table n) p key nick (Some addr) now) p
      = Some (mkPeerEntry p key true (Some addr) now 0 nick None)) as He.
    { unfold add_direct_peer, get_entry. rewrite bool_decide_false by done. apply dget_dset_eq. }
    split_and!; try done; [by apply add_direct_peer_wf|..].
    + unfold add_direct_peer. by case_bool_decide.
    + apply elem_of_direct_ids; [by apply add_direct_peer_wf|]. eexists. by split.
    + unfold get_endpoint, get_entry in *. by rewrite He.
Qed.

(** A HELLO the handshake accepts, at a node ready for its sender: the answer goes out and the session is open. *)
Lemma hello_answered n packet addr now d hello ack keys :
  let p := derive_peer_id (hello_identity_public_key hello) in
  table_wf (n_table n) → p ≠ pt_local_id (n_table n) → ready_for n p (d_session_id d) →
  dmem (n_pending_hello n) p && bytes_ltb (id_peer_id (n_identity n)) p = false →
  hello_deserialize (pkt_payload packet) = Ok hello →
  (∀ known, p ∈ known → process_hello packet known (n_identity n) (d_ephemeral d) (d_nonce d) (d_session_id d)
     = Ok (Some (ack, keys))) →
  sendable ack → sk_remote_peer_id keys = p → sk_session_id keys = d_session_id d → length (d_session_id d) = 8 →
  ∃ n' r, handle_hello packet addr now d n = (n', Ok ()) ∧
    joined n' r (first_session n (sk_session_id keys) (sk_encryption_key keys) p now) addr ∧
    EvSend ack addr ∈ n_trace n'.
Proof using L.
  intros p Hwf Hself Hready Hpend Hh Hproc [Hv Hl] Hkp Hks Hsid.
  destruct (hello_deserialize_lengths _ _ Hh) as (Hlen & _).
  unfold handle_hello. rewrite Hh, lift_bind_ok, ed_from_public_bytes_ok, lift_bind_ok by done. fold p.
  cbv zeta. rewrite gets_bind, (rf_peer _ _ _ Hready), bool_decide_false by (by intros [? ?]).
  rewrite !gets_bind, Hpend.
  rewrite (bind_ok _ _ _ (if dmem (n_pending_hello n) p
    then set_n_pending_hello (dpop (n_pending_hello n) p) n else n) ()) by (by destruct (dmem _ p)).
  set (n1 := if dmem (n_pending_hello n) p then _ else n).
  assert (ready_for n1 p (d_session_id d)) as Hready1 by (by apply (ready_frame n); [unfold n1; by destruct (dmem _ p)..|]).
  assert (n_table n1 = n_table n ∧ n_sequence_floors n1 = n_sequence_floors n) as [Ht Hf] by (unfold n1; by destruct (dmem _ p)).
  rewrite <- Ht in Hwf, Hself.
  rewrite gets_bind.
  destruct (contact_learned n1 p (hello_identity_public_key hello) addr now Hwf Hself)
    as (tb & db & l & E & Hwf' & _ & Hin & Hep & _).
  rewrite (bind_ok _ _ _ _ _ E). rewrite (bind_ok _ _ _ _ _ (storage_ok (DbRememberEndpoint p addr now) _ eq_refl)).
  rewrite gets_bind. cbn [n_table set_n_trace set_n_db set_n_table].
  rewrite (Hproc _ Hin), lift_bind_ok. rewrite (bind_ok _ _ _ _ _ (send_to_ok ack addr _ Hv Hl)).
  match goal with |- context [(open_session keys now ≫= _) ?m] =>
    destruct (session_opened keys now m) as (n2 & n3 & r & l2 & E2 & E3 & Ho & Htr) end.
  { rewrite Hkp, Hks. by apply (ready_frame n1). }
  destruct (op_rest _ _ _ _ _ Ho) as (_ & O8 & O9 & _).
  rewrite (bind_ok _ _ _ _ _ E2), (bind_ok _ _ _ _ _ E3), modify_bind. unfold begin_heartbeat. rewrite modify_bind.
  erewrite bind_ok by (apply flush_nothing; cbn; rewrite O9, Hkp; apply Hready1).
  unfold notify_connection_event. rewrite emit_bind.
  match goal with |- context [send_sync r addr ?m] => destruct (send_sync_new r (first_session n (sk_session_id keys)
    (sk_encryption_key keys) (sk_remote_peer_id keys) now) addr m) as [pkt Hsync] end.
  { rewrite <- (first_session_frame n n1) by done.
    apply (op_object _ _ _ _ _ Ho). }
  { apply first_session_sync. by rewrite Hkp, Hks. } { by rewrite (proj1 (first_session_ids _ _ _ _ _)), Hks. }
  rewrite Hsync. eexists _, r. split; [reflexivity|]. rewrite <- Hkp. split.
  - eapply opened_joined; [exact Ho|done..|]. cbn. by rewrite O8, Hkp.
  - cbn. rewrite Htr. cbn. set_solver.
Qed.

(** The HELLO_ACK to a pending HELLO: the same on the initiator, and the HELLO is no longer repeated. *)
Lemma hello_ack_accepted n packet addr now d ack st keys task :
  let p := derive_peer_id (hack_identity_public_key ack) in
  table_wf (n_table n) → ready_for n p (sk_session_id keys) → p ∈ get_direct_peer_ids (n_table n) →
  dget (n_pending_hello n) p = Some st → dget (n_hello_retry_tasks n) p = Some task →
  hello_ack_deserialize (pkt_payload packet) = Ok ack →
  process_hello_ack packet st (get_direct_peer_ids (n_table n)) = Ok (Some keys) →
  sk_remote_peer_id keys = p → length (sk_session_id keys) = 8 →
  ∃ n' r, handle_hello_ack packet addr now d n = (n', Ok ()) ∧
    joined n' r (first_session n (sk_session_id keys) (sk_encryption_key keys) p now) addr ∧
    n_hello_loops n' !! task = None ∧ dget (n_pending_hello n') p = None.
Proof using L.
  intros p Hwf Hready Hin Hpend Htask Hh Hproc Hkp Hsid.
  destruct (hello_ack_deserialize_lengths _ _ Hh) as (Hlen & _).
  destruct (proj1 (elem_of_direct_ids _ _ Hwf) Hin) as (e & He & _).
  unfold handle_hello_ack. rewrite Hh, lift_bind_ok, ed_from_public_bytes_ok, lift_bind_ok by done. fold p.
  cbv zeta. rewrite gets_bind, Hpend, modify_bind, gets_bind. cbn [n_registry set_n_pending_hello].
  rewrite (rf_peer _ _ _ Hready), bool_decide_false by (by intros [? ?]). rewrite gets_bind.
  cbn [n_table set_n_pending_hello]. rewrite Hproc, lift_bind_ok.
  match goal with |- context [(open_session keys now ≫= _) ?m] =>
    destruct (session_opened keys now m) as (n2 & n3 & r & l2 & E2 & E3 & Ho & Htr) end.
  { rewrite Hkp. by apply (ready_frame n). }
  destruct (op_rest _ _ _ _ _ Ho) as (_ & O8 & O9 & O10 & O11).
  rewrite (bind_ok _ _ _ _ _ E2), (bind_ok _ _ _ _ _ E3), modify_bind.
  rewrite (bind_ok _ _ _ _ _ (storage_ok (DbRememberEndpoint (sk_remote_peer_id keys) addr now) _ eq_refl)).
  unfold table_set_endpoint, begin_heartbeat. rewrite !modify_bind.
  erewrite bind_ok by (apply flush_nothing; cbn; rewrite O9, Hkp; apply Hready).
  rewrite modify_bind. cbn [n_hello_retry_tasks set_n_heartbeat set_n_table set_n_db set_n_trace set_n_reconnect].
  rewrite O11. cbn [n_hello_retry_tasks set_n_pending_hello]. rewrite Hkp, Htask.
  unfold notify_connection_event. rewrite emit_bind.
  match goal with |- context [send_sync r addr ?m] => destruct (send_sync_new r (first_session n (sk_session_id keys)
    (sk_encryption_key keys) (sk_remote_peer_id keys) now) addr m) as [pkt Hsync] end.
  { apply (op_object _ _ _ _ _ Ho). }
  { apply first_session_sync. by rewrite Hkp. } { by rewrite (proj1 (first_session_ids _ _ _ _ _)). }
  rewrite Hsync. eexists _, r. split; [reflexivity|]. rewrite <- Hkp. split_and!.
  - eapply opened_joined; [exact Ho|done..|]. cbn. rewrite O8, Hkp. unfold get_endpoint, get_entry in *. cbn.
    rewrite dget_dupd, decide_True by done. by rewrite He.
  - apply lookup_delete_eq.
  - cbn. rewrite O10, Hkp. apply dget_dpop_eq.
Qed.

(** ** From one node to the other *)

Lemma sendable_wire pkt : sendable pkt → ∃ wire, packet_serialize pkt = Ok wire ∧ packet_deserialize wire = Ok pkt.
Proof using Type.
  intros [Hv Hl]. destruct pkt as [v t pl]. cbn in Hv, Hl. subst v. destruct (packet_serialize_ok t pl Hl) as [bs Hbs].
  exists bs. split; [done|]. rewrite <- (app_nil_r bs). by apply packet_deserialize_serialize.
Qed.

(** The known peers only decide whether the sender is one of them. *)
Lemma process_hello_known packet known known' me eph nonce sid p keys :
  process_hello packet known me eph nonce sid = Ok (Some (p, keys)) → sk_remote_peer_id keys ∈ known' →
  process_hello packet known' me eph nonce sid = Ok (Some (p, keys)).
Proof using Type.
  intros (hello & pub & xpub & ss & H1 & H2 & _ & H3 & H4 & H5 & -> & ->)%process_hello_Some Hk.
  by apply (process_hello_intro _ _ _ _ _ _ hello pub xpub ss).
Qed.

Lemma answer_sendable packet known me eph nonce sid p keys :
  identity_wf me → length nonce = 16 → length sid = 8 →
  process_hello packet known me eph nonce sid = Ok (Some (p, keys)) → sendable p ∧ pkt_type p = HELLO_ACK.
Proof using L.
  intros [Hpk _] Hn Hsid (hello & pub & xpub & ss & _ & _ & _ & _ & _ & _ & _ & ->)%process_hello_Some.
  split; [split; [done|]|done]. cbn [pkt_payload]. unfold hello_ack_serialize. cbn.
  rewrite !length_app, Hpk, ed_public_length, x_public_length, Hn, Hsid.
  unfold identity_sign. rewrite ed_sign_length. unfold MAX_PAYLOAD_SIZE. lia.
Qed.

Lemma direct_after_endpoint t p q ep :
  table_wf t → p ∈ get_direct_peer_ids t → p ∈ get_direct_peer_ids (update_entry t q (set_endpoint ep)).
Proof using Type.
  intros Hwf (e & He & Hd)%elem_of_direct_ids; [|done]. apply elem_of_direct_ids; [by apply update_entry_wf|].
  unfold get_entry, update_entry in *. cbn. rewrite dget_dupd. case_decide; [|by exists e].
  subst q. rewrite He. cbn. eexists. by split.
Qed.

(** The datagram of a HELLO or HELLO_ACK reaches its handler. *)
Lemma handshake_delivered wire packet addr now d n n' :
  packet_deserialize wire = Ok packet →
  pkt_type packet = HELLO ∧ handle_hello packet addr now d n = (n', Ok ()) ∨
  pkt_type packet = HELLO_ACK ∧ handle_hello_ack packet addr now d n = (n', Ok ()) →
  datagram_received wire addr now d n = (n', Ok ()).
Proof using L.
  intros Hw Hc. apply (datagram_dispatched _ packet); [done| |].
  - destruct Hc as [[-> _]|[-> _]]; set_solver.
  - unfold dispatch. by destruct Hc as [[-> ?]|[-> ?]].
Qed.

Lemma joined_linked a b ra rb sa sb ea eb :
  joined a ra sa ea → joined b rb sb eb → s_session_id sb = s_session_id sa → s_encryption_key sb = s_encryption_key sa →
  length (s_session_id sa) = 8 → linked a b ra rb sa sb.
Proof using Type. intros [] [] ???. by split. Qed.

(** What an accepted HELLO and HELLO_ACK say about their sender. *)
Lemma accepted_hello_from packet known me eph nonce sid p keys :
  process_hello packet known me eph nonce sid = Ok (Some (p, keys)) →
  ∃ hello, hello_deserialize (pkt_payload packet) = Ok hello ∧
    derive_peer_id (hello_identity_public_key hello) = sk_remote_peer_id keys.
Proof using L.
  intros (hello & pub & xpub & ss & Hd & Hp & _ & _ & _ & _ & -> & _)%process_hello_Some. exists hello. split; [done|].
  destruct (hello_deserialize_lengths _ _ Hd) as (Hl & _). rewrite ed_from_public_bytes_ok in Hp by done.
  by apply Ok_inj in Hp as <-.
Qed.

Lemma accepted_ack_from packet st known keys :
  process_hello_ack packet st known = Ok (Some keys) →
  ∃ ack, hello_ack_deserialize (pkt_payload packet) = Ok ack ∧
    derive_peer_id (hack_identity_public_key ack) = sk_remote_peer_id keys.
Proof using L.
  intros (ack & pub & priv & xpub & ss & Hd & Hp & _ & _ & _ & _ & _ & ->)%process_hello_ack_Some. exists ack. split; [done|].
  destruct (hello_ack_deserialize_lengths _ _ Hd) as (Hl & _). rewrite ed_from_public_bytes_ok in Hp by done.
  by apply Ok_inj in Hp as <-.
Qed.

(** C2: connecting opens one session on both nodes.  Node [a] has [b] among its contacts, neither has a session with the
    other, and [a] connects: the HELLO that goes out, received by [b] from whatever address (known to [b] or not, and also
    when [b] has a HELLO of its own on the way and the larger peer id), is answered, and the answer, received by [a], leaves
    both with registered sessions of the same id and key, each under the other's peer id, whose counters start at what each
    side kept from before a restart, or at 1 and 0.  Both have the other as connected, with the address the datagram came
    from as its endpoint, and a row for the session in the database; [a] has nothing pending and stops repeating its HELLO.
    This is the state in which messages are exchanged, provided the numbers of the one side are above the counter the other
    side kept. *)
Theorem connection_established (a b : node) (ep_b addr_a addr_b : endpoint) (t0 t1 t2 : seconds) (da db da' : draws)
    (ss : bytes) :
  let pa := id_peer_id (n_identity a) in let pb := id_peer_id (n_identity b) in let sid := d_session_id db in
  identity_wf (n_identity a) → identity_wf (n_identity b) →
  table_wf (n_table a) → table_wf (n_table b) → pa ≠ pt_local_id (n_table b) → pb ∈ get_direct_peer_ids (n_table a) →
  ready_for a pb sid → ready_for b pa sid →
  dmem (n_pending_hello a) pb = false → dmem (n_pending_hello b) pa && bytes_ltb pb pa = false →
  length (d_ephemeral da) = 32 → length (d_nonce da) = 16 → length (d_nonce db) = 16 → length sid = 8 →
  x_exchange (d_ephemeral db) (x_public (d_ephemeral da)) = Ok ss →
  ∃ a1 hello wire b1 ack wire' a2 ra rb key,
    let sa := first_session a sid key pb t2 in let sb := first_session b sid key pa t1 in
    connect_to_peer pb ep_b t0 da a = (a1, Ok ()) ∧
    EvSend hello ep_b ∈ n_trace a1 ∧ packet_serialize hello = Ok wire ∧
    datagram_received wire addr_a t1 db b = (b1, Ok ()) ∧
    EvSend ack addr_a ∈ n_trace b1 ∧ packet_serialize ack = Ok wire' ∧
    datagram_received wire' addr_b t2 da' a1 = (a2, Ok ()) ∧
    joined a2 ra sa addr_b ∧ joined b1 rb sb addr_a ∧ linked a2 b1 ra rb sa sb ∧ linked b1 a2 rb ra sb sa ∧
    dget (n_pending_hello a2) pb = None ∧ n_hello_loops a2 !! d_hello_task da = None.
Proof using L.
  intros pa pb sid Hia Hib Hwa Hwb Hself Hin Hra Hrb Hpa Hpb He Hna Hnb Hsid Hss.
  destruct (create_hello_ok (n_identity a) (d_ephemeral da) (d_nonce da) Hia Hna) as (hello & st & Hh & Hv & Ht & Hl).
  destruct (connect_to_peer_fresh pb ep_b t0 da a hello st Hh (conj Hv Hl) (rf_peer _ _ _ Hra) Hpa)
    as (ps & tr & tasks & loops & Ec & Htr & _ & Htask).
  match type of Ec with _ = (?m, _) => set (a1 := m) in * end.
  assert (pb ∈ get_direct_peer_ids (n_table a1)) as Hin1 by (by apply direct_after_endpoint).
  destruct (hello_exchange (n_identity a) (n_identity b) (get_direct_peer_ids (n_table a1)) {[pa]} (d_ephemeral da)
    (d_nonce da) (d_ephemeral db) (d_nonce db) sid ss Hia Hib Hin1)
    as (hello' & st' & ack & ka & kb & Hh' & Hph & Hpack & Hkey & Hsa & Hsb & Hka & Hkb); [set_solver|done..|].
  rewrite Hh in Hh'. apply Ok_inj in Hh' as [= <- <-].
  destruct (answer_sendable _ _ _ _ _ _ _ _ Hib Hnb Hsid Hph) as [Hsend Htype].
  destruct (sendable_wire hello (conj Hv Hl)) as (wire & Hw & Hwd). destruct (sendable_wire ack Hsend) as (wire' & Hw' & Hwd').
  destruct (accepted_hello_from _ _ _ _ _ _ _ _ Hph) as (h & Hhd & Hhp). rewrite Hkb in Hhp.
  destruct (accepted_ack_from _ _ _ _ Hpack) as (k & Hkd & Hkp). rewrite Hka in Hkp.
  destruct (hello_answered b hello addr_a t1 db h ack kb) as (b1 & rb & Eb & Jb & Hsent); rewrite ?Hhp; try done.
  { intros known Hk. apply (process_hello_known _ {[pa]}); [done|]. by rewrite Hkb. }
  rewrite Hhp in Jb.
  destruct (hello_ack_accepted a1 ack addr_b t2 da' k (mkHandshakeState (hs_ephemeral_private_key_bytes st)
    (hs_ephemeral_public_key_bytes st) (hs_local_nonce st) (Some pb)) ka (d_hello_task da)) as (a2 & ra & Ea & Ja & Hlp & Hnp);
    rewrite ?Hkp, ?Hsa; try done.
  { by apply update_entry_wf. } { by apply (ready_frame a). } { apply dget_dset_eq. }
  rewrite Hkp, Hsa, (first_session_frame a) in Ja by done. rewrite Hsb in Jb. rewrite Hkey in Ja. rewrite Hkp in Hnp.
  destruct (first_session_ids a sid (sk_encryption_key kb) pb t2) as (A1 & A2 & _).
  destruct (first_session_ids b sid (sk_encryption_key kb) pa t1) as (B1 & B2 & _).
  exists a1, hello, wire, b1, ack, wire', a2, ra, rb, (sk_encryption_key kb). cbv zeta.
  split_and!; try done.
  - apply (handshake_delivered _ hello); [done|]. by left.
  - apply (handshake_delivered _ ack); [done|]. by right.
  - by apply (joined_linked _ _ _ _ _ _ addr_b addr_a); rewrite ?A1, ?A2, ?B1, ?B2.
  - by apply (joined_linked _ _ _ _ _ _ addr_a addr_b); rewrite ?A1, ?A2, ?B1, ?B2.
Qed.
End connect.

(** ** Example: the receiver does not know the initiator, which has kept counters *)

Module ConnectExample.
Import ToyCrypto NodeExample.

Definition stranger : node :=
  set_n_sequence_floors [(id_peer_id bob, (12, 3)%Z)]
    (let n := fresh_node alice 4001 8 (new_message_log 50 5) empty_db ∅ ∅ (secs 0) in
     set_n_table (add_direct_peer (n_table n) (id_peer_id bob) (id_public_key bob) None (Some addr_bob) (secs 0)) n).

Definition listener : node := fresh_node bob 4002 8 (new_message_log 50 5) empty_db ∅ ∅ (secs 0).

Lemma connection_established_witness :
  ∃ a2 b1 ra rb key, joined a2 ra (first_session stranger (d_session_id drawn) key (id_peer_id bob) (secs 3)) addr_bob ∧
    joined b1 rb (new_session (d_session_id drawn) key (id_peer_id alice) (secs 2)) addr_alice ∧
    s_send_sequence (first_session stranger (d_session_id drawn) key (id_peer_id bob) (secs 3)) = 12%Z.
Proof.
  destruct (connection_established stranger listener addr_bob addr_alice addr_bob (secs 1) (secs 2) (secs 3) drawn drawn drawn
    (default [] (match x_exchange (d_ephemeral drawn) (x_public (d_ephemeral drawn)) with Ok x => Some x | _ => None end)))
    as (a1 & hello & wire & b1 & ack & wire' & a2 & ra & rb & key & _ & _ & _ & _ & _ & _ & _ & Ja & Jb & _).
  - by split.
  - by split.
  - apply add_direct_peer_wf. split; [by apply NoDup_nil_2|]. cbn. set_solver.
  - split; [by apply NoDup_nil_2|]. cbn. set_solver.
  - vm_compute. discriminate.
  - vm_compute. set_solver.
  - split; try done; [apply empty_registry_inv|cbn; unfold MAX_SESSIONS; lia|].
    intros a b. cbn [n_sequence_floors stranger set_n_sequence_floors dget]. rewrite decide_True by done. intros [= <- <-]. lia.
  - split; try done; [apply empty_registry_inv|cbn; unfold MAX_SESSIONS; lia].
  - done.
  - done.
  - done.
  - done.
  - done.
  - done.
  - vm_compute. reflexivity.
  - exists a2, b1, ra, rb, key. split_and!; [exact Ja|exact Jb|reflexivity].
Defined.
End ConnectExample.
