(* ===== verification/UiState.v ===== *)
(** * The user interface: its state and the monad of its code (ui/tui.py, ui/components.py)

    [App] is the state of the application: the node it shows, the configuration and the files its dialogs work on, the
    two widgets, the callbacks handed to [call_later], the worker that refreshes the contacts, and the stack of modal
    dialogs.  The code of a handler is a computation [U A]; an exception that leaves it is a [Raise], and what was changed
    before stays changed.  A text put on the screen of a dialog is a constructor with the values it shows. *)

From S2P Require Import Prelude Bytes PyDict PyText PyCase Disk Toml Config Crypto Overlay PeerState Storage Invite.
From S2P Require Import QueueManager NodeState Node Sidebar ChatView.

(** ** Dialogs *)

Inductive invite_state := InvMenu | InvFetching | InvConfirm | InvWait | InvAccept.

Inductive invite_text :=
| InvMenuText
| InvInvalidOption (cmd : pystr)
| InvDetecting
| InvConfirmText (ip : pystr)
| InvNoNode
| InvPrompt
| InvGenerated (ip : pystr) (port : scalar) (copied : bool) (c85 c32 : pystr)
| InvGenerateFailed (e : exn)
| InvAdded (r : ContactAddResult)
| InvError (e : exn)
| InvInvalidCode (e : exn).

Record InviteDialog := mkInviteDialog { iv_state : invite_state; iv_out : invite_text; iv_input : pystr }.

Inductive profile_state := PfMenu | PfSetNick | PfWait.

Inductive profile_text :=
| PfMenuText (nickname fingerprint peer public_key : pystr)
| PfPrompt
| PfClearFailed (e : exn)
| PfInvalidOption
| PfInvalidNickname (e : exn).

Record ProfileDialog := mkProfileDialog { pf_state : profile_state; pf_out : profile_text }.

Inductive setting := S_udp_port | S_max_peers | S_overlay_k | S_message_log_limit_mb | S_max_log_rotations | S_log_level.
#[export] Instance setting_eq_dec : EqDecision setting.
Proof. solve_decision. Defined.

Inductive settings_state := StMenu | StEdit | StWait.

(** [self._draft], [self._original] *)
Record draft := mkDraft {
  dr_udp_port : scalar; dr_max_peers : scalar; dr_overlay_k : scalar;
  dr_message_log_limit_mb : scalar; dr_max_log_rotations : scalar; dr_log_level : scalar }.

#[export] Instance draft_eq_dec : EqDecision draft.
Proof. solve_decision. Defined.

Inductive settings_error := LevelError | PortError | PositiveError (k : setting) | NumericError.

Inductive settings_text :=
| StMenuText (d : draft) (pending_restart : bool)
| StPrompt (k : setting)
| StSaveFailed (e : exn)
| StInvalidOption
| StInvalidValue (e : settings_error).

Record SettingsDialog := mkSettingsDialog {
  sd_state : settings_state; sd_edit_key : option setting; sd_base_dir : pystr;
  sd_draft : draft; sd_original : draft; sd_out : settings_text }.

Inductive manage_state := PmMenu | PmRename | PmDelete | PmWait.

Inductive manage_text :=
| PmMenuText (name short : pystr) (archived : bool)
| PmAskName
| PmAskDelete
| PmInvalidOption
| PmEmptyName
| PmCancelled.

Record PeerManageDialog := mkManageDialog {
  pm_peer_id : bytes; pm_peer_name : pystr; pm_archived : bool; pm_state : manage_state; pm_out : manage_text }.

Inductive dialog :=
| DInvite (d : InviteDialog)
| DProfile (d : ProfileDialog)
| DSettings (d : SettingsDialog)
| DManage (d : PeerManageDialog)
| DQuit (undelivered_count : nat).

(** ** The application *)

(** A callback handed to [call_later]. *)
Inductive later :=
| LIncoming (peer_id plaintext : bytes)
| LState (peer_id : bytes) (new : PeerState)
| LPeersChanged
| LConnection (message : pystr).

(** The refresh worker: started, or back from the database with the contacts. *)
Inductive worker :=
| WStarted
| WLoaded (peers : list PeerRecord).

Record App := mkApp {
  app_node : option node;
  app_config : AshiChatConfig;        (* node.config *)
  app_disk : disk;
  app_subscribed : bool;              (* the callbacks are registered *)
  app_active : option bytes;          (* _active_peer_id *)
  app_sidebar : Sidebar;
  app_chat : ChatView;
  app_later : list later;
  app_worker : option worker;
  app_screens : list dialog;
  app_exited : bool }.

Definition set_app_node (x : option node) (a : App) : App :=
  mkApp x (app_config a) (app_disk a) (app_subscribed a) (app_active a) (app_sidebar a) (app_chat a) (app_later a)
    (app_worker a) (app_screens a) (app_exited a).
Definition set_app_config (x : AshiChatConfig) (a : App) : App :=
  mkApp (app_node a) x (app_disk a) (app_subscribed a) (app_active a) (app_sidebar a) (app_chat a) (app_later a)
    (app_worker a) (app_screens a) (app_exited a).
Definition set_app_disk (x : disk) (a : App) : App :=
  mkApp (app_node a) (app_config a) x (app_subscribed a) (app_active a) (app_sidebar a) (app_chat a) (app_later a)
    (app_worker a) (app_screens a) (app_exited a).
Definition set_app_subscribed (x : bool) (a : App) : App :=
  mkApp (app_node a) (app_config a) (app_disk a) x (app_active a) (app_sidebar a) (app_chat a) (app_later a)
    (app_worker a) (app_screens a) (app_exited a).
Definition set_app_active (x : option bytes) (a : App) : App :=
  mkApp (app_node a) (app_config a) (app_disk a) (app_subscribed a) x (app_sidebar a) (app_chat a) (app_later a)
    (app_worker a) (app_screens a) (app_exited a).
Definition set_app_sidebar (x : Sidebar) (a : App) : App :=
  mkApp (app_node a) (app_config a) (app_disk a) (app_subscribed a) (app_active a) x (app_chat a) (app_later a)
    (app_worker a) (app_screens a) (app_exited a).
Definition set_app_chat (x : ChatView) (a : App) : App :=
  mkApp (app_node a) (app_config a) (app_disk a) (app_subscribed a) (app_active a) (app_sidebar a) x (app_later a)
    (app_worker a) (app_screens a) (app_exited a).
Definition set_app_later (x : list later) (a : App) : App :=
  mkApp (app_node a) (app_config a) (app_disk a) (app_subscribed a) (app_active a) (app_sidebar a) (app_chat a) x
    (app_worker a) (app_screens a) (app_exited a).
Definition set_app_worker (x : option worker) (a : App) : App :=
  mkApp (app_node a) (app_config a) (app_disk a) (app_subscribed a) (app_active a) (app_sidebar a) (app_chat a)
    (app_later a) x (app_screens a) (app_exited a).
Definition set_app_screens (x : list dialog) (a : App) : App :=
  mkApp (app_node a) (app_config a) (app_disk a) (app_subscribed a) (app_active a) (app_sidebar a) (app_chat a)
    (app_later a) (app_worker a) x (app_exited a).
Definition set_app_exited (x : bool) (a : App) : App :=
  mkApp (app_node a) (app_config a) (app_disk a) (app_subscribed a) (app_active a) (app_sidebar a) (app_chat a)
    (app_later a) (app_worker a) (app_screens a) x.

(** ** The monad *)

Definition U (A : Type) : Type := App → App * result A.

#[export] Instance U_ret : MRet U := fun A x a => (a, Ok x).
#[export] Instance U_bind : MBind U := fun A B k c a =>
  match c a with
  | (a', Ok x) => k x a'
  | (a', Raise e) => (a', Raise e)
  end.

Definition u_gets {A} (f : App → A) : U A := λ a, (a, Ok (f a)).
Definition u_modify (f : App → App) : U () := λ a, (f a, Ok ()).
Definition u_raise {A} (e : exn) : U A := λ a, (a, Raise e).

(** [try: c except Exception as e: h e] *)
Definition u_try {A} (c : U A) (h : exn → U A) : U A := λ a,
  match c a with
  | (a', Raise e) => h e a'
  | r => r
  end.

Definition u_sidebar (f : Sidebar → Sidebar) : U () := u_modify (λ a, set_app_sidebar (f (app_sidebar a)) a).
Definition u_chat (f : ChatView → ChatView) : U () := u_modify (λ a, set_app_chat (f (app_chat a)) a).

(** The number under which the application's callback is registered with the peer states. *)
Definition APP_CALLBACK : nat := 0.

(** [_handle_incoming], [_handle_state_change], [_handle_peers_changed], [_handle_connection_event]: what each
    notification of the node passes to [call_later] *)
Definition later_of (ev : event) : list later :=
  match ev with
  | EvMessage peer_id plaintext => [LIncoming peer_id plaintext]
  | EvState e => if ev_callback e =?b APP_CALLBACK then [LState (ev_peer e) (ev_new e)] else []
  | EvPeersChanged => [LPeersChanged]
  | EvConnection message => [LConnection message]
  | _ => []
  end.

(** The events a run of node code added to the trace, delivered in order. *)
Definition deliver (evs : list event) (a : App) : App :=
  if app_subscribed a then set_app_later (app_later a ++ (evs ≫= later_of)) a else a.

(** [await app.node.method(...)] *)
Definition node_call {A} (c : M A) : U A := λ a,
  match app_node a with
  | None => (a, Raise AttributeError)
  | Some n =>
      let '(n', r) := c n in
      (deliver (drop (length (n_trace n)) (n_trace n')) (set_app_node (Some n') a), r)
  end.

(** A call of config.py. *)
Definition disk_call {A} (c : IO A) : U A := λ a,
  let '(d', r) := c (app_disk a) in (set_app_disk d' a, r).

(** ** Relations between the states before and after *)

(** Whatever happens in [u], the state it ends in is related to the one it began in. *)
Definition moves {A} (R : App → App → Prop) (u : U A) : Prop := ∀ a, R a (u a).1.

Section moves.
Context (R : App → App → Prop) `{!PreOrder R}.

Lemma moves_bind {A B} (u : U A) (k : A → U B) : moves R u → (∀ x, moves R (k x)) → moves R (u ≫= k).
Proof using PreOrder0.
  intros Hu Hk a. specialize (Hu a). unfold mbind, U_bind. destruct (u a) as [a' [x|e]]; [|done].
  etrans; [exact Hu|apply Hk].
Qed.

Lemma moves_try {A} (u : U A) (h : exn → U A) : moves R u → (∀ e, moves R (h e)) → moves R (u_try u h).
Proof using PreOrder0.
  intros Hu Hh a. specialize (Hu a). unfold u_try. destruct (u a) as [a' [x|e]]; [done|].
  etrans; [exact Hu|apply Hh].
Qed.

Lemma moves_same {A} (u : U A) : (∀ a, (u a).1 = a) → moves R u.
Proof using PreOrder0. intros H a. by rewrite H. Qed.
End moves.

(** An invariant as a relation. *)
Definition keeps (P : App → Prop) (a a' : App) : Prop := P a → P a'.

#[export] Instance keeps_preorder P : PreOrder (keeps P).
Proof. split; [by intros ? ?|intros ? ? ? H1 H2 ?; by apply H2, H1]. Qed.

Create HintDb ui.

(** [moves_step] follows the structure of a computation; the database [ui] knows its parts. *)
Ltac moves_step :=
  repeat first [ solve [auto with ui] | apply moves_bind; [apply _| |intros ?] | apply moves_try; [apply _| |intros ?]
               | progress cbv zeta | case_match ].
