(* ===== verification/UiApp.v ===== *)
(** * The application (ui/tui.py, and [MessageInput] of ui/components.py)

    The callbacks of the node, the refresh of the contacts from the database (a worker: it starts, reads, and then
    replaces the contact list), selection, sending, and the key bindings.  [ts] is the wall clock as [HH:MM]. *)

From S2P Require Import Prelude Bytes PyDict PyText Utf8 PyCase Disk Toml Config Crypto Overlay PeerState Storage.
From S2P Require Import QueueManager NodeState Node Sidebar ChatView UiState.

Section app.
Context `{CM : CaseMap} `{C : CryptoLib}.

(** [_set_active_peer(peer_id)] *)
Definition app_set_active_peer (peer_id : option bytes) : U () :=
  u_modify (set_app_active peer_id) ;;
  name ← u_gets (λ a, get_active_peer_name (app_sidebar a));
  u_chat (cv_set_active_peer peer_id name) ;;
  match peer_id with
  | Some (b :: p) => u_sidebar (clear_unread (b :: p))
  | _ => mret ()
  end.

(** [_do_handle_incoming(peer_id, plaintext)] *)
Definition do_handle_incoming (peer_id plaintext : bytes) (ts : pystr) : U () := λ a,
  match utf8_decode true plaintext with
  | Ok text =>
      let a := set_app_chat (add_message peer_id text true ts (app_chat a)) a in
      (if sb_active (app_sidebar a) =?b Some peer_id then a
       else set_app_sidebar (increment_unread peer_id (app_sidebar a)) a, Ok ())
  | Raise e => (a, Raise e)
  end.

(** [_schedule_peer_refresh]: the worker is exclusive, a new one replaces the one that runs *)
Definition schedule_peer_refresh : U () := u_modify (λ a,
  match app_node a with Some _ => set_app_worker (Some WStarted) a | None => a end).

(** One callback of [call_later]. *)
Definition run_later (l : later) (ts : pystr) : U () :=
  match l with
  | LIncoming peer_id plaintext => do_handle_incoming peer_id plaintext ts
  | LState peer_id new => u_sidebar (update_peer_state peer_id (peer_state_value new))
  | LPeersChanged => schedule_peer_refresh
  | LConnection message => u_chat (add_system_message message ts)
  end.

(** The event loop takes the next callback. *)
Definition next_later (ts : pystr) : U () := λ a,
  match app_later a with
  | [] => (a, Ok ())
  | l :: ls => run_later l ts (set_app_later ls a)
  end.

(** An entry of [rebuilt] *)
Definition peer_row_of (n : node) (p : PeerRecord) : peer_row :=
  mkRow (pr_peer_id p)
    (match pr_nickname p with Some (c :: s) => c :: s | _ => short_id (pr_peer_id p) end)
    (peer_state_value (get_state (n_peer_states n) (pr_peer_id p))) None (pr_archived p).

(** [refresh_peers_from_node], after [get_known_peers()] has returned [peers] *)
Definition refresh_with (peers : list PeerRecord) : U () := λ a,
  match app_node a with
  | None => (a, Ok ())
  | Some n =>
      let s := replace_peers (peer_row_of n <$> peers) (app_sidebar a) in
      app_set_active_peer (sb_active s) (set_app_sidebar s a)
  end.

(** [await self.refresh_peers_from_node()] run to its end *)
Definition refresh_peers_from_node : U () := λ a,
  match app_node a with
  | None => (a, Ok ())
  | Some n => refresh_with (db_get_all_peers (n_db n)) a
  end.

(** The worker goes on: first the database answers, then the list is replaced. *)
Definition worker_step : U () := λ a,
  match app_worker a, app_node a with
  | Some WStarted, Some n => (set_app_worker (Some (WLoaded (db_get_all_peers (n_db n)))) a, Ok ())
  | Some (WLoaded peers), _ => refresh_with peers (set_app_worker None a)
  | _, _ => (a, Ok ())
  end.

(** [on_mount] *)
Definition app_on_mount (ts : pystr) : U () := λ a,
  let a := set_app_chat (mount_chat_view (app_chat a)) (set_app_sidebar (mount_sidebar (app_sidebar a)) a) in
  match app_node a with
  | Some n =>
      refresh_peers_from_node (set_app_subscribed true
        (set_app_node (Some (set_n_peer_states (on_state_change (n_peer_states n) APP_CALLBACK) n)) a))
  | None => u_chat (add_system_message (str "Node not attached.") ts) a
  end.

(** Selecting a contact: the sidebar posts [PeerSelected], [on_sidebar_peer_selected] handles it. *)
Definition select_peer (idx : option nat) : U () := λ a,
  let '(s, posted) := on_list_view_selected idx (app_sidebar a) in
  match posted with
  | Some peer_id => app_set_active_peer (Some peer_id) (set_app_sidebar s a)
  | None => (set_app_sidebar s a, Ok ())
  end.

Definition search (value : pystr) : U () := u_sidebar (on_search_changed value).

(** [MessageInput.on_input_submitted(event)]; when the address of the peer is not known the node waits for its
    resolution and goes on in [message_resolved] *)
Definition message_submitted (value : pystr) (now : seconds) (ts : pystr) (d : draws) : U () := λ a,
  let text := str_strip value in
  if text =?b [] then (a, Ok ()) else
  match app_node a with
  | None => (a, Ok ())
  | Some _ =>
      match app_active a with
      | None => u_chat (add_system_message (str "Select a contact first.") ts) a
      | Some peer_id =>
          (u_chat (add_message peer_id text false ts) ;;
           u_try (node_call (send_message peer_id text now d) ;; mret ())
             (λ _, u_chat (add_system_message (str "Failed to send message.") ts))) a
      end
  end.

Definition message_resolved (peer_id : bytes) (fut : nat) (now : seconds) (ts : pystr) (d : draws) : U () :=
  u_try (node_call (send_message_resolved peer_id fut now d))
    (λ _, u_chat (add_system_message (str "Failed to send message.") ts)).

Definition push_screen (s : dialog) : U () := u_modify (λ a, set_app_screens (s :: app_screens a) a).

(** [action_manage_peer] *)
Definition action_manage_peer (ts : pystr) : U () := λ a,
  match sb_active (app_sidebar a) with
  | Some (b :: p) =>
      let peer_id := b :: p in
      let archived := match app_node a with
                      | Some n => get_state (n_peer_states n) peer_id =?b ARCHIVED
                      | None => false
                      end in
      let name := match get_active_peer_name (app_sidebar a) with
                  | Some (c :: s) => c :: s
                  | _ => short_id peer_id
                  end in
      push_screen (DManage (mkManageDialog peer_id name archived PmMenu (PmMenuText name (short_id peer_id) archived))) a
  | _ => u_chat (add_system_message (str "No active contact to manage.") ts) a
  end.

(** [action_request_quit] *)
Definition action_request_quit : U () := λ a,
  let undelivered := match app_node a with Some n => undelivered_count (n_queue n) | None => 0 end in
  if (undelivered <=? 0)%nat then (set_app_exited true a, Ok ())
  else push_screen (DQuit undelivered) a.

(** Something the node does on its own (a datagram, a background loop), with its notifications. *)
Definition node_runs {A} (c : M A) : U () := λ a, ((node_call c a).1, Ok ()).
End app.
