(* ===== verification/UiDialogs.v ===== *)
(** * The dialogs (ui/components.py)

    Invites, profile, settings, one contact, and the question before quitting.  A dialog reads lines: [..._submitted]
    is its [on_input_submitted] with the text of the input, on the dialog that is on top.  [home] is
    [Path.home() / ".ashichat"], used when there is no node.  The port of an invite is the one of the configuration.
    An exception that leaves a handler is a [Raise]; the changes made before stay. *)

From S2P Require Import Prelude Bytes PyDict PyText Utf8 PyCase Disk Toml Config Crypto Overlay PeerState Storage Invite.
From S2P Require Import QueueManager NodeState Node Sidebar ChatView UiState UiApp.

Section dialogs.
Context `{CM : CaseMap} `{C : CryptoLib}.
Variable home : pystr.

(** The dialog on top is replaced by its new state. *)
Definition set_top (s : dialog) : U () := u_modify (λ a,
  match app_screens a with [] => a | _ :: ss => set_app_screens (s :: ss) a end).

Definition pop_screen : U () := u_modify (λ a, set_app_screens (tail (app_screens a)) a).

(** [dismiss()] of a dialog opened with [_on_dialog_dismiss] *)
Definition dismiss : U () := pop_screen ;; schedule_peer_refresh.

(** [_get_base_dir()] *)
Definition get_base_dir (a : App) : pystr :=
  match app_node a with Some _ => cfg_base_dir (app_config a) | None => home end.

(** [_guess_local_endpoint(app)]; [outbound] is the address of a socket connected to 8.8.8.8 and [host] that of the host
    name, or [None] when the call fails *)
Definition guess_local_endpoint (outbound host : option pystr) (a : App) : option (pystr * scalar) :=
  let loopback o := match o with None | Some [] => true | Some ip => str_startswith (str "127.") ip end in
  match app_node a with
  | None => None
  | Some _ =>
      let ip := if loopback outbound then host else outbound in
      if loopback ip then None else ip ≫= λ ip, Some (ip, udp_port (cfg_network (app_config a)))
  end.

(** ** InviteDialog *)

(** [action_show_invite] *)
Definition action_show_invite : U () := push_screen (DInvite (mkInviteDialog InvMenu InvMenuText [])).

(** What [CONFIRM_IP] generates for the address typed: the two codes, or the exception *)
Definition invite_codes (public_key : bytes) (ip : pystr) (port : scalar) : result (pystr * pystr) :=
  ep ← (if ip =?b [] then Ok None else p ← scalar_int port; Ok (Some (ip, p)));
  c85 ← generate_invite public_key ep;
  c32 ← generate_invite_readable public_key ep;
  Ok (c85, c32).

(** [on_input_submitted]; [copied] says whether copying to the clipboard succeeds.  In [FETCHING] no branch applies. *)
Definition invite_submitted (d : InviteDialog) (value : pystr) (copied : bool) (now : seconds) (dr : draws) : U () :=
  let cmd := str_strip value in
  let show st out := set_top (DInvite (mkInviteDialog st out [])) in
  match iv_state d with
  | InvMenu =>
      if cmd =?b str "1" then
        attached ← u_gets (λ a, bool_decide (is_Some (app_node a)));
        if (attached : bool) then show InvFetching InvDetecting else show InvWait InvNoNode
      else if cmd =?b str "2" then show InvAccept InvPrompt
      else if cmd =?b str "3" then dismiss
      else show InvMenu (InvInvalidOption cmd)
  | InvFetching => mret ()
  | InvConfirm =>
      node ← u_gets app_node;
      port ← u_gets (λ a, udp_port (cfg_network (app_config a)));
      match node with
      | None => u_raise AttributeError
      | Some n =>
          match invite_codes (id_public_key (n_identity n)) cmd port with
          | Ok (c85, c32) => show InvWait (InvGenerated cmd port copied c85 c32)
          | Raise e => show InvWait (InvGenerateFailed e)
          end
      end
  | InvWait => show InvMenu InvMenuText
  | InvAccept =>
      if cmd =?b [] then show InvMenu InvMenuText else
      node ← u_gets app_node;
      match node with
      | None => show InvWait InvNoNode
      | Some _ =>
          u_try (r ← node_call (add_contact_from_invite cmd now dr); show InvWait (InvAdded r))
            (λ e, show InvWait (match e with ValueError | UnicodeError => InvError e | _ => InvInvalidCode e end))
      end
  end.

(** The address service has answered (or failed: an empty text) while the dialog at [i] waits. *)
Definition invite_fetched (i : nat) (ip : pystr) : U () := u_modify (λ a,
  match app_screens a !! i with
  | Some (DInvite (mkInviteDialog InvFetching _ _)) =>
      set_app_screens (<[i := DInvite (mkInviteDialog InvConfirm (InvConfirmText ip) ip)]> (app_screens a)) a
  | _ => a
  end).

(** ** ProfileDialog *)

(** [_refresh_menu] *)
Definition profile_refresh (st : profile_state) : U () :=
  base ← u_gets get_base_dir;
  cfg ← disk_call (load_config base);
  ids ← u_gets (λ a, match app_node a with
                     | Some n => let i := n_identity n in
                         (fingerprint (id_peer_id i), bytes_hex (id_peer_id i), bytes_hex (id_public_key i))
                     | None => (str "N/A", str "N/A", str "N/A")
                     end);
  let '(fp, peer, pub) := ids in
  let nickname := match nickname (cfg_profile cfg) with [] => str "(unset)" | n => n end in
  set_top (DProfile (mkProfileDialog st (PfMenuText nickname fp peer pub))).

(** [action_show_profile] and [on_mount] *)
Definition action_show_profile : U () :=
  push_screen (DProfile (mkProfileDialog PfMenu (PfMenuText [] [] [] []))) ;; profile_refresh PfMenu.

(** [update_config(self._get_base_dir(), profile=ProfileConfig(nickname=...))] *)
Definition store_nickname (nickname : pystr) : U () :=
  base ← u_gets get_base_dir;
  disk_call (update_config base None None None (Some (mkProfile nickname))) ;; mret ().

Definition profile_submitted (d : ProfileDialog) (value : pystr) : U () :=
  let cmd := str_strip value in
  let show st out := set_top (DProfile (mkProfileDialog st out)) in
  match pf_state d with
  | PfMenu =>
      if cmd =?b str "1" then show PfSetNick PfPrompt
      else if cmd =?b str "2" then
        u_try (store_nickname [] ;; profile_refresh PfMenu) (λ e, show PfWait (PfClearFailed e))
      else if cmd =?b str "3" then dismiss
      else show PfWait PfInvalidOption
  | PfSetNick =>
      u_try (store_nickname cmd ;; profile_refresh PfMenu) (λ e, show PfWait (PfInvalidNickname e))
  | PfWait => set_top (DProfile (mkProfileDialog PfMenu (pf_out d))) ;; profile_refresh PfMenu
  end.

(** ** SettingsDialog *)

Definition draft_get (d : draft) (k : setting) : scalar :=
  match k with
  | S_udp_port => dr_udp_port d | S_max_peers => dr_max_peers d | S_overlay_k => dr_overlay_k d
  | S_message_log_limit_mb => dr_message_log_limit_mb d | S_max_log_rotations => dr_max_log_rotations d
  | S_log_level => dr_log_level d
  end.

(** [self._draft[key] = value] *)
Definition draft_set (d : draft) (k : setting) (v : scalar) : draft :=
  let f k' x := if decide (k = k') then v else x in
  mkDraft (f S_udp_port (dr_udp_port d)) (f S_max_peers (dr_max_peers d)) (f S_overlay_k (dr_overlay_k d))
    (f S_message_log_limit_mb (dr_message_log_limit_mb d)) (f S_max_log_rotations (dr_max_log_rotations d))
    (f S_log_level (dr_log_level d)).

Definition all_settings : list setting :=
  [S_udp_port; S_max_peers; S_overlay_k; S_message_log_limit_mb; S_max_log_rotations; S_log_level].

(** [v == w]: a boolean equals the number it is *)
Definition scalar_pyeq (v w : scalar) : bool :=
  match v, w with
  | SStr s, SStr t => s =?b t
  | _, _ => match scalar_int v, scalar_int w with Ok n, Ok m => (n =? m)%Z | _, _ => false end
  end.

(** [_has_changes()] *)
Definition has_changes (d o : draft) : bool :=
  negb (forallb (λ k, scalar_pyeq (draft_get d k) (draft_get o k)) all_settings).

(** [_validate_value(key, value)] *)
Definition validate_value (key : setting) (value : pystr) : settings_error + scalar :=
  match key with
  | S_log_level =>
      let lv := str_upper value in
      if bool_decide (lv ∈ LOG_LEVELS) then inr (SStr lv) else inl LevelError
  | _ =>
      match py_int value with
      | Raise _ => inl NumericError
      | Ok iv =>
          if (key =?b S_udp_port) && negb ((1 <=? iv) && (iv <=? 65535))%Z then inl PortError
          else if (key ∈?b [S_max_peers; S_overlay_k; S_message_log_limit_mb; S_max_log_rotations]) && (iv <? 1)%Z
          then inl (PositiveError key)
          else inr (SInt iv)
      end
  end.

(** The draft [on_mount] takes from the configuration. *)
Definition draft_of (c : AshiChatConfig) : draft :=
  mkDraft (udp_port (cfg_network c)) (max_peers (cfg_network c)) (overlay_k (cfg_network c))
    (message_log_limit_mb (cfg_storage c)) (max_log_rotations (cfg_storage c)) (SStr (log_level (cfg_debug c))).

(** [_refresh_menu] *)
Definition settings_menu (d : SettingsDialog) : SettingsDialog :=
  mkSettingsDialog (sd_state d) (sd_edit_key d) (sd_base_dir d) (sd_draft d) (sd_original d)
    (StMenuText (sd_draft d) (has_changes (sd_draft d) (sd_original d))).

(** [action_show_settings] and [on_mount] *)
Definition action_show_settings : U () :=
  base ← u_gets get_base_dir;
  cfg ← disk_call (load_config base);
  let dr := draft_of cfg in
  push_screen (DSettings (settings_menu (mkSettingsDialog StMenu None base dr dr StInvalidOption))).

(** [int(v)] *)
Definition scalar_to_int (v : scalar) : result Z :=
  match v with SInt n => Ok n | SBool b => Ok (Z.b2z b) | SStr s => py_int s end.

(** The arguments of the call of [update_config] that saves a draft. *)
Definition draft_sections (d : draft) : result (NetworkConfig * StorageConfig * DebugConfig) :=
  p ← scalar_to_int (dr_udp_port d);
  m ← scalar_to_int (dr_max_peers d);
  k ← scalar_to_int (dr_overlay_k d);
  l ← scalar_to_int (dr_message_log_limit_mb d);
  r ← scalar_to_int (dr_max_log_rotations d);
  Ok (mkNetwork (SInt p) (SInt m) (SInt k), mkStorage (SInt l) (SInt r),
      mkDebug (str_upper (scalar_str (dr_log_level d)))).

(** Option 7 up to [dismiss()] *)
Definition save_draft (base : pystr) (d : draft) : U () :=
  current ← disk_call (load_config base);
  sections ← (λ a, (a, draft_sections d) : App * result (NetworkConfig * StorageConfig * DebugConfig));
  let '(n, s, g) := sections in
  new_cfg ← disk_call (update_config base (Some n) (Some s) (Some g) (Some (cfg_profile current)));
  u_modify (λ a, match app_node a with Some _ => set_app_config new_cfg a | None => a end).

(** [field_map] *)
Definition field_of (cmd : pystr) : option setting :=
  dget [(str "1", S_udp_port); (str "2", S_max_peers); (str "3", S_overlay_k); (str "4", S_message_log_limit_mb);
        (str "5", S_max_log_rotations); (str "6", S_log_level)] cmd.

Definition settings_submitted (d : SettingsDialog) (value : pystr) : U () :=
  let cmd := str_strip value in
  let with_ st key dr out := mkSettingsDialog st key (sd_base_dir d) dr (sd_original d) out in
  let show st key out := set_top (DSettings (with_ st key (sd_draft d) out)) in
  match sd_state d with
  | StMenu =>
      match field_of cmd with
      | Some k => show StEdit (Some k) (StPrompt k)
      | None =>
          if cmd =?b str "7" then
            u_try (save_draft (sd_base_dir d) (sd_draft d) ;; dismiss)
              (λ e, show StWait (sd_edit_key d) (StSaveFailed e))
          else if cmd =?b str "8" then dismiss
          else show StWait (sd_edit_key d) StInvalidOption
      end
  | StEdit =>
      match sd_edit_key d with
      | None => u_raise AssertionError
      | Some k =>
          match validate_value k cmd with
          | inl err => show StWait (Some k) (StInvalidValue err)
          | inr v => set_top (DSettings (settings_menu (with_ StMenu None (draft_set (sd_draft d) k v) (sd_out d))))
          end
      end
  | StWait => set_top (DSettings (settings_menu (with_ StMenu (sd_edit_key d) (sd_draft d) (sd_out d))))
  end.

(** ** PeerManageDialog *)

Definition manage_submitted (d : PeerManageDialog) (value : pystr) (now : seconds) : U () :=
  let cmd := str_strip value in
  let peer_id := pm_peer_id d in
  let with_ arch st out := DManage (mkManageDialog peer_id (pm_peer_name d) arch st out) in
  let show st out := set_top (with_ (pm_archived d) st out) in
  let menu arch := set_top (with_ arch PmMenu (PmMenuText (pm_peer_name d) (short_id peer_id) arch)) in
  node ← u_gets app_node;
  match pm_state d with
  | PmMenu =>
      if cmd =?b str "1" then show PmRename PmAskName
      else if cmd =?b str "2" then
        match node with
        | None => dismiss
        | Some _ =>
            let arch := negb (pm_archived d) in
            node_call (set_peer_archived peer_id arch now) ;;
            set_top (with_ arch PmMenu (pm_out d)) ;;
            refresh_peers_from_node ;;
            menu arch
        end
      else if cmd =?b str "3" then show PmDelete PmAskDelete
      else if cmd =?b str "4" then dismiss
      else show PmWait PmInvalidOption
  | PmRename =>
      if cmd =?b [] then show PmWait PmEmptyName else
      match node with
      | None => dismiss
      | Some _ => node_call (rename_peer peer_id cmd) ;; refresh_peers_from_node ;; dismiss
      end
  | PmDelete =>
      if cmd =?b str "DELETE" then
        match node with
        | None => dismiss
        | Some _ => node_call (node_remove_peer peer_id) ;; refresh_peers_from_node ;; dismiss
        end
      else show PmWait PmCancelled
  | PmWait => menu (pm_archived d)
  end.

(** ** QuitConfirmDialog *)

(** [on_input_submitted], then [on_quit_result] *)
Definition quit_submitted (value : pystr) : U () :=
  pop_screen ;;
  if str_strip value =?b str "1" then u_modify (set_app_exited true) else mret ().

(** A line submitted to the dialog on top. *)
Definition dialog_submitted (value : pystr) (copied : bool) (now : seconds) (dr : draws) : U () := λ a,
  match app_screens a with
  | [] => (a, Ok ())
  | DInvite d :: _ => invite_submitted d value copied now dr a
  | DProfile d :: _ => profile_submitted d value a
  | DSettings d :: _ => settings_submitted d value a
  | DManage d :: _ => manage_submitted d value now a
  | DQuit _ :: _ => quit_submitted value a
  end.
End dialogs.
