(* ===== verification/UiProps.v ===== *)
(** * What holds of the user interface

    [app_step] is one event of the application: a callback of [call_later], a step of the refresh worker, a key or a line
    of the user, or something the node does on its own.  Every event is a sequence of elementary changes [ui_atom], so an
    invariant needs to be checked on those only. *)

From S2P Require Import Prelude Bytes PyDict PyText Utf8 PyCase Disk Toml Config Crypto Overlay PeerState Storage Invite.
From S2P Require Import QueueManager NodeState Node NodeExchange NodePeers NodeInv Sidebar ChatView UiState UiApp UiDialogs.

Section steps.
Context `{CM : CaseMap} `{C : CryptoLib}.
Variable home : pystr.

(** [AshiChatApp.__init__] and [compose] *)
Definition new_app (n : option node) (c : AshiChatConfig) (d : disk) : App :=
  mkApp n c d false None new_sidebar new_chat_view [] None [] false.

Inductive app_step (a : App) : App → Prop :=
| step_later ts : app_step a (next_later ts a).1
| step_worker : app_step a (worker_step a).1
| step_select idx : app_step a (select_peer idx a).1
| step_search v : app_step a (search v a).1
| step_message v now ts d : app_step a (message_submitted v now ts d a).1
| step_message_resolved p fut now ts d : app_step a (message_resolved p fut now ts d a).1
| step_invite : app_step a (action_show_invite a).1
| step_invite_fetched i ip : app_step a (invite_fetched i ip a).1
| step_profile : app_step a (action_show_profile home a).1
| step_settings : app_step a (action_show_settings home a).1
| step_manage ts : app_step a (action_manage_peer ts a).1
| step_quit : app_step a (action_request_quit a).1
| step_dialog v copied now d : app_step a (dialog_submitted home v copied now d a).1
| step_node (A : Type) (c : M A) : app_step a (node_runs c a).1.

(** The elementary changes. *)
Inductive ui_atom (a : App) : App → Prop :=
| at_other a' :
    app_sidebar a' = app_sidebar a → app_chat a' = app_chat a → app_active a' = app_active a → ui_atom a a'
| at_state p st : ui_atom a (set_app_sidebar (update_peer_state p st (app_sidebar a)) a)
| at_unread p : ui_atom a (set_app_sidebar (increment_unread p (app_sidebar a)) a)
| at_search v : ui_atom a (set_app_sidebar (on_search_changed v (app_sidebar a)) a)
| at_replace rows : ui_atom a (set_app_sidebar (replace_peers rows (app_sidebar a)) a)
| at_selected i : ui_atom a (set_app_sidebar (on_list_view_selected i (app_sidebar a)).1 a)
| at_active p : ui_atom a (app_set_active_peer p a).1
| at_system t ts : ui_atom a (set_app_chat (add_system_message t ts (app_chat a)) a)
| at_message p t b ts : ui_atom a (set_app_chat (add_message p t b ts (app_chat a)) a).

Local Abbreviation atomic := (moves (rtc ui_atom)).

(** A change of anything but the two widgets and the active contact. *)
Lemma atomic_other {A} (u : U A) :
  (∀ a, app_sidebar (u a).1 = app_sidebar a ∧ app_chat (u a).1 = app_chat a ∧ app_active (u a).1 = app_active a) →
  atomic u.
Proof using Type. intros H a. destruct (H a) as (? & ? & ?). by apply rtc_once, at_other. Qed.

Lemma atomic_ret {A} (x : A) : atomic (mret x).
Proof using Type. by apply atomic_other. Qed.

Lemma atomic_gets {A} (f : App → A) : atomic (u_gets f).
Proof using Type. by apply atomic_other. Qed.

Lemma atomic_raise {A} e : atomic (u_raise (A := A) e).
Proof using Type. by apply atomic_other. Qed.

Lemma atomic_disk {A} (c : IO A) : atomic (disk_call c).
Proof using Type. apply atomic_other. intros a. unfold disk_call. by destruct (c (app_disk a)). Qed.

Lemma atomic_node {A} (c : M A) : atomic (node_call c).
Proof using Type.
  apply atomic_other. intros a. unfold node_call. destruct (app_node a) as [n|]; [|done].
  destruct (c n) as [n' r]. unfold deliver. cbn. by destruct (app_subscribed a).
Qed.

Lemma atomic_set_active p : atomic (app_set_active_peer p).
Proof using Type. intros a. apply rtc_once, at_active. Qed.

Lemma atomic_system t ts : atomic (u_chat (add_system_message t ts)).
Proof using Type. intros a. apply rtc_once, at_system. Qed.

Lemma atomic_message p t b ts : atomic (u_chat (add_message p t b ts)).
Proof using Type. intros a. apply rtc_once, at_message. Qed.

Lemma atomic_push s : atomic (push_screen s).
Proof using Type. by apply atomic_other. Qed.

Lemma atomic_set_top s : atomic (set_top s).
Proof using Type. apply atomic_other. intros a. cbn. by destruct (app_screens a). Qed.

Lemma atomic_schedule : atomic schedule_peer_refresh.
Proof using Type. apply atomic_other. intros a. cbn. by destruct (app_node a). Qed.

Lemma atomic_dismiss : atomic dismiss.
Proof using Type. apply moves_bind; [apply _|by apply atomic_other|]. intros _. apply atomic_schedule. Qed.

Lemma atomic_refresh_with peers : atomic (refresh_with peers).
Proof using Type.
  intros a. unfold refresh_with. destruct (app_node a) as [n|]; [|done].
  eapply rtc_l; [apply (at_replace a (peer_row_of n <$> peers))|]. apply atomic_set_active.
Qed.

Lemma atomic_refresh : atomic refresh_peers_from_node.
Proof using Type. intros a. unfold refresh_peers_from_node. destruct (app_node a); [apply atomic_refresh_with|done]. Qed.
End steps.

#[export] Hint Resolve atomic_ret atomic_gets atomic_raise atomic_disk atomic_node atomic_set_active atomic_system
  atomic_message atomic_push atomic_set_top atomic_schedule atomic_dismiss atomic_refresh : ui.

Section atomicity.
Context `{CM : CaseMap} `{C : CryptoLib}.
Variable home : pystr.
Local Abbreviation atomic := (moves (rtc ui_atom)).

Lemma atomic_run_later l ts : atomic (run_later l ts).
Proof using Type.
  destruct l as [p pt|p st| |m]; cbn [run_later]; [|intros a; apply rtc_once, at_state|auto with ui..].
  intros a. unfold do_handle_incoming. destruct (utf8_decode true pt) as [t|e]; [|done].
  eapply rtc_l; [apply (at_message a p t true ts)|]. cbv zeta. case_bool_decide; [done|]. apply rtc_once, at_unread.
Qed.

Lemma atomic_later ts : atomic (next_later ts).
Proof using Type.
  intros a. unfold next_later. destruct (app_later a) as [|l ls]; [done|].
  eapply rtc_l; [by apply (at_other a (set_app_later ls a))|]. apply atomic_run_later.
Qed.

Lemma atomic_worker : atomic worker_step.
Proof using Type.
  intros a. unfold worker_step. destruct (app_worker a) as [[|ps]|]; [| |done].
  2: { eapply rtc_l; [by apply (at_other a (set_app_worker None a))|]. apply atomic_refresh_with. }
  destruct (app_node a); [by apply rtc_once, at_other|done].
Qed.

Lemma atomic_select i : atomic (select_peer i).
Proof using Type.
  intros a. unfold select_peer. pose proof (at_selected a i) as H. destruct (on_list_view_selected i _) as [s [p|]]; cbn in H |- *.
  - eapply rtc_l; [exact H|apply atomic_set_active].
  - by apply rtc_once.
Qed.

Lemma atomic_message_submitted v now ts d : atomic (message_submitted v now ts d).
Proof using Type.
  intros a. unfold message_submitted. cbv zeta. case_bool_decide; [done|]. destruct (app_node a); [|done].
  destruct (app_active a) as [p|]; [|apply atomic_system]. revert a. change (atomic (u_chat (add_message p (str_strip v) false ts) ;;
    u_try (node_call (send_message p (str_strip v) now d) ;; mret ()) (λ _, u_chat (add_system_message (str "Failed to send message.") ts)))).
  moves_step.
Qed.

Lemma atomic_fetched i ip : atomic (invite_fetched i ip).
Proof using Type. apply atomic_other. intros a. unfold invite_fetched, u_modify. cbn. by repeat case_match. Qed.

Lemma atomic_manage ts : atomic (action_manage_peer ts).
Proof using Type.
  intros a. unfold action_manage_peer. destruct (sb_active _) as [[|b p]|]; try apply atomic_system. apply atomic_push.
Qed.

Lemma atomic_quit : atomic action_request_quit.
Proof using Type. apply atomic_other. intros a. unfold action_request_quit. by repeat case_match. Qed.

Lemma atomic_profile_refresh st : atomic (profile_refresh home st).
Proof using Type. unfold profile_refresh. moves_step. Qed.
Hint Resolve atomic_profile_refresh : ui.

Lemma atomic_store_nickname n : atomic (store_nickname home n).
Proof using Type. unfold store_nickname. moves_step. Qed.
Hint Resolve atomic_store_nickname : ui.

Lemma atomic_save_draft b d : atomic (save_draft b d).
Proof using Type.
  unfold save_draft. apply moves_bind; [apply _|auto with ui|]. intros cur. apply moves_bind; [apply _|by apply atomic_other|].
  intros [[n s] g]. apply moves_bind; [apply _|auto with ui|]. intros c. apply atomic_other. intros a. cbn. by destruct (app_node a).
Qed.
Hint Resolve atomic_save_draft : ui.

Lemma atomic_invite_submitted d v b now dr : atomic (invite_submitted d v b now dr).
Proof using Type. unfold invite_submitted. moves_step. Qed.
Lemma atomic_profile_submitted d v : atomic (profile_submitted home d v).
Proof using Type. unfold profile_submitted. moves_step. Qed.
Lemma atomic_settings_submitted d v : atomic (settings_submitted d v).
Proof using Type. unfold settings_submitted. moves_step. Qed.
Lemma atomic_manage_submitted d v now : atomic (manage_submitted d v now).
Proof using Type. unfold manage_submitted. moves_step. Qed.
Lemma atomic_quit_submitted v : atomic (quit_submitted v).
Proof using Type. unfold quit_submitted. apply moves_bind; [apply _|by apply atomic_other|]. intros _. case_match; by apply atomic_other. Qed.

Lemma atomic_dialog v b now d : atomic (dialog_submitted home v b now d).
Proof using Type.
  intros a. unfold dialog_submitted. repeat case_match; try done.
  - apply atomic_invite_submitted.
  - apply atomic_profile_submitted.
  - apply atomic_settings_submitted.
  - apply atomic_manage_submitted.
  - apply atomic_quit_submitted.
Qed.

(** Every event is made of elementary changes. *)
Lemma app_step_atoms a a' : app_step home a a' → rtc ui_atom a a'.
Proof using Type.
  destruct 1; [apply atomic_later|apply atomic_worker|apply atomic_select|apply rtc_once, at_search
    |apply atomic_message_submitted|unfold message_resolved|apply atomic_push|apply atomic_fetched| | |apply atomic_manage
    |apply atomic_quit|apply atomic_dialog|exact (atomic_node c a)]; revert a.
  - match goal with |- ∀ a, rtc _ a (?u a).1 => change (atomic u) end. moves_step.
  - change (atomic (action_show_profile home)). unfold action_show_profile. moves_step.
  - change (atomic (action_show_settings home)). unfold action_show_settings. moves_step.
Qed.

(** Invariants and relations need to be checked on the elementary changes. *)
Lemma app_run_ind (R : App → App → Prop) `{!PreOrder R} :
  (∀ a a', ui_atom a a' → R a a') → ∀ a a', rtc (app_step home) a a' → R a a'.
Proof using Type.
  intros H a a' Hr. assert (∀ a a', rtc ui_atom a a' → R a a') as H'.
  { induction 1 as [|x y z Hxy _ IH]; [done|]. etrans; [by apply H|done]. }
  induction Hr as [|x y z Hxy _ IH]; [done|]. etrans; [by apply H', app_step_atoms|done].
Qed.
End atomicity.

(** ** The screen shows the state *)

Section screen.
Context `{CM : CaseMap} `{C : CryptoLib}.
Variable home : pystr.

(** Both widgets show what their state says, and the conversation is that of the contact messages are sent to. *)
Record screen_ok (a : App) : Prop := {
  sc_sidebar : sidebar_ok (app_sidebar a);
  sc_list : refresh_list (app_sidebar a) = app_sidebar a;
  sc_chat : render_current (app_chat a) = app_chat a;
  sc_active : cv_active (app_chat a) = app_active a }.

Lemma refresh_list_idem s : refresh_list (refresh_list s) = refresh_list s.
Proof using Type. unfold refresh_list. destruct (sb_mounted s) eqn:E; cbn; by rewrite ?E. Qed.

Lemma render_current_idem c : render_current (render_current c) = render_current c.
Proof using Type. unfold render_current. cbn. by destruct (cv_mounted c). Qed.

(** A message of another contact is not on the screen. *)
Lemma add_message_current p t b ts c : render_current c = c → render_current (add_message p t b ts c) = add_message p t b ts c.
Proof using Type.
  intros Hc. unfold add_message. cbn [cv_active]. case_bool_decide as E; [apply render_current_idem|].
  destruct c as [th sy ac na vi mo]. unfold render_current, rendered, thread in *. cbn in *. f_equal. destruct mo; [|done].
  injection Hc as Hc. rewrite <- Hc. destruct ac as [q|]; [|done]. by rewrite dget_dset, decide_False by congruence.
Qed.

Ltac sidebar_op :=
  repeat case_match; first [apply refresh_list_idem | assumption].

Lemma sidebar_ops_current s :
  refresh_list s = s →
  (∀ p st, refresh_list (update_peer_state p st s) = update_peer_state p st s) ∧
  (∀ p, refresh_list (increment_unread p s) = increment_unread p s) ∧
  (∀ p, refresh_list (clear_unread p s) = clear_unread p s) ∧
  (∀ v, refresh_list (on_search_changed v s) = on_search_changed v s) ∧
  (∀ rows, refresh_list (replace_peers rows s) = replace_peers rows s) ∧
  (∀ i, refresh_list (on_list_view_selected i s).1 = (on_list_view_selected i s).1).
Proof using Type.
  intros Hs. split_and!; intros *; unfold update_peer_state, sb_add_peer, increment_unread, clear_unread,
    on_search_changed, replace_peers, on_list_view_selected, sb_set_active_peer; sidebar_op.
Qed.

(** [_set_active_peer] written out. *)
Lemma set_active_eq p a :
  (app_set_active_peer p a).1 =
    set_app_sidebar (match p with Some (b :: q) => clear_unread (b :: q) (app_sidebar a) | _ => app_sidebar a end)
      (set_app_chat (cv_set_active_peer p (get_active_peer_name (app_sidebar a)) (app_chat a)) (set_app_active p a)).
Proof using Type. destruct a. by destruct p as [[|b q]|]. Qed.

Lemma screen_ok_atom a a' : ui_atom a a' → screen_ok a → screen_ok a'.
Proof using Type.
  intros Ha [H1 H2 H3 H4]. destruct (sidebar_ops_current _ H2) as (S1 & S2 & S3 & S4 & S5 & S6).
  destruct Ha as [a' E1 E2 E3|p st|p|v|rows|i|p|t ts|p t b ts]; [split; by rewrite ?E1, ?E2, ?E3| | | | | | | |].
  all: try (split; cbn; eauto with ashichat; fail).
  - rewrite set_active_eq. split; cbn; [| |apply render_current_idem|done]; destruct p as [[|b q]|]; auto with ashichat.
  - split; cbn; [done..|apply render_current_idem|done].
  - split; cbn; [done..|by apply add_message_current|by rewrite add_message_active].
Qed.

(** Mounting establishes it. *)
Lemma screen_ok_mounted ts n c d : screen_ok (app_on_mount ts (new_app n c d)).1.
Proof using Type.
  unfold app_on_mount, new_app. cbv zeta. cbn [app_node app_chat app_sidebar set_app_chat set_app_sidebar]. destruct n as [n|].
  - unfold refresh_peers_from_node, refresh_with. cbn [app_node set_app_subscribed set_app_node app_sidebar].
    rewrite set_active_eq. set (s := replace_peers _ _).
    assert (sidebar_ok s) as Hok by (apply replace_peers_ok, mount_sidebar_ok, new_sidebar_ok).
    assert (refresh_list s = s) as Hcur by apply refresh_list_idem.
    destruct (sidebar_ops_current _ Hcur) as (_ & _ & S3 & _). clearbody s.
    split; cbn; [| |apply render_current_idem|done]; destruct (sb_active s) as [[|b q]|]; auto with ashichat.
  - split; cbn; [apply mount_sidebar_ok, new_sidebar_ok|done|done|done].
Qed.

(** C17: What the user sees is the state.  After mounting and any sequence of events (callbacks, refreshes, selection,
    search, messages, dialogs, the node's own activity) the contact list shows exactly what rebuilding it would show, the
    conversation what rendering it would show, the conversation is that of the contact a message would be sent to, and
    the active and the listed contacts are known contacts. *)
Theorem screen_shows_state (ts : pystr) (n : option node) (c : AshiChatConfig) (d : disk) (a : App) :
  rtc (app_step home) (app_on_mount ts (new_app n c d)).1 a →
  refresh_list (app_sidebar a) = app_sidebar a ∧ render_current (app_chat a) = app_chat a ∧
  cv_active (app_chat a) = app_active a ∧
  (∀ p, p ∈ sb_visible (app_sidebar a) ∨ sb_active (app_sidebar a) = Some p → p ∈ (sb_peers (app_sidebar a)).*1).
Proof using Type.
  intros Hr. assert (screen_ok a) as [H1 H2 H3 H4].
  { refine (app_run_ind home (keeps screen_ok) screen_ok_atom _ _ Hr (screen_ok_mounted ts n c d)). }
  split_and!; [done..|]. intros p [Hp|Hp]; [by apply H1|]. pose proof (so_active _ H1) as Ha. by rewrite Hp in Ha.
Qed.

(** ** Conversations *)

Lemma thread_atom p a a' : ui_atom a a' → thread (app_chat a) p `prefix_of` thread (app_chat a') p.
Proof using Type.
  destruct 1 as [a' E1 E2 E3|q st|q|v|rows|i|q|t ts|q t b ts]; try done.
  - by rewrite E2.
  - by rewrite set_active_eq.
  - cbn [app_chat set_app_chat]. rewrite thread_add_message. case_decide; [|done]. apply prefix_app_r. done.
Qed.

(** No line of a conversation is lost, changed or reordered while the program runs: whatever happens, including
    removing the contact, refreshing the list and failed sends, the conversation with a contact only grows at its end. *)
Theorem conversation_only_grows (p : bytes) (a a' : App) :
  rtc (app_step home) a a' → thread (app_chat a) p `prefix_of` thread (app_chat a') p.
Proof using Type.
  intros Hr. refine (app_run_ind home (λ a a', thread (app_chat a) p `prefix_of` thread (app_chat a') p) (thread_atom p) _ _ Hr).
  split; [by intros ?|intros x y z ? ?; by etrans].
Qed.
End screen.

(** ** Incoming messages and unread counters *)

Section incoming.
Context `{CM : CaseMap} `{C : CryptoLib}.

(** [plaintext.decode("utf-8", errors="replace")], which does not raise *)
Definition shown_text (plaintext : bytes) : pystr :=
  match utf8_decode true plaintext with Ok t => t | Raise _ => [] end.

(** The unread counter of a contact in the list. *)
Definition unread (s : Sidebar) (p : bytes) : option Z := pi_unread <$> dget (sb_peers s) p.

(** The message notifications for one contact among the events of the node. *)
Definition messages_for (p : bytes) (evs : list event) : list bytes :=
  omap (λ ev, match ev with EvMessage q pt => if decide (q = p) then Some pt else None | _ => None end) evs.

(** The event loop works off the next [k] callbacks. *)
Fixpoint run_laters (k : nat) (ts : pystr) (a : App) : App :=
  match k with 0 => a | S k => run_laters k ts (next_later ts a).1 end.

(** What one callback adds to the conversation with [p]. *)
Definition lines_of (p : bytes) (ts : pystr) (l : later) : list chat_msg :=
  match l with
  | LIncoming q pt => if decide (q = p) then [message_entry p (shown_text pt) true ts] else []
  | _ => []
  end.

Lemma refresh_list_peers s : sb_peers (refresh_list s) = sb_peers s ∧ sb_active (refresh_list s) = sb_active s.
Proof using Type. unfold refresh_list. by destruct (sb_mounted s). Qed.

(** A change of a peer's state puts nobody else into the list, and selects nobody else. *)
Lemma update_peer_state_unread q st s p :
  is_Some (unread s p) ∨ q ≠ p →
  (sb_active (update_peer_state q st s) = Some p ↔ sb_active s = Some p) ∧
  unread (update_peer_state q st s) p = unread s p.
Proof using Type.
  intros Hp. unfold update_peer_state, sb_add_peer, unread in *. destruct (dmem (sb_peers s) q) eqn:E.
  - match goal with |- context [refresh_list ?t] => destruct (refresh_list_peers t) as [-> ->] end. cbn.
    rewrite dget_dupd. case_decide; [|done]. by destruct (dget (sb_peers s) p).
  - assert (q ≠ p) as Hne.
    { destruct Hp as [Hp|Hp]; [|done]. intros ->. apply dmem_false in E. rewrite E in Hp. by destruct Hp. }
    match goal with |- context [refresh_list ?t] => destruct (refresh_list_peers t) as [-> ->] end. cbn.
    destruct (sb_active s) eqn:Es; cbn; rewrite ?Es; rewrite dget_dset_ne by done; naive_solver.
Qed.

Lemma increment_unread_unread q s p :
  sb_active (increment_unread q s) = sb_active s ∧
  unread (increment_unread q s) p = if decide (q = p) then Z.succ <$> unread s p else unread s p.
Proof using Type.
  unfold increment_unread, unread. destruct (dmem (sb_peers s) q) eqn:E.
  - match goal with |- context [refresh_list ?t] => destruct (refresh_list_peers t) as [-> ->] end. cbn.
    rewrite dget_dupd. repeat case_decide; try congruence; by destruct (dget (sb_peers s) p).
  - apply dmem_false in E. case_decide; [subst; by rewrite E|done].
Qed.

(** [k] messages of a peer: they are counted unless the peer is selected. *)
Definition count_messages (selected : bool) (k : nat) (u : Z) : Z := if selected then u else (u + Z.of_nat k)%Z.

Definition selected (a : App) (p : bytes) : bool := bool_decide (sb_active (app_sidebar a) = Some p).

(** The callback does not put the peer into the list. *)
Definition no_state_of (p : bytes) (l : later) : Prop := match l with LState q _ => q ≠ p | _ => True end.

Lemma count_none b (o : option Z) : count_messages b 0 <$> o = o.
Proof using Type. destruct o as [u|]; [|done]. cbn. destruct b; cbn; f_equal; lia. Qed.

Lemma run_later_effect l ts a p :
  let a' := (run_later l ts a).1 in
  app_later a' = app_later a ∧
  thread (app_chat a') p = thread (app_chat a) p ++ lines_of p ts l ∧
  (is_Some (unread (app_sidebar a) p) ∨ no_state_of p l →
   selected a' p = selected a p ∧
   unread (app_sidebar a') p = count_messages (selected a p) (length (lines_of p ts l)) <$> unread (app_sidebar a) p).
Proof using Type.
  unfold selected. destruct l as [q pt|q st| |m]; cbv zeta; cbn [run_later lines_of no_state_of].
  - unfold do_handle_incoming, shown_text. destruct (utf8_replace_total pt) as [t ->].
    cbn [app_sidebar set_app_chat]. split; [by case_bool_decide|]. split.
    { case_bool_decide; cbn; rewrite thread_add_message; repeat case_decide; subst; by rewrite ?app_nil_r. }
    intros _. destruct (bool_decide_reflect (sb_active (app_sidebar a) = Some q)) as [E|E]; cbn [fst app_sidebar set_app_sidebar set_app_chat].
    + split; [done|]. case_decide; [|by rewrite count_none]. subst. rewrite bool_decide_true by done. cbn.
      by destruct (unread _ p).
    + destruct (increment_unread_unread q (app_sidebar a) p) as [-> ->]. split; [done|].
      case_decide; [|by rewrite count_none]. subst. rewrite bool_decide_false by done.
      destruct (unread _ p); cbn; [f_equal; lia|done].
  - split; [done|]. split; [by rewrite app_nil_r|]. intros Hp. cbn [length]. rewrite count_none.
    destruct (update_peer_state_unread q (peer_state_value st) (app_sidebar a) p Hp) as [H1 H2].
    split; [by apply bool_decide_ext|done].
  - cbn [length]. rewrite count_none. cbn.
    split; [by destruct (app_node a)|]. split; [rewrite app_nil_r; by destruct (app_node a)|].
    intros _. by destruct (app_node a).
  - split; [done|]. split; [by rewrite app_nil_r|]. intros _. cbn [length]. by rewrite count_none.
Qed.

Lemma run_laters_effect ls ts a p :
  app_later a = ls →
  let a' := run_laters (length ls) ts a in
  app_later a' = [] ∧
  thread (app_chat a') p = thread (app_chat a) p ++ (ls ≫= lines_of p ts) ∧
  (is_Some (unread (app_sidebar a) p) ∨ Forall (no_state_of p) ls →
   selected a' p = selected a p ∧
   unread (app_sidebar a') p
     = count_messages (selected a p) (length (ls ≫= lines_of p ts)) <$> unread (app_sidebar a) p).
Proof using Type.
  revert a. induction ls as [|l ls IH]; intros a El; cbn [length run_laters].
  - split; [done|]. split; [by rewrite app_nil_r|]. intros _. by rewrite count_none.
  - unfold next_later. rewrite El. destruct (run_later_effect l ts (set_app_later ls a) p) as (H1 & H2 & H3).
    destruct (IH _ H1) as (I1 & I2 & I3). split; [done|]. rewrite bind_cons. split; [by rewrite I2, H2, app_assoc|].
    change (app_sidebar (set_app_later ls a)) with (app_sidebar a) in H3.
    change (selected (set_app_later ls a) p) with (selected a p) in H3.
    intros Hp. destruct H3 as [Hs Hu]. { destruct Hp as [?|Hp]; [by left|]. apply Forall_cons in Hp as [? _]. by right. }
    destruct I3 as [Js Ju].
    { rewrite Hu. destruct Hp as [[u ->]|Hp]; [left; by eexists|]. apply Forall_cons in Hp as [_ ?]. by right. }
    split; [by rewrite Js|]. rewrite Ju, Hs, Hu, length_app. destruct (unread _ _) as [u|]; [|done].
    cbn. f_equal. unfold count_messages. destruct (selected a p); lia.
Qed.

Lemma lines_of_events p ts evs :
  (evs ≫= later_of) ≫= lines_of p ts = (λ pt, message_entry p (shown_text pt) true ts) <$> messages_for p evs.
Proof using Type.
  induction evs as [|ev evs IH]; [done|]. unfold messages_for in *. rewrite bind_cons, bind_app, IH.
  destruct ev; cbn; try done; case_match; cbn; done.
Qed.

(** The state notifications of the node for one contact. *)
Definition is_state_of (p : bytes) (ev : event) : bool :=
  match ev with EvState e => ev_peer e =?b p | _ => false end.
Definition state_events_of (p : bytes) (evs : list event) : list event := filter (is_state_of p) evs.

Lemma no_state_events p evs : state_events_of p evs = [] → Forall (no_state_of p) (evs ≫= later_of).
Proof using Type.
  unfold state_events_of. induction evs as [|ev evs IH]; intros H; [constructor|]. rewrite bind_cons.
  rewrite filter_cons in H. case_decide as Hd; [done|]. apply Forall_app. split; [|by apply IH].
  destruct ev; cbn; repeat constructor. case_bool_decide; repeat constructor. cbn.
  intros Hp. apply Hd. cbn. by apply bool_decide_spec.
Qed.

(** C16: A message the node receives reaches the conversation.  When the node runs, each of its message notifications for
    a contact becomes, after the event loop has run the callbacks it queued, one line at the end of the conversation with
    that contact, in the order of the notifications and with the text that was sent; other notifications add no line.
    The unread counter of a contact in the list grows by the number of its messages if the contact is not selected and
    keeps its value if it is, and the selection is not touched.  A sender that is not in the list gets no counter: it
    stays out of the list unless the node also reports a state of it. *)
Theorem message_reaches_conversation {A : Type} (c : M A) (n : node) (evs : list event) (ts : pystr) (a : App) (p : bytes) :
  app_node a = Some n → app_subscribed a = true → app_later a = [] →
  n_trace (c n).1 = n_trace n ++ evs →
  let a1 := (node_runs c a).1 in
  let a2 := run_laters (length (app_later a1)) ts a1 in
  app_later a2 = [] ∧
  thread (app_chat a2) p = thread (app_chat a) p
    ++ ((λ pt, message_entry p (shown_text pt) true ts) <$> messages_for p evs) ∧
  (∀ u, unread (app_sidebar a) p = Some u →
     (sb_active (app_sidebar a) ≠ Some p → sb_active (app_sidebar a2) ≠ Some p ∧
        unread (app_sidebar a2) p = Some (u + Z.of_nat (length (messages_for p evs)))%Z) ∧
     (sb_active (app_sidebar a) = Some p → sb_active (app_sidebar a2) = Some p ∧
        unread (app_sidebar a2) p = Some u)) ∧
  (unread (app_sidebar a) p = None → state_events_of p evs = [] → unread (app_sidebar a2) p = None) ∧
  (∀ text pt, Forall scalar_value text → utf8_encode text = Ok pt → shown_text pt = text).
Proof using Type.
  intros Hn Hs Hl Ht a1 a2.
  assert (a1 = set_app_later (evs ≫= later_of) (set_app_node (Some (c n).1) a)) as E1.
  { unfold a1, node_runs, node_call. rewrite Hn. destruct (c n) as [n' r]. cbn in Ht |- *. unfold deliver. cbn.
    by rewrite Hs, Hl, Ht, drop_app_length. }
  destruct (run_laters_effect (app_later a1) ts a1 p eq_refl) as (H1 & H2 & H3). fold a2 in H1, H2, H3.
  assert (app_later a1 = evs ≫= later_of) as El by by rewrite E1.
  rewrite El, lines_of_events in H2, H3. rewrite length_fmap in H3.
  assert (app_sidebar a1 = app_sidebar a ∧ app_chat a1 = app_chat a) as [Es Ec] by by rewrite E1.
  unfold selected in H3. rewrite Es in H3. rewrite Ec in H2. split_and!; [done..| | |].
  - intros u Hu. rewrite Hu in H3. destruct H3 as [Hsel ->]; [by left|]. unfold count_messages.
    split; intros Ha; split.
    + intros Ha2. by rewrite (bool_decide_true _ Ha2), (bool_decide_false _ Ha) in Hsel.
    + by rewrite bool_decide_false.
    + rewrite (bool_decide_true _ Ha) in Hsel. by apply bool_decide_eq_true in Hsel.
    + by rewrite bool_decide_true.
  - intros Hu Hst. destruct H3 as [_ ->]; [right; by apply no_state_events|by rewrite Hu].
  - intros text pt Hsc Henc. unfold shown_text. by rewrite (utf8_decode_encode true _ _ Hsc Henc).
Qed.

(** A refresh of the contacts forgets the unread counters: afterwards every contact has none, since the rows the
    refresh builds carry no counter.  Each change of the contacts and each closed dialog causes one. *)
Theorem refresh_forgets_unread (a : App) (n : node) :
  app_node a = Some n →
  ∀ p u, unread (app_sidebar (refresh_peers_from_node a).1) p = Some u → u = 0%Z.
Proof using Type.
  intros Hn. unfold refresh_peers_from_node, refresh_with. rewrite !Hn. set (rows := peer_row_of n <$> _).
  rewrite set_active_eq. cbn [app_sidebar set_app_sidebar].
  set (s := replace_peers rows (app_sidebar a)).
  assert (∀ p u, unread s p = Some u → u = 0%Z) as Hs.
  { intros p u. unfold s, replace_peers, unread. cbv zeta. rewrite (proj1 (refresh_list_peers _)). cbn.
    assert (∀ d, (∀ p i, dget d p = Some i → pi_unread i = 0%Z) →
      ∀ p i, dget (foldl (λ d r, dset d (row_peer_id r) (row_info r)) d rows) p = Some i → pi_unread i = 0%Z) as H.
    { assert (Forall (λ r, row_unread r = None) rows) as HF by (unfold rows; apply Forall_fmap, Forall_true; done).
      induction HF as [|r rs Hr _ IH]; intros d Hd; [exact Hd|]. cbn. apply IH. intros q i. rewrite dget_dset.
      case_decide; [intros [= <-]; unfold row_info; cbn; by rewrite Hr|apply Hd]. }
    intros (i & Hi & ->)%fmap_Some. by eapply (H []). }
  intros p u. destruct (sb_active s) as [[|b q]|]; [apply Hs| |apply Hs].
  unfold clear_unread. destruct (dmem _ _); [|apply Hs]. unfold unread. rewrite (proj1 (refresh_list_peers _)). cbn.
  rewrite dget_dupd. case_decide; [|apply Hs]. destruct (dget (sb_peers s) p); cbn; [by intros [= <-]|done].
Qed.
End incoming.

(** ** Examples *)

Module UiExample.
Import AsciiCase ToyCrypto NodeExample PeersExample InvExample.

Definition base : pystr := str "/home/a/.ashichat".
Definition no_files : disk := mkDisk ∅ ∅ 18.
Definition noon : pystr := str "12:00".

(** The application over a node that knows one contact. *)
Definition mounted : App := (app_on_mount noon (new_app (Some second) (default_config base) no_files)).1.
Definition contact : bytes := id_peer_id bob.
Definition stranger : bytes := be_encode 4 77.

(** A contact that is in the list and not selected. *)
Definition two_contacts : App := set_app_sidebar (update_peer_state stranger (str "connected") (app_sidebar mounted)) mounted.

Definition hi : bytes := bytes_of_string "hi".
Definition receive : M () := emit (EvMessage stranger hi) ;; emit EvPeersChanged ;; emit (EvMessage contact hi).

Lemma screen_shows_state_witness :
  ∃ a, rtc (app_step base) mounted a ∧ app_active a = Some contact ∧ cv_active (app_chat a) = app_active a.
Proof.
  exists (message_submitted (str "hello") (secs 9) noon drawn mounted).1.
  assert (rtc (app_step base) mounted (message_submitted (str "hello") (secs 9) noon drawn mounted).1) as Hr.
  { apply rtc_once. apply step_message. }
  split; [exact Hr|]. split; [vm_compute; reflexivity|].
  destruct (screen_shows_state base noon (Some second) (default_config base) no_files _ Hr) as (_ & _ & H & _). exact H.
Defined.

Lemma conversation_only_grows_witness :
  thread (app_chat mounted) contact
    `prefix_of` thread (app_chat (message_submitted (str "hello") (secs 9) noon drawn mounted).1) contact.
Proof.
  apply (conversation_only_grows base contact). apply rtc_once. apply step_message.
Defined.

Lemma message_reaches_conversation_witness :
  let a1 := (node_runs receive two_contacts).1 in
  let a2 := run_laters (length (app_later a1)) noon a1 in
  thread (app_chat a2) stranger = [message_entry stranger (str "hi") true noon] ∧
  unread (app_sidebar a2) stranger = Some 1%Z ∧ unread (app_sidebar a2) contact = Some 0%Z ∧
  unread (app_sidebar a2) (be_encode 4 78) = None.
Proof.
  pose proof (λ p, message_reaches_conversation receive (default first (app_node two_contacts))
    [EvMessage stranger hi; EvPeersChanged; EvMessage contact hi] noon two_contacts p
    ltac:(vm_compute; reflexivity) ltac:(vm_compute; reflexivity) ltac:(vm_compute; reflexivity) eq_refl) as H.
  destruct (H stranger) as (_ & H1 & H2 & _). destruct (H contact) as (_ & _ & H3 & _).
  destruct (H (be_encode 4 78)) as (_ & _ & _ & H4 & _). split_and!.
  - rewrite H1. vm_compute. reflexivity.
  - destruct (H2 0%Z) as [H5 _]; [vm_compute; reflexivity|]. apply H5. vm_compute. discriminate.
  - destruct (H3 0%Z) as [_ H5]; [vm_compute; reflexivity|]. apply H5. vm_compute. reflexivity.
  - apply H4; vm_compute; reflexivity.
Defined.

(** A message of Bob while the other contact is selected, then a refresh. *)
Definition unseen : App := set_app_sidebar (increment_unread contact (sb_set_active_peer (Some stranger) (app_sidebar two_contacts))) two_contacts.

Lemma refresh_forgets_unread_witness :
  unread (app_sidebar unseen) contact = Some 1%Z ∧
  unread (app_sidebar (refresh_peers_from_node unseen).1) contact = Some 0%Z.
Proof.
  split; [vm_compute; reflexivity|].
  destruct (unread (app_sidebar (refresh_peers_from_node unseen).1) contact) as [u|] eqn:E.
  - f_equal. apply (refresh_forgets_unread unseen (default first (app_node unseen)) ltac:(vm_compute; reflexivity) contact u E).
  - exfalso. vm_compute in E. discriminate E.
Defined.
End UiExample.
