(* ===== verification/UiDialogProps.v ===== *)
(** * What the dialogs guarantee

    The settings that can be saved, what saving them does, what becomes of a nickname that is too long, and the two
    questions that protect from losing a contact or undelivered messages. *)

From S2P Require Import Prelude Bytes PyDict PyText Utf8 PyCase Disk Toml Config Crypto Overlay PeerState Storage Invite.
From S2P Require Import QueueManager NodeState Node NodeProps NodeExchange NodePeers NodeInv Sidebar ChatView UiState UiApp UiDialogs UiProps.

(** ** Drafts of the settings *)

Section drafts.
Context `{CM : CaseMap} `{C : CryptoLib}.
Variable home : pystr.

(** The values [load_config] accepts. *)
Definition draft_ok (d : draft) : Prop :=
  (∃ n, scalar_int (dr_udp_port d) = Ok n ∧ (1 ≤ n ≤ 65535)%Z) ∧
  Forall (λ v, ∃ n, scalar_int v = Ok n ∧ (1 ≤ n)%Z)
    [dr_max_peers d; dr_overlay_k d; dr_message_log_limit_mb d; dr_max_log_rotations d] ∧
  (∃ lv, dr_log_level d = SStr lv ∧ lv ∈ LOG_LEVELS).

(** A settings dialog holds such values, and a field to edit whenever it asks for a value. *)
Definition dialog_ok (s : dialog) : Prop :=
  match s with
  | DSettings d => draft_ok (sd_draft d) ∧ (sd_state d = StEdit → is_Some (sd_edit_key d))
  | _ => True
  end.

Definition dialogs_ok (a : App) : Prop := Forall dialog_ok (app_screens a).

Local Abbreviation safe := (moves (keeps dialogs_ok)).

Lemma draft_of_ok base d d' c : load_config base d = (d', Ok c) → draft_ok (draft_of c).
Proof using Type.
  intros Hl. pose proof (load_outcome base d) as H. rewrite Hl in H. destruct H as [(H1 & H2 & H3 & _) _].
  split_and!; [exact H1|exact H2|]. eexists. split; [reflexivity|exact H3].
Qed.

Lemma validate_value_ok k v x d : validate_value k v = inr x → draft_ok d → draft_ok (draft_set d k x).
Proof using Type.
  intros Hv (Hp & Hn & Hl). rewrite !Forall_cons in Hn. destruct Hn as (H1 & H2 & H3 & H4 & _).
  assert (k = S_log_level ∧ (∃ lv, x = SStr lv ∧ lv ∈ LOG_LEVELS)
    ∨ k ≠ S_log_level ∧ ∃ n, x = SInt n ∧ (k = S_udp_port → 1 ≤ n ≤ 65535)%Z ∧ (k ≠ S_udp_port → 1 ≤ n)%Z) as Hx.
  { destruct k; cbn [validate_value] in Hv; [..|left; case_bool_decide; [|done]; injection Hv as <-; eauto]; right; (split; [done|]).
    all: destruct (py_int v) as [n|]; [|done]; exists n.
    all: rewrite ?bool_decide_true, ?bool_decide_false in Hv by (set_solver || done); cbn [andb] in Hv.
    - destruct (Z.leb_spec 1 n), (Z.leb_spec n 65535); cbn in Hv; try done. injection Hv as <-. split_and!; [done|lia|done].
    - destruct (Z.ltb_spec n 1); [done|]. injection Hv as <-. split_and!; [done..|lia].
    - destruct (Z.ltb_spec n 1); [done|]. injection Hv as <-. split_and!; [done..|lia].
    - destruct (Z.ltb_spec n 1); [done|]. injection Hv as <-. split_and!; [done..|lia].
    - destruct (Z.ltb_spec n 1); [done|]. injection Hv as <-. split_and!; [done..|lia]. }
  unfold draft_ok, draft_set. rewrite !Forall_cons.
  destruct Hx as [(-> & Hx)|(Hk & n & -> & Hu & Hne)]; [by split_and!|].
  destruct k; try done; cbn; split_and!; try done; eauto.
Qed.

Lemma safe_same {A} (u : U A) : (∀ a, app_screens (u a).1 = app_screens a) → safe u.
Proof using Type. intros H a. unfold keeps, dialogs_ok. by rewrite H. Qed.

Lemma safe_node {A} (c : M A) : safe (node_call c).
Proof using Type.
  apply safe_same. intros a. unfold node_call. destruct (app_node a); [|done]. destruct (c n). unfold deliver. cbn.
  by destruct (app_subscribed a).
Qed.

Lemma safe_disk {A} (c : IO A) : safe (disk_call c).
Proof using Type. apply safe_same. intros a. unfold disk_call. by destruct (c (app_disk a)). Qed.

Lemma safe_push s : dialog_ok s → safe (push_screen s).
Proof using Type. intros Hs a Ha. by apply Forall_cons_2. Qed.

Lemma safe_set_top s : dialog_ok s → safe (set_top s).
Proof using Type.
  intros Hs a Ha. unfold set_top, u_modify, dialogs_ok in *. cbn. destruct (app_screens a) as [|s0 ss] eqn:E; cbn; rewrite ?E; [done|].
  apply Forall_cons in Ha as [_ Ha]. by apply Forall_cons_2.
Qed.

Lemma safe_pop : safe pop_screen.
Proof using Type. intros a Ha. by apply Forall_tail. Qed.

Lemma safe_dismiss : safe dismiss.
Proof using Type.
  apply moves_bind; [apply _|apply safe_pop|]. intros _. apply safe_same. intros a. cbn. by destruct (app_node a).
Qed.

Lemma safe_ret {A} (x : A) : safe (mret x).
Proof using Type. by apply safe_same. Qed.
Lemma safe_gets {A} (f : App → A) : safe (u_gets f).
Proof using Type. by apply safe_same. Qed.
Lemma safe_raise {A} e : safe (u_raise (A := A) e).
Proof using Type. by apply safe_same. Qed.
Lemma safe_chat f : safe (u_chat f).
Proof using Type. by apply safe_same. Qed.
Lemma safe_set_active p : safe (app_set_active_peer p).
Proof using Type. apply safe_same. intros a. by rewrite set_active_eq. Qed.

Lemma safe_refresh_with peers : safe (refresh_with peers).
Proof using Type. apply safe_same. intros a. unfold refresh_with. destruct (app_node a); [by rewrite set_active_eq|done]. Qed.

Lemma safe_refresh : safe refresh_peers_from_node.
Proof using Type. intros a. unfold refresh_peers_from_node. destruct (app_node a); [apply safe_refresh_with|by intros ?]. Qed.

Hint Resolve safe_node safe_disk safe_push safe_pop safe_dismiss safe_ret safe_gets safe_raise safe_chat safe_set_active safe_refresh : ui.
Hint Extern 1 (moves (keeps dialogs_ok) (set_top _)) => apply safe_set_top; exact I : ui.
Hint Extern 1 (moves (keeps dialogs_ok) (push_screen _)) => apply safe_push; exact I : ui.

Lemma safe_save_draft b d : safe (save_draft b d).
Proof using Type.
  unfold save_draft. apply moves_bind; [apply _|auto with ui|]. intros cur. apply moves_bind; [apply _|by apply safe_same|].
  intros [[n s] g]. apply moves_bind; [apply _|auto with ui|]. intros c. apply safe_same. intros a. cbn. by destruct (app_node a).
Qed.
Hint Resolve safe_save_draft : ui.

Lemma safe_settings d v : dialog_ok (DSettings d) → safe (settings_submitted d v).
Proof using Type.
  intros [Hd Hk]. unfold settings_submitted. cbv zeta.
  destruct (sd_state d).
  - destruct (field_of _); [by apply safe_set_top|]. case_bool_decide.
    + moves_step. by apply safe_set_top.
    + case_bool_decide; [auto with ui|]. by apply safe_set_top.
  - destruct (sd_edit_key d) as [k|]; [|auto with ui]. destruct (validate_value k (str_strip v)) eqn:E; [by apply safe_set_top|].
    apply safe_set_top. split; [|done]. by eapply validate_value_ok.
  - by apply safe_set_top.
Qed.

Lemma safe_profile_refresh st : safe (profile_refresh home st).
Proof using Type. unfold profile_refresh. moves_step. Qed.
Hint Resolve safe_profile_refresh : ui.

Lemma safe_store n : safe (store_nickname home n).
Proof using Type. unfold store_nickname. moves_step. Qed.
Hint Resolve safe_store : ui.

Lemma safe_dialog v b now d : safe (dialog_submitted home v b now d).
Proof using Type.
  intros a Ha. unfold dialog_submitted. destruct (app_screens a) as [|[i|p|s|m|k] ss] eqn:E; [done|..]; revert Ha.
  - assert (safe (invite_submitted i v b now d)) as H by (unfold invite_submitted; moves_step). apply H.
  - assert (safe (profile_submitted home p v)) as H by (unfold profile_submitted; moves_step). apply H.
  - intros Ha. apply safe_settings; [|done]. unfold dialogs_ok in Ha. rewrite E in Ha. by apply Forall_cons in Ha as [? _].
  - assert (safe (manage_submitted m v now)) as H by (unfold manage_submitted; moves_step). apply H.
  - assert (safe (quit_submitted v)) as H; [|apply H]. unfold quit_submitted. apply moves_bind; [apply _|auto with ui|].
    intros _. case_match; by apply safe_same.
Qed.

Lemma safe_show_settings : safe (action_show_settings home).
Proof using Type.
  intros a Ha. unfold action_show_settings, mbind, U_bind, u_gets, disk_call.
  destruct (load_config _ _) as [d' [c|e]] eqn:E; [|done]. cbn. apply Forall_cons_2; [|done]. split; [|done]. by eapply draft_of_ok.
Qed.

Lemma safe_later ts : safe (next_later ts).
Proof using Type.
  apply safe_same. intros a. unfold next_later. destruct (app_later a) as [|[p pt|p st| |m] ls]; cbn; [done| |done| |done].
  - unfold do_handle_incoming. destruct (utf8_decode true pt); [|done]. cbn. by case_bool_decide.
  - by destruct (app_node a).
Qed.

Lemma app_step_safe a a' : app_step home a a' → keeps dialogs_ok a a'.
Proof using Type.
  destruct 1; unfold keeps.
  - apply safe_later.
  - unfold worker_step. destruct (app_worker a) as [[|ps]|]; [by destruct (app_node a)| |done].
    apply (safe_refresh_with ps (set_app_worker None a)).
  - unfold select_peer. destruct (on_list_view_selected _ _) as [s [p|]]; [|done].
    apply (safe_set_active (Some p) (set_app_sidebar s a)).
  - done.
  - unfold message_submitted. cbv zeta. case_bool_decide; [done|]. destruct (app_node a); [|done].
    destruct (app_active a) as [p|]; [|done]. generalize a. match goal with |- ∀ a, _ → dialogs_ok (?u a).1 => change (safe u) end. moves_step.
  - generalize a. change (safe (message_resolved p fut now ts d)). unfold message_resolved. moves_step.
  - by apply safe_push.
  - intros Ha. unfold invite_fetched, u_modify. cbn. repeat case_match; try done. by apply Forall_insert.
  - generalize a. change (safe (action_show_profile home)). unfold action_show_profile. moves_step.
  - apply safe_show_settings.
  - unfold action_manage_peer. destruct (sb_active _) as [[|b p]|]; [done| |done]. by apply safe_push.
  - unfold action_request_quit. case_match; [done|]. by apply safe_push.
  - apply safe_dialog.
  - apply (safe_node c a).
Qed.

Lemma app_run_safe a a' : rtc (app_step home) a a' → keeps dialogs_ok a a'.
Proof using Type. induction 1 as [|x y z Hxy _ IH]; [done|]. etrans; [by apply app_step_safe|done]. Qed.

(** C23: The settings dialog holds valid settings only.  In every state of the program the values of an open settings
    dialog are ones that [load_config] accepts, whatever was typed; when it waits for a value it knows for which field,
    so that its assertion cannot fail. *)
Theorem settings_always_valid (ts : pystr) (n : option node) (c : AshiChatConfig) (dk : disk) (a : App) (d : SettingsDialog) :
  rtc (app_step home) (app_on_mount ts (new_app n c dk)).1 a → DSettings d ∈ app_screens a →
  draft_ok (sd_draft d) ∧ (sd_state d = StEdit → ∀ v a', (settings_submitted d v a').2 = Ok ()).
Proof using Type.
  intros Hr Hin. assert (dialogs_ok a) as Ha.
  { apply (app_run_safe _ _ Hr). unfold app_on_mount, new_app. cbv zeta. cbn [app_node set_app_chat set_app_sidebar].
    destruct n as [n|]; [|constructor]. apply safe_refresh. constructor. }
  unfold dialogs_ok in Ha. rewrite Forall_forall in Ha. destruct (Ha _ Hin) as [Hd Hk]. split; [done|].
  intros Es v a'. unfold settings_submitted. rewrite Es. destruct (Hk Es) as [k ->]. by destruct (validate_value k _).
Qed.
End drafts.

(** ** Saving the settings *)

Section saving.
Context `{CM : CaseMap} `{CL : !CaseLaws CM} `{C : CryptoLib}.
Variable home : pystr.

#[local] Arguments scalar_pyeq : simpl never.

(** The integers of a draft make a configuration that can be stored. *)
Lemma draft_sections_ok d c base :
  draft_ok d → nickname_wf (nickname (cfg_profile c)) →
  ∃ n s g, draft_sections d = Ok (n, s, g) ∧
    config_wf (merged c base (Some n) (Some s) (Some g) (Some (cfg_profile c))) ∧
    has_changes (draft_of (merged c base (Some n) (Some s) (Some g) (Some (cfg_profile c)))) d = false.
Proof using CL.
  intros ((p & Ep & Hp) & Hn & (lv & El & Hl)) Hnick. rewrite !Forall_cons in Hn.
  destruct Hn as ((m & Em & Hm) & (k & Ek & Hk) & (l & Ell & Hll) & (r & Er & Hr) & _).
  assert (∀ v z, scalar_int v = Ok z → scalar_to_int v = Ok z) as Hto by (intros [] z; done).
  assert (∀ v z, scalar_int v = Ok z → scalar_pyeq (SInt z) v = true) as Heq.
  { intros v z Hv. destruct v; cbn in *; try done; injection Hv as <-; apply Z.eqb_refl. }
  unfold draft_sections. rewrite (Hto _ _ Ep), (Hto _ _ Em), (Hto _ _ Ek), (Hto _ _ Ell), (Hto _ _ Er), El. cbn [mbind result_bind scalar_str].
  rewrite (level_upper _ Hl). eexists _, _, _. split; [reflexivity|]. split.
  - exists p, m, k, l, r. split; [|by split_and!; [lia..|repeat (apply Forall_cons_2; [done|]); constructor|]].
    split_and!; [done..| |done|]; [repeat (apply Forall_cons_2; [lia|]); constructor|].
    destruct Hnick as (_ & _ & Hch). eapply Forall_impl; [exact Hch|]. by intros ? [].
  - unfold has_changes. cbn. rewrite El, !Heq by done. cbn.
    unfold scalar_pyeq. by rewrite bool_decide_true.
Qed.

(** Saving the settings.  With a valid draft, option 7 writes the file, closes the dialog and gives the node the new
    configuration; the values saved are those of the draft, the profile is the one that was stored, and the next
    [load_config] returns exactly this configuration. *)
Theorem settings_saved (a : App) (n : node) (d : SettingsDialog) (ss : list dialog) (c : AshiChatConfig) (d0 : disk)
    (value : pystr) (copied : bool) (now : seconds) (dr : draws) :
  app_node a = Some n → app_screens a = DSettings d :: ss → sd_state d = StMenu → draft_ok (sd_draft d) →
  load_config (sd_base_dir d) (app_disk a) = (d0, Ok c) → nickname_wf (nickname (cfg_profile c)) →
  str_strip value = str "7" →
  ∃ a', dialog_submitted home value copied now dr a = (a', Ok ()) ∧
    app_screens a' = ss ∧ app_worker a' = Some WStarted ∧
    has_changes (draft_of (app_config a')) (sd_draft d) = false ∧ cfg_profile (app_config a') = cfg_profile c ∧
    ∃ d', load_config (sd_base_dir d) (app_disk a') = (d', Ok (app_config a')).
Proof using CL.
  intros Hn Hs Hst Hd Hl Hnick Hv.
  destruct (draft_sections_ok (sd_draft d) c (sd_base_dir d) Hd Hnick) as (nw & st & dg & Esec & Hwf & Hch).
  destruct (load_again _ _ _ _ Hl) as (d1 & Hl1).
  destruct (update_loads_back (sd_base_dir d) d0 d1 c (Some nw) (Some st) (Some dg) (Some (cfg_profile c)) Hl1 Hwf)
    as (d2 & d3 & Hu & Hl3 & _).
  unfold dialog_submitted. rewrite Hs. unfold settings_submitted. cbv zeta. rewrite Hst, Hv.
  change (field_of (str "7")) with (None (A := setting)). rewrite bool_decide_true by done.
  unfold u_try, save_draft, mbind, U_bind, disk_call. rewrite Hl, Esec.
  cbn [app_disk set_app_disk]. rewrite Hu. cbn. rewrite Hn. cbn. eexists. split; [reflexivity|].
  cbn. rewrite Hs, Hn. cbn. split; [done|]. split; [done|]. split; [exact Hch|]. split; [done|]. exists d3. exact Hl3.
Qed.

(** A nickname that is too long locks the user out.  Typed into the profile dialog it is reported as invalid, but the
    file has been written with it before: from then on [load_config] fails, the dialog cannot return to its menu
    (the next line raises out of the handler), and the program does not start again until the file is corrected by
    hand. *)
Theorem long_nickname_locks_out (a : App) (d : ProfileDialog) (ss : list dialog) (c : AshiChatConfig) (d0 : disk)
    (value : pystr) (copied : bool) (now : seconds) (dr : draws) :
  let base := get_base_dir home a in
  app_screens a = DProfile d :: ss → pf_state d = PfSetNick →
  load_config base (app_disk a) = (d0, Ok c) → config_wf (merged c base None None None None) →
  32 < length (str_strip value) → Forall legal_char (str_strip value) →
  ∃ a', dialog_submitted home value copied now dr a = (a', Ok ()) ∧
    app_screens a' = DProfile (mkProfileDialog PfWait (PfInvalidNickname ValueError)) :: ss ∧
    (load_config base (app_disk a')).2 = Raise ValueError ∧
    ∀ value', (dialog_submitted home value' copied now dr a').2 = Raise ValueError.
Proof using CL.
  intros base Hs Hst Hl Hwf Hlen Hch.
  destruct (long_nickname_stored base (app_disk a) d0 c (str_strip value) Hl Hwf Hlen (str_strip_idem _) Hch)
    as (d1 & c' & Hu & Hbad).
  assert (∃ d2, load_config base d1 = (d2, Raise ValueError) ∧ contents d2 (config_path base) = contents d1 (config_path base)) as (d2 & Hl2 & Hc2).
  { pose proof (Hbad d1 eq_refl) as Hb. destruct (contents d1 (config_path base)) as [bs|] eqn:Ec.
    - destruct (load_stored base d1 bs Ec) as (d2 & E & Hf). rewrite E in Hb |- *. cbn in Hb. rewrite Hb. exists d2.
      split; [done|]. unfold contents in *. by rewrite Hf.
    - destruct (load_first_run base d1 Ec) as (d2 & bs & E & _ & Hc' & _).
      exfalso. pose proof (Hbad d2) as Hb2. revert Hb. rewrite E. cbn [snd].
      pose proof (parse_config_doc (default_config base) _ _ _ _ _ (default_renderable base)) as Hp.
      cbn [cfg_base_dir default_config] in Hp. rewrite Hp; [done|lia|repeat constructor; lia]. }
  exists (set_app_screens (DProfile (mkProfileDialog PfWait (PfInvalidNickname ValueError)) :: ss) (set_app_disk d2 a)).
  split_and!; [|done|by apply Hbad|].
  - unfold dialog_submitted. rewrite Hs. unfold profile_submitted. cbv zeta. rewrite Hst.
    unfold u_try, store_nickname, profile_refresh, mbind, U_bind, disk_call, u_gets. fold base. rewrite Hu. cbn [mret U_ret].
    change (get_base_dir home (set_app_disk d1 a)) with base. cbn [app_disk set_app_disk]. rewrite Hl2.
    unfold set_top, u_modify. cbn. by rewrite Hs.
  - intros value'. unfold dialog_submitted. cbn [app_screens set_app_screens]. unfold profile_submitted. cbn [pf_state pf_out].
    unfold profile_refresh, set_top, u_modify, mbind, U_bind, disk_call, u_gets. cbn [app_screens set_app_screens app_disk set_app_disk].
    match goal with |- context [load_config ?b d2] => change b with base end.
    pose proof (Hbad d2 Hc2) as Hb. destruct (load_config base d2) as [d4 [c4|e4]]; cbn in Hb; [done|]. by injection Hb as ->.
Qed.
End saving.

(** ** Removing a contact *)

Section removal.
Context `{CM : CaseMap} `{C : CryptoLib}.
Variable home : pystr.
Variable may_remove : bytes → Prop.

(** Contacts are removed only as [may_remove] says. *)
Definition allowed (e : event) : Prop := match e with EvDb (DbRemovePeer p) => may_remove p | _ => True end.

Definition quiet (l : list event) : Prop := Forall allowed l.

Lemma quiet_app l k : quiet l → quiet k → quiet (l ++ k).
Proof using Type. apply Forall_app_2. Qed.

Lemma quiet_one e : allowed e → quiet [e].
Proof using Type. intros. by apply Forall_singleton. Qed.

Ltac quiet_step :=
  lazymatch goal with
  | |- traces quiet (mbind _ _) => apply traces_bind; [apply quiet_app| |intros ?]
  | |- traces quiet (storage _) => apply traces_storage; [constructor|by apply quiet_one]
  | |- traces quiet (send_to _ _) => apply traces_send; [constructor|by apply quiet_one]
  | |- traces quiet (emit _) => apply traces_emit; by apply quiet_one
  | |- traces quiet (notify_connection_event _) => apply traces_emit; by apply quiet_one
  | |- traces quiet notify_peers_changed => apply traces_emit; by apply quiet_one
  | |- traces quiet (set_peer_state _ _ _) => apply traces_set_peer_state; [constructor|apply quiet_app|intros ?; by apply quiet_one]
  | |- traces quiet (try_except _ _ _) => apply traces_try; [apply quiet_app| |]
  | |- traces quiet (if ?b then _ else _) => destruct b
  | |- traces quiet (match ?x with _ => _ end) => destruct x
  | |- traces quiet (modify _) => apply traces_same; [constructor|intros ?; cbn; by repeat case_match]
  | |- traces quiet _ => apply traces_same; [constructor|done]
  end.

Lemma quiet_connect p ep now d : traces quiet (connect_to_peer p ep now d).
Proof using Type. unfold connect_to_peer. repeat quiet_step. Qed.

Lemma quiet_add_contact code now d : traces quiet (add_contact_from_invite code now d).
Proof using Type.
  unfold add_contact_from_invite. cbv zeta.
  repeat first [apply quiet_connect | quiet_step].
Qed.

Lemma quiet_rename p nick : traces quiet (rename_peer p nick).
Proof using Type. unfold rename_peer. cbv zeta. repeat quiet_step. Qed.

Lemma quiet_archive p b now : traces quiet (set_peer_archived p b now).
Proof using Type. unfold set_peer_archived. cbv zeta. repeat quiet_step. Qed.

Lemma quiet_remove p : may_remove p → traces quiet (node_remove_peer p).
Proof using Type.
  intros Hp. unfold node_remove_peer, drop_session. quiet_step; [quiet_step|]. quiet_step.
  { apply traces_for_each; [constructor|apply quiet_app|]. intros i. quiet_step. }
  quiet_step; [apply traces_storage; [constructor|by apply quiet_one]|]. repeat quiet_step.
  apply traces_same; [constructor|]. intros m. unfold get_session. by destruct (n_heap m !! _).
Qed.

(** The node, if there is one, removed nothing else. *)
Definition removal_free (a a' : App) : Prop :=
  match app_node a with
  | None => app_node a' = None
  | Some n => ∃ n' l, app_node a' = Some n' ∧ n_trace n' = n_trace n ++ l ∧ quiet l
  end.

#[export] Instance removal_free_preorder : PreOrder removal_free.
Proof using Type.
  split.
  - intros a. unfold removal_free. destruct (app_node a); [|done]. exists n, []. split_and!; [done|by rewrite app_nil_r|constructor].
  - intros a b c. unfold removal_free. destruct (app_node a); [|by intros ->]. intros (n' & l & -> & Ht & Hl) (n'' & l' & Hn & Ht' & Hl').
    exists n'', (l ++ l'). split_and!; [done|by rewrite Ht', Ht, app_assoc|by apply quiet_app].
Qed.

Local Abbreviation harmless := (moves removal_free).

Lemma harmless_same {A} (u : U A) : (∀ a, app_node (u a).1 = app_node a) → harmless u.
Proof using Type.
  intros H a. unfold removal_free. rewrite H. destruct (app_node a); [|done]. exists n, []. split_and!; [done|by rewrite app_nil_r|constructor].
Qed.

Lemma harmless_node {A} (c : M A) : traces quiet c → harmless (node_call c).
Proof using Type.
  intros Hc a. unfold removal_free, node_call. destruct (app_node a) as [n|] eqn:E; [|done].
  destruct (Hc n) as (l & Hl & Hq). destruct (c n) as [n' r]. exists n', l. split_and!; [|done..].
  unfold deliver. cbn. by destruct (app_subscribed a).
Qed.

Lemma harmless_disk {A} (c : IO A) : harmless (disk_call c).
Proof using Type. apply harmless_same. intros a. unfold disk_call. by destruct (c (app_disk a)). Qed.
Lemma harmless_set_top s : harmless (set_top s).
Proof using Type. apply harmless_same. intros a. cbn. by destruct (app_screens a). Qed.
Lemma harmless_dismiss : harmless dismiss.
Proof using Type.
  apply moves_bind; [apply _|by apply harmless_same|]. intros _. apply harmless_same. intros a. unfold schedule_peer_refresh, u_modify. cbn.
  by destruct (app_node a) eqn:E.
Qed.
Lemma harmless_ret {A} (x : A) : harmless (mret x).
Proof using Type. by apply harmless_same. Qed.
Lemma harmless_gets {A} (f : App → A) : harmless (u_gets f).
Proof using Type. by apply harmless_same. Qed.
Lemma harmless_raise {A} e : harmless (u_raise (A := A) e).
Proof using Type. by apply harmless_same. Qed.
Lemma harmless_refresh : harmless refresh_peers_from_node.
Proof using Type.
  apply harmless_same. intros a. unfold refresh_peers_from_node, refresh_with. destruct (app_node a) eqn:E; [|done].
  by rewrite set_active_eq.
Qed.

Hint Resolve harmless_disk harmless_set_top harmless_dismiss harmless_ret harmless_gets harmless_raise harmless_refresh
  harmless_node quiet_add_contact quiet_rename quiet_archive : ui.

Lemma harmless_invite d v b now dr : harmless (invite_submitted d v b now dr).
Proof using Type. unfold invite_submitted. moves_step. Qed.
Lemma harmless_profile d v : harmless (profile_submitted home d v).
Proof using Type. unfold profile_submitted, store_nickname, profile_refresh. moves_step. Qed.
Lemma harmless_settings d v : harmless (settings_submitted d v).
Proof using Type.
  unfold settings_submitted, save_draft. moves_step; apply harmless_same; [done|]. intros a. cbn. destruct (app_node a) eqn:E; cbn; by rewrite ?E.
Qed.
Lemma harmless_manage d v now :
  (pm_state d = PmDelete → str_strip v = str "DELETE" → may_remove (pm_peer_id d)) → harmless (manage_submitted d v now).
Proof using Type.
  intros Hd. unfold manage_submitted. cbv zeta. apply moves_bind; [apply _|auto with ui|]. intros node.
  destruct (pm_state d) eqn:E; [moves_step..| |moves_step].
  case_bool_decide; [|auto with ui]. pose proof (quiet_remove (pm_peer_id d) ltac:(auto)). moves_step.
Qed.

Lemma harmless_quit v : harmless (quit_submitted v).
Proof using Type. apply harmless_same. intros a. unfold quit_submitted, pop_screen. cbn. by destruct (_ =?b _). Qed.
End removal.

Section removal_confirmed.
Context `{CM : CaseMap} `{C : CryptoLib}.
Variable home : pystr.

(** C24: A contact is removed on confirmation only.  No line typed into any dialog makes the node delete a contact,
    unless it is DELETE, typed into the dialog of this very contact after removal was chosen there. *)
Theorem removal_needs_confirmation (a : App) (n n' : node) (l : list event) (value : pystr) (copied : bool) (now : seconds)
    (dr : draws) (p : bytes) :
  app_node a = Some n → app_node (dialog_submitted home value copied now dr a).1 = Some n' →
  n_trace n' = n_trace n ++ l → EvDb (DbRemovePeer p) ∈ l →
  ∃ d ss, app_screens a = DManage d :: ss ∧ pm_state d = PmDelete ∧ str_strip value = str "DELETE" ∧ pm_peer_id d = p.
Proof using Type.
  intros Hn Hn' Ht Hin.
  set (Q q := ∃ d ss, app_screens a = DManage d :: ss ∧ pm_state d = PmDelete ∧ str_strip value = str "DELETE" ∧ pm_peer_id d = q).
  assert (removal_free Q a (dialog_submitted home value copied now dr a).1) as Hf.
  { unfold dialog_submitted. destruct (app_screens a) as [|[i|f|s|m|k] ss] eqn:E.
    - apply removal_free_preorder.
    - apply harmless_invite.
    - apply harmless_profile.
    - apply harmless_settings.
    - apply harmless_manage. intros Es Ev. exists m, ss. done.
    - apply harmless_quit. }
  unfold removal_free in Hf. rewrite Hn in Hf. destruct Hf as (n2 & l2 & E & Ht2 & Hq). rewrite Hn' in E. injection E as <-.
  rewrite Ht in Ht2. apply app_inv_head in Ht2 as <-. unfold quiet in Hq. rewrite Forall_forall in Hq. exact (Hq _ Hin).
Qed.
End removal_confirmed.

(** ** Quitting *)

Section quitting.
Context `{CM : CaseMap} `{C : CryptoLib}.
Variable home : pystr.

Definition same_exit (a a' : App) : Prop := app_exited a' = app_exited a.

#[local] Instance same_exit_preorder : PreOrder same_exit.
Proof using Type. split; [by intros ?|intros ? ? ? H1 H2; unfold same_exit in *; congruence]. Qed.

Local Abbreviation stays := (moves same_exit).

Lemma stays_basic :
  (∀ A (x : A), stays (mret x)) ∧ (∀ A (f : App → A), stays (u_gets f)) ∧ (∀ A e, stays (u_raise (A := A) e)) ∧
  (∀ f, stays (u_chat f)) ∧ (∀ s, stays (push_screen s)) ∧ stays pop_screen.
Proof using Type. by split_and!. Qed.

Lemma stays_node {A} (c : M A) : stays (node_call c).
Proof using Type.
  intros a. unfold same_exit, node_call. destruct (app_node a); [|done]. destruct (c n). unfold deliver. cbn. by destruct (app_subscribed a).
Qed.
Lemma stays_disk {A} (c : IO A) : stays (disk_call c).
Proof using Type. intros a. unfold same_exit, disk_call. by destruct (c (app_disk a)). Qed.
Lemma stays_set_top s : stays (set_top s).
Proof using Type. intros a. unfold same_exit. cbn. by destruct (app_screens a). Qed.
Lemma stays_schedule : stays schedule_peer_refresh.
Proof using Type. intros a. unfold same_exit. cbn. by destruct (app_node a). Qed.
Lemma stays_refresh_with ps : stays (refresh_with ps).
Proof using Type. intros a. unfold same_exit, refresh_with. destruct (app_node a); [by rewrite set_active_eq|done]. Qed.
Lemma stays_refresh : stays refresh_peers_from_node.
Proof using Type. intros a. unfold refresh_peers_from_node. destruct (app_node a); [apply stays_refresh_with|done]. Qed.
Lemma stays_save b d : stays (save_draft b d).
Proof using Type.
  unfold save_draft. apply moves_bind; [apply _|apply stays_disk|]. intros cur. apply moves_bind; [apply _|by intros a|].
  intros [[n s] g]. apply moves_bind; [apply _|apply stays_disk|]. intros c a. unfold same_exit. cbn. by destruct (app_node a).
Qed.

Hint Resolve stays_node stays_disk stays_set_top stays_schedule stays_refresh stays_save : ui.
Hint Extern 0 => apply stays_basic : ui.

Lemma stays_later ts : stays (next_later ts).
Proof using Type.
  intros a. unfold same_exit, next_later. destruct (app_later a) as [|[p pt|p st| |m] ls]; cbn; [done| |done| |done].
  - unfold do_handle_incoming. destruct (utf8_decode true pt); [|done]. cbn. by case_bool_decide.
  - by destruct (app_node a).
Qed.

(** Every dialog but the question itself leaves the program running. *)
Lemma stays_dialogs v b now dr :
  (∀ d, stays (invite_submitted d v b now dr)) ∧ (∀ d, stays (profile_submitted home d v)) ∧
  (∀ d, stays (settings_submitted d v)) ∧ (∀ d, stays (manage_submitted d v now)).
Proof using Type.
  split_and!; intros d.
  - unfold invite_submitted, dismiss. moves_step.
  - unfold profile_submitted, store_nickname, profile_refresh, dismiss. moves_step.
  - unfold settings_submitted, dismiss. moves_step.
  - unfold manage_submitted, dismiss. moves_step.
Qed.

(** Undelivered messages are not left behind unasked.  The program ends only when no message is undelivered at the
    moment the user asks to quit, or when the user answers 1 to the question that names their number. *)
Theorem quit_is_confirmed (a a' : App) :
  app_step home a a' → app_exited a = false → app_exited a' = true →
  undelivered_count (match app_node a with Some n => n_queue n | None => [] end) = 0 ∨
  ∃ k ss v copied now dr, app_screens a = DQuit k :: ss ∧ str_strip v = str "1" ∧
    a' = (dialog_submitted home v copied now dr a).1.
Proof using Type.
  intros Hstep H0 H1. assert (same_exit a a' → False) as Hno by (unfold same_exit; congruence).
  destruct Hstep; [exfalso; apply Hno; clear Hno H1..| | |exfalso; apply Hno].
  - apply stays_later.
  - unfold worker_step. destruct (app_worker a) as [[|ps]|]; [by destruct (app_node a)| |done]. apply (stays_refresh_with ps (set_app_worker None a)).
  - unfold same_exit, select_peer. destruct (on_list_view_selected _ _) as [s [p|]]; [by rewrite set_active_eq|done].
  - done.
  - unfold message_submitted. cbv zeta. case_bool_decide; [done|]. destruct (app_node a); [|done]. destruct (app_active a); [|done].
    clear H0. revert a. match goal with |- ∀ a, same_exit a (?u a).1 => change (stays u) end. moves_step.
  - clear H0. revert a. change (stays (message_resolved p fut now ts d)). unfold message_resolved. moves_step.
  - done.
  - unfold same_exit, invite_fetched, u_modify. cbn. by repeat case_match.
  - clear H0. revert a. change (stays (action_show_profile home)). unfold action_show_profile, profile_refresh. moves_step.
  - clear H0. revert a. change (stays (action_show_settings home)). unfold action_show_settings. moves_step.
  - unfold action_manage_peer. destruct (sb_active _) as [[|b p]|]; done.
  - left. unfold action_request_quit in Hno. destruct (app_node a) as [n|]; [|done].
    destruct (Nat.leb_spec (undelivered_count (n_queue n)) 0); [lia|]. by destruct Hno.
  - destruct (stays_dialogs v copied now d) as (S1 & S2 & S3 & S4). unfold dialog_submitted in Hno.
    destruct (app_screens a) as [|[i|f|s|m|k] ss] eqn:E; [exfalso; apply Hno; done|exfalso; apply Hno..|];
      [apply S1|apply S2|apply S3|apply S4|].
    right. exists k, ss, v, copied, now, d. split; [done|]. split; [|done]. unfold quit_submitted in Hno. cbn in Hno.
    case_bool_decide; [done|]. by destruct Hno.
  - apply (stays_node c a).
Qed.
End quitting.

(** ** Examples *)

Module DialogExample.
Import AsciiCase ToyCrypto NodeExample InvExample UiExample.

(** The settings dialog after the port was changed. *)
Definition typed (vs : list pystr) (a : App) : App :=
  foldl (λ a v, (dialog_submitted base v false (secs 9) drawn a).1) a vs.
Definition settings_open : App := (action_show_settings base mounted).1.
Definition edited : App := typed [str "1"; str "4711"] settings_open.
Definition top_settings (a : App) : SettingsDialog :=
  match app_screens a with
  | DSettings d :: _ => d
  | _ => mkSettingsDialog StMenu None [] (draft_of (default_config [])) (draft_of (default_config [])) StInvalidOption
  end.

Lemma typed_run vs a : rtc (app_step base) a (typed vs a).
Proof. revert a. induction vs as [|v vs IH]; intros a; [apply rtc_refl|]. eapply rtc_l; [apply step_dialog|apply IH]. Qed.

Lemma edited_run : rtc (app_step base) mounted edited.
Proof. eapply rtc_l; [apply step_settings|]. apply (typed_run _ settings_open). Qed.

Lemma settings_always_valid_witness :
  dr_udp_port (sd_draft (top_settings edited)) = SInt 4711 ∧ draft_ok (sd_draft (top_settings edited)).
Proof.
  split; [vm_compute; reflexivity|].
  destruct (settings_always_valid base noon (Some second) (default_config base) no_files edited (top_settings edited) edited_run)
    as [H _]; [|exact H]. vm_compute. apply elem_of_cons. left. reflexivity.
Defined.

Lemma edited_draft_ok : draft_ok (sd_draft (top_settings edited)).
Proof.
  vm_compute. split_and!; [eexists; split; [reflexivity|split; discriminate]| |].
  - repeat (apply Forall_cons_2; [eexists; split; [reflexivity|discriminate]|]). constructor.
  - eexists. split; [reflexivity|]. right. left.
Qed.

Lemma settings_saved_witness :
  ∃ a', dialog_submitted base (str "7") false (secs 9) drawn edited = (a', Ok ()) ∧ app_screens a' = [] ∧
    has_changes (draft_of (app_config a')) (sd_draft (top_settings edited)) = false.
Proof.
  destruct (settings_saved base edited (default first (app_node edited)) (top_settings edited) [] (default_config base)
    (load_config base (app_disk edited)).1 (str "7") false (secs 9) drawn) as (a' & H1 & H2 & _ & H3 & _).
  - vm_compute. reflexivity.
  - vm_compute. reflexivity.
  - vm_compute. reflexivity.
  - exact edited_draft_ok.
  - vm_compute. reflexivity.
  - split; [cbn; lia|]. split; [reflexivity|constructor].
  - reflexivity.
  - exists a'. split; [exact H1|]. split; [exact H2|exact H3].
Defined.

(** Thirty-three letters typed as a nickname. *)
Definition long_name : pystr := replicate 33 97%Z.
Definition profile_open : App := typed [str "1"] (action_show_profile base mounted).1.

Lemma long_nickname_locks_out_witness :
  ∃ a', dialog_submitted base long_name false (secs 9) drawn profile_open = (a', Ok ()) ∧
    (load_config base (app_disk a')).2 = Raise ValueError.
Proof.
  destruct (long_nickname_locks_out base profile_open (mkProfileDialog PfSetNick PfPrompt) [] (default_config base)
    (load_config base (app_disk profile_open)).1 long_name false (secs 9) drawn) as (a' & H1 & _ & H2 & _).
  - vm_compute. reflexivity.
  - reflexivity.
  - vm_compute. reflexivity.
  - exists 9000%Z, 500%Z, 50%Z, 100%Z, 3%Z. split; [exact (default_renderable base)|].
    split; [lia|]. split; [repeat constructor; lia|]. split; [cbn; lia|]. split; [reflexivity|constructor].
  - vm_compute. lia.
  - apply (bool_decide_unpack _). by vm_compute.
  - exists a'. split; [exact H1|exact H2].
Defined.

(** Removing Bob. *)
Definition asked : App := typed [str "3"] (action_manage_peer noon mounted).1.
Definition removed : App := typed [str "DELETE"] asked.
Definition node_of (a : App) : node := default first (app_node a).

Lemma removal_needs_confirmation_witness :
  EvDb (DbRemovePeer contact) ∈ n_trace (node_of removed) ∧
  ∃ d ss, app_screens asked = DManage d :: ss ∧ pm_state d = PmDelete ∧ pm_peer_id d = contact.
Proof.
  set (l := drop (length (n_trace (node_of asked))) (n_trace (node_of removed))).
  assert (EvDb (DbRemovePeer contact) ∈ l) as Hl by (vm_compute; apply elem_of_cons; left; reflexivity).
  split; [rewrite <- (take_drop (length (n_trace (node_of asked))) (n_trace (node_of removed))); apply elem_of_app; right; exact Hl|].
  destruct (removal_needs_confirmation base asked (node_of asked) (node_of removed) l (str "DELETE") false (secs 9) drawn contact)
    as (d & ss & H1 & H2 & _ & H3).
  - vm_compute. reflexivity.
  - vm_compute. reflexivity.
  - vm_compute. reflexivity.
  - exact Hl.
  - exists d, ss. split; [exact H1|]. split; [exact H2|exact H3].
Defined.

(** An answered question, and a program with nothing to deliver. *)
Definition quitting : App := set_app_screens [DQuit 1] mounted.

Lemma quit_is_confirmed_witness :
  app_exited (typed [str "1"] quitting) = true ∧
  (undelivered_count (n_queue (node_of quitting)) = 0 ∨ ∃ k ss, app_screens quitting = DQuit k :: ss).
Proof.
  split; [vm_compute; reflexivity|].
  destruct (quit_is_confirmed base quitting (typed [str "1"] quitting)) as [H|(k & ss & _ & _ & _ & _ & H & _)].
  - apply step_dialog.
  - vm_compute. reflexivity.
  - vm_compute. reflexivity.
  - left. exact H.
  - right. exists k, ss. exact H.
Defined.
End DialogExample.
