(* ===== verification/Startup.v ===== *)
(** * Starting and stopping the program (main.py, [Node.start])

    The configuration is loaded, then the log is set up, then the node starts on its identity, its database and a socket,
    with its background loops; the application mounts and shows the contacts.  [sql], [logs] and [outbox] are the files the
    node finds under its data directories, [key] is the key drawn if there is no identity yet, [bind] says which addresses
    are free. *)

From S2P Require Import Prelude Bytes PyDict PyText PyCase Disk Toml Config Logging Crypto IdentityFiles Session QueueManager Overlay.
From S2P Require Import PeerState Storage Schema LogFiles NodeState Node NodeExchange NodePeers NodeInv Transport Lifecycle.
From S2P Require Import Sidebar ChatView UiState UiApp UiProps.

Section startup.
Context `{CM : CaseMap} `{C : CryptoLib} `{P : PemLib}.

(** [Node(config)] and [start()] with the identity [me] *)
Definition start_node (config : AshiChatConfig) (me : LocalIdentity) (sql : sql_db) (logs outbox : files) (now : seconds)
    (nonce : pystr → bytes) (shuffle1 : list PeerEntry → list PeerEntry) (shuffle2 : list bytes → list bytes)
    (bind : endpoint → bool) : result runtime :=
  port ← scalar_int (udp_port (cfg_network config));
  k ← scalar_int (overlay_k (cfg_network config));
  limit ← scalar_int (message_log_limit_mb (cfg_storage config));
  rotations ← scalar_int (max_log_rotations (cfg_storage config));
  match database_of (initialize sql) with
  | None => Raise Unmodelled
  | Some db =>
      let '(rt, r) := node_boot bind now nonce shuffle1 shuffle2
        (new_runtime (fresh_node me port k (new_message_log limit (Z.to_nat rotations)) db logs outbox now) ∅) in
      r ≫= λ _, Ok rt
  end.

(** The running program: the application with its node, what stands around the node, and the root logger *)
Record program := mkProgram { pg_app : App; pg_runtime : runtime; pg_log : logger }.

(** [main()] up to the running application; the root logger is [root] before *)
Definition start_app (root : logger) (base : pystr) (key : bytes) (sql : sql_db) (logs outbox : files) (now : seconds)
    (ts : pystr) (nonce : pystr → bytes) (shuffle1 : list PeerEntry → list PeerEntry) (shuffle2 : list bytes → list bytes)
    (bind : endpoint → bool) : IO program :=
  config ← load_config base;
  log ← setup_logging root config;
  me ← load_or_generate_identity (cfg_base_dir config) key;
  rt ← io_lift (start_node config me sql logs outbox now nonce shuffle1 shuffle2 bind);
  ((λ d, (d, Ok (mkProgram (app_on_mount ts (new_app (Some (rt_node rt)) config d)).1 rt log))) : IO program).

(** [main()], its [finally]: the node, as the application left it, is stopped *)
Definition stop_app (now : seconds) (pg : program) : program :=
  match app_node (pg_app pg) with
  | Some n =>
      let rt := (node_shutdown now (set_rt_node n (pg_runtime pg))).1 in
      mkProgram (set_app_node (Some (rt_node rt)) (pg_app pg)) rt (pg_log pg)
  | None => pg
  end.

(** ** What the list shows after the start *)

(** Distinct rows are entered one after the other. *)
Lemma replace_rows (rows : list peer_row) (d : dict bytes peer_info) :
  NoDup (row_peer_id <$> rows) → (∀ r, r ∈ rows → row_peer_id r ∉ d.*1) →
  foldl (λ d r, dset d (row_peer_id r) (row_info r)) d rows = d ++ ((λ r, (row_peer_id r, row_info r)) <$> rows).
Proof using Type.
  revert d. induction rows as [|r rows IH]; intros d Hnd Hd; cbn; [by rewrite app_nil_r|].
  apply NoDup_cons in Hnd as [Hr Hnd]. rewrite dset_absent by (apply Hd; set_solver). rewrite IH; [by rewrite <- app_assoc|done|].
  intros r' Hin. rewrite fmap_app. cbn. rewrite not_elem_of_app, list_elem_of_singleton. split; [apply Hd; set_solver|].
  intros E. apply Hr. rewrite <- E. by apply list_elem_of_fmap_2.
Qed.

Lemma mounted_list ts n c d :
  db_wf (n_db n) →
  let a := (app_on_mount ts (new_app (Some n) c d)).1 in
  (sb_peers (app_sidebar a)).*1 = (db_peers (n_db n)).*1 ∧
  (∃ n', app_node a = Some n' ∧ n_identity n' = n_identity n) ∧ app_config a = c ∧
  app_active a = head (db_peers (n_db n)).*1.
Proof using Type.
  intros Hdb. unfold app_on_mount, new_app. cbv zeta. cbn [app_node app_chat app_sidebar set_app_chat set_app_sidebar].
  unfold refresh_peers_from_node, refresh_with. cbn [app_node set_app_subscribed set_app_node app_sidebar].
  set (n1 := set_n_peer_states _ n). set (rows := peer_row_of n1 <$> _).
  assert (row_peer_id <$> rows = (db_peers (n_db n)).*1) as Hids.
  { unfold rows. rewrite <- all_peers_keys by done. by rewrite <- list_fmap_compose. }
  set (s := replace_peers rows _).
  assert (sb_peers s = (λ r, (row_peer_id r, row_info r)) <$> rows ∧ sb_active s = head (db_peers (n_db n)).*1) as [Hp Ha].
  { unfold s, replace_peers. cbv zeta. rewrite replace_rows; [|rewrite Hids; apply Hdb|intros r _ Hin; by apply elem_of_nil in Hin].
    cbn [app]. split; [by rewrite (proj1 (refresh_list_peers _))|]. rewrite (proj2 (refresh_list_peers _)). cbn.
    unfold first_peer. rewrite <- list_fmap_compose. by rewrite <- Hids. }
  clearbody s rows. rewrite set_active_eq. cbn. split_and!; [|by eexists|done|by rewrite Ha].
  rewrite <- Hids. destruct (sb_active s) as [[|b q]|]; [|rewrite (proj1 (proj2 (clear_unread_frame (b :: q) s)))|].
  all: rewrite Hp, <- list_fmap_compose; done.
Qed.

Lemma priv_log_ne base : priv_path base ≠ debug_log_path base.
Proof using Type.
  unfold priv_path, identity_dir, debug_log_path, path_join. rewrite <- app_assoc.
  intros H%app_inv_head. apply (app_inj_1 [47%Z] [47%Z]) in H as [_ H]; [|done]. discriminate H.
Qed.

(** C12: The program comes up with what was stored and closes its loops, socket and database.  On a directory whose configuration can be read,
    with the private key of an identity and a database (of this or an earlier version, well formed) in it, and with a free
    port, the program starts: it logs to its file only, runs with this configuration and identity, its background loops
    each run once, it lists exactly the stored contacts, in their order, and selects the first of them; no file but the
    debug log was touched.  When the application ends, whatever its node has become by then, as long as it is well formed,
    the three loops and the heartbeats have ended and the socket and the database are closed; HELLO retries that are under
    way are left to run. *)
Theorem start_restores `{L : !PemLaws P} `{CL : !CaseLaws CM} (root : logger) (base : pystr) (key : bytes) (sql : sql_db)
    (logs outbox : files) (now : seconds) (ts : pystr) (nonce : pystr → bytes)
    (shuffle1 : list PeerEntry → list PeerEntry) (shuffle2 : list bytes → list bytes) (bind : endpoint → bool)
    (d d0 : disk) (c : AshiChatConfig) (i : LocalIdentity) (db : database) :
  load_config base d = (d0, Ok c) → identity_wf i → holds_identity base i d0 →
  old_database sql → database_of sql = Some db → db_wf db →
  (∀ m qr, dget (db_queue db) m = Some qr → ∃ bs, utf8_encode m = Ok bs) →
  (∀ ep, bind ep = true) →
  ∃ d1 pg n level local,
    start_app root base key sql logs outbox now ts nonce shuffle1 shuffle2 bind d = (d1, Ok pg) ∧
    (∀ q, q ≠ debug_log_path base → dk_files d1 !! q = dk_files d0 !! q) ∧
    pg_log pg = mkLogger [RotatingFileHandler (debug_log_path base) MAX_BYTES BACKUP_COUNT] level ∧
    runtime_up local (pg_runtime pg) ∧
    app_node (pg_app pg) = Some n ∧ n_identity n = i ∧ app_config (pg_app pg) = c ∧
    (sb_peers (app_sidebar (pg_app pg))).*1 = (db_peers db).*1 ∧ app_active (pg_app pg) = head (db_peers db).*1 ∧
    ∀ a' n' t, app_node a' = Some n' → node_ok n' →
      let rt := pg_runtime (stop_app t (mkProgram a' (pg_runtime pg) (pg_log pg))) in
      runtime_down rt ∧ n_hello_loops (rt_node rt) = n_hello_loops n'.
Proof using Type.
  intros Hl Hi Hheld Hold Hof Hdb Hids Hbind. unfold start_app. rewrite (io_bind_ok _ _ _ _ _ Hl).
  destruct (setup_spec base d d0 c root Hl) as (d1 & level & El & _ & _ & _ & Hq). rewrite (io_bind_ok _ _ _ _ _ El).
  pose proof (load_outcome base d) as Ht. rewrite Hl in Ht. destruct Ht as [((p & Hport & _) & Hn & _) Hbase].
  rewrite !Forall_cons in Hn. destruct Hn as (_ & (k & Hk & _) & (l & Hlim & _) & (r & Hr & _) & _).
  assert (load_or_generate_identity (cfg_base_dir c) key d1 = (d1, Ok i)) as Hid.
  { unfold load_or_generate_identity. rewrite Hbase. rewrite (load_identity_held base i d1 Hi); [done|].
    unfold holds_identity, contents in *. by rewrite Hq by apply priv_log_ne. }
  rewrite (io_bind_ok _ _ _ _ _ Hid).
  destruct (node_start_ok i p k (new_message_log l (Z.to_nat r)) db logs outbox now now nonce shuffle1 shuffle2 Hdb Hids)
    as (n & En & _ & Hni & Hpeers & _).
  destruct (boot_up bind now nonce shuffle1 shuffle2 _ n ∅ En (Hbind _)) as (rt & Eb & Hrt & Hup).
  assert (start_node c i sql logs outbox now nonce shuffle1 shuffle2 bind = Ok rt) as Es.
  { unfold start_node. rewrite Hport, Hk, Hlim, Hr. cbn [mbind result_bind].
    rewrite (initialize_keeps sql Hold), Hof, Eb. done. }
  rewrite io_bind_eq. unfold io_lift. rewrite Es, Hrt.
  assert (db_wf (n_db n)) as Hdbn.
  { pose proof (proj1 (ev_start now nonce shuffle1 shuffle2
      (fresh_node i p k (new_message_log l (Z.to_nat r)) db logs outbox now))) as Hev.
    rewrite En in Hev. by apply nk_db, Hev, fresh_node_ok. }
  destruct (mounted_list ts n c d1 Hdbn) as (H1 & (n' & H2 & H3) & H4 & H5). rewrite Hpeers in H1, H5.
  eexists d1, _, n', level, _. split; [reflexivity|]. cbn [pg_app pg_runtime pg_log].
  split_and!; [exact Hq|done|exact Hup|exact H2|congruence|exact H4|exact H1|exact H5|].
  intros a' n2 t Ha Hok. cbv zeta. unfold stop_app. cbn [pg_app pg_runtime pg_log]. rewrite Ha.
  destruct (shutdown_down _ t (set_rt_node n2 rt) (up_node _ _ n2 Hup) Hok) as (rt3 & E3 & Hdown & Hl' & _). by rewrite E3.
Qed.
End startup.

(** ** Example *)

Module StartupExample.
Import AsciiCase ToyCrypto IdentityExample SchemaExample.

Definition me : LocalIdentity := generate_identity (be_encode 32 5).

(** A directory with the key in it, and no configuration yet. *)
Definition with_key : disk := (load_or_generate_identity home (be_encode 32 5) blank).1.

Lemma start_restores_witness :
  ∃ d1 pg n, start_app (mkLogger [StreamHandler] 30) home (be_encode 32 6) old ∅ ∅ (secs 9) (str "12:00") (λ _, be_encode 12 1)
      id id (λ _, true) with_key = (d1, Ok pg) ∧
    app_node (pg_app pg) = Some n ∧ n_identity n = me ∧ app_active (pg_app pg) = Some (be_encode 4 1).
Proof.
  destruct (start_restores (mkLogger [StreamHandler] 30) home (be_encode 32 6) old ∅ ∅ (secs 9) (str "12:00")
    (λ _, be_encode 12 1) id id (λ _, true) with_key (load_config home with_key).1 (default_config home) me
    (mkDb [(be_encode 4 1, mkPeerRecord (be_encode 4 1) (be_encode 4 2) None 3 (Some (secs 5)) (Some (str "Ann")) false None)]
       [] [] None)) as (d1 & pg & n & level & local & H1 & _ & _ & _ & H2 & H3 & _ & _ & H4 & _).
  - vm_compute. reflexivity.
  - split; reflexivity.
  - vm_compute. reflexivity.
  - exact old_is_old.
  - reflexivity.
  - split; cbn; try (apply (bool_decide_unpack _); vm_compute; exact I); intros k r Hin;
      rewrite ?elem_of_cons, ?elem_of_nil in Hin; naive_solver.
  - intros m qr H. discriminate H.
  - reflexivity.
  - exists d1, pg, n. split; [exact H1|]. split; [exact H2|]. split; [exact H3|exact H4].
Defined.
End StartupExample.
